(* ===== verification/_CoqProject ===== *)
-Q . S2P
Prelude.v
Osmocom.v
Crypto.v
Base64.v
Utils.v
DataObjects.v
Bsp.v
X509.v
Esim.v
Rsp.v
Es8p.v
Eid.v
Smdpp.v
SmdppProps.v
Construct.v
Filesystem.v
Sms.v
Ota.v
Scp.v
Transport.v
Commands.v
Cards.v
Runtime.v
Navigation.v
Oid.v
Templates.v
TemplateData.v
SaipFile.v
SaipTree.v
SaipElements.v
SaipSequence.v
SaipSequenceProps.v
SaipDer.v
SaipKeys.v
SaipPersonal.v
SaipValidation.v
