(* ===== verification/Prelude.v ===== *)
(** * A verification library for the virtual RSP stack

    The repository is a remote SIM provisioning test bench: the SM-DP+ server
    osmo-smdpp.py on top of the Python library pySim (src/pysim/pySim), which
    holds the eSIM protocols (pySim/esim), the GlobalPlatform secure channels,
    and everything a terminal needs to talk to a card: transport, commands,
    the model of the card's file system and the state of a session with it.
    This library models that Python code and proves what makes it correct.

    ** Reading guide

    Every file models the code it names; a definition has the name of the
    method it translates. Python objects are records, methods are
    computations of the state-and-exception monad [M] of this file (or of
    [result] when they change nothing), so that a method that raises keeps
    the changes it has made before; exceptions are the constructors of [exn].
    Bytes are lists of integers, strings lists of characters, integers are
    unbounded as in Python and cut where the code cuts them. Library code
    (cryptography, asn1tools, construct, osmocom.utils and osmocom.tlv) is a
    class of operations with a class of the documented laws; each has an
    instance, which the concrete runs ([...Run] modules) use.

    - [Prelude]: Python values, exceptions, monads, strings and numbers, and
      the automation shared by all files.
    - [Osmocom], [Crypto], [Base64], [Construct]: the library interfaces;
      [Construct] has the declarations of the construct library as data and
      the theorem that a well-formed declaration parses what it builds.

    eSIM (src/pysim/osmo-smdpp.py and pySim/esim):
    - [Bsp] (bsp.py): the BPP protection protocol; segmentation, encryption
      and MAC chaining on both sides.
    - [Es8p] (es8p.py): unprotected, protected and bound profile packages.
    - [X509] (x509_cert.py): certificate chains and signatures.
    - [Rsp] (rsp.py): sessions, their pickling and the store.
    - [Esim] (esim/__init__.py): activation codes, management operations.
    - [Eid], [Smdpp], [SmdppProps] (osmo-smdpp.py): the OID decoder and EID
      ranges; the server's state and its handlers; their properties. A
      handler calls [X509] for the eUICC's chain, [Es8p] and through it [Bsp]
      for the bound package, and keeps its sessions in the store of [Rsp].

    eSIM profiles (pySim/esim/saip):
    - [Oid], [Templates], [TemplateData] (oid.py, templates.py): identifiers,
      templates of files and of file systems, every table of the module.
    - [SaipFile], [SaipTree] (__init__.py): one file of a profile and its
      encoding; the tree its nodes form.
    - [SaipElements], [SaipKeys]: the classes of profile elements, what a new
      element holds and the methods that edit it; the keys of a security
      domain.
    - [SaipSequence], [SaipSequenceProps], [SaipDer]: the sequence of elements
      with its indexes, the files its elements put into the tree, adding and
      removing elements, encoding and decoding. A sequence holds the objects
      of [SaipElements] and one tree of [SaipTree]; elements name theirs by
      position.
    - [SaipPersonal], [SaipValidation] (personalization.py, validation.py):
      the parameters of a subscriber, the checks of a finished profile.

    Card side (pySim):
    - [Utils], [DataObjects] (utils.py): number codecs, status words, APDUs;
      data objects, ATR, command sets.
    - [Transport] (transport/__init__.py): T=0 and proactive commands.
    - [Commands] (commands.py, secure_channel.py): card commands on a link.
    - [Scp] (global_platform/scp.py): SCP02 and SCP03.
    - [Filesystem] (filesystem.py): the heap of [CardFile] objects, its tree
      invariant, paths, selectables.
    - [Cards] (cards.py): applications of a card, on top of [Commands].
    - [Runtime] (runtime.py): sessions and logical channels, on top of
      [Filesystem], [Commands] and [Cards].
    - [Navigation]: what a card promises about SELECT (the class [FileCard])
      and the proof that a channel of [Runtime] follows the card.
    - [Sms], [Ota] (sms.py, ota.py): SMS transfer PDUs and secured packets.

    ** What the theorems show

    - Server: every handler checks certificates, signatures, challenges and
      identifiers before it changes anything, and a rejected request changes
      nothing ([authenticateClient_spec], [getBoundProfilePackage_spec],
      [handleNotification_spec], [cancelSession_spec]); the stored sessions
      satisfy an invariant in every reachable state ([sessions_invariant]).
    - Profile protection: the eUICC recovers every message and the profile
      ([bsp_session_round_trip], [bpp_round_trip]); segments are accepted
      exactly when their MAC is right ([verify_decides]).
    - Secure channels: host and card stay in step through any SCP03 session
      ([scp03_handshake], [scp03_session]).
    - Card access: T=0 gives exactly the answer of the command
      ([send_apdu_T0_transparent]); chunked reads and writes touch exactly
      the range asked for; the tree of files stays well formed
      ([built_wf]); a path between two files always exists and can be walked
      ([build_select_path_to_spec]); selecting a name or path is all or
      nothing and leaves channel and card at the same file
      ([select_refines]).
    - Profiles: a file is read back as it was written ([file_round_trip]); the
      tree stays well formed while it grows and its walks end
      ([node_add_file_spec], [tree_walks_end]); adding an element to a sequence
      is an insertion into a list that keeps numbers and index in order
      ([addition_refines]); what was encoded is decoded ([to_der_parse_der],
      [sd_round_trip]); personalization sets what it names and nothing else
      ([iccid_apply_spec], [imsi_apply_spec], [pin_set_spec]), the keys of a
      security domain excepted ([sd_key_not_encoded]); the check of a profile
      decides its structure ([check_spec]).
    - Codecs: round trips and rejection of malformed input.

    Where the code does not do what it means to, the theorem states what it
    does; the name then says so ([encrypt_and_mac_exceeds_segment],
    [parent_argument_raises], [NavLimits.stale_adf], ...).

    ** Fuel

    A loop that the code leaves unbounded takes fuel, and [OutOfFuel] is the
    result when it is used up. Each such loop has a theorem or lemma that a
    stated amount is enough: one step per byte or per chunk for parsers and
    chunked transfers, the number of objects for walks along a tree
    ([fully_qualified_path_fobj_ok], [_has_service_total]), three levels for
    [select] ([select_refines]), the depth limit for certificate chains, the
    number of nodes for the tree of a profile ([tree_walks_end]), the bytes of
    a profile for its decoder ([parse_der_splits]).
    Where the card decides how long a loop runs (GET RESPONSE, retrieve data)
    the theorem takes a card that ends it.

    ** Not modelled

    The user interface (cmd2 shells, Qt front ends, command line tools),
    sockets, HTTP routing, reader drivers and log tools are I/O. The ASN.1
    codecs and the profile element codec are generated from schemas by
    asn1tools and enter as parameters. Of the profile elements, reading an
    application from a file and writing it (archives) and printing are left
    out; of their decoding the round trip covers elements without files and
    keys, [SaipKeys] adds the keys and [SaipFile] single files. The classes of TLV data objects and
    most file classes of the 3GPP and ETSI specifications (ts_*.py, cat.py,
    euicc.py, ara_m.py, global_platform) are declarations interpreted by the
    construct and osmocom.tlv libraries; [Construct] has the theory for them
    but only the declarations of [Sms] and [Ota] are translated. The legacy
    card classes are scripts of commands for single products. lpac and
    v-euicc are C programs.

    ** Plan

    Next: more declarations on [Construct], the codecs of legacy/utils.py,
    the APDU decoder. *)

From Stdlib Require Export ZArith Lia Ascii String.
From stdpp Require Export base list list_numbers strings gmap fin_maps numbers.
From Stdlib Require Import ZifyNat.

#[global] Open Scope Z_scope.

(** ** Python values

    A Python [bytes] object is a list of integers; [is_bytes] says that
    every element is in range(256), which Python's own constructor enforces
    (see [bytes_of_ints]). A Python [str] is a list of characters; the
    coercion below lets a string literal stand for it. *)

Abbreviation bytes := (list Z).
Abbreviation str := (list ascii).

Definition lit (s : string) : str := String.list_ascii_of_string s.
Coercion lit : string >-> list.

Definition is_byte (b : Z) : Prop := 0 <= b < 256.
Definition is_bytes (bs : bytes) : Prop := Forall is_byte bs.

#[export] Instance is_byte_dec b : Decision (is_byte b).
Proof. unfold is_byte. apply _. Defined.

#[export] Instance is_bytes_dec bs : Decision (is_bytes bs).
Proof. unfold is_bytes. apply _. Defined.

(** Python's [len], as an unbounded integer. *)
Definition len {A} (l : list A) : Z := Z.of_nat (length l).

(** ** Exceptions

    One constructor per Python exception class the modelled code raises,
    lets through or catches. Messages are log text and are left out; the
    payload kept is what other code reads back. [LibError] is an exception
    of a third-party library, by the name of its class. [OutOfFuel] is not
    a Python exception: a loop the code leaves unbounded returns it when the
    fuel given to the model is used up. *)
Inductive exn :=
| ValueError | TypeError | IndexError | KeyError | AttributeError
| AssertionError | OverflowError | UnboundLocalError | ZeroDivisionError
| NotImplementedError | RuntimeError | ExceptionError
| SwMatchError (sw_actual sw_expected : str)
| ApiError (subject_code reason_code : str)
| VerifyError | ProfileError | FileError | OtaCheckError
| LibError (name : string)
| OutOfFuel.

#[export] Instance exn_eq_dec : EqDecision exn.
Proof. solve_decision. Defined.

(** ** Results and the state-and-exception monad

    A call that may raise is a [result]. A method that also changes the
    state of its object (or of the card, the store, ...) is an [M]: when it
    raises, the changes made before the exception stay, as in Python. *)
Inductive result (A : Type) :=
| Ok (a : A)
| Err (e : exn).
Arguments Ok {A} _.
Arguments Err {A} _.

#[export] Instance result_eq_dec `{EqDecision A} : EqDecision (result A).
Proof. solve_decision. Defined.

#[export] Instance result_ret : MRet result := @Ok.
#[export] Instance result_bind : MBind result := λ A B f r,
  match r with Ok a => f a | Err e => Err e end.
#[export] Instance result_fmap : FMap result := λ A B f r,
  match r with Ok a => Ok (f a) | Err e => Err e end.

(** [guard_else P e]: raise [e] unless [P] holds. *)
Definition guard_else (b : bool) (e : exn) : result unit :=
  if b then Ok () else Err e.

Definition assert_ (b : bool) : result unit := guard_else b AssertionError.

Definition from_opt {A} (e : exn) (o : option A) : result A :=
  match o with Some a => Ok a | None => Err e end.

Definition M (S A : Type) : Type := S → result A * S.

#[export] Instance M_ret {S} : MRet (M S) := λ A a s, (Ok a, s).
#[export] Instance M_bind {S} : MBind (M S) := λ A B f m s,
  match m s with
  | (Ok a, s') => f a s'
  | (Err e, s') => (Err e, s')
  end.

Definition raise {S A} (e : exn) : M S A := λ s, (Err e, s).
Definition get {S} : M S S := λ s, (Ok s, s).
Definition put {S} (s : S) : M S unit := λ _, (Ok (), s).
Definition gets {S A} (f : S → A) : M S A := λ s, (Ok (f s), s).
Definition modify {S} (f : S → S) : M S unit := λ s, (Ok (), f s).
Definition lift {S A} (r : result A) : M S A := λ s, (r, s).
(** [try: m except: h] *)
Definition catch {S A} (m : M S A) (h : exn → M S A) : M S A := λ s,
  match m s with
  | (Ok a, s') => (Ok a, s')
  | (Err e, s') => h e s'
  end.
(** Run a computation on a part of the state. *)
Definition zoom {S T A} (g : S → T) (p : T → S → S) (m : M T A) : M S A := λ s,
  let '(r, t) := m (g s) in (r, p t s).

(** [mapM_]/[for] over a list, left to right. *)
Fixpoint for_each {S A} (l : list A) (f : A → M S unit) : M S unit :=
  match l with
  | [] => mret ()
  | x :: l' => f x ;; for_each l' f
  end.

Fixpoint map_m {S A B} (f : A → M S B) (l : list A) : M S (list B) :=
  match l with
  | [] => mret []
  | x :: l' => y ← f x; ys ← map_m f l'; mret (y :: ys)
  end.

Fixpoint map_r {A B} (f : A → result B) (l : list A) : result (list B) :=
  match l with
  | [] => Ok []
  | x :: l' => y ← f x; ys ← map_r f l'; Ok (y :: ys)
  end.

(** ** Sequences: indexing and slicing *)

(** [l[i]] for a literal index [i >= 0]. *)
Definition idx {A} (l : list A) (i : nat) : result A := from_opt IndexError (l !! i).

(** [l[i]] for an integer index, negative ones counted from the end. *)
Definition zidx {A} (l : list A) (i : Z) : result A :=
  if bool_decide (0 <= i) then idx l (Z.to_nat i)
  else if bool_decide (0 <= len l + i) then idx l (Z.to_nat (len l + i))
  else Err IndexError.

(** [l[a:b]] for 0 <= a: clipped at the end of the list. *)
Definition slice {A} (a b : nat) (l : list A) : list A := take (b - a) (drop a l).

(** [l[:-n]] and [l[-n:]] for n > 0. *)
Definition but_last {A} (n : nat) (l : list A) : list A := take (length l - n) l.
Definition last_n {A} (n : nat) (l : list A) : list A := drop (length l - n) l.

(** [l[i::step]] with the step given as [S k]. *)
Fixpoint every {A} (k skip : nat) (l : list A) : list A :=
  match l with
  | [] => []
  | x :: l' => match skip with
               | O => x :: every k k l'
               | S n => every k n l'
               end
  end.

(** [l * n] *)
Definition repeat_list {A} (n : nat) (l : list A) : list A := concat (replicate n l).

(** ** Integers and bytes *)

(** [bytes([...])] raises ValueError when an element is not in range(256). *)
Definition bytes_of_ints (l : list Z) : result bytes :=
  if bool_decide (is_bytes l) then Ok l else Err ValueError.

Fixpoint be (n : nat) (z : Z) : bytes :=
  match n with
  | O => []
  | S n' => be n' (z / 256) ++ [z mod 256]
  end.

(** [z.to_bytes(n, 'big')] *)
Definition to_bytes (n : nat) (z : Z) : result bytes :=
  if bool_decide (0 <= z < 256 ^ Z.of_nat n) then Ok (be n z) else Err OverflowError.

(** [int.from_bytes(bs, 'big')] *)
Definition from_bytes (bs : bytes) : Z := foldl (λ a b, a * 256 + b) 0 bs.

(** Is bit number [i] of [z] set, as in [z & (1 << i)]. *)
Definition bit (z : Z) (i : Z) : bool := Z.testbit z i.

(** Truth value of an integer. *)
Definition truthy (z : Z) : bool := negb (z =? 0).

(** ** Characters and strings *)

Definition code (c : ascii) : Z := Z.of_N (N_of_ascii c).
Definition chr (z : Z) : ascii := ascii_of_N (Z.to_N z).

Definition in_range (lo hi : Z) (c : ascii) : bool := (lo <=? code c) && (code c <=? hi).
Definition is_digit (c : ascii) : bool := in_range 48 57 c.
Definition is_upper (c : ascii) : bool := in_range 65 90 c.
Definition is_lower (c : ascii) : bool := in_range 97 122 c.
Definition is_alnum (c : ascii) : bool := is_digit c || is_upper c || is_lower c.
(** ASCII whitespace, as [str.strip] and [bytes.fromhex] take it. *)
Definition is_space (c : ascii) : bool := in_range 9 13 c || (code c =? 32).

Definition lower1 (c : ascii) : ascii := if is_upper c then chr (code c + 32) else c.
Definition upper1 (c : ascii) : ascii := if is_lower c then chr (code c - 32) else c.
Definition str_lower : str → str := map lower1.
Definition str_upper : str → str := map upper1.

Fixpoint drop_while {A} (p : A → bool) (l : list A) : list A :=
  match l with
  | [] => []
  | x :: l' => if p x then drop_while p l' else l
  end.
Definition drop_while_end {A} (p : A → bool) (l : list A) : list A :=
  rev (drop_while p (rev l)).

(** [s.strip()], [s.rstrip(c)], [s.strip(c)] for a one-character [c]. *)
Definition strip (s : str) : str := drop_while_end is_space (drop_while is_space s).
Definition is_char (c d : ascii) : bool := Ascii.eqb c d.
Definition rstrip_c (c : ascii) : str → str := drop_while_end (is_char c).
Definition strip_c (c : ascii) (s : str) : str := drop_while_end (is_char c) (drop_while (is_char c) s).

Fixpoint prefix_of (p s : str) : bool :=
  match p, s with
  | [], _ => true
  | a :: p', b :: s' => Ascii.eqb a b && prefix_of p' s'
  | _, _ => false
  end.
Definition startswith (s p : str) : bool := prefix_of p s.
Definition endswith (s p : str) : bool := prefix_of (rev p) (rev s).

(** [sub in s] *)
Fixpoint str_in (sub s : str) : bool :=
  prefix_of sub s || match s with [] => false | _ :: s' => str_in sub s' end.

(** [s.split(c)] for a one-character separator: never the empty list. *)
Fixpoint split_on (c : ascii) (s : str) : list str :=
  match s with
  | [] => [[]]
  | d :: s' =>
      let r := split_on c s' in
      if Ascii.eqb c d then [] :: r
      else match r with w :: ws => (d :: w) :: ws | [] => [[d]] end
  end.

(** [sep.join(l)] *)
Fixpoint join (sep : str) (l : list str) : str :=
  match l with
  | [] => []
  | [w] => w
  | w :: ws => w ++ sep ++ join sep ws
  end.

(** [s.replace(c, r)] for a one-character [c]. *)
Definition replace_c (c : ascii) (r : str) (s : str) : str :=
  concat (map (λ d, if Ascii.eqb c d then r else [d]) s).

(** ** Number formatting and parsing *)

Definition hexdig (z : Z) : ascii := if z <? 10 then chr (48 + z) else chr (87 + z).

(** The value of a digit of [int(s, 16)], either case. *)
Definition hexval (c : ascii) : option Z :=
  if is_digit c then Some (code c - 48)
  else if in_range 97 102 c then Some (code c - 87)
  else if in_range 65 70 c then Some (code c - 55)
  else None.

Fixpoint digits (fuel : nat) (b : Z) (z : Z) : str :=
  if z <? b then [hexdig z]
  else match fuel with
       | O => []
       | S n => digits n b (z / b) ++ [hexdig (z mod b)]
       end.

Definition digits_of (b z : Z) : str := digits (Z.to_nat (Z.log2 z)) b z.

Definition zfill (w : nat) (s : str) : str := replicate (w - length s) "0"%char ++ s.

(** ['%0wx' % z], ['%0wX' % z] and ['%0wd' % z]: at least [w] characters, a
    minus sign before the padding. *)
Definition fmt_base (b : Z) (w : nat) (z : Z) : str :=
  if z <? 0 then "-"%char :: zfill (w - 1) (digits_of b (- z)) else zfill w (digits_of b z).
Definition fmt_x : nat → Z → str := fmt_base 16.
Definition fmt_X (w : nat) (z : Z) : str := str_upper (fmt_base 16 w z).
Definition fmt_d : nat → Z → str := fmt_base 10.
(** [str(z)] *)
Definition str_of_int (z : Z) : str := fmt_d 0 z.

(** Exactly [w] hexadecimal digits, most significant first. *)
Fixpoint hexw (w : nat) (z : Z) : str :=
  match w with
  | O => []
  | S w' => hexw w' (z / 16) ++ [hexdig (z mod 16)]
  end.

(** The digits of [int(s, b)]: at least one, single underscores between. *)
Fixpoint int_digits (b acc : Z) (s : str) : option Z :=
  match s with
  | [] => Some acc
  | c :: s' =>
      match hexval c with
      | Some d => if d <? b then int_digits b (acc * b + d) s' else None
      | None =>
          if Ascii.eqb c "_"%char then
            match s' with
            | d :: s'' => match hexval d with
                          | Some v => if v <? b then int_digits b (acc * b + v) s'' else None
                          | None => None
                          end
            | [] => None
            end
          else None
      end
  end.

Definition int_unsigned (b : Z) (s : str) : option Z :=
  match s with
  | c :: _ => if Ascii.eqb c "_"%char then None else int_digits b 0 s
  | [] => None
  end.

Definition int_prefixed (b : Z) (s : str) : option Z :=
  match s with
  | a :: x :: s' =>
      if (b =? 16) && Ascii.eqb a "0"%char && Ascii.eqb (lower1 x) "x"%char then
        match s' with
        | u :: s'' => if Ascii.eqb u "_"%char then int_unsigned b s'' else int_unsigned b s'
        | [] => None
        end
      else int_unsigned b s
  | _ => int_unsigned b s
  end.

(** [int(s, b)] of a string: surrounding whitespace, a sign, and for base 16
    a [0x] prefix are accepted; ValueError otherwise. *)
Definition py_int (b : Z) (s : str) : result Z :=
  from_opt ValueError
    (match strip s with
     | c :: s' => if Ascii.eqb c "-"%char then option_map Z.opp (int_prefixed b s')
                  else if Ascii.eqb c "+"%char then int_prefixed b s'
                  else int_prefixed b (strip s)
     | [] => None
     end).

(** [bs.hex()] *)
Definition bytes_hex (bs : bytes) : str := concat (map (hexw 2) bs).

(** [bytes.fromhex(s)]: pairs of digits, whitespace allowed between pairs. *)
Fixpoint bytes_fromhex_opt (s : str) : option bytes :=
  match s with
  | [] => Some []
  | a :: s' =>
      if is_space a then bytes_fromhex_opt s'
      else match s' with
           | [] => None
           | b :: s'' =>
               match hexval a, hexval b with
               | Some x, Some y => cons (x * 16 + y) <$> bytes_fromhex_opt s''
               | _, _ => None
               end
           end
  end.
Definition bytes_fromhex (s : str) : result bytes := from_opt ValueError (bytes_fromhex_opt s).

(** Hex text: an even number of hexadecimal digits. *)
Definition is_hexdig (c : ascii) : bool := is_digit c || in_range 97 102 c || in_range 65 70 c.
Definition is_hexstr (s : str) : Prop := Forall (λ c, is_hexdig c = true) s ∧ Nat.Even (length s).

(** ** Automation

    [sd] holds the equations of the monads and of the byte and string
    functions; [sdauto] the facts resolved by [eauto]. [inv_ok] inverts a
    successful run of a [result] computation, step by step. *)
#[global] Arguments bool_decide : simpl never.

Create Rewrite HintDb sd.
Create HintDb sdauto.

Lemma bind_ok {A B} (m : result A) (f : A → result B) b :
  (m ≫= f) = Ok b ↔ ∃ a, m = Ok a ∧ f a = Ok b.
Proof. destruct m; naive_solver. Qed.

Lemma bind_err {A B} (m : result A) (f : A → result B) e :
  (m ≫= f) = Err e ↔ m = Err e ∨ ∃ a, m = Ok a ∧ f a = Err e.
Proof. destruct m; naive_solver. Qed.

Lemma M_bind_eq {S A B} (m : M S A) (f : A → M S B) s :
  (m ≫= f) s = match m s with (Ok a, s') => f a s' | (Err e, s') => (Err e, s') end.
Proof. reflexivity. Qed.

Lemma M_bind_ok {S A B} (m : M S A) (f : A → M S B) s b s'' :
  (m ≫= f) s = (Ok b, s'') ↔ ∃ a s', m s = (Ok a, s') ∧ f a s' = (Ok b, s'').
Proof. rewrite M_bind_eq. destruct (m s) as [[a|e] s']; naive_solver. Qed.

Lemma R_bind_Ok {A B} (a : A) (f : A → result B) : (Ok a ≫= f) = f a.
Proof. reflexivity. Qed.

Lemma R_bind_Err {A B} e (f : A → result B) : (Err e ≫= f) = Err e.
Proof. reflexivity. Qed.

(** Run the monads as far as the calls in them are known. *)
Ltac mrun :=
  repeat (first [ rewrite M_bind_eq | rewrite R_bind_Ok | rewrite R_bind_Err
                | progress cbv beta iota delta
                    [lift get put gets modify raise catch zoom mret M_ret result_ret
                     assert_ guard_else from_opt] ]).

Lemma guard_else_ok b e u : guard_else b e = Ok u ↔ b = true.
Proof. destruct b, u; naive_solver. Qed.

Lemma from_opt_ok {A} e (o : option A) a : from_opt e o = Ok a ↔ o = Some a.
Proof. destruct o; naive_solver. Qed.

Ltac inv_ok :=
  repeat match goal with
  | H : (_ ≫= _) = Ok _ |- _ => apply bind_ok in H as (? & ? & ?)
  | H : (_ ≫= _) _ = (Ok _, _) |- _ => apply M_bind_ok in H as (? & ? & ? & ?)
  | H : guard_else _ _ = Ok _ |- _ => apply guard_else_ok in H
  | H : assert_ _ = Ok _ |- _ => apply guard_else_ok in H
  | H : from_opt _ _ = Ok _ |- _ => apply from_opt_ok in H
  | H : mret _ = Ok _ |- _ => injection H as H
  | H : Ok _ = Ok _ |- _ => injection H as H
  | H : Err _ = Ok _ |- _ => discriminate H
  | H : bool_decide _ = true |- _ => apply bool_decide_eq_true in H
  | H : bool_decide _ = false |- _ => apply bool_decide_eq_false in H
  end; simplify_eq.

(** Split the first [if] or [match] found in the goal. *)
Ltac split_if :=
  match goal with
  | |- context [if ?b then _ else _] => destruct b eqn:?
  end.

(** Arithmetic with division and modulus by constants. *)
Ltac dlia := Z.to_euclidean_division_equations; lia.

Lemma bool_decide_ok (P : Prop) `{Decision P} : P → bool_decide P = true.
Proof. intros. by apply bool_decide_eq_true. Qed.
#[export] Hint Resolve bool_decide_ok : sdauto.

(** ** Lists *)

Lemma len_app {A} (l k : list A) : len (l ++ k) = len l + len k.
Proof. unfold len. rewrite length_app. lia. Qed.
Lemma len_cons {A} (x : A) l : len (x :: l) = 1 + len l.
Proof. unfold len. cbn. lia. Qed.
Lemma len_nil {A} : len (@nil A) = 0.
Proof. reflexivity. Qed.
Lemma len_nonneg {A} (l : list A) : 0 <= len l.
Proof. unfold len. lia. Qed.
Lemma len_replicate {A} n (x : A) : len (replicate n x) = Z.of_nat n.
Proof. unfold len. by rewrite length_replicate. Qed.
#[export] Hint Rewrite @len_app @len_cons @len_nil @len_replicate : sd.
#[export] Hint Resolve len_nonneg : sdauto.

Lemma last_n_app {A} n (l k : list A) : length k = n → last_n n (l ++ k) = k.
Proof.
  intros <-. unfold last_n. rewrite length_app.
  replace (length l + length k - length k)%nat with (length l) by lia.
  apply drop_app_length.
Qed.

Lemma but_last_app {A} n (l k : list A) : length k = n → but_last n (l ++ k) = l.
Proof.
  intros <-. unfold but_last. rewrite length_app.
  replace (length l + length k - length k)%nat with (length l) by lia.
  apply take_app_length.
Qed.

Lemma but_last_last_n {A} n (l : list A) : but_last n l ++ last_n n l = l.
Proof. apply take_drop. Qed.

Lemma slice_app_mid {A} (p m r : list A) a b :
  length p = a → length (p ++ m) = b → slice a b (p ++ m ++ r) = m.
Proof.
  intros <- <-. unfold slice. rewrite drop_app_length, length_app.
  replace (length p + length m - length p)%nat with (length m) by lia.
  apply take_app_length.
Qed.

Lemma take_len {A} n (l : list A) : len l <= n → take (Z.to_nat n) l = l.
Proof. unfold len. intros. apply take_ge. lia. Qed.

Lemma drop_while_id {A} (p : A → bool) l :
  (∀ x, head l = Some x → p x = false) → drop_while p l = l.
Proof. destruct l as [|x l]; [done|]. intros H. cbn. by rewrite (H x). Qed.

Lemma drop_while_replicate {A} (p : A → bool) x n l :
  p x = true → drop_while p (replicate n x ++ l) = drop_while p l.
Proof. intros H. induction n; cbn; [done|]. by rewrite H. Qed.

Lemma rev_replicate {A} n (x : A) : rev (replicate n x) = replicate n x.
Proof. induction n as [|n IH]; [done|]. cbn. by rewrite IH, <- replicate_cons_app. Qed.

Lemma drop_while_end_replicate {A} (p : A → bool) x n l :
  p x = true → drop_while_end p (l ++ replicate n x) = drop_while_end p l.
Proof.
  intros H. unfold drop_while_end. f_equal. rewrite rev_app_distr.
  by rewrite rev_replicate, drop_while_replicate.
Qed.

Lemma drop_while_end_snoc_id {A} (p : A → bool) l x :
  p x = false → drop_while_end p (l ++ [x]) = l ++ [x].
Proof.
  intros H. unfold drop_while_end. rewrite rev_app_distr. cbn. rewrite H.
  cbn. by rewrite rev_involutive.
Qed.

Lemma is_bytes_app l k : is_bytes (l ++ k) ↔ is_bytes l ∧ is_bytes k.
Proof. apply Forall_app. Qed.

Lemma is_bytes_take n l : is_bytes l → is_bytes (take n l).
Proof. apply Forall_take. Qed.
Lemma is_bytes_drop n l : is_bytes l → is_bytes (drop n l).
Proof. apply Forall_drop. Qed.
Lemma is_bytes_replicate n b : is_byte b → is_bytes (replicate n b).
Proof. intros. by apply Forall_replicate. Qed.

(** Explicit byte lists. *)
Ltac bytes_tac :=
  unfold is_bytes; repeat match goal with |- Forall _ _ => constructor end; unfold is_byte; dlia.

#[export] Hint Resolve is_bytes_take is_bytes_drop is_bytes_replicate : sdauto.

(** ** Big-endian integers *)

Lemma length_be n z : length (be n z) = n.
Proof. revert z. induction n; intros; cbn; [done|]. rewrite length_app, IHn. cbn. lia. Qed.

Lemma is_bytes_be n z : is_bytes (be n z).
Proof.
  revert z. induction n; intros; cbn; [by constructor|]. apply is_bytes_app. split; [done|].
  constructor; [|done]. unfold is_byte. pose proof (Z.mod_pos_bound z 256). lia.
Qed.
#[export] Hint Resolve is_bytes_be : sdauto.

Lemma from_bytes_snoc l b : from_bytes (l ++ [b]) = from_bytes l * 256 + b.
Proof. unfold from_bytes. by rewrite foldl_app. Qed.

Lemma from_bytes_be n z : 0 <= z < 256 ^ Z.of_nat n → from_bytes (be n z) = z.
Proof.
  revert z. induction n as [|n IH]; intros z Hz.
  - change (256 ^ Z.of_nat 0) with 1 in Hz. cbn. lia.
  - cbn [be]. rewrite from_bytes_snoc, IH; [dlia|].
    rewrite Nat2Z.inj_succ, Z.pow_succ_r in Hz by lia. dlia.
Qed.

Lemma from_bytes_bound l : is_bytes l → 0 <= from_bytes l < 256 ^ len l.
Proof.
  induction l as [|b l IH] using rev_ind; [done|].
  intros [Hl Hb]%is_bytes_app. inversion Hb as [|? ? Hbb _]; subst. unfold is_byte in Hbb.
  specialize (IH Hl). rewrite from_bytes_snoc, len_app.
  change (len [b]) with 1. pose proof (len_nonneg l).
  rewrite Z.pow_add_r, Z.pow_1_r by lia. lia.
Qed.

Lemma be_from_bytes l : is_bytes l → be (length l) (from_bytes l) = l.
Proof.
  induction l as [|b l IH] using rev_ind; [done|].
  intros [Hl Hb]%is_bytes_app. inversion Hb as [|? ? Hbb _]; subst. unfold is_byte in Hbb.
  rewrite length_app, from_bytes_snoc, Nat.add_comm. cbn [length Nat.add be].
  replace ((from_bytes l * 256 + b) / 256) with (from_bytes l) by dlia.
  replace ((from_bytes l * 256 + b) mod 256) with b by dlia. by rewrite IH.
Qed.

Lemma to_bytes_ok n z bs :
  to_bytes n z = Ok bs → length bs = n ∧ is_bytes bs ∧ from_bytes bs = z.
Proof.
  unfold to_bytes. destruct (bool_decide _) eqn:E; [|done]. intros [= <-].
  apply bool_decide_eq_true in E. auto using length_be, is_bytes_be, from_bytes_be.
Qed.

(** ** Hexadecimal text *)

Lemma length_hexw w z : length (hexw w z) = w.
Proof. revert z. induction w; intros; cbn; [done|]. rewrite length_app, IHw. cbn. lia. Qed.
#[export] Hint Rewrite length_hexw length_be : sd.

(** Digit-by-digit facts are checked on the sixteen digits. *)
Lemma small_cases (P : Z → Prop) n :
  Forall P (map Z.of_nat (List.seq 0 n)) → ∀ z, 0 <= z < Z.of_nat n → P z.
Proof.
  rewrite Forall_forall. intros H z Hz. apply H, in_map_iff.
  exists (Z.to_nat z). split; [lia|]. apply in_seq. lia.
Qed.

Lemma hexval_hexdig z : 0 <= z < 16 → hexval (hexdig z) = Some z.
Proof. revert z. apply (small_cases _ 16). repeat constructor. Qed.

Lemma hexdig_spec z : 0 <= z < 16 →
  is_hexdig (hexdig z) = true ∧ is_space (hexdig z) = false ∧ lower1 (hexdig z) = hexdig z.
Proof. revert z. apply (small_cases _ 16). repeat constructor. Qed.

Lemma hexw_0 w : hexw w 0 = replicate w "0"%char.
Proof. induction w as [|w IH]; [done|]. cbn [hexw]. change (0 / 16) with 0. by rewrite IH, replicate_S_end. Qed.

Lemma log2_div16 z : 16 <= z → Z.log2 (z / 16) = Z.log2 z - 4.
Proof.
  intros. change 16 with (2 ^ 4). rewrite <- Z.shiftr_div_pow2, Z.log2_shiftr by lia.
  pose proof (Z.log2_le_mono 16 z) as Hm. change (Z.log2 16) with 4 in Hm. lia.
Qed.

Lemma zfill_digits w fuel z :
  0 <= z < 16 ^ Z.of_nat (S w) → Z.log2 z <= Z.of_nat fuel → zfill (S w) (digits fuel 16 z) = hexw (S w) z.
Proof.
  revert fuel z. induction w as [|w IH]; intros fuel z Hz Hf; pose proof (Z.log2_nonneg z).
  - change (16 ^ Z.of_nat 1) with 16 in Hz. cbn [hexw]. rewrite Z.mod_small by lia.
    destruct fuel; cbn [digits]; by rewrite (proj2 (Z.ltb_lt z 16)) by lia.
  - destruct (Z.ltb_spec z 16) as [Hs|Hs].
    + assert (digits fuel 16 z = [hexdig z]) as ->.
      { destruct fuel; cbn [digits]; by rewrite (proj2 (Z.ltb_lt z 16)) by lia. }
      change (hexw (S (S w)) z) with (hexw (S w) (z / 16) ++ [hexdig (z mod 16)]).
      by rewrite Z.div_small, Z.mod_small, hexw_0 by lia.
    + pose proof (Z.log2_le_mono 16 z Hs) as Hlog. change (Z.log2 16) with 4 in Hlog.
      destruct fuel as [|fuel]; [lia|]. cbn [digits].
      rewrite (proj2 (Z.ltb_ge z 16)) by lia.
      change (hexw (S (S w)) z) with (hexw (S w) (z / 16) ++ [hexdig (z mod 16)]).
      rewrite <- (IH fuel (z / 16)).
      * unfold zfill. rewrite length_app. cbn [length]. rewrite app_assoc.
        do 3 f_equal. lia.
      * rewrite (Nat2Z.inj_succ (S w)), Z.pow_succ_r in Hz by lia. dlia.
      * rewrite log2_div16 by lia. lia.
Qed.

(** ['%0wx' % z] is exactly [w] digits when [z] fits. *)
Lemma fmt_x_hexw w z : (0 < w)%nat → 0 <= z < 16 ^ Z.of_nat w → fmt_x w z = hexw w z.
Proof.
  intros Hw Hz. destruct w as [|w]; [lia|]. unfold fmt_x, fmt_base, digits_of.
  rewrite (proj2 (Z.ltb_ge z 0)) by lia. apply zfill_digits; [done|].
  pose proof (Z.log2_nonneg z). lia.
Qed.

Lemma length_bytes_hex bs : length (bytes_hex bs) = (2 * length bs)%nat.
Proof. induction bs as [|b bs IH]; [done|]. change (bytes_hex (b :: bs)) with (hexw 2 b ++ bytes_hex bs).
  rewrite length_app, length_hexw, IH. cbn. lia. Qed.

Lemma bytes_hex_app l k : bytes_hex (l ++ k) = bytes_hex l ++ bytes_hex k.
Proof. unfold bytes_hex. by rewrite map_app, concat_app. Qed.

Lemma bytes_hex_cons b l : bytes_hex (b :: l) = hexw 2 b ++ bytes_hex l.
Proof. reflexivity. Qed.

Lemma hexw2 b : hexw 2 b = [hexdig (b / 16 mod 16); hexdig (b mod 16)].
Proof. reflexivity. Qed.

Lemma fromhex_hex_app bs s :
  is_bytes bs → bytes_fromhex_opt (bytes_hex bs ++ s) = app bs <$> bytes_fromhex_opt s.
Proof.
  unfold is_bytes. induction 1 as [|b bs Hb _ IH]; [cbn; by destruct (bytes_fromhex_opt s)|].
  unfold is_byte in Hb. rewrite bytes_hex_cons, hexw2. cbn [app bytes_fromhex_opt].
  destruct (hexdig_spec (b / 16 mod 16)) as (_ & -> & _); [dlia|].
  rewrite !hexval_hexdig by dlia. rewrite IH.
  replace (b / 16 mod 16 * 16 + b mod 16) with b by dlia.
  by destruct (bytes_fromhex_opt s).
Qed.

(** Decoding undoes encoding. *)
Lemma fromhex_hex bs : is_bytes bs → bytes_fromhex (bytes_hex bs) = Ok bs.
Proof.
  intros H. unfold bytes_fromhex. rewrite <- (app_nil_r (bytes_hex bs)), fromhex_hex_app by done.
  cbn. by rewrite app_nil_r.
Qed.

Lemma bytes_hex_inj b c : is_bytes b → is_bytes c → bytes_hex b = bytes_hex c → b = c.
Proof. intros Hb Hc E. apply (f_equal bytes_fromhex) in E. rewrite !fromhex_hex in E by done. congruence. Qed.

Lemma is_hexstr_bytes_hex bs : is_hexstr (bytes_hex bs).
Proof.
  split; [|exists (length bs); rewrite length_bytes_hex; lia].
  induction bs as [|b bs IH]; [by constructor|]. rewrite bytes_hex_cons, hexw2.
  repeat constructor; [| |exact IH]; apply hexdig_spec; dlia.
Qed.

Lemma chr_code c : chr (code c) = c.
Proof. unfold chr, code. by rewrite N2Z.id, ascii_N_embedding. Qed.

(** Lower-case hex text is the text of some bytes. *)
Definition is_lhex (c : ascii) : bool := is_digit c || in_range 97 102 c.

Lemma lhex_digit c : is_lhex c = true → ∃ x, 0 <= x < 16 ∧ c = hexdig x.
Proof.
  intros Hc. exists (match hexval c with Some x => x | None => 0 end).
  destruct c as [[] [] [] [] [] [] [] []]; try (vm_compute in Hc; discriminate Hc);
    vm_compute; repeat split; congruence.
Qed.

Lemma lhex_bytes n s : length s = (2 * n)%nat → Forall (λ c, is_lhex c = true) s →
  ∃ bs, is_bytes bs ∧ bytes_hex bs = s ∧ length bs = n.
Proof.
  revert s. induction n as [|n IH]; intros s Hl Hs.
  - destruct s; [|done]. exists []. by repeat constructor.
  - destruct s as [|a [|b s]]; [done|cbn in Hl; lia|].
    apply Forall_cons_1 in Hs as [(x & Hx & ->)%lhex_digit [(y & Hy & ->)%lhex_digit Hs]%Forall_cons_1].
    destruct (IH s) as (bs & Hb & <- & Hlb); [cbn in Hl; lia | done|].
    exists (x * 16 + y :: bs). split; [constructor; [unfold is_byte; lia | done]|].
    split; [|by cbn; rewrite Hlb]. rewrite bytes_hex_cons, hexw2.
    replace ((x * 16 + y) / 16 mod 16) with x by dlia. replace ((x * 16 + y) mod 16) with y by dlia. done.
Qed.

Lemma hexw_bytes_hex n z : hexw (2 * n) z = bytes_hex (be n z).
Proof.
  revert z. induction n as [|n IH]; intros; [done|].
  replace (2 * S n)%nat with (S (S (2 * n))) by lia.
  change (hexw (S (S (2 * n))) z) with ((hexw (2 * n) (z / 16 / 16) ++ [hexdig (z / 16 mod 16)]) ++ [hexdig (z mod 16)]).
  rewrite IH. change (be (S n) z) with (be n (z / 256) ++ [z mod 256]).
  rewrite bytes_hex_app, <- app_assoc, Z.div_div by lia. f_equal.
  change (bytes_hex [z mod 256]) with (hexw 2 (z mod 256)). rewrite hexw2.
  replace (z mod 256 / 16 mod 16) with (z / 16 mod 16) by dlia.
  by replace (z mod 256 mod 16) with (z mod 16) by dlia.
Qed.

(** ** Case folding *)

Lemma lower_app s t : str_lower (s ++ t) = str_lower s ++ str_lower t.
Proof. apply map_app. Qed.

(** ** List membership through [split_on] and [join] *)

Lemma split_on_nil c s : split_on c s ≠ [].
Proof. destruct s as [|d s]; cbn; [done|]. destruct (Ascii.eqb c d); [done|]. by destruct (split_on c s). Qed.

Lemma split_on_app c w s :
  Forall (λ d, Ascii.eqb c d = false) w → split_on c (w ++ c :: s) = w :: split_on c s.
Proof.
  induction 1 as [|d w Hd _ IH]; cbn [app split_on]; [by rewrite Ascii.eqb_refl|].
  by rewrite Hd, IH.
Qed.

Lemma split_on_none c w : Forall (λ d, Ascii.eqb c d = false) w → split_on c w = [w].
Proof. induction 1 as [|d w Hd _ IH]; cbn [split_on]; [done|]. by rewrite Hd, IH. Qed.

Lemma prefix_of_spec p s : prefix_of p s = true ↔ ∃ k, s = p ++ k.
Proof.
  revert s. induction p as [|a p IH]; intros s; cbn; [naive_solver|].
  destruct s as [|b s]; [naive_solver|]. rewrite andb_true_iff, Ascii.eqb_eq, IH. naive_solver.
Qed.

Lemma upper_idem s : str_upper (str_upper s) = str_upper s.
Proof.
  unfold str_upper. rewrite map_map. apply map_ext. intros c.
  by destruct c as [[] [] [] [] [] [] [] []].
Qed.

(** Keep the conversions folded under [cbn]. *)
#[global] Arguments be : simpl never.
#[global] Arguments fmt_base : simpl never.
#[global] Arguments bytes_hex : simpl never.
#[global] Arguments slice : simpl never.
#[global] Arguments len : simpl never.
