(* ===== verification/Osmocom.v ===== *)
(** The interface of the third-party [osmocom] package (osmocom.utils and
    osmocom.tlv), as the modelled code uses it. Its functions are fields of
    type classes and its documented behaviour, as far as a proof relies on it,
    is stated by the classes of laws. The module [Ref] gives functions with
    these laws: theorems stated for every implementation are applied to them
    on concrete inputs. *)

From S2P Require Import Prelude.

(** ** osmocom.utils *)

Class OsmocomUtils := {
  (** hex text to bytes; ValueError when the text is not hex *)
  h2b : str → result bytes;
  (** bytes to hex text *)
  b2h : bytes → str;
  (** the same as lists of integers *)
  h2i : str → result (list Z);
  i2h : list Z → str;
  (** exchange the two nibbles of every byte of a hex string *)
  swap_nibbles : str → str;
  (** pad on the right / left with 'f' up to a length *)
  rpad : str → nat → str;
  lpad : str → nat → str;
  (** half of a number, rounded up *)
  half_round_up : nat → nat;
  (** is the string hex, with a length between the bounds *)
  is_hex : str → nat → nat → bool;
}.

Class OsmocomUtilsLaws `{OsmocomUtils} := {
  b2h_hex bs : is_bytes bs → b2h bs = bytes_hex bs;
  h2b_hex s : is_hexstr s → h2b s = bytes_fromhex s;
  h2i_hex s : is_hexstr s → h2i s = bytes_fromhex s;
  i2h_hex l : is_bytes l → i2h l = bytes_hex l;
  h2b_bytes s bs : h2b s = Ok bs → is_bytes bs;
  swap_nibbles_nil : swap_nibbles [] = [];
  swap_nibbles_cons a b s : swap_nibbles (a :: b :: s) = b :: a :: swap_nibbles s;
  rpad_eq s n : rpad s n = s ++ replicate (n - length s) "f"%char;
  lpad_eq s n : lpad s n = replicate (n - length s) "f"%char ++ s;
  half_round_up_eq n : half_round_up n = Nat.div2 (n + 1);
  is_hex_length s lo hi : is_hex s lo hi = true → (lo <= length s <= hi)%nat;
  is_hex_true s lo hi : is_hexstr s → (lo <= length s <= hi)%nat → s ≠ [] → is_hex s lo hi = true;
}.

Section utils_facts.
Context `{OsmocomUtilsLaws}.

Lemma h2b_b2h bs : is_bytes bs → h2b (b2h bs) = Ok bs.
Proof. intros Hb. rewrite b2h_hex, h2b_hex by auto using is_hexstr_bytes_hex. by apply fromhex_hex. Qed.

Lemma length_b2h bs : is_bytes bs → length (b2h bs) = (2 * length bs)%nat.
Proof. intros. by rewrite b2h_hex, length_bytes_hex. Qed.

Lemma swap_nibbles_even n s :
  length s = (2 * n)%nat →
  length (swap_nibbles s) = length s ∧ swap_nibbles (swap_nibbles s) = s.
Proof.
  revert s. induction n as [|n IH]; intros [|a [|b s]] Hl; cbn in Hl; try lia.
  - by rewrite !swap_nibbles_nil.
  - destruct (IH s) as [H1 H2]; [lia|]. rewrite !swap_nibbles_cons, H2. cbn. by rewrite H1.
Qed.

Lemma swap_nibbles_app n s t :
  length s = (2 * n)%nat → swap_nibbles (s ++ t) = swap_nibbles s ++ swap_nibbles t.
Proof.
  revert s. induction n as [|n IH]; intros [|a [|b s]] Hl; cbn in Hl; try lia.
  - by rewrite swap_nibbles_nil.
  - cbn [app]. rewrite !swap_nibbles_cons, IH by lia. done.
Qed.
Lemma swap_nibbles_Forall (P : ascii → Prop) n s :
  length s = (2 * n)%nat → Forall P s → Forall P (swap_nibbles s).
Proof.
  revert s. induction n as [|n IH]; intros [|a [|b s]] Hl Hs; cbn in Hl; try lia.
  - by rewrite swap_nibbles_nil.
  - rewrite swap_nibbles_cons. apply Forall_cons_1 in Hs as [Ha [Hb Hs]%Forall_cons_1].
    repeat constructor; try done. apply IH; [lia | done].
Qed.

(** Lower-case hex text: the bytes it stands for, as text again. *)
Lemma h2b_lhex n s : length s = (2 * n)%nat → Forall (λ c, is_lhex c = true) s →
  ∃ bs, is_bytes bs ∧ length bs = n ∧ h2b s = Ok bs ∧ b2h bs = s.
Proof.
  intros Hl Hs. destruct (lhex_bytes n s Hl Hs) as (bs & Hb & <- & Hlb). exists bs.
  rewrite b2h_hex, h2b_hex by auto using is_hexstr_bytes_hex. auto using fromhex_hex.
Qed.
End utils_facts.

(** ** osmocom.tlv *)

(** The dict that stands for a decomposed BER tag. *)
Record tag_dict := { td_class : Z; td_constructed : bool; td_tag : Z }.

Class OsmocomTlv := {
  bertlv_encode_len : Z → bytes;
  bertlv_encode_tag : Z → bytes;
  (** (length, remainder) *)
  bertlv_parse_len : bytes → result (Z * bytes);
  (** (tag, length, value, remainder) *)
  bertlv_parse_one : bytes → result (tag_dict * Z * bytes * bytes);
  bertlv_parse_one_rawtag : bytes → result (Z * Z * bytes * bytes);
  (** (tag, length, whole TLV, remainder) *)
  bertlv_return_one_rawtlv : bytes → result (Z * Z * bytes * bytes);
}.

(** A tag that takes one byte: its low five bits are not all set. *)
Definition one_byte_tag (t : Z) : Prop := is_byte t ∧ t mod 32 ≠ 31.
(** A tag that takes two bytes. *)
Definition two_byte_tag (t : Z) : Prop := 256 <= t < 65536 ∧ t / 256 mod 32 = 31 ∧ t mod 256 < 128.

(** Lengths of at most four octets, more than any value the code builds. *)
Definition ber_len (n : Z) : Prop := 0 <= n < 2 ^ 32.

Class OsmocomTlvLaws `{OsmocomTlv} := {
  (** the definite forms of X.690 8.1.3: short below 128, then long *)
  encode_len_short n : 0 <= n < 128 → bertlv_encode_len n = [n];
  encode_len_81 n : 128 <= n < 256 → bertlv_encode_len n = [129; n];
  encode_len_82 n : 256 <= n < 65536 → bertlv_encode_len n = [130; n / 256; n mod 256];
  encode_len_bytes n : ber_len n → is_bytes (bertlv_encode_len n);
  encode_tag_1 t : one_byte_tag t → bertlv_encode_tag t = [t];
  encode_tag_2 t : two_byte_tag t → bertlv_encode_tag t = [t / 256; t mod 256];
  parse_len_encode n r : ber_len n → bertlv_parse_len (bertlv_encode_len n ++ r) = Ok (n, r);
  (** the value is the slice of the announced length, clipped at the end of
      the input *)
  parse_one_encode t n r :
    one_byte_tag t → ber_len n →
    ∃ td, bertlv_parse_one ([t] ++ bertlv_encode_len n ++ r)
          = Ok (td, n, take (Z.to_nat n) r, drop (Z.to_nat n) r);
  parse_rawtag_encode t n r :
    one_byte_tag t ∨ two_byte_tag t → ber_len n →
    bertlv_parse_one_rawtag (bertlv_encode_tag t ++ bertlv_encode_len n ++ r)
    = Ok (t, n, take (Z.to_nat n) r, drop (Z.to_nat n) r);
  return_rawtlv_encode t n r :
    one_byte_tag t ∨ two_byte_tag t → ber_len n →
    bertlv_return_one_rawtlv (bertlv_encode_tag t ++ bertlv_encode_len n ++ r)
    = Ok (t, n, bertlv_encode_tag t ++ bertlv_encode_len n ++ take (Z.to_nat n) r,
          drop (Z.to_nat n) r);
}.

Section tlv_facts.
Context `{OsmocomTlvLaws}.

Lemma length_encode_len n :
  0 <= n < 65536 →
  len (bertlv_encode_len n) = if n <? 128 then 1 else if n <? 256 then 2 else 3.
Proof.
  intros Hn. destruct (Z.ltb_spec n 128); [by rewrite encode_len_short by lia|].
  destruct (Z.ltb_spec n 256); [by rewrite encode_len_81 by lia|].
  by rewrite encode_len_82 by lia.
Qed.

Lemma parse_rawtag_tlv t v r :
  one_byte_tag t ∨ two_byte_tag t → ber_len (len v) →
  bertlv_parse_one_rawtag ((bertlv_encode_tag t ++ bertlv_encode_len (len v) ++ v) ++ r)
  = Ok (t, len v, v, r).
Proof.
  intros Ht Hv. rewrite <- !app_assoc, parse_rawtag_encode by done.
  unfold len. by rewrite Nat2Z.id, take_app_length, drop_app_length.
Qed.

Lemma return_rawtlv_tlv t v r :
  one_byte_tag t ∨ two_byte_tag t → ber_len (len v) →
  bertlv_return_one_rawtlv ((bertlv_encode_tag t ++ bertlv_encode_len (len v) ++ v) ++ r)
  = Ok (t, len v, bertlv_encode_tag t ++ bertlv_encode_len (len v) ++ v, r).
Proof.
  intros Ht Hv. rewrite <- !app_assoc, return_rawtlv_encode by done.
  unfold len. by rewrite Nat2Z.id, take_app_length, drop_app_length.
Qed.
End tlv_facts.

(** ** Functions with these laws *)

Module Ref.
Fixpoint swap (s : str) : str :=
  match s with a :: b :: s' => b :: a :: swap s' | _ => s end.

#[export] Instance utils : OsmocomUtils := {
  h2b := bytes_fromhex;
  b2h := bytes_hex;
  h2i := bytes_fromhex;
  i2h := bytes_hex;
  swap_nibbles := swap;
  rpad s n := s ++ replicate (n - length s) "f"%char;
  lpad s n := replicate (n - length s) "f"%char ++ s;
  half_round_up n := Nat.div2 (n + 1);
  is_hex s lo hi := forallb (λ c, bool_decide (is_Some (hexval c))) s
                    && Nat.even (length s) && (lo <=? length s)%nat && (length s <=? hi)%nat;
}.

Lemma hexval_byte a x : hexval a = Some x → 0 <= x < 16.
Proof.
  unfold hexval, is_digit, in_range. intros E.
  repeat case_match; simplify_eq; rewrite ?andb_true_iff, ?Z.leb_le in *; lia.
Qed.

Lemma fromhex_bytes n s bs :
  (length s <= n)%nat → bytes_fromhex_opt s = Some bs → is_bytes bs.
Proof.
  revert s bs. induction n as [|n IH]; intros [|a s] bs Hl E; cbn in Hl, E; try lia;
    try (simplify_eq; by constructor).
  destruct (is_space a); [apply (IH s bs); [lia|done]|].
  destruct s as [|b s]; [done|].
  destruct (hexval a) eqn:Ea; [|done]. destruct (hexval b) eqn:Eb; [|done].
  apply fmap_Some in E as (bs' & E & ->). constructor; [|cbn in Hl; apply (IH s); [lia|done]].
  apply hexval_byte in Ea, Eb. unfold is_byte. lia.
Qed.

#[export] Instance utils_laws : OsmocomUtilsLaws.
Proof.
  split; try done.
  - intros s bs E. apply from_opt_ok in E. by apply (fromhex_bytes (length s) s).
  - intros s lo hi. unfold is_hex, utils. rewrite !andb_true_iff, !Nat.leb_le. tauto.
  - intros s lo hi [Hs He] Hl _. unfold is_hex, utils. rewrite !andb_true_iff, !Nat.leb_le.
    split_and!; [|by apply Nat.even_spec|lia..]. apply forallb_forall. intros c Hc.
    rewrite bool_decide_eq_true. rewrite List.Forall_forall in Hs. specialize (Hs c Hc).
    unfold is_hexdig in Hs. unfold hexval. repeat case_match; try done.
Qed.

(** BER lengths and tags of one or two bytes. *)
Definition encode_len (n : Z) : bytes :=
  if n <? 128 then [n]
  else if n <? 256 then [129; n]
  else if n <? 65536 then [130; n / 256; n mod 256]
  else let k := Z.to_nat (Z.log2 n / 8 + 1) in (128 + Z.of_nat k) :: be k n.

Definition parse_len (bs : bytes) : result (Z * bytes) :=
  match bs with
  | [] => Err IndexError
  | n :: r => if n <? 128 then Ok (n, r)
              else let k := Z.to_nat (n - 128) in Ok (from_bytes (take k r), drop k r)
  end.

Definition encode_tag (t : Z) : bytes := if t <? 256 then [t] else [t / 256; t mod 256].

Definition parse_tag (bs : bytes) : result (Z * bytes) :=
  match bs with
  | [] => Err IndexError
  | t :: r => if t mod 32 =? 31
              then match r with [] => Err IndexError | u :: r' => Ok (t * 256 + u, r') end
              else Ok (t, r)
  end.

Definition parse_raw (bs : bytes) : result (Z * Z * bytes * bytes) :=
  '(t, r) ← parse_tag bs;
  '(n, r') ← parse_len r;
  Ok (t, n, take (Z.to_nat n) r', drop (Z.to_nat n) r').

#[export] Instance tlv : OsmocomTlv := {
  bertlv_encode_len := encode_len;
  bertlv_encode_tag := encode_tag;
  bertlv_parse_len := parse_len;
  bertlv_parse_one bs :=
    '(t, n, v, r) ← parse_raw bs;
    Ok ({| td_class := t / 64; td_constructed := Z.testbit t 5; td_tag := t mod 32 |}, n, v, r);
  bertlv_parse_one_rawtag := parse_raw;
  bertlv_return_one_rawtlv bs :=
    '(t, n, v, r) ← parse_raw bs;
    Ok (t, n, take (length bs - length r) bs, r);
}.

Lemma parse_tag_encode t r :
  one_byte_tag t ∨ two_byte_tag t → parse_tag (encode_tag t ++ r) = Ok (t, r).
Proof.
  unfold one_byte_tag, two_byte_tag, is_byte, encode_tag. intros Ht.
  destruct (Z.ltb_spec t 256) as [Hs|Hs]; cbn [app parse_tag].
  - destruct (Z.eqb_spec (t mod 32) 31); [lia|done].
  - destruct (Z.eqb_spec (t / 256 mod 32) 31); [|lia]. do 2 f_equal. dlia.
Qed.

Lemma log2_bound n : 65536 <= n < 2 ^ 32 → 16 <= Z.log2 n < 32.
Proof.
  intros Hn. pose proof (Z.log2_le_mono 65536 n). pose proof (Z.log2_lt_pow2 n 32).
  change (Z.log2 65536) with 16 in *. lia.
Qed.

Lemma long_bound n : 65536 <= n < 2 ^ 32 → n < 256 ^ (Z.log2 n / 8 + 1).
Proof.
  intros Hn. pose proof (log2_bound n Hn). change 256 with (2 ^ 8).
  rewrite <- Z.pow_mul_r by dlia. apply Z.log2_lt_pow2; dlia.
Qed.

Lemma parse_len_enc n r : ber_len n → parse_len (encode_len n ++ r) = Ok (n, r).
Proof.
  unfold ber_len, encode_len. intros Hn.
  destruct (Z.ltb_spec n 128); cbn [app parse_len]; [by rewrite (proj2 (Z.ltb_lt n 128))|].
  destruct (Z.ltb_spec n 256); [done|].
  destruct (Z.ltb_spec n 65536).
  { change (Ok (n / 256 * 256 + n mod 256, r) = Ok (n, r)). do 2 f_equal. dlia. } cbn [app parse_len].
  pose proof (log2_bound n ltac:(lia)). pose proof (long_bound n ltac:(lia)).
  rewrite (proj2 (Z.ltb_ge _ 128)) by dlia.
  replace (Z.to_nat _) with (Z.to_nat (Z.log2 n / 8 + 1)) by dlia.
  rewrite take_app_length', drop_app_length', from_bytes_be by (rewrite ?length_be, ?Z2Nat.id by dlia; lia).
  done.
Qed.

Lemma encode_len_is_bytes n : ber_len n → is_bytes (encode_len n).
Proof.
  unfold ber_len, encode_len. intros Hn.
  destruct (Z.ltb_spec n 128); [bytes_tac|].
  destruct (Z.ltb_spec n 256); [bytes_tac|].
  destruct (Z.ltb_spec n 65536); [bytes_tac|].
  pose proof (log2_bound n ltac:(lia)).
  constructor; [unfold is_byte; dlia|]. apply is_bytes_be.
Qed.

Lemma parse_raw_encode t n r :
  one_byte_tag t ∨ two_byte_tag t → ber_len n →
  parse_raw (encode_tag t ++ encode_len n ++ r)
  = Ok (t, n, take (Z.to_nat n) r, drop (Z.to_nat n) r).
Proof.
  intros Ht Hn. unfold parse_raw. rewrite parse_tag_encode by done. cbn.
  by rewrite parse_len_enc.
Qed.

Lemma encode_tag_one t : one_byte_tag t → encode_tag t = [t].
Proof. intros [Ht _]. unfold is_byte in Ht. unfold encode_tag. by rewrite (proj2 (Z.ltb_lt t 256)) by lia. Qed.

#[export] Instance tlv_laws : OsmocomTlvLaws.
Proof.
  split; cbn [bertlv_encode_len bertlv_encode_tag bertlv_parse_len bertlv_parse_one
              bertlv_parse_one_rawtag bertlv_return_one_rawtlv tlv];
    eauto using parse_len_enc, encode_len_is_bytes, parse_raw_encode, encode_tag_one.
  - intros n Hn. unfold encode_len. by rewrite (proj2 (Z.ltb_lt n 128)) by lia.
  - intros n Hn. unfold encode_len.
    by rewrite (proj2 (Z.ltb_ge n 128)), (proj2 (Z.ltb_lt n 256)) by lia.
  - intros n Hn. unfold encode_len.
    by rewrite (proj2 (Z.ltb_ge n 128)), (proj2 (Z.ltb_ge n 256)), (proj2 (Z.ltb_lt n 65536)) by lia.
  - intros t Ht. unfold two_byte_tag in Ht. unfold encode_tag.
    by rewrite (proj2 (Z.ltb_ge t 256)) by lia.
  - intros t n r Ht Hn. rewrite <- (encode_tag_one t Ht), parse_raw_encode by auto. cbn. eauto.
  - intros t n r Ht Hn. rewrite parse_raw_encode by auto. cbn. do 4 f_equal.
    set (A := encode_tag t ++ encode_len n ++ take (Z.to_nat n) r).
    assert (encode_tag t ++ encode_len n ++ r = A ++ drop (Z.to_nat n) r) as ->
      by (unfold A; by rewrite <- !app_assoc, take_drop).
    apply take_app_length'. rewrite length_app. lia.
Qed.
End Ref.
