(* ===== verification/Crypto.v ===== *)
(** The interfaces of the third-party cryptographic libraries (Cryptodome and
    cryptography): block ciphers, CMAC and the X9.63 key derivation function,
    with the documented facts a proof relies on. Nothing is assumed about the
    secrecy these algorithms give. The module [RefCrypto] has functions with
    these laws, for the concrete runs. *)

From S2P Require Import Prelude.

Class Cryptodome := {
  (** [AES.new(key, AES.MODE_CBC, iv).encrypt(data)] and [.decrypt(data)] *)
  aes_cbc_encrypt : bytes → bytes → bytes → result bytes;
  aes_cbc_decrypt : bytes → bytes → bytes → result bytes;
  (** [AES.new(key, AES.MODE_ECB).encrypt(data)] *)
  aes_ecb_encrypt : bytes → bytes → result bytes;
  (** [CMAC.new(key, data, ciphermod=AES).digest()] *)
  aes_cmac : bytes → bytes → result bytes;
  (** [DES.new(key, DES.MODE_ECB)], [DES3.new(key, DES.MODE_ECB)] and
      [DES3.new(key, DES.MODE_CBC, iv)] *)
  des_ecb_encrypt : bytes → bytes → result bytes;
  des_ecb_decrypt : bytes → bytes → result bytes;
  (** [DES.new(key, DES.MODE_CBC, iv)] *)
  des_cbc_encrypt : bytes → bytes → bytes → result bytes;
  des_cbc_decrypt : bytes → bytes → bytes → result bytes;
  des3_ecb_encrypt : bytes → bytes → result bytes;
  des3_cbc_encrypt : bytes → bytes → bytes → result bytes;
  des3_cbc_decrypt : bytes → bytes → bytes → result bytes;
  (** [X963KDF(SHA256, length, sharedinfo).derive(secret)] *)
  x963kdf : bytes → bytes → nat → bytes;
}.

Definition blocks (k : nat) (d : bytes) : Prop := ∃ n, length d = (n * k)%nat.

Lemma blocks_mod k d : k ≠ 0%nat → blocks k d ↔ (length d mod k = 0)%nat.
Proof.
  intros Hk. split.
  - intros [n ->]. by apply Nat.Div0.mod_mul.
  - intros Hm. exists (length d / k)%nat. pose proof (Nat.div_mod_eq (length d) k). lia.
Qed.

(** [enc] maps whole blocks to as many bytes and [dec] undoes it. *)
Definition cipher_ok (k : nat) (enc dec : bytes → result bytes) : Prop :=
  ∀ d, is_bytes d → blocks k d →
  ∃ c, enc d = Ok c ∧ length c = length d ∧ is_bytes c ∧ dec c = Ok d.

Class CryptodomeLaws `{Cryptodome} := {
  aes_cbc_ok key iv :
    length key = 16%nat → length iv = 16%nat →
    cipher_ok 16 (aes_cbc_encrypt key iv) (aes_cbc_decrypt key iv);
  (** a message that is not whole blocks is refused *)
  aes_cbc_unaligned key iv d : ¬ blocks 16 d → aes_cbc_encrypt key iv d = Err ValueError;
  aes_cbc_decrypt_unaligned key iv d : ¬ blocks 16 d → aes_cbc_decrypt key iv d = Err ValueError;
  aes_cmac_ok key d :
    length key = 16%nat → is_bytes d →
    ∃ m, aes_cmac key d = Ok m ∧ length m = 16%nat ∧ is_bytes m;
  des_ecb_ok key :
    length key = 8%nat → cipher_ok 8 (des_ecb_encrypt key) (des_ecb_decrypt key);
  des_ecb_unaligned key d : ¬ blocks 8 d → des_ecb_encrypt key d = Err ValueError;
  des_cbc_ok key iv :
    length key = 8%nat → length iv = 8%nat →
    cipher_ok 8 (des_cbc_encrypt key iv) (des_cbc_decrypt key iv);
  des3_ecb_ok key d :
    length key = 16%nat → is_bytes d → blocks 8 d →
    ∃ c, des3_ecb_encrypt key d = Ok c ∧ length c = length d ∧ is_bytes c;
  des3_cbc_ok key iv :
    length key = 16%nat → length iv = 8%nat →
    cipher_ok 8 (des3_cbc_encrypt key iv) (des3_cbc_decrypt key iv);
  x963kdf_length secret info n : length (x963kdf secret info n) = n;
  x963kdf_bytes secret info n : is_bytes (x963kdf secret info n);
}.

Section facts.
Context `{CryptodomeLaws}.

Lemma aes_cbc_encrypt_ok key iv d :
  length key = 16%nat → length iv = 16%nat → is_bytes d → blocks 16 d →
  ∃ c, aes_cbc_encrypt key iv d = Ok c ∧ length c = length d ∧ is_bytes c
       ∧ aes_cbc_decrypt key iv c = Ok d.
Proof. intros. by apply aes_cbc_ok. Qed.
End facts.

Module RefCrypto.
(** A stream "cipher" that adds a key-dependent byte; a "MAC" and a "KDF"
    that sum their input. *)
Definition ksum (l : bytes) : Z := foldl (λ a b, (a * 31 + b) mod 65521) 7 l.
Definition shift (k : Z) : bytes → bytes := map (λ b, (b + k) mod 256).

Definition ecb (k : nat) (key d : bytes) : result bytes :=
  if bool_decide (length d mod k = 0)%nat then Ok (shift (ksum key) d) else Err ValueError.
Definition ecb_inv (k : nat) (key d : bytes) : result bytes :=
  if bool_decide (length d mod k = 0)%nat then Ok (shift (- ksum key) d) else Err ValueError.
Definition digest (n : nat) (l : bytes) : bytes := be n (ksum l * 7919).

#[export] Instance crypto : Cryptodome := {
  aes_cbc_encrypt key iv := ecb 16 (key ++ iv);
  aes_cbc_decrypt key iv := ecb_inv 16 (key ++ iv);
  aes_ecb_encrypt := ecb 16;
  aes_cmac key d := Ok (digest 16 (key ++ d));
  des_ecb_encrypt := ecb 8;
  des_ecb_decrypt := ecb_inv 8;
  des_cbc_encrypt key iv := ecb 8 (key ++ iv);
  des_cbc_decrypt key iv := ecb_inv 8 (key ++ iv);
  des3_ecb_encrypt := ecb 8;
  des3_cbc_encrypt key iv := ecb 8 (key ++ iv);
  des3_cbc_decrypt key iv := ecb_inv 8 (key ++ iv);
  x963kdf secret info n := digest n (secret ++ info);
}.

Lemma shift_bytes k l : is_bytes (shift k l).
Proof. apply Forall_forall. intros x (y & <- & _)%in_map_iff. unfold is_byte. dlia. Qed.

Lemma shift_inv k l : is_bytes l → shift (- k) (shift k l) = l.
Proof.
  unfold is_bytes. induction 1 as [|b l Hb _ IH]; [done|]. unfold is_byte in Hb. cbn. rewrite IH.
  f_equal. rewrite Zplus_mod_idemp_l. replace (b + k + - k) with b by lia. by apply Z.mod_small.
Qed.

Lemma ecb_ok k key : k ≠ 0%nat → cipher_ok k (ecb k key) (ecb_inv k key).
Proof.
  intros Hk d Hd Hb%blocks_mod; [|done]. unfold ecb, ecb_inv.
  rewrite bool_decide_ok by done. exists (shift (ksum key) d).
  assert (length (shift (ksum key) d) = length d) as Hl by apply length_map.
  rewrite Hl, bool_decide_ok by done.
  rewrite shift_inv by done. auto using shift_bytes.
Qed.

Lemma ecb_unaligned k key d : k ≠ 0%nat → ¬ blocks k d → ecb k key d = Err ValueError.
Proof. intros Hk Hb. unfold ecb. rewrite blocks_mod in Hb by done. by rewrite bool_decide_false. Qed.

Lemma ecb_inv_unaligned k key d : k ≠ 0%nat → ¬ blocks k d → ecb_inv k key d = Err ValueError.
Proof. intros Hk Hb. unfold ecb_inv. rewrite blocks_mod in Hb by done. by rewrite bool_decide_false. Qed.

Lemma ecb_enc k key d :
  k ≠ 0%nat → is_bytes d → blocks k d → ∃ c, ecb k key d = Ok c ∧ length c = length d ∧ is_bytes c.
Proof. intros Hk Hd Hb. destruct (ecb_ok k key Hk d Hd Hb) as (c & ? & ? & ? & _). eauto. Qed.

#[export] Instance laws : CryptodomeLaws.
Proof.
  split; cbn [aes_cbc_encrypt aes_cbc_decrypt aes_cmac des_ecb_encrypt des_ecb_decrypt
              des_cbc_encrypt des_cbc_decrypt des3_ecb_encrypt des3_cbc_encrypt des3_cbc_decrypt x963kdf crypto];
    intros; auto using ecb_ok, ecb_unaligned, ecb_inv_unaligned, ecb_enc.
  - eexists. split; [done|]. split; [apply length_be | apply is_bytes_be].
  - apply length_be.
  - apply is_bytes_be.
Qed.
End RefCrypto.
