(* ===== verification/Base64.v ===== *)
(** Base64 text as Python's [base64] module reads and writes it. The decoder
    is the non-strict one: characters outside the alphabet are skipped, and
    it stops at a complete padding. *)

From S2P Require Import Prelude.

Definition b64_digit (z : Z) : ascii :=
  if z <? 26 then chr (65 + z)
  else if z <? 52 then chr (71 + z)
  else if z <? 62 then chr (z - 4)
  else if z =? 62 then "+"%char else "/"%char.

Definition b64_value (c : ascii) : option Z :=
  if is_upper c then Some (code c - 65)
  else if is_lower c then Some (code c - 71)
  else if is_digit c then Some (code c + 4)
  else if is_char "+" c then Some 62
  else if is_char "/" c then Some 63
  else None.

Fixpoint b64encode (bs : bytes) : str :=
  match bs with
  | a :: b :: c :: r =>
      [b64_digit (a / 4); b64_digit (a mod 4 * 16 + b / 16); b64_digit (b mod 16 * 4 + c / 64); b64_digit (c mod 64)]
      ++ b64encode r
  | [a; b] => [b64_digit (a / 4); b64_digit (a mod 4 * 16 + b / 16); b64_digit (b mod 16 * 4); "="%char]
  | [a] => [b64_digit (a / 4); b64_digit (a mod 4 * 16); "="%char; "="%char]
  | [] => []
  end.

(** binascii.Error, a subclass of ValueError *)
Definition binascii_Error : exn := ValueError.

(** [left]: the bits kept from the last character; [quad]: position in the
    group of four. *)
Fixpoint b64_loop (s : str) (quad left pads : Z) (out : bytes) : result bytes :=
  match s with
  | [] => if quad =? 0 then Ok out else Err binascii_Error
  | c :: s' =>
      if is_char "=" c then
        if 2 <=? quad then
          if 4 <=? quad + (pads + 1) then Ok out else b64_loop s' quad left (pads + 1) out
        else b64_loop s' quad left pads out
      else match b64_value c with
      | None => b64_loop s' quad left pads out
      | Some v =>
          if quad =? 0 then b64_loop s' 1 v 0 out
          else if quad =? 1 then b64_loop s' 2 (v mod 16) 0 (out ++ [left * 4 + v / 16])
          else if quad =? 2 then b64_loop s' 3 (v mod 4) 0 (out ++ [left * 16 + v / 4])
          else b64_loop s' 0 0 0 (out ++ [left * 64 + v])
      end
  end.

Definition b64decode (s : str) : result bytes := b64_loop s 0 0 0 [].

Lemma b64_digit_ok z : 0 <= z < 64 → b64_value (b64_digit z) = Some z ∧ is_char "=" (b64_digit z) = false.
Proof. revert z. apply (small_cases _ 64). repeat constructor. Qed.

Lemma b64_step z s quad left pads out :
  0 <= z < 64 →
  b64_loop (b64_digit z :: s) quad left pads out =
  if quad =? 0 then b64_loop s 1 z 0 out
  else if quad =? 1 then b64_loop s 2 (z mod 16) 0 (out ++ [left * 4 + z / 16])
  else if quad =? 2 then b64_loop s 3 (z mod 4) 0 (out ++ [left * 16 + z / 4])
  else b64_loop s 0 0 0 (out ++ [left * 64 + z]).
Proof. intros Hz. cbn [b64_loop]. by destruct (b64_digit_ok z Hz) as [-> ->]. Qed.

Lemma b64_loop_encode n : ∀ bs out,
  (length bs <= n)%nat → is_bytes bs → b64_loop (b64encode bs) 0 0 0 out = Ok (out ++ bs).
Proof.
  induction n as [|n IH]; intros bs out Hl Hb.
  { destruct bs; cbn in Hl; [cbn; by rewrite app_nil_r|lia]. }
  destruct bs as [|a [|b [|c r]]]; unfold is_bytes in Hb; rewrite ?list.Forall_cons in Hb; unfold is_byte in Hb;
    cbn [b64encode app]; rewrite ?b64_step by dlia; cbn [Z.eqb Pos.eqb]; rewrite ?b64_step by dlia;
    cbn [Z.eqb Pos.eqb].
  - cbn. by rewrite app_nil_r.
  - cbn [b64_loop is_char]. cbn. do 3 f_equal. dlia.
  - rewrite ?b64_step by dlia. cbn [Z.eqb Pos.eqb]. cbn. rewrite <- app_assoc. cbn. do 3 f_equal; [dlia|f_equal; dlia].
  - rewrite ?b64_step by dlia. cbn [Z.eqb Pos.eqb]. rewrite ?b64_step by dlia. cbn [Z.eqb Pos.eqb].
    cbn in Hl. rewrite IH by (unfold is_bytes; lia || tauto). rewrite <- !app_assoc. cbn.
    do 2 f_equal. f_equal; [dlia|f_equal; [dlia|f_equal; dlia]].
Qed.

Lemma b64decode_encode bs : is_bytes bs → b64decode (b64encode bs) = Ok bs.
Proof. intros. by apply (b64_loop_encode (length bs)). Qed.
#[export] Hint Resolve b64decode_encode : sdauto.
