(* ===== verification/Utils.v ===== *)
(** pySim/utils.py, first part: IMSI, ICCID and PLMN codecs, the Luhn check
    digit, PIN and status word helpers, hex pattern expansion, text layout
    and the parser of command APDUs. *)

From S2P Require Import Prelude Osmocom Crypto.

(** [s[i]] of a string as a string. *)
Definition char_at (s : str) (i : nat) : result str := c ← idx s i; Ok [c].

(** [''.join(...)] of a string mapped through [int]. *)
Definition int_digit (c : ascii) : result Z := py_int 10 [c].

(** ** Luhn *)

Definition sum_list (l : list Z) : Z := foldr Z.add 0 l.

Definition calculate_luhn (cc : str) : result Z :=
  num ← map_r int_digit cc;
  let check_digit :=
    10 - sum_list (every 1 1 (rev num) ++ map (λ d, d * 2 / 10 + d * 2 mod 10) (every 1 0 (rev num))) mod 10 in
  Ok (if check_digit =? 10 then 0 else check_digit).

Definition verify_luhn (digits : str) : result unit :=
  cd ← calculate_luhn (but_last 1 digits);
  d ← zidx digits (-1);
  guard_else (bool_decide (str_of_int cd = [d])) ValueError.

(** ** ICCID *)

Definition sanitize_iccid (iccid : str) : result str :=
  guard_else (18 <=? len iccid) ValueError;;
  guard_else (len iccid <=? 20) ValueError;;
  iccid1 ← (if len iccid =? 18 then cd ← calculate_luhn iccid; Ok (iccid ++ str_of_int cd) else Ok iccid);
  (if len iccid1 =? 20 then verify_luhn iccid1 else Ok ());;
  if len iccid1 =? 19 then
    match verify_luhn iccid1 with
    | Ok _ => Ok iccid1
    | Err ValueError => cd ← calculate_luhn iccid1; Ok (iccid1 ++ str_of_int cd)
    | Err e => Err e
    end
  else Ok iccid1.

Section codecs.
Context `{OsmocomUtils}.

Definition dec_iccid (ef : str) : str := strip_c "f" (swap_nibbles ef).

Definition enc_iccid (iccid : str) : str := swap_nibbles (rpad iccid 20).

(** ** IMSI *)

Definition enc_imsi (imsi : str) : str :=
  let l := half_round_up (length imsi + 1) in
  let oe := Z.land (len imsi) 1 in
  fmt_x 2 (Z.of_nat l) ++ swap_nibbles (fmt_x 1 (Z.lor (Z.shiftl oe 3) 1) ++ rpad imsi 15).

Definition dec_imsi (ef : str) : result (option str) :=
  if len ef <? 4 then Ok None
  else
    l0 ← py_int 16 (slice 0 2 ef);
    let l1 := l0 * 2 - 1 in
    let swapped := rstrip_c "f" (swap_nibbles (drop 2 ef)) in
    if len swapped <? 1 then Ok None
    else
      c ← idx swapped 0;
      d ← int_digit c;
      let oe := Z.land (Z.shiftr d 3) 1 in
      let l := if truthy oe then l1 else l1 - 1 in
      if negb (l =? len swapped - 1) then Ok None
      else Ok (Some (drop 1 swapped)).

Definition mcc_from_imsi (imsi : option str) : option str :=
  match imsi with
  | None => None
  | Some i => if 3 <? len i then Some (take 3 i) else None
  end.

Definition mnc_from_imsi (imsi : option str) (long : bool) : option str :=
  match imsi with
  | None => None
  | Some i => if 3 <? len i then Some (if long then slice 3 6 i else slice 3 5 i) else None
  end.

(** ** PLMN *)

Definition enc_plmn (mcc mnc : str) : result str :=
  let mcc := strip mcc in
  let mnc := strip mnc in
  let mnc := if len mnc =? 0 then lit "FFF"
             else if len mnc =? 1 then lit "0" ++ mnc ++ lit "F"
             else if len mnc =? 2 then mnc ++ lit "F" else mnc in
  let mcc := if len mcc =? 0 then lit "FFF"
             else if len mcc =? 1 then lit "00" ++ mcc
             else if len mcc =? 2 then lit "0" ++ mcc else mcc in
  mcc1 ← char_at mcc 1; mcc0 ← char_at mcc 0; mnc2 ← char_at mnc 2; mcc2 ← char_at mcc 2;
  mnc1 ← char_at mnc 1; mnc0 ← char_at mnc 0;
  Ok ((mcc1 ++ mcc0) ++ (mnc2 ++ mcc2) ++ (mnc1 ++ mnc0)).

Definition dec_mcc_from_plmn_str (plmn : str) : result str :=
  digit1 ← char_at plmn 1; digit2 ← char_at plmn 0; digit3 ← char_at plmn 3;
  Ok (strip_c "F" (str_upper (digit1 ++ digit2 ++ digit3))).

Definition dec_mnc_from_plmn_str (plmn : str) : result str :=
  digit1 ← char_at plmn 5; digit2 ← char_at plmn 4; digit3 ← char_at plmn 2;
  Ok (strip_c "F" (str_upper (digit1 ++ digit2 ++ digit3))).

Record plmn := mkPlmn { p_mcc : str; p_mnc : str }.

Definition dec_plmn (threehexbytes : str) : result plmn :=
  dec_mcc_from_plmn_str threehexbytes;;
  mcc ← dec_mcc_from_plmn_str threehexbytes;
  mnc ← dec_mnc_from_plmn_str threehexbytes;
  Ok (mkPlmn mcc mnc).

Definition derive_mcc (digit1 digit2 digit3 : Z) : Z :=
  let mcc := 0 in
  let mcc := if negb (digit1 =? 15) then mcc + digit1 * 100 else mcc in
  let mcc := if negb (digit2 =? 15) then mcc + digit2 * 10 else mcc in
  if negb (digit3 =? 15) then mcc + digit3 else mcc.

Definition derive_mnc (digit1 digit2 digit3 : Z) : Z :=
  if negb (digit3 =? 15) then derive_mcc digit1 digit2 digit3
  else
    let mnc := if negb (digit1 =? 15) then 0 + digit1 * 10 else 0 in
    if negb (digit2 =? 15) then mnc + digit2 else mnc.

Definition dec_mcc_from_plmn (p : str) : result Z :=
  ia ← h2i p;
  i0 ← idx ia 0; i1 ← idx ia 1;
  let digit1 := Z.land i0 15 in
  let digit2 := Z.shiftr (Z.land i0 240) 4 in
  let digit3 := Z.land i1 15 in
  if (digit3 =? 15) && (digit2 =? 15) && (digit1 =? 15) then Ok 4095
  else Ok (derive_mcc digit1 digit2 digit3).

Definition dec_mnc_from_plmn (p : str) : result Z :=
  ia ← h2i p;
  i2 ← idx ia 2; i1 ← idx ia 1;
  let digit1 := Z.land i2 15 in
  let digit2 := Z.shiftr (Z.land i2 240) 4 in
  let digit3 := Z.shiftr (Z.land i1 240) 4 in
  if (digit3 =? 15) && (digit2 =? 15) && (digit1 =? 15) then Ok 4095
  else Ok (derive_mnc digit1 digit2 digit3).

(** Python's order on strings, and [sorted(list(s))] of a set given by the
    elements added to it. *)
Fixpoint str_ltb (a b : str) : bool :=
  match a, b with
  | _, [] => false
  | [], _ :: _ => true
  | x :: a', y :: b' => (code x <? code y) || ((code x =? code y) && str_ltb a' b')
  end.

Fixpoint set_add (x : str) (l : list str) : list str :=
  match l with
  | [] => [x]
  | y :: l' => if bool_decide (x = y) then l else if str_ltb x y then x :: l else y :: set_add x l'
  end.

Definition act_list : list (Z * str) :=
  [(15, lit "UTRAN"); (11, lit "NG-RAN"); (6, lit "GSM COMPACT"); (5, lit "cdma2000 HRPD");
   (4, lit "cdma2000 1xRTT")].

Definition act_eutran (u16t : Z) : list str :=
  let eutran_bits := Z.land u16t 28672 in
  if (eutran_bits =? 16384) || (eutran_bits =? 28672) then [lit "E-UTRAN WB-S1"; lit "E-UTRAN NB-S1"]
  else if eutran_bits =? 20480 then [lit "E-UTRAN NB-S1"]
  else if eutran_bits =? 24576 then [lit "E-UTRAN WB-S1"]
  else [].

Definition act_gsm (u16t : Z) : list str :=
  let gsm_bits := Z.land u16t 140 in
  if (gsm_bits =? 128) || (gsm_bits =? 140) then [lit "GSM"; lit "EC-GSM-IoT"]
  else if Z.land u16t 140 =? 132 then [lit "GSM"]
  else if Z.land u16t 140 =? 134 then [lit "EC-GSM-IoT"]
  else [].

Definition dec_act (twohexbytes : str) : result (list str) :=
  ia ← h2i twohexbytes;
  i0 ← idx ia 0; i1 ← idx ia 1;
  let u16t := Z.lor (Z.shiftl i0 8) i1 in
  let sel := map snd (filter (λ a, truthy (Z.land u16t (Z.shiftl 1 a.1)) = true) act_list)
             ++ act_eutran u16t ++ act_gsm u16t in
  Ok (foldr set_add [] (rev sel)).

Record xplmn := mkXplmn { x_mcc : str; x_mnc : str; x_act : list str }.

Definition dec_xplmn_w_act (fivehexbytes : str) : result xplmn :=
  let plmn_chars := 6%nat in
  let act_chars := 4%nat in
  let plmn_str := take plmn_chars fivehexbytes in
  let act_str := slice plmn_chars (plmn_chars + act_chars) fivehexbytes in
  mcc ← dec_mcc_from_plmn_str plmn_str;
  mnc ← dec_mnc_from_plmn_str plmn_str;
  act ← dec_act act_str;
  Ok (mkXplmn mcc mnc act).

Definition dec_xplmn (threehexbytes : str) : result xplmn :=
  let plmn_str := take 6 threehexbytes in
  mcc ← dec_mcc_from_plmn_str plmn_str;
  mnc ← dec_mnc_from_plmn_str plmn_str;
  Ok (mkXplmn mcc mnc []).

(** ** PIN *)

Definition sanitize_pin_adm (pin_adm pin_adm_hex : option str) : result (option str) :=
  pin ← (match pin_adm with
         | Some p => if len p <=? 8
                     then Ok (Some (rpad (concat (map (λ x, fmt_x 2 (code x)) p)) 16))
                     else Err ValueError
         | None => Ok None
         end);
  match pin_adm_hex with
  | Some h =>
      if len h =? 16 then
        match h2b h with
        | Ok _ => Ok (Some h)
        | Err e => Err e
        end
      else Err ValueError
  | None => Ok pin
  end.

(** ** Milenage *)

Definition strxor (a b : bytes) : result bytes :=
  if bool_decide (length a = length b) then Ok (zip_with Z.lxor a b) else Err ValueError.

Definition derive_milenage_opc `{Cryptodome} (ki_hex op_hex : str) : result str :=
  ki_bytes ← h2b ki_hex;
  op_bytes ← h2b op_hex;
  enc ← aes_ecb_encrypt ki_bytes op_bytes;
  opc_bytes ← strxor enc op_bytes;
  Ok (b2h opc_bytes).
End codecs.

(** ** Status word patterns *)

Definition sw_mask_char (sw_lower pattern : str) (i : nat) : result ascii :=
  p ← idx pattern i;
  if is_char "?" p then Ok "?"%char
  else if is_char "x" p then Ok "x"%char
  else idx sw_lower i.

Definition sw_match (sw pattern : str) : result bool :=
  let sw_lower := str_lower sw in
  sw_masked ← map_r (sw_mask_char sw_lower pattern) [0; 1; 2; 3]%nat;
  Ok (bool_decide (sw_masked = pattern)).

(** ** Text layout *)

Definition spaces (n : nat) : str := replicate n " "%char.
Definition max_len (l : list str) : nat := foldr Nat.max 0%nat (map length l).
Definition pad_cell (left : bool) (w : nat) (s : str) : str :=
  if left then s ++ spaces (w - length s) else spaces (w - length s) ++ s.

Definition newline : ascii := "010"%char.

Definition tabulate_str_list (str_list : option (list str)) (width hspace lspace : nat)
    (align_left : bool) : result str :=
  match str_list with
  | None => Ok []
  | Some [] => Ok []
  | Some l =>
      let cellwith := (max_len l + hspace)%nat in
      if bool_decide (cellwith = 0%nat) then Err ZeroDivisionError
      else
        let cols := (width / cellwith)%nat in
        if bool_decide (cols = 0%nat) then Err ZeroDivisionError
        else
          let rows := ((length l - 1) / cols + 1)%nat in
          Ok (join [newline]
                (map (λ i, spaces lspace ++
                           concat (map (pad_cell align_left cellwith) (every (rows - 1) i l)))
                     (List.seq 0 rows)))
  end.

Definition boxed_heading_str (heading : str) (width : nat) : str :=
  let width := if (width <? length heading + 4)%nat then (length heading + 4)%nat else width in
  let bar := replicate width "#"%char in
  bar ++ [newline] ++ lit "# " ++ pad_cell true (width - 4) heading ++ lit " #" ++ [newline] ++ bar.

(** ** Hex patterns *)

Definition dot : ascii := "."%char.

Definition count_c (c : ascii) (s : str) : nat := length (filter (λ d, d = c) s).

(** [s.count("..")]: occurrences that do not overlap. *)
Fixpoint count_dots (s : str) : nat :=
  match s with
  | a :: s' =>
      match s' with
      | b :: s'' => if is_char dot a && is_char dot b then S (count_dots s'') else count_dots s'
      | [] => 0
      end
  | [] => 0
  end.

(** [s.index(sub)] where [sub] occurs in [s]. *)
Fixpoint index_of (sub s : str) : nat :=
  if prefix_of sub s then 0%nat else match s with [] => 0%nat | _ :: s' => S (index_of sub s') end.

Definition expand_hex (hexstring : str) (length_ : Z) : result str :=
  if bool_decide (count_c dot hexstring = 1%nat) then
    let pos := index_of [dot] hexstring in
    filler ← (if bool_decide (0 < pos)%nat then char_at hexstring (pos - 1) else char_at hexstring (pos + 1));
    let missing := length_ * 2 - (len hexstring - 1) in
    if missing <=? 0 then Ok hexstring
    else Ok (replace_c dot (repeat_list (Z.to_nat missing) filler) hexstring)
  else if bool_decide (count_dots hexstring = 1%nat) then
    if negb (len hexstring mod 2 =? 0) then Ok hexstring
    else
      let pos := index_of [dot; dot] hexstring in
      if negb (Z.of_nat pos mod 2 =? 0) then Ok hexstring
      else
        let filler := if bool_decide (1 < pos)%nat then slice (pos - 2) pos hexstring
                      else slice (pos + 2) (pos + 4) hexstring in
        let missing := length_ * 2 - (len hexstring - 2) in
        if missing <=? 0 then Ok hexstring
        else Ok (take pos hexstring ++ repeat_list (Z.to_nat (missing / 2)) filler
                 ++ drop (pos + 2) hexstring)
  else Ok hexstring.

(** ** Command APDUs *)

(** (case, lc, le, data) *)
Definition parse_command_apdu (apdu : bytes) : result (Z * Z * Z * bytes) :=
  if len apdu =? 4 then Ok (1, 0, 0, [])
  else if len apdu =? 5 then
    le ← idx apdu 4;
    let le := if le =? 0 then 256 else le in
    Ok (2, 0, le, [])
  else if 5 <? len apdu then
    lc ← idx apdu 4;
    let lc := if lc =? 0 then 256 else lc in
    let data := slice 5 (Z.to_nat (lc + 5)) apdu in
    if len apdu =? 5 + lc then Ok (3, lc, 0, data)
    else if len apdu =? 5 + lc + 1 then
      le ← zidx apdu (5 + lc);
      let le := if le =? 0 then 256 else le in
      Ok (4, lc, le, data)
    else Err ValueError
  else Err ValueError.

(** ** Decimal digits *)

Definition digit_val (c : ascii) : Z := code c - 48.
Definition digits_str (s : str) : Prop := Forall (λ c, is_digit c = true) s.

#[export] Instance digits_str_dec s : Decision (digits_str s).
Proof. unfold digits_str. apply _. Defined.

(** Facts about one digit are checked on the ten of them. *)
Lemma digit_cases (P : ascii → Prop) :
  Forall P (map (λ n, chr (48 + Z.of_nat n)) (List.seq 0 10)) → ∀ c, is_digit c = true → P c.
Proof.
  intros HP c Hc.
  assert (c ∈ map (λ n, chr (48 + Z.of_nat n)) (List.seq 0 10)) as Hin.
  { revert Hc. clear. destruct c as [[] [] [] [] [] [] [] []]; intros H; try discriminate H;
      apply (bool_decide_unpack _); vm_compute; exact I. }
  by eapply list.Forall_forall in HP; [|exact Hin].
Qed.

Ltac by_digits :=
  apply digit_cases; apply (bool_decide_unpack _); vm_compute; exact I.

Lemma int_digit_val c : is_digit c = true → int_digit c = Ok (digit_val c).
Proof. revert c. by_digits. Qed.

Lemma digit_range c : is_digit c = true → 0 <= digit_val c <= 9.
Proof. revert c. by_digits. Qed.

Lemma digit_chars c : is_digit c = true →
  is_char "f" c = false ∧ is_char "F" c = false ∧ upper1 c = c ∧ is_space c = false
  ∧ hexval c = Some (digit_val c) ∧ chr (48 + digit_val c) = c ∧ is_hexdig c = true.
Proof. revert c. by_digits. Qed.

Lemma digits_int s : digits_str s → map_r int_digit s = Ok (map digit_val s).
Proof.
  unfold digits_str. induction 1 as [|c s Hc _ IH]; [done|].
  cbn [map_r map]. rewrite int_digit_val by done. mrun. by rewrite IH.
Qed.

Lemma digits_not_f s : digits_str s → Forall (λ c, is_char "f" c = false) s.
Proof. intros Hs. eapply List.Forall_impl; [|exact Hs]. intros c Hc. by apply digit_chars. Qed.

Lemma str_of_digit z : 0 <= z <= 9 → str_of_int z = [chr (48 + z)] ∧ is_digit (chr (48 + z)) = true.
Proof. intros. revert z H. assert (∀ z, 0 <= z < Z.of_nat 10 → str_of_int z = [chr (48 + z)] ∧ is_digit (chr (48 + z)) = true) as H.
  { apply small_cases. repeat constructor. }
  intros z Hz. apply H. lia.
Qed.

Lemma drop_while_end_none {A} (p : A → bool) l :
  Forall (λ x, p x = false) l → drop_while_end p l = l.
Proof.
  intros Hl. destruct l as [|x l] using rev_ind; [done|].
  apply Forall_app in Hl as [_ Hx]. inversion Hx; subst. by apply drop_while_end_snoc_id.
Qed.

(** ** The Luhn sum

    [wsum b l]: the digits of [l] summed, every other one "doubled",
    starting with the first one if [b] is set. *)
Definition double (d : Z) : Z := d * 2 / 10 + d * 2 mod 10.

Fixpoint wsum (b : bool) (l : list Z) : Z :=
  match l with
  | [] => 0
  | x :: l' => (if b then double x else x) + wsum (negb b) l'
  end.

Lemma sum_list_app l k : sum_list (l ++ k) = sum_list l + sum_list k.
Proof.
  induction l as [|x l IH]; [done|]. cbn [app].
  change (x + sum_list (l ++ k) = (x + sum_list l) + sum_list k). lia.
Qed.

Lemma every_wsum l :
  sum_list (every 1 1 l ++ map double (every 1 0 l)) = wsum true l
  ∧ sum_list (every 1 0 l ++ map double (every 1 1 l)) = wsum false l.
Proof.
  induction l as [|x l [IH1 IH2]]; [done|].
  rewrite !sum_list_app in *. cbn [every map wsum negb].
  rewrite <- IH1, <- IH2. unfold sum_list. cbn [foldr]. lia.
Qed.

Lemma calculate_luhn_eq s :
  digits_str s → calculate_luhn s = Ok ((- wsum true (rev (map digit_val s))) mod 10).
Proof.
  intros Hs. unfold calculate_luhn. rewrite digits_int by done. mrun.
  fold double. change (λ d : Z, d * 2 / 10 + d * 2 mod 10) with double.
  rewrite (proj1 (every_wsum _)). set (w := wsum _ _). f_equal.
  destruct (Z.eqb_spec (10 - w mod 10) 10); dlia.
Qed.

Lemma wsum_app b l k : wsum b (l ++ k) = wsum b l + wsum (xorb b (Nat.odd (length l))) k.
Proof.
  revert b. induction l as [|x l IH]; intros b; [by destruct b|].
  cbn [app wsum length]. rewrite IH, Nat.odd_succ, <- Nat.negb_odd.
  destruct b, (Nat.odd (length l)); cbn; lia.
Qed.

(** A number carries a correct check digit exactly when its Luhn sum is a
    multiple of ten. *)
Definition luhn_valid (s : str) : Prop := wsum false (rev (map digit_val s)) mod 10 = 0.

#[export] Instance luhn_valid_dec s : Decision (luhn_valid s).
Proof. unfold luhn_valid. apply _. Defined.

Lemma zidx_last {A} (l : list A) x : zidx (l ++ [x]) (-1) = Ok x.
Proof.
  unfold zidx. rewrite bool_decide_false by lia. rewrite bool_decide_ok by (rewrite len_app; unfold len; cbn; lia).
  unfold idx. replace (Z.to_nat _) with (length l) by (rewrite len_app; unfold len; cbn; lia).
  rewrite lookup_app_r, Nat.sub_diag by lia. done.
Qed.

Lemma verify_luhn_eq s c :
  digits_str (s ++ [c]) →
  verify_luhn (s ++ [c]) = if bool_decide (luhn_valid (s ++ [c])) then Ok () else Err ValueError.
Proof.
  intros [Hs Hc]%Forall_app. inversion Hc as [|? ? Hd _]; subst.
  unfold verify_luhn. rewrite but_last_app by done. rewrite calculate_luhn_eq by done. mrun.
  rewrite zidx_last. mrun. set (w := wsum true _).
  destruct (str_of_digit (- w mod 10)) as [-> _]; [dlia|].
  pose proof (digit_range c Hd).
  destruct (digit_chars c Hd) as (_ & _ & _ & _ & _ & Hchr & _).
  assert (luhn_valid (s ++ [c]) ↔ [chr (48 + - w mod 10)] = [c]) as Hiff.
  { unfold luhn_valid. rewrite map_app, rev_app_distr. cbn [rev map app wsum negb]. fold w.
    split.
    - intros Hv. rewrite <- Hchr. do 3 f_equal. dlia.
    - intros [= Hv]. rewrite <- Hchr in Hv. apply (f_equal code) in Hv.
      assert (∀ z, 0 <= z < Z.of_nat 10 → code (chr (48 + z)) = 48 + z) as Hcode.
      { apply small_cases. repeat constructor. }
      rewrite !Hcode in Hv by dlia. dlia. }
  by rewrite (bool_decide_ext _ _ Hiff).
Qed.

Lemma snoc_of {A} (s : list A) : (0 < length s)%nat → ∃ k c, s = k ++ [c].
Proof. destruct s as [|c k] using rev_ind; cbn; [lia|eauto]. Qed.

Lemma append_luhn s :
  digits_str s →
  ∃ c, calculate_luhn s ≫= (λ cd, Ok (s ++ str_of_int cd)) = Ok (s ++ [c])
       ∧ digits_str (s ++ [c]) ∧ luhn_valid (s ++ [c]).
Proof.
  intros Hs. rewrite calculate_luhn_eq by done. mrun. set (w := wsum true _).
  destruct (str_of_digit (- w mod 10)) as [-> Hd]; [dlia|].
  eexists. split; [done|]. split; [apply Forall_app; by repeat constructor|].
  unfold luhn_valid. rewrite map_app, rev_app_distr. cbn [rev map app wsum negb]. fold w.
  assert (∀ z, 0 <= z < Z.of_nat 10 → digit_val (chr (48 + z)) = z) as Hv.
  { apply small_cases. repeat constructor. }
  rewrite Hv by dlia. dlia.
Qed.

Lemma digit_inj c d : is_digit c = true → is_digit d = true → digit_val c = digit_val d → c = d.
Proof.
  intros Hc Hd E. destruct (digit_chars c Hc) as (_ & _ & _ & _ & _ & <- & _).
  destruct (digit_chars d Hd) as (_ & _ & _ & _ & _ & <- & _). by rewrite E.
Qed.

(** Neither weight of the sum maps two digits to the same residue. *)
Lemma weight_inj (b : bool) x y :
  0 <= x <= 9 → 0 <= y <= 9 →
  (if b then double x else x) mod 10 = (if b then double y else y) mod 10 → x = y.
Proof. unfold double. intros Hx Hy. destruct b; dlia. Qed.

Lemma verify_luhn_digits s :
  digits_str s → (0 < length s)%nat →
  verify_luhn s = if bool_decide (luhn_valid s) then Ok () else Err ValueError.
Proof. intros Hs (k & c & ->)%snoc_of. by apply verify_luhn_eq. Qed.

(** A number with a correct check digit stops verifying when any one of
    its digits, the check digit included, is replaced by another digit. *)
Theorem luhn_detects_single_error p c d q :
  digits_str (p ++ [c] ++ q) → is_digit d = true → c ≠ d →
  verify_luhn (p ++ [c] ++ q) = Ok () →
  verify_luhn (p ++ [d] ++ q) = Err ValueError.
Proof.
  intros Hs Hd Hne Hok.
  pose proof Hs as [Hp [Hc Hq]%Forall_app]%Forall_app. inversion Hc as [|? ? Hc1 _]; subst.
  assert (digits_str (p ++ [d] ++ q)) as Hs'.
  { apply Forall_app. split; [done|]. apply Forall_app. split; [by repeat constructor|done]. }
  rewrite verify_luhn_digits in Hok by (exact Hs || (rewrite !length_app; cbn [length]; lia)).
  rewrite verify_luhn_digits by (exact Hs' || (rewrite !length_app; cbn [length]; lia)).
  destruct (bool_decide (luhn_valid (p ++ [c] ++ q))) eqn:E1; [|done].
  apply bool_decide_eq_true in E1.
  rewrite bool_decide_false; [done|]. intros E2. apply Hne, digit_inj; [done..|].
  unfold luhn_valid in E1, E2. revert E1 E2.
  rewrite !map_app, !rev_app_distr, <- !app_assoc, !wsum_app. cbn [map rev app length wsum].
  pose proof (digit_range c Hc1). pose proof (digit_range d Hd).
  set (b := xorb _ _). intros E1 E2. apply (weight_inj b); [lia..|].
  set (x := if b then _ else _) in *.
  set (y := if b then double (digit_val d) else _) in *. dlia.
Qed.

Lemma luhn_detects_single_error_witness :
  verify_luhn (lit "8988211000000085102") = Err ValueError.
Proof.
  apply (luhn_detects_single_error (lit "898821100000008510") "3" "2" []);
    [by apply (bool_decide_unpack _); vm_compute | done | done | by vm_compute].
Defined.

(** ** ICCID *)

(** The 19 or 20 digits [sanitize_iccid] leaves alone. *)
Lemma sanitize_valid s :
  digits_str s → luhn_valid s → len s = 19 ∨ len s = 20 → sanitize_iccid s = Ok s.
Proof.
  intros Hs Hv Hl.
  assert (0 < length s)%nat as Hne by (unfold len in Hl; lia).
  assert (verify_luhn s = Ok ()) as Hok by (rewrite verify_luhn_digits, bool_decide_ok; done).
  unfold sanitize_iccid. destruct Hl as [Hl|Hl]; rewrite Hl.
  - change (18 <=? 19) with true. change (19 <=? 20) with true. change (19 =? 18) with false.
    mrun. rewrite Hl. change (19 =? 20) with false. change (19 =? 19) with true. mrun. by rewrite Hok.
  - change (18 <=? 20) with true. change (20 <=? 20) with true. change (20 =? 18) with false.
    mrun. rewrite Hl. change (20 =? 20) with true. change (20 =? 19) with false. cbn match. by rewrite Hok.
Qed.

(** For a string of digits, sanitize_iccid rejects exactly the lengths
    outside 18..20 and the 20-digit numbers with a wrong check digit;
    otherwise it returns the input, extended by at most the check digit, as
    19 or 20 digits that pass the Luhn check and that it leaves unchanged. *)
Theorem sanitize_iccid_spec s :
  digits_str s →
  match sanitize_iccid s with
  | Ok t => 18 <= len s <= 20 ∧ digits_str t ∧ luhn_valid t ∧ (len t = 19 ∨ len t = 20)
            ∧ (t = s ∨ ∃ c, t = s ++ [c] ∧ (len s = 18 ∨ ¬ luhn_valid s))
            ∧ sanitize_iccid t = Ok t
  | Err e => e = ValueError ∧ (len s < 18 ∨ 20 < len s ∨ len s = 20 ∧ ¬ luhn_valid s)
  end.
Proof.
  intros Hs.
  destruct (Z.leb_spec 18 (len s)) as [H18|H18].
  2: { unfold sanitize_iccid. rewrite (proj2 (Z.leb_gt 18 (len s))) by lia. cbn. auto. }
  destruct (Z.leb_spec (len s) 20) as [H20|H20].
  2: { unfold sanitize_iccid. rewrite (proj2 (Z.leb_le 18 (len s))), (proj2 (Z.leb_gt (len s) 20)) by lia.
       cbn. auto. }
  destruct (decide (luhn_valid s ∧ len s ≠ 18)) as [[Hv Hn]|Hn].
  { rewrite sanitize_valid by (done || lia). split_and!; try done; try lia; [by left|].
    apply sanitize_valid; [done..|lia]. }
  destruct (append_luhn s Hs) as (c & Hc & Hsc & Hvc).
  assert (0 < length s)%nat as Hne by (unfold len in *; lia).
  assert (len (s ++ [c]) = len s + 1) as Hlc by (rewrite len_app; reflexivity).
  unfold sanitize_iccid at 1. rewrite (proj2 (Z.leb_le 18 (len s))), (proj2 (Z.leb_le (len s) 20)) by lia.
  mrun. destruct (Z.eqb_spec (len s) 18) as [E|E].
  - assert (verify_luhn (s ++ [c]) = Ok ()) as Hok by (by rewrite verify_luhn_eq, bool_decide_ok).
    rewrite Hc. mrun. rewrite Hlc, E. change (18 + 1 =? 20) with false. change (18 + 1 =? 19) with true.
    mrun. rewrite Hok.
    split_and!; try done; [left; lia| |apply sanitize_valid; [done..|lia]].
    right. exists c. auto.
  - assert (¬ luhn_valid s) as Hnv by tauto. mrun.
    rewrite verify_luhn_digits, bool_decide_false by done.
    destruct (Z.eqb_spec (len s) 20) as [E2|E2]; mrun; [auto|].
    assert (len s = 19) as E3 by lia. rewrite E3. cbn [Z.eqb Pos.eqb].
    rewrite Hc. split_and!; try done; [right; lia| |apply sanitize_valid; [done..|lia]].
    right. exists c. auto.
Qed.

Lemma sanitize_iccid_spec_witness :
  match sanitize_iccid (lit "898821100000008510") with
  | Ok t => t = lit "8988211000000085103" ∧ luhn_valid t
  | Err _ => False
  end.
Proof.
  assert (digits_str (lit "898821100000008510")) as Hs by (apply (bool_decide_unpack _); vm_compute; exact I).
  pose proof (sanitize_iccid_spec _ Hs) as H.
  assert (sanitize_iccid (lit "898821100000008510") = Ok (lit "8988211000000085103")) as E by (vm_compute; reflexivity).
  rewrite E in H |- *. split; [reflexivity|apply H].
Defined.

Lemma rstrip_digits s n : digits_str s → rstrip_c "f" (s ++ replicate n "f"%char) = s.
Proof.
  intros Hs. unfold rstrip_c. rewrite drop_while_end_replicate by done.
  apply drop_while_end_none, digits_not_f, Hs.
Qed.

Lemma strip_digits s n : digits_str s → strip_c "f" (s ++ replicate n "f"%char) = s.
Proof.
  intros Hs. unfold strip_c. destruct s as [|c s].
  - cbn [app]. by rewrite <- (app_nil_r (replicate n _)), drop_while_replicate.
  - rewrite drop_while_id; [by apply rstrip_digits|].
    intros x [= <-]. inversion Hs; subst. by apply digit_chars.
Qed.

(** Case analysis on the length of a string of at most 15 characters. *)
Ltac up_to_15 s :=
  match goal with H : (length s <= 15)%nat |- _ => revert H end;
  generalize (length s); intros n ?; do 16 (destruct n as [|n]; [reflexivity|]); lia.

Section codec_facts.
Context `{OsmocomUtilsLaws}.

(** Dec_iccid undoes enc_iccid for up to 20 digits, and the encoding
    always fills the ten bytes of EF.ICCID. *)
Theorem iccid_round_trip s :
  digits_str s → (length s <= 20)%nat →
  dec_iccid (enc_iccid s) = s ∧ length (enc_iccid s) = 20%nat.
Proof.
  intros Hs Hl. unfold dec_iccid, enc_iccid. rewrite rpad_eq.
  destruct (swap_nibbles_even 10 (s ++ replicate (20 - length s) "f"%char)) as [H1 H2].
  { rewrite length_app, length_replicate. lia. }
  rewrite H2, H1, length_app, length_replicate, strip_digits by done. split; [done|lia].
Qed.

(** Dec_imsi undoes enc_imsi for up to 15 digits, odd or even in number,
    and the encoding always fills the nine bytes of EF.IMSI. *)
Theorem imsi_round_trip s :
  digits_str s → (length s <= 15)%nat →
  dec_imsi (enc_imsi s) = Ok (Some s) ∧ length (enc_imsi s) = 18%nat.
Proof.
  intros Hs Hl. unfold enc_imsi. rewrite half_round_up_eq, rpad_eq.
  set (o := if Nat.odd (length s) then "9"%char else "1"%char).
  set (l := Nat.div2 (length s + 1 + 1)).
  assert (fmt_x 1 (Z.lor (Z.shiftl (Z.land (len s) 1) 3) 1) = [o]) as ->.
  { unfold o, len. up_to_15 s. }
  assert (fmt_x 2 (Z.of_nat l) = ["0"%char; chr (48 + Z.of_nat l)]) as ->.
  { unfold l. up_to_15 s. }
  assert (py_int 16 ["0"%char; chr (48 + Z.of_nat l)] = Ok (Z.of_nat l)) as Hint.
  { unfold l. up_to_15 s. }
  destruct (swap_nibbles_even 8 ([o] ++ s ++ replicate (15 - length s) "f"%char)) as [H1 H2].
  { rewrite !length_app, length_replicate. cbn. lia. }
  set (t := swap_nibbles _) in *.
  assert (len (["0"%char; chr (48 + Z.of_nat l)] ++ t) = 18) as Hlen.
  { unfold len. rewrite length_app, H1, !length_app, length_replicate. cbn. lia. }
  split; [|unfold len in Hlen; lia].
  unfold dec_imsi. rewrite Hlen. change (18 <? 4) with false.
  change (slice 0 2 (["0"%char; chr (48 + Z.of_nat l)] ++ t)) with ["0"%char; chr (48 + Z.of_nat l)].
  change (drop 2 (["0"%char; chr (48 + Z.of_nat l)] ++ t)) with t.
  rewrite Hint, H2. mrun. rewrite app_assoc, rstrip_digits
    by (apply Forall_app; split; [repeat constructor; unfold o; by destruct (Nat.odd _)|done]).
  assert (len ([o] ++ s) = 1 + len s) as -> by apply len_cons. pose proof (len_nonneg s).
  rewrite (proj2 (Z.ltb_ge (1 + len s) 1)) by lia.
  change (idx ([o] ++ s) 0) with (Ok o : result ascii). mrun.
  rewrite int_digit_val by (unfold o; by destruct (Nat.odd _)). mrun.
  assert (truthy (Z.land (Z.shiftr (digit_val o) 3) 1) = Nat.odd (length s)) as ->
    by (unfold o; by destruct (Nat.odd _)).
  replace ((_ =? _)) with true; [done|]. symmetry. apply Z.eqb_eq. unfold l, len.
  up_to_15 s.
Qed.
End codec_facts.

(** The witnesses run on the functions of [Ref]. *)
#[local] Existing Instance Ref.utils.
#[local] Existing Instance Ref.utils_laws.

Lemma iccid_round_trip_witness : dec_iccid (enc_iccid (lit "8988211000000085103")) = lit "8988211000000085103".
Proof.
  apply (iccid_round_trip (lit "8988211000000085103"));
    [apply (bool_decide_unpack _); vm_compute; exact I | cbn; lia].
Defined.

Lemma imsi_round_trip_witness : dec_imsi (enc_imsi (lit "26201987654321")) = Ok (Some (lit "26201987654321")).
Proof.
  apply (imsi_round_trip (lit "26201987654321"));
    [apply (bool_decide_unpack _); vm_compute; exact I | cbn; lia].
Defined.

(** ** PLMN *)

Lemma nibbles x y :
  0 <= x < 16 → 0 <= y < 16 →
  Z.land (x * 16 + y) 15 = y ∧ Z.shiftr (Z.land (x * 16 + y) 240) 4 = x.
Proof.
  intros Hx Hy. revert y Hy. revert x Hx.
  apply (small_cases (λ x, ∀ y, 0 <= y < 16 →
    Z.land (x * 16 + y) 15 = y ∧ Z.shiftr (Z.land (x * 16 + y) 240) 4 = x) 16).
  cbn [map List.seq]. repeat (constructor; [apply (small_cases _ 16); repeat constructor|]). constructor.
Qed.

(** The number a string of digits stands for. *)
Definition dec_value (s : str) : Z := foldl (λ a c, a * 10 + digit_val c) 0 s.

Lemma strip_ws_digits s : digits_str s → strip s = s.
Proof.
  intros Hs. unfold strip.
  assert (Forall (λ c, is_space c = false) s) as Hn.
  { eapply List.Forall_impl; [|exact Hs]. intros c Hc. by apply digit_chars. }
  rewrite drop_while_id; [by apply drop_while_end_none|].
  intros x Hx. destruct s; [done|]. injection Hx as ->. by inversion Hn.
Qed.

Lemma upper_strip_digits s : digits_str s →
  strip_c "F" (str_upper s) = s ∧ strip_c "F" (str_upper (s ++ ["F"%char])) = s.
Proof.
  intros Hs.
  assert (str_upper s = s) as Hup.
  { induction Hs as [|c s Hc _ IH]; [done|]. cbn. rewrite IH. f_equal. by apply digit_chars. }
  assert (Forall (λ c, is_char "F" c = false) s) as Hn.
  { eapply List.Forall_impl; [|exact Hs]. intros c Hc. by apply digit_chars. }
  assert (∀ n, strip_c "F" (s ++ replicate n "F"%char) = s) as Hstrip.
  { intros n. unfold strip_c. destruct s as [|c s].
    - cbn [app]. by rewrite <- (app_nil_r (replicate n _)), drop_while_replicate.
    - rewrite drop_while_id, drop_while_end_replicate by (done || (intros x [= <-]; by inversion Hn)).
      by apply drop_while_end_none. }
  split.
  - rewrite Hup. rewrite <- (app_nil_r s) at 1. apply (Hstrip 0%nat).
  - unfold str_upper in *. rewrite map_app, Hup. apply (Hstrip 1%nat).
Qed.

Section plmn_facts.
Context `{OsmocomUtilsLaws}.

Lemma h2i_six a b c d e f va vb vc vd ve vf :
  Forall2 (λ ch v, hexval ch = Some v ∧ is_hexdig ch = true ∧ is_space ch = false)
    [a; b; c; d; e; f] [va; vb; vc; vd; ve; vf] →
  h2i [a; b; c; d; e; f] = Ok [va * 16 + vb; vc * 16 + vd; ve * 16 + vf].
Proof.
  intros HF. repeat match goal with
    | H : Forall2 _ (_ :: _) _ |- _ => inversion H; clear H; subst
    end.
  repeat match goal with H : _ ∧ _ |- _ => destruct H end.
  rewrite h2i_hex by (split; [by repeat constructor|exists 3%nat; reflexivity]).
  unfold bytes_fromhex. cbn [bytes_fromhex_opt].
  repeat match goal with
    | H : hexval ?x = _ |- _ => rewrite H; clear H
    | H : is_space ?x = _ |- _ => rewrite H; clear H
    end. done.
Qed.

Lemma dec_plmn_six a b c d e f :
  dec_plmn [b; a; f; c; e; d]
  = Ok (mkPlmn (strip_c "F" (str_upper [a; b; c])) (strip_c "F" (str_upper [d; e; f]))).
Proof. reflexivity. Qed.

Ltac digit_facts c Hc :=
  let F := fresh "F" in pose proof (digit_chars c Hc) as F; destruct F as (? & ? & ? & ? & ? & ? & ?);
  pose proof (digit_range c Hc).

(** Encoding a three-digit MCC with a two- or three-digit MNC gives three
    bytes from which the string decoders give back both, and the integer
    decoders their numeric values. *)
Theorem plmn_round_trip mcc mnc :
  digits_str mcc → digits_str mnc → length mcc = 3%nat → length mnc = 2%nat ∨ length mnc = 3%nat →
  ∃ p, enc_plmn mcc mnc = Ok p ∧ length p = 6%nat
       ∧ dec_plmn p = Ok (mkPlmn mcc mnc)
       ∧ dec_mcc_from_plmn p = Ok (dec_value mcc)
       ∧ dec_mnc_from_plmn p = Ok (dec_value mnc).
Proof.
  intros Hc Hn Hlc Hln. unfold enc_plmn. rewrite !strip_ws_digits by done.
  destruct (upper_strip_digits _ Hc) as [Huc _]. destruct (upper_strip_digits _ Hn) as [Hun Hun'].
  destruct mcc as [|a [|b [|c [|]]]]; try discriminate Hlc.
  unfold digits_str in Hc, Hn. rewrite !list.Forall_cons in Hc. destruct Hc as (Ha & Hb & Hc & _).
  digit_facts a Ha. digit_facts b Hb. digit_facts c Hc.
  destruct mnc as [|d [|e [|f [|]]]]; try (exfalso; cbn in Hln; lia);
    rewrite !list.Forall_cons in Hn.
  - destruct Hn as (Hd & He & _). digit_facts d Hd. digit_facts e He.
    exists [b; a; "F"%char; c; e; d]. split; [reflexivity|]. split; [reflexivity|].
    split; [rewrite dec_plmn_six; cbn [app] in *; by rewrite Huc, Hun'|].
    unfold dec_mcc_from_plmn, dec_mnc_from_plmn.
    rewrite (h2i_six _ _ _ _ _ _ (digit_val b) (digit_val a) 15 (digit_val c) (digit_val e) (digit_val d))
      by (repeat constructor; try done).
    mrun. unfold idx. cbn [lookup list_lookup from_opt]. mrun.
    unfold derive_mnc, derive_mcc, dec_value. cbn [foldl].
    destruct (nibbles (digit_val b) (digit_val a)) as [-> ->]; [lia..|].
    destruct (nibbles 15 (digit_val c)) as [-> ->]; [lia..|].
    destruct (nibbles (digit_val e) (digit_val d)) as [-> ->]; [lia..|].
    rewrite !(proj2 (Z.eqb_neq (digit_val _) 15)) by lia. cbn. split; f_equal; lia.
  - destruct Hn as (Hd & He & Hf & _). digit_facts d Hd. digit_facts e He. digit_facts f Hf.
    exists [b; a; f; c; e; d]. split; [reflexivity|]. split; [reflexivity|].
    split; [rewrite dec_plmn_six; cbn [app] in *; by rewrite Huc, Hun|].
    unfold dec_mcc_from_plmn, dec_mnc_from_plmn.
    rewrite (h2i_six _ _ _ _ _ _ (digit_val b) (digit_val a) (digit_val f) (digit_val c) (digit_val e) (digit_val d))
      by (repeat constructor; try done).
    mrun. unfold idx. cbn [lookup list_lookup from_opt]. mrun.
    unfold derive_mnc, derive_mcc, dec_value. cbn [foldl].
    destruct (nibbles (digit_val b) (digit_val a)) as [-> ->]; [lia..|].
    destruct (nibbles (digit_val f) (digit_val c)) as [-> ->]; [lia..|].
    destruct (nibbles (digit_val e) (digit_val d)) as [-> ->]; [lia..|].
    rewrite !(proj2 (Z.eqb_neq (digit_val _) 15)) by lia. cbn. split; f_equal; lia.
Qed.
End plmn_facts.

Lemma plmn_round_trip_witness :
  ∃ p, enc_plmn (lit "262") (lit "01") = Ok p ∧ length p = 6%nat
       ∧ dec_plmn p = Ok (mkPlmn (lit "262") (lit "01"))
       ∧ dec_mcc_from_plmn p = Ok (dec_value (lit "262")) ∧ dec_mnc_from_plmn p = Ok (dec_value (lit "01")).
Proof.
  apply (plmn_round_trip (lit "262") (lit "01"));
    [by apply (bool_decide_unpack _); vm_compute | by apply (bool_decide_unpack _); vm_compute | done | by left].
Defined.

(** ** Status word patterns and command APDUs *)

(** Does one character of a status word fit one of a pattern. *)
Definition fits (p s : ascii) : bool := is_char "?" p || is_char "x" p || is_char (lower1 s) p.

(** A four-character status word matches a four-character pattern exactly
    when each character is a wildcard or equal to the word's, in lower case. *)
Theorem sw_match_spec sw pattern :
  length sw = 4%nat → length pattern = 4%nat →
  sw_match sw pattern = Ok (forallb (λ ps, fits ps.1 ps.2) (zip pattern sw)).
Proof.
  intros Hs Hp.
  destruct sw as [|a [|b [|c [|d [|]]]]]; try discriminate Hs.
  destruct pattern as [|p [|q [|r [|t [|]]]]]; try discriminate Hp.
  set (m := λ p s, if is_char "?" p then "?"%char else if is_char "x" p then "x"%char else lower1 s).
  assert (∀ p s, m p s = p ↔ fits p s = true) as Hm.
  { intros p' s'. unfold m, fits. destruct (is_char "?" p') eqn:E1.
    { apply Ascii.eqb_eq in E1 as <-. done. }
    destruct (is_char "x" p') eqn:E2; [by apply Ascii.eqb_eq in E2 as <-|].
    cbn. unfold is_char. by rewrite Ascii.eqb_eq. }
  assert (∀ l k i p' s', k !! i = Some p' → l !! i = Some (lower1 s') →
            sw_mask_char l k i = Ok (m p' s')) as Hc.
  { intros l k i p' s' H1 H2. unfold sw_mask_char, idx, m. rewrite H1, H2. mrun.
    by destruct (is_char "?" p'), (is_char "x" p'). }
  unfold sw_match. cbn [map_r].
  rewrite (Hc _ _ 0%nat p a), (Hc _ _ 1%nat q b), (Hc _ _ 2%nat r c), (Hc _ _ 3%nat t d) by done. mrun.
  f_equal. apply eq_true_iff_eq. rewrite bool_decide_eq_true.
  cbn [zip zip_with forallb fst snd]. rewrite !andb_true_iff, <- !Hm. split.
  - intros E. injection E as E1 E2 E3 E4. by split_and!.
  - intros (E1 & E2 & E3 & E4 & _). congruence.
Qed.

Lemma sw_match_spec_witness : sw_match (lit "9F1A") (lit "9fxx") = Ok true.
Proof. apply (sw_match_spec (lit "9F1A") (lit "9fxx")); reflexivity. Defined.

Definition coded (n : Z) : bool := bool_decide (1 <= n <= 256).

(** The four cases of ISO 7816-3 (short form): header [h] of four bytes,
    then Lc and data, then Le, where a length of 256 is written 0. *)
Definition apdu_of (h : bytes) (case lc le : Z) (data : bytes) : option bytes :=
  if negb (len h =? 4) then None
  else if case =? 1 then if (lc =? 0) && (le =? 0) && (len data =? 0) then Some h else None
  else if case =? 2 then if (lc =? 0) && coded le && (len data =? 0) then Some (h ++ [le mod 256]) else None
  else if case =? 3 then
    if (lc =? len data) && (le =? 0) && coded lc then Some (h ++ [lc mod 256] ++ data) else None
  else if case =? 4 then
    if (lc =? len data) && coded le && coded lc then Some (h ++ [lc mod 256] ++ data ++ [le mod 256]) else None
  else None.

Definition coded_len (b : Z) : Z := if b =? 0 then 256 else b.

Lemma coded_ok n : 1 <= n <= 256 → coded n = true.
Proof. apply bool_decide_ok. Qed.

Lemma coded_len_byte b : is_byte b → 1 <= coded_len b <= 256 ∧ coded_len b mod 256 = b.
Proof. unfold is_byte, coded_len. intros. destruct (Z.eqb_spec b 0); [subst; done|]. rewrite Z.mod_small; lia. Qed.

Lemma coded_len_mod n : 1 <= n <= 256 → coded_len (n mod 256) = n.
Proof.
  intros. unfold coded_len. destruct (decide (n = 256)) as [->|]; [done|].
  rewrite Z.mod_small by lia. rewrite (proj2 (Z.eqb_neq n 0)); [done|lia].
Qed.

Lemma apdu_parts (apdu : bytes) :
  5 < len apdu → ∃ h x r, apdu = h ++ x :: r ∧ len h = 4 ∧ 1 <= len r ∧ idx apdu 4 = Ok x.
Proof.
  unfold len. intros Hl. destruct apdu as [|a [|b [|c [|d [|x r]]]]]; cbn in Hl; try lia.
  exists [a; b; c; d], x, r. split_and!; try done. lia.
Qed.

(** Five header bytes, then [r]. *)
Lemma parse_long h x r :
  len h = 4 → 1 <= len r →
  parse_command_apdu (h ++ x :: r) =
  let lc := coded_len x in
  if len r =? lc then Ok (3, lc, 0, take (Z.to_nat lc) r)
  else if len r =? lc + 1 then
    b ← zidx (h ++ x :: r) (5 + lc); Ok (4, lc, coded_len b, take (Z.to_nat lc) r)
  else Err ValueError.
Proof.
  intros Hh Hr. unfold parse_command_apdu. fold (coded_len x).
  assert (len (h ++ x :: r) = 5 + len r) as -> by (rewrite len_app, len_cons; lia).
  rewrite (proj2 (Z.eqb_neq (5 + len r) 4)), (proj2 (Z.eqb_neq (5 + len r) 5)),
    (proj2 (Z.ltb_lt 5 (5 + len r))) by lia.
  assert (idx (h ++ x :: r) 4 = Ok x) as ->.
  { unfold idx. rewrite lookup_app_r by (unfold len in Hh; lia).
    by replace (4 - length h)%nat with 0%nat by (unfold len in Hh; lia). }
  mrun. fold (coded_len x). set (lc := coded_len x).
  assert (slice 5 (Z.to_nat (lc + 5)) (h ++ x :: r) = take (Z.to_nat lc) r) as ->.
  { unfold slice. change (x :: r) with ([x] ++ r). rewrite app_assoc, drop_app_length'
      by (rewrite length_app; unfold len in Hh; cbn; lia). f_equal. lia. }
  replace (5 + len r =? 5 + lc) with (len r =? lc) by (apply eq_true_iff_eq; rewrite !Z.eqb_eq; lia).
  replace (5 + len r =? 5 + lc + 1) with (len r =? lc + 1) by (apply eq_true_iff_eq; rewrite !Z.eqb_eq; lia).
  done.
Qed.

Lemma zidx_at {A} (p : list A) x r i : len p = i → zidx (p ++ x :: r) i = Ok x.
Proof.
  intros <-. unfold zidx. rewrite bool_decide_ok by apply len_nonneg. unfold idx, len.
  by rewrite Nat2Z.id, lookup_app_r, Nat.sub_diag by lia.
Qed.

(** The APDU of a case parses to what it was built from. *)
Lemma parse_apdu_of h c lc le data apdu :
  apdu_of h c lc le data = Some apdu → parse_command_apdu apdu = Ok (c, lc, le, data).
Proof.
  intros Hh. unfold apdu_of in Hh. destruct (Z.eqb_spec (len h) 4) as [El|]; [|done].
  destruct (Z.eqb_spec c 1) as [->|]; [|destruct (Z.eqb_spec c 2) as [->|];
    [|destruct (Z.eqb_spec c 3) as [->|]; [|destruct (Z.eqb_spec c 4) as [->|]; [|done]]]];
    cbn [negb Z.eqb Pos.eqb] in Hh; destruct (_ && _) eqn:Ec in Hh; try done; injection Hh as <-;
    unfold coded in Ec; rewrite !andb_true_iff, ?Z.eqb_eq, ?bool_decide_eq_true in Ec.
  + destruct Ec as [[-> ->] Hd]. destruct data; [|unfold len in Hd; cbn in Hd; lia].
    unfold parse_command_apdu. by rewrite El.
  + destruct Ec as [[-> Hle] Hd]. destruct data; [|unfold len in Hd; cbn in Hd; lia].
    unfold parse_command_apdu. rewrite len_app, El. cbn -[Z.modulo]. unfold idx.
    rewrite lookup_app_r by (unfold len in El; lia).
    replace (4 - length h)%nat with 0%nat by (unfold len in El; lia).
    cbn -[Z.modulo]. fold (coded_len (le mod 256)). by rewrite coded_len_mod.
  + destruct Ec as [[-> ->] Hlc]. cbn [app].
    rewrite parse_long by (done || lia). cbn zeta. rewrite coded_len_mod by done.
    by rewrite Z.eqb_refl, take_len.
  + destruct Ec as [[-> Hle] Hlc]. cbn [app].
    rewrite parse_long by (rewrite ?len_app; done || (change (len [le mod 256]) with 1; lia)). cbn zeta.
    rewrite coded_len_mod, len_app by done. change (len [le mod 256]) with 1.
    rewrite (proj2 (Z.eqb_neq _ _)), Z.eqb_refl by lia.
    rewrite app_comm_cons, app_assoc, zidx_at by (rewrite len_app, len_cons; lia). mrun.
    rewrite coded_len_mod by done. rewrite take_app_length'; [done|unfold len; lia].
Qed.

Lemma apdu_of_parse apdu c lc le data :
  is_bytes apdu → parse_command_apdu apdu = Ok (c, lc, le, data) → ∃ h, apdu_of h c lc le data = Some apdu.
Proof.
  intros Hb.
  destruct (Z.ltb_spec 5 (len apdu)) as [Hl|Hl].
  + destruct (apdu_parts apdu Hl) as (h & x & r & -> & Hh & Hr & _).
    rewrite parse_long by done. apply is_bytes_app in Hb as [_ Hb].
    inversion Hb as [|? ? Hx Hrb]; subst. destruct (coded_len_byte x Hx) as [Hlc Hmod].
    cbn zeta. set (lc' := coded_len x) in *. clearbody lc'.
    destruct (Z.eqb_spec (len r) lc') as [E|E].
    * intros [= <- <- <- <-]. exists h. unfold apdu_of. rewrite take_len, E by lia.
      rewrite Hh, (coded_ok lc'), !Z.eqb_refl, Hmod by lia. done.
    * destruct (Z.eqb_spec (len r) (lc' + 1)) as [E2|E2]; [|done].
      destruct (snoc_of r) as (k & b & ->); [unfold len in Hr; lia|].
      rewrite len_app in E2. change (len [b]) with 1 in E2. apply is_bytes_app in Hrb as [_ Hbb].
      pose proof (Forall_inv Hbb) as Hbyte. cbv beta in Hbyte. destruct (coded_len_byte b Hbyte) as [Hle Hmod2].
      rewrite app_comm_cons, app_assoc, zidx_at by (rewrite len_app, len_cons; lia). mrun.
      intros [= <- <- <- <-]. exists h. unfold apdu_of.
      rewrite take_app_length' by (unfold len in E2; lia).
      rewrite Hh, (coded_ok lc'), (coded_ok (coded_len b)), Hmod, Hmod2 by lia.
      replace (len k) with lc' by lia. rewrite !Z.eqb_refl. cbn. by rewrite <- app_assoc.
  + unfold parse_command_apdu. rewrite (proj2 (Z.ltb_ge 5 (len apdu))) by done.
    destruct (Z.eqb_spec (len apdu) 4) as [E|E].
    { intros [= <- <- <- <-]. exists apdu. unfold apdu_of. by rewrite E. }
    destruct (Z.eqb_spec (len apdu) 5) as [E5|E5]; [|done].
    destruct apdu as [|p [|q [|r [|s [|t [|]]]]]]; try (unfold len in E5; cbn in E5; lia).
    change (idx [p; q; r; s; t] 4) with (Ok t : result Z). mrun. fold (coded_len t).
    intros [= <- <- <- <-]. exists [p; q; r; s]. unfold apdu_of.
    assert (is_byte t) as Ht by (unfold is_bytes in Hb; rewrite !list.Forall_cons in Hb; tauto).
    destruct (coded_len_byte t Ht) as [Hle ->]. by rewrite coded_ok.
Qed.

(** Parse_command_apdu accepts exactly the APDUs of the four cases, and
    returns the case, the lengths (0 read as 256) and the data they were
    built from. *)
Theorem parse_command_apdu_spec apdu c lc le data :
  is_bytes apdu →
  parse_command_apdu apdu = Ok (c, lc, le, data) ↔ ∃ h, apdu_of h c lc le data = Some apdu.
Proof.
  intros Hb. split; [by apply apdu_of_parse|]. intros [h Hh]. by eapply parse_apdu_of.
Qed.

Lemma parse_command_apdu_spec_witness : ∃ h, apdu_of h 4 2 256 [63; 0] = Some [0; 164; 0; 4; 2; 63; 0; 0].
Proof. apply parse_command_apdu_spec; [by apply (bool_decide_unpack _); vm_compute | reflexivity]. Defined.
