(* ===== verification/DataObjects.v ===== *)
(** pySim/utils.py, second part: the ISO 7816-4 data objects with their
    collections, choices and sequences, the card command sets, and the ATR
    parser. *)

From S2P Require Import Prelude Osmocom Utils.

(** ** Data objects

    A subclass of [DataObject] gives [from_bytes] (which leaves the decoded
    value in [self.decoded]), [to_bytes] (which reads it there) and may
    override [_compute_tag]. Every decoder below reads [self.decoded] right
    after [from_bytes] has set it, and every encoder sets it first, so the
    value is passed instead of kept in the object. *)
Record DataObject (V : Type) := mkDO {
  do_name : str;
  do_tag : Z;
  do_compute_tag : V → Z;
  do_from_bytes : bytes → result V;
  do_to_bytes : V → result bytes;
}.
Arguments do_name {V} _.
Arguments do_tag {V} _.
Arguments do_compute_tag {V} _ _.
Arguments do_from_bytes {V} _ _.
Arguments do_to_bytes {V} _ _.

(** The class [TL0_DataObject]: tag, length 0, no value part. *)
Definition TL0_DataObject {V} (name : str) (tag : Z) (val : V) : DataObject V :=
  mkDO V name tag (λ _, tag)
    (λ binary, if negb (len binary =? 0) then Err ValueError else Ok val)
    (λ _, Ok []).

Section codecs.
Context `{OsmocomTlv} {V : Type}.
Implicit Types (o : DataObject V) (do : bytes).

(** (decoded value, remainder) *)
Definition from_tlv o do : result (V * bytes) :=
  tag ← idx do 0;
  if negb (tag =? do_tag o) then Err ValueError
  else
    length ← idx do 1;
    let val := slice 2 (2 + Z.to_nat length) do in
    v ← do_from_bytes o val;
    Ok (v, drop (2 + Z.to_nat length) do).

Definition to_tlv o (v : V) : result bytes :=
  val ← do_to_bytes o v;
  Ok (bertlv_encode_tag (do_compute_tag o v) ++ bertlv_encode_len (len val) ++ val).

Definition to_dict o (v : V) : str * V := (do_name o, v).

Definition decode o (binary : bytes) : result ((str * V) * bytes) :=
  tag ← idx binary 0;
  if negb (tag =? do_tag o) then Err ValueError
  else
    '(v, remainder) ← from_tlv o binary;
    Ok (to_dict o v, remainder).

Definition encode o (v : V) : result bytes := to_tlv o v.

(** *** Collections

    [members_by_tag] and [members_by_name] are dicts built from the list of
    members: of two members with the same key the later one stays. *)
Definition members := list (DataObject V).

Definition find_last {A} (p : A → bool) (l : list A) : option A := find p (rev l).

Definition members_by_tag (ms : members) (tag : Z) : option (DataObject V) :=
  find_last (λ m, do_tag m =? tag) ms.
Definition members_by_name (ms : members) (name : str) : option (DataObject V) :=
  find_last (λ m, bool_decide (do_name m = name)) ms.

(** [fuel]: iterations of the while loop; one per byte of input is enough
    ([collection_decode_total]). *)
Fixpoint collection_decode (fuel : nat) (ms : members) (res : list (str * V)) (remainder : bytes)
    : result (list (str * V) * bytes) :=
  match remainder with
  | [] => Ok (res, [])
  | tag :: _ =>
      if tag =? 255 then Ok (res, remainder)
      else match members_by_tag ms tag with
           | None => Err ValueError
           | Some obj =>
               match fuel with
               | O => Err OutOfFuel
               | S fuel' =>
                   '(v, remainder') ← from_tlv obj remainder;
                   collection_decode fuel' ms (res ++ [to_dict obj v]) remainder'
               end
           end
  end.

Definition DataObjectCollection_decode (ms : members) (binary : bytes) :=
  collection_decode (length binary) ms [] binary.

(** [self.members_by_name(i[0])] calls a dict: TypeError as soon as there is
    something to encode. *)
Definition DataObjectCollection_encode (ms : members) (decoded : list (str * V)) : result bytes :=
  match decoded with
  | [] => Ok []
  | _ :: _ => Err TypeError
  end.

(** *** Choices *)
Definition choice_decode (ms : members) (binary : bytes) : result (option (str * V) * bytes) :=
  tag ← idx binary 0;
  if tag =? 255 then Ok (None, binary)
  else match members_by_tag ms tag with
       | None => Err ValueError
       | Some obj => '(v, remainder) ← from_tlv obj binary; Ok (Some (to_dict obj v), remainder)
       end.

Definition choice_encode (ms : members) (decoded : list (str * V)) : result bytes :=
  '(name, v) ← idx decoded 0;
  obj ← from_opt KeyError (members_by_name ms name);
  to_tlv obj v.

(** *** Sequences *)
Inductive element :=
| Obj (o : DataObject V)
| Choice (ms : members).

Definition element_decode (e : element) (binary : bytes) : result (option (str * V) * bytes) :=
  match e with
  | Obj o => '(d, r) ← decode o binary; Ok (Some d, r)
  | Choice ms => choice_decode ms binary
  end.

Fixpoint sequence_decode (sequence : list element) (res : list (str * V)) (remainder : bytes)
    : result (list (str * V) * bytes) :=
  match sequence with
  | [] => Ok (res, remainder)
  | e :: es =>
      '(r, remainder') ← element_decode e remainder;
      sequence_decode es (match r with Some d => res ++ [d] | None => res end) remainder'
  end.

Definition DataObjectSequence_decode (sequence : list element) (binary : bytes) :=
  sequence_decode sequence [] binary.

(** The loop goes on as long as something was consumed. *)
Fixpoint decode_multi (fuel : nat) (sequence : list element) (res : list (list (str * V))) (remainder : bytes)
    : result (list (list (str * V)) * bytes) :=
  match remainder with
  | [] => Ok (res, [])
  | _ :: _ =>
      match fuel with
      | O => Err OutOfFuel
      | S fuel' =>
          '(r, remainder2) ← DataObjectSequence_decode sequence remainder;
          let res := if bool_decide (r = []) then res else res ++ [r] in
          if len remainder2 <? len remainder then decode_multi fuel' sequence res remainder2
          else Ok (res, remainder2)
      end
  end.

Definition DataObjectSequence_decode_multi (sequence : list element) (do : bytes) :=
  decode_multi (length do) sequence [] do.

(** [e.encode(decoded[i])]: a [DataObject]'s [encode] takes no argument. *)
Definition element_encode (e : element) (decoded : list (str * V)) : result bytes :=
  match e with
  | Obj _ => Err TypeError
  | Choice ms => choice_encode ms decoded
  end.

Fixpoint sequence_encode (sequence : list element) (i : nat) (decoded : list (list (str * V))) (encoded : bytes)
    : result bytes :=
  match sequence with
  | [] => Ok encoded
  | e :: es =>
      d ← idx decoded i;
      b ← element_encode e d;
      sequence_encode es (S i) decoded (encoded ++ b)
  end.

Definition DataObjectSequence_encode (sequence : list element) (decoded : list (list (str * V))) :=
  sequence_encode sequence 0 decoded [].

Definition DataObjectSequence_encode_multi (sequence : list element) (decoded : list (list (list (str * V))))
    : result bytes :=
  foldl (λ acc d, encoded ← acc; b ← DataObjectSequence_encode sequence d; Ok (encoded ++ b)) (Ok []) decoded.
End codecs.

(** ** Card commands *)

Record CardCommand := mkCC { cc_name : str; cc_ins : Z; cc_cla_list : list str }.

Definition new_CardCommand (name : str) (ins : Z) (cla_list : list str) : CardCommand :=
  mkCC name ins (map str_lower cla_list).

Definition mask_cla_char (cla cla_match : str) (i : nat) : result ascii :=
  m ← idx cla_match i;
  if is_char "x" m then Ok "x"%char else idx cla i.

Fixpoint match_any (cla : str) (l : list str) : result bool :=
  match l with
  | [] => Ok false
  | cla_match :: l' =>
      cla_masked ← map_r (mask_cla_char cla cla_match) [0; 1]%nat;
      if bool_decide (cla_masked = cla_match) then Ok true else match_any cla l'
  end.

(** The CLA is an int or a str; an int is formatted in decimal. *)
Definition match_cla (c : CardCommand) (cla : Z + str) : result bool :=
  let cla := match cla with inl z => fmt_d 2 z | inr s => s end in
  let cla := str_lower cla in
  match_any cla (cc_cla_list c).

Definition CardCommandSet := gmap Z CardCommand.

Definition new_CardCommandSet (cmds : list CardCommand) : CardCommandSet :=
  foldl (λ m c, <[cc_ins c := c]> m) ∅ cmds.

(** [__add__] changes the set in place. *)
Definition add_command (s : CardCommandSet) (other : CardCommand) : result CardCommandSet :=
  match s !! cc_ins other with
  | Some _ => Err ValueError
  | None => Ok (<[cc_ins other := other]> s)
  end.

Definition add_set (s other : CardCommandSet) : CardCommandSet := other ∪ s.

Definition cla_given (cla : option (Z + str)) : bool :=
  match cla with
  | None => false
  | Some (inl z) => truthy z
  | Some (inr s) => negb (bool_decide (s = []))
  end.

Definition lookup_command (s : CardCommandSet) (ins : Z) (cla : option (Z + str)) : result (option CardCommand) :=
  match s !! ins with
  | None => Ok None
  | Some cmd =>
      if cla_given cla then
        m ← match cla with Some c => match_cla cmd c | None => Ok true end;
        Ok (if negb m then None else Some cmd)
      else Ok (Some cmd)
  end.

(** ** Answer to reset *)

Fixpoint pairs_of (atr : str) : result (list str) :=
  match atr with
  | a :: b :: r => l ← pairs_of r; Ok ([a; b] :: l)
  | [] => Ok []
  | _ => Err ValueError
  end.

Definition normalizeATR (atr : str) : result (list Z) :=
  let atr := replace_c ":" [] atr in
  let atr := replace_c " " [] atr in
  res ← pairs_of atr;
  map_r (py_int 16) res.

Record atr := mkAtr {
  atr_atr : list Z; atr_TS : Z; atr_T0 : Z; atr_hbn : Z;
  (** protocol number and value *)
  atr_TA : list (Z * Z); atr_TB : list (Z * Z); atr_TC : list (Z * Z); atr_TD : list (Z * Z);
  atr_hb : list Z;
  atr_TCK : option Z;
  atr_extra : option (list Z);
  atr_warning : option str;
}.

(** The locals of the while loop, with the keys it adds. *)
Record atr_loop := mkLoop {
  l_TDi : Z; l_pointer : nat; l_pn : Z; l_tck : bool;
  l_TA : list (Z * Z); l_TB : list (Z * Z); l_TC : list (Z * Z); l_TD : list (Z * Z);
}.

(** Is interface byte number [b] (4..7) announced: [(TDi | mask) == 0xFF]
    with [mask = 0xFF - (1 << b)]. *)
Definition announced (TDi b : Z) : bool := Z.lor TDi (255 - Z.shiftl 1 b) =? 255.

Definition interface_byte (atr_txt : list Z) (TDi b : Z) (pointer : nat) (pn : Z) (l : list (Z * Z))
    : result (nat * list (Z * Z)) :=
  if announced TDi b then
    v ← idx atr_txt (pointer + 1);
    Ok ((pointer + 1)%nat, l ++ [(pn, v)])
  else Ok (pointer, l).

Fixpoint atr_while (fuel : nat) (atr_txt : list Z) (s : atr_loop) : result atr_loop :=
  if bool_decide (length atr_txt <= l_pointer s)%nat then Ok s
  else match fuel with
  | O => Err OutOfFuel
  | S fuel' =>
      let TDi := l_TDi s in
      '(p, TA) ← interface_byte atr_txt TDi 4 (l_pointer s) (l_pn s) (l_TA s);
      '(p, TB) ← interface_byte atr_txt TDi 5 p (l_pn s) (l_TB s);
      '(p, TC) ← interface_byte atr_txt TDi 6 p (l_pn s) (l_TC s);
      if announced TDi 7 then
        TDi ← idx atr_txt (p + 1);
        atr_while fuel' atr_txt
          (mkLoop TDi (p + 1) (l_pn s + 1) (l_tck s || negb (Z.land TDi 15 =? 0))
             TA TB TC (l_TD s ++ [(l_pn s, TDi)]))
      else Ok (mkLoop TDi p (l_pn s) (l_tck s) TA TB TC (l_TD s))
  end.

Definition atr_warning_text (missing : Z) : str :=
  let '(t1, t2) := if 1 <? missing then (lit "s", lit "are") else (lit "", lit "is") in
  lit "ATR is truncated: " ++ str_of_int missing ++ lit " byte" ++ t1 ++ lit " " ++ t2 ++ lit " missing".

Definition decompose (atr_txt : list Z) : result atr :=
  ts ← idx atr_txt 0;
  TDi ← idx atr_txt 1;
  let hb_length := Z.to_nat (Z.land TDi 15) in
  s ← atr_while (length atr_txt) atr_txt (mkLoop TDi 1 1 false [] [] [] []);
  let pointer := l_pointer s in
  let hb := slice (pointer + 1) (pointer + 1 + hb_length) atr_txt in
  let last := (pointer + 1 + hb_length)%nat in
  let tck := if l_tck s then Some (default (-1) (atr_txt !! last)) else None in
  let last := if l_tck s then (last + 1)%nat else last in
  let extra := if bool_decide (last < length atr_txt)%nat then Some (drop last atr_txt) else None in
  let warning :=
    if bool_decide (length hb < hb_length)%nat
    then Some (atr_warning_text (Z.of_nat hb_length - len hb)) else None in
  Ok (mkAtr atr_txt ts TDi (Z.land TDi 15) (l_TA s) (l_TB s) (l_TC s) (l_TD s) hb tck extra warning).

Definition decomposeATR (atr_txt : str) : result atr := l ← normalizeATR atr_txt; decompose l.

(** ** Data objects: facts *)

Section do_facts.
Context `{OsmocomTlvLaws} {V : Type}.
Implicit Types (o : DataObject V) (ms : list (DataObject V)).

(** The codec of [o] carries the value [v]: what [to_bytes] gives for it is
    read back by [from_bytes], and its tag is one byte long. *)
Record carries o (v : V) (b : bytes) : Prop := {
  carries_to : do_to_bytes o v = Ok b;
  carries_from : do_from_bytes o b = Ok v;
  carries_tag : do_compute_tag o v = do_tag o;
  carries_one : one_byte_tag (do_tag o);
}.

(** What [to_tlv] builds for it. *)
Definition tlv_of o (b : bytes) : bytes := [do_tag o] ++ bertlv_encode_len (len b) ++ b.

Lemma to_tlv_eq o v b : carries o v b → to_tlv o v = Ok (tlv_of o b).
Proof. intros [Ht _ Hc H1]. unfold to_tlv. rewrite Ht. mrun. by rewrite Hc, encode_tag_1. Qed.

Lemma from_tlv_short o v b r :
  carries o v b → len b < 128 → from_tlv o (tlv_of o b ++ r) = Ok (v, r).
Proof.
  intros [_ Hf _ _] Hl. pose proof (len_nonneg b).
  unfold tlv_of. rewrite encode_len_short by lia. rewrite <- !app_assoc. cbn [app].
  unfold from_tlv, idx. cbn [lookup list_lookup from_opt]. mrun. rewrite Z.eqb_refl. cbn [negb]. mrun.
  unfold slice. cbn [drop]. rewrite drop_0.
  replace (2 + Z.to_nat (len b) - 2)%nat with (length b) by (unfold len; lia).
  replace (Z.to_nat (len b)) with (length b) by (unfold len; lia).
  rewrite take_app_length, Hf. mrun. cbn [Nat.add drop]. by rewrite drop_app_length.
Qed.

(** For a value of 128 to 255 bytes the encoding is not readable: to_tlv
    writes the two-byte length 81 xx, from_tlv takes the byte 81 for the
    length and hands from_bytes 129 bytes that start with xx. *)
Theorem do_tlv_long_value_misread o v b :
  carries o v b → 128 <= len b < 256 →
  ∃ enc, to_tlv o v = Ok enc ∧
    from_tlv o enc = (v' ← do_from_bytes o (take 129 (len b :: b)); Ok (v', drop 129 (len b :: b))).
Proof.
  intros Hc Hl. eexists. split; [by apply to_tlv_eq|].
  unfold tlv_of. rewrite encode_len_81 by lia. cbn [app].
  unfold from_tlv, idx. cbn [lookup list_lookup from_opt]. mrun. rewrite Z.eqb_refl. cbn [negb]. mrun.
  reflexivity.
Qed.

Lemma find_last_unique {A K} (key : A → K) (p : A → bool) (l : list A) m :
  (∀ x, p x = true ↔ key x = key m) → NoDup (key <$> l) → m ∈ l → find_last p l = Some m.
Proof.
  unfold find_last. intros Hp Hnd Hin.
  destruct (find p (rev l)) as [x|] eqn:E.
  - apply find_some in E as [Hx Hk%Hp]. rewrite <- in_rev in Hx. f_equal.
    apply list_elem_of_In in Hx.
    apply list_elem_of_lookup in Hx as [i Hi], Hin as [j Hj].
    assert (i = j) as ->; [|congruence].
    eapply (NoDup_lookup (key <$> l)); [done|rewrite list_lookup_fmap, Hi; done|].
    rewrite list_lookup_fmap, Hj. cbn. by rewrite Hk.
  - exfalso. apply (find_none _ _) with (x := m) in E.
    + by rewrite (proj2 (Hp m)) in E.
    + rewrite <- in_rev. by apply list_elem_of_In.
Qed.

Lemma find_by_tag ms o : NoDup (do_tag <$> ms) → o ∈ ms → members_by_tag ms (do_tag o) = Some o.
Proof. apply (find_last_unique do_tag). intros x. apply Z.eqb_eq. Qed.

Lemma find_by_name ms o : NoDup (do_name <$> ms) → o ∈ ms → members_by_name ms (do_name o) = Some o.
Proof. apply (find_last_unique do_name). intros x. apply bool_decide_eq_true. Qed.

Definition good_item ms (i : DataObject V * V * bytes) : Prop :=
  let '(o, v, b) := i in o ∈ ms ∧ carries o v b ∧ len b < 128 ∧ do_tag o ≠ 255.

Definition items_tlv (is_ : list (DataObject V * V * bytes)) : bytes :=
  concat (map (λ '(o, _, b), tlv_of o b) is_).
Definition items_dicts (is_ : list (DataObject V * V * bytes)) : list (str * V) :=
  map (λ '(o, v, _), (do_name o, v)) is_.

Lemma collection_decode_items ms is_ : ∀ fuel res r,
  NoDup (do_tag <$> ms) → Forall (good_item ms) is_ →
  (r = [] ∨ head r = Some 255) → (length (items_tlv is_) <= fuel)%nat →
  collection_decode fuel ms res (items_tlv is_ ++ r) = Ok (res ++ items_dicts is_, r).
Proof.
  induction is_ as [|[[o v] b] is_ IH]; intros fuel res r Hnd Hall Hr Hf.
  - cbn. rewrite app_nil_r. destruct Hr as [->|Hr]; [by destruct fuel|].
    destruct r as [|t r]; [done|]. injection Hr as ->. by destruct fuel.
  - apply list.Forall_cons in Hall as [(Hin & Hc & Hl & Hff) Hall].
    assert (items_tlv ((o, v, b) :: is_) = tlv_of o b ++ items_tlv is_) as Heq by done.
    rewrite Heq in *. rewrite <- app_assoc. rewrite length_app in Hf.
    pose proof (from_tlv_short o v b (items_tlv is_ ++ r) Hc Hl) as Hft.
    assert (∃ k, tlv_of o b = do_tag o :: k) as [k Hk] by (eexists; reflexivity).
    assert (1 <= length (tlv_of o b))%nat by (rewrite Hk; cbn; lia).
    destruct fuel as [|fuel]; [lia|].
    rewrite Hk in *. cbn [app collection_decode] in *.
    rewrite (proj2 (Z.eqb_neq _ _)) by done.
    rewrite find_by_tag by done.
    rewrite Hft. mrun. rewrite IH by (done || lia). unfold to_dict. cbn. by rewrite <- app_assoc.
Qed.

(** Decoding the concatenated TLVs of members of a collection, in any
    order and number, gives their names and values in that order; it stops
    at the end of the data or at uninitialised memory, which is returned.
    One iteration per byte of input is enough for the loop. *)
Theorem collection_round_trip ms is_ r :
  NoDup (do_tag <$> ms) → Forall (good_item ms) is_ → (r = [] ∨ head r = Some 255) →
  DataObjectCollection_decode ms (items_tlv is_ ++ r) = Ok (items_dicts is_, r).
Proof.
  intros. unfold DataObjectCollection_decode.
  rewrite collection_decode_items; [done..|rewrite length_app; lia].
Qed.

(** A choice decodes what it encoded, whichever member it is. *)
Theorem choice_round_trip ms o v b r :
  NoDup (do_tag <$> ms) → NoDup (do_name <$> ms) → good_item ms (o, v, b) →
  ∃ enc, choice_encode ms [(do_name o, v)] = Ok enc
         ∧ choice_decode ms (enc ++ r) = Ok (Some (do_name o, v), r).
Proof.
  intros Htags Hnames (Hin & Hc & Hl & Hff).
  exists (tlv_of o b). split.
  - unfold choice_encode, idx. cbn [lookup list_lookup from_opt]. mrun.
    rewrite find_by_name by done. by apply to_tlv_eq.
  - unfold choice_decode. change (idx (tlv_of o b ++ r) 0) with (Ok (do_tag o) : result Z). mrun.
    rewrite (proj2 (Z.eqb_neq _ _)) by done.
    rewrite find_by_tag by done. by rewrite (from_tlv_short o v).
Qed.

(** Every iteration of the collection's loop takes at least one byte, so more
    iterations than bytes never change the result. *)
Lemma from_tlv_shorter o d v r : from_tlv o d = Ok (v, r) → (length r < length d)%nat.
Proof.
  unfold from_tlv. intros E. destruct d as [|t d]; [done|]. cbn [idx lookup list_lookup from_opt] in E.
  change (idx (t :: d) 0) with (Ok t : result Z) in E. rewrite R_bind_Ok in E.
  destruct (negb _); [done|]. inv_ok. rewrite length_drop. cbn. lia.
Qed.

Lemma collection_decode_total ms : ∀ f res r,
  (∀ o b, o ∈ ms → do_from_bytes o b ≠ Err OutOfFuel) →
  (length r <= f)%nat → collection_decode f ms res r ≠ Err OutOfFuel.
Proof.
  induction f as [|f IH]; intros res [|t r] Hm Hl; cbn in Hl; try done; [lia|].
  cbn [collection_decode]. destruct (t =? 255); [done|].
  destruct (members_by_tag ms t) as [o|] eqn:Eo; [|done].
  destruct (from_tlv o (t :: r)) as [[v r']|e] eqn:E; mrun.
  - apply from_tlv_shorter in E. apply IH; [done|cbn in E; lia].
  - unfold members_by_tag, find_last in Eo. apply find_some in Eo as [Hin _].
    rewrite <- in_rev in Hin. apply list_elem_of_In in Hin.
    unfold from_tlv in E. intros [= ->].
    repeat match type of E with
      | context [idx ?l ?i] => destruct (idx l i) eqn:?; rewrite ?R_bind_Ok, ?R_bind_Err in E
      | context [if ?b then _ else _] => destruct b
      end; try done.
    + destruct (do_from_bytes o _) eqn:Ef; rewrite ?R_bind_Ok, ?R_bind_Err in E; [done|].
      injection E as ->. by apply Hm in Ef.
    + unfold idx, from_opt in *. by repeat case_match; simplify_eq.
Qed.
End do_facts.

(** ** Card commands: facts *)

(** [add_set] merges another set in place, the other set's commands
    winning; [add_command] refuses an INS that is already there and changes
    nothing else. *)
Theorem command_set_spec s other c ins :
  lookup_command (add_set s other) ins None
  = (match other !! ins with Some c => Ok (Some c) | None => lookup_command s ins None end)
  ∧ match add_command s c with
    | Ok s' => lookup_command s (cc_ins c) None = Ok None ∧
               lookup_command s' ins None
               = if bool_decide (ins = cc_ins c) then Ok (Some c) else lookup_command s ins None
    | Err e => e = ValueError ∧ ∃ c', lookup_command s (cc_ins c) None = Ok (Some c')
    end.
Proof.
  unfold lookup_command, add_set, add_command, CardCommandSet in *. cbn [cla_given]. split.
  - destruct (other !! ins) eqn:E.
    + by rewrite (lookup_union_Some_l _ _ _ _ E).
    + by rewrite lookup_union_r.
  - destruct (s !! cc_ins c) eqn:E; [eauto|]. split; [done|].
    case_bool_decide as Heq; [subst; by rewrite lookup_insert_eq|by rewrite lookup_insert_ne].
Qed.

(** An int CLA is compared by its decimal digits: A0 given as 160 does not
    match the list that holds A0. *)
Lemma match_cla_int_decimal :
  match_cla (new_CardCommand (lit "SELECT") 164 [lit "A0"]) (inr (lit "A0")) = Ok true
  ∧ match_cla (new_CardCommand (lit "SELECT") 164 [lit "A0"]) (inl 160) = Ok false.
Proof. split; reflexivity. Qed.

(** ** ATR: facts *)

(** The interface bytes of one round: TA, TB and TC where present. *)
Record atr_group := mkGroup { g_A : option Z; g_B : option Z; g_C : option Z }.

Definition opt_bit (o : option Z) (w : Z) : Z := match o with Some _ => w | None => 0 end.
Definition opt_list {A} (o : option A) : list A := match o with Some x => [x] | None => [] end.

(** The indicator byte T0 or TDi that announces the group, with its low
    nibble. *)
Definition indicator (g : atr_group) (more : bool) (low : Z) : Z :=
  opt_bit (g_A g) 16 + opt_bit (g_B g) 32 + opt_bit (g_C g) 64 + (if more then 128 else 0) + low.

Definition group_bytes (g : atr_group) : list Z := opt_list (g_A g) ++ opt_list (g_B g) ++ opt_list (g_C g).

(** The interface bytes from a group on; a further group is announced by a
    TDi that carries its protocol. *)
Fixpoint interface_bytes (g : atr_group) (rest : list (Z * atr_group)) : list Z :=
  group_bytes g ++
  match rest with
  | [] => []
  | (p, g') :: rest' =>
      indicator g' (negb (bool_decide (rest' = []))) p :: interface_bytes g' rest'
  end.

(** The same, by number of the round. *)
Fixpoint tagged (f : atr_group → option Z) (pn : Z) (g : atr_group) (rest : list (Z * atr_group)) : list (Z * Z) :=
  map (pair pn) (opt_list (f g)) ++
  match rest with [] => [] | (_, g') :: rest' => tagged f (pn + 1) g' rest' end.

Fixpoint tagged_TD (pn : Z) (rest : list (Z * atr_group)) : list (Z * Z) :=
  match rest with
  | [] => []
  | (p, g') :: rest' => (pn, indicator g' (negb (bool_decide (rest' = []))) p) :: tagged_TD (pn + 1) rest'
  end.

Lemma announced_indicator g more low :
  0 <= low < 16 →
  announced (indicator g more low) 4 = bool_decide (g_A g ≠ None)
  ∧ announced (indicator g more low) 5 = bool_decide (g_B g ≠ None)
  ∧ announced (indicator g more low) 6 = bool_decide (g_C g ≠ None)
  ∧ announced (indicator g more low) 7 = more
  ∧ Z.land (indicator g more low) 15 = low.
Proof.
  unfold indicator. destruct g as [[a|] [b|] [c|]], more; cbn [opt_bit g_A g_B g_C];
    (revert low; apply (small_cases _ 16); repeat constructor).
Qed.

(** Reading an optional interface byte that is present exactly when it is
    announced. *)
Lemma interface_byte_ok p o r TDi b pn l :
  announced TDi b = bool_decide (o ≠ None) → p ≠ [] →
  interface_byte (p ++ opt_list o ++ r) TDi b (length p - 1) pn l
  = Ok (length (p ++ opt_list o) - 1, l ++ map (pair pn) (opt_list o))%nat.
Proof.
  intros Ha Hp. unfold interface_byte. rewrite Ha.
  assert (0 < length p)%nat by (destruct p; cbn; [done|lia]).
  destruct o as [v|]; cbn [opt_list app map].
  - rewrite bool_decide_ok by done. unfold idx.
    replace (length p - 1 + 1)%nat with (length p) by lia.
    rewrite lookup_app_r, Nat.sub_diag by lia. cbn. rewrite length_app. cbn.
    do 2 f_equal. lia.
  - rewrite bool_decide_false by naive_solver. by rewrite !app_nil_r.
Qed.

Lemma group_ok g more low p r pn TA TB TC :
  p ≠ [] → 0 <= low < 16 →
  let txt := p ++ group_bytes g ++ r in
  let TDi := indicator g more low in
  let n1 := (length (p ++ opt_list (g_A g)) - 1)%nat in
  let n2 := (length ((p ++ opt_list (g_A g)) ++ opt_list (g_B g)) - 1)%nat in
  interface_byte txt TDi 4 (length p - 1) pn TA = Ok (n1, TA ++ map (pair pn) (opt_list (g_A g)))
  ∧ interface_byte txt TDi 5 n1 pn TB = Ok (n2, TB ++ map (pair pn) (opt_list (g_B g)))
  ∧ interface_byte txt TDi 6 n2 pn TC
    = Ok (length (p ++ group_bytes g) - 1, TC ++ map (pair pn) (opt_list (g_C g)))%nat.
Proof.
  intros Hp Hlow txt TDi n1 n2. destruct (announced_indicator g more low Hlow) as (H4 & H5 & H6 & _).
  assert (∀ q, p ++ q ≠ []) as Hne by (intros q; by destruct p). unfold txt, group_bytes. split_and!.
  - rewrite <- !app_assoc. by apply interface_byte_ok.
  - rewrite <- !app_assoc, (app_assoc p). by apply interface_byte_ok.
  - rewrite <- !app_assoc, (app_assoc p), (app_assoc (p ++ _)).
    rewrite interface_byte_ok by (rewrite <- ?app_assoc; done). by rewrite <- !app_assoc.
Qed.

Fixpoint final_TDi (g : atr_group) (low : Z) (rest : list (Z * atr_group)) : Z :=
  match rest with [] => indicator g false low | (q, g') :: rest' => final_TDi g' q rest' end.

(** Is a protocol other than T=0 offered. *)
Definition has_tck (rest : list (Z * atr_group)) : bool := existsb (λ pg, negb (pg.1 =? 0)) rest.

Lemma atr_while_ok rest : ∀ g fuel p low r pn tck TA TB TC TD,
  p ≠ [] → 0 <= low < 16 → Forall (λ pg, 0 <= pg.1 < 16) rest → (length rest < fuel)%nat →
  atr_while fuel (p ++ interface_bytes g rest ++ r)
    (mkLoop (indicator g (negb (bool_decide (rest = []))) low) (length p - 1) pn tck TA TB TC TD)
  = Ok (mkLoop (final_TDi g low rest)
      (length (p ++ interface_bytes g rest) - 1) (pn + len rest)
      (tck || has_tck rest)
      (TA ++ tagged g_A pn g rest) (TB ++ tagged g_B pn g rest) (TC ++ tagged g_C pn g rest)
      (TD ++ tagged_TD pn rest)).
Proof.
  induction rest as [|[q g'] rest IH]; intros g fuel p low r pn tck TA TB TC TD Hp Hlow Hall Hf;
    destruct fuel as [|fuel]; cbn in Hf; try lia;
    (assert (0 < length p)%nat as Hlp by (destruct p; cbn; [done|lia]));
    cbn [interface_bytes atr_while]; rewrite bool_decide_false
      by (cbn [l_pointer]; rewrite length_app; lia);
    cbn [l_TDi l_pointer l_pn l_tck l_TA l_TB l_TC l_TD].
  - rewrite app_nil_r.
    destruct (group_ok g false low p r pn TA TB TC Hp Hlow) as (HA & HB & HC).
    destruct (announced_indicator g false low Hlow) as (_ & _ & _ & H7 & _).
    rewrite bool_decide_ok by done. cbn [negb]. rewrite HA. mrun. rewrite HB. mrun. rewrite HC. mrun.
    rewrite H7. unfold has_tck; cbn [tagged tagged_TD existsb]. by rewrite !app_nil_r, orb_false_r, Z.add_0_r.
  - apply list.Forall_cons in Hall as [Hq Hall]. cbn [fst] in Hq.
    set (more := negb (bool_decide (rest = []))).
    destruct (group_ok g true low p ([indicator g' more q] ++ interface_bytes g' rest ++ r) pn TA TB TC Hp Hlow)
      as (HA & HB & HC).
    destruct (announced_indicator g true low Hlow) as (_ & _ & _ & H7 & _).
    rewrite bool_decide_false by done. cbn [negb].
    rewrite <- !app_assoc. cbn [app] in *. rewrite HA. mrun. rewrite HB. mrun. rewrite HC. mrun. rewrite H7.
    set (P := p ++ group_bytes g).
    assert (0 < length P)%nat by (unfold P; rewrite length_app; lia).
    replace (length P - 1 + 1)%nat with (length P) by lia.
    assert (idx (p ++ group_bytes g ++ indicator g' more q :: interface_bytes g' rest ++ r) (length P)
            = Ok (indicator g' more q)) as ->.
    { rewrite app_assoc. fold P. unfold idx. by rewrite lookup_app_r, Nat.sub_diag by lia. }
    mrun. destruct (announced_indicator g' more q Hq) as (_ & _ & _ & _ & Hland). rewrite Hland.
    specialize (IH g' fuel (P ++ [indicator g' more q]) q r (pn + 1) (tck || negb (q =? 0))
      (TA ++ map (pair pn) (opt_list (g_A g))) (TB ++ map (pair pn) (opt_list (g_B g)))
      (TC ++ map (pair pn) (opt_list (g_C g))) (TD ++ [(pn, indicator g' more q)])).
    fold more in IH. rewrite length_app in IH. cbn [length] in IH.
    replace (length P + 1 - 1)%nat with (length P) in IH by lia.
    unfold P in *. rewrite <- !app_assoc in IH. cbn [app] in IH. rewrite IH by (done || lia || (by destruct p)).
    f_equal. f_equal.
    + rewrite len_cons. lia.
    + unfold has_tck. cbn [existsb fst]. by rewrite orb_assoc.
Qed.

(** An ATR put together from its parts; the check byte follows when one of
    the protocols is not T=0. *)
Definition build_atr (ts : Z) (g : atr_group) (rest : list (Z * atr_group)) (hb : list Z) (tck : Z) : list Z :=
  [ts; indicator g (negb (bool_decide (rest = []))) (len hb)] ++ interface_bytes g rest ++ hb
  ++ (if has_tck rest then [tck] else []).

(** Decomposing an ATR built from interface byte groups, historical bytes
    and, where a protocol other than T=0 is offered, a check byte gives back
    exactly these parts, each interface byte under the number of its round,
    with nothing left over and no warning. *)
Theorem decompose_build_atr ts g rest hb tck :
  len hb < 16 → Forall (λ pg, 0 <= pg.1 < 16) rest →
  let txt := build_atr ts g rest hb tck in
  decompose txt =
  Ok (mkAtr txt ts (indicator g (negb (bool_decide (rest = []))) (len hb)) (len hb)
        (tagged g_A 1 g rest) (tagged g_B 1 g rest) (tagged g_C 1 g rest) (tagged_TD 1 rest)
        hb (if has_tck rest then Some tck else None) None None).
Proof.
  intros Hhb Hall txt. pose proof (len_nonneg hb) as Hnn.
  set (more := negb (bool_decide (rest = []))).
  set (T0 := indicator g more (len hb)). set (tail := if has_tck rest then [tck] else []).
  assert (txt = [ts; T0] ++ interface_bytes g rest ++ (hb ++ tail)) as Htxt by reflexivity.
  unfold decompose. change (idx txt 0) with (Ok ts : result Z). change (idx txt 1) with (Ok T0 : result Z).
  mrun.
  destruct (announced_indicator g more (len hb)) as (_ & _ & _ & _ & Hland); [lia|].
  fold T0 in Hland. rewrite Hland.
  assert (length rest < length txt)%nat as Hfuel.
  { rewrite Htxt, !length_app. cbn [length].
    assert (length rest <= length (interface_bytes g rest))%nat; [|lia].
    clear. revert g. induction rest as [|[p g'] rest IH]; intros g; cbn [interface_bytes length]; [lia|].
    rewrite length_app. cbn [length]. specialize (IH g'). lia. }
  pose proof (atr_while_ok rest g (length txt) [ts; T0] (len hb) (hb ++ tail) 1 false [] [] [] [])
    as Hw. rewrite <- Htxt in Hw. change (length [ts; T0] - 1)%nat with 1%nat in Hw.
  fold more T0 in Hw. rewrite Hw by (done || lia). mrun. cbn [l_pointer l_tck l_TA l_TB l_TC l_TD orb app].
  set (P := [ts; T0] ++ interface_bytes g rest).
  assert (0 < length P)%nat by (unfold P; cbn; lia).
  change (ts :: T0 :: interface_bytes g rest) with P.
  replace (length P - 1 + 1)%nat with (length P) by lia.
  replace (Z.to_nat (len hb)) with (length hb) by (unfold len; lia).
  assert (txt = P ++ hb ++ tail) as Htxt2 by (rewrite Htxt; unfold P; by rewrite <- app_assoc).
  assert (slice (length P) (length P + length hb) txt = hb) as ->.
  { rewrite Htxt2. apply slice_app_mid; [done|by rewrite length_app]. }
  assert (length txt = length P + length hb + length tail)%nat as Hlen
    by (rewrite Htxt2, !length_app; lia).
  rewrite (bool_decide_false (length hb < length hb)%nat) by lia.
  assert (txt !! (length P + length hb)%nat = tail !! 0%nat) as Htck.
  { rewrite Htxt2, app_assoc, lookup_app_r by (rewrite length_app; lia).
    f_equal. rewrite length_app. lia. }
  rewrite Htck. unfold tail in *. rewrite bool_decide_false.
  { by destruct (has_tck rest). }
  rewrite Hlen. destruct (has_tck rest); cbn; lia.
Qed.

Lemma decompose_build_atr_witness :
  build_atr 59 (mkGroup (Some 150) None None) [(0, mkGroup None None None); (15, mkGroup (Some 199) None None)]
    [128; 49; 224] 103
  = [59; 147; 150; 128; 31; 199; 128; 49; 224; 103]
  ∧ ∃ a, decompose [59; 147; 150; 128; 31; 199; 128; 49; 224; 103] = Ok a
         ∧ atr_hb a = [128; 49; 224] ∧ atr_TA a = [(1, 150); (3, 199)] ∧ atr_TCK a = Some 103.
Proof.
  split; [reflexivity|].
  pose proof (decompose_build_atr 59 (mkGroup (Some 150) None None)
    [(0, mkGroup None None None); (15, mkGroup (Some 199) None None)] [128; 49; 224] 103) as H.
  cbn zeta in H. eexists. split; [apply H; [reflexivity|repeat constructor; discriminate]|].
  split; [reflexivity|split; reflexivity].
Defined.

(** ** Runs on a concrete collection *)

Module DoRun.
#[local] Existing Instance Ref.tlv.
#[local] Existing Instance Ref.tlv_laws.

(** Two members whose value part is kept as it is. *)
Definition raw (name : str) (tag : Z) : DataObject bytes := mkDO bytes name tag (λ _, tag) Ok Ok.
Definition sample : list (DataObject bytes) := [raw (lit "am_do") 128; raw (lit "always") 144].

Lemma raw_carries name tag b : one_byte_tag tag → carries (raw name tag) b b.
Proof. by split. Qed.

Lemma collection_round_trip_witness :
  DataObjectCollection_decode sample [144; 0; 128; 2; 1; 2; 255; 255]
  = Ok ([(lit "always", []); (lit "am_do", [1; 2])], [255; 255]).
Proof.
  pose proof (collection_round_trip sample
    [(raw (lit "always") 144, [], []); (raw (lit "am_do") 128, [1; 2], [1; 2])] [255; 255]) as H.
  apply H; clear H.
  - apply (bool_decide_unpack _). vm_compute. exact I.
  - repeat constructor; try done.
  - by right.
Defined.

Lemma choice_round_trip_witness :
  ∃ enc, choice_encode sample [(lit "always", [7])] = Ok enc
         ∧ choice_decode sample (enc ++ [1; 2]) = Ok (Some (lit "always", [7]), [1; 2]).
Proof.
  apply (choice_round_trip sample (raw (lit "always") 144) [7] [7] [1; 2]).
  - apply (bool_decide_unpack _). vm_compute. exact I.
  - apply (bool_decide_unpack _). vm_compute. exact I.
  - repeat constructor; try done.
Defined.

Lemma do_tlv_long_value_misread_witness :
  ∃ enc, to_tlv (raw (lit "x") 128) (replicate 130 7) = Ok enc ∧
    from_tlv (raw (lit "x") 128) enc
    = (v' ← Ok (take 129 (130 :: replicate 130 7)); Ok (v', drop 129 (130 :: replicate 130 7))).
Proof.
  apply (do_tlv_long_value_misread (raw (lit "x") 128) (replicate 130 7) (replicate 130 7)).
  - by apply raw_carries.
  - vm_compute. split; congruence.
Defined.
End DoRun.
