(* ===== verification/Bsp.v ===== *)
(** The BPP protection protocol, pySim/esim/bsp.py: padding, AES-CBC with the
    counter-derived ICV, AES-CMAC with the chaining value, segmentation into
    payloads, and the receiving side. Each class of the source is a record
    and each method a computation on it, so the block counter and the MAC
    chaining value advance as in the code, also when a method raises. *)

From S2P Require Import Prelude Osmocom Crypto.

Definition MAX_SEGMENT_SIZE : Z := 1020.

(** [BspAlgoCryptAES128], [BspAlgoMacAES128] and [BspInstance]. *)
Record BspAlgoCrypt := mkCrypt { s_enc : bytes; block_nr : Z }.
Record BspAlgoMac := mkMac { s_mac : bytes; mac_chain : bytes }.
Record BspInstance := mkBsp { c_algo : BspAlgoCrypt; m_algo : BspAlgoMac; max_payload_size : Z }.

Definition blocksize : nat := 16.
Definition l_mac : nat := 8.

(** Which part of an instance a method of [c_algo] or [m_algo] changes. *)
Definition on_c {A} : M BspAlgoCrypt A → M BspInstance A :=
  zoom c_algo (λ c b, mkBsp c (m_algo b) (max_payload_size b)).
Definition on_m {A} : M BspAlgoMac A → M BspInstance A :=
  zoom m_algo (λ m b, mkBsp (c_algo b) m (max_payload_size b)).

(** ** Padding *)

Module Pad.
(** [BspAlgo._get_padding] *)
Definition _get_padding (in_len multiple : nat) (padding : Z) : bytes :=
  if bool_decide (in_len mod multiple = 0)%nat then []
  else replicate (multiple - in_len mod multiple) padding.

(** [BspAlgoCryptAES128._get_padding]: the byte 0x80 comes first. *)
Definition _get_padding_aes (in_len multiple : nat) (padding : Z) : bytes :=
  128 :: _get_padding (in_len + 1) multiple padding.

(** [BspAlgo._pad_to_multiple], with the AES padding. *)
Definition _pad_to_multiple (indat : bytes) (multiple : nat) (padding : Z) : bytes :=
  indat ++ _get_padding_aes (length indat) multiple padding.

(** [BspAlgoCryptAES128._unpad] *)
Definition _unpad (padded : bytes) : result bytes :=
  let stripped := drop_while_end (λ b, b =? 0) padded in
  l ← zidx stripped (-1);
  assert_ (l =? 128);;
  Ok (but_last 1 stripped).
End Pad.
Import Pad.

Section Bsp.
Context `{Cryptodome, OsmocomTlv}.

(** ** BspAlgoCryptAES128 *)

Definition _get_icv : M BspAlgoCrypt bytes :=
  c ← get;
  data ← lift (to_bytes blocksize (block_nr c));
  icv ← lift (aes_cbc_encrypt (s_enc c) (replicate blocksize 0) data);
  put (mkCrypt (s_enc c) (block_nr c + 1));;
  mret icv.

Definition _encrypt (data : bytes) : M BspAlgoCrypt bytes :=
  c ← get; icv ← _get_icv; lift (aes_cbc_encrypt (s_enc c) icv data).

Definition _decrypt (data : bytes) : M BspAlgoCrypt bytes :=
  c ← get; icv ← _get_icv; lift (aes_cbc_decrypt (s_enc c) icv data).

(** [BspAlgoCrypt.encrypt] / [decrypt] *)
Definition encrypt (data : bytes) : M BspAlgoCrypt bytes :=
  _encrypt (_pad_to_multiple data blocksize 0).

Definition decrypt (data : bytes) : M BspAlgoCrypt bytes :=
  padded ← _decrypt data; lift (_unpad padded).

(** ** BspAlgoMacAES128 *)

Definition _auth (temp_data : bytes) : M BspAlgoMac bytes :=
  m ← get;
  full_c_mac ← lift (aes_cmac (s_mac m) temp_data);
  put (mkMac (s_mac m) full_c_mac);;
  mret (slice 0 8 full_c_mac).

Definition auth (tag : Z) (data : bytes) : M BspAlgoMac bytes :=
  lift (assert_ (bool_decide (is_byte tag)));;
  let lcc := len data + Z.of_nat l_mac in
  let tag_and_length := [tag] ++ bertlv_encode_len lcc in
  m ← get;
  c_mac ← _auth (mac_chain m ++ tag_and_length ++ data);
  mret (tag_and_length ++ data ++ c_mac).

Definition verify (ciphertext : bytes) : M BspAlgoMac bytes :=
  let mac_stripped := but_last l_mac ciphertext in
  let mac_received := last_n l_mac ciphertext in
  m ← get;
  mac_computed ← _auth (mac_chain m ++ mac_stripped);
  if bool_decide (mac_received = mac_computed) then mret mac_stripped else raise ValueError.

(** ** Key derivation *)

(** [bsp_key_derivation]: (s_enc, s_mac, initial_mac_chaining_value) *)
Definition bsp_key_derivation (shared_secret : bytes) (key_type key_length : Z)
    (host_id eid : bytes) (l : nat) : result (bytes * bytes * bytes) :=
  assert_ (key_type <=? 255);;
  assert_ (key_length <=? 255);;
  let host_id_lv := bertlv_encode_len (len host_id) ++ host_id in
  let eid_lv := bertlv_encode_len (len eid) ++ eid in
  kk ← bytes_of_ints [key_type; key_length];
  let shared_info := kk ++ host_id_lv ++ eid_lv in
  let out := x963kdf shared_secret shared_info (l * 3) in
  let initial_mac_chaining_value := slice 0 l out in
  let s_enc := slice l (2 * l) out in
  let s_mac := slice (l * 2) (3 * l) out in
  Ok (s_enc, s_mac, initial_mac_chaining_value).

(** ** BspInstance *)

(** [BspInstance.__init__] *)
Definition bsp_init (s_enc s_mac initial_mcv : bytes) : BspInstance :=
  let TAG_LEN := 1 in
  let length_len := len (bertlv_encode_len MAX_SEGMENT_SIZE) in
  mkBsp (mkCrypt s_enc 1) (mkMac s_mac initial_mcv)
        (MAX_SEGMENT_SIZE - TAG_LEN - length_len - Z.of_nat l_mac).

Definition from_kdf (shared_secret : bytes) (key_type key_length : Z) (host_id eid : bytes)
    : result BspInstance :=
  '(s_enc, s_mac, initial_mcv) ← bsp_key_derivation shared_secret key_type key_length host_id eid 16;
  Ok (bsp_init s_enc s_mac initial_mcv).

Definition encrypt_and_mac_one (tag : Z) (plaintext : bytes) : M BspInstance bytes :=
  b ← get;
  lift (assert_ (tag <=? 255));;
  lift (assert_ (len plaintext <=? max_payload_size b));;
  ciphered ← on_c (encrypt plaintext);
  on_m (auth tag ciphered).

Definition mac_only_one (tag : Z) (plaintext : bytes) : M BspInstance bytes :=
  b ← get;
  lift (assert_ (tag <=? 255));;
  lift (assert_ (len plaintext <=? max_payload_size b));;
  maced ← on_m (auth tag plaintext);
  on_c (modify (λ c, mkCrypt (s_enc c) (block_nr c + 1)));;
  mret maced.

(** The loop [encrypt_and_mac] and [mac_only] share: cut the next segment
    off the remainder until nothing is left. *)
Fixpoint segment_loop (one : bytes → M BspInstance bytes) (fuel : nat) (remainder : bytes)
    : M BspInstance (list bytes) :=
  match remainder with
  | [] => mret []
  | _ =>
    match fuel with
    | O => raise OutOfFuel
    | S fuel' =>
      b ← get;
      if len remainder <? max_payload_size b then
        x ← one remainder; xs ← segment_loop one fuel' []; mret (x :: xs)
      else
        let segment_len := Z.to_nat (max_payload_size b) in
        x ← one (take segment_len remainder);
        xs ← segment_loop one fuel' (drop segment_len remainder);
        mret (x :: xs)
    end
  end.

Definition encrypt_and_mac (tag : Z) (plaintext : bytes) : M BspInstance (list bytes) :=
  segment_loop (encrypt_and_mac_one tag) (S (length plaintext)) plaintext.

Definition mac_only (tag : Z) (plaintext : bytes) : M BspInstance (list bytes) :=
  segment_loop (mac_only_one tag) (S (length plaintext)) plaintext.

Definition demac_and_decrypt_one (ciphertext : bytes) : M BspInstance bytes :=
  payload ← on_m (verify ciphertext);
  '(_, _, val, _) ← lift (bertlv_parse_one payload);
  on_c (decrypt val).

Definition demac_and_decrypt (ciphertext_list : list bytes) : M BspInstance bytes :=
  plaintext_list ← map_m demac_and_decrypt_one ciphertext_list;
  mret (concat plaintext_list).

Definition demac_only_one (ciphertext : bytes) : M BspInstance bytes :=
  payload ← on_m (verify ciphertext);
  '(_, _, val, _) ← lift (bertlv_parse_one payload);
  on_c (modify (λ c, mkCrypt (s_enc c) (block_nr c + 1)));;
  mret val.

Definition demac_only (ciphertext_list : list bytes) : M BspInstance bytes :=
  plaintext_list ← map_m demac_only_one ciphertext_list;
  mret (concat plaintext_list).
End Bsp.

(** ** Padding facts *)

Lemma unpad_replicate d n : _unpad (d ++ 128 :: replicate n 0) = Ok d.
Proof.
  unfold _unpad. change (128 :: replicate n 0) with ([128] ++ replicate n 0).
  rewrite app_assoc, drop_while_end_replicate, drop_while_end_snoc_id by done.
  unfold zidx, idx. rewrite bool_decide_false by lia.
  rewrite bool_decide_ok by (unfold len; rewrite length_app; cbn; lia).
  replace (Z.to_nat (len (d ++ [128]) + -1)) with (length d)
    by (unfold len; rewrite length_app; cbn; lia).
  rewrite lookup_app_r, Nat.sub_diag by lia. cbn. by rewrite but_last_app.
Qed.

Lemma padding_aes_shape n m :
  m ≠ 0%nat → ∃ k, _get_padding_aes n m 0 = 128 :: replicate k 0 ∧ ((n + 1 + k) mod m = 0)%nat
    ∧ (k < m)%nat.
Proof.
  intros Hm. unfold _get_padding_aes, _get_padding. case_bool_decide as E.
  - exists 0%nat. rewrite Nat.add_0_r. split; [done|]. lia.
  - pose proof (Nat.mod_upper_bound (n + 1) m Hm).
    exists (m - (n + 1) mod m)%nat. split; [done|]. split; [|lia].
    pose proof (Nat.div_mod_eq (n + 1) m) as Hd.
    replace (n + 1 + (m - (n + 1) mod m))%nat with ((S ((n + 1) / m)) * m)%nat by lia.
    apply Nat.Div0.mod_mul.
Qed.

(** Length of the padded data: the next whole number of blocks. *)
Lemma padded_length d :
  length (_pad_to_multiple d blocksize 0) = (16 * (length d / 16 + 1))%nat.
Proof.
  unfold _pad_to_multiple, blocksize. destruct (padding_aes_shape (length d) 16) as (k & -> & Hm & Hk); [done|].
  rewrite length_app. cbn [length]. rewrite length_replicate. lia.
Qed.

Lemma padded_blocks d : blocks 16 (_pad_to_multiple d blocksize 0).
Proof. exists (length d / 16 + 1)%nat. rewrite padded_length. lia. Qed.

Lemma padded_bytes d : is_bytes d → is_bytes (_pad_to_multiple d blocksize 0).
Proof.
  intros. unfold _pad_to_multiple. destruct (padding_aes_shape (length d) blocksize) as (k & -> & _); [done|].
  apply is_bytes_app. split; [done|]. constructor; [bytes_tac|].
  apply is_bytes_replicate. bytes_tac.
Qed.
#[export] Hint Resolve padded_blocks padded_bytes : sdauto.

Section Bsp_facts.
Context `{CryptodomeLaws, OsmocomTlvLaws}.

(** ** Encryption and decryption of one block of data *)

Definition c_next (c : BspAlgoCrypt) := mkCrypt (s_enc c) (block_nr c + 1).

Definition c_wf (c : BspAlgoCrypt) : Prop := length (s_enc c) = 16%nat ∧ 0 <= block_nr c < 256 ^ 16.

Lemma get_icv_ok c :
  c_wf c → ∃ icv, _get_icv c = (Ok icv, c_next c) ∧ length icv = 16%nat.
Proof.
  intros [Hk Hn]. unfold _get_icv. mrun. unfold to_bytes.
  rewrite bool_decide_ok by done.
  destruct (aes_cbc_encrypt_ok (s_enc c) (replicate blocksize 0) (be blocksize (block_nr c)))
    as (icv & E & Hl & _ & _); auto with sdauto.
  { exists 1%nat. by rewrite length_be. }
  exists icv. rewrite E. split; [done|]. by rewrite Hl, length_be.
Qed.

Lemma encrypt_decrypt c d :
  c_wf c → is_bytes d →
  ∃ ct, encrypt d c = (Ok ct, c_next c) ∧ decrypt ct c = (Ok d, c_next c)
    ∧ length ct = (16 * (length d / 16 + 1))%nat ∧ is_bytes ct.
Proof.
  intros Hc Hd. destruct (get_icv_ok c Hc) as (icv & Ei & Hl). destruct Hc as [Hk _].
  destruct (aes_cbc_encrypt_ok (s_enc c) icv (_pad_to_multiple d blocksize 0))
    as (ct & Ec & Hlc & Hb & Edec); auto with sdauto.
  exists ct. unfold encrypt, decrypt, _encrypt, _decrypt. mrun. rewrite Ei. mrun.
  rewrite Ec, Edec. mrun. rewrite padded_length in Hlc.
  repeat split; [|done..]. f_equal. unfold _pad_to_multiple.
  destruct (padding_aes_shape (length d) blocksize) as (k & -> & _); [done|].
  apply unpad_replicate.
Qed.

(** ** One authenticated TLV *)

Definition m_wf (m : BspAlgoMac) : Prop := length (s_mac m) = 16%nat ∧ is_bytes (mac_chain m).

Lemma auth_ok m x :
  m_wf m → is_bytes x → ∃ mac c, _auth x m = (Ok mac, mkMac (s_mac m) c)
    ∧ length mac = 8%nat ∧ is_bytes mac ∧ is_bytes c.
Proof.
  intros [Hk _] Hx. unfold _auth. mrun.
  destruct (aes_cmac_ok (s_mac m) x Hk Hx) as (f & -> & Hl & Hb). mrun.
  eexists _, f. split; [reflexivity|]. split; [unfold slice; rewrite length_take, length_drop; lia|].
  split; [unfold slice; cbn; auto with sdauto | done].
Qed.

(** Authenticating [data] under a tag and verifying the result leave both
    ends in the same state, and the verified part is tag, length and data. *)
Lemma auth_verify m tag data :
  m_wf m → is_byte tag → is_bytes data → len data < 65528 →
  ∃ out m', auth tag data m = (Ok out, m')
    ∧ verify out m = (Ok ([tag] ++ bertlv_encode_len (len data + 8) ++ data), m')
    ∧ m_wf m' ∧ s_mac m' = s_mac m ∧ is_bytes out
    ∧ len out = 1 + len (bertlv_encode_len (len data + 8)) + len data + 8
    ∧ ∃ v, out = [tag] ++ bertlv_encode_len (len v) ++ v ∧ len v = len data + 8.
Proof.
  intros Hm Ht Hd Hlen. pose proof (len_nonneg data).
  set (hd := [tag] ++ bertlv_encode_len (len data + 8)).
  assert (is_bytes (mac_chain m ++ hd ++ data)) as Hin.
  { apply is_bytes_app. split; [apply Hm|]. apply is_bytes_app. split; [|done].
    constructor; [done|]. apply encode_len_bytes. unfold ber_len. lia. }
  destruct (auth_ok m _ Hm Hin) as (mac & c & E & Hl & Hmac & Hc).
  exists (hd ++ data ++ mac), (mkMac (s_mac m) c). unfold auth, verify.
  replace (Z.of_nat l_mac) with 8 by done. fold hd. rewrite bool_decide_ok by done.
  rewrite !(app_assoc hd data mac), but_last_app, last_n_app by done.
  rewrite <- !app_assoc. mrun. rewrite E. mrun. rewrite bool_decide_ok by done.
  destruct Hm. rewrite is_bytes_app in Hin. destruct Hin as [_ Hin].
  rewrite is_bytes_app in Hin. destruct Hin as [Hh _].
  split; [done|]. split; [unfold hd; by rewrite <- app_assoc|].
  split; [done|]. split; [done|]. split; [rewrite !is_bytes_app; auto|].
  assert (len mac = 8) as Hmac8 by (unfold len; lia).
  split; [unfold hd; rewrite !len_app; change (len [tag]) with 1; lia|].
  exists (data ++ mac). unfold hd. rewrite len_app, Hmac8, <- !app_assoc. done.
Qed.

(** ** One segment *)

(** A usable instance: 16-byte keys, an octet string as chaining value, a
    block counter with [room] increments left, payloads of at most 1008. *)
Definition bsp_wf (b : BspInstance) : Prop :=
  length (s_enc (c_algo b)) = 16%nat ∧ m_wf (m_algo b)
  ∧ 0 <= block_nr (c_algo b) ∧ max_payload_size b = 1008.
Definition room (b : BspInstance) (n : Z) : Prop := block_nr (c_algo b) + n <= 256 ^ 16.

Lemma bsp_init_wf k1 k2 mcv :
  length k1 = 16%nat → length k2 = 16%nat → is_bytes mcv → bsp_wf (bsp_init k1 k2 mcv).
Proof.
  intros. unfold bsp_wf, bsp_init, m_wf, MAX_SEGMENT_SIZE. cbn [c_algo m_algo max_payload_size s_enc s_mac mac_chain block_nr].
  rewrite length_encode_len by lia. cbn. repeat split; [done..|lia].
Qed.

Lemma room_init k1 k2 mcv n : n < 2 ^ 64 → room (bsp_init k1 k2 mcv) n.
Proof. intros. unfold room. change (1 + n <= 2 ^ 128). lia. Qed.

(** The ciphertext of [d] bytes, its tag, length field and MAC. *)
Definition ciphered_size (d : bytes) : Z := 16 * (len d / 16 + 1).
Definition tlv_size (n : Z) : Z := 1 + len (bertlv_encode_len (n + 8)) + n + 8.

(** What one protected segment gives: the receiver in the same state as the
    sender gets the plaintext back and ends in the same state again. *)
Definition segment_ok (dec : bytes → M BspInstance bytes) (one : bytes → M BspInstance bytes)
    (size : bytes → Z) (shape : bytes → Prop) (seg : bytes) (b : BspInstance) : Prop :=
  ∃ ct b', one seg b = (Ok ct, b') ∧ dec ct b = (Ok seg, b') ∧ bsp_wf b'
    ∧ block_nr (c_algo b') = block_nr (c_algo b) + 1 ∧ len ct = size seg ∧ shape ct.

(** A segment is one TLV of at most 1032 bytes under its tag. *)
Definition segment_tlv (tag : Z) (ct : bytes) : Prop :=
  ∃ v, ct = [tag] ++ bertlv_encode_len (len v) ++ v ∧ len v <= 1032.

Lemma encrypt_one_ok tag seg b :
  one_byte_tag tag → bsp_wf b → room b 1 → is_bytes seg → len seg <= 1008 →
  segment_ok demac_and_decrypt_one (encrypt_and_mac_one tag) (λ d, tlv_size (ciphered_size d))
    (segment_tlv tag) seg b.
Proof.
  intros Ht (Hk & Hm & Hn & Hmax) Hr Hs Hl. destruct b as [c m mx]. unfold room in Hr. cbn in *. subst mx.
  pose proof (len_nonneg seg). pose proof Ht as [Htb _]. unfold is_byte in Htb.
  destruct (encrypt_decrypt c seg) as (ct & Ee & Ed & Hlc & Hbc); [split; [done|lia] | done |].
  assert (len ct = ciphered_size seg) as Hc.
  { unfold len, ciphered_size, len. rewrite Hlc. lia. }
  assert (16 <= len ct <= 1024) by (rewrite Hc; unfold ciphered_size; dlia).
  destruct (auth_verify m tag ct) as (out & m' & Ea & Ev & Hm' & _ & _ & Hlo & v & Hv & Hlv); [done..|lia|].
  destruct (parse_one_encode tag (len ct + 8) ct Ht) as [td Ep]; [unfold ber_len; lia|].
  rewrite take_len in Ep by lia.
  exists out, (mkBsp (c_next c) m' 1008). unfold encrypt_and_mac_one, demac_and_decrypt_one, on_c, on_m.
  mrun. cbn [c_algo m_algo max_payload_size]. rewrite Ee, Ev, (proj2 (Z.leb_le tag 255)) by lia.
  mrun. rewrite (proj2 (Z.leb_le _ _)) by lia. mrun. cbn [c_algo m_algo max_payload_size].
  rewrite Ea, Ep. mrun. cbn [c_algo m_algo max_payload_size]. rewrite Ed.
  unfold tlv_size. rewrite <- Hc, <- Hlo. unfold bsp_wf. cbn.
  split; [done|]. split; [done|]. split; [|split; [done|]; split; [done|]; exists v; split; [done|lia]].
  split; [done|]. split; [done|]. lia.
Qed.

Lemma mac_one_ok tag seg b :
  one_byte_tag tag → bsp_wf b → room b 1 → is_bytes seg → len seg <= 1008 →
  segment_ok demac_only_one (mac_only_one tag) (λ d, tlv_size (len d)) (segment_tlv tag) seg b.
Proof.
  intros Ht (Hk & Hm & Hn & Hmax) Hr Hs Hl. destruct b as [c m mx]. unfold room in Hr. cbn in *. subst mx.
  pose proof (len_nonneg seg). pose proof Ht as [Htb _]. unfold is_byte in Htb.
  destruct (auth_verify m tag seg) as (out & m' & Ea & Ev & Hm' & _ & _ & Hlo & v & Hv & Hlv); [done..|lia|].
  destruct (parse_one_encode tag (len seg + 8) seg Ht) as [td Ep]; [unfold ber_len; lia|].
  rewrite take_len in Ep by lia.
  exists out, (mkBsp (c_next c) m' 1008). unfold mac_only_one, demac_only_one, on_c, on_m.
  mrun. cbn [c_algo m_algo max_payload_size]. rewrite Ev, (proj2 (Z.leb_le tag 255)) by lia.
  mrun. rewrite (proj2 (Z.leb_le _ _)) by lia. mrun. cbn [c_algo m_algo max_payload_size].
  rewrite Ea, Ep. mrun. unfold tlv_size. rewrite <- Hlo. unfold bsp_wf. cbn.
  split; [done|]. split; [done|]. split; [|split; [done|]; split; [done|]; exists v; split; [done|lia]].
  split; [done|]. split; [done|]. lia.
Qed.

(** ** Any number of segments *)

(** The segments the loop cuts: full payloads, then the rest. *)
Fixpoint segments (fuel : nat) (d : bytes) : list bytes :=
  match d, fuel with
  | [], _ => []
  | _, O => []
  | _, S f => if len d <? 1008 then [d] else take 1008 d :: segments f (drop 1008 d)
  end.

Lemma concat_segments fuel d : (length d < fuel)%nat → concat (segments fuel d) = d.
Proof.
  revert d. induction fuel as [|f IH]; intros d Hd; [lia|].
  destruct d as [|x d]; [done|]. cbn [segments]. destruct (Z.ltb_spec (len (x :: d)) 1008).
  - cbn. by rewrite app_nil_r.
  - cbn [concat]. rewrite IH; [apply (take_drop 1008 (x :: d))|].
    rewrite length_drop. unfold len in *. lia.
Qed.

Lemma segment_loop_ok one dec size shape :
  (∀ seg b, bsp_wf b → room b 1 → is_bytes seg → len seg <= 1008 → segment_ok dec one size shape seg b) →
  ∀ fuel d b, (length d < fuel)%nat → bsp_wf b → room b (len d) → is_bytes d →
  ∃ cts b', segment_loop one fuel d b = (Ok cts, b')
    ∧ map_m dec cts b = (Ok (segments fuel d), b') ∧ bsp_wf b'
    ∧ map len cts = map size (segments fuel d)
    ∧ block_nr (c_algo b') = block_nr (c_algo b) + len cts ∧ Forall shape cts.
Proof.
  intros Hone. induction fuel as [|f IH]; intros d b Hf Hb Hr Hd; [lia|].
  destruct d as [|x d].
  { exists [], b. split_and!; try done; try apply Hb. cbn. unfold len. cbn. lia. }
  assert (max_payload_size b = 1008) as Hmax by apply Hb.
  cbn [segment_loop segments]. mrun. rewrite Hmax. change (Z.to_nat 1008) with 1008%nat.
  assert (0 < len (x :: d)) by (unfold len; cbn; lia).
  set (seg := if len (x :: d) <? 1008 then x :: d else take 1008 (x :: d)).
  set (rest := if len (x :: d) <? 1008 then [] else drop 1008 (x :: d)).
  assert (len seg <= 1008 ∧ is_bytes seg ∧ is_bytes rest ∧ (length rest < f)%nat
          ∧ len rest + 1 <= len (x :: d)) as (Hs1 & Hs2 & Hs3 & Hs4 & Hs5).
  { unfold seg, rest. destruct (Z.ltb_spec (len (x :: d)) 1008).
    - repeat split; [lia|done|by constructor|cbn in *; lia|unfold len in *; cbn in *; lia].
    - unfold len in *. rewrite length_take, !length_drop. repeat split; try lia; auto with sdauto. }
  destruct (Hone seg b) as (ct & b1 & E1 & E2 & Hb1 & Hn1 & Hl1 & Hsh1); [done|unfold room in *; lia|done..|].
  destruct (IH rest b1) as (cts & b2 & E3 & E4 & Hb2 & Hm2 & Hn2 & Hsh2);
    [done..|unfold room in *; lia|done|].
  exists (ct :: cts), b2.
  assert ((if len (x :: d) <? 1008 then [x :: d] else take 1008 (x :: d) :: segments f (drop 1008 (x :: d)))
          = seg :: segments f rest) as ->.
  { unfold seg, rest. destruct (len (x :: d) <? 1008); [|done]. by destruct f. }
  split.
  { unfold seg, rest in *. destruct (len (x :: d) <? 1008); mrun; rewrite E1; mrun; by rewrite E3. }
  cbn [map_m map]. mrun. rewrite E2. mrun. rewrite E4, Hl1, Hm2. rewrite len_cons.
  split_and!; try done; [lia|by constructor].
Qed.

Lemma encrypt_and_mac_ok tag d b :
  one_byte_tag tag → bsp_wf b → room b (len d) → is_bytes d →
  ∃ cts b', encrypt_and_mac tag d b = (Ok cts, b')
    ∧ demac_and_decrypt cts b = (Ok d, b') ∧ bsp_wf b'
    ∧ map len cts = map (λ s, tlv_size (ciphered_size s)) (segments (S (length d)) d)
    ∧ block_nr (c_algo b') = block_nr (c_algo b) + len cts ∧ Forall (segment_tlv tag) cts.
Proof.
  intros Ht Hb Hr Hd.
  destruct (segment_loop_ok (encrypt_and_mac_one tag) demac_and_decrypt_one
              (λ s, tlv_size (ciphered_size s)) (segment_tlv tag) (λ s b' H1 H2 H3 H4, encrypt_one_ok tag s b' Ht H1 H2 H3 H4)
              (S (length d)) d b) as (cts & b' & E1 & E2 & Hb' & Hl & Hn & Hsh); [lia|done..|].
  exists cts, b'. unfold demac_and_decrypt. mrun. rewrite E2. mrun. rewrite concat_segments by lia. by split_and!.
Qed.

Lemma mac_only_ok tag d b :
  one_byte_tag tag → bsp_wf b → room b (len d) → is_bytes d →
  ∃ cts b', mac_only tag d b = (Ok cts, b')
    ∧ demac_only cts b = (Ok d, b') ∧ bsp_wf b'
    ∧ map len cts = map (λ s, tlv_size (len s)) (segments (S (length d)) d)
    ∧ block_nr (c_algo b') = block_nr (c_algo b) + len cts ∧ Forall (segment_tlv tag) cts.
Proof.
  intros Ht Hb Hr Hd.
  destruct (segment_loop_ok (mac_only_one tag) demac_only_one
              (λ s, tlv_size (len s)) (segment_tlv tag) (λ s b' H1 H2 H3 H4, mac_one_ok tag s b' Ht H1 H2 H3 H4)
              (S (length d)) d b) as (cts & b' & E1 & E2 & Hb' & Hl & Hn & Hsh); [lia|done..|].
  exists cts, b'. unfold demac_only. mrun. rewrite E2. mrun. rewrite concat_segments by lia. by split_and!.
Qed.

(** ** A whole channel

    The abstract contract of a BSP session: the sender protects a series of
    messages, each encrypted or only authenticated; the receiver, started
    from the same keys, undoes them in the same order. *)
Inductive message := Encrypted (tag : Z) (d : bytes) | MacOnly (tag : Z) (d : bytes).

Definition payload (m : message) : bytes := match m with Encrypted _ d | MacOnly _ d => d end.
Definition msg_tag (m : message) : Z := match m with Encrypted t _ | MacOnly t _ => t end.
Definition protect (m : message) : M BspInstance (list bytes) :=
  match m with Encrypted t d => encrypt_and_mac t d | MacOnly t d => mac_only t d end.
Definition unprotect (mc : message * list bytes) : M BspInstance bytes :=
  match mc with (Encrypted _ _, cts) => demac_and_decrypt cts | (MacOnly _ _, cts) => demac_only cts end.
Definition total (ms : list message) : Z := foldr (λ m n, len (payload m) + n) 0 ms.
Definition msg_wf (m : message) : Prop := one_byte_tag (msg_tag m) ∧ is_bytes (payload m).

Lemma length_segments fuel d : (length d < fuel)%nat → len (segments fuel d) <= len d.
Proof.
  revert d. induction fuel as [|f IH]; intros d Hd; [lia|].
  destruct d as [|x d]; [done|]. cbn [segments].
  destruct (Z.ltb_spec (len (x :: d)) 1008); [rewrite !len_cons; unfold len; cbn; lia|].
  specialize (IH (drop 1008 (x :: d))). rewrite length_drop in IH.
  unfold len in *. rewrite length_drop in IH. cbn [length] in *. lia.
Qed.

Lemma message_ok m b :
  msg_wf m → bsp_wf b → room b (len (payload m)) →
  ∃ cts b', protect m b = (Ok cts, b') ∧ unprotect (m, cts) b = (Ok (payload m), b')
    ∧ bsp_wf b' ∧ block_nr (c_algo b') <= block_nr (c_algo b) + len (payload m).
Proof.
  intros [Ht Hd] Hb Hr.
  destruct m as [t d|t d]; cbn [payload msg_tag protect unprotect] in *;
    [destruct (encrypt_and_mac_ok t d b) as (cts & b' & ? & ? & ? & Hl & Hn & _)
    |destruct (mac_only_ok t d b) as (cts & b' & ? & ? & ? & Hl & Hn & _)]; try done;
    exists cts, b'; split_and!; try done;
    apply (f_equal length) in Hl; rewrite !length_map in Hl;
    pose proof (length_segments (S (length d)) d ltac:(lia)); unfold len in *; lia.
Qed.

Lemma session_ok ms : ∀ b,
  Forall msg_wf ms → bsp_wf b → room b (total ms) →
  ∃ ctss b', map_m protect ms b = (Ok ctss, b') ∧ bsp_wf b'
    ∧ map_m unprotect (zip ms ctss) b = (Ok (map payload ms), b').
Proof.
  induction ms as [|m ms IH]; intros b Hms Hb Hr; [by exists [], b|].
  inversion Hms as [|? ? Hm Hms']; subst. cbn [total foldr] in Hr. fold (total ms) in Hr.
  assert (0 <= total ms) by (clear; induction ms; cbn; [lia|]; pose proof (len_nonneg (payload a)); unfold total in *; lia).
  destruct (message_ok m b Hm Hb) as (cts & b1 & E1 & E2 & Hb1 & Hn1); [unfold room in *; lia|].
  destruct (IH b1 Hms' Hb1) as (ctss & b2 & E3 & Hb2 & E4); [unfold room in *; lia|].
  exists (cts :: ctss), b2. cbn [map_m map zip zip_with]. mrun. rewrite E1. mrun. rewrite E3.
  split; [done|]. split; [done|]. rewrite E2. mrun. by rewrite E4.
Qed.
End Bsp_facts.

(** ** Properties *)

(** Removing the AES padding gives back the padded data, and the padded
    data is the shortest whole number of blocks longer than the data. *)
Theorem unpad_pad d :
  _unpad (_pad_to_multiple d blocksize 0) = Ok d
  ∧ length (_pad_to_multiple d blocksize 0) = (16 * (length d / 16 + 1))%nat.
Proof.
  split; [|apply padded_length]. unfold _pad_to_multiple.
  destruct (padding_aes_shape (length d) blocksize) as (k & -> & _); [done|]. apply unpad_replicate.
Qed.

Section Bsp_properties.
Context `{CryptodomeLaws, OsmocomTlvLaws}.

(** C7: a receiver that starts from the sender's keys and undoes the messages
    of a session in order, whatever the mix of encrypted and MAC-only
    messages and however they are cut into segments, gets every message
    back; no call raises and the loops end. *)
Theorem bsp_session_round_trip (k_enc k_mac mcv : bytes) (ms : list message) :
  length k_enc = 16%nat → length k_mac = 16%nat → is_bytes mcv →
  Forall msg_wf ms → total ms < 2 ^ 64 →
  ∃ ctss b', map_m protect ms (bsp_init k_enc k_mac mcv) = (Ok ctss, b')
    ∧ map_m unprotect (zip ms ctss) (bsp_init k_enc k_mac mcv) = (Ok (map payload ms), b').
Proof.
  intros H1' H2' H3' Hms Ht.
  destruct (session_ok ms (bsp_init k_enc k_mac mcv) Hms) as (ctss & b' & ? & _ & ?);
    [by apply bsp_init_wf|by apply room_init|]. eauto.
Qed.

Lemma tlv_size_eq n : 0 <= n < 65000 →
  tlv_size n = 1 + (if n + 8 <? 128 then 1 else if n + 8 <? 256 then 2 else 3) + n + 8.
Proof. intros. unfold tlv_size. rewrite length_encode_len by lia. done. Qed.

Lemma segments_bound fuel d : Forall (λ s, len s <= 1008) (segments fuel d).
Proof.
  revert d. induction fuel as [|f IH]; intros [|x d]; cbn [segments]; try constructor.
  destruct (Z.ltb_spec (len (x :: d)) 1008); repeat constructor; [lia| |apply IH].
  unfold len. rewrite length_take. lia.
Qed.

(** A segment that is only authenticated never exceeds the 1020 bytes of
    MAX_SEGMENT_SIZE, tag, length field and MAC included. *)
Theorem mac_only_segments_fit tag d k_enc k_mac mcv :
  one_byte_tag tag → is_bytes d → len d < 2 ^ 64 →
  length k_enc = 16%nat → length k_mac = 16%nat → is_bytes mcv →
  ∃ cts b', mac_only tag d (bsp_init k_enc k_mac mcv) = (Ok cts, b')
    ∧ Forall (λ ct, len ct <= MAX_SEGMENT_SIZE) cts.
Proof.
  intros Ht Hd Hl ? ? ?.
  destruct (mac_only_ok tag d (bsp_init k_enc k_mac mcv)) as (cts & b' & E & _ & _ & Hs & _);
    [done|by apply bsp_init_wf|apply room_init; lia|done|].
  exists cts, b'. split; [done|]. apply (Forall_map len (λ n, n <= MAX_SEGMENT_SIZE)). rewrite Hs.
  apply Forall_map. eapply List.Forall_impl; [|apply segments_bound].
  intros s Hs1. cbn in Hs1. pose proof (len_nonneg s). unfold MAX_SEGMENT_SIZE.
  rewrite tlv_size_eq by lia. repeat split_if; lia.
Qed.

(** An encrypted segment is not kept within MAX_SEGMENT_SIZE: when the
    data fills a payload of max_payload_size (1008) bytes the padding adds a
    block, and the first segment sent is 1036 bytes long. *)
Theorem encrypt_and_mac_exceeds_segment tag d k_enc k_mac mcv :
  one_byte_tag tag → is_bytes d → 1008 <= len d < 2 ^ 64 →
  length k_enc = 16%nat → length k_mac = 16%nat → is_bytes mcv →
  ∃ ct cts b', encrypt_and_mac tag d (bsp_init k_enc k_mac mcv) = (Ok (ct :: cts), b')
    ∧ len ct = 1036 ∧ MAX_SEGMENT_SIZE < len ct.
Proof.
  intros Ht Hd Hl ? ? ?.
  destruct (encrypt_and_mac_ok tag d (bsp_init k_enc k_mac mcv)) as (cts & b' & E & _ & _ & Hs & _);
    [done|by apply bsp_init_wf|apply room_init; lia|done|].
  destruct d as [|x d]; [unfold len in Hl; cbn in Hl; lia|].
  cbn [segments] in Hs. rewrite (proj2 (Z.ltb_ge _ _)) in Hs by lia.
  destruct cts as [|ct cts]; [done|]. cbn [map] in Hs. injection Hs as Hs _.
  exists ct, cts, b'. split; [done|].
  assert (len (take 1008 (x :: d)) = 1008) as Ht8 by (unfold len in *; rewrite length_take; lia).
  unfold ciphered_size in Hs.
  change (x :: take 1007 d) with (take 1008 (x :: d)) in Hs. rewrite Ht8 in Hs.
  change (16 * (1008 / 16 + 1)) with 1024 in Hs. rewrite tlv_size_eq in Hs by lia.
  change (len ct = 1036) in Hs. unfold MAX_SEGMENT_SIZE. lia.
Qed.

(** [verify] accepts a segment exactly when its last eight bytes are the
    truncated CMAC over the chaining value and the rest, and raises
    ValueError otherwise; either way the chaining value moves on to the CMAC
    just computed. *)
Theorem verify_decides m ct :
  m_wf m → is_bytes ct →
  ∃ full, aes_cmac (s_mac m) (mac_chain m ++ but_last l_mac ct) = Ok full
    ∧ verify ct m
      = (if bool_decide (last_n l_mac ct = take 8 full) then Ok (but_last l_mac ct) else Err ValueError,
         mkMac (s_mac m) full).
Proof.
  intros [Hk Hc] Hct.
  destruct (aes_cmac_ok (s_mac m) (mac_chain m ++ but_last l_mac ct)) as (full & E & _); [done| |].
  { apply is_bytes_app. split; [done|]. by apply is_bytes_take. }
  exists full. split; [done|]. unfold verify, _auth. mrun. rewrite E. mrun.
  change (slice 0 8 full) with (take 8 full). by destruct (bool_decide _).
Qed.
End Bsp_properties.

(** ** Concrete runs *)

Module BspRun.
Import Ref RefCrypto.
Definition key (n : Z) : bytes := replicate 16 n.

Lemma bsp_session_round_trip_witness :
  ∃ ctss b',
    map_m protect [Encrypted 135 [1; 2; 3]; MacOnly 136 (replicate 30 7); Encrypted 134 (replicate 20 9)]
      (bsp_init (key 1) (key 2) (key 3)) = (Ok ctss, b')
    ∧ map_m unprotect (zip [Encrypted 135 [1; 2; 3]; MacOnly 136 (replicate 30 7); Encrypted 134 (replicate 20 9)] ctss)
        (bsp_init (key 1) (key 2) (key 3))
      = (Ok [[1; 2; 3]; replicate 30 7; replicate 20 9], b').
Proof.
  apply (bsp_session_round_trip (key 1) (key 2) (key 3)
    [Encrypted 135 [1; 2; 3]; MacOnly 136 (replicate 30 7); Encrypted 134 (replicate 20 9)]);
    [done|done|by apply (bool_decide_unpack _); vm_compute| |done].
  repeat constructor; cbn; try lia; by apply (bool_decide_unpack _); vm_compute.
Defined.

Lemma mac_only_segments_fit_witness :
  ∃ cts b', mac_only 136 (replicate 1200 7) (bsp_init (key 1) (key 2) (key 3)) = (Ok cts, b')
    ∧ Forall (λ ct, len ct <= MAX_SEGMENT_SIZE) cts.
Proof.
  apply (mac_only_segments_fit 136 (replicate 1200 7) (key 1) (key 2) (key 3));
    try done; try (by apply (bool_decide_unpack _); vm_compute).
Defined.

Lemma encrypt_and_mac_exceeds_segment_witness :
  ∃ ct cts b', encrypt_and_mac 134 (replicate 1008 7) (bsp_init (key 1) (key 2) (key 3)) = (Ok (ct :: cts), b')
    ∧ len ct = 1036 ∧ MAX_SEGMENT_SIZE < len ct.
Proof.
  apply (encrypt_and_mac_exceeds_segment 134 (replicate 1008 7) (key 1) (key 2) (key 3));
    try done; try (by apply (bool_decide_unpack _); vm_compute).
Defined.

Lemma verify_decides_witness :
  ∃ full, aes_cmac (key 2) (key 3 ++ but_last l_mac (replicate 20 5)) = Ok full
    ∧ verify (replicate 20 5) (mkMac (key 2) (key 3))
      = (if bool_decide (last_n l_mac (replicate 20 5) = take 8 full)
         then Ok (but_last l_mac (replicate 20 5)) else Err ValueError,
         mkMac (key 2) full).
Proof.
  apply (verify_decides (mkMac (key 2) (key 3)) (replicate 20 5));
    [split; [done|]|]; by apply (bool_decide_unpack _); vm_compute.
Defined.
End BspRun.
