(* ===== verification/X509.v ===== *)
(** Certificates, pySim/esim/x509_cert.py: the set of a root and intermediate
    certificates, the walk up the chain of authority key identifiers, and the
    raw ECDSA signature format. The [cryptography] package is the class
    [X509Lib]: a type of certificates with the accessors the code calls. *)

From S2P Require Import Prelude.

Class X509Lib := {
  Certificate : Type;
  PrivateKey : Type;
  (** [get_extension_for_class(SubjectKeyIdentifier).value.key_identifier],
      and the same for AuthorityKeyIdentifier; ExtensionNotFound is raised
      when the extension is missing *)
  ext_subject_key_id : Certificate → result bytes;
  ext_authority_key_id : Certificate → result bytes;
  (** [get_extension_for_class(KeyUsage).value]: (key_cert_sign, crl_sign) *)
  ext_key_usage : Certificate → result (bool * bool);
  (** the policy identifiers of every CertificatePolicies extension *)
  ext_policies : Certificate → list (list str);
  (** [signer.public_key().verify(signed.signature, signed.tbs..., ...)] *)
  cert_verify : Certificate → Certificate → result unit;
  (** [cert.serial_nr]; the revocation list's look-up by serial number *)
  serial_nr : Certificate → result Z;
  Crl : Type;
  get_revoked : Crl → Z → bool;
  (** DER encoding of a certificate and its inverse *)
  load_der_x509_certificate : bytes → result Certificate;
  public_bytes_der : Certificate → bytes;
  (** ECDSA over SHA-256: [key.sign], [cert.public_key().verify] *)
  ecdsa_sign_dss : PrivateKey → bytes → bytes;
  ecdsa_verify_dss : Certificate → bytes → bytes → bool;
  (** DER form of a signature: [encode_dss_signature], [decode_dss_signature] *)
  encode_dss_signature : Z → Z → bytes;
  decode_dss_signature : bytes → result (Z * Z);
}.

Class X509Laws `{X509Lib} := {
  load_public_bytes c : load_der_x509_certificate (public_bytes_der c) = Ok c;
  decode_encode_dss r s : decode_dss_signature (encode_dss_signature r s) = Ok (r, s);
}.

(** The classes of exceptions the library raises here. *)
Definition InvalidSignature : exn := LibError "InvalidSignature".
Definition ExtensionNotFound : exn := LibError "ExtensionNotFound".

(** ** Object identifiers *)

Module Oid.
Definition ID_RSP : str := "2.23.146.1".
Definition ID_RSP_CERT_OBJECTS : str := join "." [ID_RSP; lit "2"].
Definition ID_RSP_ROLE : str := join "." [ID_RSP_CERT_OBJECTS; lit "1"].
Definition id_rspRole_ci : str := ID_RSP_ROLE ++ ".0".
Definition id_rspRole_dp_auth_v2 : str := ID_RSP_ROLE ++ ".4".
Definition id_rspRole_dp_pb_v2 : str := ID_RSP_ROLE ++ ".5".
End Oid.

Section X509.
Context `{X509Lib}.

Definition check_signed (signed signer : Certificate) : result unit := cert_verify signer signed.

Definition cert_get_subject_key_id (cert : Certificate) : result bytes := ext_subject_key_id cert.
Definition cert_get_auth_key_id (cert : Certificate) : result bytes := ext_authority_key_id cert.

Definition cert_policy_has_oid (cert : Certificate) (match_oid : str) : bool :=
  existsb (λ policies, existsb (λ p, bool_decide (p = match_oid)) policies) (ext_policies cert).

(** ** CertificateSet *)

Record CertificateSet := mkCertSet {
  root_cert : Certificate;
  intermediate_certs : gmap bytes Certificate;
  crl : option Crl;
}.

(** [CertificateSet.__init__] *)
Definition certset_init (root : Certificate) : result CertificateSet :=
  check_signed root root;;
  guard_else (cert_policy_has_oid root Oid.id_rspRole_ci) ValueError;;
  '(key_cert_sign, crl_sign) ← ext_key_usage root;
  guard_else key_cert_sign ValueError;;
  guard_else crl_sign ValueError;;
  Ok (mkCertSet root ∅ None).

Definition root_cert_id (cs : CertificateSet) : result bytes := cert_get_subject_key_id (root_cert cs).

Definition add_intermediate_cert (cert : Certificate) (cs : CertificateSet) : result CertificateSet :=
  '(key_cert_sign, _) ← ext_key_usage cert;
  guard_else key_cert_sign ValueError;;
  aki ← cert_get_auth_key_id cert;
  ski ← cert_get_subject_key_id cert;
  guard_else (negb (bool_decide (aki = ski))) ValueError;;
  Ok (mkCertSet (root_cert cs) (<[ski := cert]> (intermediate_certs cs)) (crl cs)).

Definition verify_cert_crl (cs : CertificateSet) (cert : Certificate) : result unit :=
  match crl cs with
  | None => Ok ()
  | Some c => sn ← serial_nr cert; if get_revoked c sn then Err VerifyError else Ok ()
  end.

(** The body of the [while True] loop; [left] is how often [depth] may
    still be incremented before it exceeds [max_depth]. *)
Fixpoint verify_loop (cs : CertificateSet) (left : nat) (c : Certificate) : result unit :=
  aki ← cert_get_auth_key_id c;
  rid ← root_cert_id cs;
  if bool_decide (aki = rid) then check_signed c (root_cert cs)
  else
    match intermediate_certs cs !! aki with
    | None => Err VerifyError
    | Some parent_cert =>
        check_signed c parent_cert;;
        match left with
        | O => Err VerifyError
        | S left' => verify_loop cs left' parent_cert
        end
    end.

Definition verify_cert_chain (cs : CertificateSet) (cert : Certificate) (max_depth : nat) : result unit :=
  verify_loop cs (max_depth - 1) cert.

(** ** Signatures *)

Definition ecdsa_dss_to_tr03111 (sig : bytes) : result bytes :=
  '(r, s) ← decode_dss_signature sig;
  rb ← to_bytes 32 r;
  sb ← to_bytes 32 s;
  Ok (rb ++ sb).

(** [CertAndPrivkey] *)
Record CertAndPrivkey := mkCertKey {
  required_policy_oid : option str;
  cert : option Certificate;
  priv_key : option PrivateKey;
}.

(** [cert_from_der_file], given the contents of the file. *)
Definition cert_from_der_file (ck : CertAndPrivkey) (contents : bytes) : result CertAndPrivkey :=
  c ← load_der_x509_certificate contents;
  (match required_policy_oid ck with
   | Some o => assert_ (cert_policy_has_oid c o)
   | None => Ok ()
   end);;
  Ok (mkCertKey (required_policy_oid ck) (Some c) (priv_key ck)).

Definition ecdsa_sign (ck : CertAndPrivkey) (plaintext : bytes) : result bytes :=
  k ← from_opt AttributeError (priv_key ck);
  ecdsa_dss_to_tr03111 (ecdsa_sign_dss k plaintext).

Definition get_cert_as_der (ck : CertAndPrivkey) : result bytes :=
  c ← from_opt AttributeError (cert ck); Ok (public_bytes_der c).

(** ** What a verified chain is

    [chain cs n c]: [c] is signed by the root, or by an intermediate
    certificate of the set found under its authority key identifier, for
    which the same holds; [n] intermediate certificates are passed. *)
Inductive chain (cs : CertificateSet) : nat → Certificate → Prop :=
| chain_root c aki :
    cert_get_auth_key_id c = Ok aki → root_cert_id cs = Ok aki →
    check_signed c (root_cert cs) = Ok () → chain cs 0 c
| chain_step n c aki rid parent :
    cert_get_auth_key_id c = Ok aki → root_cert_id cs = Ok rid → aki ≠ rid →
    intermediate_certs cs !! aki = Some parent →
    check_signed c parent = Ok () → chain cs n parent → chain cs (S n) c.

Lemma verify_loop_chain cs left c :
  verify_loop cs left c = Ok () ↔ ∃ n, (n <= left)%nat ∧ chain cs n c.
Proof.
  revert c. induction left as [|left IH]; intros c; cbn [verify_loop].
  - split.
    + intros E. inv_ok. case_bool_decide; subst; [exists 0%nat; eauto using chain|].
      case_match; [|done]. inv_ok.
    + intros (n & Hn & Hc). destruct Hc as [c aki E1 E2 E3|]; [|lia].
      rewrite E1, E2. cbn. by rewrite bool_decide_ok.
  - split.
    + intros E. inv_ok. case_bool_decide; subst; [exists 0%nat; split; [lia|]; eauto using chain|].
      case_match; [|done]. inv_ok.
      match goal with E : verify_loop _ _ _ = _ |- _ => apply IH in E as (n & ? & ?) end.
      destruct x1. exists (S n). split; [lia|]. eauto using chain.
    + intros (n & Hn & Hc). destruct Hc as [c aki E1 E2 E3|n c aki rid parent E1 E2 Hne El Es Hc];
        rewrite E1, E2; cbn; [by rewrite bool_decide_ok|].
      rewrite bool_decide_false, El, Es by done. cbn. apply IH. exists n. split; [lia|done].
Qed.
End X509.
Arguments mkCertSet {_}. Arguments mkCertKey {_}.

(** ** Properties *)

Section X509_properties.
Context `{X509Laws}.

(** C17: [verify_cert_chain] succeeds exactly when the certificate is linked
    to the root of the set by signatures checked one by one, through at most
    [max_depth - 1] intermediate certificates; it always ends. *)
Theorem verify_cert_chain_spec cs c max_depth :
  verify_cert_chain cs c max_depth = Ok ()
  ↔ ∃ n, (n <= max_depth - 1)%nat ∧ chain cs n c.
Proof. apply verify_loop_chain. Qed.

(** The only way a bad signature in the chain shows is the library's own
    exception: when the certificate names the root as its issuer and its
    signature does not verify, InvalidSignature comes out, not VerifyError. *)
Theorem verify_cert_chain_bad_signature cs c max_depth aki :
  cert_get_auth_key_id c = Ok aki → root_cert_id cs = Ok aki →
  check_signed c (root_cert cs) = Err InvalidSignature →
  verify_cert_chain cs c max_depth = Err InvalidSignature ∧ InvalidSignature ≠ VerifyError.
Proof.
  intros E1 E2 E3. split; [|done]. unfold verify_cert_chain.
  destruct (max_depth - 1)%nat; cbn [verify_loop]; rewrite E1, E2; cbn; by rewrite bool_decide_ok.
Qed.

(** A set that accepts a certificate as intermediate maps its subject key
    identifier to it, keeps the root and every other entry; the certificate
    is allowed to sign certificates and is not self-issued. *)
Theorem add_intermediate_cert_spec c cs cs' :
  add_intermediate_cert c cs = Ok cs' →
  ∃ ski aki crl_sign,
    cert_get_subject_key_id c = Ok ski ∧ cert_get_auth_key_id c = Ok aki ∧ aki ≠ ski
    ∧ ext_key_usage c = Ok (true, crl_sign)
    ∧ root_cert cs' = root_cert cs
    ∧ intermediate_certs cs' !! ski = Some c
    ∧ ∀ k, k ≠ ski → intermediate_certs cs' !! k = intermediate_certs cs !! k.
Proof.
  unfold add_intermediate_cert. intros E. inv_ok. destruct x as [kcs crls]. inv_ok.
  match goal with E : negb _ = true |- _ => apply negb_true_iff in E end. inv_ok.
  do 3 eexists. split_and!; eauto; cbn.
  - by rewrite lookup_insert_eq.
  - intros k Hk. by rewrite lookup_insert_ne.
Qed.

(** A raw signature is 64 bytes, and holds the two integers of the DER
    form. *)
Theorem ecdsa_dss_to_tr03111_spec r s :
  0 <= r < 2 ^ 256 → 0 <= s < 2 ^ 256 →
  ∃ raw, ecdsa_dss_to_tr03111 (encode_dss_signature r s) = Ok raw
    ∧ length raw = 64%nat
    ∧ from_bytes (take 32 raw) = r ∧ from_bytes (drop 32 raw) = s.
Proof.
  intros Hr Hs. unfold ecdsa_dss_to_tr03111, to_bytes. rewrite decode_encode_dss. mrun.
  change (256 ^ Z.of_nat 32) with (2 ^ 256). rewrite !bool_decide_ok by done. mrun.
  eexists. split; [done|]. rewrite length_app, !length_be. split; [done|].
  rewrite take_app_length', drop_app_length' by (by rewrite length_be).
  by rewrite !from_bytes_be by done.
Qed.
End X509_properties.

(** ** A concrete library: certificates are numbers

    Number [n] has the subject key identifier [n], is issued by [n mod 100 / 10]
    and carries a good signature of it when it is below 100. *)
Module RefX509.
#[export] Instance x509 : X509Lib := {
  Certificate := Z;
  PrivateKey := Z;
  ext_subject_key_id n := Ok [n];
  ext_authority_key_id n := Ok [n mod 100 / 10];
  ext_key_usage n := Ok (true, true);
  ext_policies n := [[Oid.id_rspRole_ci]];
  cert_verify signer n := if bool_decide (n < 100 ∧ n / 10 = signer) then Ok () else Err InvalidSignature;
  serial_nr n := Ok n;
  Crl := list Z;
  get_revoked l n := bool_decide (n ∈ l);
  load_der_x509_certificate bs := match bs with [n] => Ok n | _ => Err ValueError end;
  public_bytes_der n := [n];
  ecdsa_sign_dss k d := [k; foldr Z.add 0 d mod 2 ^ 200];
  ecdsa_verify_dss n sig d := bool_decide (sig = [n; foldr Z.add 0 d mod 2 ^ 200]);
  encode_dss_signature r s := [r; s];
  decode_dss_signature bs := match bs with [r; s] => Ok (r, s) | _ => Err ValueError end;
}.

#[export] Instance laws : X509Laws.
Proof. split; done. Qed.
End RefX509.

Module X509Run.
Import RefX509.
Definition crt (n : Z) : Certificate := n.
Definition cs : CertificateSet := mkCertSet (crt 0) {[ [1] := crt 1 ]} None.
Definition cs2 : CertificateSet := mkCertSet (crt 0) (<[ [2] := crt 2 ]> {[ [1] := crt 1 ]}) None.

Lemma verify_cert_chain_bad_signature_witness :
  verify_cert_chain cs (crt 100) 100 = Err InvalidSignature ∧ InvalidSignature ≠ VerifyError.
Proof. apply (verify_cert_chain_bad_signature cs (crt 100) 100 [0]); reflexivity. Defined.

Lemma add_intermediate_cert_spec_witness :
  ∃ ski aki crl_sign,
    cert_get_subject_key_id (crt 2) = Ok ski ∧ cert_get_auth_key_id (crt 2) = Ok aki ∧ aki ≠ ski
    ∧ ext_key_usage (crt 2) = Ok (true, crl_sign)
    ∧ root_cert cs2 = root_cert cs
    ∧ intermediate_certs cs2 !! ski = Some (crt 2)
    ∧ ∀ k, k ≠ ski → intermediate_certs cs2 !! k = intermediate_certs cs !! k.
Proof. apply (add_intermediate_cert_spec (crt 2) cs); reflexivity. Defined.

Lemma ecdsa_dss_to_tr03111_spec_witness :
  ∃ raw, ecdsa_dss_to_tr03111 (encode_dss_signature 5 7) = Ok raw
    ∧ length raw = 64%nat
    ∧ from_bytes (take 32 raw) = 5 ∧ from_bytes (drop 32 raw) = 7.
Proof. apply (ecdsa_dss_to_tr03111_spec 5 7); split; vm_compute; congruence. Defined.
End X509Run.
