(* ===== verification/Esim.v ===== *)
(** Small codecs of pySim/esim/__init__.py: profile management operations
    ([PMO]) and SGP.22 activation codes ([ActivationCode]). *)

From S2P Require Import Prelude.

(** ** PMO *)

Module PMO.
Record t := mkPMO { op : str }.

(** The class attribute [pmo4operation], a dict in this order. *)
Definition pmo4operation : list (str * Z) :=
  [(lit "install", 128); (lit "enable", 64); (lit "disable", 32); (lit "delete", 16)].

Definition find_op (o : str) : option Z :=
  snd <$> list_find (λ kv, kv.1 = o) pmo4operation ≫= λ p, Some p.2.

(** [PMO.__init__] *)
Definition init (o : str) : result t :=
  guard_else (bool_decide (o ∈ map fst pmo4operation)) ValueError;; Ok (mkPMO o).

Definition to_int (p : t) : result Z := from_opt KeyError (find_op (op p)).

(** [_num_bits]: the bits up to and including the lowest one set. *)
Fixpoint num_bits_from (data : Z) (i : Z) (fuel : nat) : Z :=
  match fuel with
  | O => 0
  | S f => if truthy (Z.land data (Z.shiftl 1 i)) then 8 - i else num_bits_from data (i + 1) f
  end.
Definition _num_bits (data : Z) : Z := num_bits_from data 0 8.

Definition to_bitstring (p : t) : result (bytes * Z) :=
  val ← to_int p;
  b ← bytes_of_ints [val];
  Ok (b, _num_bits val).

Fixpoint from_int_in (l : list (str * Z)) (i : Z) : result t :=
  match l with
  | [] => Err ValueError
  | (k, v) :: l' => if v =? i then init k else from_int_in l' i
  end.
Definition from_int (i : Z) : result t := from_int_in pmo4operation i.

Definition from_bitstring (bstr : bytes * Z) : result t := b ← idx bstr.1 0; from_int b.

(** An operation the class accepts is encoded as one byte with a single
    bit set, of which the given number of bits are significant, and decoding
    that bit string gives the operation back; any other name is refused. *)
Theorem pmo_round_trip o :
  match init o with
  | Ok p => ∃ b n, to_bitstring p = Ok ([b], n) ∧ from_bitstring ([b], n) = Ok p
                   ∧ b = 2 ^ (8 - n) ∧ 1 <= n <= 4
  | Err e => e = ValueError ∧ o ∉ map fst pmo4operation
  end.
Proof.
  unfold init. destruct (decide (o ∈ map fst pmo4operation)) as [Hin|Hout].
  - rewrite bool_decide_ok by done. mrun. cbn [map fst pmo4operation] in Hin.
    rewrite !elem_of_cons in Hin. destruct Hin as [->|[->|[->|[->|[]%elem_of_nil]]]];
      do 2 eexists; (split; [reflexivity|]); (split; [reflexivity|]); by vm_compute.
  - by rewrite bool_decide_false.
Qed.
End PMO.

(** ** ActivationCode *)

Module ActivationCode.
Record t := mkAC { hostname : str; token : str; oid : option str; cc_required : bool; format : Z }.

Definition dollar : ascii := "$"%char.
Definition has_dollar (s : str) : bool := existsb (Ascii.eqb dollar) s.

(** [ActivationCode.__init__] *)
Definition init (hostname token : str) (oid : option str) (cc_required : bool) : result t :=
  guard_else (negb (has_dollar hostname)) ValueError;;
  guard_else (negb (has_dollar token)) ValueError;;
  Ok (mkAC hostname token oid cc_required 1).

(** The dict [decode_str] returns. *)
Record decoded := mkDecoded {
  d_format : str; d_hostname : str; d_token : str; d_oid : option str; d_cc : bool }.

(** [l.pop(0)] *)
Definition pop {A} (l : list A) : result (A * list A) :=
  match l with [] => Err IndexError | x :: l' => Ok (x, l') end.

Definition decode_str (ac : str) : result decoded :=
  c ← idx ac 0;
  guard_else (Ascii.eqb c "1"%char) ValueError;;
  let ac_elements := split_on dollar ac in
  '(format, l1) ← pop ac_elements;
  '(hostname, l2) ← pop l1;
  '(token, l3) ← pop l2;
  '(oid, l4) ← match l3 with
               | [] => Ok (None, l3)
               | o :: l' => Ok (if bool_decide (o = []) then None else Some o, l')
               end;
  let cc := match l4 with c :: _ => bool_decide (c = lit "1") | [] => false end in
  Ok (mkDecoded format hostname token oid cc).

Definition from_string (ac : str) : result t :=
  d ← decode_str ac; init (d_hostname d) (d_token d) (d_oid d) (d_cc d).

(** Truth value of an optional string: None and the empty string are false. *)
Definition oid_true (o : option str) : bool := match o with Some (_ :: _) => true | _ => false end.

Definition to_string (a : t) (for_qrcode : bool) : str :=
  (if for_qrcode then lit "LPA:" else []) ++
  str_of_int (format a) ++ lit "$" ++ hostname a ++ lit "$" ++ token a ++
  (if oid_true (oid a) then lit "$" ++ default [] (oid a)
   else if cc_required a then lit "$" else []) ++
  (if cc_required a then lit "$1" else []).

Lemma no_dollar s : has_dollar s = false → Forall (λ d, Ascii.eqb dollar d = false) s.
Proof.
  unfold has_dollar. induction s as [|d s IH]; cbn [existsb]; [constructor|].
  intros [H1 H2]%orb_false_iff. constructor; auto.
Qed.

(** Reading back the text of an activation code gives the same host name,
    token, OID and confirmation-code flag, for every code the constructor
    accepts whose OID, if any, is not empty and holds no '$'. *)
Theorem activation_code_round_trip host tok o cc a :
  init host tok o cc = Ok a →
  o ≠ Some [] → has_dollar (default [] o) = false →
  from_string (to_string a false) = Ok a.
Proof.
  unfold init. intros E Ho Hd. inv_ok. repeat match goal with H : negb _ = true |- _ => apply negb_true_iff in H end.
  unfold from_string, to_string, decode_str. cbn [format hostname token oid cc_required app].
  change (str_of_int 1) with [("1")%char]. cbn [app]. unfold idx. cbn [lookup list_lookup from_opt].
  change ("1"%char :: lit "$" ++ ?x) with (["1"%char] ++ dollar :: x).
  rewrite (split_on_app dollar ["1"%char]) by (by repeat constructor).
  change (dollar :: host ++ ?x) with (dollar :: host ++ x).
  destruct o as [[|c o]|]; [done| |]; cbn [oid_true default from_option id] in *; destruct cc; cbn [app];
    rewrite ?app_nil_r; change (host ++ lit "$" ++ ?x) with (host ++ dollar :: x);
    change (tok ++ lit "$" ++ ?x) with (tok ++ dollar :: x);
    change ((lit "$" ++ ?w) ++ ?x) with (dollar :: w ++ x);
    rewrite (split_on_app dollar host) by auto using no_dollar.
  - change ((c :: o) ++ lit "$1") with ((c :: o) ++ dollar :: lit "1").
    rewrite (split_on_app dollar tok), (split_on_app dollar (c :: o)) by auto using no_dollar.
    cbn. unfold init. by rewrite H, H0.
  - change (tok ++ lit "$" ++ c :: o) with (tok ++ dollar :: (c :: o)).
    rewrite (split_on_app dollar tok), (split_on_none dollar (c :: o)) by auto using no_dollar.
    cbn. unfold init. by rewrite H, H0.
  - change (tok ++ lit "$" ++ lit "$1") with (tok ++ dollar :: dollar :: lit "1").
    rewrite (split_on_app dollar tok) by auto using no_dollar. cbn. unfold init. by rewrite H, H0.
  - rewrite (split_on_none dollar tok) by auto using no_dollar. cbn. unfold init. by rewrite H, H0.
Qed.

Lemma activation_code_round_trip_witness :
  from_string (to_string (mkAC "smdp.io" "ABC" (Some (lit "1.3.6")) true 1) false)
  = Ok (mkAC "smdp.io" "ABC" (Some (lit "1.3.6")) true 1).
Proof.
  apply (activation_code_round_trip "smdp.io" "ABC" (Some (lit "1.3.6")) true); [reflexivity|done|reflexivity].
Defined.
End ActivationCode.
