(* ===== verification/Rsp.v ===== *)
(** pySim/esim/rsp.py: the state of an RSP session, how it is pickled into
    the session store and restored from it, the store, and the extraction of
    the signed parts of eUICC responses. *)

From S2P Require Import Prelude Osmocom X509 Esim.

(** Elliptic curve keys of the [cryptography] package. *)
Class EcLib := {
  Curve : Type;
  EcPriv : Type;
  EcPub : Type;
  private_value : EcPriv → Z;
  priv_curve : EcPriv → Curve;
  derive_private_key : Z → Curve → result EcPriv;
  (** [key.public_key().public_bytes(X962, UncompressedPoint)] *)
  public_point : EcPriv → bytes;
  from_encoded_point : Curve → bytes → result EcPub;
  (** [key.exchange(ec.ECDH(), pub)] *)
  exchange : EcPriv → EcPub → result bytes;
}.

Class EcLaws `{EcLib} := {
  private_value_pos k : 0 < private_value k;
  derive_private k : derive_private_key (private_value k) (priv_curve k) = Ok k;
}.

(** [ProfileMetadata] (es8p.py), kept in the session state. *)
Record ProfileMetadata := mkMeta {
  iccid_bin : bytes; spn : str; profile_name : str;
  icon : option bytes; icon_type : option Z;
  notifications : list (str * str);
}.

Section session.
Context `{X509Lib, EcLib}.

Record RspSessionState := mkSession {
  transactionId : str;
  serverChallenge : bytes;
  ci_cert_id : bytes;
  euicc_cert : option Certificate;
  eum_cert : option Certificate;
  eid : option str;
  profileMetadata : option ProfileMetadata;
  smdpSignature2_do : option bytes;
  euicc_otpk : option bytes;
  smdp_ot : option EcPriv;
  smdp_otpk : option bytes;
  host_id : option bytes;
  shared_secret : option bytes;
  (** set by authenticateClient only: None when the attribute is missing *)
  matchingId : option str;
}.

(** [RspSessionState.__init__] *)
Definition new_session (transactionId : str) (serverChallenge ci_cert_id : bytes) : RspSessionState :=
  mkSession transactionId serverChallenge ci_cert_id
    None None None None None None None None None None None.

(** The dict [__getstate__] returns: the attributes that are pickled as they
    are, with [None] where the key was deleted, and the keys added. *)
Record state_dict := mkState {
  st_attrs : RspSessionState;
  st_euicc_cert : option bytes;
  st_eum_cert : option bytes;
  st_smdp_ot : option (Z * Curve);
}.

Definition __getstate__ (s : RspSessionState) : state_dict :=
  mkState
    (mkSession (transactionId s) (serverChallenge s) (ci_cert_id s) None None (eid s) (profileMetadata s)
       (smdpSignature2_do s) (euicc_otpk s) None (smdp_otpk s) (host_id s) (shared_secret s) (matchingId s))
    (public_bytes_der <$> euicc_cert s)
    (public_bytes_der <$> eum_cert s)
    ((λ k, (private_value k, priv_curve k)) <$> smdp_ot s).

Definition load_cert (o : option bytes) : result (option Certificate) :=
  match o with
  | Some der => c ← load_der_x509_certificate der; Ok (Some c)
  | None => Ok None
  end.

(** [state.get('_smdp_otsk', None)] is tested for truth: the integer 0 would
    be taken for a missing key. *)
Definition __setstate__ (d : state_dict) : result RspSessionState :=
  euicc ← load_cert (st_euicc_cert d);
  eum ← load_cert (st_eum_cert d);
  ot ← match st_smdp_ot d with
       | Some (v, curve) => if truthy v then k ← derive_private_key v curve; Ok (Some k) else Ok None
       | None => Ok None
       end;
  let s := st_attrs d in
  Ok (mkSession (transactionId s) (serverChallenge s) (ci_cert_id s) euicc eum (eid s) (profileMetadata s)
        (smdpSignature2_do s) (euicc_otpk s) ot (smdp_otpk s) (host_id s) (shared_secret s) (matchingId s)).

(** ** RspSessionStore

    A shelf keeps the pickled form: every look-up builds a new object, and
    changing that object changes nothing in the store. *)
Definition RspSessionStore := gmap str state_dict.

Definition store_contains (rss : RspSessionStore) (key : str) : bool := bool_decide (is_Some (rss !! key)).

(** [rss.get(key, None)] *)
Definition store_get (rss : RspSessionStore) (key : str) : result (option RspSessionState) :=
  match rss !! key with
  | Some d => s ← __setstate__ d; Ok (Some s)
  | None => Ok None
  end.

Definition store_set (rss : RspSessionStore) (key : str) (s : RspSessionState) : RspSessionStore :=
  <[key := __getstate__ s]> rss.

Definition store_del (rss : RspSessionStore) (key : str) : result RspSessionStore :=
  if store_contains rss key then Ok (delete key rss) else Err KeyError.

Definition store_len (rss : RspSessionStore) : Z := Z.of_nat (size rss).
End session.

(** ** Signed parts of eUICC responses *)

Section extract.
Context `{OsmocomTlv}.

Definition extract_signed (outer : Z) (response : bytes) : result bytes :=
  '(rawtag, _, v, remainder) ← bertlv_parse_one_rawtag response;
  if truthy (len remainder) then Err ValueError
  else if negb (rawtag =? outer) then Err ValueError
  else
    '(rawtag, _, v1, _) ← bertlv_parse_one_rawtag v;
    if negb (rawtag =? 160) then Err ValueError
    else
      '(rawtag, _, tlv2, _) ← bertlv_return_one_rawtlv v1;
      if negb (rawtag =? 48) then Err ValueError else Ok tlv2.

Definition extract_euiccSigned1 : bytes → result bytes := extract_signed 48952.
Definition extract_euiccSigned2 : bytes → result bytes := extract_signed 48929.

(** A BER TLV. *)
Definition tlv (tag : Z) (v : bytes) : bytes := bertlv_encode_tag tag ++ bertlv_encode_len (len v) ++ v.
End extract.

Section properties.
Context `{X509Laws, EcLaws}.

Lemma pickle_ok (s : RspSessionState) : __setstate__ (__getstate__ s) = Ok s.
Proof.
  unfold __setstate__, __getstate__. cbn [st_euicc_cert st_eum_cert st_smdp_ot st_attrs].
  assert (∀ o, load_cert (public_bytes_der <$> o) = Ok o) as Hload.
  { intros [c|]; [|done]. cbn. by rewrite load_public_bytes. }
  rewrite !Hload. mrun. destruct s as [tid ch ci e1 e2 ei md sg ok ot op ho sh mi]. cbn.
  destruct ot as [k|]; [|done]. cbn. pose proof (private_value_pos k).
  unfold truthy. rewrite (proj2 (Z.eqb_neq (private_value k) 0)) by lia. cbn.
  by rewrite derive_private.
Qed.

(** What is stored under a key is read back unchanged, certificates and
    one-time private key included, until that key is set or deleted; a
    deleted key is unknown, and deleting an unknown key raises KeyError. *)
Theorem store_spec (rss : RspSessionStore) k k' s :
  store_get (store_set rss k s) k = Ok (Some s)
  ∧ (k ≠ k' → store_get (store_set rss k s) k' = store_get rss k')
  ∧ match store_del rss k with
    | Ok rss' => store_get rss' k = Ok None ∧ (k ≠ k' → store_get rss' k' = store_get rss k')
                 ∧ store_len rss = store_len rss' + 1
    | Err e => e = KeyError ∧ store_get rss k = Ok None
    end.
Proof.
  unfold store_get, store_set, store_del, store_contains, store_len, RspSessionStore in *. split_and!.
  - rewrite lookup_insert_eq, pickle_ok. done.
  - intros. by rewrite lookup_insert_ne.
  - destruct (rss !! k) as [d|] eqn:E.
    + rewrite bool_decide_ok by done. split_and!.
      * by rewrite lookup_delete_eq.
      * intros. by rewrite lookup_delete_ne.
      * rewrite map_size_delete_Some by done. assert (size rss ≠ 0%nat).
        { intros Hz%map_size_empty_inv. by subst. } lia.
    + rewrite bool_decide_false by (by intros []). done.
Qed.
End properties.

Section extract_properties.
Context `{OsmocomTlvLaws}.

(** From a response that wraps a SEQUENCE and further fields in the choice
    tag A0 and an outer tag, the extraction gives exactly the bytes of that
    SEQUENCE; another outer tag or trailing data is refused. *)
Theorem extract_signed_spec outer tag body rest extra :
  two_byte_tag outer → two_byte_tag tag →
  let signed := Rsp.tlv 48 body in
  let resp := Rsp.tlv tag (Rsp.tlv 160 (signed ++ rest)) in
  ber_len (len resp) →
  extract_signed outer (resp ++ extra)
  = (if bool_decide (extra = []) && (tag =? outer) then Ok signed else Err ValueError).
Proof.
  intros Ho Ht signed resp Hl.
  assert (one_byte_tag 48) as H48 by (split; [done|by vm_compute]).
  assert (one_byte_tag 160) as H160 by (split; [done|by vm_compute]).
  assert (∀ t v, ber_len (len (Rsp.tlv t v)) → ber_len (len v)) as Hsub.
  { intros t v. unfold Rsp.tlv, ber_len. rewrite !len_app.
    pose proof (len_nonneg (bertlv_encode_tag t)). pose proof (len_nonneg (bertlv_encode_len (len v))).
    pose proof (len_nonneg v). lia. }
  pose proof (Hsub _ _ Hl) as Hl1. pose proof (Hsub _ _ Hl1) as Hl2.
  assert (ber_len (len body)) as Hl3.
  { apply (Hsub 48). unfold ber_len in *. unfold signed in Hl2. rewrite len_app in Hl2.
    pose proof (len_nonneg rest). pose proof (len_nonneg (Rsp.tlv 48 body)). lia. }
  unfold extract_signed, resp, Rsp.tlv at 1. rewrite parse_rawtag_tlv by auto. mrun.
  unfold truthy. destruct (bool_decide (extra = [])) eqn:Ee.
  2: { apply bool_decide_eq_false in Ee. destruct extra; [done|]. by rewrite len_cons,
         (proj2 (Z.eqb_neq _ 0)) by (pose proof (len_nonneg extra); lia). }
  apply bool_decide_eq_true in Ee as ->. cbn [len length Z.of_nat Z.eqb negb andb].
  change (len (@nil Z) =? 0) with true. cbn [negb].
  destruct (tag =? outer); cbn [negb andb]; [|done].
  rewrite <- (app_nil_r (Rsp.tlv 160 _)). unfold Rsp.tlv at 1. rewrite parse_rawtag_tlv by auto. mrun.
  cbn [negb Z.eqb Pos.eqb]. unfold signed, Rsp.tlv at 1. rewrite return_rawtlv_tlv by auto. mrun. done.
Qed.
End extract_properties.

(** ** Concrete keys and a run *)

Module RefEc.
(** A private key is a positive number, public keys and secrets are sums. *)
#[export] Instance ec : EcLib := {
  Curve := unit;
  EcPriv := positive;
  EcPub := Z;
  private_value k := Z.pos k;
  priv_curve _ := tt;
  derive_private_key v _ := match v with Z.pos p => Ok p | _ => Err ValueError end;
  public_point k := be 8 (Z.pos k);
  from_encoded_point _ b := Ok (from_bytes b);
  exchange k p := Ok (be 8 (Z.pos k * p));
}.

#[export] Instance laws : EcLaws.
Proof. split; done. Qed.
End RefEc.

Module RspRun.
Import RefX509 RefEc.
#[local] Existing Instance Ref.tlv.
#[local] Existing Instance Ref.tlv_laws.

Definition sample : RspSessionState :=
  mkSession (lit "AB12") [1; 2] [0] (Some (X509Run.crt 11)) (Some (X509Run.crt 1)) (Some (lit "8904")) None
    None None (Some (5%positive : EcPriv)) None None None None.

Lemma store_spec_witness :
  store_get (store_set ∅ (lit "AB12") sample) (lit "AB12") = Ok (Some sample)
  ∧ store_get (store_set ∅ (lit "AB12") sample) (lit "CD") = Ok None.
Proof.
  destruct (store_spec ∅ (lit "AB12") (lit "CD") sample) as (H1 & H2 & _).
  split; [exact H1|]. rewrite H2; [reflexivity|done].
Defined.

Lemma extract_signed_spec_witness :
  extract_euiccSigned1 ([191; 56; 9; 160; 7; 48; 3; 128; 1; 9; 95; 55]) = Ok [48; 3; 128; 1; 9].
Proof.
  pose proof (extract_signed_spec 48952 48952 [128; 1; 9] [95; 55] []) as H. apply H; clear H.
  - by vm_compute.
  - by vm_compute.
  - by vm_compute.
Defined.
End RspRun.
