(* ===== verification/Es8p.v ===== *)
(** pySim/esim/es8p.py: profile metadata, the unprotected, protected and
    bound profile packages, and the eUICC's side that opens a bound package.

    The ASN.1 types compiled by asn1tools from the schema are records; the
    encoders and decoders of the compiled schema are the class [RspAsn1]. *)

From S2P Require Import Prelude Osmocom Crypto Bsp X509 Esim Rsp.

Record control_ref_template := mkCrt { keyType : bytes; keyLen : bytes; hostId : bytes }.

Record InitialiseSecureChannelRequest := mkIscr {
  remoteOpId : Z; iscr_transactionId : bytes; controlRefTemplate : control_ref_template;
  smdpOtpk : bytes; smdpSign : bytes }.

Record StoreMetadataRequest := mkSmr {
  smr_iccid : bytes; serviceProviderName : str; profileName : str;
  smr_icon : option (bytes * option Z);
  (** (profileManagementOperation, notificationAddress) *)
  notificationConfigurationInfo : option (list ((bytes * Z) * str)) }.

Record ReplaceSessionKeysRequest := mkRsk { ppkEnc : bytes; ppkCmac : bytes; initialMacChainingValue : bytes }.

Class RspAsn1 := {
  enc_iscr : InitialiseSecureChannelRequest → result bytes;
  dec_iscr : bytes → result InitialiseSecureChannelRequest;
  enc_smr : StoreMetadataRequest → result bytes;
  dec_smr : bytes → result StoreMetadataRequest;
  enc_rsk : ReplaceSessionKeysRequest → result bytes;
  dec_rsk : bytes → result ReplaceSessionKeysRequest;
  (** [encode('ConfigureISDPRequest', {})] *)
  enc_configure_isdp : result bytes;
  dec_configure_isdp : bytes → result unit;
}.

(** DER encodings can be decoded again; each is bytes, and one whole TLV with
    the tag the schema gives its type. *)
Class RspAsn1Laws `{RspAsn1, OsmocomTlv} := {
  iscr_ok i b : enc_iscr i = Ok b →
    dec_iscr b = Ok i ∧ ∃ v, b = tlv 48931 v ∧ len v < 2 ^ 31;
  iscr_other t v i : two_byte_tag t → t ≠ 48931 → dec_iscr (tlv t v) ≠ Ok i;
  smr_ok m b : enc_smr m = Ok b → dec_smr b = Ok m ∧ is_bytes b ∧ len b < 2 ^ 16;
  rsk_ok k b : enc_rsk k = Ok b → dec_rsk b = Ok k ∧ is_bytes b ∧ len b < 2 ^ 16;
  isdp_ok b : enc_configure_isdp = Ok b → dec_configure_isdp b = Ok () ∧ is_bytes b ∧ len b < 2 ^ 16;
}.

Section Es8p.
Context `{OsmocomUtils, OsmocomTlv, Cryptodome, X509Lib, EcLib, RspAsn1}.

Definition wrap_as_der_tlv (tag : Z) (val : bytes) : bytes :=
  bertlv_encode_tag tag ++ bertlv_encode_len (len val) ++ val.

(** The signature is not part of what is signed. *)
Definition gen_init_sec_chan_signed_part (iscsp : InitialiseSecureChannelRequest) : result bytes :=
  op ← bytes_of_ints [remoteOpId iscsp];
  let out := wrap_as_der_tlv 130 op in
  let out := out ++ wrap_as_der_tlv 128 (iscr_transactionId iscsp) in
  let crt := controlRefTemplate iscsp in
  let out_crt := wrap_as_der_tlv 128 (keyType crt) in
  let out_crt := out_crt ++ wrap_as_der_tlv 129 (keyLen crt) in
  let out_crt := out_crt ++ wrap_as_der_tlv 132 (hostId crt) in
  let out := out ++ wrap_as_der_tlv 166 out_crt in
  Ok (out ++ wrap_as_der_tlv 24393 (smdpOtpk iscsp)).

Definition gen_initialiseSecureChannel (transactionId : str) (host_id smdp_otpk euicc_otpk : bytes)
    (dp_pb : CertAndPrivkey) : result InitialiseSecureChannelRequest :=
  tid ← h2b transactionId;
  let init_scr := mkIscr 1 tid (mkCrt [136] [16] host_id) smdp_otpk [] in
  signed ← gen_init_sec_chan_signed_part init_scr;
  let to_sign := signed ++ wrap_as_der_tlv 24393 euicc_otpk in
  sig ← ecdsa_sign dp_pb to_sign;
  Ok (mkIscr 1 tid (mkCrt [136] [16] host_id) smdp_otpk sig).

Definition gen_replace_session_keys (ppk_enc ppk_cmac initial_mcv : bytes) : result bytes :=
  enc_rsk (mkRsk ppk_enc ppk_cmac initial_mcv).

(** ** ProfileMetadata *)

(** [ProfileMetadata.__init__] *)
Definition new_metadata (iccid_bin : bytes) (spn profile_name : str) : ProfileMetadata :=
  mkMeta iccid_bin spn profile_name None None [].

Definition set_icon (is_png : bool) (icon_data : bytes) (m : ProfileMetadata) : result ProfileMetadata :=
  if 1024 <? len icon_data then Err ValueError
  else Ok (mkMeta (iccid_bin m) (spn m) (profile_name m) (Some icon_data)
             (Some (if is_png then 1 else 0)) (notifications m)).

Definition add_notification (event address : str) (m : ProfileMetadata) : ProfileMetadata :=
  mkMeta (iccid_bin m) (spn m) (profile_name m) (icon m) (icon_type m) (notifications m ++ [(event, address)]).

Definition nci_entry (n : str * str) : result ((bytes * Z) * str) :=
  pmo ← PMO.init n.1; b ← PMO.to_bitstring pmo; Ok (b, n.2).

(** The dict that is encoded. *)
Definition metadata_smr (m : ProfileMetadata) : result StoreMetadataRequest :=
  let smr_icon := match icon m with
                  | Some (x :: i) => Some (x :: i, icon_type m)
                  | _ => None
                  end in
  nci ← map_r nci_entry (notifications m);
  Ok (mkSmr (iccid_bin m) (spn m) (profile_name m) smr_icon
        (if truthy (len nci) then Some nci else None)).

Definition gen_store_metadata_request (m : ProfileMetadata) : result bytes :=
  smr ← metadata_smr m; enc_smr smr.

(** ** Profile packages

    [UnprotectedProfilePackage.from_der] stores the DER in an attribute of
    the class, not of the instance, so all instances share it: it is the
    state of the computations below. *)
Definition UppClass := option bytes.

Record UnprotectedProfilePackage := mkUpp { upp_metadata : option ProfileMetadata }.

Definition from_der (der : bytes) (metadata : option ProfileMetadata) : M UppClass UnprotectedProfilePackage :=
  put (Some der);; mret (mkUpp metadata).

Definition to_der (upp : UnprotectedProfilePackage) : M UppClass bytes :=
  d ← get; lift (from_opt AttributeError d).

Record ProtectedProfilePackage := mkPpp {
  ppp_metadata : option ProfileMetadata; ppp_upp : UnprotectedProfilePackage;
  ppk_enc : bytes; ppk_mac : bytes; initial_mcv : bytes; encoded : list bytes }.

(** A computation on a [BspInstance] inside one on the class attribute: the
    changed instance is returned. *)
Definition with_bsp {A} (b : BspInstance) (m : M BspInstance A) : M UppClass (A * BspInstance) :=
  λ u, match m b with (Ok a, b') => (Ok (a, b'), u) | (Err e, _) => (Err e, u) end.

(** [ProtectedProfilePackage.from_upp] *)
Definition ppp_from_upp (upp : UnprotectedProfilePackage) (bsp : BspInstance)
    : M UppClass (ProtectedProfilePackage * BspInstance) :=
  let enc := s_enc (c_algo bsp) in
  let mac := s_mac (m_algo bsp) in
  let mcv := mac_chain (m_algo bsp) in
  der ← to_der upp;
  '(cts, bsp') ← with_bsp bsp (encrypt_and_mac 134 der);
  mret (mkPpp (upp_metadata upp) upp enc mac mcv cts, bsp').

Record BoundProfilePackage := mkBpp { bpp_upp : option UnprotectedProfilePackage; bpp_ppp : option ProtectedProfilePackage }.

Definition bpp_from_ppp (ppp : ProtectedProfilePackage) : BoundProfilePackage := mkBpp None (Some ppp).
Definition bpp_from_upp (upp : UnprotectedProfilePackage) : BoundProfilePackage := mkBpp (Some upp) None.

Definition encode_seq (tag : Z) (sequence : list bytes) : bytes :=
  let payload := concat sequence in
  bertlv_encode_tag tag ++ bertlv_encode_len (len payload) ++ payload.

(** The sequences of a bound package before the BF36 wrapper. *)
Definition bpp_sequences (bpp : BoundProfilePackage) (ss : RspSessionState) (dp_pb : CertAndPrivkey)
    : M UppClass (bytes * BoundProfilePackage) :=
  secret ← lift (from_opt TypeError (shared_secret ss));
  hid ← lift (from_opt TypeError (host_id ss));
  eid_s ← lift (from_opt TypeError (eid ss));
  eid_b ← lift (h2b eid_s);
  bsp ← lift (from_kdf secret 136 16 hid eid_b);
  otpk ← lift (from_opt TypeError (smdp_otpk ss));
  eotpk ← lift (from_opt TypeError (euicc_otpk ss));
  iscr ← lift (gen_initialiseSecureChannel (transactionId ss) hid otpk eotpk dp_pb);
  conf_idsp_bin ← lift enc_configure_isdp;
  smr_bin ← lift (match bpp_upp bpp with
                  | Some upp => m ← from_opt AttributeError (upp_metadata upp); gen_store_metadata_request m
                  | None =>
                      ppp ← from_opt AttributeError (bpp_ppp bpp);
                      m ← from_opt AttributeError (ppp_metadata ppp); gen_store_metadata_request m
                  end);
  iscr_bin ← lift (enc_iscr iscr);
  let bpp_seq := iscr_bin in
  '(cts, bsp) ← with_bsp bsp (encrypt_and_mac 135 conf_idsp_bin);
  let bpp_seq := bpp_seq ++ encode_seq 160 cts in
  '(cts, bsp) ← with_bsp bsp (mac_only 136 smr_bin);
  let bpp_seq := bpp_seq ++ encode_seq 161 cts in
  match bpp_ppp bpp with
  | Some ppp =>
      rsk_bin ← lift (gen_replace_session_keys (ppk_enc ppp) (ppk_mac ppp) (initial_mcv ppp));
      '(cts, bsp) ← with_bsp bsp (encrypt_and_mac 135 rsk_bin);
      let bpp_seq := bpp_seq ++ encode_seq 162 cts in
      mret (bpp_seq ++ encode_seq 163 (encoded ppp), bpp)
  | None =>
      upp ← lift (from_opt AttributeError (bpp_upp bpp));
      '(ppp, bsp) ← ppp_from_upp upp bsp;
      mret (bpp_seq ++ encode_seq 163 (encoded ppp), mkBpp (bpp_upp bpp) (Some ppp))
  end.

(** [BoundProfilePackage.encode] *)
Definition bpp_encode (bpp : BoundProfilePackage) (ss : RspSessionState) (dp_pb : CertAndPrivkey)
    : M UppClass (bytes * BoundProfilePackage) :=
  '(bpp_seq, bpp') ← bpp_sequences bpp ss dp_pb;
  mret (bertlv_encode_tag 48950 ++ bertlv_encode_len (len bpp_seq) ++ bpp_seq, bpp').

Fixpoint split_bertlv_sequence (fuel : nat) (sequence : bytes) : result (list bytes) :=
  match sequence with
  | [] => Ok []
  | _ :: _ =>
      match fuel with
      | O => Err OutOfFuel
      | S f =>
          '(_, _, tlv, remainder) ← bertlv_return_one_rawtlv sequence;
          ret ← split_bertlv_sequence f remainder;
          Ok (tlv :: ret)
      end
  end.

(** Every TLV takes at least one byte. *)
Definition split_seq (sequence : bytes) : result (list bytes) :=
  split_bertlv_sequence (length sequence) sequence.

(** The attributes [decode] sets. *)
Record opened := mkOpened {
  o_shared_secret : bytes;
  encoded_configureISDPRequest : bytes;
  encoded_storeMetadataRequest : bytes;
  storeMetadataRequest : StoreMetadataRequest;
  replaceSessionKeysRequest : option ReplaceSessionKeysRequest;
  o_upp : bytes }.

Definition run_bsp {A} (m : M BspInstance A) (b : BspInstance) : result (A * BspInstance) :=
  match m b with (Ok a, b') => Ok (a, b') | (Err e, _) => Err e end.

(** [BoundProfilePackage.decode], given the eUICC's one-time key and EID. *)
Definition bpp_decode (euicc_ot : EcPriv) (eid : str) (bpp_bin : bytes) : result opened :=
  '(_, _, iscr_bin, remainder) ← bertlv_return_one_rawtlv bpp_bin;
  iscr ← dec_iscr iscr_bin;
  '(tag, _, firstSeqOf87, remainder) ← bertlv_parse_one_rawtag remainder;
  guard_else (tag =? 160) ValueError;;
  firstSeqOf87 ← split_seq firstSeqOf87;
  '(tag, _, seqOf88, remainder) ← bertlv_parse_one_rawtag remainder;
  guard_else (tag =? 161) ValueError;;
  seqOf88 ← split_seq seqOf88;
  '(tag, _, tlv, remainder) ← bertlv_parse_one_rawtag remainder;
  '(secondSeqOf87, seqOf86) ←
    (if tag =? 162 then
       second ← split_seq tlv;
       '(tag2, _, seqOf86, _) ← bertlv_parse_one_rawtag remainder;
       guard_else (tag2 =? 163) ValueError;;
       s86 ← split_seq seqOf86;
       Ok (Some second, s86)
     else if tag =? 163 then s86 ← split_seq tlv; Ok (None, s86)
     else Err ValueError);
  smdp_public_key ← from_encoded_point (priv_curve euicc_ot) (smdpOtpk iscr);
  secret ← exchange euicc_ot smdp_public_key;
  let crt := controlRefTemplate iscr in
  eid_b ← h2b eid;
  bsp ← from_kdf secret (from_bytes (keyType crt)) (from_bytes (keyLen crt)) (hostId crt) eid_b;
  '(enc_isdp, bsp) ← run_bsp (demac_and_decrypt firstSeqOf87) bsp;
  dec_configure_isdp enc_isdp;;
  '(enc_sm, bsp) ← run_bsp (demac_only seqOf88) bsp;
  smr ← dec_smr enc_sm;
  '(rsk, bsp) ←
    match secondSeqOf87 with
    | Some second =>
        '(rsk_bin, bsp) ← run_bsp (demac_and_decrypt second) bsp;
        rsk ← dec_rsk rsk_bin;
        Ok (Some rsk, bsp_init (ppkEnc rsk) (ppkCmac rsk) (initialMacChainingValue rsk))
    | None => Ok (None, bsp)
    end;
  '(upp, _) ← run_bsp (demac_and_decrypt seqOf86) bsp;
  Ok (mkOpened secret enc_isdp enc_sm smr rsk upp).
End Es8p.

(** ** Facts *)

Section facts.
Context `{OsmocomUtilsLaws, CryptodomeLaws, X509Lib, EcLib}.
Context {OT : OsmocomTlv} {OTL : @OsmocomTlvLaws OT} {RA : RspAsn1} {RAL : @RspAsn1Laws RA OT}.

Lemma split_segments tag cts : ∀ fuel,
  one_byte_tag tag → Forall (segment_tlv tag) cts → (length (concat cts) <= fuel)%nat →
  split_bertlv_sequence fuel (concat cts) = Ok cts.
Proof.
  induction cts as [|ct cts IH]; intros fuel Ht Hs Hf; [by destruct fuel|].
  apply list.Forall_cons in Hs as [(v & -> & Hv) Hs]. cbn [concat] in *.
  destruct fuel as [|fuel]; [cbn in Hf; lia|].
  assert (ber_len (len v)) as Hber by (unfold ber_len; pose proof (len_nonneg v); lia).
  pose proof (return_rawtlv_tlv tag v (concat cts) (or_introl Ht) Hber) as Hr.
  rewrite encode_tag_1 in Hr by done. cbn [app] in *. cbn [split_bertlv_sequence].
  rewrite Hr. mrun. rewrite IH; [done..|]. cbn [length] in Hf. rewrite ?length_app in Hf. cbn [length] in Hf. rewrite ?length_app in Hf. lia.
Qed.

Lemma segments_total tag cts n :
  Forall (segment_tlv tag) cts → len cts <= n → n < 2 ^ 20 → ber_len (len (concat cts)).
Proof.
  intros Hs Hn Hlt. assert (len (concat cts) <= 1036 * len cts) as Hle.
  { clear Hn. induction Hs as [|ct cts (v & -> & Hv) _ IH]; [done|].
    cbn [concat]. rewrite !len_app. change (len [tag]) with 1. rewrite len_cons.
    rewrite length_encode_len by (pose proof (len_nonneg v); lia). repeat split_if; lia. }
  pose proof (len_nonneg (concat cts)). unfold ber_len. lia.
Qed.

(** What protecting [d] gives the receiver. *)
Definition protected_ok (dec : list bytes → M BspInstance bytes) (enc : M BspInstance (list bytes)) (d : bytes)
    (b : BspInstance) : Prop :=
  ∃ cts b', enc b = (Ok cts, b') ∧ dec cts b = (Ok d, b') ∧ bsp_wf b'
    ∧ block_nr (c_algo b') <= block_nr (c_algo b) + len d
    ∧ split_seq (concat cts) = Ok cts ∧ ber_len (len (concat cts)).

Lemma segment_count f d (cts : list bytes) :
  map len cts = map f (segments (S (length d)) d) → len cts <= len d.
Proof.
  intros Hl. apply (f_equal length) in Hl. rewrite !length_map in Hl.
  pose proof (length_segments (S (length d)) d ltac:(lia)). unfold len in *. lia.
Qed.

Lemma encrypt_protected tag d b :
  one_byte_tag tag → bsp_wf b → room b (len d) → is_bytes d → len d < 2 ^ 20 →
  protected_ok demac_and_decrypt (encrypt_and_mac tag d) d b.
Proof.
  intros Ht Hb Hr Hd Hl.
  destruct (encrypt_and_mac_ok tag d b) as (cts & b' & E1 & E2 & Hb' & Hlens & Hn & Hs); [done..|].
  pose proof (segment_count _ d cts Hlens). exists cts, b'. split_and!; try done; [lia| |].
  - by apply (split_segments tag).
  - by apply (segments_total tag cts (len d)).
Qed.

Lemma mac_protected tag d b :
  one_byte_tag tag → bsp_wf b → room b (len d) → is_bytes d → len d < 2 ^ 20 →
  protected_ok demac_only (mac_only tag d) d b.
Proof.
  intros Ht Hb Hr Hd Hl.
  destruct (mac_only_ok tag d b) as (cts & b' & E1 & E2 & Hb' & Hlens & Hn & Hs); [done..|].
  pose proof (segment_count _ d cts Hlens). exists cts, b'. split_and!; try done; [lia| |].
  - by apply (split_segments tag).
  - by apply (segments_total tag cts (len d)).
Qed.

Lemma from_kdf_ok secret hid eid_b :
  ∃ b, from_kdf secret 136 16 hid eid_b = Ok b ∧ bsp_wf b ∧ block_nr (c_algo b) = 1.
Proof.
  unfold from_kdf, bsp_key_derivation. cbn [Z.leb Z.compare Pos.compare Pos.compare_cont].
  change (bytes_of_ints [136; 16]) with (Ok [136; 16] : result bytes). mrun.
  set (out := x963kdf _ _ _). assert (length out = 48%nat) as Hl by apply x963kdf_length.
  assert (is_bytes out) as Hb by apply x963kdf_bytes.
  eexists. split; [reflexivity|]. split; [|done].
  apply bsp_init_wf; unfold slice; rewrite ?length_take, ?length_drop; auto with sdauto; lia.
Qed.

Lemma parse_seq tag cts r :
  one_byte_tag tag → ber_len (len (concat cts)) →
  bertlv_parse_one_rawtag (encode_seq tag cts ++ r) = Ok (tag, len (concat cts), concat cts, r).
Proof. intros. unfold encode_seq. apply parse_rawtag_tlv; auto. Qed.
End facts.

Section bpp_properties.
Context `{OsmocomUtilsLaws, CryptodomeLaws, X509Lib, EcLib}.
Context {OT : OsmocomTlv} {OTL : @OsmocomTlvLaws OT} {RA : RspAsn1} {RAL : @RspAsn1Laws RA OT}.

(** A session ready for binding: what getBoundProfilePackage has put into it,
    and encoders and a signing key that accept what they are given. *)
Record ready (ss : RspSessionState) (dp_pb : CertAndPrivkey) (md : ProfileMetadata)
    (secret hid otpk eid_b : bytes) (eid_s : str) (smr : StoreMetadataRequest)
    (rsk : ReplaceSessionKeysRequest) : Prop := {
  r_secret : shared_secret ss = Some secret;
  r_host : host_id ss = Some hid;
  r_otpk : smdp_otpk ss = Some otpk;
  r_eotpk : is_Some (euicc_otpk ss);
  r_eid : eid ss = Some eid_s;
  r_eid_b : h2b eid_s = Ok eid_b;
  r_tid : ∃ b, h2b (transactionId ss) = Ok b;
  r_sign : ∀ d, ∃ sig, ecdsa_sign dp_pb d = Ok sig;
  r_iscr : ∀ i eotpk, gen_initialiseSecureChannel (transactionId ss) hid otpk eotpk dp_pb = Ok i →
           ∃ b, enc_iscr i = Ok b;
  r_rsk : ∃ b, enc_rsk rsk = Ok b;
  r_isdp : ∃ b, enc_configure_isdp = Ok b;
  r_smr : metadata_smr md = Ok smr;
  r_smr_b : ∃ b, enc_smr smr = Ok b;
}.

Lemma iscr_built ss dp_pb md secret hid otpk eid_b eid_s smr rsk eotpk :
  ready ss dp_pb md secret hid otpk eid_b eid_s smr rsk →
  ∃ i, gen_initialiseSecureChannel (transactionId ss) hid otpk eotpk dp_pb = Ok i
       ∧ smdpOtpk i = otpk ∧ controlRefTemplate i = mkCrt [136] [16] hid.
Proof.
  intros R. destruct (r_tid _ _ _ _ _ _ _ _ _ _ R) as [tb Ht].
  unfold gen_initialiseSecureChannel. rewrite Ht. mrun.
  unfold gen_init_sec_chan_signed_part. cbn [remoteOpId].
  change (bytes_of_ints [1]) with (Ok [1] : result bytes). mrun.
  match goal with |- context [ecdsa_sign dp_pb ?d] => destruct (r_sign _ _ _ _ _ _ _ _ _ _ R d) as [sig ->] end.
  mrun. by eexists.
Qed.

(** What the sender's half of a session keeps for the receiver: the fields
    of [bpp_sequences]' output. *)
Lemma sequences_ok der md k1 k2 mcv ss dp_pb secret hid otpk eid_b eid_s smr u :
  ready ss dp_pb md secret hid otpk eid_b eid_s smr (mkRsk k1 k2 mcv) →
  length k1 = 16%nat → length k2 = 16%nat → is_bytes mcv → is_bytes der → len der < 2 ^ 20 →
  ∃ ppp b1 i iscr_bin isdp_bin smr_bin rsk_bin b0 c87 c88 c87' c86 ba bb bc,
    ppp_from_upp (mkUpp (Some md)) (bsp_init k1 k2 mcv) (Some der) = (Ok (ppp, b1), Some der)
    ∧ bpp_sequences (bpp_from_ppp ppp) ss dp_pb u
      = (Ok (iscr_bin ++ encode_seq 160 c87 ++ encode_seq 161 c88 ++ encode_seq 162 c87' ++ encode_seq 163 c86,
             bpp_from_ppp ppp), u)
    ∧ (enc_iscr i = Ok iscr_bin ∧ smdpOtpk i = otpk ∧ controlRefTemplate i = mkCrt [136] [16] hid)
    ∧ (enc_configure_isdp = Ok isdp_bin ∧ enc_smr smr = Ok smr_bin ∧ enc_rsk (mkRsk k1 k2 mcv) = Ok rsk_bin)
    ∧ from_kdf secret 136 16 hid eid_b = Ok b0
    ∧ demac_and_decrypt c87 b0 = (Ok isdp_bin, ba) ∧ demac_only c88 ba = (Ok smr_bin, bb)
    ∧ demac_and_decrypt c87' bb = (Ok rsk_bin, bc)
    ∧ demac_and_decrypt c86 (bsp_init k1 k2 mcv) = (Ok der, b1)
    ∧ Forall (λ cts, split_seq (concat cts) = Ok cts ∧ ber_len (len (concat cts))) [c87; c88; c87'; c86].
Proof.
  intros R Hk1 Hk2 Hmcv Hder Hlen.
  assert (one_byte_tag 134 ∧ one_byte_tag 135 ∧ one_byte_tag 136) as (H86 & H87 & H88)
    by (unfold one_byte_tag, is_byte; vm_compute; split_and!; congruence).
  destruct (encrypt_protected 134 der (bsp_init k1 k2 mcv)) as (c86 & b1 & E86 & D86 & _ & _ & S86 & L86);
    [done|by apply bsp_init_wf|apply room_init; lia|done..|].
  destruct (from_kdf_ok secret hid eid_b) as (b0 & Ekdf & Hb0 & Hn0).
  destruct (r_isdp _ _ _ _ _ _ _ _ _ _ R) as [isdp_bin Eisdp].
  destruct (isdp_ok _ Eisdp) as (_ & Hbi & Hli).
  destruct (encrypt_protected 135 isdp_bin b0) as (c87 & ba & E87 & D87 & Hba & Hna & S87 & L87);
    [done|done|unfold room; rewrite Hn0; pose proof (len_nonneg isdp_bin); lia|done|lia|].
  destruct (r_smr_b _ _ _ _ _ _ _ _ _ _ R) as [smr_bin Esmr].
  destruct (smr_ok _ _ Esmr) as (_ & Hbs & Hls).
  destruct (mac_protected 136 smr_bin ba) as (c88 & bb & E88 & D88 & Hbb & Hnb & S88 & L88);
    [done|done|unfold room; lia|done|lia|].
  destruct (r_rsk _ _ _ _ _ _ _ _ _ _ R) as [rsk_bin Ersk].
  destruct (rsk_ok _ _ Ersk) as (_ & Hbr & Hlr).
  destruct (encrypt_protected 135 rsk_bin bb) as (c87' & bc & E87' & D87' & _ & _ & S87' & L87');
    [done|done|unfold room; lia|done|lia|].
  destruct (r_eotpk _ _ _ _ _ _ _ _ _ _ R) as [eotpk Eeotpk].
  destruct (iscr_built _ _ _ _ _ _ _ _ _ _ eotpk R) as (i & Ei & Hpk & Hcrt).
  destruct (r_iscr _ _ _ _ _ _ _ _ _ _ R i eotpk Ei) as [iscr_bin Eiscr].
  exists (mkPpp (Some md) (mkUpp (Some md)) k1 k2 mcv c86), b1, i, iscr_bin, isdp_bin, smr_bin, rsk_bin, b0,
    c87, c88, c87', c86, ba, bb, bc.
  split; [unfold ppp_from_upp, to_der, with_bsp; mrun; rewrite E86; reflexivity|].
  split.
  { unfold bpp_sequences, bpp_from_ppp. destruct R as [R1 R2 R3 _ R5 R6 _ _ _ _ _ Esmr0 _].
    rewrite R1, R2, R3, R5.
    rewrite Eeotpk. mrun. rewrite R6. mrun. rewrite Ekdf. mrun. rewrite Ei. mrun. rewrite Eisdp. mrun.
    cbn [bpp_upp bpp_ppp ppp_metadata]. unfold gen_store_metadata_request. mrun. cbn [ppp_metadata].
    mrun. rewrite Esmr0. mrun.
    rewrite Esmr. mrun. rewrite Eiscr. mrun.
    unfold with_bsp. rewrite E87. rewrite E88. mrun. cbn [ppk_enc ppk_mac initial_mcv encoded].
    unfold gen_replace_session_keys. rewrite Ersk. mrun. rewrite E87'. by rewrite <- !app_assoc. }
  split_and!; try done. by repeat (apply list.Forall_cons; split; [by split|]).
Qed.

(** The package [encode] returns is wrapped in BF36, which [decode] does
    not expect: it takes the wrapper for the first TLV and raises, whatever
    the package. *)
Theorem bpp_encode_not_decodable bpp ss dp_pb u seq bpp' u' euicc_ot eid_s :
  bpp_sequences bpp ss dp_pb u = (Ok (seq, bpp'), u') → ber_len (len seq) →
  ∃ out, bpp_encode bpp ss dp_pb u = (Ok (out, bpp'), u')
         ∧ ∃ e, bpp_decode euicc_ot eid_s out = Err e.
Proof.
  intros Es Hl. unfold bpp_encode. rewrite M_bind_eq, Es. eexists. split; [reflexivity|].
  assert (two_byte_tag 48950) as H36 by (unfold two_byte_tag; vm_compute; split_and!; congruence).
  unfold bpp_decode. rewrite <- (app_nil_r (_ ++ _ ++ seq)).
  rewrite (return_rawtlv_tlv 48950) by auto. mrun.
  destruct (dec_iscr _) as [i|e] eqn:Ed; [|rewrite R_bind_Err; eauto].
  exfalso. by apply (iscr_other 48950 seq i).
Qed.

(** The DER of an unprotected package lives in the class: after a second
    package is loaded, the first one gives the second one's DER. *)
Lemma upp_der_shared d1 d2 m1 m2 u :
  (upp1 ← from_der d1 m1; from_der d2 m2;; to_der upp1) u = (Ok d2, Some d2).
Proof. reflexivity. Qed.
End bpp_properties.

(** ** Concrete encoders and a run *)

Module RefAsn1.
Import Ref.

(** Length-prefixed fields. *)
Fixpoint ser (l : list bytes) : bytes :=
  match l with [] => [] | f :: l' => be 2 (len f) ++ f ++ ser l' end.

Fixpoint deser (n : nat) (b : bytes) : list bytes :=
  match n with
  | O => []
  | S n' => let k := Z.to_nat (from_bytes (take 2 b)) in
            take k (drop 2 b) :: deser n' (drop k (drop 2 b))
  end.

Lemma deser_ser l k : Forall (λ f, len f < 65536) l → deser (length l) (ser (l ++ k)) = l.
Proof.
  induction 1 as [|f l Hf _ IH]; [done|]. cbn [ser length deser app]. pose proof (len_nonneg f).
  rewrite take_app_length', drop_app_length' by (by rewrite length_be).
  rewrite from_bytes_be by (change (256 ^ Z.of_nat 2) with 65536; lia).
  unfold len. rewrite Nat2Z.id, take_app_length, drop_app_length. by rewrite IH.
Qed.

Definition fields (l : list bytes) : result bytes :=
  if bool_decide (Forall (λ f, len f < 65536) l) && bool_decide (is_bytes (ser l)) && (len (ser l) <? 65536)
  then Ok (ser l) else Err (LibError "EncodeError").

Lemma fields_ok l b : fields l = Ok b →
  deser (length l) b = l ∧ is_bytes b ∧ len b < 2 ^ 16 ∧ ∀ l1 l2, l = l1 ++ l2 → deser (length l1) b = l1.
Proof.
  unfold fields. destruct (_ && _) eqn:E; [|done]. intros [= <-].
  rewrite !andb_true_iff, !bool_decide_eq_true, Z.ltb_lt in E. destruct E as [[Hf Hb] Hl].
  split; [pose proof (deser_ser l [] Hf) as Hd; by rewrite app_nil_r in Hd|]. split; [done|]. split; [done|].
  intros l1 l2 ->. apply list.Forall_app in Hf as [Hf _]. by apply deser_ser.
Qed.

Definition codes (s : str) : bytes := map code s.
Definition chars (b : bytes) : str := map chr b.
Lemma chars_codes s : chars (codes s) = s.
Proof.
  unfold chars, codes. induction s as [|c s IH]; [done|]. cbn. rewrite IH. f_equal.
  unfold chr, code. rewrite N2Z.id. apply ascii_N_embedding.
Qed.

Definition iscr_fields (i : InitialiseSecureChannelRequest) : list bytes :=
  [iscr_transactionId i; keyType (controlRefTemplate i); keyLen (controlRefTemplate i);
   hostId (controlRefTemplate i); smdpOtpk i; smdpSign i].

(** Notifications as three fields each: bits, their number, address. *)
Definition nci_fields (l : list ((bytes * Z) * str)) : list bytes :=
  concat (map (λ '((b, n), a), [b; [n]; codes a]) l).

Fixpoint nci_parse (l : list bytes) : list ((bytes * Z) * str) :=
  match l with b :: [n] :: a :: l' => ((b, n), chars a) :: nci_parse l' | _ => [] end.

Lemma nci_parse_fields l : nci_parse (nci_fields l) = l.
Proof. induction l as [|[[b n] a] l IH]; [done|]. cbn. rewrite chars_codes. f_equal. exact IH. Qed.

Lemma length_nci_fields l : length (nci_fields l) = (3 * length l)%nat.
Proof. induction l as [|[[b n] a] l IH]; [done|]. unfold nci_fields in *. cbn in *. lia. Qed.

(** Only metadata without icon. *)
#[export] Instance asn1 : RspAsn1 := {
  enc_iscr i := if negb (remoteOpId i =? 1) then Err (LibError "EncodeError")
                else b ← fields (iscr_fields i); Ok (Rsp.tlv 48931 b);
  dec_iscr bs :=
    '(t, r) ← parse_tag bs;
    if negb (t =? 48931) then Err (LibError "DecodeError")
    else '(_, v) ← parse_len r;
         match deser 6 v with
         | [a; b; c; d; e; f] => Ok (mkIscr 1 a (mkCrt b c d) e f)
         | _ => Err (LibError "DecodeError")
         end;
  enc_smr m :=
    let n := notificationConfigurationInfo m in
    match smr_icon m with
    | None => fields (match n with None => [] | Some l => [len l] end :: smr_iccid m
                      :: codes (serviceProviderName m) :: codes (profileName m) :: nci_fields (default [] n))
    | _ => Err (LibError "EncodeError")
    end;
  dec_smr bs :=
    let k := match deser 1 bs with [[n]] => Some (Z.to_nat n) | _ => None end in
    match deser (4 + 3 * default 0%nat k) bs with
    | _ :: a :: b :: c :: l => Ok (mkSmr a (chars b) (chars c) None ((λ _, nci_parse l) <$> k))
    | _ => Err (LibError "DecodeError")
    end;
  enc_rsk k := fields [ppkEnc k; ppkCmac k; initialMacChainingValue k];
  dec_rsk bs := match deser 3 bs with
                | [a; b; c] => Ok (mkRsk a b c)
                | _ => Err (LibError "DecodeError")
                end;
  enc_configure_isdp := Ok [191; 36; 0];
  dec_configure_isdp bs := if bool_decide (bs = [191; 36; 0]) then Ok () else Err (LibError "DecodeError");
}.

#[export] Instance laws : RspAsn1Laws.
Proof.
  assert (∀ t, two_byte_tag t → ∀ r, parse_tag (encode_tag t ++ r) = Ok (t, r)) as Hpt
    by (intros; apply parse_tag_encode; auto).
  split.
  - intros i b E. cbn [enc_iscr asn1] in E. destruct (Z.eqb_spec (remoteOpId i) 1) as [E1|]; [|done].
    cbn [negb] in E. apply bind_ok in E as (v & Ef & [= <-]). destruct (fields_ok _ _ Ef) as (Hd & _ & Hl & _).
    split; [|exists v; split; [done|lia]].
    cbn [dec_iscr asn1]. unfold Rsp.tlv. cbn [bertlv_encode_tag bertlv_encode_len tlv].
    rewrite Hpt by (unfold two_byte_tag; vm_compute; split_and!; congruence). mrun. cbn [negb Z.eqb Pos.eqb].
    rewrite parse_len_enc by (unfold ber_len; pose proof (len_nonneg v); lia). mrun.
    cbn [length iscr_fields] in Hd. rewrite Hd. unfold iscr_fields.
    destruct i as [? ? [] ? ?]; cbn in *. by subst.
  - intros t v i Ht Hne. cbn [dec_iscr asn1]. unfold Rsp.tlv. cbn [bertlv_encode_tag tlv].
    rewrite Hpt by done. mrun. by rewrite (proj2 (Z.eqb_neq t 48931)).
  - intros m b E. cbn [enc_smr asn1] in E. destruct m as [ic sp pn [] n]; [done|].
    cbn [smr_icon notificationConfigurationInfo smr_iccid serviceProviderName profileName] in E.
    destruct (fields_ok _ _ E) as (Hd & Hb & Hl & Hpre). split; [|done]. cbn [dec_smr asn1].
    set (h := match n with None => [] | Some l => [len l] end) in *.
    pose proof (Hpre [h] _ eq_refl) as Hh. cbn [length] in Hh, Hd. rewrite Hh. rewrite length_nci_fields in Hd.
    destruct n as [l|]; unfold h; cbn [default] in *.
    + unfold len. rewrite Nat2Z.id. cbn [id] in Hd |- *.
      replace (4 + 3 * length l)%nat with (S (S (S (S (3 * length l))))) by lia. unfold h, len in Hd. rewrite Hd.
      cbn. by rewrite !chars_codes, nci_parse_fields.
    + change (deser 4 b = [[]; ic; codes sp; codes pn]) in Hd. unfold h.
      match goal with |- context [deser ?n b] => change (deser n b) with (deser 4 b) end. rewrite Hd. cbn. by rewrite !chars_codes.
  - intros k b E. cbn [enc_rsk asn1] in E. destruct (fields_ok _ _ E) as (Hd & Hb & Hl & _). split; [|done].
    cbn [dec_rsk asn1]. cbn [length] in Hd. rewrite Hd. by destruct k.
  - intros b [= <-]. split; [reflexivity|]. split; [bytes_tac|done].
Qed.
End RefAsn1.

Module Es8pRun.
Import RefX509 RefEc RefAsn1.
#[local] Existing Instance Ref.utils.
#[local] Existing Instance Ref.utils_laws.
#[local] Existing Instance Ref.tlv.
#[local] Existing Instance Ref.tlv_laws.
#[local] Existing Instance RefCrypto.crypto.
#[local] Existing Instance RefCrypto.laws.

Definition md : ProfileMetadata := new_metadata [152; 1] (lit "OsmocomSPN") (lit "TS48").
Definition dp_pb : CertAndPrivkey := mkCertKey None (Some (X509Run.crt 1)) (Some (7 : PrivateKey)).
(** The eUICC's one-time key is 3, the server's 5. *)
Definition euicc_ot : EcPriv := 3%positive.
Definition ss : RspSessionState :=
  mkSession (lit "AB12") [1; 2] [0] None None (Some (lit "8904")) (Some md) None
    (Some (be 8 3)) (Some (5%positive : EcPriv)) (Some (be 8 5)) (Some [109; 97]) (Some (be 8 15)) (Some (lit "TS48")).
Definition key (b : Z) : bytes := replicate 16 b.

Lemma sign_ok d : ∃ sig, ecdsa_sign dp_pb d = Ok sig.
Proof.
  unfold ecdsa_sign, ecdsa_dss_to_tr03111. cbn [priv_key dp_pb from_opt ecdsa_sign_dss decode_dss_signature x509].
  mrun. set (h := foldr Z.add 0 d mod 2 ^ 200).
  assert (0 <= h < 2 ^ 200) by (apply Z.mod_pos_bound; lia).
  unfold to_bytes. change (256 ^ Z.of_nat 32) with (2 ^ 256).
  rewrite (bool_decide_ok (0 <= 7 < 2 ^ 256)) by lia. mrun. rewrite bool_decide_ok by lia. eauto.
Qed.

Lemma sign_bytes d sig : ecdsa_sign dp_pb d = Ok sig → is_bytes sig ∧ len sig = 64.
Proof.
  unfold ecdsa_sign, ecdsa_dss_to_tr03111. cbn [priv_key dp_pb from_opt ecdsa_sign_dss decode_dss_signature x509].
  mrun. intros E. apply bind_ok in E as (a & Ea & E). apply bind_ok in E as (b & Eb & [= <-]).
  apply to_bytes_ok in Ea as (Hla & Hba & _), Eb as (Hlb & Hbb & _).
  split; [by apply is_bytes_app|]. unfold len. rewrite length_app. lia.
Qed.

Lemma ss_ready : ready ss dp_pb md (be 8 15) [109; 97] (be 8 5) [137; 4] (lit "8904")
  (mkSmr [152; 1] (lit "OsmocomSPN") (lit "TS48") None None) (mkRsk (key 0) (key 17) (key 34)).
Proof.
  split; [reflexivity|reflexivity|reflexivity|by eexists|reflexivity|reflexivity|by eexists|exact sign_ok|
    |by eexists|by eexists|reflexivity|by eexists].
  - intros i eotpk E. unfold gen_initialiseSecureChannel in E.
    apply bind_ok in E as (tb & Et & E). apply bind_ok in E as (sg & Es & E).
    apply bind_ok in E as (sig & Esig & [= <-]). vm_compute in Et. injection Et as <-.
    destruct (sign_bytes _ _ Esig) as [Hb Hl]. cbn [enc_iscr asn1 remoteOpId negb Z.eqb Pos.eqb].
    unfold fields, iscr_fields. cbn [iscr_transactionId controlRefTemplate keyType keyLen hostId smdpOtpk smdpSign].
    assert (is_bytes (ser [[171; 18]; [136]; [16]; [109; 97]; be 8 5; sig])
            ∧ len (ser [[171; 18]; [136]; [16]; [109; 97]; be 8 5; sig]) < 65536) as [H1 H2].
    { cbn [ser]. rewrite !is_bytes_app, !len_app, Hl. change (len (@nil Z)) with 0.
      split; [|vm_compute; reflexivity].
      split_and!; auto with sdauto; try done; bytes_tac. }
    rewrite (bool_decide_ok (Forall _ _)) by (repeat (apply list.Forall_cons; split; [rewrite ?Hl; by vm_compute|]); done).
    rewrite bool_decide_ok by done. rewrite (proj2 (Z.ltb_lt _ _)) by done. cbn. eauto.
Qed.


Lemma bpp_encode_not_decodable_witness :
  ∃ out bpp' u' e, bpp_encode (bpp_from_upp (mkUpp (Some md))) ss dp_pb (Some [160; 1; 2; 3]) = (Ok (out, bpp'), u')
    ∧ bpp_decode euicc_ot (lit "8904") out = Err e.
Proof.
  assert (∃ seq bpp' u', bpp_sequences (bpp_from_upp (mkUpp (Some md))) ss dp_pb (Some [160; 1; 2; 3])
            = (Ok (seq, bpp'), u') ∧ ber_len (len seq)) as (seq & bpp' & u' & E & Hl).
  { do 3 eexists. split; [vm_compute; reflexivity|vm_compute; split; congruence]. }
  destruct (bpp_encode_not_decodable _ _ _ _ _ _ _ euicc_ot (lit "8904") E Hl) as (out & Eo & e & Ee).
  by exists out, bpp', u', e.
Defined.
End Es8pRun.
