(* ===== verification/Eid.v ===== *)
(** osmo-smdpp.py, the parts that do not touch the server's state: the OID
    decoder it installs into asn1tools, the permitted EID prefixes of an EUM
    certificate, and status codes. *)

From S2P Require Import Prelude X509.

(** ** [fix_asn1_oid_decoding] *)

(** [read_subidentifier]: (value, offset). One iteration per byte of data is
    enough, since every one moves the offset. *)
Fixpoint read_subidentifier (fuel : nat) (data : bytes) (value : Z) (offset : nat) : result (Z * nat) :=
  match fuel with
  | O => Err OutOfFuel
  | S f =>
      b ← idx data offset;
      let value := Z.lor (Z.shiftl value 7) (Z.land b 127) in
      let offset := S offset in
      if negb (truthy (Z.land b 128)) then Ok (value, offset) else read_subidentifier f data value offset
  end.

Definition read_sub (data : bytes) (offset : nat) : result (Z * nat) :=
  read_subidentifier (S (length data)) data 0 offset.

Fixpoint read_arcs (fuel : nat) (data : bytes) (offset end_offset : nat) (arcs : list Z) : result (list Z) :=
  if (offset <? end_offset)%nat then
    match fuel with
    | O => Err OutOfFuel
    | S f =>
        '(subid, offset) ← read_sub data offset;
        read_arcs f data offset end_offset (arcs ++ [subid])
    end
  else Ok arcs.

Definition first_arcs (subid : Z) : list Z :=
  if subid <? 40 then [0; subid]
  else if subid <? 80 then [1; subid - 40]
  else [2; subid - 80].

Definition decode_arcs (data : bytes) (offset end_offset : nat) : result (list Z) :=
  '(subid, offset) ← read_sub data offset;
  read_arcs end_offset data offset end_offset (first_arcs subid).

Definition fixed_decode_object_identifier (data : bytes) (offset end_offset : nat) : result str :=
  arcs ← decode_arcs data offset end_offset;
  Ok (join "." (map str_of_int arcs)).

(** ** EUM certificates *)

(** Certificate accessors only the server uses. *)
Class CertExt `{X509Lib} := {
  (** policies of [get_extension_for_oid(CERTIFICATE_POLICIES)], which
      raises ExtensionNotFound *)
  policy_oids : Certificate → result (list str);
  (** object identifier and, where it is a bytes object, value of every
      extension *)
  raw_extensions : Certificate → result (list (str * option bytes));
  (** asn1tools, SEQUENCE OF PrintableString *)
  decode_permitted_eins : bytes → result (list str);
  (** permitted_subtrees of the name constraints; a directory name is its
      attributes, any other kind of name is [None] *)
  name_constraints : Certificate → result (option (list (option (list (str * str)))));
  (** serial number attributes of the subject *)
  subject_serial_numbers : Certificate → list str;
  (** object identifier of the subject alternative name *)
  subject_alt_name_oid : Certificate → result str;
}.

Definition PERMITTED_EINS_OID : str := "2.23.146.1.2.2.0".
Definition SERIAL_NUMBER : str := "2.5.4.5".

Section eum.
Context `{CertExt}.

Fixpoint variant_of (policies : list str) : option str :=
  match policies with
  | [] => None
  | policy_oid :: ps =>
      if bool_decide (policy_oid = lit "2.23.146.1.2.1.2") then Some (lit "O")
      else if bool_decide (policy_oid = lit "2.23.146.1.2.1.0.0.0") then Some (lit "NEW")
      else variant_of ps
  end.

(** Every exception is caught; the function then returns None. *)
Definition get_eum_certificate_variant (eum_cert : Certificate) : option str :=
  match policy_oids eum_cert with
  | Ok policies => variant_of policies
  | Err _ => None
  end.

Definition is_upper_hex (c : ascii) : bool := is_digit c || in_range 65 70 c.

Definition valid_iin (iin : str) : bool :=
  (len iin =? 8) && forallb is_upper_hex iin && (len iin mod 2 =? 0).

Definition iins_of_extension (ext : str * option bytes) : list str :=
  if bool_decide (ext.1 = PERMITTED_EINS_OID) then
    match ext.2 with
    | Some der =>
        match decode_permitted_eins der with
        | Ok strings => List.filter valid_iin (map (λ s, str_upper (strip s)) strings)
        | Err _ => []
        end
    | None => []
    end
  else [].

Definition _parse_gsma_permitted_eins (eum_cert : Certificate) : list str :=
  match raw_extensions eum_cert with
  | Ok exts => concat (map iins_of_extension exts)
  | Err _ => []
  end.

Definition iins_of_subtree (subtree : option (list (str * str))) : list str :=
  match subtree with
  | Some attributes =>
      List.filter valid_iin
        (map (λ a, str_upper a.2) (List.filter (λ a, bool_decide (a.1 = SERIAL_NUMBER)) attributes))
  | None => []
  end.

Definition _parse_name_constraints_eins (eum_cert : Certificate) : list str :=
  match name_constraints eum_cert with
  | Ok (Some subtrees) => concat (map iins_of_subtree subtrees)
  | Ok None => []
  | Err _ => []
  end.

(** [list(set(...))]: the order is not defined; no result depends on it. *)
Definition parse_permitted_eins_from_cert (eum_cert : Certificate) : list str :=
  remove_dups
    (if bool_decide (get_eum_certificate_variant eum_cert = Some (lit "O"))
     then _parse_name_constraints_eins eum_cert
     else _parse_gsma_permitted_eins eum_cert).

Definition validate_eid_range (eid : str) (eum_cert : Certificate) : bool :=
  if negb (len eid =? 32) then false
  else
    let permitted_eins := parse_permitted_eins_from_cert eum_cert in
    if bool_decide (permitted_eins = []) then false
    else existsb (λ permitted_ein, startswith (str_upper eid) permitted_ein) permitted_eins.
End eum.

(** ** Signatures and status codes *)

Definition ecdsa_tr03111_to_dss `{X509Lib} (sig : bytes) : result bytes :=
  assert_ (len sig =? 64);;
  let r := from_bytes (slice 0 32 sig) in
  let s := from_bytes (slice 32 (32 * 2) sig) in
  Ok (encode_dss_signature r s).

Record status_code := mkStatus {
  subjectCode : str; reasonCode : str; subjectIdentifier : option str; sc_message : option str }.

Definition nonempty (o : option str) : option str := match o with Some (c :: s) => Some (c :: s) | _ => None end.

Definition build_status_code (subject_code reason_code : str) (subject_id message : option str) : status_code :=
  mkStatus subject_code reason_code (nonempty subject_id) (nonempty message).

(** ** The OID decoder: facts *)

(** Base-128 digits of a subidentifier, as X.690 8.19 encodes it. *)
Fixpoint base128 (n : nat) (v : Z) : bytes :=
  match n with
  | O => []
  | S n' => base128 n' (v / 128) ++ [v mod 128]
  end.

(** All but the last byte have the top bit set. *)
Definition subidentifier (n : nat) (v : Z) : bytes :=
  map (λ b, b + 128) (base128 n (v / 128)) ++ [v mod 128].

(** [v] fits in [n] digits before the last one. *)
Definition fits128 (n : nat) (v : Z) : Prop := 0 <= v < 128 ^ (Z.of_nat n + 1).

Lemma land_small b : 0 <= b < 128 →
  Z.land (b + 128) 127 = b ∧ truthy (Z.land (b + 128) 128) = true
  ∧ Z.land b 127 = b ∧ truthy (Z.land b 128) = false.
Proof. revert b. apply (small_cases _ 128). repeat constructor. Qed.

Lemma shift_or v b : 0 <= b < 128 → Z.lor (Z.shiftl v 7) b = v * 128 + b.
Proof.
  intros Hb. rewrite Z.shiftl_mul_pow2 by lia. change (2 ^ 7) with 128.
  assert (Z.land (v * 128) b = 0) as H0; [|by rewrite <- Z.lxor_lor, <- Z.add_nocarry_lxor].
  apply Z.bits_inj'. intros i Hi. rewrite Z.land_spec, Z.bits_0.
  destruct (Z.ltb_spec i 7).
  - change 128 with (2 ^ 7). by rewrite Z.mul_pow2_bits_low.
  - rewrite (Z.bits_above_log2 b i), andb_false_r; [done|lia|].
    destruct (decide (b = 0)) as [->|]; [cbn; lia|].
    assert (Z.log2 b < 7) by (apply Z.log2_lt_pow2; lia). lia.
Qed.

Lemma length_base128 n v : length (base128 n v) = n.
Proof. revert v. induction n; intros; cbn; [done|]. rewrite length_app, IHn. cbn. lia. Qed.

Lemma idx_mid {A} (p : list A) x r : idx (p ++ x :: r) (length p) = Ok x.
Proof. unfold idx. by rewrite lookup_app_r, Nat.sub_diag by lia. Qed.

(** Reading the leading digits one by one. *)
Lemma read_digits n : ∀ fuel p v acc r,
  (n <= fuel)%nat → 0 <= v →
  read_subidentifier fuel (p ++ map (λ b, b + 128) (base128 n v) ++ r) acc (length p)
  = read_subidentifier (fuel - n) (p ++ map (λ b, b + 128) (base128 n v) ++ r)
      (acc * 128 ^ Z.of_nat n + v mod 128 ^ Z.of_nat n) (length p + n).
Proof.
  induction n as [|n IH]; intros fuel p v acc r Hf Hv.
  - cbn [base128 map]. rewrite Nat.sub_0_r, Nat.add_0_r. f_equal. change (128 ^ Z.of_nat 0) with 1.
    rewrite Z.mod_1_r. lia.
  - cbn [base128]. rewrite map_app, <- app_assoc. cbn [map app].
    rewrite (IH fuel p (v / 128) acc) by (lia || dlia).
    set (d := p ++ _). replace (fuel - n)%nat with (S (fuel - S n)) by lia. cbn [read_subidentifier].
    assert (idx d (length p + n) = Ok (v mod 128 + 128)) as ->.
    { unfold d. rewrite app_assoc. replace (length p + n)%nat with (length (p ++ map (λ b, b + 128) (base128 n (v / 128)))).
      - apply idx_mid.
      - by rewrite length_app, length_map, length_base128. }
    mrun. destruct (land_small (v mod 128)) as (-> & -> & _ & _); [dlia|]. cbn [negb].
    rewrite shift_or by dlia. f_equal; [|lia].
    rewrite Nat2Z.inj_succ, Z.pow_succ_r by lia. rewrite (Z.rem_mul_r v 128) by lia. lia.
Qed.

Lemma read_sub_ok n v p r :
  fits128 n v → read_sub (p ++ subidentifier n v ++ r) (length p) = Ok (v, length (p ++ subidentifier n v)).
Proof.
  unfold fits128, read_sub. intros Hv.
  rewrite Z.pow_add_r, Z.pow_1_r in Hv by lia.
  assert (∃ k, (S (length (p ++ subidentifier n v ++ r)) - n)%nat = S k ∧ True) as (k & Hk & _).
  { unfold subidentifier. rewrite !length_app, length_map, length_base128. cbn. eexists. split; [|done].
    instantiate (1 := (length p + (1 + length r))%nat). lia. }
  unfold subidentifier in *. rewrite <- app_assoc.
  rewrite read_digits by (rewrite ?length_app, ?length_map, ?length_base128; lia || dlia).
  rewrite <- app_assoc in Hk. rewrite Hk. cbn [read_subidentifier].
  rewrite (app_assoc p).
  replace (length p + n)%nat with (length (p ++ map (λ b, b + 128) (base128 n (v / 128))))
    by (by rewrite length_app, length_map, length_base128).
  cbn [app]. rewrite idx_mid. mrun. destruct (land_small (v mod 128)) as (_ & _ & -> & ->); [dlia|]. cbn [negb].
  rewrite shift_or by dlia. rewrite app_assoc, (length_app _ [v mod 128]). cbn [length].
  f_equal. f_equal; [|lia]. rewrite Z.mod_small by dlia. cbn. dlia.
Qed.

Lemma read_arcs_ok ns vs : ∀ fuel p r arcs,
  Forall2 fits128 ns vs → (length vs <= fuel)%nat →
  let enc := concat (zip_with subidentifier ns vs) in
  read_arcs fuel (p ++ enc ++ r) (length p) (length (p ++ enc)) arcs = Ok (arcs ++ vs).
Proof.
  intros fuel p r arcs HF. revert fuel p arcs.
  induction HF as [|n v ns vs Hv HF IH]; intros fuel p arcs Hf enc.
  - unfold enc. cbn [zip_with concat]. rewrite !app_nil_r.
    destruct fuel; cbn [read_arcs]; by rewrite (proj2 (Nat.ltb_ge _ _)) by lia.
  - destruct fuel as [|fuel]; [cbn in Hf; lia|]. unfold enc. cbn [zip_with concat].
    set (e := concat (zip_with subidentifier ns vs)).
    cbn [read_arcs]. rewrite (proj2 (Nat.ltb_lt _ _)).
    2: { rewrite !length_app. unfold subidentifier. rewrite !length_app. cbn. lia. }
    rewrite <- app_assoc, (read_sub_ok n v p) by done. mrun.
    specialize (IH fuel (p ++ subidentifier n v) (arcs ++ [v])).
    cbv zeta in IH. fold e in IH. rewrite <- !app_assoc in IH. cbn [app] in IH. apply IH. cbn in Hf. lia.
Qed.

(** The two arcs a first subidentifier stands for. *)
Definition arcs_wf (a0 a1 : Z) : Prop := 0 <= a1 ∧ ((a0 = 0 ∨ a0 = 1) ∧ a1 < 40 ∨ a0 = 2).

(** C37: the installed decoder inverts the X.690 encoding of every object
    identifier, second arcs of 40 and more under arc 2 included, wherever
    the encoding stands in the data and however many (non-minimal) digits
    its subidentifiers use; it does not run out. *)
Theorem oid_decode_correct a0 a1 n ns arcs pre post :
  arcs_wf a0 a1 → fits128 n (40 * a0 + a1) → Forall2 fits128 ns arcs →
  let enc := subidentifier n (40 * a0 + a1) ++ concat (zip_with subidentifier ns arcs) in
  decode_arcs (pre ++ enc ++ post) (length pre) (length (pre ++ enc)) = Ok (a0 :: a1 :: arcs).
Proof.
  intros [Ha1 Ha] Hn Hns enc. unfold decode_arcs, enc. rewrite <- app_assoc, (read_sub_ok n _ pre) by done. mrun.
  pose proof (read_arcs_ok ns arcs (length (pre ++ subidentifier n (40 * a0 + a1) ++ concat (zip_with subidentifier ns arcs)))
    (pre ++ subidentifier n (40 * a0 + a1)) post (first_arcs (40 * a0 + a1)) Hns) as Hr.
  cbn zeta in Hr. rewrite <- !app_assoc in Hr. rewrite Hr.
  - f_equal. unfold first_arcs.
    destruct Ha as [[[E|E] Hlt]|E]; subst a0.
    + by rewrite (proj2 (Z.ltb_lt _ 40)) by lia.
    + rewrite (proj2 (Z.ltb_ge _ 40)), (proj2 (Z.ltb_lt _ 80)) by lia. cbn [app]. do 3 f_equal. lia.
    + rewrite (proj2 (Z.ltb_ge _ 40)), (proj2 (Z.ltb_ge _ 80)) by lia. cbn [app]. do 3 f_equal. lia.
  - rewrite !length_app. assert (length arcs <= length (concat (zip_with subidentifier ns arcs)))%nat; [|lia].
    clear -Hns. induction Hns as [|k v ns vs _ _ IH]; [done|]. cbn [zip_with concat length].
    rewrite length_app. unfold subidentifier at 1. rewrite length_app. cbn. lia.
Qed.

Lemma oid_decode_correct_witness :
  decode_arcs [6; 3; 136; 55; 10] 2 5 = Ok [2; 999; 10].
Proof.
  apply (oid_decode_correct 2 999 1 [0%nat] [10] [6; 3] []).
  - unfold arcs_wf. lia.
  - vm_compute. split; congruence.
  - repeat constructor; by vm_compute.
Defined.

(** ** EID ranges: facts *)

Section eid_facts.
Context `{CertExt}.

(** The certificate names [raw] as an issuer number: by the old variant as a
    serial number among the permitted directory names, by the others as a
    string of a permittedEins extension. *)
Definition names_iin (c : Certificate) (raw : str) : Prop :=
  if bool_decide (get_eum_certificate_variant c = Some (lit "O"))
  then ∃ subtrees attrs, name_constraints c = Ok (Some subtrees) ∧ Some attrs ∈ subtrees
                         ∧ (SERIAL_NUMBER, raw) ∈ attrs
  else ∃ exts der strings s, raw_extensions c = Ok exts ∧ (PERMITTED_EINS_OID, Some der) ∈ exts
                           ∧ decode_permitted_eins der = Ok strings ∧ s ∈ strings ∧ raw = strip s.

Lemma elem_of_concat_map {A B} (f : A → list B) l y : y ∈ concat (map f l) ↔ ∃ x, x ∈ l ∧ y ∈ f x.
Proof.
  rewrite !list_elem_of_In, in_concat. split.
  - intros (k & (x & <- & Hx)%in_map_iff & Hy). exists x. by rewrite !list_elem_of_In.
  - intros (x & Hx & Hy). rewrite !list_elem_of_In in *. exists (f x). split; [|done]. by apply in_map.
Qed.

Lemma elem_of_filter_map {A} (p : str → bool) (f : A → str) l y :
  y ∈ List.filter p (map f l) ↔ p y = true ∧ ∃ x, x ∈ l ∧ y = f x.
Proof.
  rewrite list_elem_of_In, filter_In, in_map_iff. split.
  - intros [(x & <- & Hx) Hp]. split; [done|]. exists x. by rewrite list_elem_of_In.
  - intros [Hp (x & Hx & ->)]. rewrite list_elem_of_In in Hx. eauto.
Qed.

Lemma parse_permitted c iin :
  iin ∈ parse_permitted_eins_from_cert c
  ↔ valid_iin iin = true ∧ ∃ raw, names_iin c raw ∧ iin = str_upper raw.
Proof.
  unfold parse_permitted_eins_from_cert, names_iin. rewrite elem_of_remove_dups.
  destruct (bool_decide (get_eum_certificate_variant c = Some (lit "O"))).
  - unfold _parse_name_constraints_eins.
    destruct (name_constraints c) as [[subtrees|]|e]; [|split; [by intros ?%elem_of_nil|intros (_ & raw & (? & ? & ? & _) & _); discriminate]..].
    rewrite elem_of_concat_map. split.
    + intros ([attrs|] & Hsub & Hin); [|by apply elem_of_nil in Hin].
      apply elem_of_filter_map in Hin as (Hv & [o raw] & Ha & ->). split; [done|].
      apply list_elem_of_In, filter_In in Ha as [Ha Ho%bool_decide_eq_true]. cbn in Ho. subst o.
      exists raw. split; [|done]. exists subtrees, attrs.
      split_and!; [done|done|by apply list_elem_of_In].
    + intros (Hv & raw & (st & attrs & [= <-] & Hsub & Ha) & ->). exists (Some attrs). split; [done|].
      apply elem_of_filter_map. split; [done|]. exists (SERIAL_NUMBER, raw). split; [|done].
      apply list_elem_of_In, filter_In. split; [by apply list_elem_of_In|]. by apply bool_decide_ok.
  - unfold _parse_gsma_permitted_eins.
    destruct (raw_extensions c) as [exts|e]; [|split; [by intros ?%elem_of_nil|intros (_ & raw & (? & ? & ? & ? & ? & _) & _); discriminate]].
    rewrite elem_of_concat_map. split.
    + intros ([o [der|]] & Hext & Hin); unfold iins_of_extension in Hin; cbn [fst snd] in Hin;
        (destruct (bool_decide (o = _)) eqn:Eo; [|by apply elem_of_nil in Hin]);
        [|by apply elem_of_nil in Hin].
      apply bool_decide_eq_true in Eo as ->.
      destruct (decode_permitted_eins der) as [strings|] eqn:Ed; [|by apply elem_of_nil in Hin].
      apply elem_of_filter_map in Hin as (Hv & s & Hs & ->). split; [done|].
      exists (strip s). split; [|done]. by exists exts, der, strings, s.
    + intros (Hv & raw & (ex & der & strings & s & [= <-] & Hext & Ed & Hs & ->) & ->).
      exists (PERMITTED_EINS_OID, Some der). split; [done|]. unfold iins_of_extension. cbn [fst snd].
      rewrite bool_decide_ok, Ed by done. apply elem_of_filter_map. split; [done|]. by exists s.
Qed.

(** An EID is accepted exactly when it has 32 characters and begins, case
    ignored, with an issuer number of eight hexadecimal digits that the EUM
    certificate names. *)
Theorem validate_eid_range_spec eid c :
  validate_eid_range eid c = true
  ↔ len eid = 32 ∧ ∃ raw k, names_iin c raw ∧ valid_iin (str_upper raw) = true
                          ∧ str_upper eid = str_upper raw ++ k.
Proof.
  unfold validate_eid_range. destruct (Z.eqb_spec (len eid) 32) as [Hl|Hl]; cbn [negb]; [|naive_solver].
  case_bool_decide as He.
  - split; [done|]. intros (_ & raw & k & Hn & Hv & _).
    assert (str_upper raw ∈ parse_permitted_eins_from_cert c) as Hin by (apply parse_permitted; eauto).
    rewrite He in Hin. by apply elem_of_nil in Hin.
  - rewrite existsb_exists. split.
    + intros (iin & Hin & Hp). apply list_elem_of_In, parse_permitted in Hin as (Hv & raw & Hn & ->).
      apply prefix_of_spec in Hp as [k Hk]. split; [done|]. by exists raw, k.
    + intros (_ & raw & k & Hn & Hv & Hk). exists (str_upper raw). split.
      * apply list_elem_of_In, parse_permitted. eauto.
      * apply prefix_of_spec. by exists k.
Qed.
End eid_facts.
