(* ===== verification/Smdpp.v ===== *)
(** The SM-DP+ server of osmo-smdpp.py: its state, the ES9+ handlers with
    the wrapper around them, the download history and the management
    endpoints. Every handler is a computation on the server's state; what it
    has changed before an exception stays changed, as in the code. Fresh
    identifiers, challenges, keys and time stamps are arguments. *)

From S2P Require Import Prelude Osmocom Crypto Base64 Utils Bsp X509 Esim Rsp Es8p Eid.

(** ** Messages, as the ASN.1 decoder gives them *)

Record EUICCInfo1 := mkInfo1 {
  euiccCiPKIdListForSigning : list bytes;
  euiccCiPKIdListForSigningV3 : option (list bytes);
  euiccCiPKIdListForVerification : option (list bytes) }.

Record ServerSigned1 := mkServerSigned1 {
  ss1_transactionId : bytes; ss1_euiccChallenge : bytes; ss1_serverAddress : str; ss1_serverChallenge : bytes }.

Inductive ctxParams :=
| ctxParamsForCommonAuthentication (matchingId : option str)
| otherCtxParams.

Record EuiccSigned1 := mkEuiccSigned1 { es1_serverChallenge : bytes; ctxParams1 : ctxParams }.
Record EuiccSigned2 := mkEuiccSigned2 { es2_transactionId : bytes; es2_euiccOtpk : bytes }.

(** The ASN.1 types of the messages; [CertVal] is a decoded certificate. *)
Class SmdppAsn1 := {
  CertVal : Type;
  enc_certificate : CertVal → result bytes;
  dec_euicc_info1 : bytes → result EUICCInfo1;
  enc_server_signed1 : ServerSigned1 → result bytes;
  (** [inl]: authenticateResponseError; otherwise euiccSigned1,
      euiccSignature1, euiccCertificate, eumCertificate *)
  dec_authenticate_server_response : bytes → result (unit + (EuiccSigned1 * bytes * CertVal * CertVal));
  enc_smdp_signed2 : bytes → result bytes;
  (** euiccSigned2 and euiccSignature2 *)
  dec_prepare_download_response : bytes → result (unit + (EuiccSigned2 * bytes));
  (** transactionId, smdpOid of the signed part; the signature *)
  dec_cancel_session_response : bytes → result (unit + ((bytes * str) * bytes));
  enc_cancel_session_signed : bytes * str → result bytes;
  Pird : Type;
  pird_transactionId : Pird → bytes;
  (** whether finalResult is the string 'success' *)
  pird_success : Pird → bool;
  pird_final_result : Pird → str;
  enc_pird : Pird → result bytes;
  TbsNotification : Type;
  tbs_pmo : TbsNotification → bytes * Z;
  enc_tbs : TbsNotification → result bytes;
  (** profileInstallationResult, otherSignedNotification, or another choice *)
  dec_pending_notification : bytes → result ((Pird * bytes) + (TbsNotification * bytes * CertVal * CertVal) + unit);
}.

(** What the server needs of the profile codec (esim/saip): the ICCID in the
    header of a profile package. *)
Class ProfileCodec := { header_iccid : bytes → result bytes }.

(** The operating system: symbolic links resolved. *)
Class OsPath := { realpath : str → str }.

(** [os.path.join] *)
Definition path_join (a b : str) : str :=
  if startswith b "/" then b
  else if bool_decide (a = []) || endswith a "/" then a ++ b
  else a ++ lit "/" ++ b.

(** [os.path.commonprefix] of two paths: character by character. *)
Fixpoint commonprefix (a b : str) : str :=
  match a, b with
  | x :: a', y :: b' => if Ascii.eqb x y then x :: commonprefix a' b' else []
  | _, _ => []
  end.

(** ** State *)

Record download := mkDownload {
  dl_transaction_id : str; dl_eid : option str; dl_iccid : str; dl_matching_id : str;
  dl_status : str; dl_timestamp : str; dl_final_result : option str }.

Section server.
Context `{OsmocomUtils, OsmocomTlv, Cryptodome, X509Lib, EcLib, RspAsn1, !CertExt, SmdppAsn1, ProfileCodec, OsPath}.

Record SmDppHttpServer := mkServer {
  server_hostname : str;
  upp_dir : str;
  ci_certs : list Certificate;
  dp_auth : CertAndPrivkey;
  dp_pb : CertAndPrivkey;
  rss : RspSessionStore;
  history : list download;
  (** contents of the readable regular files, by real path *)
  files : gmap str bytes;
  upp_class : UppClass;
}.

Definition with_rss (f : RspSessionStore → RspSessionStore) (s : SmDppHttpServer) : SmDppHttpServer :=
  mkServer (server_hostname s) (upp_dir s) (ci_certs s) (dp_auth s) (dp_pb s) (f (rss s)) (history s)
    (files s) (upp_class s).
Definition with_history (f : list download → list download) (s : SmDppHttpServer) : SmDppHttpServer :=
  mkServer (server_hostname s) (upp_dir s) (ci_certs s) (dp_auth s) (dp_pb s) (rss s) (f (history s))
    (files s) (upp_class s).
Definition with_files (f : gmap str bytes → gmap str bytes) (s : SmDppHttpServer) : SmDppHttpServer :=
  mkServer (server_hostname s) (upp_dir s) (ci_certs s) (dp_auth s) (dp_pb s) (rss s) (history s)
    (f (files s)) (upp_class s).
Definition on_upp_class {A} : M UppClass A → M SmDppHttpServer A :=
  zoom upp_class (λ u s, mkServer (server_hostname s) (upp_dir s) (ci_certs s) (dp_auth s) (dp_pb s) (rss s)
                           (history s) (files s) u).

Notation MS := (M SmDppHttpServer).

(** JSON objects with string members. *)
Abbreviation json := (gmap str str).

Definition member (content : json) (key : string) : result str := from_opt KeyError (content !! lit key).

(** *** DownloadHistoryStore

    Loading and saving the file is I/O whose errors are only logged. *)
Definition record_download (transaction_id : str) (eid : option str) (iccid matching_id status now : str) : MS unit :=
  modify (with_history (λ h, h ++ [mkDownload transaction_id eid iccid matching_id status now None])).

Fixpoint update_first (transaction_id status : str) (final_result : option str) (h : list download) : list download :=
  match h with
  | [] => []
  | r :: h' =>
      if bool_decide (dl_transaction_id r = transaction_id) then
        mkDownload (dl_transaction_id r) (dl_eid r) (dl_iccid r) (dl_matching_id r) status (dl_timestamp r)
          (match nonempty final_result with Some f => Some f | None => dl_final_result r end) :: h'
      else r :: update_first transaction_id status final_result h'
  end.

Definition update_download (transaction_id status : str) (final_result : option str) : MS unit :=
  modify (with_history (update_first transaction_id status final_result)).

(** *** Certificates *)

Definition b64encode2str (req : bytes) : str := b64encode req.

(** [subject_exts[0].value] of the subject key identifier extensions. *)
Definition subject_pkid (cert : Certificate) : result bytes :=
  match ext_subject_key_id cert with Ok k => Ok k | Err _ => Err IndexError end.

Fixpoint ci_get_cert_in (certs : list Certificate) (ci_pkid : bytes) : result (option Certificate) :=
  match certs with
  | [] => Ok None
  | cert :: certs' =>
      pkid ← subject_pkid cert;
      if bool_decide (pkid = ci_pkid) then Ok (Some cert) else ci_get_cert_in certs' ci_pkid
  end.

Definition ci_get_cert_for_pkid (s : SmDppHttpServer) (ci_pkid : bytes) : result (option Certificate) :=
  ci_get_cert_in (ci_certs s) ci_pkid.

(** Default of [max_depth] in verify_cert_chain. *)
Definition MAX_DEPTH : nat := 100.

Fixpoint validate_certificate_chain_for_verification (s : SmDppHttpServer) (euicc_ci_pkid_list : list bytes)
    : result bool :=
  match euicc_ci_pkid_list with
  | [] => Ok false
  | ci_pkid :: l =>
      ci_cert ← ci_get_cert_for_pkid s ci_pkid;
      match ci_cert with
      | None => validate_certificate_chain_for_verification s l
      | Some ci =>
          match (cs ← certset_init ci;
                 c ← from_opt AttributeError (cert (dp_auth s));
                 verify_cert_chain cs c MAX_DEPTH) with
          | Ok _ => Ok true
          | Err VerifyError => validate_certificate_chain_for_verification s l
          | Err e => Err e
          end
      end
  end.

(** [get_authority_key_identifier().key_identifier]: the first such
    extension of the certificate. *)
Definition own_aki (ck : CertAndPrivkey) : result bytes :=
  c ← from_opt AttributeError (cert ck);
  match ext_authority_key_id c with Ok k => Ok k | Err _ => Err IndexError end.

Definition _ecdsa_verify (c : option Certificate) (signature data : bytes) : result bool :=
  pub ← from_opt AttributeError c;
  dss_sig ← ecdsa_tr03111_to_dss signature;
  Ok (ecdsa_verify_dss pub dss_sig data).

(** [h2b(s) != b] style checks raise ApiError. *)
Definition api_guard (b : bool) (subject reason : string) : MS unit :=
  lift (guard_else b (ApiError subject reason)).

(** *** ES9+ InitiateAuthentication *)

(** The loop over the offered key identifiers: the first one for which the
    server has a CI certificate that also issued its own DPauth certificate. *)
Fixpoint choose_ci (s : SmDppHttpServer) (pkid_list : list bytes) : result (option Certificate) :=
  match pkid_list with
  | [] => Ok None
  | x :: l =>
      ci_cert ← ci_get_cert_for_pkid s x;
      match ci_cert with
      | Some c =>
          ski ← cert_get_subject_key_id c;
          aki ← own_aki (dp_auth s);
          if bool_decide (ski = aki) then Ok (Some c) else choose_ci s l
      | None => choose_ci s l
      end
  end.

Definition signature_do (sig : bytes) : bytes := [95; 55; 64] ++ sig.

Definition initiateAuthentication (uuid_hex : str) (challenge : bytes) (content : json) : MS (option json) :=
  addr ← lift (member content "smdpAddress");
  s ← get;
  received_addr ← lift (idx (split_on ":" addr) 0);
  api_guard (bool_decide (received_addr = server_hostname s)) "8.8.1" "3.8";;
  ec ← lift (member content "euiccChallenge");
  euiccChallenge ← lift (b64decode ec);
  lift (guard_else (len euiccChallenge =? 16) ValueError);;
  i1 ← lift (member content "euiccInfo1");
  info_bin ← lift (b64decode i1);
  euiccInfo1 ← lift (dec_euicc_info1 info_bin);
  let pkid_list := euiccCiPKIdListForSigning euiccInfo1 ++ default [] (euiccCiPKIdListForSigningV3 euiccInfo1) in
  let verification_pkid_list := default [] (euiccCiPKIdListForVerification euiccInfo1) in
  (if bool_decide (verification_pkid_list = []) then mret ()
   else ok ← lift (validate_certificate_chain_for_verification s verification_pkid_list);
        api_guard ok "8.8.4" "3.7");;
  ci ← lift (choose_ci s pkid_list);
  ci_cert ← lift (from_opt (ApiError "8.8.2" "3.1") ci);
  let transactionId := str_upper uuid_hex in
  lift (assert_ (negb (store_contains (rss s) transactionId)));;
  let serverChallenge := challenge in
  tid_b ← lift (h2b transactionId);
  serverSigned1_bin ← lift (enc_server_signed1
    (mkServerSigned1 tid_b euiccChallenge (server_hostname s) serverChallenge));
  sig ← lift (ecdsa_sign (dp_auth s) serverSigned1_bin);
  aki ← lift (own_aki (dp_auth s));
  der ← lift (get_cert_as_der (dp_auth s));
  ci_id ← lift (cert_get_subject_key_id ci_cert);
  modify (with_rss (λ r, store_set r transactionId (new_session transactionId serverChallenge ci_id)));;
  mret (Some (list_to_map
    [(lit "serverSigned1", b64encode2str serverSigned1_bin);
     (lit "serverSignature1", b64encode2str (signature_do sig));
     (lit "transactionId", transactionId);
     (lit "euiccCiPKIdToBeUsed", b64encode2str ([4; 20] ++ aki));
     (lit "serverCertificate", b64encode2str der)])).

(** [self.rss.get(transactionId, None)] *)
Definition session_of (transactionId : str) : MS (option RspSessionState) :=
  s ← get; lift (store_get (rss s) transactionId).

(** *** ES9+ AuthenticateClient *)

(** Setters for the attributes the handlers assign. *)
Definition set_certs (euicc eum : Certificate) (ss : RspSessionState) : RspSessionState :=
  mkSession (transactionId ss) (serverChallenge ss) (ci_cert_id ss) (Some euicc) (Some eum) (eid ss)
    (profileMetadata ss) (smdpSignature2_do ss) (euicc_otpk ss) (smdp_ot ss) (smdp_otpk ss) (host_id ss)
    (shared_secret ss) (matchingId ss).
Definition set_selected (e m : str) (md : ProfileMetadata) (sig2 : bytes) (ss : RspSessionState) : RspSessionState :=
  mkSession (transactionId ss) (serverChallenge ss) (ci_cert_id ss) (euicc_cert ss) (eum_cert ss) (Some e)
    (Some md) (Some sig2) (euicc_otpk ss) (smdp_ot ss) (smdp_otpk ss) (host_id ss)
    (shared_secret ss) (Some m).

(** The path of a profile, after the checks that guard the directory. *)
Definition profile_path (s : SmDppHttpServer) (matchingId : str) : str :=
  path_join (upp_dir s) matchingId ++ lit ".der".

Definition open_file (s : SmDppHttpServer) (path : str) : result bytes :=
  from_opt (LibError "FileNotFoundError") (files s !! realpath path).

(** [cs.add_intermediate_cert], [cs.verify_cert_chain] on a set whose root
    was looked up: the set of [None] raises AttributeError. *)
Definition verify_euicc_chain (ci : option Certificate) (eum euicc : Certificate) : result unit :=
  root ← from_opt AttributeError ci;
  cs ← certset_init root;
  cs' ← add_intermediate_cert eum cs;
  verify_cert_chain cs' euicc MAX_DEPTH.

(** The same with VerifyError of the last call turned into an ApiError. *)
Definition verify_euicc_chain_api (ci : option Certificate) (eum euicc : Certificate) : result unit :=
  root ← from_opt AttributeError ci;
  cs ← certset_init root;
  cs' ← add_intermediate_cert eum cs;
  match verify_cert_chain cs' euicc MAX_DEPTH with
  | Err VerifyError => Err (ApiError "8.1.3" "6.1")
  | r => r
  end.

(** The selection of a profile by matching ID: (matching ID, ICCID). *)
Definition select_profile (s : SmDppHttpServer) (ctx : ctxParams) : result (str * str) :=
  match ctx with
  | ctxParamsForCommonAuthentication mid =>
      m ← from_opt (ApiError "8.2.6" "3.8") (nonempty mid);
      let path := profile_path s m in
      guard_else (bool_decide (commonprefix (realpath path) (upp_dir s) = upp_dir s)) (ApiError "8.2.6" "3.8");;
      guard_else (bool_decide (is_Some (files s !! realpath path))) (ApiError "8.2.6" "3.8");;
      der ← open_file s path;
      iccid ← header_iccid der;
      Ok (m, b2h iccid)
  | otherCtxParams => Err (ApiError "1.3.1" "2.2")
  end.

(** Metadata with notifications for all operations. *)
Definition session_metadata (s : SmDppHttpServer) (iccid : bytes) (m : str) : ProfileMetadata :=
  foldl (λ md event, add_notification event (server_hostname s) md)
    (new_metadata iccid (lit "OsmocomSPN") m) [lit "enable"; lit "disable"; lit "delete"].

Definition decode_or_api {A} (r : result A) : result A :=
  match r with Ok a => Ok a | Err _ => Err (ApiError "8.1" "6.1") end.

Definition authenticateClient (content : json) : MS (option json) :=
  tid ← lift (member content "transactionId");
  asr ← lift (member content "authenticateServerResponse");
  asr_bin ← lift (b64decode asr);
  resp ← lift (decode_or_api (dec_authenticate_server_response asr_bin));
  '(euiccSigned1, euiccSignature1_bin, euiccCertificate_dec, eumCertificate_dec) ←
    lift (match resp with inl _ => Err ValueError | inr r => Ok r end);
  euiccSigned1_bin ← lift (extract_euiccSigned1 asr_bin);
  euiccCertificate_bin ← lift (enc_certificate euiccCertificate_dec);
  eumCertificate_bin ← lift (enc_certificate eumCertificate_dec);
  euicc ← lift (load_der_x509_certificate euiccCertificate_bin);
  eum ← lift (load_der_x509_certificate eumCertificate_bin);
  o ← session_of tid;
  ss ← lift (from_opt (ApiError "8.10.1" "3.9") o);
  let ss := set_certs euicc eum ss in
  aki ← lift (cert_get_auth_key_id eum);
  api_guard (bool_decide (aki = ci_cert_id ss)) "8.11.1" "3.9";;
  s ← get;
  ci ← lift (ci_get_cert_for_pkid s (ci_cert_id ss));
  lift (verify_euicc_chain_api ci eum euicc);;
  ok ← lift (_ecdsa_verify (Some euicc) euiccSignature1_bin euiccSigned1_bin);
  api_guard ok "8.1" "6.1";;
  e ← lift (idx (subject_serial_numbers euicc) 0);
  api_guard (validate_eid_range e eum) "8.1.4" "6.1";;
  api_guard (bool_decide (es1_serverChallenge euiccSigned1 = serverChallenge ss)) "8.1" "6.1";;
  '(m, iccid_str) ← lift (select_profile s (ctxParams1 euiccSigned1));
  iccid ← lift (h2b (swap_nibbles iccid_str));
  let md := session_metadata s iccid m in
  profileMetadata_bin ← lift (gen_store_metadata_request md);
  tid_b ← lift (h2b (transactionId ss));
  smdpSigned2_bin ← lift (enc_smdp_signed2 tid_b);
  sig ← lift (ecdsa_sign (dp_pb s) (smdpSigned2_bin ++ signature_do euiccSignature1_bin));
  let sig2 := signature_do sig in
  modify (with_rss (λ r, store_set r tid (set_selected e m md sig2 ss)));;
  der ← lift (get_cert_as_der (dp_pb s));
  mret (Some (list_to_map
    [(lit "transactionId", tid);
     (lit "profileMetadata", b64encode2str profileMetadata_bin);
     (lit "smdpSigned2", b64encode2str smdpSigned2_bin);
     (lit "smdpSignature2", b64encode2str sig2);
     (lit "smdpCertificate", b64encode2str der)])).

(** *** ES9+ GetBoundProfilePackage *)

Definition set_bound (otpk : bytes) (key : EcPriv) (hid secret : bytes) (ss : RspSessionState) : RspSessionState :=
  mkSession (transactionId ss) (serverChallenge ss) (ci_cert_id ss) (euicc_cert ss) (eum_cert ss) (eid ss)
    (profileMetadata ss) (smdpSignature2_do ss) (Some otpk) (Some key) (Some (public_point key)) (Some hid)
    (Some secret) (matchingId ss).

(** b'mahlzeit' *)
Definition mahlzeit : bytes := map code (lit "mahlzeit").

Definition getBoundProfilePackage (new_key : EcPriv) (now : str) (content : json) : MS (option json) :=
  tid ← lift (member content "transactionId");
  o ← session_of tid;
  ss ← lift (from_opt (ApiError "8.10.1" "3.9") o);
  pdr ← lift (member content "prepareDownloadResponse");
  pdr_bin ← lift (b64decode pdr);
  resp ← lift (dec_prepare_download_response pdr_bin);
  '(euiccSigned2, euiccSignature2) ← lift (match resp with inl _ => Err ValueError | inr r => Ok r end);
  euiccSigned2_bin ← lift (extract_euiccSigned2 pdr_bin);
  sig2 ← lift (from_opt TypeError (smdpSignature2_do ss));
  ok ← lift (_ecdsa_verify (euicc_cert ss) euiccSignature2 (euiccSigned2_bin ++ sig2));
  api_guard ok "8.1" "6.1";;
  tid_b ← lift (h2b tid);
  api_guard (bool_decide (tid_b = es2_transactionId euiccSigned2)) "8.10.1" "3.9";;
  s ← get;
  let otpk := es2_euiccOtpk euiccSigned2 in
  lift (from_opt AttributeError (cert (dp_pb s)));;
  euicc_public_key ← lift (from_encoded_point (priv_curve new_key) otpk);
  secret ← lift (exchange new_key euicc_public_key);
  let ss := set_bound otpk new_key mahlzeit secret ss in
  m ← lift (from_opt AttributeError (matchingId ss));
  der ← lift (open_file s (profile_path s m));
  upp ← on_upp_class (from_der der (profileMetadata ss));
  let iccid_for_log := match profileMetadata ss with
                       | Some md => swap_nibbles (b2h (iccid_bin md))
                       | None => lit "unknown"
                       end in
  record_download tid (eid ss) iccid_for_log m (lit "bpp_sent") now;;
  '(ppp, _) ← on_upp_class (ppp_from_upp upp (bsp_init (replicate 16 0) (replicate 16 17) (replicate 16 34)));
  let bpp := bpp_from_ppp ppp in
  modify (with_rss (λ r, store_set r tid ss));;
  '(bpp_bin, _) ← on_upp_class (bpp_encode bpp ss (dp_pb s));
  mret (Some (list_to_map
    [(lit "transactionId", tid); (lit "boundProfilePackage", b64encode2str bpp_bin)])).

(** [del self.rss[transactionId]] *)
Definition del_session (tid : str) : MS unit :=
  s ← get; r ← lift (store_del (rss s) tid); modify (with_rss (λ _, r)).

(** *** ES9+ HandleNotification *)
Definition handleNotification (content : json) : MS (option json) :=
  pn ← lift (member content "pendingNotification");
  pn_bin ← lift (b64decode pn);
  pendingNotification ← lift (dec_pending_notification pn_bin);
  match pendingNotification with
  | inl (inl (pird, euiccSignPIR)) =>
      let tid := b2h (pird_transactionId pird) in
      o ← session_of tid;
      match o with
      | None => mret None
      | Some ss =>
          pird_bin ← lift (enc_pird pird);
          ok ← lift (_ecdsa_verify (euicc_cert ss) euiccSignPIR pird_bin);
          if negb ok then
            update_download tid (lit "failed") (Some (lit "Signature verification failed"));;
            raise ExceptionError
          else
            let status := if pird_success pird then lit "success" else lit "failed" in
            update_download tid status (Some (pird_final_result pird));;
            del_session tid;;
            mret None
      end
  | inl (inr (tbs, signature, euiccCertificate, eumCertificate)) =>
      euiccCertificate_bin ← lift (enc_certificate euiccCertificate);
      eumCertificate_bin ← lift (enc_certificate eumCertificate);
      euicc ← lift (load_der_x509_certificate euiccCertificate_bin);
      eum ← lift (load_der_x509_certificate eumCertificate_bin);
      ci_cert_id ← lift (cert_get_auth_key_id eum);
      s ← get;
      ci ← lift (ci_get_cert_for_pkid s ci_cert_id);
      lift (verify_euicc_chain ci eum euicc);;
      tbs_bin ← lift (enc_tbs tbs);
      ok ← lift (_ecdsa_verify (Some euicc) signature tbs_bin);
      lift (guard_else ok ExceptionError);;
      lift (PMO.from_bitstring (tbs_pmo tbs));;
      lift (idx (subject_serial_numbers euicc) 0);;
      mret None
  | inr _ => raise ValueError
  end.

(** *** ES9+ CancelSession *)
Definition cancelSession (content : json) : MS (option json) :=
  tid ← lift (member content "transactionId");
  o ← session_of tid;
  ss ← lift (from_opt (ApiError "8.10.1" "3.9") o);
  csr ← lift (member content "cancelSessionResponse");
  csr_bin ← lift (b64decode csr);
  resp ← lift (dec_cancel_session_response csr_bin);
  match resp with
  | inl _ => mret None
  | inr (ecsr, signature) =>
      ecsr_bin ← lift (enc_cancel_session_signed ecsr);
      c ← lift (from_opt (ApiError "8.10.1" "3.9") (euicc_cert ss));
      ok ← lift (_ecdsa_verify (Some c) signature ecsr_bin);
      api_guard ok "8.1" "6.1";;
      s ← get;
      own ← lift (from_opt AttributeError (cert (dp_auth s)));
      oid ← lift (subject_alt_name_oid own);
      api_guard (bool_decide (ecsr.2 = oid)) "8.8" "3.10";;
      tid_b ← lift (h2b tid);
      api_guard (bool_decide (ecsr.1 = tid_b)) "8.10.1" "3.9";;
      del_session tid;;
      mret (Some {[ lit "transactionId" := tid ]})
  end.

(** *** The wrapper around the handlers *)

Record request := mkRequest { content_type : option str; admin_protocol : option str; req_content : json }.

Definition validate_request_headers (r : request) : result unit :=
  (match content_type r with
   | Some (c :: s) => guard_else (startswith (c :: s) "application/json") (ApiError "1.2.1" "2.1")
   | _ => Err (ApiError "1.2.1" "2.1")
   end);;
  match admin_protocol r with
  | Some (c :: s) => guard_else (startswith (c :: s) "gsma/rsp/v") (ApiError "1.2.2" "2.1")
  | _ => Ok ()
  end.

(** What the client gets: a JSON object with a success header, an empty
    body, a JSON object with a failure header, or an internal server error. *)
Inductive response :=
| Success (js : json)
| NoContent
| Failed (subject_code reason_code : str)
| ServerError (e : exn).

(** [rsp_api_wrapper] and the error handler [handle_apierror]. *)
Definition serve (handler : json → MS (option json)) (r : request) (s : SmDppHttpServer) : response * SmDppHttpServer :=
  match (lift (validate_request_headers r);; handler (req_content r)) s with
  | (Ok (Some js), s') => (Success js, s')
  | (Ok None, s') => (NoContent, s')
  | (Err (ApiError subject reason), s') => (Failed subject reason, s')
  | (Err e, s') => (ServerError e, s')
  end.

(** *** Management endpoints *)

(** [mno_list_profiles]: matching ID and size of every file name that ends
    in .der; the directory listing is an argument. *)
Definition mno_list_profiles (listing : list (str * Z)) : list (str * Z) :=
  map (λ f, (but_last 4 f.1, f.2)) (List.filter (λ f, endswith f.1 ".der") listing).

(** Status code of the answer. *)
Definition mno_upload_profile (x_filename : option str) (content : bytes) : MS Z :=
  match x_filename with
  | Some (c :: f) =>
      if endswith (c :: f) ".der" then
        s ← get;
        let path := path_join (upp_dir s) (c :: f) in
        modify (with_files (λ fs, <[realpath path := content]> fs));;
        mret 201
      else mret 400
  | _ => mret 400
  end.

Definition mno_delete_profile (matching_id : str) : MS Z :=
  s ← get;
  let path := path_join (upp_dir s) (matching_id ++ lit ".der") in
  if bool_decide (is_Some (files s !! realpath path)) then
    modify (with_files (delete (realpath path)));; mret 200
  else mret 404.

Definition mno_list_sessions : MS (list (str * str * str)) :=
  s ← get;
  l ← map_m (λ tid,
    o ← session_of tid;
    mret (match o with
          | None => None
          | Some ss => Some (tid, default (lit "Pending authentication...") (nonempty (eid ss)),
                             default (lit "Not yet selected") (nonempty (matchingId ss)))
          end)) (map fst (map_to_list (rss s)));
  mret (omap id l).

(** Counts of the statistics: profiles, sessions, downloads, successful and
    failed ones (the success rate is the quotient of two of them). *)
Definition mno_get_stats (listing : list str) : MS (Z * Z * Z * Z * Z) :=
  s ← get;
  let count st := len (List.filter (λ r, bool_decide (dl_status r = lit st)) (history s)) in
  mret (len (List.filter (λ f, endswith f ".der") listing), store_len (rss s), len (history s),
        count "success", count "failed").
End server.
