(* ===== verification/SmdppProps.v ===== *)
(** Properties of the SM-DP+ handlers: what each one checks before it
    changes anything, what it leaves alone, and an invariant of the sessions
    over any sequence of requests. *)

From S2P Require Import Prelude Osmocom Crypto Base64 Utils Bsp X509 Esim Rsp Es8p Eid Smdpp.

(** ** Following a handler step by step *)

Lemma lift_step {S A B} (x : result A) (f : A → M S B) s r s' :
  (lift x ≫= f) s = (r, s') →
  (∃ e, x = Err e ∧ r = Err e ∧ s' = s) ∨ (∃ a, x = Ok a ∧ f a s = (r, s')).
Proof. rewrite M_bind_eq. unfold lift. destruct x; [|intros [= <- <-]]; eauto. Qed.

Lemma get_step {S B} (f : S → M S B) s r s' : (get ≫= f) s = (r, s') → f s s = (r, s').
Proof. done. Qed.

Lemma modify_step {S B} (g : S → S) (f : unit → M S B) s r s' :
  (modify g ≫= f) s = (r, s') → f () (g s) = (r, s').
Proof. done. Qed.

Lemma zoom_step {S T A B} (g : S → T) p (m : M T A) (f : A → M S B) s r s' :
  (zoom g p m ≫= f) s = (r, s') →
  ∃ q t, m (g s) = (q, t) ∧
    match q with Ok a => f a (p t s) = (r, s') | Err e => r = Err e ∧ s' = p t s end.
Proof.
  rewrite M_bind_eq. unfold zoom. destruct (m (g s)) as [[a|e] t]; intros E; do 2 eexists; (split; [done|]);
    [done|by injection E as <- <-].
Qed.

Lemma lift_end {S A} (x : result A) (s : S) r s' : lift x s = (r, s') → r = x ∧ s' = s.
Proof. unfold lift. by intros [= <- <-]. Qed.

Lemma guard_ok b e : guard_else b e = Ok () ↔ b = true.
Proof. destruct b; naive_solver. Qed.

(** Take the next step of the handler run [E]; [tac] closes the branch where
    it raises. *)
Ltac hstep E tac :=
  lazymatch type of E with
  | (lift _ ≫= _) _ = _ =>
      let H := fresh "Hl" in
      apply lift_step in E as [(? & H & ? & ?)|(? & H & E)]; [subst; tac|]
  | (get ≫= _) _ = _ => apply get_step in E
  | (modify _ ≫= _) _ = _ => apply modify_step in E
  | (api_guard _ _ _ ≫= _) _ = _ => unfold api_guard at 1 in E
  | (session_of _ ≫= _) _ = _ =>
      let H := fresh "Hs" in
      apply (lift_step (store_get _ _)) in E as [(? & H & ? & ?)|(? & H & E)]; [subst; tac|]
  end.

Section props.
Context `{OsmocomUtils, OsmocomTlv, Cryptodome, X509Laws, EcLaws, RspAsn1, !CertExt, SmdppAsn1, ProfileCodec, OsPath}.
Implicit Types (s : SmDppHttpServer) (c : gmap str str) (ss : RspSessionState).

(** The session known under a transaction identifier. *)
Definition known s (tid : str) ss : Prop := store_get (rss s) tid = Ok (Some ss).

(** What must hold for a profile to be offered to an eUICC: the answer it
    sent decodes to a response whose certificates chain to the CI the session
    was started with, whose signature covers the exact bytes of the answer,
    whose EID the EUM may issue, and which echoes the session's challenge;
    and the matching ID names a readable file. *)
Record authenticated s c (tid : str) ss ss' : Prop := {
  au_tid : c !! lit "transactionId" = Some tid;
  au_known : known s tid ss;
  au_witness : ∃ text bin signed1 sig euicc_v eum_v signed1_bin euicc_b eum_b euicc eum ci e m iccid md sig2,
    c !! lit "authenticateServerResponse" = Some text ∧ b64decode text = Ok bin
    ∧ dec_authenticate_server_response bin = Ok (inr (signed1, sig, euicc_v, eum_v))
    ∧ extract_euiccSigned1 bin = Ok signed1_bin
    ∧ enc_certificate euicc_v = Ok euicc_b ∧ load_der_x509_certificate euicc_b = Ok euicc
    ∧ enc_certificate eum_v = Ok eum_b ∧ load_der_x509_certificate eum_b = Ok eum
    ∧ cert_get_auth_key_id eum = Ok (ci_cert_id ss)
    ∧ ci_get_cert_for_pkid s (ci_cert_id ss) = Ok ci ∧ verify_euicc_chain ci eum euicc = Ok ()
    ∧ _ecdsa_verify (Some euicc) sig signed1_bin = Ok true
    ∧ head (subject_serial_numbers euicc) = Some e ∧ validate_eid_range e eum = true
    ∧ es1_serverChallenge signed1 = serverChallenge ss
    ∧ select_profile s (ctxParams1 signed1) = Ok (m, iccid)
    ∧ ss' = set_selected e m md sig2 (set_certs euicc eum ss);
}.

Lemma chain_api ci eum euicc : verify_euicc_chain_api ci eum euicc = Ok () → verify_euicc_chain ci eum euicc = Ok ().
Proof.
  unfold verify_euicc_chain_api, verify_euicc_chain. destruct ci as [root|]; mrun; [|done].
  destruct (certset_init root) as [cs|]; mrun; [|done].
  destruct (add_intermediate_cert eum cs) as [cs'|]; mrun; [|done].
  destruct (verify_cert_chain _ _ _) as [[]|[]]; try done.
Qed.

Lemma decode_or_api_ok {A} (r : result A) a : decode_or_api r = Ok a → r = Ok a.
Proof. by destruct r. Qed.

Lemma idx_head {A} (l : list A) a : idx l 0 = Ok a → head l = Some a.
Proof. destruct l; cbn; [done|]. by intros [= <-]. Qed.

(** Bring the facts collected along a run into a usable form. *)
Ltac facts :=
  repeat match goal with
  | H : from_opt _ _ = Ok _ |- _ => apply from_opt_ok in H
  | H : member _ _ = Ok _ |- _ => unfold member in H
  | H : guard_else _ _ = Ok ?u |- _ => destruct u; apply guard_ok in H
  | H : bool_decide _ = true |- _ => apply bool_decide_eq_true in H
  | H : (match ?x with inl _ => _ | inr _ => _ end) = Ok _ |- _ => destruct x; try discriminate H
  | H : Ok _ = Ok _ |- _ => injection H as H
  | H : inr _ = inr _ |- _ => injection H as H
  end; subst.

(** Run a handler to its end. *)
Ltac hrun E tac :=
  repeat first
    [ progress hstep E tac
    | match type of E with
      | (match ?x with _ => _ end) _ = _ => destruct x; try discriminate E
      end ].

(** C4: authenticateClient answers with a profile only to an eUICC that
    passed every check, and then stores the session it has extended under the
    request's own transaction identifier and changes nothing else; a request
    it rejects leaves the server as it was. *)
Theorem authenticateClient_spec s c :
  is_Some (cert (dp_pb s)) →
  match authenticateClient c s with
  | (Ok _, s') => ∃ tid ss ss', authenticated s c tid ss ss' ∧ s' = with_rss (λ r, store_set r tid ss') s
  | (Err _, s') => s' = s
  end.
Proof.
  intros [pbc Hpb]. destruct (authenticateClient c s) as [r s'] eqn:E. unfold authenticateClient in E.
  hrun E ltac:(done). facts. match goal with H : verify_euicc_chain_api _ _ _ = Ok ?u |- _ => destruct u end.
  unfold get_cert_as_der in E. rewrite Hpb in E. revert E. mrun. intros [= <- <-].
  match goal with H : decode_or_api _ = _ |- _ => apply decode_or_api_ok in H end.
  match goal with H : idx _ 0 = Ok _ |- _ => apply idx_head in H end.
  match goal with H : verify_euicc_chain_api _ _ _ = _ |- _ => apply chain_api in H end.
  do 3 eexists. split; [|reflexivity]. split; [eassumption|eassumption|].
  do 17 eexists. by split_and!.
Qed.
(** ** Binding *)

(** The eUICC of the session signed the request: its signature covers
    euiccSigned2 as sent and the signature the server had sent before, and
    names the transaction. *)
Record signed_request s c (tid : str) ss : Prop := {
  sr_tid : c !! lit "transactionId" = Some tid;
  sr_known : known s tid ss;
  sr_signed : ∃ text bin signed2 sig signed2_bin sig2 tid_b,
    c !! lit "prepareDownloadResponse" = Some text ∧ b64decode text = Ok bin
    ∧ dec_prepare_download_response bin = Ok (inr (signed2, sig))
    ∧ extract_euiccSigned2 bin = Ok signed2_bin
    ∧ smdpSignature2_do ss = Some sig2
    ∧ _ecdsa_verify (euicc_cert ss) sig (signed2_bin ++ sig2) = Ok true
    ∧ h2b tid = Ok tid_b ∧ es2_transactionId signed2 = tid_b;
}.

(** C5: getBoundProfilePackage either fails and leaves sessions and history as
    they were, or the request carries a valid signature of the session's
    eUICC for this transaction; then one record is added to the history, and
    no session but the request's own is changed. *)
Theorem getBoundProfilePackage_spec s c key now :
  let '(r, s') := getBoundProfilePackage key now c s in
  ((∃ e, r = Err e) ∧ rss s' = rss s ∧ history s' = history s)
  ∨ ∃ tid ss d otpk secret,
      signed_request s c tid ss ∧ history s' = history s ++ [d] ∧ dl_transaction_id d = tid
      ∧ dl_status d = lit "bpp_sent" ∧ dl_eid d = eid ss
      ∧ match r with
        | Ok _ => rss s' = store_set (rss s) tid (set_bound otpk key mahlzeit secret ss)
        | Err _ => rss s' = rss s ∨ rss s' = store_set (rss s) tid (set_bound otpk key mahlzeit secret ss)
        end.
Proof.
  destruct (getBoundProfilePackage key now c s) as [r s'] eqn:E. unfold getBoundProfilePackage in E.
  hrun E ltac:(left; eauto). facts. right.
  match goal with H : smdpSignature2_do ?ss = Some _, _ : exchange key _ = Ok ?secret |- _ =>
    exists x, ss; eexists _, (es2_euiccOtpk e), secret end.
  split; [split; [eassumption|eassumption|do 7 eexists; by split_and!]|].
  unfold on_upp_class at 1 in E. apply zoom_step in E as (q & t & Ez & E). injection Ez as <- <-.
  unfold record_download in E. apply modify_step in E.
  unfold on_upp_class at 1 in E. apply zoom_step in E as (q & t & Ez & E).
  destruct q as [[ppp b]|]; [|destruct E as [-> ->]; cbn; by split_and!; [..|left]].
  apply modify_step in E. apply zoom_step in E as (q & t' & Ez' & E).
  destruct q as [[bin b']|].
  - injection E as <- <-. cbn. by split_and!.
  - destruct E as [-> ->]. cbn. by split_and!; [..|right].
Qed.

(** ** The other handlers *)


(** ** Reachable servers *)

(** What holds of a session stored under [k]. *)
Definition session_inv (k : str) ss : Prop :=
  transactionId ss = k ∧ str_upper k = k
  ∧ (is_Some (smdpSignature2_do ss) →
       is_Some (euicc_cert ss) ∧ is_Some (eum_cert ss) ∧ is_Some (eid ss) ∧ is_Some (profileMetadata ss)
       ∧ is_Some (matchingId ss))
  ∧ (is_Some (shared_secret ss) →
       is_Some (smdpSignature2_do ss) ∧ is_Some (smdp_ot ss) ∧ is_Some (smdp_otpk ss) ∧ is_Some (host_id ss)
       ∧ is_Some (euicc_otpk ss)).

Definition server_inv s : Prop :=
  ∀ k d, rss s !! k = Some d → ∃ ss, d = __getstate__ ss ∧ session_inv k ss.

(** What a request may do to the sessions. *)
Inductive effect s : RspSessionStore → Prop :=
| eff_none : effect s (rss s)
| eff_new k ss : rss s !! k = None → session_inv k ss → effect s (store_set (rss s) k ss)
| eff_set k ss ss' : known s k ss → (session_inv k ss → session_inv k ss') → effect s (store_set (rss s) k ss')
| eff_del k : effect s (delete k (rss s)).

Lemma effect_inv s s' : server_inv s → effect s (rss s') → server_inv s'.
Proof.
  intros Hi He k d. destruct He as [|k' ss Hn Hss|k' ss ss' Hk Hss|k'].
  - apply Hi.
  - unfold store_set, RspSessionStore in *. destruct (decide (k' = k)) as [->|].
    + rewrite lookup_insert_eq. intros [= <-]. eauto.
    + rewrite lookup_insert_ne by done. apply Hi.
  - unfold store_set, RspSessionStore in *. destruct (decide (k' = k)) as [->|].
    + rewrite lookup_insert_eq. intros [= <-]. exists ss'. split; [done|]. apply Hss.
      unfold known, store_get in Hk. destruct (rss s !! k) as [d'|] eqn:E; [|done].
      destruct (Hi k d' E) as (ss0 & -> & Hinv). rewrite pickle_ok in Hk. by injection Hk as <-.
    + rewrite lookup_insert_ne by done. apply Hi.
  - unfold RspSessionStore in *. destruct (decide (k' = k)) as [->|].
    + by rewrite lookup_delete_eq.
    + rewrite lookup_delete_ne by done. apply Hi.
Qed.

Lemma initiate_effect s u ch c : effect s (rss (initiateAuthentication u ch c s).2).
Proof.
  destruct (initiateAuthentication u ch c s) as [r s'] eqn:E. cbn [snd]. unfold initiateAuthentication in E.
  hrun E ltac:(by constructor).
  match type of E with ((?g ≫= ?f) _ = _) =>
    assert (g s = (Ok (), s) ∨ ∃ e, g s = (Err e, s)) as Hg end.
  { case_bool_decide; [by left|]. unfold api_guard, lift. rewrite M_bind_eq.
    destruct (validate_certificate_chain_for_verification _ _) as [[]|]; cbn; eauto. }
  rewrite M_bind_eq in E. destruct Hg as [Hg|[e Hg]]; rewrite Hg in E.
  2: { injection E as <- <-. constructor. }
  hrun E ltac:(by constructor). injection E as <- <-. cbn [with_rss rss]. facts.
  match goal with H : assert_ _ = Ok _ |- _ => unfold assert_ in H end. facts.
  apply eff_new.
  - match goal with H : negb _ = true |- _ => apply negb_true_iff, bool_decide_eq_false in H; rename H into Hn end.
    destruct (rss s !! str_upper u); [|done]. exfalso. by apply Hn.
  - split; [done|]. split; [apply upper_idem|]. split; cbn; by intros [].
Qed.

Lemma authenticate_effect s c : effect s (rss (authenticateClient c s).2).
Proof.
  destruct (authenticateClient c s) as [r s'] eqn:E. cbn [snd]. unfold authenticateClient in E.
  hrun E ltac:(by constructor). facts.
  assert (rss s' = store_set (rss s) x (set_selected x16 l0 (session_metadata s x19 l0)
            (signature_do x23) (set_certs x6 x7 x9))) as ->.
  { destruct (get_cert_as_der (dp_pb s)); by injection E as <- <-. }
  apply (eff_set s x x9); [done|]. intros (Ht & Hu & Hs2 & Hs3). split; [done|]. split; [done|]. cbn. split; [intros _; split_and!; by eexists|].
  intros Hsh. destruct (Hs3 Hsh) as (_ & ? & ? & ? & ?). split_and!; [by eexists|done..].
Qed.

Lemma bind_effect s c key now : effect s (rss (getBoundProfilePackage key now c s).2).
Proof.
  destruct (getBoundProfilePackage key now c s) as [r s'] eqn:E. cbn [snd]. unfold getBoundProfilePackage in E.
  hrun E ltac:(by constructor). facts.
  match goal with H : smdpSignature2_do ?ss = Some _, _ : exchange key _ = Ok ?secret |- _ =>
    assert (rss s' = rss s ∨ rss s' = store_set (rss s) x (set_bound (es2_euiccOtpk e) key mahlzeit secret ss)) as Hr
  end.
  { apply zoom_step in E as (q & t & Ez & E). injection Ez as <- <-.
    apply modify_step, zoom_step in E as (q & t & Ez & E).
    destruct q as [[ppp b]|]; [|destruct E as [-> ->]; by left].
    apply modify_step, zoom_step in E as (q & t' & Ez' & E).
    destruct q as [[bin b']|]; [injection E as <- <-|destruct E as [-> ->]]; by right. }
  destruct Hr as [-> | ->]; [constructor|]. apply (eff_set s x x1); [done|].
  intros (Ht & Hu & Hs2 & Hs3). split; [done|]. split; [done|]. cbn. split; [done|]. intros _. split_and!; by eexists.
Qed.

Lemma notify_effect s c : effect s (rss (handleNotification c s).2).
Proof.
  destruct (handleNotification c s) as [r s'] eqn:E. cbn [snd]. unfold handleNotification in E.
  do 3 (hstep E ltac:(by constructor)). destruct x1 as [[[pird sig]|[[[tbs sig] ev] mv]]|].
  - hstep E ltac:(by constructor). destruct x1 as [ss|]; [|injection E as <- <-; by constructor].
    hstep E ltac:(by constructor). hstep E ltac:(by constructor). destruct x2; cbn [negb] in E.
    2: { apply modify_step in E. injection E as <- <-. exact (eff_none s). }
    apply modify_step in E. unfold del_session in E. rewrite M_bind_eq, M_bind_eq in E. cbn [get] in E.
    rewrite M_bind_eq in E. unfold lift at 1 in E. unfold store_del in E.
    destruct (store_contains _ _); injection E as <- <-; [exact (eff_del s _)|exact (eff_none s)].
  - hrun E ltac:(by constructor). injection E as <- <-. constructor.
  - injection E as <- <-. constructor.
Qed.

Lemma cancel_effect s c : effect s (rss (cancelSession c s).2).
Proof.
  destruct (cancelSession c s) as [r s'] eqn:E. cbn [snd]. unfold cancelSession in E.
  hrun E ltac:(by constructor).
  - injection E as <- <-. constructor.
  - unfold del_session in E. rewrite M_bind_eq, M_bind_eq in E. cbn [get] in E.
    rewrite M_bind_eq in E. unfold lift at 1 in E. unfold store_del in E.
    destruct (store_contains _ _); injection E as <- <-; [exact (eff_del s _)|exact (eff_none s)].
Qed.

(** One request, with whatever fresh values the server draws for it. *)
Inductive step s : SmDppHttpServer → Prop :=
| step_initiate u ch r : step s (serve (initiateAuthentication u ch) r s).2
| step_authenticate r : step s (serve authenticateClient r s).2
| step_bind key now r : step s (serve (getBoundProfilePackage key now) r s).2
| step_notify r : step s (serve handleNotification r s).2
| step_cancel r : step s (serve cancelSession r s).2
| step_upload name content : step s (mno_upload_profile name content s).2
| step_delete name : step s (mno_delete_profile name s).2.

(** The servers a freshly started one can become. *)
Inductive reachable : SmDppHttpServer → Prop :=
| reach_start s : rss s = ∅ → reachable s
| reach_step s s' : reachable s → step s s' → reachable s'.

Lemma serve_state (h : gmap str str → M SmDppHttpServer (option (gmap str str))) r s :
  (serve h r s).2 = s ∨ (serve h r s).2 = (h (req_content r) s).2.
Proof.
  unfold serve. rewrite M_bind_eq. unfold lift. destruct (validate_request_headers r) as [[]|[]]; [|by left..].
  destruct (h (req_content r) s) as [[[]|[]] s']; by right.
Qed.

Lemma step_effect s s' : step s s' → effect s (rss s').
Proof.
  assert (∀ h r, (∀ c, effect s (rss (h c s).2)) → effect s (rss (serve h r s).2)) as Hserve.
  { intros h r Hh. destruct (serve_state h r s) as [-> | ->]; [constructor|apply Hh]. }
  destruct 1 as [u ch r|r|key now r|r|r|name content|name].
  - apply Hserve. intros. apply initiate_effect.
  - apply Hserve. intros. apply authenticate_effect.
  - apply Hserve. intros. apply bind_effect.
  - apply Hserve. intros. apply notify_effect.
  - apply Hserve. intros. apply cancel_effect.
  - unfold mno_upload_profile. destruct name as [[|c f]|]; [constructor| |constructor].
    destruct (endswith _ _); exact (eff_none s).
  - unfold mno_delete_profile. rewrite M_bind_eq. cbn [get]. destruct (bool_decide _); exact (eff_none s).
Qed.

Lemma reachable_inv s : reachable s → server_inv s.
Proof.
  induction 1 as [s Hs|s s' _ IH Hstep].
  - intros k' d'. unfold RspSessionStore in *. by rewrite Hs, lookup_empty.
  - by apply (effect_inv s), step_effect.
Qed.

(** C2: whatever requests a server has answered, every session in its store
    can be loaded, carries the identifier it is stored under, has the eUICC's
    certificates, EID, metadata and profile from the moment the server signed
    the profile offer, and has an ECDH secret only after that offer. *)
Theorem sessions_invariant s k d :
  reachable s → rss s !! k = Some d →
  ∃ ss, store_get (rss s) k = Ok (Some ss) ∧ session_inv k ss.
Proof.
  intros Hi%reachable_inv Hd. destruct (Hi k d Hd) as (ss & -> & Hinv). exists ss. split; [|done].
  unfold store_get. by rewrite Hd, pickle_ok.
Qed.

(** A profile installation result is lost when its transaction identifier
    contains one of the digits A to F: sessions are stored under upper-case
    identifiers, the result is looked up under the lower-case one. The
    handler answers as if all was well and changes nothing, so the session is
    never removed and the download history never updated. *)
Theorem installation_result_lost s c text bin pird sig :
  reachable s →
  c !! lit "pendingNotification" = Some text → b64decode text = Ok bin →
  dec_pending_notification bin = Ok (inl (inl (pird, sig))) →
  str_upper (b2h (pird_transactionId pird)) ≠ b2h (pird_transactionId pird) →
  handleNotification c s = (Ok None, s).
Proof.
  intros Hi%reachable_inv Ht Hb Hd Hu. unfold handleNotification, member. rewrite Ht. mrun. rewrite Hb. mrun.
  rewrite Hd. mrun. unfold session_of. mrun. unfold store_get.
  destruct (rss s !! b2h (pird_transactionId pird)) as [d|] eqn:E; [|done].
  exfalso. destruct (Hi _ _ E) as (ss & _ & _ & Hup & _). done.
Qed.

(** A request to bind a profile in a session that has not been
    authenticated is not answered with an API error: the missing server
    signature is concatenated first, which raises TypeError; nothing is
    changed. *)
Theorem bind_unauthenticated s c key now tid ss text bin r b :
  c !! lit "transactionId" = Some tid → known s tid ss → smdpSignature2_do ss = None →
  c !! lit "prepareDownloadResponse" = Some text → b64decode text = Ok bin →
  dec_prepare_download_response bin = Ok (inr r) → extract_euiccSigned2 bin = Ok b →
  getBoundProfilePackage key now c s = (Err TypeError, s).
Proof.
  intros Ht Hk Hn Hp Hb Hd Hx. unfold getBoundProfilePackage, member. rewrite Ht. mrun.
  unfold session_of. mrun. unfold known in Hk. rewrite Hk. mrun. rewrite Hp. mrun. rewrite Hb. mrun.
  rewrite Hd. mrun. destruct r as [s2 sg]. rewrite Hx. mrun. by rewrite Hn.
Qed.

(** InitiateAuthentication compares the server address with case, which
    the comment above it excludes: any other spelling is refused, and
    nothing is changed. *)
Theorem address_case_sensitive s c u ch addr :
  c !! lit "smdpAddress" = Some addr → split_on ":" addr = [addr] → addr ≠ server_hostname s →
  str_lower addr = str_lower (server_hostname s) →
  initiateAuthentication u ch c s = (Err (ApiError "8.8.1" "3.8"), s).
Proof.
  intros Hc Hs Hne _. unfold initiateAuthentication, member. rewrite Hc. mrun. rewrite Hs. mrun.
  unfold api_guard. change (idx [addr] 0) with (Ok addr : result str). mrun. by rewrite bool_decide_false.
Qed.
End props.

(** ** A concrete server, and a whole download *)

Module SmdppRun.
Import RefX509 RefEc RefAsn1.
#[local] Existing Instance Ref.utils.
#[local] Existing Instance Ref.utils_laws.
#[local] Existing Instance Ref.tlv.
#[local] Existing Instance RefCrypto.crypto.

Definition the_eid : str := "89049032123451234512345678901235".

#[local] Instance ext : CertExt := {
  policy_oids _ := Ok [lit "2.23.146.1.2.1.2"];
  raw_extensions _ := Ok [];
  decode_permitted_eins _ := Err ValueError;
  name_constraints _ := Ok (Some [None; Some [(lit "2.5.4.10", lit "Maker"); (SERIAL_NUMBER, lit "89049032")]]);
  subject_serial_numbers _ := [the_eid];
  subject_alt_name_oid _ := Ok (lit "2.999.10");
}.

(** The two inner TLVs of a response: body of the SEQUENCE and what follows. *)
Definition inner (bin : bytes) : result (bytes * bytes) :=
  '(_, _, v, _) ← Ref.parse_raw bin;
  '(_, _, v1, _) ← Ref.parse_raw v;
  '(_, _, body, rest) ← Ref.parse_raw v1;
  Ok (body, rest).

Definition response_bin (tag : Z) (body rest : bytes) : bytes := Rsp.tlv tag (Rsp.tlv 160 (Rsp.tlv 48 body ++ rest)).

(** Bodies: challenge and matching ID; transaction and one-time key. *)
#[local] Instance asn : SmdppAsn1 := {
  CertVal := Z;
  enc_certificate n := Ok [n];
  dec_euicc_info1 b := Ok (mkInfo1 (map (λ x, [x]) b) None None);
  enc_server_signed1 m := Ok (ss1_transactionId m ++ ss1_euiccChallenge m ++ ss1_serverChallenge m);
  dec_authenticate_server_response bin :=
    '(body, rest) ← inner bin;
    e ← idx rest 64; m ← idx rest 65;
    Ok (inr (mkEuiccSigned1 (take 16 body) (ctxParamsForCommonAuthentication (Some (chars (drop 16 body)))),
             take 64 rest, e, m));
  enc_smdp_signed2 t := Ok t;
  dec_prepare_download_response bin :=
    '(body, rest) ← inner bin;
    Ok (inr (mkEuiccSigned2 (take 16 body) (drop 16 body), take 64 rest));
  dec_cancel_session_response bin := Ok (inr ((take 16 bin, lit "2.999.10"), drop 16 bin));
  enc_cancel_session_signed p := Ok p.1;
  Pird := bytes;
  pird_transactionId b := b;
  pird_success _ := true;
  pird_final_result _ := lit "success";
  enc_pird b := Ok b;
  TbsNotification := bytes;
  tbs_pmo _ := ([128], 1);
  enc_tbs b := Ok b;
  dec_pending_notification bin := Ok (inl (inl (take 16 bin, drop 16 bin)));
}.

#[local] Instance codec : ProfileCodec := { header_iccid b := Ok (take 10 b) }.
#[local] Instance os : OsPath := { realpath p := p }.

Definition crt := X509Run.crt.
Definition key5 : EcPriv := 5%positive.
Definition server0 : SmDppHttpServer :=
  mkServer (lit "smdp.example.com") (lit "/data/upp") [crt 0]
    (mkCertKey None (Some (crt 2)) (Some (2 : PrivateKey))) (mkCertKey None (Some (crt 3)) (Some (3 : PrivateKey)))
    ∅ [] {[ lit "/data/upp/TS48.der" := replicate 12 137 ]} None.

Definition challenge : bytes := replicate 16 7.
Definition tid : str := "00112233445566778899AABBCCDDEEFF".
Definition tid_bytes : bytes := [0; 17; 34; 51; 68; 85; 102; 119; 136; 153; 170; 187; 204; 221; 238; 255].

(** The signature key [k] makes over [d], in the raw format. *)
Definition raw_sig (k : Z) (d : bytes) : bytes := be 32 k ++ be 32 (foldr Z.add 0 d).

Definition req1 : gmap str str := list_to_map
  [(lit "smdpAddress", lit "smdp.example.com:8443"); (lit "euiccChallenge", b64encode (replicate 16 1));
   (lit "euiccInfo1", b64encode [5; 0])].

(** The eUICC's certificate is number 12, issued by EUM 1. *)
Definition signed1_body : bytes := challenge ++ codes (lit "TS48").
Definition req2 : gmap str str := list_to_map
  [(lit "transactionId", tid);
   (lit "authenticateServerResponse",
    b64encode (response_bin 48952 signed1_body (raw_sig 12 (Rsp.tlv 48 signed1_body) ++ [12; 1])))].

Definition sig2_do : bytes := signature_do (raw_sig 3 (tid_bytes ++ signature_do (raw_sig 12 (Rsp.tlv 48 signed1_body)))).
Definition signed2_body : bytes := tid_bytes ++ be 8 3.
Definition req3 : gmap str str := list_to_map
  [(lit "transactionId", tid);
   (lit "prepareDownloadResponse",
    b64encode (response_bin 48929 signed2_body (raw_sig 12 (Rsp.tlv 48 signed2_body ++ sig2_do))))].

Definition notification : gmap str str := list_to_map
  [(lit "pendingNotification", b64encode (tid_bytes ++ raw_sig 12 tid_bytes))].
Definition req4 : gmap str str := list_to_map
  [(lit "transactionId", tid); (lit "cancelSessionResponse", b64encode (tid_bytes ++ raw_sig 12 tid_bytes))].

Definition js (c : gmap str str) : request := mkRequest (Some (lit "application/json;charset=UTF-8")) None c.

Definition s1 : SmDppHttpServer := (serve (initiateAuthentication (lit "00112233445566778899aabbccddeeff") challenge) (js req1) server0).2.
Definition s2 : SmDppHttpServer := (serve authenticateClient (js req2) s1).2.
Definition s3 : SmDppHttpServer := (serve (getBoundProfilePackage key5 (lit "now")) (js req3) s2).2.

Definition is_success (r : response) : bool := match r with Success _ => true | _ => false end.

(** All three requests succeed. *)
Example download_succeeds :
  map is_success
    [(serve (initiateAuthentication (lit "00112233445566778899aabbccddeeff") challenge) (js req1) server0).1;
     (serve authenticateClient (js req2) s1).1;
     (serve (getBoundProfilePackage key5 (lit "now")) (js req3) s2).1;
     (serve cancelSession (js req4) s3).1]
  = [true; true; true; true].
Proof. vm_compute. reflexivity. Qed.

Lemma reachable_s3 : reachable s1 ∧ reachable s3.
Proof.
  assert (reachable s1) as H1.
  { refine (reach_step server0 s1 (reach_start server0 eq_refl) _). unfold s1. apply step_initiate. }
  split; [exact H1|].
  refine (reach_step s2 s3 (reach_step s1 s2 H1 _) _); [unfold s2; apply step_authenticate|unfold s3; apply step_bind].
Qed.

Lemma authenticateClient_spec_witness :
  ∃ tid ss ss', authenticated s1 req2 tid ss ss'
    ∧ (authenticateClient req2 s1).2 = with_rss (λ r, store_set r tid ss') s1.
Proof.
  assert (is_Some (cert (dp_pb s1))) as Hpb by (vm_compute; by eexists).
  assert (match (authenticateClient req2 s1).1 with Ok _ => true | Err _ => false end = true) as Hr
    by (vm_compute; reflexivity).
  pose proof (authenticateClient_spec s1 req2 Hpb) as Hs. revert Hs Hr.
  generalize (authenticateClient req2 s1). intros [[r|e] s'] Hs Hr; [exact Hs|discriminate Hr].
Defined.

Lemma sessions_invariant_witness : ∃ ss, store_get (rss s3) tid = Ok (Some ss) ∧ session_inv tid ss.
Proof.
  assert (match rss s3 !! tid with Some _ => true | None => false end = true) as Hr by (vm_compute; reflexivity).
  pose proof (λ d, sessions_invariant s3 tid d (proj2 reachable_s3)) as Hi. revert Hr Hi.
  generalize (rss s3 !! tid) as o. intros [d|] Hr Hi; [exact (Hi d eq_refl)|discriminate Hr].
Defined.

Lemma installation_result_lost_witness : handleNotification notification s3 = (Ok None, s3).
Proof.
  apply (installation_result_lost s3 notification (b64encode (tid_bytes ++ raw_sig 12 tid_bytes))
           (tid_bytes ++ raw_sig 12 tid_bytes) (tid_bytes : @Pird asn) (raw_sig 12 tid_bytes)).
  - apply reachable_s3.
  - vm_compute. reflexivity.
  - vm_compute. reflexivity.
  - vm_compute. reflexivity.
  - vm_compute. discriminate.
Defined.

Lemma bind_unauthenticated_witness :
  getBoundProfilePackage key5 (lit "now") req3 s1 = (Err TypeError, s1).
Proof.
  set (bin := response_bin 48929 signed2_body (raw_sig 12 (Rsp.tlv 48 signed2_body ++ sig2_do))).
  assert (∃ ss, known s1 tid ss ∧ smdpSignature2_do ss = None) as (ss & Hk & Hn).
  { assert (match rss s1 !! tid with
            | Some d => match smdpSignature2_do (st_attrs d) with None => true | _ => false end
            | None => false end = true) as Hr by (vm_compute; reflexivity).
    pose proof (reachable_inv s1 (proj1 reachable_s3) tid) as Hi. unfold known, store_get. revert Hr Hi.
    generalize (rss s1 !! tid) as o. intros [d|] Hr Hi; [|discriminate Hr].
    destruct (Hi d eq_refl) as (ss & -> & _). exists ss. rewrite pickle_ok. split; [reflexivity|].
    cbn in Hr. by destruct (smdpSignature2_do ss). }
  apply (bind_unauthenticated s1 req3 key5 (lit "now") tid ss (b64encode bin) bin
           (mkEuiccSigned2 tid_bytes (be 8 3), raw_sig 12 (Rsp.tlv 48 signed2_body ++ sig2_do))
           (Rsp.tlv 48 signed2_body) ltac:(vm_compute; reflexivity) Hk Hn);
    vm_compute; reflexivity.
Defined.

Definition shouting : gmap str str := {[ lit "smdpAddress" := lit "SMDP.example.com" ]}.

Lemma address_case_sensitive_witness :
  initiateAuthentication (lit "00") challenge shouting server0 = (Err (ApiError "8.8.1" "3.8"), server0).
Proof. apply (address_case_sensitive server0 shouting (lit "00") challenge (lit "SMDP.example.com")); by vm_compute. Defined.

(** The guard of the profile directory compares characters, not path
    components: with a sibling directory whose name starts with the
    directory's own, a matching ID that climbs out of it is accepted. *)
#[local] Instance os_links : OsPath := {
  realpath p := if bool_decide (p = lit "/data/upp/../upp-private/x.der") then lit "/data/upp-private/x.der" else p }.
Definition server_private : SmDppHttpServer :=
  mkServer (lit "smdp.example.com") (lit "/data/upp") [] (mkCertKey None None None) (mkCertKey None None None)
    ∅ [] {[ lit "/data/upp-private/x.der" := replicate 12 137 ]} None.

Lemma sibling_directory_reached :
  select_profile server_private
    (ctxParamsForCommonAuthentication (Some (lit "../upp-private/x")))
  = Ok (lit "../upp-private/x", bytes_hex (replicate 10 137)).
Proof. vm_compute. reflexivity. Qed.
End SmdppRun.
