(* ===== verification/Construct.v ===== *)
(** The declarations of binary formats the code writes for the construct
    library ([Struct], [Enum], [Bytes(this.length)], ...), as data, and the
    library's parser and builder as an interface: a class with one operation
    each and the documented equations of the combinators the code uses. The
    general theorem [con_round_trip] says which declarations parse what they
    build; the module [RefConstruct] has an interpreter with these laws, for
    the concrete runs. *)

From S2P Require Import Prelude.

(** ** Values: what a declaration parses to, and is built from *)

Inductive value :=
| VNone
| VInt (n : Z)
| VBool (b : bool)
| VBytes (b : bytes)
| VStr (s : str)
| VList (l : list value)
| VDict (d : list (string * value)).

Abbreviation dict := (list (string * value)).

Fixpoint dict_get (k : string) (d : dict) : option value :=
  match d with
  | [] => None
  | (k', v) :: d' => if String.eqb k k' then Some v else dict_get k d'
  end.

(** [d[k] = v]: the entry keeps its place when the key is there. *)
Fixpoint dict_set (k : string) (v : value) (d : dict) : dict :=
  match d with
  | [] => [(k, v)]
  | (k', v') :: d' => if String.eqb k k' then (k', v) :: d' else (k', v') :: dict_set k v d'
  end.

(** [v[k]] *)
Definition item (v : value) (k : string) : result value :=
  match v with VDict d => from_opt KeyError (dict_get k d) | _ => Err TypeError end.

(** [v == 'name'] *)
Definition is_str (v : value) (s : string) : bool :=
  match v with VStr t => bool_decide (t = lit s) | _ => false end.

Definition truth (v : value) : bool :=
  match v with
  | VNone => false
  | VInt n => truthy n
  | VBool b => b
  | VBytes b => negb (bool_decide (b = []))
  | VStr s => negb (bool_decide (s = []))
  | VList l => negb (len l =? 0)
  | VDict d => negb (len d =? 0)
  end.

Definition as_bytes (v : value) : result bytes := match v with VBytes b => Ok b | _ => Err TypeError end.
Definition as_int (v : value) : result Z := match v with VInt n => Ok n | VBool b => Ok (Z.b2z b) | _ => Err TypeError end.
Definition as_str (v : value) : result str := match v with VStr s => Ok s | _ => Err TypeError end.

(** ** Declarations *)

(** Expressions over the fields read before, as in [this.rhl - 10]. *)
Inductive expr :=
| Num (n : Z)
| This (path : list string)
| Add (a b : expr)
| Sub (a b : expr)
| FloorDiv (a b : expr)
| Mod (a b : expr).

Inductive con :=
| BytesInteger (n : nat)
| BitsInteger (n : nat)
| Flag
| Padding (n : nat)
| Bytes (n : expr)
| GreedyBytes
| Enum (c : con) (names : list (string * Z))
| Struct (fields : list (string * con))
| Bitwise (c : con)
| Prefixed (lengthfield c : con)
| PrefixedArray (countfield c : con)
| GreedyRange (c : con)
| Switch (key : list string) (cases : list (string * con)) (default : con)
| Pass
| Tell
| GreedyInteger
| ConstInt (n : Z) (c : con)
| ConstBytes (b : bytes)
| Computed (v : value)
| Select (a b : con)
| Adapter (name : string) (c : con).

Definition Int8ub : con := BytesInteger 1.
Definition Int16ub : con := BytesInteger 2.
Definition Nibble : con := BitsInteger 4.
Definition Bit : con := BitsInteger 1.
(** [COptional] *)
Definition Optional (c : con) : con := Select c Pass.
Definition BitStruct (fields : list (string * con)) : con := Bitwise (Struct fields).

Declare Scope con_scope.
Delimit Scope con_scope with con.
Notation "k / c" := (k%string, c) (only parsing) : con_scope.

(** Follow a path of keys from the context. *)
Fixpoint path_get (path : list string) (v : value) : option value :=
  match path with
  | [] => Some v
  | k :: path' => match v with VDict d => dict_get k d ≫= path_get path' | _ => None end
  end.

Fixpoint eval (e : expr) (ctx : dict) : option Z :=
  match e with
  | Num n => Some n
  | This p => match path_get p (VDict ctx) with Some (VInt n) => Some n | _ => None end
  | Add a b => x ← eval a ctx; y ← eval b ctx; Some (x + y)
  | Sub a b => x ← eval a ctx; y ← eval b ctx; Some (x - y)
  | FloorDiv a b => x ← eval a ctx; y ← eval b ctx; Some (x / y)
  | Mod a b => x ← eval a ctx; y ← eval b ctx; Some (x mod y)
  end.

(** The case a switch takes; labels are the strings of an enumeration. *)
Fixpoint case_of (s : str) (cases : list (string * con)) (default : con) : con :=
  match cases with
  | [] => default
  | (k, c) :: cases' => if bool_decide (s = lit k) then c else case_of s cases' default
  end.

Definition chosen (key : list string) (cases : list (string * con)) (default : con) (ctx : dict) : con :=
  match path_get key (VDict ctx) with Some (VStr s) => case_of s cases default | _ => default end.

Fixpoint label_of (n : Z) (names : list (string * Z)) : option string :=
  match names with
  | [] => None
  | (s, m) :: names' => if n =? m then Some s else label_of n names'
  end.

Fixpoint number_of (s : str) (names : list (string * Z)) : option Z :=
  match names with
  | [] => None
  | (t, m) :: names' => if bool_decide (s = lit t) then Some m else number_of s names'
  end.

(** Bits: most significant first. *)
Fixpoint bits_of (n : nat) (z : Z) : list Z :=
  match n with O => [] | S n' => bits_of n' (z / 2) ++ [z mod 2] end.
Definition of_bits (bs : list Z) : Z := foldl (λ a b, a * 2 + b) 0 bs.
Definition bytes_to_bits (bs : bytes) : list Z := concat (map (bits_of 8) bs).
Fixpoint bits_to_bytes (n : nat) (bs : list Z) : bytes :=
  match n with O => [] | S n' => of_bits (take 8 bs) :: bits_to_bytes n' (drop 8 bs) end.

(** Static size in units of the stream (bytes, or bits inside [Bitwise]);
    [None] where it depends on the value. *)
Fixpoint size_of (c : con) : option nat :=
  match c with
  | BytesInteger n | BitsInteger n | Padding n => Some n
  | Flag => Some 1%nat
  | Bytes (Num n) => Some (Z.to_nat n)
  | Enum c _ | Adapter _ c | ConstInt _ c => size_of c
  | ConstBytes b => Some (length b)
  | Struct fields =>
      (fix go fs := match fs with
                    | [] => Some 0%nat
                    | (_, c) :: fs' => a ← size_of c; b ← go fs'; Some (a + b)%nat
                    end) fields
  | Bitwise c => n ← size_of c; Some (n / 8)%nat
  | Pass | Tell | Computed _ => Some 0%nat
  | _ => None
  end.

(** ** The library *)

Definition StreamError : exn := LibError "StreamError".
Definition FormatFieldError : exn := LibError "FormatFieldError".
Definition MappingError : exn := LibError "MappingError".
Definition ConstError : exn := LibError "ConstError".
Definition SelectError : exn := LibError "SelectError".

(** [parse c ctx pos bs]: the value at the front of [bs], which stand at
    offset [pos] of the stream, and what is left of [bs]; [ctx] holds the
    fields of the enclosing struct read so far. [build c ctx v]: the bytes
    of [v]; [ctx] holds the fields of the enclosing object. [decode] and
    [encode] are the adapters of osmocom.construct, by name. *)
Class Construct := {
  parse : con → dict → Z → bytes → result (value * bytes);
  build : con → dict → value → result bytes;
  decode : string → value → result value;
  encode : string → value → result value;
}.

(** The fields of a struct one after the other; a field without a name
    leaves no value. *)
Fixpoint parse_fields `{Construct} (fs : list (string * con)) (ctx : dict) (pos : Z) (bs : bytes)
    : result (dict * bytes) :=
  match fs with
  | [] => Ok (ctx, bs)
  | (k, c) :: fs' =>
      '(v, r) ← parse c ctx pos bs;
      parse_fields fs' (if String.eqb k "" then ctx else dict_set k v ctx) (pos + len bs - len r) r
  end.

Fixpoint build_fields `{Construct} (fs : list (string * con)) (d : dict) : result bytes :=
  match fs with
  | [] => Ok []
  | (k, c) :: fs' =>
      b ← build c d (default VNone (dict_get k d));
      bs ← build_fields fs' d;
      Ok (b ++ bs)
  end.

(** As many items as the parser accepts. *)
Fixpoint parse_greedy `{Construct} (fuel : nat) (c : con) (ctx : dict) (pos : Z) (bs : bytes) : list value * bytes :=
  match fuel with
  | O => ([], bs)
  | S f =>
      match parse c ctx pos bs with
      | Ok (v, r) => let '(vs, r') := parse_greedy f c ctx (pos + len bs - len r) r in (v :: vs, r')
      | Err _ => ([], bs)
      end
  end.

Fixpoint parse_items `{Construct} (n : nat) (c : con) (ctx : dict) (pos : Z) (bs : bytes) : result (list value * bytes) :=
  match n with
  | O => Ok ([], bs)
  | S n' =>
      '(v, r) ← parse c ctx pos bs;
      '(vs, r') ← parse_items n' c ctx (pos + len bs - len r) r;
      Ok (v :: vs, r')
  end.

Definition build_items `{Construct} (c : con) (ctx : dict) (vs : list value) : result bytes :=
  l ← map_r (build c ctx) vs; Ok (concat l).

(** [n] units from the stream. *)
Definition read (n : Z) (bs : bytes) : result (bytes * bytes) :=
  if (0 <=? n) && (n <=? len bs) then Ok (take (Z.to_nat n) bs, drop (Z.to_nat n) bs) else Err StreamError.

Definition as_length (v : value) : result Z := match v with VInt n => Ok n | _ => Err StreamError end.

(** The fewest octets for a number, at least one. *)
Definition octets (n : Z) : nat := Z.to_nat (Z.log2 n / 8 + 1).

(** A constant is built from its value or from None. *)
Definition is_const (n : Z) (v : value) : bool := match v with VInt m => m =? n | _ => false end.
Definition const_int_arg (n : Z) (v : value) : bool := match v with VNone => true | _ => is_const n v end.
Definition const_bytes_arg (b : bytes) (v : value) : bool :=
  match v with VNone => true | VBytes c => bool_decide (c = b) | _ => false end.

(** The first alternative that does not fail. *)
Definition select_ok {A} (a b : result A) : result A :=
  match a with Ok x => Ok x | Err _ => match b with Ok y => Ok y | Err _ => Err SelectError end end.

(** The documented behaviour of the combinators. *)
Class ConstructLaws `{Construct} := {
  parse_int n ctx pos bs :
    parse (BytesInteger n) ctx pos bs = ('(x, r) ← read (Z.of_nat n) bs; Ok (VInt (from_bytes x), r));
  build_int n ctx z :
    build (BytesInteger n) ctx (VInt z) =
      if bool_decide (0 <= z < 256 ^ Z.of_nat n) then Ok (be n z) else Err FormatFieldError;
  build_int_none n ctx : ∃ e, build (BytesInteger n) ctx VNone = Err e;
  parse_bits n ctx pos bs :
    parse (BitsInteger n) ctx pos bs = ('(x, r) ← read (Z.of_nat n) bs; Ok (VInt (of_bits x), r));
  build_bits n ctx z :
    build (BitsInteger n) ctx (VInt z) =
      if bool_decide (0 <= z < 2 ^ Z.of_nat n) then Ok (bits_of n z) else Err FormatFieldError;
  parse_flag ctx pos bs :
    parse Flag ctx pos bs = ('(x, r) ← read 1 bs; Ok (VBool (negb (bool_decide (x = [0]))), r));
  build_flag ctx v : build Flag ctx v = Ok [if truth v then 1 else 0];
  parse_padding n ctx pos bs :
    parse (Padding n) ctx pos bs = ('(_, r) ← read (Z.of_nat n) bs; Ok (VNone, r));
  build_padding n ctx v : build (Padding n) ctx v = Ok (replicate n 0);
  parse_bytes e ctx pos bs n :
    eval e ctx = Some n → parse (Bytes e) ctx pos bs = ('(x, r) ← read n bs; Ok (VBytes x, r));
  build_bytes e ctx b n :
    eval e ctx = Some n → build (Bytes e) ctx (VBytes b) = if len b =? n then Ok b else Err StreamError;
  parse_greedy_bytes ctx pos bs : parse GreedyBytes ctx pos bs = Ok (VBytes bs, []);
  build_greedy_bytes ctx b : build GreedyBytes ctx (VBytes b) = Ok b;
  (** an enumeration gives the label of a number it knows and the number
      itself otherwise, and takes both *)
  parse_enum c names ctx pos bs :
    parse (Enum c names) ctx pos bs =
      ('(v, r) ← parse c ctx pos bs;
       n ← as_length v;
       Ok (match label_of n names with Some s => VStr (lit s) | None => VInt n end, r));
  build_enum_label c names ctx s :
    build (Enum c names) ctx (VStr s) =
      match number_of s names with Some n => build c ctx (VInt n) | None => Err MappingError end;
  build_enum_number c names ctx n : build (Enum c names) ctx (VInt n) = build c ctx (VInt n);
  build_enum_none c names ctx : build (Enum c names) ctx VNone = Err MappingError;
  parse_struct fs ctx pos bs :
    parse (Struct fs) ctx pos bs = ('(d, r) ← parse_fields fs [] pos bs; Ok (VDict d, r));
  build_struct fs ctx d : build (Struct fs) ctx (VDict d) = build_fields fs d;
  parse_bitwise c ctx pos bs k :
    size_of c = Some (8 * k)%nat →
    parse (Bitwise c) ctx pos bs =
      ('(x, r) ← read (Z.of_nat k) bs; '(v, _) ← parse c ctx 0 (bytes_to_bits x); Ok (v, r));
  build_bitwise c ctx v k :
    size_of c = Some (8 * k)%nat →
    build (Bitwise c) ctx v = (bs ← build c ctx v; Ok (bits_to_bytes k bs));
  parse_prefixed l c ctx pos bs :
    parse (Prefixed l c) ctx pos bs =
      ('(v, r) ← parse l ctx pos bs;
       n ← as_length v;
       '(x, r) ← read n r;
       '(v, _) ← parse c ctx 0 x;
       Ok (v, r));
  build_prefixed l c ctx v :
    build (Prefixed l c) ctx v = (x ← build c ctx v; n ← build l ctx (VInt (len x)); Ok (n ++ x));
  parse_prefixed_array l c ctx pos bs :
    parse (PrefixedArray l c) ctx pos bs =
      ('(v, r) ← parse l ctx pos bs;
       n ← as_length v;
       '(vs, r') ← parse_items (Z.to_nat n) c ctx (pos + len bs - len r) r;
       Ok (VList vs, r'));
  build_prefixed_array l c ctx vs :
    build (PrefixedArray l c) ctx (VList vs) =
      (n ← build l ctx (VInt (len vs)); x ← build_items c ctx vs; Ok (n ++ x));
  parse_greedy_range c ctx pos bs :
    parse (GreedyRange c) ctx pos bs =
      (let '(vs, r) := parse_greedy (S (length bs)) c ctx pos bs in Ok (VList vs, r));
  build_greedy_range c ctx vs : build (GreedyRange c) ctx (VList vs) = build_items c ctx vs;
  parse_switch key cases d ctx pos bs :
    parse (Switch key cases d) ctx pos bs = parse (chosen key cases d ctx) ctx pos bs;
  build_switch key cases d ctx v :
    build (Switch key cases d) ctx v = build (chosen key cases d ctx) ctx v;
  parse_pass ctx pos bs : parse Pass ctx pos bs = Ok (VNone, bs);
  build_pass ctx v : build Pass ctx v = Ok [];
  parse_tell ctx pos bs : parse Tell ctx pos bs = Ok (VInt pos, bs);
  build_tell ctx v : build Tell ctx v = Ok [];
  parse_greedy_integer ctx pos bs : bs ≠ [] → parse GreedyInteger ctx pos bs = Ok (VInt (from_bytes bs), []);
  build_greedy_integer ctx n : 0 <= n → build GreedyInteger ctx (VInt n) = Ok (be (octets n) n);
  parse_const_int n c ctx pos bs :
    parse (ConstInt n c) ctx pos bs =
      ('(v, r) ← parse c ctx pos bs; if is_const n v then Ok (v, r) else Err ConstError);
  build_const_int n c ctx v :
    build (ConstInt n c) ctx v = if const_int_arg n v then build c ctx (VInt n) else Err ConstError;
  parse_const_bytes b ctx pos bs :
    parse (ConstBytes b) ctx pos bs =
      ('(x, r) ← read (len b) bs; if bool_decide (x = b) then Ok (VBytes x, r) else Err ConstError);
  build_const_bytes b ctx v :
    build (ConstBytes b) ctx v = if const_bytes_arg b v then Ok b else Err ConstError;
  parse_computed v ctx pos bs : parse (Computed v) ctx pos bs = Ok (v, bs);
  build_computed v ctx w : build (Computed v) ctx w = Ok [];
  parse_select a b ctx pos bs : parse (Select a b) ctx pos bs = select_ok (parse a ctx pos bs) (parse b ctx pos bs);
  build_select a b ctx v : build (Select a b) ctx v = select_ok (build a ctx v) (build b ctx v);
  parse_adapter a c ctx pos bs :
    parse (Adapter a c) ctx pos bs = ('(v, r) ← parse c ctx pos bs; w ← decode a v; Ok (w, r));
  build_adapter a c ctx v :
    build (Adapter a c) ctx v = (w ← encode a v; build c ctx w);
}.

(** ** Declarations that parse what they build *)

(** Does the parser take everything that is left? *)
Fixpoint greedy (c : con) : bool :=
  match c with
  | GreedyBytes | GreedyRange _ | GreedyInteger => true
  | Enum c _ | Adapter _ c => greedy c
  | PrefixedArray _ c => greedy c
  | Struct fs => (fix go fs := match fs with [] => false | (_, c) :: fs' => greedy c || go fs' end) fs
  | Switch _ cases d =>
      (fix go cs := match cs with [] => greedy d | (_, c) :: cs' => greedy c || go cs' end) cases
  | _ => false
  end.

(** Does the parser refuse the end of the stream? *)
Fixpoint consumes (c : con) : bool :=
  match c with
  | BytesInteger n | BitsInteger n => (0 <? n)%nat
  | Flag => true
  | Bytes (Num n) => 0 <? n
  | Enum c _ | Adapter _ c => consumes c
  | Prefixed l _ | PrefixedArray l _ => consumes l
  | Struct ((_, c) :: _) => consumes c
  | _ => false
  end.

Definition is_integer (c : con) : bool :=
  match c with BytesInteger _ | BitsInteger _ => true | _ => false end.

Fixpoint on_bits (c : con) : bool :=
  match c with
  | BitsInteger _ | Flag | Padding _ => true
  | Enum c _ => on_bits c
  | Struct fs => (fix go fs := match fs with [] => true | (_, c) :: fs' => on_bits c && go fs' end) fs
  | _ => false
  end.

Definition whole_bytes (c : con) : bool :=
  match size_of c with Some n => (n mod 8 =? 0)%nat | None => false end.

(** No number has two labels, named fields have different names, only the
    last field is greedy, and so on: the shape the theorem below needs. *)
Fixpoint wf (c : con) : bool :=
  match c with
  | BytesInteger _ | BitsInteger _ | Flag | Padding _ | Bytes _ | GreedyBytes | Pass | GreedyInteger => true
  | Tell | ConstInt _ _ | ConstBytes _ | Computed _ | Select _ _ => false
  | Enum c names => is_integer c && bool_decide (NoDup (map snd names))
  | Adapter _ c => wf c
  | Struct fs =>
      bool_decide (NoDup (List.filter (λ k, negb (String.eqb k "")) (map fst fs)))
      && (fix go fs := match fs with
                       | [] => true
                       | (_, c) :: fs' => wf c && (negb (greedy c) || bool_decide (fs' = [])) && go fs'
                       end) fs
  | Bitwise c => wf c && on_bits c && whole_bytes c
  | Prefixed l c => is_integer l && wf c
  | PrefixedArray l c => is_integer l && wf c && negb (greedy c)
  | GreedyRange c => wf c && negb (greedy c) && consumes c
  | Switch _ cases d =>
      wf d && (fix go cs := match cs with [] => true | (_, c) :: cs' => wf c && go cs' end) cases
  end.

Section domain.
Context `{Construct}.

(** The values a declaration is for. [ctx] holds the fields before. *)
Fixpoint dom (c : con) (ctx : dict) (v : value) : Prop :=
  match c with
  | BytesInteger n => ∃ z, v = VInt z ∧ 0 <= z < 256 ^ Z.of_nat n
  | BitsInteger n => ∃ z, v = VInt z ∧ 0 <= z < 2 ^ Z.of_nat n
  | Flag => ∃ b, v = VBool b
  | Padding _ | Pass => v = VNone
  | Bytes e => ∃ b, v = VBytes b ∧ is_bytes b ∧ eval e ctx = Some (len b)
  | GreedyBytes => ∃ b, v = VBytes b ∧ is_bytes b
  | Enum c names =>
      (∃ s n, v = VStr s ∧ number_of s names = Some n ∧ dom c ctx (VInt n)) ∨
      (∃ n, v = VInt n ∧ label_of n names = None ∧ dom c ctx v)
  | Struct fs =>
      ∃ d, v = VDict d ∧
      (fix go fs acc d :=
         match fs with
         | [] => d = []
         | (k, c) :: fs' =>
             if String.eqb k "" then dom c acc VNone ∧ go fs' acc d
             else match d with
                  | (k', w) :: d' => k' = k ∧ dom c acc w ∧ go fs' (acc ++ [(k, w)]) d'
                  | [] => False
                  end
         end) fs [] d
  | Bitwise c => dom c ctx v
  | Prefixed l c => dom c ctx v ∧ ∀ x, build c ctx v = Ok x → dom l ctx (VInt (len x))
  | PrefixedArray l c => ∃ vs, v = VList vs ∧ dom l ctx (VInt (len vs)) ∧ Forall (dom c ctx) vs
  | GreedyRange c => ∃ vs, v = VList vs ∧ Forall (dom c ctx) vs
  | Switch key cases d =>
      is_Some (path_get key (VDict ctx)) ∧
      match path_get key (VDict ctx) with
      | Some (VStr s) =>
          (fix go cs := match cs with
                        | [] => dom d ctx v
                        | (k, c) :: cs' => if bool_decide (s = lit k) then dom c ctx v else go cs'
                        end) cases
      | _ => dom d ctx v
      end
  | Tell | ConstInt _ _ | ConstBytes _ | Computed _ | Select _ _ => False
  | GreedyInteger => ∃ n, v = VInt n ∧ 0 <= n
  | Adapter a c => ∃ w, encode a v = Ok w ∧ decode a w = Ok v ∧ dom c ctx w
  end.

(** The same for the fields of a struct. *)
Fixpoint dom_fields (fs : list (string * con)) (acc d : dict) : Prop :=
  match fs with
  | [] => d = []
  | (k, c) :: fs' =>
      if String.eqb k "" then dom c acc VNone ∧ dom_fields fs' acc d
      else match d with
           | (k', w) :: d' => k' = k ∧ dom c acc w ∧ dom_fields fs' (acc ++ [(k, w)]) d'
           | [] => False
           end
  end.

Lemma dom_struct fs ctx v : dom (Struct fs) ctx v ↔ ∃ d, v = VDict d ∧ dom_fields fs [] d.
Proof. done. Qed.

Lemma dom_switch key cases d ctx v :
  dom (Switch key cases d) ctx v ↔
  is_Some (path_get key (VDict ctx)) ∧ dom (chosen key cases d ctx) ctx v.
Proof.
  cbn [dom]. unfold chosen. destruct (path_get key (VDict ctx)) as [[| | | |s| |]|]; try done.
  enough ((fix go cs := match cs with
                        | [] => dom d ctx v
                        | (k, c) :: cs' => if bool_decide (s = lit k) then dom c ctx v else go cs'
                        end) cases = dom (case_of s cases d) ctx v) as -> by done.
  induction cases as [|[k c] cases IH]; cbn; [done|]. by destruct (bool_decide _).
Qed.
End domain.

(** ** Induction over declarations *)

Section con_ind.
Context (P : con → Prop)
  (HInt : ∀ n, P (BytesInteger n)) (HBits : ∀ n, P (BitsInteger n)) (HFlag : P Flag)
  (HPad : ∀ n, P (Padding n)) (HBytes : ∀ e, P (Bytes e)) (HGreedy : P GreedyBytes)
  (HEnum : ∀ c names, P c → P (Enum c names))
  (HStruct : ∀ fs, Forall (λ f, P f.2) fs → P (Struct fs))
  (HBitwise : ∀ c, P c → P (Bitwise c))
  (HPrefixed : ∀ l c, P l → P c → P (Prefixed l c))
  (HArray : ∀ l c, P l → P c → P (PrefixedArray l c))
  (HRange : ∀ c, P c → P (GreedyRange c))
  (HSwitch : ∀ key cases d, Forall (λ f, P f.2) cases → P d → P (Switch key cases d))
  (HPass : P Pass) (HTell : P Tell) (HGreedyInt : P GreedyInteger)
  (HConstInt : ∀ n c, P c → P (ConstInt n c)) (HConstBytes : ∀ b, P (ConstBytes b))
  (HComputed : ∀ v, P (Computed v)) (HSelect : ∀ a b, P a → P b → P (Select a b)) (HAdapter : ∀ a c, P c → P (Adapter a c)).

Fixpoint con_induction (c : con) : P c :=
  let fields := fix go (fs : list (string * con)) : Forall (λ f, P f.2) fs :=
    match fs with
    | [] => Forall_nil_2 _
    | (k, c) :: fs' => Forall_cons_2 _ (k, c) fs' (con_induction c) (go fs')
    end in
  match c with
  | BytesInteger n => HInt n
  | BitsInteger n => HBits n
  | Flag => HFlag
  | Padding n => HPad n
  | Bytes e => HBytes e
  | GreedyBytes => HGreedy
  | Enum c names => HEnum c names (con_induction c)
  | Struct fs => HStruct fs (fields fs)
  | Bitwise c => HBitwise c (con_induction c)
  | Prefixed l c => HPrefixed l c (con_induction l) (con_induction c)
  | PrefixedArray l c => HArray l c (con_induction l) (con_induction c)
  | GreedyRange c => HRange c (con_induction c)
  | Switch key cases d => HSwitch key cases d (fields cases) (con_induction d)
  | Pass => HPass
  | Tell => HTell
  | GreedyInteger => HGreedyInt
  | ConstInt n c => HConstInt n c (con_induction c)
  | ConstBytes b => HConstBytes b
  | Computed v => HComputed v
  | Select a b => HSelect a b (con_induction a) (con_induction b)
  | Adapter a c => HAdapter a c (con_induction c)
  end.
End con_ind.

(** ** Lemmas on dictionaries and bits *)

Lemma dict_get_app k d l v : dict_get k d = Some v → dict_get k (d ++ l) = Some v.
Proof. induction d as [|[k' w] d IH]; [done|]. cbn. destruct (String.eqb k k'); auto. Qed.

Lemma dict_get_notin k d : k ∉ map fst d → dict_get k d = None.
Proof.
  induction d as [|[k' w] d IH]; [done|]. cbn. rewrite not_elem_of_cons. intros [Hk Hd].
  by rewrite (proj2 (String.eqb_neq k k')), IH.
Qed.

Lemma dict_get_mid k v d l : k ∉ map fst d → dict_get k (d ++ (k, v) :: l) = Some v.
Proof.
  induction d as [|[k' w] d IH]; cbn; [by rewrite String.eqb_refl|]. rewrite not_elem_of_cons. intros [Hk Hd].
  rewrite (proj2 (String.eqb_neq k k')) by done. auto.
Qed.

Lemma dict_set_notin k v d : k ∉ map fst d → dict_set k v d = d ++ [(k, v)].
Proof.
  induction d as [|[k' w] d IH]; [done|]. cbn. rewrite not_elem_of_cons. intros [Hk Hd].
  by rewrite (proj2 (String.eqb_neq k k')), IH.
Qed.

(** What is found before the later fields are there is found afterwards. *)
Lemma path_get_app p d l v : path_get p (VDict d) = Some v → p ≠ [] → path_get p (VDict (d ++ l)) = Some v.
Proof.
  destruct p as [|k p]; [done|]. cbn. intros E _. destruct (dict_get k d) as [w|] eqn:G; [|done].
  by rewrite (dict_get_app _ _ l _ G).
Qed.

Lemma eval_app e d l n : eval e d = Some n → eval e (d ++ l) = Some n.
Proof.
  revert n. induction e as [m|p|a IHa b IHb|a IHa b IHb|a IHa b IHb|a IHa b IHb]; cbn [eval]; intros n E; [done| |..].
  - destruct p as [|k p]; [done|]. destruct (path_get (k :: p) (VDict d)) as [w|] eqn:G; [|done].
    by rewrite (path_get_app _ _ l _ G).
  - destruct (eval a d) as [x|], (eval b d) as [y|]; try done. by rewrite (IHa _ eq_refl), (IHb _ eq_refl).
  - destruct (eval a d) as [x|], (eval b d) as [y|]; try done. by rewrite (IHa _ eq_refl), (IHb _ eq_refl).
  - destruct (eval a d) as [x|], (eval b d) as [y|]; try done. by rewrite (IHa _ eq_refl), (IHb _ eq_refl).
  - destruct (eval a d) as [x|], (eval b d) as [y|]; try done. by rewrite (IHa _ eq_refl), (IHb _ eq_refl).
Qed.

Definition is_bit (b : Z) : Prop := b = 0 ∨ b = 1.

Lemma length_bits_of n z : length (bits_of n z) = n.
Proof. revert z. induction n as [|n IH]; intros z; cbn [bits_of]; [done|]. rewrite length_app, IH. cbn. lia. Qed.

Lemma bits_of_bits n z : Forall is_bit (bits_of n z).
Proof.
  revert z. induction n as [|n IH]; intros z; cbn [bits_of]; [constructor|]. apply Forall_app. split; [apply IH|].
  apply Forall_singleton. unfold is_bit. dlia.
Qed.

Lemma of_bits_snoc l b : of_bits (l ++ [b]) = of_bits l * 2 + b.
Proof. unfold of_bits. by rewrite foldl_app. Qed.

Lemma of_bits_of n z : 0 <= z < 2 ^ Z.of_nat n → of_bits (bits_of n z) = z.
Proof.
  revert z. induction n as [|n IH]; intros z Hz; [cbn in *; lia|].
  change (bits_of (S n) z) with (bits_of n (z / 2) ++ [z mod 2]).
  rewrite of_bits_snoc, IH.
  - dlia.
  - rewrite Nat2Z.inj_succ, Z.pow_succ_r in Hz by lia. dlia.
Qed.

Lemma bits_of_of l : Forall is_bit l → bits_of (length l) (of_bits l) = l.
Proof.
  induction l as [|b l IH] using rev_ind; [done|]. rewrite Forall_app, Forall_singleton. intros [Hl Hb].
  rewrite of_bits_snoc, length_app, Nat.add_comm. cbn [length plus].
  change (bits_of (S (length l)) ?z) with (bits_of (length l) (z / 2) ++ [z mod 2]).
  replace ((of_bits l * 2 + b) / 2) with (of_bits l) by (unfold is_bit in Hb; dlia).
  replace ((of_bits l * 2 + b) mod 2) with b by (unfold is_bit in Hb; dlia). by rewrite (IH Hl).
Qed.

Lemma of_bits_bound l : Forall is_bit l → 0 <= of_bits l < 2 ^ len l.
Proof.
  induction l as [|b l IH] using rev_ind; [done|]. rewrite Forall_app, Forall_singleton. intros [Hl Hb].
  specialize (IH Hl). rewrite of_bits_snoc, len_app. change (len [b]) with 1.
  rewrite Z.pow_add_r by (unfold len; lia). unfold is_bit in Hb. lia.
Qed.

Lemma bytes_to_bits_to_bytes k bs :
  Forall is_bit bs → length bs = (8 * k)%nat → bytes_to_bits (bits_to_bytes k bs) = bs ∧ is_bytes (bits_to_bytes k bs).
Proof.
  revert bs. induction k as [|k IH]; intros bs Hb Hl.
  - destruct bs; [split; [done|constructor] | cbn in Hl; lia].
  - cbn [bits_to_bytes]. destruct (IH (drop 8 bs)) as [E F]; [by apply Forall_drop | rewrite length_drop; lia|].
    assert (length (take 8 bs) = 8%nat) as L8 by (rewrite length_take; lia).
    assert (Forall is_bit (take 8 bs)) as B8 by by apply Forall_take. split.
    + unfold bytes_to_bits in *. cbn [map concat]. rewrite E. rewrite <- L8 at 1. rewrite bits_of_of by done.
      apply take_drop.
    + constructor; [|done]. unfold is_byte. pose proof (of_bits_bound _ B8) as Hb8.
      replace (len (take 8 bs)) with 8 in Hb8 by (unfold len; lia). lia.
Qed.

Lemma length_bits_to_bytes k bs : length (bits_to_bytes k bs) = k.
Proof. revert bs. induction k as [|k IH]; intros bs; cbn; auto. Qed.

Lemma read_app n x r : len x = n → read n (x ++ r) = Ok (x, r).
Proof.
  intros <-. unfold read. rewrite len_app. pose proof (len_nonneg x). pose proof (len_nonneg r).
  rewrite (proj2 (Z.leb_le 0 _)), (proj2 (Z.leb_le (len x) _)) by lia. cbn [andb].
  unfold len. rewrite Nat2Z.id, take_app_length, drop_app_length. done.
Qed.

Lemma read_nil n : 0 < n → read n [] = Err StreamError.
Proof.
  intros Hn. unfold read. change (len (@nil Z)) with 0. destruct (Z.leb_spec n 0); [lia|]. by rewrite andb_false_r.
Qed.

Lemma label_number s n names : NoDup (map snd names) → number_of s names = Some n → ∃ t, label_of n names = Some t ∧ lit t = s.
Proof.
  induction names as [|[t m] names IH]; cbn; [done|]. intros [Hm Hn]%list.NoDup_cons. case_bool_decide.
  - intros [= ->]. rewrite Z.eqb_refl. eauto.
  - intros E. destruct (Z.eqb_spec n m) as [->|]; [|auto]. exfalso. apply Hm.
    clear -E. induction names as [|[u k] names IH]; [done|]. cbn in *. case_bool_decide; [|right; auto].
    injection E as ->. left.
Qed.

Lemma parse_fields_app `{Construct} fs1 fs2 ctx pos bs :
  parse_fields (fs1 ++ fs2) ctx pos bs =
  ('(d, r) ← parse_fields fs1 ctx pos bs; parse_fields fs2 d (pos + len bs - len r) r).
Proof.
  revert ctx pos bs. induction fs1 as [|[k c] fs1 IH]; intros ctx pos bs.
  - cbn. f_equal. lia.
  - cbn [app parse_fields]. destruct (parse c ctx pos bs) as [[v r]|]; [|done]. cbn. rewrite IH.
    destruct (parse_fields fs1 _ _ r) as [[d r']|]; [|done]. cbn. f_equal. lia.
Qed.

Lemma build_fields_app `{Construct} fs1 fs2 d :
  build_fields (fs1 ++ fs2) d = (a ← build_fields fs1 d; b ← build_fields fs2 d; Ok (a ++ b)).
Proof.
  induction fs1 as [|[k c] fs1 IH]; cbn.
  - by destruct (build_fields fs2 d).
  - destruct (build c d _) as [x|]; [|done]. cbn. rewrite IH. destruct (build_fields fs1 d); [|done]. cbn.
    destruct (build_fields fs2 d); [|done]. cbn. by rewrite app_assoc.
Qed.

(** ** The round trip *)

Section round_trip.
Context `{ConstructLaws}.

Definition extends (acc ctx : dict) : Prop := ∃ l, ctx = acc ++ l.

Lemma extends_refl d : extends d d.
Proof. exists []. by rewrite app_nil_r. Qed.

(** [bs] encode [v]: that is what the builder gives, in every context that
    has the fields read so far, and what the parser takes back. *)
Record codes (c : con) (acc : dict) (v : value) (bs : bytes) : Prop := {
  codes_build ctx : extends acc ctx → build c ctx v = Ok bs;
  codes_parse pos rest : (greedy c = true → rest = []) → parse c acc pos (bs ++ rest) = Ok (v, rest);
  codes_bytes : is_bytes bs;
  codes_size n : size_of c = Some n → length bs = n;
  codes_bits : on_bits c = true → Forall is_bit bs;
}.

Definition good (c : con) : Prop := wf c = true → ∀ acc v, dom c acc v → ∃ bs, codes c acc v bs.

Lemma is_bit_byte bs : Forall is_bit bs → is_bytes bs.
Proof. apply Forall_impl. unfold is_bit, is_byte. lia. Qed.

Lemma good_int n : good (BytesInteger n).
Proof.
  intros _ acc v (z & -> & Hz). exists (be n z). split; try done.
  - intros ctx _. by rewrite build_int, bool_decide_ok.
  - intros pos rest _. rewrite parse_int, read_app by (unfold len; by rewrite length_be).
    cbn. by rewrite from_bytes_be.
  - apply is_bytes_be.
  - intros m [= <-]. apply length_be.
Qed.

Lemma good_bits n : good (BitsInteger n).
Proof.
  intros _ acc v (z & -> & Hz). exists (bits_of n z). split; try done.
  - intros ctx _. by rewrite build_bits, bool_decide_ok.
  - intros pos rest _. rewrite parse_bits, read_app by (unfold len; by rewrite length_bits_of).
    cbn. by rewrite of_bits_of.
  - apply is_bit_byte, bits_of_bits.
  - intros m [= <-]. apply length_bits_of.
  - intros _. apply bits_of_bits.
Qed.

Lemma good_flag : good Flag.
Proof.
  intros _ acc v (b & ->). exists [if b then 1 else 0].
  assert (is_bit (if b then 1 else 0)) as Hb by (unfold is_bit; destruct b; auto).
  split; auto using is_bit_byte.
  - intros ctx _. by rewrite build_flag.
  - intros pos rest _. rewrite parse_flag, read_app by done. by destruct b.
  - by intros m [= <-].
Qed.

Lemma good_padding n : good (Padding n).
Proof.
  intros _ acc v ->. exists (replicate n 0).
  assert (Forall is_bit (replicate n 0)) as Hb by (apply Forall_replicate; by left).
  split; auto using is_bit_byte.
  - intros ctx _. by rewrite build_padding.
  - intros pos rest _. rewrite parse_padding, read_app by apply len_replicate. done.
  - intros m [= <-]. apply length_replicate.
Qed.

Lemma good_bytes e : good (Bytes e).
Proof.
  intros _ acc v (b & -> & Hb & He). exists b. split; try done.
  - intros ctx [l ->]. rewrite (build_bytes _ _ _ (len b)) by by apply eval_app. by rewrite Z.eqb_refl.
  - intros pos rest _. rewrite (parse_bytes _ _ _ _ (len b)), read_app by done. done.
  - intros n. cbn. destruct e; try done. cbn in He. intros [= <-]. injection He as ->. unfold len. lia.
Qed.

Lemma good_greedy_bytes : good GreedyBytes.
Proof.
  intros _ acc v (b & -> & Hb). exists b. split; try done.
  - intros ctx _. apply build_greedy_bytes.
  - intros pos rest ->; [|done]. by rewrite app_nil_r, parse_greedy_bytes.
Qed.

Lemma octets_bound n : 0 <= n → n < 256 ^ Z.of_nat (octets n) ∧ (0 < octets n)%nat.
Proof.
  intros Hn. pose proof (Z.log2_nonneg n). unfold octets. split; [|dlia]. rewrite Z2Nat.id by dlia. change 256 with (2 ^ 8).
  rewrite <- Z.pow_mul_r by dlia. destruct (decide (n = 0)) as [->|]; [done|]. apply Z.log2_lt_pow2; dlia.
Qed.

Lemma good_greedy_integer : good GreedyInteger.
Proof.
  intros _ acc v (n & -> & Hn). destruct (octets_bound n Hn) as [Hb Ho]. exists (be (octets n) n). split; try done.
  - intros ctx _. by apply build_greedy_integer.
  - intros pos rest ->; [|done]. rewrite app_nil_r, parse_greedy_integer, from_bytes_be; [done..|].
    intros E%(f_equal length). rewrite length_be in E. cbn in E. lia.
  - apply is_bytes_be.
Qed.

Lemma good_pass : good Pass.
Proof.
  intros _ acc v ->. exists []. split; try done.
  - intros ctx _. apply build_pass.
  - intros pos rest _. apply parse_pass.
  - constructor.
  - by intros m [= <-].
Qed.

Lemma good_enum c names : good c → good (Enum c names).
Proof.
  intros IH [Hi Hd%bool_decide_eq_true]%andb_prop acc v Hv.
  assert (wf c = true) as Hw by by destruct c. specialize (IH Hw).
  destruct Hv as [(s & n & -> & Hn & Hv)|(n & -> & Hn & Hv)]; destruct (IH _ _ Hv) as [bs Hc]; exists bs.
  - destruct (label_number _ _ _ Hd Hn) as (t & Ht & <-).
    split; [| |apply Hc..].
    + intros ctx Hx. rewrite build_enum_label, Hn. by apply Hc.
    + intros pos rest Hr. rewrite parse_enum, (codes_parse _ _ _ _ Hc) by done. cbn. by rewrite Ht.
  - split; [| |apply Hc..].
    + intros ctx Hx. rewrite build_enum_number. by apply Hc.
    + intros pos rest Hr. rewrite parse_enum, (codes_parse _ _ _ _ Hc) by done. cbn. by rewrite Hn.
Qed.

Lemma good_adapter a c : good c → good (Adapter a c).
Proof.
  intros IH Hw acc v (w & He & Hd & Hv). destruct (IH Hw _ _ Hv) as [bs Hc]. exists bs.
  split; [| |apply Hc|apply Hc|done].
  - intros ctx Hx. rewrite build_adapter, He. cbn. by apply Hc.
  - intros pos rest Hr. rewrite parse_adapter, (codes_parse _ _ _ _ Hc) by done. cbn. by rewrite Hd.
Qed.

Lemma whole_bytes_size c : whole_bytes c = true → ∃ k, size_of c = Some (8 * k)%nat.
Proof.
  unfold whole_bytes. destruct (size_of c) as [n|]; [|done]. intros Hn%Nat.eqb_eq.
  exists (n / 8)%nat. pose proof (Nat.div_mod_eq n 8). f_equal. lia.
Qed.

Lemma good_bitwise c : good c → good (Bitwise c).
Proof.
  intros IH [[Hw Hb]%andb_prop [k Hk]%whole_bytes_size]%andb_prop acc v Hv.
  destruct (IH Hw _ _ Hv) as [bs Hc]. pose proof (codes_size _ _ _ _ Hc _ Hk) as Hl.
  destruct (bytes_to_bits_to_bytes k bs (codes_bits _ _ _ _ Hc Hb) Hl) as [E F].
  exists (bits_to_bytes k bs). split; try done.
  - intros ctx Hx. rewrite (build_bitwise _ _ _ k Hk), (codes_build _ _ _ _ Hc) by done. done.
  - intros pos rest _.
    rewrite (parse_bitwise _ _ _ _ k Hk), read_app by (unfold len; by rewrite length_bits_to_bytes).
    cbn. rewrite E. rewrite <- (app_nil_r bs). rewrite (codes_parse _ _ _ _ Hc) by done. done.
  - assert (size_of (Bitwise c) = Some k) as ->.
    { cbn [size_of]. rewrite Hk. cbn -[Nat.mul Nat.div]. f_equal. rewrite Nat.mul_comm. by apply Nat.div_mul. }
    intros m [= <-]. apply length_bits_to_bytes.
Qed.

Lemma is_integer_wf c : is_integer c = true → wf c = true ∧ greedy c = false.
Proof. by destruct c. Qed.

Lemma good_prefixed l c : good l → good c → good (Prefixed l c).
Proof.
  intros IHl IHc [Hl Hw]%andb_prop acc v [Hv Hn]. apply is_integer_wf in Hl as [Hwl Hgl].
  destruct (IHc Hw _ _ Hv) as [bs Hc].
  destruct (IHl Hwl _ _ (Hn _ (codes_build _ _ _ _ Hc _ (extends_refl _)))) as [ns Hm].
  exists (ns ++ bs). split; try done.
  - intros ctx Hx. rewrite build_prefixed, (codes_build _ _ _ _ Hc) by done. cbn.
    by rewrite (codes_build _ _ _ _ Hm).
  - intros pos rest _. rewrite parse_prefixed, <- app_assoc, (codes_parse _ _ _ _ Hm) by (by rewrite Hgl).
    cbn. rewrite read_app by done. cbn. rewrite <- (app_nil_r bs).
    by rewrite (codes_parse _ _ _ _ Hc).
  - apply is_bytes_app. split; [apply Hm | apply Hc].
Qed.

(** Lists of items. *)
Lemma items_codes c acc vs : good c → wf c = true → Forall (dom c acc) vs → ∃ bss, Forall2 (codes c acc) vs bss.
Proof.
  intros Hg Hw Hv. induction Hv as [|v vs Hv _ (bss & IH)]; [by exists []|].
  destruct (Hg Hw _ _ Hv) as [bs Hc]. exists (bs :: bss). by constructor.
Qed.

Lemma build_items_ok c acc ctx vs bss :
  extends acc ctx → Forall2 (codes c acc) vs bss → build_items c ctx vs = Ok (concat bss).
Proof.
  intros Hx Hf. unfold build_items.
  assert (map_r (build c ctx) vs = Ok bss) as ->; [|done].
  induction Hf as [|v bs vs bss Hc _ IH]; [done|]. cbn. rewrite (codes_build _ _ _ _ Hc) by done.
  by rewrite IH.
Qed.

Lemma parse_items_ok c acc vs bss : ∀ pos rest,
  greedy c = false → Forall2 (codes c acc) vs bss →
  parse_items (length vs) c acc pos (concat bss ++ rest) = Ok (vs, rest).
Proof.
  intros pos rest Hg Hf. revert pos. induction Hf as [|v bs vs bss Hc _ IH]; intros pos; [done|].
  cbn [length parse_items concat]. rewrite <- app_assoc, (codes_parse _ _ _ _ Hc) by (by rewrite Hg).
  cbn. by rewrite IH.
Qed.

Lemma items_bytes c acc vs bss : Forall2 (codes c acc) vs bss → is_bytes (concat bss).
Proof.
  induction 1 as [|v bs vs bss Hc _ IH]; [constructor|]. apply is_bytes_app. split; [apply Hc | done].
Qed.

Lemma good_array l c : good l → good c → good (PrefixedArray l c).
Proof.
  intros IHl IHc [[Hl Hw]%andb_prop Hg%negb_true_iff]%andb_prop acc v (vs & -> & Hn & Hv).
  apply is_integer_wf in Hl as [Hwl Hgl].
  destruct (IHl Hwl _ _ Hn) as [ns Hm]. destruct (items_codes c acc vs IHc Hw Hv) as [bss Hf].
  exists (ns ++ concat bss). split; try done.
  - intros ctx Hx. rewrite build_prefixed_array, (codes_build _ _ _ _ Hm) by done. cbn.
    by rewrite (build_items_ok _ acc ctx _ bss).
  - intros pos rest _. rewrite parse_prefixed_array, <- app_assoc, (codes_parse _ _ _ _ Hm) by (by rewrite Hgl).
    cbn. unfold len at 1. rewrite Nat2Z.id. by rewrite parse_items_ok.
  - apply is_bytes_app. split; [apply Hm | by eapply items_bytes].
Qed.

(** A parser that takes at least one unit refuses the end of the stream. *)
Lemma consumes_fails c ctx pos : consumes c = true → ∃ e, parse c ctx pos [] = Err e.
Proof.
  revert ctx pos. induction c as [n|n| |n|e| |c names IH|fs IH|c IH|l c IHl IHc|l c IHl IHc|c IH|k cs d IH IHd| | | |? c IH0|?|?|a0 b0 IHa IHb|a c IH]
    using con_induction; intros ctx pos; cbn [consumes]; try done.
  - intros Hn%Nat.ltb_lt. rewrite parse_int, read_nil by lia. eauto.
  - intros Hn%Nat.ltb_lt. rewrite parse_bits, read_nil by lia. eauto.
  - intros _. rewrite parse_flag, read_nil by lia. eauto.
  - destruct e as [n| | | | |]; try done. intros Hn%Z.ltb_lt. rewrite (parse_bytes _ _ _ _ n) by done.
    rewrite read_nil by done. eauto.
  - intros [e E]%(IH ctx pos). rewrite parse_enum, E. by eexists.
  - destruct fs as [|[k c] fs]; [done|]. apply Forall_cons_1 in IH as [IH _]. intros Hc.
    destruct (IH [] pos Hc) as [e E]. rewrite parse_struct. cbn [parse_fields snd] in *. rewrite E. by eexists.
  - intros [e E]%(IHl ctx pos). rewrite parse_prefixed, E. by eexists.
  - intros [e E]%(IHl ctx pos). rewrite parse_prefixed_array, E. by eexists.
  - intros [e E]%(IH ctx pos). rewrite parse_adapter, E. by eexists.
Qed.

Lemma parse_greedy_ok fuel c acc vs bss : ∀ pos,
  greedy c = false → consumes c = true → Forall2 (codes c acc) vs bss → (length vs <= fuel)%nat →
  parse_greedy fuel c acc pos (concat bss) = (vs, []).
Proof.
  intros pos Hg Hcs Hf. revert pos fuel. induction Hf as [|v bs vs bss Hc _ IH]; intros pos fuel Hl.
  - destruct fuel as [|f]; [done|]. cbn. destruct (consumes_fails c acc pos Hcs) as [e ->]. done.
  - destruct fuel as [|f]; [cbn in Hl; lia|]. cbn [parse_greedy concat length] in *.
    rewrite (codes_parse _ _ _ _ Hc) by (by rewrite Hg). by rewrite IH by lia.
Qed.

(** Every item takes at least one unit, so the bytes left bound the number
    of items still to come: the fuel is enough. *)
Lemma consumes_nonempty c acc v bs : greedy c = false → consumes c = true → codes c acc v bs → bs ≠ [].
Proof.
  intros Hg Hcs Hc ->. destruct (consumes_fails c acc 0 Hcs) as [e E].
  assert (parse c acc 0 ([] ++ []) = Ok (v, [])) as E' by (apply (codes_parse _ _ _ _ Hc); by rewrite Hg).
  cbn in E'. congruence.
Qed.

Lemma items_count c acc vs bss :
  greedy c = false → consumes c = true → Forall2 (codes c acc) vs bss → (length vs <= length (concat bss))%nat.
Proof.
  intros Hg Hcs. induction 1 as [|v bs vs bss Hc _ IH]; [done|]. cbn [concat length]. rewrite length_app.
  pose proof (consumes_nonempty _ _ _ _ Hg Hcs Hc). destruct bs; [done|]. cbn. lia.
Qed.

Lemma good_range c : good c → good (GreedyRange c).
Proof.
  intros IH [[Hw Hg%negb_true_iff]%andb_prop Hcs]%andb_prop acc v (vs & -> & Hv).
  destruct (items_codes c acc vs IH Hw Hv) as [bss Hf]. exists (concat bss). split; try done.
  - intros ctx Hx. rewrite build_greedy_range. by apply (build_items_ok _ acc).
  - intros pos rest ->; [|done]. rewrite app_nil_r, parse_greedy_range, (parse_greedy_ok _ _ _ vs); try done.
    pose proof (items_count _ _ _ _ Hg Hcs Hf). lia.
  - by eapply items_bytes.
Qed.

Lemma case_of_in s cases d : case_of s cases d = d ∨ case_of s cases d ∈ map snd cases.
Proof.
  induction cases as [|[k c] cases IH]; cbn; [by left|]. case_bool_decide.
  - right. left.
  - destruct IH as [IH|IH]; [by left | right; by right].
Qed.

Lemma chosen_in key cases d ctx : chosen key cases d ctx = d ∨ chosen key cases d ctx ∈ map snd cases.
Proof. unfold chosen. destruct (path_get _ _) as [[]|]; auto using case_of_in. Qed.

Lemma chosen_app key cases d acc ctx :
  is_Some (path_get key (VDict acc)) → extends acc ctx → chosen key cases d ctx = chosen key cases d acc.
Proof.
  intros [w Hw] [l ->]. unfold chosen. destruct key as [|k key]; [done|].
  by rewrite Hw, (path_get_app _ _ l _ Hw).
Qed.

(** The cases of a switch are well-formed, and greedy only if it is. *)
Lemma switch_cases key cases d c :
  wf (Switch key cases d) = true → c = d ∨ c ∈ map snd cases →
  wf c = true ∧ (greedy c = true → greedy (Switch key cases d) = true).
Proof.
  cbn [wf greedy]. intros [Hd Hc]%andb_prop [->|Hin].
  - split; [done|]. intros Hg. induction cases as [|[k c] cases IH]; [done|].
    apply andb_prop in Hc as [_ Hc]. apply orb_true_iff. auto.
  - induction cases as [|[k c'] cases IH]; cbn in Hin; [by apply not_elem_of_nil in Hin|].
    apply andb_prop in Hc as [Hc' Hc]. apply elem_of_cons in Hin as [->|Hin].
    + split; [done|]. intros ->. done.
    + destruct (IH Hc Hin) as [? Hg]. split; [done|]. intros ?. apply orb_true_iff. auto.
Qed.

Lemma good_switch key cases d : Forall (λ f, good f.2) cases → good d → good (Switch key cases d).
Proof.
  intros IHc IHd Hw acc v [Hp Hv]%dom_switch.
  pose proof (chosen_in key cases d acc) as Hin. destruct (switch_cases _ _ _ _ Hw Hin) as [Hwc Hg].
  assert (good (chosen key cases d acc)) as IH.
  { destruct Hin as [->|([k c] & -> & Hx)%list_elem_of_fmap]; [done|].
    by apply (proj1 (list.Forall_forall _ _) IHc (k, c)). }
  destruct (IH Hwc _ _ Hv) as [bs Hc]. exists bs. split; try done.
  - intros ctx Hx. rewrite build_switch, (chosen_app _ _ _ acc) by done. by apply Hc.
  - intros pos rest Hr. rewrite parse_switch. apply (codes_parse _ _ _ _ Hc). auto.
  - apply Hc.
Qed.

(** The named fields of a struct. *)
Definition names_of (fs : list (string * con)) : list string :=
  List.filter (λ k, negb (String.eqb k "")) (map fst fs).

Fixpoint wf_fields (fs : list (string * con)) : bool :=
  match fs with
  | [] => true
  | (_, c) :: fs' => wf c && (negb (greedy c) || bool_decide (fs' = [])) && wf_fields fs'
  end.

Lemma wf_struct fs : wf (Struct fs) = bool_decide (NoDup (names_of fs)) && wf_fields fs.
Proof. done. Qed.

Fixpoint greedy_fields (fs : list (string * con)) : bool :=
  match fs with [] => false | (_, c) :: fs' => greedy c || greedy_fields fs' end.

Fixpoint size_fields (fs : list (string * con)) : option nat :=
  match fs with
  | [] => Some 0%nat
  | (_, c) :: fs' => a ← size_of c; b ← size_fields fs'; Some (a + b)%nat
  end.

Fixpoint bits_fields (fs : list (string * con)) : bool :=
  match fs with [] => true | (_, c) :: fs' => on_bits c && bits_fields fs' end.

Lemma dom_fields_keys fs acc d : dom_fields fs acc d → map fst d = names_of fs.
Proof.
  revert acc d. induction fs as [|[k c] fs IH]; intros acc d; cbn; [by intros ->|].
  unfold names_of. cbn. destruct (String.eqb k "") eqn:E; cbn.
  - intros [_ Hd]. by apply IH in Hd.
  - destruct d as [|[k' w] d]; [done|]. intros (-> & _ & Hd). cbn. f_equal. by apply IH in Hd.
Qed.

Record codes_fields (fs : list (string * con)) (acc d : dict) (bs : bytes) : Prop := {
  cf_build : build_fields fs (acc ++ d) = Ok bs;
  cf_parse pos rest : (greedy_fields fs = true → rest = []) →
    parse_fields fs acc pos (bs ++ rest) = Ok (acc ++ d, rest);
  cf_bytes : is_bytes bs;
  cf_size n : size_fields fs = Some n → length bs = n;
  cf_bits : bits_fields fs = true → Forall is_bit bs;
}.

Lemma not_in_tail (acc : dict) k (l : list string) :
  (∀ x, x ∈ k :: l → x ∉ map fst acc) → NoDup (k :: l) →
  ∀ v x, x ∈ l → x ∉ map fst (acc ++ [(k, v)]).
Proof.
  intros Hd Hn v x Hx. rewrite map_app. cbn. rewrite elem_of_app, list_elem_of_singleton.
  apply list.NoDup_cons in Hn as [Hk _]. intros [Ha| ->]; [|done]. apply (Hd x); [by right | done].
Qed.

Lemma fields_codes fs acc d :
  Forall (λ f, good f.2) fs → wf_fields fs = true → NoDup (names_of fs) →
  (∀ x, x ∈ names_of fs → x ∉ map fst acc) → "" ∉ map fst acc →
  dom_fields fs acc d → ∃ bs, codes_fields fs acc d bs.
Proof.
  intros Hg. revert acc d. induction Hg as [|[k c] fs Hc _ IH]; intros acc d Hw Hn Hx He Hd.
  - cbn in Hd. subst d. exists []. split;
      [done | intros pos rest _; cbn; by rewrite app_nil_r | constructor | by intros n [= <-] | constructor].
  - cbn [wf_fields] in Hw. apply andb_prop in Hw as [[Hwc Hgr]%andb_prop Hw]. cbn [snd] in Hc.
    assert (∀ bs rest, build_fields fs (acc ++ d) = Ok bs → (greedy c || greedy_fields fs = true → rest = []) →
            greedy c = true → bs ++ rest = []) as Hend.
    { intros bs rest Hb Hr Hgc. rewrite Hgc in *. rewrite (Hr eq_refl), app_nil_r.
      cbn in Hgr. apply bool_decide_eq_true in Hgr as ->. by injection Hb as <-. }
    cbn [dom_fields] in Hd. unfold names_of in *. cbn [map fst List.filter] in *.
    destruct (String.eqb k "") eqn:Ek; cbn [negb] in *.
    + destruct Hd as [Hv Hd]. destruct (Hc Hwc _ _ Hv) as [b Hb].
      destruct (IH acc d) as [bs Hbs]; try done. apply String.eqb_eq in Ek as ->.
      assert ("" ∉ map fst (acc ++ d)) as Hnone.
      { rewrite map_app, elem_of_app. intros [?|Hin]; [done|]. rewrite (dom_fields_keys _ _ _ Hd) in Hin.
        apply list_elem_of_In, List.filter_In in Hin as [_ Hin]. done. }
      exists (b ++ bs). split.
      * cbn. rewrite (dict_get_notin _ _ Hnone). cbn.
        rewrite (codes_build _ _ _ _ Hb) by (by eexists). cbn. by rewrite (cf_build _ _ _ _ Hbs).
      * intros pos rest Hr. cbn [parse_fields greedy_fields] in *. rewrite <- app_assoc.
        rewrite (codes_parse _ _ _ _ Hb) by (apply (Hend bs); [apply Hbs | done]). cbn.
        apply (cf_parse _ _ _ _ Hbs). intros Hg. apply Hr. by rewrite Hg, orb_true_r.
      * apply is_bytes_app. split; [apply Hb | apply Hbs].
      * intros n. cbn. destruct (size_of c) as [x|] eqn:Sc; [|done]. cbn.
        destruct (size_fields fs) as [y|] eqn:Sf; [|done]. intros [= <-]. rewrite length_app.
        by rewrite (codes_size _ _ _ _ Hb _ Sc), (cf_size _ _ _ _ Hbs _ Sf).
      * cbn. intros [Hbc Hbf]%andb_prop. apply Forall_app. split; [by apply Hb | by apply Hbs].
    + destruct d as [|[k' w] d]; [done|]. destruct Hd as (-> & Hv & Hd). destruct (Hc Hwc _ _ Hv) as [b Hb].
      assert (k ∉ map fst acc) as Hk by (apply Hx; left).
      destruct (IH (acc ++ [(k, w)]) d) as [bs Hbs]; try done.
      { by apply list.NoDup_cons in Hn as [_ Hn]. }
      { intros x Hin. eapply not_in_tail; eauto. }
      { rewrite map_app, elem_of_app. cbn. rewrite list_elem_of_singleton. intros [?|E]; [done|]. by subst k. }
      pose proof (cf_build _ _ _ _ Hbs) as Hbb. rewrite <- app_assoc in Hbb. cbn [app] in Hbb.
      exists (b ++ bs). split.
      * cbn. rewrite dict_get_mid by done. cbn.
        rewrite (codes_build _ _ _ _ Hb) by (by eexists). cbn. by rewrite Hbb.
      * intros pos rest Hr. cbn [parse_fields greedy_fields] in *. rewrite <- app_assoc.
        rewrite (codes_parse _ _ _ _ Hb) by (by apply (Hend bs)). cbn.
        rewrite Ek, dict_set_notin by done.
        rewrite (cf_parse _ _ _ _ Hbs) by (intros Hg; apply Hr; by rewrite Hg, orb_true_r).
        by rewrite <- app_assoc.
      * apply is_bytes_app. split; [apply Hb | apply Hbs].
      * intros n. cbn. destruct (size_of c) as [x|] eqn:Sc; [|done]. cbn.
        destruct (size_fields fs) as [y|] eqn:Sf; [|done]. intros [= <-]. rewrite length_app.
        by rewrite (codes_size _ _ _ _ Hb _ Sc), (cf_size _ _ _ _ Hbs _ Sf).
      * cbn. intros [Hbc Hbf]%andb_prop. apply Forall_app. split; [by apply Hb | by apply Hbs].
Qed.

Lemma good_struct fs : Forall (λ f, good f.2) fs → good (Struct fs).
Proof.
  intros Hg Hw acc v (d & -> & Hd)%dom_struct. rewrite wf_struct in Hw.
  apply andb_prop in Hw as [Hn%bool_decide_eq_true Hw].
  destruct (fields_codes fs [] d Hg Hw Hn) as [bs Hb]; try done.
  { intros x _ []%not_elem_of_nil. }
  { apply not_elem_of_nil. }
  exists bs. split.
  - intros ctx _. rewrite build_struct. apply Hb.
  - intros pos rest Hr. by rewrite parse_struct, (cf_parse _ _ _ _ Hb).
  - apply Hb.
  - intros n Hs. by apply (cf_size _ _ _ _ Hb).
  - intros Hs. by apply (cf_bits _ _ _ _ Hb).
Qed.

Lemma con_good c : good c.
Proof.
  induction c using con_induction; auto using good_int, good_bits, good_flag, good_padding, good_bytes,
    good_greedy_bytes, good_enum, good_struct, good_bitwise, good_prefixed, good_array, good_range,
    good_switch, good_pass, good_greedy_integer, good_adapter; intros Hw; done.
Qed.

(** A well-formed declaration parses what it builds: the builder accepts
    every value of the declaration's domain, gives bytes, and the parser,
    wherever the bytes stand in the stream, gives the value back and leaves
    what follows. Only what reads to the end must stand at the end. *)
Lemma con_round_trip c v :
  wf c = true → dom c [] v →
  ∃ bs, build c [] v = Ok bs ∧ is_bytes bs ∧ (∀ n, size_of c = Some n → length bs = n) ∧
        ∀ pos rest, (greedy c = true → rest = []) → parse c [] pos (bs ++ rest) = Ok (v, rest).
Proof.
  intros Hw Hv. destruct (con_good c Hw [] v Hv) as [bs Hb]. exists bs.
  split; [apply Hb, extends_refl|]. split; [apply Hb|]. split; [apply Hb | apply Hb].
Qed.

(** The same for the fields of a struct, in front of further fields. *)
Lemma struct_fields_codes fs d :
  wf (Struct fs) = true → dom_fields fs [] d → ∃ bs, codes_fields fs [] d bs.
Proof.
  rewrite wf_struct. intros [Hn%bool_decide_eq_true Hw]%andb_prop Hd. apply fields_codes; try done.
  - apply list.Forall_forall. intros f _. apply con_good.
  - intros x _ []%not_elem_of_nil.
  - apply not_elem_of_nil.
Qed.
End round_trip.

(** ** An interpreter with these laws *)

Module RefConstruct.
Section interpreter.
Context (dec enc : string → value → result value).

Fixpoint rparse (c : con) (ctx : dict) (pos : Z) (bs : bytes) : result (value * bytes) :=
  match c with
  | BytesInteger n => '(x, r) ← read (Z.of_nat n) bs; Ok (VInt (from_bytes x), r)
  | BitsInteger n => '(x, r) ← read (Z.of_nat n) bs; Ok (VInt (of_bits x), r)
  | Flag => '(x, r) ← read 1 bs; Ok (VBool (negb (bool_decide (x = [0]))), r)
  | Padding n => '(_, r) ← read (Z.of_nat n) bs; Ok (VNone, r)
  | Bytes e => n ← from_opt KeyError (eval e ctx); '(x, r) ← read n bs; Ok (VBytes x, r)
  | GreedyBytes => Ok (VBytes bs, [])
  | Enum c names =>
      '(v, r) ← rparse c ctx pos bs;
      n ← as_length v;
      Ok (match label_of n names with Some s => VStr (lit s) | None => VInt n end, r)
  | Struct fs =>
      '(d, r) ←
        (fix go fs ctx pos bs :=
           match fs with
           | [] => Ok (ctx, bs)
           | (k, c) :: fs' =>
               '(v, r) ← rparse c ctx pos bs;
               go fs' (if String.eqb k "" then ctx else dict_set k v ctx) (pos + len bs - len r) r
           end) fs [] pos bs;
      Ok (VDict d, r)
  | Bitwise c =>
      k ← from_opt (LibError "SizeofError") (size_of c);
      '(x, r) ← read (Z.of_nat (k / 8)) bs;
      '(v, _) ← rparse c ctx 0 (bytes_to_bits x);
      Ok (v, r)
  | Prefixed l c =>
      '(v, r) ← rparse l ctx pos bs;
      n ← as_length v;
      '(x, r) ← read n r;
      '(v, _) ← rparse c ctx 0 x;
      Ok (v, r)
  | PrefixedArray l c =>
      '(v, r) ← rparse l ctx pos bs;
      n ← as_length v;
      '(vs, r') ←
        (fix go n pos bs :=
           match n with
           | O => Ok ([], bs)
           | S n' =>
               '(v, r) ← rparse c ctx pos bs;
               '(vs, r') ← go n' (pos + len bs - len r) r;
               Ok (v :: vs, r')
           end) (Z.to_nat n) (pos + len bs - len r) r;
      Ok (VList vs, r')
  | GreedyRange c =>
      let '(vs, r) :=
        (fix go fuel pos bs :=
           match fuel with
           | O => ([], bs)
           | S f =>
               match rparse c ctx pos bs with
               | Ok (v, r) => let '(vs, r') := go f (pos + len bs - len r) r in (v :: vs, r')
               | Err _ => ([], bs)
               end
           end) (S (length bs)) pos bs in
      Ok (VList vs, r)
  | Switch key cases d =>
      match path_get key (VDict ctx) with
      | Some (VStr s) =>
          (fix go cs := match cs with
                        | [] => rparse d ctx pos bs
                        | (k, c) :: cs' => if bool_decide (s = lit k) then rparse c ctx pos bs else go cs'
                        end) cases
      | _ => rparse d ctx pos bs
      end
  | Pass => Ok (VNone, bs)
  | Tell => Ok (VInt pos, bs)
  | GreedyInteger => if bool_decide (bs = []) then Err StreamError else Ok (VInt (from_bytes bs), [])
  | ConstInt n c => '(v, r) ← rparse c ctx pos bs; if is_const n v then Ok (v, r) else Err ConstError
  | ConstBytes b => '(x, r) ← read (len b) bs; if bool_decide (x = b) then Ok (VBytes x, r) else Err ConstError
  | Computed v => Ok (v, bs)
  | Select a b => select_ok (rparse a ctx pos bs) (rparse b ctx pos bs)
  | Adapter a c => '(v, r) ← rparse c ctx pos bs; w ← dec a v; Ok (w, r)
  end.

Fixpoint rbuild (c : con) (ctx : dict) (v : value) : result bytes :=
  match c with
  | BytesInteger n =>
      z ← as_length v; if bool_decide (0 <= z < 256 ^ Z.of_nat n) then Ok (be n z) else Err FormatFieldError
  | BitsInteger n =>
      z ← as_length v; if bool_decide (0 <= z < 2 ^ Z.of_nat n) then Ok (bits_of n z) else Err FormatFieldError
  | Flag => Ok [if truth v then 1 else 0]
  | Padding n => Ok (replicate n 0)
  | Bytes e =>
      n ← from_opt KeyError (eval e ctx);
      b ← as_bytes v;
      if len b =? n then Ok b else Err StreamError
  | GreedyBytes => as_bytes v
  | Enum c names =>
      match v with
      | VStr s => match number_of s names with Some n => rbuild c ctx (VInt n) | None => Err MappingError end
      | VInt n => rbuild c ctx v
      | _ => Err MappingError
      end
  | Struct fs =>
      match v with
      | VDict d =>
          (fix go fs := match fs with
                        | [] => Ok []
                        | (k, c) :: fs' =>
                            b ← rbuild c d (default VNone (dict_get k d));
                            bs ← go fs';
                            Ok (b ++ bs)
                        end) fs
      | _ => Err TypeError
      end
  | Bitwise c =>
      k ← from_opt (LibError "SizeofError") (size_of c);
      bs ← rbuild c ctx v;
      Ok (bits_to_bytes (k / 8) bs)
  | Prefixed l c => x ← rbuild c ctx v; n ← rbuild l ctx (VInt (len x)); Ok (n ++ x)
  | PrefixedArray l c =>
      match v with
      | VList vs => n ← rbuild l ctx (VInt (len vs)); x ← map_r (rbuild c ctx) vs; Ok (n ++ concat x)
      | _ => Err TypeError
      end
  | GreedyRange c =>
      match v with VList vs => x ← map_r (rbuild c ctx) vs; Ok (concat x) | _ => Err TypeError end
  | Switch key cases d =>
      match path_get key (VDict ctx) with
      | Some (VStr s) =>
          (fix go cs := match cs with
                        | [] => rbuild d ctx v
                        | (k, c) :: cs' => if bool_decide (s = lit k) then rbuild c ctx v else go cs'
                        end) cases
      | _ => rbuild d ctx v
      end
  | Pass | Tell | Computed _ => Ok []
  | GreedyInteger => z ← as_length v; if 0 <=? z then Ok (be (octets z) z) else Err FormatFieldError
  | ConstInt n c => if const_int_arg n v then rbuild c ctx (VInt n) else Err ConstError
  | ConstBytes b => if const_bytes_arg b v then Ok b else Err ConstError
  | Select a b => select_ok (rbuild a ctx v) (rbuild b ctx v)
  | Adapter a c => w ← enc a v; rbuild c ctx w
  end.

Definition ref : Construct := {| parse := rparse; build := rbuild; decode := dec; encode := enc |}.
Local Existing Instance ref.

Lemma switch_case {A} (f : con → A) s cases d :
  f (case_of s cases d) =
  (fix go cs := match cs with
                | [] => f d
                | (k, c) :: cs' => if bool_decide (s = lit k) then f c else go cs'
                end) cases.
Proof. induction cases as [|[k c] cases IH]; cbn; [done|]. by destruct (bool_decide _). Qed.

Lemma size_whole c k : size_of c = Some (8 * k)%nat → from_opt (LibError "SizeofError") (size_of c) = Ok (8 * k)%nat.
Proof. by intros ->. Qed.

Lemma div_whole k : (8 * k / 8)%nat = k.
Proof. rewrite Nat.mul_comm. by apply Nat.div_mul. Qed.

Lemma ref_laws : ConstructLaws.
Proof.
  split; intros; cbn [parse build decode encode ref rparse rbuild]; try done.
  - by eexists.
  - by rewrite H.
  - by rewrite H.
  - f_equal. generalize (@nil (string * value)) as d. revert pos bs.
    induction fs as [|[k c] fs IH]; intros pos bs d; [done|]. cbn. destruct (rparse c d pos bs) as [[v r]|]; [|done].
    cbn. apply IH.
  - induction fs as [|[k c] fs IH]; [done|]. cbn. by rewrite IH.
  - rewrite (size_whole _ _ H). cbn -[Nat.mul Nat.div]. by rewrite div_whole.
  - rewrite (size_whole _ _ H). cbn -[Nat.mul Nat.div]. by rewrite div_whole.
  - destruct (rparse l ctx pos bs) as [[v r]|]; [|done]. cbn. destruct (as_length v) as [n|]; [|done]. cbn.
    f_equal. generalize (pos + len bs - len r) as p. revert r.
    induction (Z.to_nat n) as [|m IH]; intros r p; [done|]. cbn.
    destruct (rparse c ctx p r) as [[w r']|]; [|done]. cbn. by rewrite IH.
  - unfold build_items. destruct (rbuild l ctx _); [|done]. cbn. by destruct (map_r _ vs).
  - assert (∀ fuel pos bs,
      (fix go fuel pos bs :=
         match fuel with
         | O => ([], bs)
         | S f =>
             match rparse c ctx pos bs with
             | Ok (v, r) => let '(vs, r') := go f (pos + len bs - len r) r in (v :: vs, r')
             | Err _ => ([], bs)
             end
         end) fuel pos bs = parse_greedy fuel c ctx pos bs) as E;
      [|exact (f_equal (λ p, let '(vs, r) := p in Ok (VList vs, r)) (E (S (length bs)) pos bs))].
    clear. induction fuel as [|f IH]; intros pos bs; [done|]. cbn.
    destruct (rparse c ctx pos bs) as [[v r]|]; [|done]. by rewrite IH.
  - unfold chosen. destruct (path_get key (VDict ctx)) as [[]|]; try done. symmetry. apply switch_case with (f := λ c, rparse c ctx pos bs).
  - unfold chosen. destruct (path_get key (VDict ctx)) as [[]|]; try done. symmetry. apply switch_case with (f := λ c, rbuild c ctx v).
  - by rewrite bool_decide_false.
  - cbn [as_length]. mrun. destruct (Z.leb_spec 0 n); [done|lia].
Qed.
End interpreter.
End RefConstruct.
