(* ===== verification/Filesystem.v ===== *)
(** pySim/filesystem.py: the tree of files a card has by its specification.

    The objects live in a heap, because parent and children refer to each
    other and every operation changes shared objects in place: a [CardFile]
    is the state of one object, [heap] the objects by number. Methods that
    only read are functions of the heap, methods that change it are
    computations of the monad [H]. Recursion along [parent] or [children] has
    the number of objects as fuel: [fully_qualified_path_spec] and its
    neighbours show that this is enough in every tree the operations build,
    and in other heaps running out of fuel is Python's RecursionError. *)

From S2P Require Import Prelude Osmocom Utils Construct.

(** ** Ordered dictionaries *)

Fixpoint kv_get {K V} `{EqDecision K} (k : K) (d : list (K * V)) : option V :=
  match d with
  | [] => None
  | (k', v) :: d' => if decide (k = k') then Some v else kv_get k d'
  end.

(** [d[k] = v] *)
Fixpoint kv_set {K V} `{EqDecision K} (k : K) (v : V) (d : list (K * V)) : list (K * V) :=
  match d with
  | [] => [(k, v)]
  | (k', v') :: d' => if decide (k = k') then (k', v) :: d' else (k', v') :: kv_set k v d'
  end.

(** [d.update(e)], and a dict built from a sequence of items *)
Definition kv_update {K V} `{EqDecision K} (d e : list (K * V)) : list (K * V) :=
  foldl (λ d kv, kv_set kv.1 kv.2 d) d e.
Definition kv_of {K V} `{EqDecision K} (l : list (K * V)) : list (K * V) := kv_update [] l.

(** [d.setdefault(k, []).append(v)] *)
Definition kv_append {K V} `{EqDecision K} (k : K) (v : V) (d : list (K * list V)) : list (K * list V) :=
  kv_set k (default [] (kv_get k d) ++ [v]) d.

(** [sorted(l)] of strings: by code point *)
Fixpoint str_leb (a b : str) : bool :=
  match a, b with
  | [], _ => true
  | _ :: _, [] => false
  | c :: a', d :: b' => if code c =? code d then str_leb a' b' else code c <? code d
  end.
Fixpoint insert_string (s : str) (l : list str) : list str :=
  match l with
  | [] => [s]
  | t :: l' => if str_leb s t then s :: l else t :: insert_string s l'
  end.
Definition sort_strings (l : list str) : list str := foldr insert_string [] l.

(** ** The objects *)

(** [CardFileService]: an int, a list (any of) or a tuple (all of). *)
Inductive service := SvcInt (n : Z) | SvcList (l : list Z) | SvcTuple (l : list Z).

Inductive file_class :=
| CardFile_ | CardEF | TransparentEF | LinFixedEF | CyclicEF | TransRecEF | BerTlvEF
| CardDF | CardMF | CardADF.

#[export] Instance file_class_eq_dec : EqDecision file_class.
Proof. solve_decision. Defined.

Definition sw_data : Type := list (str * list (str * str)).

(** What a file uses of a card profile (pySim/profile.py); the profiles
    override [decode_select_response]. *)
Record CardProfile := {
  profile_sw : sw_data;
  profile_cla : str;
  profile_sel_ctrl : str;
  profile_decode_select_response : str → result value }.

Record CardApplication := { app_name : str; app_aid : option str; app_sw : sw_data }.

(** [service_attr] is None as long as [self.service] has not been assigned.
    [own_decoder]: the [decode_select_response] of a class that overrides it.
    [children], [applications] and [files_by_service] are the dicts of the
    code, in insertion order. *)
Record CardFile := {
  cls : file_class;
  fid : option str;
  sfid : option Z;
  name : option str;
  parent : option nat;
  profile : option CardProfile;
  service_attr : option (option service);
  own_decoder : option (str → result value);
  children : list (str * nat);
  files_by_service : list (Z * list nat);
  applications : list (str * nat);
  aid : str;
  has_fs : bool;
  application : option CardApplication }.

Abbreviation heap := (gmap nat CardFile).
Abbreviation H := (M heap).

Definition is_df (c : file_class) : bool := match c with CardDF | CardMF | CardADF => true | _ => false end.
Definition is_adf (c : file_class) : bool := match c with CardADF => true | _ => false end.
Definition is_mf (c : file_class) : bool := match c with CardMF => true | _ => false end.
Definition is_ef (c : file_class) : bool :=
  match c with CardEF | TransparentEF | LinFixedEF | CyclicEF | TransRecEF | BerTlvEF => true | _ => false end.
Definition is_transparent (c : file_class) : bool :=
  match c with TransparentEF | TransRecEF => true | _ => false end.
Definition is_linear_fixed (c : file_class) : bool :=
  match c with LinFixedEF | CyclicEF => true | _ => false end.
Definition is_ber_tlv (c : file_class) : bool := match c with BerTlvEF => true | _ => false end.

Definition obj (h : heap) (i : nat) : result CardFile := from_opt AttributeError (h !! i).

#[global] Arguments obj : simpl never.

(** A string that is neither None nor empty. *)
Definition filled (s : option str) : option str :=
  match s with Some [] | None => None | Some s => Some s end.

Definition service_of (f : CardFile) : result (option service) := from_opt AttributeError (service_attr f).

Definition service_truth (s : option service) : bool :=
  match s with
  | None => false
  | Some (SvcInt n) => truthy n
  | Some (SvcList l) | Some (SvcTuple l) => negb (len l =? 0)
  end.

Definition set_parent (p : option nat) (f : CardFile) : CardFile :=
  {| cls := cls f; fid := fid f; sfid := sfid f; name := name f; parent := p; profile := profile f;
     service_attr := service_attr f; own_decoder := own_decoder f; children := children f;
     files_by_service := files_by_service f; applications := applications f; aid := aid f;
     has_fs := has_fs f; application := application f |}.

Definition set_children (l : list (str * nat)) (f : CardFile) : CardFile :=
  {| cls := cls f; fid := fid f; sfid := sfid f; name := name f; parent := parent f; profile := profile f;
     service_attr := service_attr f; own_decoder := own_decoder f; children := l;
     files_by_service := files_by_service f; applications := applications f; aid := aid f;
     has_fs := has_fs f; application := application f |}.

Definition set_files_by_service (l : list (Z * list nat)) (f : CardFile) : CardFile :=
  {| cls := cls f; fid := fid f; sfid := sfid f; name := name f; parent := parent f; profile := profile f;
     service_attr := service_attr f; own_decoder := own_decoder f; children := children f;
     files_by_service := l; applications := applications f; aid := aid f;
     has_fs := has_fs f; application := application f |}.

Definition set_applications (l : list (str * nat)) (f : CardFile) : CardFile :=
  {| cls := cls f; fid := fid f; sfid := sfid f; name := name f; parent := parent f; profile := profile f;
     service_attr := service_attr f; own_decoder := own_decoder f; children := children f;
     files_by_service := files_by_service f; applications := l; aid := aid f;
     has_fs := has_fs f; application := application f |}.

Definition set_service_attr (s : option service) (p : option CardProfile) (f : CardFile) : CardFile :=
  {| cls := cls f; fid := fid f; sfid := sfid f; name := name f; parent := parent f; profile := p;
     service_attr := Some s; own_decoder := own_decoder f; children := children f;
     files_by_service := files_by_service f; applications := applications f; aid := aid f;
     has_fs := has_fs f; application := application f |}.

Definition set_application (a : option CardApplication) (f : CardFile) : CardFile :=
  {| cls := cls f; fid := fid f; sfid := sfid f; name := name f; parent := parent f; profile := profile f;
     service_attr := service_attr f; own_decoder := own_decoder f; children := children f;
     files_by_service := files_by_service f; applications := applications f; aid := aid f;
     has_fs := has_fs f; application := a |}.

(** Change the object [i] in place. *)
Definition update_obj (i : nat) (g : CardFile → CardFile) : H unit :=
  h ← get; f ← lift (obj h i); modify (insert i (g f)).

(** ** Paths *)

Section paths.
Context (h : heap).

(** Enough fuel to climb from any file of a tree to its root. *)
Definition enough : nat := S (size h).

Definition _path_element (f : CardFile) (prefer_name : bool) : option str :=
  match filled (name f) with
  | Some n => if prefer_name then Some n else if is_adf (cls f) then Some (aid f) else fid f
  | None => if is_adf (cls f) then Some (aid f) else fid f
  end.

Fixpoint path_names (fuel : nat) (i : nat) (prefer_name : bool) : result (list str) :=
  match fuel with
  | O => Err OutOfFuel
  | S n =>
      f ← obj h i;
      ret ← (match parent f with
             | Some p => if decide (p = i) then Ok [] else path_names n p prefer_name
             | None => Ok []
             end);
      Ok (ret ++ match filled (_path_element f prefer_name) with Some e => [e] | None => [] end)
  end.
Definition fully_qualified_path (i : nat) (prefer_name : bool) : result (list str) :=
  path_names enough i prefer_name.

Definition fully_qualified_path_str (i : nat) (prefer_name : bool) : result str :=
  join (lit "/") <$> fully_qualified_path i prefer_name.

Fixpoint path_objs (fuel : nat) (i : nat) : result (list nat) :=
  match fuel with
  | O => Err OutOfFuel
  | S n =>
      f ← obj h i;
      ret ← (match parent f with
             | Some p => if decide (p = i) then Ok [] else path_objs n p
             | None => Ok []
             end);
      Ok (ret ++ [i])
  end.
Definition fully_qualified_path_fobj (i : nat) : result (list nat) := path_objs enough i.

Fixpoint climb (fuel : nat) (i : nat) : result nat :=
  match fuel with
  | O => Err OutOfFuel
  | S n =>
      f ← obj h i;
      match parent f with
      | Some p => if decide (p = i) then Ok i else climb n p
      | None => Ok i
      end
  end.
Definition get_mf (i : nat) : result (option nat) :=
  f ← obj h i;
  match parent f with None => Ok None | Some _ => Some <$> climb enough i end.

Definition obj_is (p : file_class → bool) (i : nat) : bool :=
  match h !! i with Some f => p (cls f) | None => false end.

(** The positions from the last one down, as [reversed(range(0, n))]. *)
Fixpoint clip_from (n : nat) (inter_path : list nat) : list nat :=
  match n with
  | O => inter_path
  | S k =>
      match inter_path !! k with
      | Some f => if obj_is is_adf f then drop k inter_path else clip_from k inter_path
      | None => clip_from k inter_path
      end
  end.
Definition clip_path (inter_path : list nat) : list nat := clip_from (length inter_path) inter_path.

(** What follows [ce] on [target_fqpath], when [ce] is on it before the end. *)
Fixpoint after (ce : nat) (target_fqpath : list nat) : option (list nat) :=
  match target_fqpath with
  | te :: (_ :: _) as rest => if decide (te = ce) then Some rest else after ce rest
  | _ => None
  end.

Fixpoint find_common (cur_fqpath target_fqpath inter_path : list nat) : option (list nat) :=
  match cur_fqpath with
  | [] => None
  | ce :: cur_fqpath' =>
      match after ce target_fqpath with
      | Some rest => Some (clip_path (drop 1 (inter_path ++ [ce] ++ rest)))
      | None => find_common cur_fqpath' target_fqpath (inter_path ++ [ce])
      end
  end.

Definition build_select_path_to (self target : nat) : result (option (list nat)) :=
  mf ← get_mf target;
  if decide (mf = Some target) then Ok (Some [target])
  else
    cur_fqpath ← fully_qualified_path_fobj self;
    target_fqpath ← fully_qualified_path_fobj target;
    Ok (find_common (rev cur_fqpath) target_fqpath []).
End paths.

(** ** What can be selected from a file *)

Inductive sel_flag := SELF | PARENT | MF | FIDS | FNAMES | AIDS | ANAMES.
#[export] Instance sel_flag_eq_dec : EqDecision sel_flag.
Proof. solve_decision. Defined.

Definition selectables : Type := list (str * nat).

Section selectables.
Context (h : heap).

(** [flags == [] or flag in flags] *)
Definition wants (flags : list sel_flag) (flag : sel_flag) : bool :=
  bool_decide (flags = []) || bool_decide (flag ∈ flags).

Definition add_key (key : option str) (i : nat) (sels : selectables) : selectables :=
  match key with Some k => kv_set k i sels | None => sels end.

(** [sels.update({k: i})] for the alias, the FID and the name of [i] *)
Definition add_file_keys (alias : option str) (flags : list sel_flag) (f : CardFile) (i : nat) (sels : selectables)
    : selectables :=
  let sels := add_key (filled alias) i sels in
  let sels := if wants flags FIDS then add_key (filled (fid f)) i sels else sels in
  if wants flags FNAMES then add_key (filled (name f)) i sels else sels.

Definition _get_self_selectables (i : nat) (alias : option str) (flags : list sel_flag) : result selectables :=
  f ← obj h i; Ok (add_file_keys alias flags f i []).

Fixpoint parent_selectables (fuel : nat) (i : nat) (alias : option str) (flags : list sel_flag)
    : result selectables :=
  match fuel with
  | O => Err OutOfFuel
  | S n =>
      f ← obj h i;
      match parent f with
      | None => Ok []
      | Some p =>
          if decide (p = i) then Ok []
          else
            pf ← obj h p;
            up ← parent_selectables n p None flags;
            Ok (kv_update (add_file_keys alias flags pf p []) up)
      end
  end.
Definition _get_parent_selectables (i : nat) (alias : option str) (flags : list sel_flag) : result selectables :=
  parent_selectables (enough h) i alias flags.

(** The files of a dict that have a key, as a dict comprehension. *)
Fixpoint keyed (key : CardFile → option str) (l : list nat) : result (list (str * nat)) :=
  match l with
  | [] => Ok []
  | i :: l' =>
      f ← obj h i;
      r ← keyed key l';
      Ok (match filled (key f) with Some k => (k, i) :: r | None => r end)
  end.

Definition get_app_selectables (mf : nat) (flags : list sel_flag) : result selectables :=
  f ← obj h mf;
  guard_else (is_mf (cls f)) AttributeError;;
  sels ← (if wants flags AIDS then
            fs ← map_r (obj h) (applications f).*2;
            Ok (kv_of (zip (aid <$> fs) (applications f).*2))
          else Ok []);
  if wants flags ANAMES then names ← keyed name (applications f).*2; Ok (kv_update sels names)
  else Ok sels.

(** [CardFile.get_selectables] *)
Definition file_selectables (i : nat) (flags : list sel_flag) : result selectables :=
  sels ← (if wants flags SELF then _get_self_selectables i (Some (lit ".")) flags else Ok []);
  sels ← (if wants flags PARENT then
            ps ← _get_parent_selectables i (Some (lit "..")) flags; Ok (kv_update sels ps)
          else Ok sels);
  if wants flags MF then
    mf ← get_mf h i;
    match mf with
    | Some mf =>
        s1 ← _get_self_selectables mf None flags;
        s2 ← get_app_selectables mf flags;
        Ok (kv_update (kv_update sels s1) s2)
    | None => Ok sels
    end
  else Ok sels.

Definition add_files_of (l : list nat) (flags : list sel_flag) (sels : selectables) : result selectables :=
  sels ← (if wants flags FIDS then k ← keyed fid l; Ok (kv_update sels k) else Ok sels);
  if wants flags FNAMES then k ← keyed name l; Ok (kv_update sels k) else Ok sels.

(** [CardDF.get_selectables] *)
Definition df_selectables (i : nat) (flags : list sel_flag) : result selectables :=
  sels ← file_selectables i flags;
  f ← obj h i;
  add_files_of (children f).*2 flags sels.

(** [CardMF.get_selectables] *)
Definition mf_selectables (i : nat) (flags : list sel_flag) : result selectables :=
  sels ← df_selectables i flags;
  apps ← get_app_selectables i flags;
  Ok (kv_update sels apps).

(** [CardEF.get_selectables] *)
Definition ef_selectables (i : nat) (flags : list sel_flag) : result selectables :=
  sels ← file_selectables i flags;
  f ← obj h i;
  if wants flags FIDS || wants flags FNAMES then
    p ← from_opt AttributeError (parent f);
    pf ← obj h p;
    add_files_of (filter (λ x, x ≠ i) (children pf).*2) flags sels
  else Ok sels.

Definition get_selectables (i : nat) (flags : list sel_flag) : result selectables :=
  f ← obj h i;
  if is_mf (cls f) then mf_selectables i flags
  else if is_df (cls f) then df_selectables i flags
  else if is_ef (cls f) then ef_selectables i flags
  else file_selectables i flags.
End selectables.

Definition get_selectable_names (h : heap) (i : nat) (flags : list sel_flag) : result (list str) :=
  sels ← get_selectables h i flags; Ok (sort_strings sels.*1).

(** ** Looking files up in a DF *)

Section lookup.
Context (h : heap).

Fixpoint find_child (p : CardFile → bool) (l : list nat) : result (option nat) :=
  match l with
  | [] => Ok None
  | i :: l' => f ← obj h i; if p f then Ok (Some i) else find_child p l'
  end.

Definition lookup_file_by_name (d : CardFile) (n : option str) : result (option nat) :=
  match n with
  | None => Ok None
  | Some _ => find_child (λ f, bool_decide (is_Some (filled (name f))) && bool_decide (name f = n)) (children d).*2
  end.

Definition lookup_file_by_sfid (d : CardFile) (s : option Z) : result (option nat) :=
  match s with
  | None => Ok None
  | Some _ => find_child (λ f, bool_decide (sfid f = s)) (children d).*2
  end.

Definition lookup_file_by_fid (d : CardFile) (k : str) : option nat := kv_get k (children d).

(** ** Services *)

Definition should_exist_for_services (f : CardFile) (services : list Z) : result (option bool) :=
  s ← service_of f;
  Ok (match s with
      | None => None
      | Some (SvcInt n) => Some (bool_decide (n ∈ services))
      | Some (SvcList l) => Some (existsb (λ n, bool_decide (n ∈ services)) l)
      | Some (SvcTuple l) => Some (forallb (λ n, bool_decide (n ∈ services)) l)
      end).

Fixpoint any_child (p : nat → result bool) (l : list nat) : result bool :=
  match l with
  | [] => Ok false
  | i :: l' => b ← p i; if (b : bool) then Ok true else any_child p l'
  end.

(** The truth value of what [_has_service] returns. *)
Fixpoint has_service (fuel : nat) (i : nat) : result bool :=
  match fuel with
  | O => Err OutOfFuel
  | S n =>
      f ← obj h i;
      s ← service_of f;
      if service_truth s then Ok true
      else
        any_child (λ c, cf ← obj h c; if is_df (cls cf) then has_service n c else Ok false) (children f).*2
  end.
Definition _has_service (i : nat) : result bool := has_service (enough h) i.
End lookup.

Definition services_list (s : service) : list Z :=
  match s with SvcInt n => [n] | SvcList l | SvcTuple l => l end.

(** Enter the file [c] in [files_by_service] of the DF [d]. *)
Definition _add_file_services (d c : nat) : H unit :=
  h ← get;
  cf ← lift (obj h c);
  s ← lift (service_of cf);
  match s with
  | Some s =>
      if service_truth (Some s) then
        update_obj d (λ f, set_files_by_service (foldl (λ m n, kv_append n c m) (files_by_service f) (services_list s)) f)
      else mret ()
  | None => mret ()
  end.

(** ** Adding files *)

Definition RESERVED_NAMES : list str := map lit [".."; "."; "/"; "MF"]%string.
Definition RESERVED_FIDS : list str := [lit "3f00"].

(** The dict is read while it is walked: adding services does not change it. *)
Definition add_services_below (d c : nat) : H unit :=
  h ← get;
  cf ← lift (obj h c);
  for_each (children cf).*2 (λ g,
    _add_file_services d g;;
    h ← get;
    gf ← lift (obj h g);
    if is_df (cls gf) then
      for_each (children gf).*2 (λ gc,
        h ← get;
        gcf ← lift (obj h gc);
        if is_df (cls gcf) then
          s ← lift (_has_service h gc);
          if (s : bool) then raise ValueError else mret ()
        else mret ())
    else mret ()).

Section adding.
Context `{OsmocomUtils}.

Definition add_file (d c : nat) (ignore_existing : bool) : H unit :=
  h ← get;
  df ← lift (obj h d);
  lift (guard_else (is_df (cls df)) AttributeError);;
  cf ← lift (obj h c);
  k ← lift (from_opt ValueError (fid cf));
  lift (guard_else (is_hex k 4 4) ValueError);;
  lift (guard_else (negb (bool_decide (name cf ∈ Some <$> RESERVED_NAMES))) ValueError);;
  lift (guard_else (negb (bool_decide (k ∈ RESERVED_FIDS))) ValueError);;
  if bool_decide (is_Some (kv_get k (children df))) then
    if ignore_existing then mret () else raise ValueError
  else
    same_sfid ← lift (lookup_file_by_sfid h df (sfid cf));
    match same_sfid with
    | Some _ => raise ValueError
    | None =>
        same_name ← lift (lookup_file_by_name h df (name cf));
        match same_name with
        | Some _ => if ignore_existing then mret () else raise ValueError
        | None =>
            update_obj d (λ f, set_children (kv_set k c (children f)) f);;
            update_obj c (set_parent (Some d));;
            _add_file_services d c;;
            if is_df (cls cf) then add_services_below d c else mret ()
        end
    end.

Definition add_files (d : nat) (cs : list nat) (ignore_existing : bool) : H unit :=
  for_each cs (λ c, add_file d c ignore_existing).

Definition add_application_df (mf app : nat) : H unit :=
  h ← get;
  f ← lift (obj h mf);
  lift (guard_else (is_mf (cls f)) AttributeError);;
  af ← lift (obj h app);
  lift (guard_else (is_adf (cls af)) TypeError);;
  lift (guard_else (negb (bool_decide (is_Some (kv_get (aid af) (applications f))))) ValueError);;
  update_obj mf (λ f, set_applications (kv_set (aid af) app (applications f)) f);;
  update_obj app (set_parent (Some mf)).

(** ** Constructors *)

Definition new_id (h : heap) : nat := fresh (base.dom h : gset nat).

(** The keyword arguments of the constructors of plain files, DFs and EFs. *)
Record file_args := {
  a_fid : option str;
  a_sfid : option Z;
  a_name : option str;
  a_parent : option nat;
  a_profile : option CardProfile;
  a_service : option service }.

Definition blank (c : file_class) (a : file_args) (p : option nat) : CardFile :=
  {| cls := c; fid := str_lower <$> a_fid a; sfid := a_sfid a; name := a_name a; parent := p;
     profile := None; service_attr := None; own_decoder := None; children := []; files_by_service := [];
     applications := []; aid := []; has_fs := false; application := None |}.

(** [CardFile.__init__] of the object [i] of class [c]: the parent is told
    about the new file before [profile] and [service] are assigned. *)
Definition init_file (i : nat) (c : file_class) (a : file_args) : H unit :=
  lift (guard_else (is_adf c || bool_decide (is_Some (a_fid a))) ValueError);;
  modify (insert i (blank c a (a_parent a)));;
  match a_parent a, filled (a_fid a) with
  | Some p, Some _ => if decide (p = i) then mret () else add_file p i false
  | _, _ => mret ()
  end;;
  update_obj i (set_service_attr (a_service a) (a_profile a)).

(** [TransparentEF(fid=..., ...)] and the other EF classes, [CardDF(fid=..., ...)] *)
Definition new_file (c : file_class) (a : file_args) : H nat :=
  h ← get;
  let i := new_id h in
  lift (guard_else (negb (is_df c) || bool_decide (is_Some (a_fid a))) TypeError);;
  init_file i c a;;
  mret i.

(** [CardMF(profile=...)]: its own parent *)
Definition new_mf (p : option CardProfile) : H nat :=
  h ← get;
  let i := new_id h in
  init_file i CardMF {| a_fid := Some (lit "3f00"); a_sfid := None; a_name := Some (lit "MF"); a_parent := Some i;
                        a_profile := p; a_service := None |};;
  mret i.

Definition set_adf (x : str) (fs : bool) (f : CardFile) : CardFile :=
  {| cls := cls f; fid := fid f; sfid := sfid f; name := name f; parent := parent f; profile := profile f;
     service_attr := service_attr f; own_decoder := own_decoder f; children := children f;
     files_by_service := files_by_service f; applications := applications f; aid := x;
     has_fs := fs; application := application f |}.

(** [CardADF(aid, has_fs, ...)] *)
Definition new_adf (x : str) (fs : bool) (a : file_args) : H nat :=
  h ← get;
  let i := new_id h in
  init_file i CardADF a;;
  update_obj i (set_adf (str_lower x) fs);;
  h ← get;
  mf ← lift (get_mf h i);
  match mf with Some mf => add_application_df mf i | None => mret () end;;
  mret i.

(** [CardApplication(name, adf, aid, sw)] *)
Definition new_application (n : str) (adf : option nat) (x : option str) (sw : sw_data) : H CardApplication :=
  let x := str_lower <$> filled x in
  match adf with
  | Some i =>
      h ← get;
      f ← lift (obj h i);
      let app := {| app_name := n; app_aid := Some (default (aid f) x); app_sw := sw |} in
      update_obj i (set_application (Some app));;
      mret app
  | None => mret {| app_name := n; app_aid := x; app_sw := sw |}
  end.
End adding.

(** ** Status words and responses to SELECT *)

(** The first pattern of a class that matches. *)
Fixpoint sw_pattern (swdict : list (str * str)) (sw : str) : result (option str) :=
  match swdict with
  | [] => Ok None
  | (pattern, descr) :: swdict' =>
      b ← sw_match sw pattern; if (b : bool) then Ok (Some descr) else sw_pattern swdict' sw
  end.

Fixpoint interpret_sw (data : sw_data) (sw : str) : result (option (str * str)) :=
  match data with
  | [] => Ok None
  | (class_str, swdict) :: data' =>
      match kv_get sw swdict with
      | Some descr => Ok (Some (class_str, descr))
      | None =>
          m ← sw_pattern swdict sw;
          match m with Some descr => Ok (Some (class_str, descr)) | None => interpret_sw data' sw end
      end
  end.

Section responses.
Context (h : heap).

Fixpoint profile_above (fuel : nat) (i : nat) : result (option CardProfile) :=
  match fuel with
  | O => Err OutOfFuel
  | S n =>
      f ← obj h i;
      match profile f with
      | Some p => Ok (Some p)
      | None => match parent f with Some p => profile_above n p | None => Ok None end
      end
  end.
Definition get_profile (i : nat) : result (option CardProfile) := profile_above (enough h) i.

(** [CardMF.decode_select_response] for the MF, [CardFile.decode_select_response] otherwise. *)
Fixpoint decode_response (fuel : nat) (i : nat) (data_hex : str) : result value :=
  match fuel with
  | O => Err OutOfFuel
  | S n =>
      f ← obj h i;
      match own_decoder f with
      | Some decoder => decoder data_hex
      | None =>
          if is_mf (cls f) then
            if bool_decide (data_hex = []) then Ok (VStr data_hex)
            else
              p ← get_profile i;
              match p with Some p => profile_decode_select_response p data_hex | None => Ok (VStr data_hex) end
          else match parent f with Some p => decode_response n p data_hex | None => Ok VNone end
      end
  end.
Definition decode_select_response (i : nat) (data_hex : str) : result value := decode_response (enough h) i data_hex.
End responses.

(** ** Paths are the chains of parents

    [path_to h i l]: the files from the root down to [i], which is what the
    code means by a fully qualified path. *)
Inductive path_to (h : heap) : nat → list nat → Prop :=
| path_root i f : h !! i = Some f → parent f = None ∨ parent f = Some i → path_to h i [i]
| path_below i f p l :
    h !! i = Some f → parent f = Some p → p ≠ i → path_to h p l → path_to h i (l ++ [i]).

Lemma obj_ok h i f : h !! i = Some f → obj h i = Ok f.
Proof. intros E. unfold obj. by rewrite E. Qed.

Lemma obj_inv h i f : obj h i = Ok f → h !! i = Some f.
Proof. intros E. by apply from_opt_ok in E. Qed.

Lemma obj_err h i e : obj h i = Err e → h !! i = None.
Proof. unfold obj. by destruct (h !! i). Qed.

Section path_facts.
Context (h : heap).

Lemma path_to_det i l : path_to h i l → ∀ l', path_to h i l' → l = l'.
Proof.
  induction 1 as [i f Hf Hp|i f p l Hf Hp Hne Hl IH]; intros l' H'; inversion H'; simplify_eq.
  - done.
  - destruct Hp; simplify_eq.
  - match goal with X : _ ∨ _ |- _ => destruct X; simplify_eq end.
  - f_equal. by apply IH.
Qed.

Lemma path_to_split i l : path_to h i l → ∃ l', l = l' ++ [i].
Proof. destruct 1; [by exists []|eauto]. Qed.

Lemma path_to_in i l : path_to h i l → ∀ a, a ∈ l → is_Some (h !! a).
Proof.
  induction 1; intros a Ha; [set_solver|].
  apply elem_of_app in Ha as [Ha|Ha%list_elem_of_singleton]; [by auto|subst; eauto].
Qed.

Lemma path_to_prefix i l : path_to h i l → ∀ l1 a l2, l = l1 ++ a :: l2 → path_to h a (l1 ++ [a]).
Proof.
  induction 1 as [i f Hf Hp|i f p l Hf Hp Hne Hl IH]; intros l1 a l2 E.
  - destruct l1 as [|b l1]; [|by destruct l1]. simplify_eq/=. by eapply path_root.
  - destruct l2 as [|b l2 _] using rev_ind.
    + apply app_inj_tail in E as [<- <-]. by eapply path_below.
    + rewrite app_comm_cons, app_assoc in E. apply app_inj_tail in E as [E _]. by apply (IH _ _ l2).
Qed.

Lemma path_to_nodup i l : path_to h i l → NoDup l.
Proof.
  induction 1 as [i f Hf Hp|i f p l Hf Hp Hne Hl IH]; [apply list.NoDup_singleton|].
  apply list.NoDup_app. split_and!; [done| |apply list.NoDup_singleton].
  intros x Hx ->%list_elem_of_singleton. apply list_elem_of_split in Hx as (l1 & l2 & ->).
  pose proof (path_to_prefix _ _ Hl _ _ _ eq_refl) as H1.
  assert (H2 : path_to h i ((l1 ++ i :: l2) ++ [i])) by by eapply path_below.
  pose proof (path_to_det _ _ H1 _ H2) as E%(f_equal length).
  rewrite !length_app in E. cbn in E. lia.
Qed.

Lemma path_to_length i l : path_to h i l → (length l <= size h)%nat.
Proof.
  intros Hl. rewrite <- (size_dom (D := gset nat)).
  rewrite <- (size_list_to_set (C := gset nat) l) by by eapply path_to_nodup.
  apply subseteq_size. intros a Ha%elem_of_list_to_set. apply elem_of_dom. by eapply path_to_in.
Qed.

Lemma path_objs_ok i l : path_to h i l → ∀ n, (length l <= n)%nat → path_objs h n i = Ok l.
Proof.
  induction 1 as [i f Hf Hp|i f p l Hf Hp Hne Hl IH]; intros [|n] Hn;
    try (exfalso; rewrite ?length_app in Hn; cbn in Hn; lia); cbn.
  - rewrite (obj_ok _ _ _ Hf). cbn. destruct Hp as [->| ->]; [done|]. by rewrite decide_True.
  - rewrite length_app in Hn. cbn in Hn. rewrite (obj_ok _ _ _ Hf). cbn. rewrite Hp, decide_False by done.
    by rewrite IH by lia.
Qed.

Lemma fully_qualified_path_fobj_ok i l : path_to h i l → fully_qualified_path_fobj h i = Ok l.
Proof. intros Hl. apply path_objs_ok; [done|]. pose proof (path_to_length _ _ Hl). unfold enough. lia. Qed.

Lemma climb_ok i l : path_to h i l → ∀ r l' n, l = r :: l' → (length l <= n)%nat → climb h n i = Ok r.
Proof.
  induction 1 as [i f Hf Hp|i f p l Hf Hp Hne Hl IH]; intros r l' [|n] E Hn;
    try (exfalso; rewrite ?length_app in Hn; cbn in Hn; lia); cbn.
  - simplify_eq. rewrite (obj_ok _ _ _ Hf). cbn. destruct Hp as [->| ->]; [done|]. by rewrite decide_True.
  - rewrite length_app in Hn. cbn in Hn. rewrite (obj_ok _ _ _ Hf). cbn. rewrite Hp, decide_False by done.
    destruct l as [|r0 l]; [by apply path_to_split in Hl as [[|??] ?]|].
    simplify_eq/=. eapply IH; [done|]. cbn. lia.
Qed.

Lemma get_mf_ok i f l r : h !! i = Some f → path_to h i (r :: l) → parent f ≠ None → get_mf h i = Ok (Some r).
Proof.
  intros Hf Hl Hp. unfold get_mf. rewrite (obj_ok _ _ _ Hf). rewrite R_bind_Ok. destruct (parent f); [|done]. unfold enough.
  rewrite (climb_ok _ _ Hl r l); [done..|]. pose proof (path_to_length _ _ Hl). lia.
Qed.
End path_facts.

(** ** The relative path to a file

    [step h a b]: with [a] selected, [b] can be selected: an application and
    the MF from anywhere, otherwise the parent or a child. *)
Definition parent_is (h : heap) (a p : nat) : Prop := ∃ f, h !! a = Some f ∧ parent f = Some p ∧ p ≠ a.

Definition step (h : heap) (a b : nat) : Prop :=
  obj_is h is_adf b = true ∨ obj_is h is_mf b = true ∨ parent_is h a b ∨ parent_is h b a.

Inductive walk (h : heap) : nat → list nat → nat → Prop :=
| walk_nil a : walk h a [] a
| walk_cons a b p c : step h a b → walk h b p c → walk h a (b :: p) c.

Section routes.
Context (h : heap).

Lemma walk_app a p b q c : walk h a p b → walk h b q c → walk h a (p ++ q) c.
Proof. induction 1; intros; [done|]. eapply walk_cons; eauto. Qed.

Lemma walk_tail a p b q c : walk h a (p ++ b :: q) c → walk h b q c.
Proof.
  revert a. induction p as [|x p IH]; intros a Hw; inversion Hw; subst; [done|]. by eapply IH.
Qed.

Lemma walk_end a p c : walk h a p c → list.last (a :: p) = Some c.
Proof. induction 1; [done|]. by destruct p. Qed.

Lemma walk_down t l : path_to h t l → ∀ pre ce rest, l = pre ++ ce :: rest → walk h ce rest t.
Proof.
  induction 1 as [i f Hf Hp|i f p l Hf Hp Hne Hl IH]; intros pre ce rest E.
  - destruct pre as [|? [|]]; simplify_eq/=. constructor.
  - destruct rest as [|b rest _] using rev_ind.
    + apply app_inj_tail in E as [_ <-]. constructor.
    + rewrite app_comm_cons, app_assoc in E. apply app_inj_tail in E as [E <-].
      eapply walk_app; [by eapply IH|]. eapply walk_cons; [|constructor].
      right. right. right. by exists f.
Qed.

Lemma walk_up s l : path_to h s l → ∀ pre ce rest, l = pre ++ ce :: rest → walk h s (drop 1 (rev (ce :: rest))) ce.
Proof.
  induction 1 as [i f Hf Hp|i f p l Hf Hp Hne Hl IH]; intros pre ce rest E.
  - destruct pre as [|? [|]]; simplify_eq/=. constructor.
  - destruct rest as [|b rest _] using rev_ind.
    + apply app_inj_tail in E as [_ <-]. constructor.
    + rewrite app_comm_cons, app_assoc in E. apply app_inj_tail in E as [E <-].
      specialize (IH _ _ _ E). rewrite app_comm_cons, rev_app_distr. cbn [rev app drop].
      pose proof (path_to_split _ _ _ Hl) as [l' ->].
      destruct (rev (ce :: rest)) as [|q up] eqn:Eq.
      { by apply (f_equal length) in Eq; rewrite length_rev in Eq. }
      cbn [rev app] in IH, Eq. rewrite Eq.
      assert (q = p) as ->.
      { apply (f_equal (@rev _)) in E. rewrite !rev_app_distr in E. cbn [rev app] in E. rewrite Eq in E.
        by simplify_eq/=. }
      eapply walk_cons; [|exact IH]. right. right. left. by exists f.
Qed.

Lemma after_some ce t rest : after ce t = Some rest → rest ≠ [] ∧ ∃ pre, t = pre ++ ce :: rest.
Proof.
  induction t as [|x [|y t] IH]; cbn; [done..|]. destruct (decide (x = ce)) as [->|_].
  - intros [= <-]. split; [done|]. by exists [].
  - intros E. destruct (IH E) as (Hne & pre & ->). split; [done|]. by exists (x :: pre).
Qed.

Lemma after_none ce t : after ce t = None → ∀ pre rest, t = pre ++ ce :: rest → rest = [].
Proof.
  induction t as [|x [|y t] IH]; cbn; intros E pre rest; [by destruct pre|by destruct pre as [|? [|]]; intros; simplify_eq/=|].
  destruct (decide (x = ce)) as [->|]; [done|].
  destruct pre as [|z pre]; intros; simplify_eq/=. by eapply IH.
Qed.

Lemma find_common_some cur t : ∀ inter p, find_common h cur t inter = Some p →
  ∃ up ce cur' pre rest, cur = up ++ ce :: cur' ∧ t = pre ++ ce :: rest ∧ rest ≠ [] ∧
    p = clip_path h (drop 1 (inter ++ up ++ ce :: rest)).
Proof.
  induction cur as [|c cur IH]; intros inter p; cbn; [done|].
  destruct (after c t) as [rest|] eqn:E.
  - intros [= <-]. apply after_some in E as (Hne & pre & ->).
    by exists [], c, cur, pre, rest.
  - intros (up & ce & cur' & pre & rest & -> & -> & Hne & ->)%IH.
    exists (c :: up), ce, cur', pre, rest. split_and!; [done..|]. by rewrite <- !app_assoc.
Qed.

Lemma find_common_none cur t : ∀ inter, find_common h cur t inter = None → ∀ ce, ce ∈ cur → after ce t = None.
Proof.
  induction cur as [|c cur IH]; intros inter; cbn; [set_solver|].
  destruct (after c t) eqn:E; [done|]. intros ? ce [->|]%elem_of_cons; eauto.
Qed.

Lemma clip_from_spec p n : (n <= length p)%nat → (∀ k f, (n <= k)%nat → p !! k = Some f → obj_is h is_adf f = false) →
  ∃ k, clip_from h n p = drop k p ∧ (∀ j f, (k < j)%nat → p !! j = Some f → obj_is h is_adf f = false) ∧
    (k = O ∨ ∃ f, p !! k = Some f ∧ obj_is h is_adf f = true).
Proof.
  induction n as [|n IH]; intros Hn Hno; cbn.
  - exists O. split_and!; [done| |by left]. intros j f Hj. apply Hno. lia.
  - destruct (lookup_lt_is_Some_2 p n) as [f Hf]; [lia|]. rewrite Hf.
    destruct (obj_is h is_adf f) eqn:Ef.
    + exists n. split_and!; [done| |eauto]. intros j g Hj. apply Hno. lia.
    + apply IH; [lia|]. intros k g Hk Hg. destruct (decide (k = n)); [simplify_eq; done|]. apply (Hno k); [lia|done].
Qed.

Lemma clip_walk a p c : p ≠ [] → walk h a p c →
  clip_path h p ≠ [] ∧ walk h a (clip_path h p) c ∧
  (∀ j f, clip_path h p !! S j = Some f → obj_is h is_adf f = false).
Proof.
  intros Hne Hw. unfold clip_path.
  destruct (clip_from_spec p (length p)) as (k & -> & Hno & Hk); [done| |].
  { intros k f Hk Hf. apply lookup_lt_Some in Hf. lia. }
  assert (drop k p ≠ [] ∧ walk h a (drop k p) c) as [H1 H2].
  { destruct Hk as [->|(f & Hf & Ha)]; [done|].
    pose proof (take_drop_middle _ _ _ Hf) as E. pose proof (drop_S _ _ _ Hf) as Hd. rewrite Hd.
    split; [done|]. rewrite <- E in Hw. apply walk_tail in Hw. eapply walk_cons; [by left|done]. }
  split_and!; [done..|]. intros j f. rewrite lookup_drop. apply Hno. lia.
Qed.

Lemma in_drop {A} (x : A) k l : x ∈ drop k l → x ∈ l.
Proof. intros Hx. rewrite <- (take_drop k l). set_solver. Qed.

Lemma find_common_in cur t : ∀ inter p, find_common h cur t inter = Some p →
  ∀ x, x ∈ p → x ∈ inter ∨ x ∈ cur ∨ x ∈ t.
Proof.
  intros inter p E x Hx. apply find_common_some in E as (up & ce & cur' & pre & rest & -> & -> & _ & ->).
  assert (x ∈ inter ++ up ++ ce :: rest) as Hx'.
  { unfold clip_path in Hx. set (q := drop 1 (inter ++ up ++ ce :: rest)) in *.
    destruct (clip_from_spec q (length q)) as (k & E & _); [done| |].
    { intros k f Hk Hf. apply lookup_lt_Some in Hf. lia. }
    rewrite E in Hx. apply in_drop in Hx. unfold q in Hx. by apply in_drop in Hx. }
  rewrite !elem_of_app, !elem_of_cons in *. tauto.
Qed.

(** In one tree a path to the target is always found; each of its files can
    be selected with the one before selected, and only its first file may be
    an application. *)
Lemma find_common_walk self target root l1 l2 :
  path_to h self (root :: l1) → path_to h target (root :: l2) → target ≠ root →
  ∃ p, find_common h (rev (root :: l1)) (root :: l2) [] = Some p ∧ p ≠ [] ∧ walk h self p target ∧
    (∀ j f, p !! S j = Some f → obj_is h is_adf f = false).
Proof.
  intros H1 H2 Hne.
  assert (l2 ≠ []) as Hl2.
  { intros ->. apply path_to_split in H2 as [[|x l] E]; [simplify_eq/=; done|by destruct l]. }
  destruct (find_common h (rev (root :: l1)) (root :: l2) []) as [p|] eqn:E; cycle 1.
  { exfalso. apply Hl2. refine (after_none root (root :: l2) _ [] l2 eq_refl).
    eapply find_common_none; [exact E|]. cbn. set_solver. }
  exists p. split; [done|].
  apply find_common_some in E as (up & ce & cur' & pre & rest & Ecur & Et & Hrest & ->).
  apply clip_walk.
  - intros E%(f_equal length). rewrite length_drop, !length_app in E. destruct rest; [done|]. cbn in E. lia.
  - apply (f_equal (@rev _)) in Ecur. rewrite rev_involutive, rev_app_distr in Ecur. cbn [rev] in Ecur.
    rewrite <- app_assoc in Ecur. cbn [app] in Ecur.
    pose proof (walk_up _ _ H1 _ _ _ Ecur) as Hup. pose proof (walk_down _ _ H2 _ _ _ Et) as Hdown.
    cbn [rev app] in Hup. rewrite rev_involutive in Hup.
    replace (drop 1 ([] ++ up ++ ce :: rest)) with (drop 1 (up ++ [ce]) ++ rest).
    { by eapply walk_app. }
    destruct up; [done|]. cbn. rewrite !drop_0. by rewrite <- app_assoc.
Qed.
End routes.

(** ** The invariant of the tree

    [wf h]: every file hangs below a root along [parent]; the dicts of
    children and applications hold exactly the files that name the DF as
    their parent, under their own FID or AID; within a DF names and short
    FIDs are unique; the MF, and only the MF, is its own parent. *)
Definition unique_by {A} (key : CardFile → option A) (h : heap) (l : list nat) : Prop :=
  ∀ a b fa fb, a ∈ l → b ∈ l → h !! a = Some fa → h !! b = Some fb → is_Some (key fa) → key fa = key fb → a = b.

Record wf_file (h : heap) (i : nat) (f : CardFile) : Prop := {
  wf_path : ∃ l, path_to h i l;
  wf_child : ∀ k c, (k, c) ∈ children f →
    ∃ cf, h !! c = Some cf ∧ parent cf = Some i ∧ c ≠ i ∧ fid cf = Some k ∧ k ≠ [];
  wf_child_keys : NoDup (children f).*1;
  wf_names : unique_by (filled ∘ name) h (children f).*2;
  wf_sfids : unique_by sfid h (children f).*2;
  wf_app : ∀ k a, (k, a) ∈ applications f →
    ∃ af, h !! a = Some af ∧ parent af = Some i ∧ a ≠ i ∧ aid af = k ∧ is_adf (cls af) = true;
  wf_app_keys : NoDup (applications f).*1;
  wf_listed : ∀ p, parent f = Some p → p ≠ i → ∃ pf, h !! p = Some pf ∧ is_df (cls pf) = true ∧
    (i ∈ (children pf).*2 ∨ is_mf (cls pf) = true ∧ i ∈ (applications pf).*2);
  wf_mf : is_mf (cls f) = true ↔ parent f = Some i;
  wf_leaf : is_df (cls f) = false → children f = [];
  wf_no_apps : is_mf (cls f) = false → applications f = [];
  wf_ready : is_Some (service_attr f) }.

Definition wf (h : heap) : Prop := map_Forall (wf_file h) h.

(** Heaps that differ in the service tables and the back-references of
    applications only. *)
Definition skeleton (f : CardFile) : CardFile := set_application None (set_files_by_service [] f).
Definition same_tree (h h' : heap) : Prop := skeleton <$> h = skeleton <$> h'.

#[export] Instance same_tree_equiv : Equivalence same_tree.
Proof. split; unfold same_tree; [done| |]; congruence. Qed.

Lemma same_tree_lookup h h' i f : same_tree h h' → h !! i = Some f →
  ∃ f', h' !! i = Some f' ∧ skeleton f = skeleton f'.
Proof.
  intros E Hf. apply (f_equal (lookup i)) in E. rewrite !lookup_fmap, Hf in E. cbn in E.
  destruct (h' !! i) as [f'|]; [|done]. exists f'. split; [done|]. by apply (inj Some) in E.
Qed.

(** The equations between the fields of files with the same skeleton. *)
Lemma skeleton_eq f f' : skeleton f = skeleton f' →
  cls f = cls f' ∧ fid f = fid f' ∧ sfid f = sfid f' ∧ name f = name f' ∧ parent f = parent f' ∧
  service_attr f = service_attr f' ∧ children f = children f' ∧ applications f = applications f' ∧
  aid f = aid f' ∧ has_fs f = has_fs f' ∧ own_decoder f = own_decoder f' ∧ profile f = profile f'.
Proof. intros [=]. done. Qed.

Ltac same_fields :=
  repeat match goal with
  | E : skeleton _ = skeleton _ |- _ => apply skeleton_eq in E as (? & ? & ? & ? & ? & ? & ? & ? & ? & ? & ? & ?)
  end.

Lemma path_to_same h h' i l : same_tree h h' → path_to h i l → path_to h' i l.
Proof.
  intros E. induction 1 as [i f Hf Hp|i f p l Hf Hp Hne Hl IH];
    destruct (same_tree_lookup _ _ _ _ E Hf) as (f' & Hf' & Es); same_fields.
  - eapply path_root; [done|]. congruence.
  - eapply (path_below _ i f' p); [done|congruence|done..].
Qed.

#[export] Instance path_to_proper : Proper (same_tree ==> eq ==> eq ==> iff) path_to.
Proof. intros h h' E i ? <- l ? <-. split; apply path_to_same; [done|by symmetry]. Qed.

Lemma wf_same h h' : same_tree h h' → wf h → wf h'.
Proof.
  intros E Hwf i f' Hf'. destruct (same_tree_lookup _ _ _ _ (symmetry E) Hf') as (f & Hf & Es).
  destruct (Hwf i f Hf) as [H1 H2 H3 H4 H5 H6 H7 H8 H9 H10 H11 H12]. same_fields.
  assert (Hget : ∀ j g, h !! j = Some g → ∃ g', h' !! j = Some g' ∧ skeleton g = skeleton g')
    by (intros; by eapply same_tree_lookup).
  assert (Hget' : ∀ j g, h' !! j = Some g → ∃ g', h !! j = Some g' ∧ skeleton g = skeleton g')
    by (intros; by eapply same_tree_lookup).
  split.
  - destruct H1 as [l Hl]. exists l. by rewrite <- E.
  - intros k c Hc. destruct (H2 k c) as (cf & Hcf & ?); [congruence|].
    destruct (Hget _ _ Hcf) as (cf' & Hcf' & Es). same_fields. exists cf'. split; [done|]. by intuition congruence.
  - congruence.
  - intros a b fa fb Ha Hb Hfa Hfb. destruct (Hget' _ _ Hfa) as (ga & ? & ?), (Hget' _ _ Hfb) as (gb & ? & ?).
    same_fields. intros Hs Ek. apply (H4 a b ga gb); unfold compose in *; congruence.
  - intros a b fa fb Ha Hb Hfa Hfb. destruct (Hget' _ _ Hfa) as (ga & ? & ?), (Hget' _ _ Hfb) as (gb & ? & ?).
    same_fields. intros Hs Ek. apply (H5 a b ga gb); congruence.
  - intros k c Hc. destruct (H6 k c) as (cf & Hcf & ?); [congruence|].
    destruct (Hget _ _ Hcf) as (cf' & Hcf' & Es). same_fields. exists cf'. split; [done|]. by intuition congruence.
  - congruence.
  - intros p Hp Hne. destruct (H8 p) as (pf & Hpf & Hd & Hin); [congruence|done|].
    destruct (Hget _ _ Hpf) as (pf' & Hpf' & Es). same_fields. exists pf'. split; [done|].
    split; [congruence|]. destruct Hin as [|[]]; [left|right]; [|split]; congruence.
  - replace (cls f') with (cls f) by congruence. replace (parent f') with (parent f) by congruence. done.
  - intros. transitivity (children f); [congruence|]. apply H10. congruence.
  - intros. transitivity (applications f); [congruence|]. apply H11. congruence.
  - congruence.
Qed.

#[export] Instance wf_proper : Proper (same_tree ==> iff) wf.
Proof. intros h h' E. split; apply wf_same; [done|by symmetry]. Qed.

(** *** The service tables are all that entering services changes *)

Lemma update_obj_ok i g (h : heap) f : h !! i = Some f → update_obj i g h = (Ok (), <[i := g f]> h).
Proof. intros E. unfold update_obj. mrun. by rewrite (obj_ok _ _ _ E). Qed.

Lemma add_file_services_same d c (h : heap) : same_tree h (_add_file_services d c h).2.
Proof.
  unfold _add_file_services. mrun. destruct (obj h c) as [cf|]; [|done].
  mrun. destruct (service_of cf) as [[s|]|]; [|done..]. mrun. destruct (service_truth (Some s)); [|done].
  unfold update_obj. mrun. destruct (obj h d) as [df|] eqn:Ed; [|done]. apply obj_inv in Ed. cbn [snd].
  unfold same_tree. rewrite fmap_insert. symmetry. apply insert_id. rewrite lookup_fmap, Ed. done.
Qed.

Lemma for_each_same {A} (l : list A) f : (∀ x (h : heap), same_tree h (f x h).2) →
  ∀ h, same_tree h (for_each l f h).2.
Proof.
  intros Hf. induction l as [|x l IH]; intros h; cbn; [done|]. mrun.
  pose proof (Hf x h) as E. destruct (f x h) as [[u|e] h']; cbn in *; [|done]. etrans; [exact E|apply IH].
Qed.

Lemma add_services_below_same d c (h : heap) : same_tree h (add_services_below d c h).2.
Proof.
  unfold add_services_below. mrun. destruct (obj h c) as [cf|]; [|done]. mrun. apply for_each_same. clear. intros g h.
  mrun. pose proof (add_file_services_same d g h) as E.
  destruct (_add_file_services d g h) as [[u|e] h']; cbn [snd] in E; [|exact E]. rewrite E. clear. mrun.
  destruct (obj h' g) as [gf|]; [|done]. mrun. destruct (is_df (cls gf)); [|done].
  apply for_each_same. clear. intros gc h. mrun. destruct (obj h gc) as [gcf|]; [|done].
  mrun. destruct (is_df (cls gcf)); [|done]. mrun. destruct (_has_service h gc) as [[]|]; done.
Qed.

(** *** Hanging a detached file below a DF *)

Lemma wf_get (h : heap) i f : wf h → h !! i = Some f → wf_file h i f.
Proof. intros Hwf. by apply Hwf. Qed.

Section link.
Context (h : heap) (d c : nat) (df cf : CardFile) (nc na : list (str * nat)).
Context (Hwf : wf h) (Hd : h !! d = Some df) (Hc : h !! c = Some cf) (Hdet : parent cf = None).
Context (root : nat) (pd : list nat) (Hpd : path_to h d (root :: pd)) (Hroot : root ≠ c).
Context (Hdf : is_df (cls df) = true) (Hdmf : is_mf (cls df) = false → na = []).
Context (Hnc : ∀ k x, (k, x) ∈ nc → x = c ∧ fid cf = Some k ∧ k ≠ []).
Context (Hnck : NoDup (children df ++ nc).*1).
Context (Hnames : unique_by (filled ∘ name) h (children df ++ nc).*2).
Context (Hsfids : unique_by sfid h (children df ++ nc).*2).
Context (Hna : ∀ k x, (k, x) ∈ na → x = c ∧ aid cf = k ∧ is_adf (cls cf) = true).
Context (Hnak : NoDup (applications df ++ na).*1).
Context (Hin : c ∈ nc.*2 ∨ is_mf (cls df) = true ∧ c ∈ na.*2).

(** The new state of object [i]. *)
Definition linked (i : nat) (f : CardFile) : CardFile :=
  if decide (i = c) then set_parent (Some d) f
  else if decide (i = d) then set_applications (applications df ++ na) (set_children (children df ++ nc) f)
  else f.
Context (h' : heap) (Hh' : ∀ i, h' !! i = linked i <$> h !! i).

Lemma link_ne : c ≠ d.
Proof.
  intros ->. simplify_eq. inversion Hpd; simplify_eq.
Qed.

Lemma linked_same i f : cls (linked i f) = cls f ∧ fid (linked i f) = fid f ∧ sfid (linked i f) = sfid f ∧
  name (linked i f) = name f ∧ aid (linked i f) = aid f.
Proof. unfold linked. by repeat case_decide. Qed.

Lemma linked_parent i f : i ≠ c → parent (linked i f) = parent f.
Proof. intros. unfold linked. rewrite decide_False by done. by case_decide. Qed.

Lemma linked_children i f : h !! i = Some f → children (linked i f) = children f ∨
  (i = d ∧ children (linked i f) = children df ++ nc).
Proof. intros. unfold linked. repeat case_decide; [by left|by right|by left]. Qed.

Lemma linked_applications i f : h !! i = Some f → applications (linked i f) = applications f ∨
  (i = d ∧ applications (linked i f) = applications df ++ na).
Proof. intros. unfold linked. repeat case_decide; [by left|by right|by left]. Qed.

Lemma link_lookup i f : h !! i = Some f → h' !! i = Some (linked i f).
Proof. intros E. by rewrite Hh', E. Qed.

Lemma link_path_other x l : path_to h x l → head l ≠ Some c → path_to h' x l.
Proof.
  induction 1 as [i f Hf Hp|i f p l Hf Hp Hne Hl IH]; intros Hh.
  - apply link_lookup in Hf as Hf'. eapply path_root; [done|]. rewrite linked_parent; [done|]. by intros ->.
  - apply link_lookup in Hf as Hf'. eapply (path_below _ i _ p); [done| |done|].
    + rewrite linked_parent; [done|]. intros ->. simplify_eq.
    + apply IH. intros E. apply Hh. by destruct l.
Qed.

Lemma link_path_below x l : path_to h x l → ∀ l', l = c :: l' → path_to h' x (root :: pd ++ l).
Proof.
  pose proof link_ne as Hcd.
  induction 1 as [i f Hf Hp|i f p l Hf Hp Hne Hl IH]; intros l' E.
  - injection E as -> <-. pose proof (link_lookup _ _ Hc) as Hf'. rewrite app_comm_cons.
    eapply (path_below _ c _ d); [done| | |].
    + unfold linked. by rewrite decide_True.
    + congruence.
    + apply link_path_other; [done|]. cbn. congruence.
  - destruct l as [|z l]; [by apply path_to_split in Hl as [[|??] ?]|]. simplify_eq/=.
    change (root :: pd ++ c :: l ++ [i]) with ((root :: pd) ++ (c :: l) ++ [i]). rewrite app_assoc.
    apply link_lookup in Hf as Hf'. eapply (path_below _ i _ p); [done| |done|].
    + rewrite linked_parent; [done|]. intros ->. simplify_eq.
    + by eapply IH.
Qed.

Lemma link_unique {A} (key : CardFile → option A) l :
  (∀ i f, key (linked i f) = key f) → unique_by key h l → unique_by key h' l.
Proof.
  intros Hk Hu a b fa fb Ha Hb Hfa Hfb. rewrite Hh' in Hfa, Hfb.
  apply fmap_Some in Hfa as (ga & Ega & ->), Hfb as (gb & Egb & ->). rewrite !Hk. by apply Hu.
Qed.

Lemma link_wf : wf h'.
Proof.
  intros i f' Hf'. rewrite Hh' in Hf'. apply fmap_Some in Hf' as (f & Hf & ->).
  destruct (wf_get _ _ _ Hwf Hf) as [H1 H2 H3 H4 H5 H6 H7 H8 H9 H10 H11 H12].
  destruct (linked_same i f) as (Ec & _). pose proof link_ne as Hcd. split; rewrite ?Ec.
  - destruct H1 as [l Hl]. destruct (decide (head l = Some c)) as [E|E].
    + destruct l as [|z l]; simplify_eq/=. eexists. by eapply link_path_below.
    + exists l. by apply link_path_other.
  - intros k x Hx.
    assert ((k, x) ∈ children f ∨ i = d ∧ (k, x) ∈ nc) as [Hx'|(-> & Hx')].
    { destruct (linked_children i f Hf) as [E|[-> E]]; rewrite E in Hx; [by left|]. simplify_eq.
      apply elem_of_app in Hx as [|]; auto. }
    + destruct (H2 k x Hx') as (xf & Hxf & Hp & Hne & Hfid & Hk). exists (linked x xf).
      split; [by apply link_lookup|]. destruct (linked_same x xf) as (_ & -> & _).
      split_and!; [|done..]. rewrite linked_parent; [done|]. intros ->. simplify_eq.
    + destruct (Hnc _ _ Hx') as (-> & Hfid & Hk). exists (linked c cf). split; [by apply link_lookup|].
      destruct (linked_same c cf) as (_ & -> & _). split_and!; [|done..]. unfold linked. by rewrite decide_True.
  - destruct (linked_children i f Hf) as [->|[-> ->]]; done.
  - destruct (linked_children i f Hf) as [->|[-> ->]];
      (apply link_unique; [intros j g; unfold compose; by destruct (linked_same j g) as (_ & _ & _ & -> & _)|done]).
  - destruct (linked_children i f Hf) as [->|[-> ->]];
      (apply link_unique; [intros j g; by destruct (linked_same j g) as (_ & _ & -> & _)|done]).
  - intros k x Hx.
    assert ((k, x) ∈ applications f ∨ i = d ∧ (k, x) ∈ na) as [Hx'|(-> & Hx')].
    { destruct (linked_applications i f Hf) as [E|[-> E]]; rewrite E in Hx; [by left|]. simplify_eq.
      apply elem_of_app in Hx as [|]; auto. }
    + destruct (H6 k x Hx') as (xf & Hxf & Hp & Hne & Haid & Hk). exists (linked x xf).
      split; [by apply link_lookup|]. destruct (linked_same x xf) as (-> & _ & _ & _ & ->).
      split_and!; [|done..]. rewrite linked_parent; [done|]. intros ->. simplify_eq.
    + destruct (Hna _ _ Hx') as (-> & Haid & Hk). exists (linked c cf). split; [by apply link_lookup|].
      destruct (linked_same c cf) as (-> & _ & _ & _ & ->). split_and!; [|done..].
      unfold linked. by rewrite decide_True.
  - destruct (linked_applications i f Hf) as [->|[-> ->]]; done.
  - intros p Hp Hne. destruct (decide (i = c)) as [->|Hic].
    + unfold linked in Hp. rewrite decide_True in Hp by done. cbn in Hp. injection Hp as <-.
      exists (linked d df). split; [by apply link_lookup|]. destruct (linked_same d df) as (-> & _).
      split; [done|]. unfold linked. rewrite decide_False, decide_True by done. cbn. rewrite !fmap_app.
      destruct Hin as [|[]]; [left|right; split; [done|]]; set_solver.
    + rewrite linked_parent in Hp by done. destruct (H8 p Hp Hne) as (pf & Hpf & Hpd' & Hl).
      exists (linked p pf). split; [by apply link_lookup|]. destruct (linked_same p pf) as (-> & _).
      split; [done|]. destruct Hl as [Hl|[Hm Hl]]; [left|right; split; [done|]].
      * destruct (linked_children p pf Hpf) as [->|[-> ->]]; [done|]. simplify_eq. rewrite fmap_app. set_solver.
      * destruct (linked_applications p pf Hpf) as [->|[-> ->]]; [done|]. simplify_eq. rewrite fmap_app. set_solver.
  - destruct (decide (i = c)) as [->|Hic]; [|by rewrite linked_parent].
    simplify_eq. unfold linked. rewrite decide_True by done. cbn. rewrite H9, Hdet.
    split; [done|]. intros [= ->]. done.
  - intros E. destruct (linked_children i f Hf) as [->|[-> ->]]; [auto|]. simplify_eq. congruence.
  - intros E. destruct (linked_applications i f Hf) as [->|[-> ->]]; [auto|]. simplify_eq.
    rewrite Hdmf by done. rewrite app_nil_r. auto.
  - unfold linked. by repeat case_decide.
Qed.
End link.

(** ** Adding files keeps the invariant *)

Lemma kv_get_none {K V} `{EqDecision K} (k : K) (l : list (K * V)) : kv_get k l = None ↔ k ∉ l.*1.
Proof. induction l as [|[k' v] l IH]; cbn; [set_solver|]. case_decide; [set_solver|]. rewrite IH. set_solver. Qed.

Lemma kv_set_fresh {K V} `{EqDecision K} (k : K) (v : V) l : kv_get k l = None → kv_set k v l = l ++ [(k, v)].
Proof. induction l as [|[k' v'] l IH]; cbn; [done|]. case_decide; [done|]. intros E. by rewrite IH. Qed.

Lemma find_child_none h p l : find_child h p l = Ok None → ∀ i, i ∈ l → ∃ f, h !! i = Some f ∧ p f = false.
Proof.
  induction l as [|j l IH]; cbn; [set_solver|]. intros E i Hi.
  destruct (obj h j) as [f|] eqn:Ej; [|done]. apply obj_inv in Ej. cbn in E.
  destruct (p f) eqn:Ep; [done|]. apply elem_of_cons in Hi as [->|Hi]; eauto.
Qed.

Lemma unique_by_app {A} (key : CardFile → option A) h l c cf :
  unique_by key h l → h !! c = Some cf →
  (∀ i, i ∈ l → ∃ f, h !! i = Some f ∧ (is_Some (key cf) → key f ≠ key cf)) → unique_by key h (l ++ [c]).
Proof.
  intros Hu Hc Hl a b fa fb Ha Hb Hfa Hfb Hs Ek.
  apply elem_of_app in Ha as [Ha|Ha%list_elem_of_singleton], Hb as [Hb|Hb%list_elem_of_singleton]; subst; [by eapply Hu| | |done];
    exfalso; simplify_eq.
  - destruct (Hl a Ha) as (f & Hf & Hne). simplify_eq. rewrite Ek in Hs. by apply Hne.
  - destruct (Hl b Hb) as (f & Hf & Hne). simplify_eq. by apply Hne.
Qed.

Section adding_facts.
Context `{OsmocomUtilsLaws}.

(** The heap with [c] entered in the children of [d] under [k]. *)
Definition hung (h : heap) (d c : nat) (k : str) (df cf : CardFile) : heap :=
  <[c := set_parent (Some d) cf]> (<[d := set_children (kv_set k c (children df)) df]> h).

(** Everything [add_file] has checked when it changes anything. *)
Record accepted (h : heap) (d c : nat) (k : str) (df cf : CardFile) : Prop := {
  acc_d : h !! d = Some df;
  acc_c : h !! c = Some cf;
  acc_df : is_df (cls df) = true;
  acc_fid : fid cf = Some k;
  acc_hex : is_hex k 4 4 = true;
  acc_name : name cf ∉ Some <$> RESERVED_NAMES;
  acc_not_mf : k ∉ RESERVED_FIDS;
  acc_new_fid : kv_get k (children df) = None;
  acc_new_sfid : lookup_file_by_sfid h df (sfid cf) = Ok None;
  acc_new_name : lookup_file_by_name h df (name cf) = Ok None }.

Ltac refuse := left; split; [by eexists|]; intros ??? []; congruence.

Lemma add_file_cases d c ign (h : heap) : c ≠ d →
  ((∃ r, add_file d c ign h = (r, h) ∧ (r = Ok () → ign = true)) ∧ ∀ k df cf, ¬ accepted h d c k df cf) ∨
  ∃ k df cf, accepted h d c k df cf ∧
    add_file d c ign h = (_add_file_services d c;; if is_df (cls cf) then add_services_below d c else mret ()) (hung h d c k df cf).
Proof.
  intros Hcd. unfold add_file. mrun.
  destruct (obj h d) as [df|] eqn:Ed; mrun; [|apply obj_err in Ed; refuse].
  apply obj_inv in Ed.
  destruct (is_df (cls df)) eqn:Edf; mrun; [|refuse].
  destruct (obj h c) as [cf|] eqn:Ec; mrun; [|apply obj_err in Ec; refuse].
  apply obj_inv in Ec.
  destruct (fid cf) as [k|] eqn:Ek; mrun; [|refuse].
  destruct (is_hex k 4 4) eqn:Ehex; mrun; [|refuse].
  destruct (bool_decide (name cf ∈ Some <$> RESERVED_NAMES)) eqn:En; mrun; cbn [negb]; mrun; [apply bool_decide_eq_true in En; refuse|].
  destruct (bool_decide (k ∈ RESERVED_FIDS)) eqn:Er; mrun; cbn [negb]; mrun; [apply bool_decide_eq_true in Er; refuse|].
  apply bool_decide_eq_false in En, Er.
  destruct (bool_decide (is_Some (kv_get k (children df)))) eqn:Eg.
  { apply bool_decide_eq_true in Eg as [x Eg]. destruct ign; refuse. }
  apply bool_decide_eq_false, eq_None_not_Some in Eg. mrun.
  destruct (lookup_file_by_sfid h df (sfid cf)) as [[s|]|] eqn:Es; mrun; [refuse| |refuse].
  destruct (lookup_file_by_name h df (name cf)) as [[n|]|] eqn:Em; mrun; [destruct ign; refuse| |refuse].
  right. exists k, df, cf. split; [by split|].
  rewrite (update_obj_ok _ _ _ _ Ed). mrun.
  rewrite (update_obj_ok c _ _ cf) by by rewrite lookup_insert_ne. done.
Qed.

Lemma hung_wf h d c k df cf root pd : wf h → accepted h d c k df cf → parent cf = None →
  path_to h d (root :: pd) → root ≠ c → wf (hung h d c k df cf).
Proof.
  intros Hwf [Hd Hc Hdf Hk Hhex _ _ Hnk Hns Hnn] Hdet Hpd Hroot.
  assert (Hcd : c ≠ d) by (intros ->; simplify_eq; inversion Hpd; simplify_eq).
  destruct (wf_get _ _ _ Hwf Hd) as [_ Wc Wk Wn Ws _ Wak _ _ _ _ _].
  eapply (link_wf h d c df cf [(k, c)] []); try done.
  - intros k' x [= -> ->]%list_elem_of_singleton. split_and!; [done..|]. intros ->. apply is_hex_length in Hhex. cbn in Hhex. lia.
  - rewrite fmap_app. apply list.NoDup_app. split_and!; [done| |apply list.NoDup_singleton].
    intros x Hx ->%list_elem_of_singleton. by apply kv_get_none in Hnk.
  - rewrite fmap_app. apply (unique_by_app _ _ _ _ cf); [done..|]. intros i Hi. unfold lookup_file_by_name in Hnn.
    destruct (name cf) as [n|] eqn:En.
    + destruct (find_child_none _ _ _ Hnn i Hi) as (f & Hf & Hp). exists f. split; [done|].
      unfold compose. rewrite En. intros [x Hx] E. rewrite Hx in E. rewrite E in Hp. cbn in Hp.
      rewrite bool_decide_true in Hp by eauto. apply bool_decide_eq_false in Hp. apply Hp.
      destruct n; [done|]. simplify_eq/=. destruct (name f) as [[|]|]; by simplify_eq/=.
    + apply list_elem_of_fmap in Hi as ([k' i'] & -> & Hi). destruct (Wc _ _ Hi) as (f & Hf & _). exists f.
      split; [done|]. unfold compose. rewrite En. by intros [].
  - rewrite fmap_app. apply (unique_by_app _ _ _ _ cf); [done..|]. intros i Hi. unfold lookup_file_by_sfid in Hns.
    destruct (sfid cf) as [n|] eqn:En.
    + destruct (find_child_none _ _ _ Hns i Hi) as (f & Hf & Hp). exists f. split; [done|].
      apply bool_decide_eq_false in Hp. congruence.
    + apply list_elem_of_fmap in Hi as ([k' i'] & -> & Hi). destruct (Wc _ _ Hi) as (f & Hf & _). exists f.
      split; [done|]. by intros [].
  - intros k' x Hx. set_solver.
  - by rewrite app_nil_r.
  - left. set_solver.
  - intros i. unfold hung, linked. destruct (decide (i = c)) as [->|Hic].
    + by rewrite lookup_insert_eq, Hc.
    + rewrite lookup_insert_ne by done. destruct (decide (i = d)) as [->|Hid].
      * rewrite lookup_insert_eq, Hd. cbn. rewrite app_nil_r. rewrite kv_set_fresh by done. by destruct df.
      * rewrite lookup_insert_ne by done. by destruct (h !! i).
Qed.

Lemma hung_rest d c (h : heap) (b : bool) :
  same_tree h ((_add_file_services d c;; if b then add_services_below d c else mret ()) h).2.
Proof.
  mrun. pose proof (add_file_services_same d c h) as E.
  destruct (_add_file_services d c h) as [[u|e] h']; cbn [snd] in E; [|exact E]. rewrite E.
  destruct b; [apply add_services_below_same|done].
Qed.

(** A file that is its own root: not in any tree, or the MF. *)
Definition detached (h : heap) (c : nat) : Prop := ∃ cf, h !! c = Some cf ∧ parent cf = None.
Definition below (h : heap) (root i : nat) : Prop := ∃ l, path_to h i (root :: l).

Lemma below_exists h i f : wf h → h !! i = Some f → ∃ root, below h root i.
Proof.
  intros Hwf Hf. destruct (wf_path _ _ _ (wf_get _ _ _ Hwf Hf)) as [[|r l] Hl]; [|by exists r, l].
  by apply path_to_split in Hl as [[|??] ?].
Qed.

Lemma below_self h c : detached h c → below h c c.
Proof. intros (cf & Hc & Hp). exists []. eapply path_root; eauto. Qed.

Lemma add_file_wf d c ign h : wf h → detached h c → ¬ below h c d → wf (add_file d c ign h).2.
Proof.
  intros Hwf Hdet Hnb. assert (Hcd : c ≠ d) by (intros ->; by apply Hnb, below_self).
  destruct (add_file_cases d c ign h Hcd) as [[(r & -> & _) _]|(k & df & cf & Hacc & ->)]; [done|].
  rewrite <- (hung_rest d c (hung h d c k df cf) (is_df (cls cf))).
  destruct (below_exists _ _ _ Hwf (acc_d _ _ _ _ _ _ Hacc)) as (root & pd & Hpd).
  eapply hung_wf; [done..| |exact Hpd|].
  - destruct Hdet as (cf' & Hc & Hp). by rewrite (acc_c _ _ _ _ _ _ Hacc) in Hc; simplify_eq.
  - intros ->. apply Hnb. by exists pd.
Qed.

Lemma add_application_df_wf mf app h : wf h → detached h app → ¬ below h app mf →
  wf (add_application_df mf app h).2.
Proof.
  intros Hwf (af & Ha & Hp) Hnb. unfold add_application_df. mrun.
  destruct (obj h mf) as [f|] eqn:Ef; mrun; [|done]. apply obj_inv in Ef.
  destruct (is_mf (cls f)) eqn:Em; mrun; [|done]. rewrite (obj_ok _ _ _ Ha). mrun.
  destruct (is_adf (cls af)) eqn:Eadf; mrun; [|done].
  destruct (bool_decide (is_Some (kv_get (aid af) (applications f)))) eqn:Eg; cbn [negb]; mrun; [done|].
  apply bool_decide_eq_false, eq_None_not_Some in Eg.
  assert (Hne : app ≠ mf) by (intros ->; apply Hnb, below_self; by exists af).
  rewrite (update_obj_ok _ _ _ _ Ef). mrun.
  rewrite (update_obj_ok app _ _ af) by by rewrite lookup_insert_ne. cbn [snd].
  destruct (below_exists _ _ _ Hwf Ef) as (root & pd & Hpd).
  destruct (wf_get _ _ _ Hwf Ef) as [_ Wc Wk Wn Ws _ Wak _ _ _ _ _].
  eapply (link_wf h mf app f af [] [(aid af, app)]); try done; rewrite ?app_nil_r; try done.
  - intros ->. apply Hnb. by exists pd.
  - by destruct (cls f).
  - congruence.
  - intros k x Hx. set_solver.
  - intros k x [= -> ->]%list_elem_of_singleton. done.
  - rewrite fmap_app. apply list.NoDup_app. split_and!; [done| |apply list.NoDup_singleton].
    intros x Hx ->%list_elem_of_singleton. by apply kv_get_none in Eg.
  - right. split; [done|]. set_solver.
  - intros i. unfold linked. destruct (decide (i = app)) as [->|Hic].
    + by rewrite lookup_insert_eq, Ha.
    + rewrite lookup_insert_ne by done. destruct (decide (i = mf)) as [->|Hid].
      * rewrite lookup_insert_eq, Ef. cbn. rewrite app_nil_r, kv_set_fresh by done. by destruct f.
      * rewrite lookup_insert_ne by done. by destruct (h !! i).
Qed.

(** *** New files *)

Lemma new_id_fresh (h : heap) : h !! new_id h = None.
Proof. apply not_elem_of_dom. unfold new_id. apply is_fresh. Qed.

Lemma path_to_insert (h : heap) i f x l : h !! i = None → path_to h x l → path_to (<[i := f]> h) x l.
Proof.
  intros Hi. induction 1 as [x g Hg Hp|x g p l Hg Hp Hne Hl IH].
  - eapply path_root; [|done]. rewrite lookup_insert_ne; [done|]. congruence.
  - eapply path_below; [|done..]. rewrite lookup_insert_ne; [done|]. congruence.
Qed.

(** A file outside every tree, or an MF, can be added to the heap. *)
Lemma wf_insert (h : heap) i f : wf h → h !! i = None → children f = [] → applications f = [] →
  parent f = (if is_mf (cls f) then Some i else None) → is_Some (service_attr f) → wf (<[i := f]> h).
Proof.
  intros Hwf Hi Hch Happ Hp Hs j g Hj.
  assert (Hold : ∀ x y, h !! x = Some y → <[i := f]> h !! x = Some y).
  { intros x y E. rewrite lookup_insert_ne; [done|]. congruence. }
  destruct (decide (j = i)) as [->|Hji].
  - rewrite lookup_insert_eq in Hj. simplify_eq. split; rewrite ?Hch, ?Happ; try done.
    + exists [i]. eapply path_root; [apply lookup_insert_eq|]. rewrite Hp. destruct (is_mf (cls g)); auto.
    + intros k x Hx. set_solver.
    + apply base.NoDup_nil_2.
    + intros a b ga gb Ha. set_solver.
    + intros a b ga gb Ha. set_solver.
    + intros k x Hx. set_solver.
    + apply base.NoDup_nil_2.
    + intros p Hp'. rewrite Hp in Hp'. destruct (is_mf (cls g)); simplify_eq. done.
    + rewrite Hp. by destruct (is_mf (cls g)).
  - rewrite lookup_insert_ne in Hj by done.
    assert (Hu : ∀ A (key : CardFile → option A) l, (∀ a, a ∈ l → is_Some (h !! a)) → unique_by key h l →
      unique_by key (<[i := f]> h) l).
    { intros A key l Hl Hu a b ga gb Ha Hb Hga Hgb. apply Hu; [done..| |].
      - destruct (Hl a Ha) as [z Hz]. pose proof (Hold _ _ Hz). congruence.
      - destruct (Hl b Hb) as [z Hz]. pose proof (Hold _ _ Hz). congruence. }
    destruct (wf_get _ _ _ Hwf Hj) as [[l Hl] H2 H3 H4 H5 H6 H7 H8 H9' H10 H11 H12].
    assert (Hin : ∀ a, a ∈ (children g).*2 → is_Some (h !! a)).
    { intros a Ha. apply list_elem_of_fmap in Ha as ([k' a'] & -> & Ha). destruct (H2 _ _ Ha) as (? & ? & _); eauto. }
    split; try done.
    + exists l. by apply path_to_insert.
    + intros k x Hx. destruct (H2 k x Hx) as (xf & ? & ?). eauto.
    + by apply Hu.
    + by apply Hu.
    + intros k x Hx. destruct (H6 k x Hx) as (xf & ? & ?). eauto.
    + intros p Hpp Hne. destruct (H8 p Hpp Hne) as (pf & ? & ?). eauto.
Qed.

(** *** Every heap the operations build *)

Lemma new_file_wf c a h : wf h → is_mf c = false → is_adf c = false → a_parent a = None → wf (new_file c a h).2.
Proof.
  intros Hwf Hm Ha Hp. unfold new_file, init_file. rewrite Hp, Ha. mrun.
  destruct (_ || bool_decide (is_Some (a_fid a))) eqn:E1; mrun; [|done]. cbn [orb].
  destruct (bool_decide (is_Some (a_fid a))) eqn:E2; mrun; [|done].
  rewrite (update_obj_ok _ _ _ _ (lookup_insert_eq _ _ _)). mrun. cbn [snd]. rewrite insert_insert_eq.
  apply wf_insert; try done; [apply new_id_fresh|by cbn; rewrite Hm].
Qed.

Lemma new_mf_wf p h : wf h → wf (new_mf p h).2.
Proof.
  intros Hwf. unfold new_mf, init_file. mrun. rewrite bool_decide_true by eauto. cbn [orb is_adf a_parent a_fid]. mrun.
  cbn [filled lit String.list_ascii_of_string]. rewrite decide_True by done. mrun.
  rewrite (update_obj_ok _ _ _ _ (lookup_insert_eq _ _ _)). mrun. cbn [snd]. rewrite insert_insert_eq.
  apply wf_insert; try done. apply new_id_fresh.
Qed.

Lemma new_adf_wf x fs a h : wf h → a_parent a = None → wf (new_adf x fs a h).2.
Proof.
  intros Hwf Hp. unfold new_adf, init_file. rewrite Hp. cbn [is_adf orb]. mrun.
  rewrite (update_obj_ok _ _ _ _ (lookup_insert_eq _ _ _)). mrun. rewrite insert_insert_eq.
  rewrite (update_obj_ok _ _ _ _ (lookup_insert_eq _ _ _)). mrun. rewrite insert_insert_eq.
  unfold get_mf. rewrite (obj_ok _ _ _ (lookup_insert_eq _ _ _)). mrun. cbn.
  apply wf_insert; try done. apply new_id_fresh.
Qed.

Lemma new_application_wf n adf x sw h : wf h → wf (new_application n adf x sw h).2.
Proof.
  intros Hwf. unfold new_application. destruct adf as [i|]; mrun; [|done].
  destruct (obj h i) as [f|] eqn:Ef; mrun; [|done]. apply obj_inv in Ef.
  rewrite (update_obj_ok _ _ _ _ Ef). mrun. cbn [snd].
  apply (wf_same h); [|done]. unfold same_tree. rewrite fmap_insert. symmetry.
  apply insert_id. by rewrite lookup_fmap, Ef.
Qed.

Inductive built : heap → Prop :=
| built_empty : built ∅
| built_mf h p : built h → built (new_mf p h).2
| built_file h c a :
    built h → is_mf c = false → is_adf c = false → a_parent a = None → built (new_file c a h).2
| built_adf h x fs a : built h → a_parent a = None → built (new_adf x fs a h).2
| built_add h d c ign :
    built h → detached h c → ¬ below h c d → built (add_file d c ign h).2
| built_add_application h mf app :
    built h → detached h app → ¬ below h app mf → built (add_application_df mf app h).2
| built_application h n adf x sw : built h → built (new_application n adf x sw h).2.

Lemma wf_of_built h : built h → wf h.
Proof.
  induction 1; [apply map_Forall_empty|by apply new_mf_wf|by apply new_file_wf|by apply new_adf_wf
    |by apply add_file_wf|by apply add_application_df_wf|by apply new_application_wf].
Qed.

(** C9: The trees that the constructors, [add_file] and [add_application_df]
    build are well formed whatever the order of the calls and whether or not
    they raise, provided that only detached files are added and none below
    itself. *)
Theorem built_wf h : built h → wf h.
Proof. apply wf_of_built. Qed.

(** *** What [add_file] does and reports *)

Lemma any_child_total p l : (∀ i, i ∈ l → ∃ b, p i = Ok b) → ∃ b, any_child p l = Ok b.
Proof.
  induction l as [|i l IH]; cbn; intros Hp; [eauto|].
  destruct (Hp i) as [b ->]; [set_solver|]. cbn. destruct b; [eauto|]. apply IH. set_solver.
Qed.

Lemma has_service_total h : wf h → ∀ n i f l, h !! i = Some f → path_to h i l → (size h < length l + n)%nat →
  ∃ b, has_service h n i = Ok b.
Proof.
  intros Hwf. induction n as [|n IH]; intros i f l Hf Hl Hn.
  - apply path_to_length in Hl. lia.
  - cbn [has_service]. rewrite (obj_ok _ _ _ Hf), R_bind_Ok. unfold service_of.
    destruct (wf_get _ _ _ Hwf Hf) as [_ Hc _ _ _ _ _ _ _ _ _ [s Hs]]. rewrite Hs. cbn [from_opt]. rewrite R_bind_Ok.
    destruct (service_truth s); [eauto|]. apply any_child_total. intros c Hin.
    apply list_elem_of_fmap in Hin as ([k c'] & -> & Hin). destruct (Hc _ _ Hin) as (cf & Hcf & Hp & Hne & _). cbn [snd].
    rewrite (obj_ok _ _ _ Hcf), R_bind_Ok. destruct (is_df (cls cf)); [|eauto].
    apply (IH c' cf (l ++ [c'])); [done| |].
    + by eapply (path_below _ c' cf i).
    + rewrite length_app. cbn. lia.
Qed.

Lemma _has_service_total h i f : wf h → h !! i = Some f → ∃ b, _has_service h i = Ok b.
Proof.
  intros Hwf Hf. destruct (wf_path _ _ _ (wf_get _ _ _ Hwf Hf)) as [l Hl].
  apply (has_service_total h Hwf _ i f l); [done..|]. unfold enough. apply path_to_split in Hl as [l' ->].
  rewrite length_app. cbn. lia.
Qed.

(** Done, or ValueError. *)
Definition value_error (r : result unit) : Prop := r = Ok () ∨ r = Err ValueError.

Lemma for_each_outcome {A} (P : heap → Prop) (l : list A) f :
  (∀ x h, x ∈ l → P h → value_error (f x h).1 ∧ P (f x h).2) → ∀ h, P h → value_error (for_each l f h).1.
Proof.
  induction l as [|x l IH]; intros Hf h Hh; cbn [for_each]; [by left|]. rewrite M_bind_eq.
  destruct (Hf x h) as [Hr HP]; [set_solver|done|]. destruct (f x h) as [[[]|e] h']; cbn [fst snd] in *.
  - apply IH; [|done]. intros y h'' Hy. apply Hf. set_solver.
  - by destruct Hr; simplify_eq; right.
Qed.

Lemma add_file_services_ok d c h cf df : wf h → h !! c = Some cf → h !! d = Some df →
  (_add_file_services d c h).1 = Ok ().
Proof.
  intros Hwf Hc Hd. unfold _add_file_services. mrun. rewrite (obj_ok _ _ _ Hc). mrun. unfold service_of.
  destruct (wf_ready _ _ _ (wf_get _ _ _ Hwf Hc)) as [s ->]. mrun. destruct s as [s|]; [|done].
  destruct (service_truth (Some s)); [|done]. by rewrite (update_obj_ok _ _ _ _ Hd).
Qed.

(** Files named by the children of a file exist. *)
Lemma child_exists h i f c : wf h → h !! i = Some f → c ∈ (children f).*2 →
  ∃ cf, h !! c = Some cf ∧ parent cf = Some i ∧ c ≠ i.
Proof.
  intros Hwf Hf Hin. apply list_elem_of_fmap in Hin as ([k c'] & -> & Hin).
  destruct (wf_child _ _ _ (wf_get _ _ _ Hwf Hf) _ _ Hin) as (cf & ? & ? & ? & _). eauto.
Qed.

Lemma add_services_below_outcome d c h cf df : wf h → h !! c = Some cf → h !! d = Some df →
  value_error (add_services_below d c h).1.
Proof.
  intros Hwf Hc Hd. unfold add_services_below. mrun. rewrite (obj_ok _ _ _ Hc). mrun.
  apply (for_each_outcome (λ h', wf h' ∧ same_tree h h')); [|by split].
  intros g h1 Hg [Hwf1 Hs]. mrun. destruct (child_exists _ _ _ _ Hwf Hc Hg) as (gf & Hgf & _).
  destruct (same_tree_lookup _ _ _ _ Hs Hgf) as (gf1 & Hgf1 & _), (same_tree_lookup _ _ _ _ Hs Hd) as (df1 & Hd1 & _).
  pose proof (add_file_services_ok d g h1 gf1 df1 Hwf1 Hgf1 Hd1) as E1.
  pose proof (add_file_services_same d g h1) as E2. destruct (_add_file_services d g h1) as [r h2].
  cbn [fst snd] in E1, E2. subst r. mrun. rewrite E2 in Hwf1, Hs. clear Hd1 Hgf1 E2 h1.
  destruct (same_tree_lookup _ _ _ _ Hs Hgf) as (gf2 & Hgf2 & _). rewrite (obj_ok _ _ _ Hgf2). mrun.
  destruct (is_df (cls gf2)); [|by split; [left|]].
  match goal with |- context [for_each ?l ?f ?h] =>
    assert (Hsame : same_tree h (for_each l f h).2); [|assert (Hout : value_error (for_each l f h).1)] end.
  - apply for_each_same. intros x h3. mrun. destruct (obj h3 x) as [xf|]; mrun; [|done].
    destruct (is_df (cls xf)); [|done]. mrun. by destruct (_has_service h3 x) as [[]|].
  - apply (for_each_outcome (λ h', h' = h2)); [|done]. intros x ? Hx ->. mrun.
    destruct (child_exists _ _ _ _ Hwf1 Hgf2 Hx) as (xf & Hxf & _). rewrite (obj_ok _ _ _ Hxf). mrun.
    destruct (is_df (cls xf)); [|by split; [left|]]. mrun. destruct (_has_service_total h2 x xf Hwf1 Hxf) as [[] ->].
    + by split; [right|].
    + by split; [left|].
  - split; [done|]. by rewrite <- Hsame.
Qed.

Lemma hung_outcome h d c k df cf : wf (hung h d c k df cf) → c ≠ d →
  value_error ((_add_file_services d c;; if is_df (cls cf) then add_services_below d c else mret ()) (hung h d c k df cf)).1.
Proof.
  intros Hwf Hcd. set (h1 := hung h d c k df cf) in *.
  assert (∃ cf1, h1 !! c = Some cf1) as [cf1 Hc] by (eexists; apply lookup_insert_eq).
  assert (∃ df1, h1 !! d = Some df1) as [df1 Hd].
  { eexists. unfold h1, hung. rewrite lookup_insert_ne by done. apply lookup_insert_eq. }
  mrun. pose proof (add_file_services_ok d c h1 cf1 df1 Hwf Hc Hd) as E1.
  pose proof (add_file_services_same d c h1) as E2. destruct (_add_file_services d c h1) as [r h2].
  cbn [fst snd] in E1, E2. subst r. destruct (is_df (cls cf)); [|by left].
  destruct (same_tree_lookup _ _ _ _ E2 Hc) as (cf2 & Hc2 & _), (same_tree_lookup _ _ _ _ E2 Hd) as (df2 & Hd2 & _).
  apply (add_services_below_outcome d c h2 cf2 df2); [by rewrite <- E2|done..].
Qed.

(** C19: [add_file] either refuses the file and changes nothing, or enters it in
    the children of the DF under its FID and sets its parent; then
    ValueError can still be raised for services three levels below. In both
    cases the tree stays well formed. *)
Theorem add_file_spec h d c ign : wf h → detached h c → ¬ below h c d →
  let '(r, h') := add_file d c ign h in
  wf h' ∧
  ((h' = h ∧ (∀ k df cf, ¬ accepted h d c k df cf) ∧ (r = Ok () → ign = true)) ∨
   (∃ k df cf, accepted h d c k df cf ∧ same_tree (hung h d c k df cf) h' ∧ value_error r)).
Proof.
  intros Hwf Hdet Hnb. pose proof (add_file_wf d c ign h Hwf Hdet Hnb) as Hwf'.
  assert (Hcd : c ≠ d) by (intros ->; by apply Hnb, below_self).
  destruct (add_file_cases d c ign h Hcd) as [[(r & E & Hr) Hno]|(k & df & cf & Hacc & E)].
  { rewrite E in *. split; [done|]. by left. }
  pose proof (hung_rest d c (hung h d c k df cf) (is_df (cls cf))) as Hs. rewrite <- E in Hs.
  assert (value_error (add_file d c ign h).1) as Hr.
  { rewrite E. apply hung_outcome. - by rewrite Hs. - done. }
  destruct (add_file d c ign h) as [r h']. split; [done|]. right. by exists k, df, cf.
Qed.
End adding_facts.

(** ** Every file of a tree can be reached *)

(** [i] is a file of the tree of the MF [mf]. *)
Definition in_tree (h : heap) (mf i : nat) : Prop := below h mf i ∧ obj_is h is_mf mf = true.

Section reaching.
Context (h : heap) (mf : nat) (Hwf : wf h).

Lemma in_tree_mf i : in_tree h mf i → ∃ f, h !! mf = Some f ∧ is_mf (cls f) = true ∧ parent f = Some mf.
Proof.
  intros [_ Hm]. unfold obj_is in Hm. destruct (h !! mf) as [f|] eqn:E; [|done].
  exists f. split_and!; [done..|]. by apply (wf_mf _ _ _ (wf_get _ _ _ Hwf E)).
Qed.

Lemma in_tree_get i : in_tree h mf i → ∃ f p, h !! i = Some f ∧ parent f = Some p.
Proof.
  intros Hi. destruct (in_tree_mf i Hi) as (mff & Hmf & _ & Hp). destruct Hi as [[l Hl] _].
  assert (is_Some (h !! i)) as [f Hf].
  { destruct (path_to_split _ _ _ Hl) as [l' E]. eapply path_to_in; [done|]. rewrite E. set_solver. }
  inversion Hl; simplify_eq; eauto.
Qed.

Lemma get_mf_in_tree i : in_tree h mf i → get_mf h i = Ok (Some mf).
Proof.
  intros Hi. destruct (in_tree_get i Hi) as (f & p & Hf & Hp). destruct Hi as [[l Hl] _].
  eapply get_mf_ok; [done..|]. by rewrite Hp.
Qed.

Lemma in_tree_root i : in_tree h mf i → in_tree h mf mf.
Proof.
  intros Hi. destruct (in_tree_mf i Hi) as (f & Hf & _ & Hp). split; [|by destruct Hi].
  exists []. eapply path_root; eauto.
Qed.

Lemma in_tree_parent i f p : in_tree h mf i → h !! i = Some f → parent f = Some p → in_tree h mf p.
Proof.
  intros Hi Hf Hp. destruct (decide (p = i)) as [->|Hne]; [done|].
  destruct Hi as [[l Hl] Hm]. split; [|done]. inversion Hl; simplify_eq.
  - by match goal with X : _ ∨ _ |- _ => destruct X; simplify_eq end.
  - destruct l0 as [|r l0]; [by match goal with X : path_to h _ [] |- _ => apply path_to_split in X as [[|??] ?] end|].
    simplify_eq/=. by exists l0.
Qed.

Lemma in_tree_below i c cf : in_tree h mf i → h !! c = Some cf → parent cf = Some i → c ≠ i → in_tree h mf c.
Proof.
  intros [[l Hl] Hm] Hc Hp Hne. split; [|done]. exists (l ++ [c]). rewrite app_comm_cons. by eapply path_below.
Qed.

(** [x] is [i] or a directory above. *)
Definition above (x i : nat) : Prop := ∃ l, path_to h i l ∧ x ∈ l.

Lemma select_path_exists self target : in_tree h mf self → in_tree h mf target →
  ∃ path, build_select_path_to h self target = Ok (Some path) ∧ path ≠ [] ∧ walk h self path target ∧
    (∀ j f, path !! S j = Some f → obj_is h is_adf f = false) ∧
    (∀ x, x ∈ path → above x self ∨ above x target).
Proof.
  intros Hs Ht. unfold build_select_path_to. rewrite (get_mf_in_tree _ Ht), R_bind_Ok.
  case_decide as E.
  - simplify_eq. exists [target]. split_and!; [done..| |done|].
    + eapply walk_cons; [|constructor]. right. left. by destruct Ht.
    + intros x ->%list_elem_of_singleton. right. destruct Ht as [[l Hl] _]. exists (target :: l). split; [done|set_solver].
  - destruct Hs as [[l1 H1] _], Ht as [[l2 H2] _].
    rewrite (fully_qualified_path_fobj_ok _ _ _ H1), (fully_qualified_path_fobj_ok _ _ _ H2), !R_bind_Ok.
    destruct (find_common_walk h self target mf l1 l2) as (p & Ep & Hne & Hw & Hadf); [done..|congruence|].
    exists p. split_and!; [by rewrite Ep|done..|]. intros x Hx.
    destruct (find_common_in _ _ _ _ _ Ep x Hx) as [?|[Hin|Hin]]; [set_solver| |].
    + left. exists (mf :: l1). split; [done|]. by apply list_elem_of_In, in_rev, list_elem_of_In in Hin.
    + right. by exists (mf :: l2).
Qed.

Lemma above_in_tree x i : in_tree h mf i → above x i → in_tree h mf x.
Proof.
  intros Hi (l & Hl & Hx). revert Hi Hx. induction Hl as [i f Hf Hp|i f p l Hf Hp Hne Hl IH]; intros Hi Hx.
  - apply list_elem_of_singleton in Hx. by subst.
  - apply elem_of_app in Hx as [Hx|Hx%list_elem_of_singleton]; [|by subst]. apply IH; [|done]. by eapply in_tree_parent.
Qed.

(** C10: The path the code computes exists between any two files of a tree; every
    file on it can be selected from the one before it, and no application
    after the first file has to be selected. *)
Theorem build_select_path_to_spec self target : in_tree h mf self → in_tree h mf target →
  ∃ path, build_select_path_to h self target = Ok (Some path) ∧ path ≠ [] ∧ walk h self path target ∧
    (∀ j f, path !! S j = Some f → obj_is h is_adf f = false).
Proof. intros Hs Ht. destruct (select_path_exists self target Hs Ht) as (p & E & Hne & Hw & Ha & _). by exists p. Qed.
End reaching.

(** ** Selectables *)

Section dict_facts.
Context {K V : Type} `{EqDecision K}.

Lemma kv_get_in (k : K) (v : V) l : kv_get k l = Some v → (k, v) ∈ l.
Proof.
  induction l as [|[k' v'] l IH]; cbn; [done|]. case_decide; intros E; simplify_eq; [set_solver|].
  apply elem_of_cons. right. by apply IH.
Qed.

Lemma kv_get_nodup (k : K) (v : V) l : NoDup l.*1 → (k, v) ∈ l → kv_get k l = Some v.
Proof.
  induction l as [|[k' v'] l IH]; cbn; intros Hn Hin; [set_solver|].
  apply list.NoDup_cons in Hn as [Hk Hn]. apply elem_of_cons in Hin as [E|Hin].
  - simplify_eq. by rewrite decide_True.
  - rewrite decide_False; [by apply IH|]. intros ->. apply Hk. apply list_elem_of_fmap. by exists (k', v).
Qed.

Lemma kv_get_set (k j : K) (v : V) l : kv_get j (kv_set k v l) = if decide (j = k) then Some v else kv_get j l.
Proof.
  induction l as [|[k' v'] l IH]; cbn; [done|].
  destruct (decide (k = k')) as [->|Hne]; cbn; [by case_decide|]. rewrite IH.
  repeat case_decide; congruence.
Qed.

Lemma kv_update_cons (d : list (K * V)) k v e : kv_update d ((k, v) :: e) = kv_update (kv_set k v d) e.
Proof. done. Qed.

Lemma kv_get_update (j : K) (e d : list (K * V)) : NoDup e.*1 →
  kv_get j (kv_update d e) = match kv_get j e with Some v => Some v | None => kv_get j d end.
Proof.
  revert d. induction e as [|[k v] e IH]; intros d Hn; [done|]. apply list.NoDup_cons in Hn as [Hk Hn].
  rewrite kv_update_cons, IH by done. rewrite kv_get_set. cbn.
  destruct (decide (j = k)) as [->|]; [|done]. by rewrite (proj2 (kv_get_none k e) Hk).
Qed.

Lemma kv_set_forall (P : V → Prop) (k : K) v l : P v → Forall (P ∘ snd) l → Forall (P ∘ snd) (kv_set k v l).
Proof.
  intros Hv. induction l as [|[k' v'] l IH]; intros Hl; cbn; [by apply Forall_cons_2|].
  apply Forall_cons_1 in Hl as [H1 H2]. case_decide; apply Forall_cons_2; auto.
Qed.

Lemma kv_update_forall (P : V → Prop) (e d : list (K * V)) :
  Forall (P ∘ snd) d → Forall (P ∘ snd) e → Forall (P ∘ snd) (kv_update d e).
Proof.
  revert d. induction e as [|[k v] e IH]; intros d Hd He; [done|]. apply Forall_cons_1 in He as [H1 H2].
  rewrite kv_update_cons. apply IH; [|done]. by apply kv_set_forall.
Qed.

Lemma kv_get_forall (P : V → Prop) (k : K) v l : Forall (P ∘ snd) l → kv_get k l = Some v → P v.
Proof. intros Hl E%kv_get_in. by apply (proj1 (list.Forall_forall _ _) Hl (k, v)). Qed.
End dict_facts.

Section selectable_facts.
Context (h : heap) (mf : nat) (Hwf : wf h).
Abbreviation ok := (in_tree h mf).
Abbreviation all_ok sels := (Forall (ok ∘ snd) (sels : selectables)).

Lemma add_key_ok key i sels : ok i → all_ok sels → all_ok (add_key key i sels).
Proof. intros. destruct key; [by apply kv_set_forall|done]. Qed.

Lemma add_file_keys_ok alias flags f i sels : ok i → all_ok sels → all_ok (add_file_keys alias flags f i sels).
Proof.
  intros Hi Hs. unfold add_file_keys.
  destruct (wants flags FNAMES), (wants flags FIDS); repeat (apply add_key_ok; [done|]); done.
Qed.

Lemma self_selectables_ok i alias flags : ok i → ∃ s, _get_self_selectables h i alias flags = Ok s ∧ all_ok s.
Proof.
  intros Hi. destruct (in_tree_get h mf Hwf i Hi) as (f & p & Hf & _). unfold _get_self_selectables.
  rewrite (obj_ok _ _ _ Hf), R_bind_Ok. eexists. split; [done|]. by apply add_file_keys_ok.
Qed.

Lemma parent_selectables_ok i l : path_to h i (mf :: l) → obj_is h is_mf mf = true → ∀ n alias flags, (length l < n)%nat →
  ∃ s, parent_selectables h n i alias flags = Ok s ∧ all_ok s.
Proof.
  intros Hl Hm. remember (mf :: l) as ml eqn:E. revert l E.
  induction Hl as [i f Hf Hp|i f p l' Hf Hp Hne Hl IH]; intros l E [|n] alias flags Hn; try lia; cbn [parent_selectables];
    rewrite (obj_ok _ _ _ Hf), R_bind_Ok.
  - destruct Hp as [->| ->]; [by eexists|]. rewrite decide_True by done. by eexists.
  - rewrite Hp, decide_False by done.
    destruct l' as [|r l']; [by apply path_to_split in Hl as [[|??] ?]|]. simplify_eq/=.
    assert (Hokp : ok p) by (split; [by exists l'|done]).
    destruct (in_tree_get h mf Hwf p Hokp) as (pf & pp & Hpf & _). rewrite (obj_ok _ _ _ Hpf), R_bind_Ok.
    destruct (IH l' eq_refl n None flags) as (up & -> & Hup); [rewrite length_app in Hn; cbn in Hn; lia|].
    rewrite R_bind_Ok. eexists. split; [done|]. apply kv_update_forall; [|done]. by apply add_file_keys_ok.
Qed.

Lemma keyed_ok key l : Forall ok l → ∃ r, keyed h key l = Ok r ∧ all_ok r.
Proof.
  induction l as [|i l IH]; intros Hl; cbn; [by eexists|]. apply Forall_cons_1 in Hl as [Hi Hl].
  destruct (in_tree_get h mf Hwf i Hi) as (f & p & Hf & _). rewrite (obj_ok _ _ _ Hf), R_bind_Ok.
  destruct (IH Hl) as (r & -> & Hr). rewrite R_bind_Ok. eexists. split; [done|].
  destruct (filled (key f)); [by apply Forall_cons_2|done].
Qed.

Lemma objs_ok l : Forall ok l → ∃ fs, map_r (obj h) l = Ok fs ∧ length fs = length l.
Proof.
  induction l as [|i l IH]; intros Hl; cbn; [by eexists|]. apply Forall_cons_1 in Hl as [Hi Hl].
  destruct (in_tree_get h mf Hwf i Hi) as (f & p & Hf & _). rewrite (obj_ok _ _ _ Hf), R_bind_Ok.
  destruct (IH Hl) as (r & -> & Hr). rewrite R_bind_Ok. eexists. split; [done|]. cbn. lia.
Qed.

Lemma zip_ok {A} (ks : list A) l : Forall ok l → Forall (ok ∘ snd) (zip ks l).
Proof.
  intros Hl. revert ks. induction l as [|i l IH]; intros [|k ks]; cbn; try apply Forall_nil_2.
  apply Forall_cons_1 in Hl as [Hi Hl]. apply Forall_cons_2; [done|]. by apply IH.
Qed.

Lemma children_ok i f : ok i → h !! i = Some f → Forall ok (children f).*2.
Proof.
  intros Hi Hf. apply list.Forall_forall. intros c Hc. destruct (child_exists _ _ _ _ Hwf Hf Hc) as (cf & ? & ? & ?).
  by eapply in_tree_below.
Qed.

Lemma applications_ok i f : ok i → h !! i = Some f → Forall ok (applications f).*2.
Proof.
  intros Hi Hf. apply list.Forall_forall. intros c Hc. apply list_elem_of_fmap in Hc as ([k c'] & -> & Hc).
  destruct (wf_app _ _ _ (wf_get _ _ _ Hwf Hf) _ _ Hc) as (cf & ? & ? & ? & _). by eapply in_tree_below.
Qed.

Lemma app_selectables_ok i f flags : ok i → h !! i = Some f → is_mf (cls f) = true →
  ∃ s, get_app_selectables h i flags = Ok s ∧ all_ok s.
Proof.
  intros Hi Hf Hm. unfold get_app_selectables. rewrite (obj_ok _ _ _ Hf), R_bind_Ok, Hm.
  cbn [guard_else]. rewrite R_bind_Ok. pose proof (applications_ok _ _ Hi Hf) as Ha.
  destruct (objs_ok _ Ha) as (fs & -> & _), (keyed_ok name _ Ha) as (r & -> & Hr). rewrite !R_bind_Ok.
  assert (all_ok (kv_of (zip (aid <$> fs) (applications f).*2))).
  { apply kv_update_forall; [apply Forall_nil_2|]. by apply zip_ok. }
  destruct (wants flags AIDS), (wants flags ANAMES); rewrite ?R_bind_Ok; eexists; (split; [done|]);
    try done; try apply Forall_nil_2; apply kv_update_forall; try done; apply Forall_nil_2.
Qed.

Ltac run_eqs := repeat (first [rewrite R_bind_Ok | match goal with E : _ = Ok _ |- _ => rewrite E end]).

Lemma file_selectables_ok i flags : ok i → ∃ s, file_selectables h i flags = Ok s ∧ all_ok s.
Proof.
  intros Hi. unfold file_selectables.
  destruct (self_selectables_ok i (Some (lit ".")) flags Hi) as (s1 & E1 & H1).
  assert (∃ s, _get_parent_selectables h i (Some (lit "..")) flags = Ok s ∧ all_ok s) as (s2 & E2 & H2).
  { destruct Hi as [[l Hl] Hm]. apply (parent_selectables_ok i l); [done..|]. apply path_to_length in Hl.
    unfold enough. cbn in Hl. lia. }
  pose proof (get_mf_in_tree h mf Hwf i Hi) as E. pose proof (in_tree_root h mf Hwf i Hi) as Hroot.
  destruct (in_tree_mf h mf Hwf i Hi) as (mff & Hmf & Hm & _).
  destruct (self_selectables_ok mf None flags Hroot) as (s3 & E3 & H3).
  destruct (app_selectables_ok mf mff flags Hroot Hmf Hm) as (s4 & E4 & H4).
  destruct (wants flags SELF), (wants flags PARENT), (wants flags MF); run_eqs; eexists; (split; [done|]);
    repeat (apply kv_update_forall; [|done]); try done; apply Forall_nil_2.
Qed.

Lemma add_files_of_ok l flags sels : Forall ok l → all_ok sels → ∃ s, add_files_of h l flags sels = Ok s ∧ all_ok s.
Proof.
  intros Hl Hs. unfold add_files_of.
  destruct (keyed_ok fid l Hl) as (s1 & -> & H1), (keyed_ok name l Hl) as (s2 & -> & H2).
  destruct (wants flags FIDS), (wants flags FNAMES); rewrite ?R_bind_Ok; eexists; (split; [done|]);
    repeat (apply kv_update_forall; [|done]); done.
Qed.

Lemma df_selectables_ok i flags : ok i → ∃ s, df_selectables h i flags = Ok s ∧ all_ok s.
Proof.
  intros Hi. unfold df_selectables. destruct (file_selectables_ok i flags Hi) as (s & -> & Hs). rewrite R_bind_Ok.
  destruct (in_tree_get h mf Hwf i Hi) as (f & p & Hf & _). rewrite (obj_ok _ _ _ Hf), R_bind_Ok.
  apply add_files_of_ok; [|done]. by apply (children_ok i).
Qed.

(** What can be selected from a file of the tree is in the tree, and listing
    it never fails. *)
Lemma get_selectables_ok i flags : ok i → ∃ s, get_selectables h i flags = Ok s ∧ all_ok s.
Proof.
  intros Hi. unfold get_selectables. destruct (in_tree_get h mf Hwf i Hi) as (f & p & Hf & Hp).
  rewrite (obj_ok _ _ _ Hf), R_bind_Ok.
  destruct (is_mf (cls f)) eqn:Em; [|destruct (is_df (cls f)); [|destruct (is_ef (cls f))]].
  - unfold mf_selectables. destruct (df_selectables_ok i flags Hi) as (s & -> & Hs).
    destruct (app_selectables_ok i f flags Hi Hf Em) as (s' & -> & Hs'). rewrite !R_bind_Ok.
    eexists. split; [done|]. by apply kv_update_forall.
  - by apply df_selectables_ok.
  - unfold ef_selectables. destruct (file_selectables_ok i flags Hi) as (s & -> & Hs).
    rewrite (obj_ok _ _ _ Hf), !R_bind_Ok. destruct (_ || _); [|by eexists].
    rewrite Hp. cbn [from_opt]. rewrite R_bind_Ok. pose proof (in_tree_parent h mf i f p Hi Hf Hp) as Hpk.
    destruct (in_tree_get h mf Hwf p Hpk) as (pf & pp & Hpf & _). rewrite (obj_ok _ _ _ Hpf), R_bind_Ok.
    apply add_files_of_ok; [|done]. apply list.Forall_forall. intros c Hc%list_elem_of_filter.
    eapply list.Forall_forall; [by apply (children_ok p pf)|]. by destruct Hc.
  - by apply file_selectables_ok.
Qed.
End selectable_facts.

(** *** The children of a DF are selectable *)

Lemma kv_get_update_other {K V} `{EqDecision K} (j : K) (e d : list (K * V)) :
  j ∉ e.*1 → kv_get j (kv_update d e) = kv_get j d.
Proof.
  revert d. induction e as [|[k v] e IH]; intros d Hj; [done|]. rewrite kv_update_cons.
  rewrite fmap_cons, not_elem_of_cons in Hj. destruct Hj as [Hjk Hj]. rewrite IH by done.
  rewrite kv_get_set. by rewrite decide_False.
Qed.

Lemma kv_update_keys {K V} `{EqDecision K} (j : K) (e d : list (K * V)) :
  j ∈ (kv_update d e).*1 → j ∈ d.*1 ∨ j ∈ e.*1.
Proof.
  intros Hj. destruct (decide (j ∈ e.*1)) as [|Hne]; [by right|]. left.
  pose proof (kv_get_update_other j e d Hne) as E. destruct (kv_get j d) as [v|] eqn:Ed.
  - apply kv_get_in in Ed. apply list_elem_of_fmap. by exists (j, v).
  - apply kv_get_none in E. done.
Qed.

Lemma map_r_obj_in h l fs : map_r (obj h) l = Ok fs → ∀ f, f ∈ fs → ∃ a, a ∈ l ∧ h !! a = Some f.
Proof.
  revert fs. induction l as [|i l IH]; cbn; intros fs E f Hf; [simplify_eq; set_solver|].
  destruct (obj h i) as [g|] eqn:Ei; [|done]. apply obj_inv in Ei. rewrite R_bind_Ok in E.
  destruct (map_r (obj h) l) as [gs|]; [|done]. rewrite R_bind_Ok in E. injection E as <-.
  apply elem_of_cons in Hf as [->|Hf]; [set_solver|]. destruct (IH _ eq_refl f Hf) as (a & ? & ?). set_solver.
Qed.

Lemma wants_all flag : wants [] flag = true.
Proof. done. Qed.

Section children_selectable.
Context (h : heap).

Lemma keyed_in key l : ∀ r, keyed h key l = Ok r → ∀ k i, (k, i) ∈ r ↔ i ∈ l ∧ ∃ f, h !! i = Some f ∧ filled (key f) = Some k.
Proof.
  induction l as [|j l IH]; cbn; intros r E k i; [simplify_eq; set_solver|].
  destruct (obj h j) as [f|] eqn:Ej; [|done]. apply obj_inv in Ej. rewrite R_bind_Ok in E.
  destruct (keyed h key l) as [r'|] eqn:Er; [|done]. rewrite R_bind_Ok in E. specialize (IH r' eq_refl).
  destruct (filled (key f)) as [kf|] eqn:Ek; simplify_eq.
  - rewrite !elem_of_cons, IH. split.
    + intros [E|(Hi & Hf)]; [simplify_eq; split; [by left|eauto]|]. split; [by right|done].
    + intros [[->|Hi] (f' & Hf' & Hk)]; [left|right]; simplify_eq; [done|]. split; [done|eauto].
  - rewrite elem_of_cons, IH. split; [intros (? & ?); auto|]. intros [[->|Hi] (f' & Hf' & Hk)]; simplify_eq; eauto.
Qed.

Lemma keyed_nodup key l : ∀ r, keyed h key l = Ok r → NoDup l → unique_by (filled ∘ key) h l → NoDup r.*1.
Proof.
  induction l as [|j l IH]; cbn; intros r E Hn Hu; [simplify_eq; by apply base.NoDup_nil_2|].
  apply list.NoDup_cons in Hn as [Hj Hn].
  destruct (obj h j) as [f|] eqn:Ej; [|done]. apply obj_inv in Ej. rewrite R_bind_Ok in E.
  destruct (keyed h key l) as [r'|] eqn:Er; [|done]. rewrite R_bind_Ok in E.
  assert (NoDup r'.*1).
  { apply IH; [done..|]. intros a b fa fb Ha Hb. apply Hu; set_solver. }
  destruct (filled (key f)) as [kf|] eqn:Ek; simplify_eq; [|done]. apply list.NoDup_cons. split; [|done].
  intros Hin. apply list_elem_of_fmap in Hin as ([k i] & E' & Hin). cbn [fst] in E'. subst kf.
  apply (keyed_in key l r' Er) in Hin as (Hi & f' & Hf' & Hk).
  assert (j = i) as ->; [|done].
  apply (Hu j i f f'); [set_solver..|done|done| |]; unfold compose; rewrite Ek; [done|by rewrite Hk].
Qed.

Lemma children_nodup d df : wf h → h !! d = Some df → NoDup (children df).*2.
Proof.
  intros Hwf Hd. destruct (wf_get _ _ _ Hwf Hd) as [_ Hc Hk _ _ _ _ _ _ _ _ _].
  induction (children df) as [|[k c] l IH]; [by apply base.NoDup_nil_2|].
  rewrite !fmap_cons in *. apply list.NoDup_cons in Hk as [Hk Hn]. apply list.NoDup_cons. split.
  - intros Hin. apply list_elem_of_fmap in Hin as ([k' c'] & E & Hin). cbn [snd] in E. subst c'. cbn [fst] in Hk.
    rename c into c'. destruct (Hc k c') as (cf & Hcf & _ & _ & Hfid & _); [set_solver|].
    destruct (Hc k' c') as (cf' & Hcf' & _ & _ & Hfid' & _); [set_solver|]. simplify_eq.
    apply Hk. apply list_elem_of_fmap. by exists (k, c').
  - apply IH; [|done]. intros k' c' Hin. apply Hc. set_solver.
Qed.

(** A child of a DF is found in the selectables of the DF under its name,
    and under its FID unless a sibling is named so, unless an application of
    the MF is registered under the same text. *)
Theorem child_selectable mf d df k c cf n : wf h → in_tree h mf d → h !! d = Some df → is_df (cls df) = true →
  (k, c) ∈ children df → h !! c = Some cf → filled (name cf) = Some n →
  (∀ a af, a ∈ (applications df).*2 → h !! a = Some af → aid af ∉ [n; k] ∧ filled (name af) ≠ Some n ∧ filled (name af) ≠ Some k) →
  ∃ sels, get_selectables h d [] = Ok sels ∧ kv_get n sels = Some c ∧
    ((∀ x xf, x ∈ (children df).*2 → h !! x = Some xf → filled (name xf) ≠ Some k) → kv_get k sels = Some c).
Proof.
  intros Hwf Hd Hdf Hisdf Hin Hc Hn Happs.
  destruct (wf_get _ _ _ Hwf Hdf) as [_ Wc Wk Wn _ Wa _ _ _ _ Wna _].
  destruct (Wc k c Hin) as (cf' & Hcf' & _ & _ & Hfid & Hk). simplify_eq.
  assert (Hcl : c ∈ (children df).*2) by (apply list_elem_of_fmap; by exists (k, c)).
  pose proof (children_nodup d df Hwf Hdf) as Hnd.
  assert (∃ sels, df_selectables h d [] = Ok sels ∧ kv_get n sels = Some c ∧
    ((∀ x xf, x ∈ (children df).*2 → h !! x = Some xf → filled (name xf) ≠ Some k) → kv_get k sels = Some c))
    as (sels & E & Hg & Hgk).
  { unfold df_selectables. destruct (file_selectables_ok h mf Hwf d [] Hd) as (s & -> & _).
    rewrite (obj_ok _ _ _ Hdf), !R_bind_Ok. unfold add_files_of.
    pose proof (children_ok h mf Hwf d df Hd Hdf) as Hok.
    destruct (keyed_ok h mf Hwf fid _ Hok) as (r1 & E1 & _), (keyed_ok h mf Hwf name _ Hok) as (r2 & E2 & _).
    rewrite !wants_all. rewrite E1, R_bind_Ok, E2, R_bind_Ok. eexists. split; [done|].
    assert (NoDup r2.*1) as Hn2 by by eapply keyed_nodup.
    assert (NoDup r1.*1) as Hn1.
    { eapply keyed_nodup; [done..|]. intros a b fa fb Ha Hb Hfa Hfb Hs Ek. unfold compose in *.
      apply list_elem_of_fmap in Ha as ([ka a'] & -> & Ha), Hb as ([kb b'] & -> & Hb).
      destruct (Wc _ _ Ha) as (ga & ? & _ & _ & Fa & Ka), (Wc _ _ Hb) as (gb & ? & _ & _ & Fb & Kb). simplify_eq/=.
      rewrite Fa, Fb in Ek. assert (ka = kb) as -> by by destruct ka, kb; simplify_eq/=.
      pose proof (kv_get_nodup _ _ _ Wk Ha). pose proof (kv_get_nodup _ _ _ Wk Hb). congruence. }
    rewrite !kv_get_update by done. split.
    - by rewrite (kv_get_nodup n c r2 Hn2) by (apply (keyed_in _ _ _ E2); eauto).
    - intros Hno. assert (kv_get k r2 = None) as ->.
      { apply kv_get_none. intros Hin2. apply list_elem_of_fmap in Hin2 as ([k' x] & -> & Hx).
        apply (keyed_in _ _ _ E2) in Hx as (Hx & xf & Hxf & Hk'). by eapply Hno. }
      rewrite (kv_get_nodup k c r1 Hn1); [done|]. apply (keyed_in _ _ _ E1). split; [done|]. exists cf.
      split; [done|]. rewrite Hfid. by destruct k. }
  unfold get_selectables. rewrite (obj_ok _ _ _ Hdf), R_bind_Ok, Hisdf.
  destruct (is_mf (cls df)) eqn:Em; [|by exists sels].
  unfold mf_selectables. rewrite E, R_bind_Ok.
  unfold get_app_selectables. rewrite (obj_ok _ _ _ Hdf), R_bind_Ok, Em. cbn [guard_else]. rewrite R_bind_Ok.
  pose proof (applications_ok h mf Hwf d df Hd Hdf) as Hoka.
  destruct (objs_ok h mf Hwf _ Hoka) as (fs & Ef & Hlen), (keyed_ok h mf Hwf name _ Hoka) as (r & Er & _).
  rewrite !wants_all. rewrite Ef, R_bind_Ok, R_bind_Ok, Er, !R_bind_Ok.
  assert (Hother : ∀ j, j ∈ [n; k] →
    kv_get j (kv_update sels (kv_update (kv_of (zip (aid <$> fs) (applications df).*2)) r)) = kv_get j sels).
  { intros j Hj. apply kv_get_update_other. intros Hin'.
    assert (j ∈ r.*1 ∨ j ∈ aid <$> fs) as [Hjr|Hja].
    { apply kv_update_keys in Hin' as [Hin'|]; [right|by left]. apply kv_update_keys in Hin' as [Hin'|Hin']; [set_solver|].
      apply list_elem_of_fmap in Hin' as ([k' a] & -> & Hz). by apply elem_of_zip_l in Hz. }
    - apply list_elem_of_fmap in Hjr as ([k' a] & -> & Hx). apply (keyed_in _ _ _ Er) in Hx as (Hx & af & Haf & Hk').
      cbn [fst] in Hj. destruct (Happs a af Hx Haf) as (_ & H1 & H2). set_solver.
    - apply list_elem_of_fmap in Hja as (af & -> & Haf). destruct (map_r_obj_in _ _ _ Ef af Haf) as (a & Ha & Hla).
      by destruct (Happs a af Ha Hla) as (H1 & _). }
  eexists. split; [done|]. rewrite !Hother by set_solver. done.
Qed.
End children_selectable.

(** ** Two corners of the constructors *)

(** A constructor called with [parent=] never returns: the parent enters the
    new file before [self.service] is assigned, and reading the service
    raises. *)
Theorem parent_argument_raises `{OsmocomUtilsLaws} c a d h :
  a_parent a = Some d → d ≠ new_id h → filled (a_fid a) ≠ None → ∀ i, (new_file c a h).1 ≠ Ok i.
Proof.
  intros Hp Hd Hk i. unfold new_file, init_file. rewrite Hp. mrun. set (n := new_id h) in *.
  destruct (_ || bool_decide (is_Some (a_fid a))); mrun; [|done].
  destruct (_ || bool_decide (is_Some (a_fid a))); mrun; [|done].
  destruct (filled (a_fid a)) as [k|]; [|done]. rewrite decide_False by done.
  destruct (add_file_cases d n false (<[n := blank c a (Some d)]> h)) as [[(r & -> & Hr) _]|(k' & df & cf & Hacc & ->)]; [done| |].
  - destruct r; [by destruct a0; specialize (Hr eq_refl)|done].
  - assert (cf = blank c a (Some d)) as -> by (pose proof (acc_c _ _ _ _ _ _ Hacc) as E; rewrite lookup_insert_eq in E; congruence).
    rewrite M_bind_eq. unfold _add_file_services. mrun. unfold hung.
    rewrite (obj_ok _ _ _ (lookup_insert_eq _ _ _)). mrun. done.
Qed.

(** An MF without a profile looks for one above itself for ever, although
    the comment on [CardMF.decode_select_response] says that no decoding is
    done then. *)
Theorem mf_without_profile h mf f n : h !! mf = Some f → parent f = Some mf → profile f = None →
  profile_above h n mf = Err OutOfFuel.
Proof.
  intros Hf Hp Hno. induction n as [|n IH]; [done|]. cbn. by rewrite (obj_ok _ _ _ Hf), R_bind_Ok, Hno, Hp.
Qed.

(** ** A small card *)
Module FsRun.
Import Ref.
Definition args (k n : string) : file_args :=
  {| a_fid := Some (lit k); a_sfid := None; a_name := Some (lit n); a_parent := None; a_profile := None; a_service := None |}.
Definition prof : CardProfile :=
  {| profile_sw := [(lit "Checking errors", [(lit "6a82", lit "File not found")])];
     profile_cla := lit "00"; profile_sel_ctrl := lit "0004";
     profile_decode_select_response := λ s, Ok (VStr s) |}.

(** MF (0), DF.GSM (1), EF.IMSI (2), EF.ICCID (3), ADF.USIM (4), EF.SMS (5) *)
Definition h1 := (new_mf (Some prof) ∅).2.
Definition h2 := (new_file CardDF (args "7f20" "DF.GSM") h1).2.
Definition h3 := (new_file TransparentEF (args "6F07" "EF.IMSI") h2).2.
Definition h4 := (new_file TransparentEF (args "2fe2" "EF.ICCID") h3).2.
Definition usim : file_args :=
  {| a_fid := None; a_sfid := None; a_name := Some (lit "ADF.USIM"); a_parent := None; a_profile := None; a_service := None |}.
Definition h5 := (new_adf (lit "A0000000871002") true usim h4).2.
Definition h6 := (new_file LinFixedEF (args "6f3c" "EF.SMS") h5).2.
Definition h7 := (add_file 1 2 false h6).2.
Definition h8 := (add_file 0 1 false h7).2.
Definition h9 := (add_file 0 3 false h8).2.
Definition h10 := (add_file 4 5 false h9).2.
Definition card := (add_application_df 0 4 h10).2.

Example gsm_paths : fully_qualified_path_str card 2 true = Ok (lit "MF/DF.GSM/EF.IMSI") ∧
  build_select_path_to card 2 3 = Ok (Some [1; 0; 3]%nat) ∧ build_select_path_to card 2 5 = Ok (Some [4; 5]%nat).
Proof. vm_compute. done. Qed.

Lemma not_below (h : heap) c d : match fully_qualified_path_fobj h d with Ok (r :: _) => r ≠ c | _ => True end →
  ¬ below h c d.
Proof. intros E [l Hl]. rewrite (fully_qualified_path_fobj_ok _ _ _ Hl) in E. done. Qed.

Lemma is_detached (h : heap) c : (parent <$> h !! c) = Some None → detached h c.
Proof. destruct (h !! c) as [cf|] eqn:E; [|done]. intros [= ?]. by exists cf. Qed.

Ltac free := first [apply is_detached; vm_compute; reflexivity | apply not_below; vm_compute; lia].

Lemma built1 : built h1.
Proof. unfold h1. apply built_mf, built_empty. Qed.
Lemma built2 : built h2.
Proof. unfold h2. apply built_file; [apply built1|reflexivity..]. Qed.
Lemma built3 : built h3.
Proof. unfold h3. apply built_file; [apply built2|reflexivity..]. Qed.
Lemma built4 : built h4.
Proof. unfold h4. apply built_file; [apply built3|reflexivity..]. Qed.
Lemma built5 : built h5.
Proof. unfold h5. apply built_adf; [apply built4|reflexivity]. Qed.
Lemma built6 : built h6.
Proof. unfold h6. apply built_file; [apply built5|reflexivity..]. Qed.
Lemma built7 : built h7.
Proof. unfold h7. apply built_add; [apply built6|free..]. Qed.
Lemma built8 : built h8.
Proof. unfold h8. apply built_add; [apply built7|free..]. Qed.
Lemma built9 : built h9.
Proof. unfold h9. apply built_add; [apply built8|free..]. Qed.
Lemma built10 : built h10.
Proof. unfold h10. apply built_add; [apply built9|free..]. Qed.
Lemma card_built : built card.
Proof. unfold card. apply built_add_application; [apply built10|free..]. Qed.

Lemma in_tree_of h mf i l : built h → obj_is h is_mf mf = true → fully_qualified_path_fobj h i = Ok (mf :: l) →
  in_tree h mf i.
Proof.
  intros Hb Hm E. split; [|done].
  destruct (h !! i) as [f|] eqn:Ei.
  - destruct (below_exists h i f (wf_of_built _ Hb) Ei) as (root & l' & Hl).
    pose proof (fully_qualified_path_fobj_ok _ _ _ Hl) as E'. rewrite E' in E. simplify_eq. by exists l.
  - unfold fully_qualified_path_fobj, enough in E. cbn [path_objs] in E. unfold obj in E. by rewrite Ei in E.
Qed.

Lemma card_in_tree i l : fully_qualified_path_fobj card i = Ok (0%nat :: l) → in_tree card 0 i.
Proof. apply in_tree_of; [apply card_built|vm_compute; reflexivity]. Qed.

Lemma built_wf_witness : wf card.
Proof. exact (built_wf card card_built). Defined.

Lemma build_select_path_to_spec_witness :
  ∃ path, build_select_path_to card 2 5 = Ok (Some path) ∧ path ≠ [] ∧ walk card 2 path 5 ∧
    (∀ j f, path !! S j = Some f → obj_is card is_adf f = false).
Proof.
  apply (build_select_path_to_spec card 0 (wf_of_built _ card_built)).
  - apply (card_in_tree 2 [1; 2]%nat). vm_compute. reflexivity.
  - apply (card_in_tree 5 [4; 5]%nat). vm_compute. reflexivity.
Defined.

Lemma add_file_spec_witness :
  let '(r, h') := add_file 0 1 false h7 in
  wf h' ∧
  ((h' = h7 ∧ (∀ k df cf, ¬ accepted h7 0 1 k df cf) ∧ (r = Ok () → false = true)) ∨
   (∃ k df cf, accepted h7 0 1 k df cf ∧ same_tree (hung h7 0 1 k df cf) h' ∧ value_error r)).
Proof.
  apply (add_file_spec h7 0 1 false); [|free..]. apply wf_of_built.
  apply built7.
Defined.

Definition df_gsm : CardFile := default (blank CardDF (args "7f20" "DF.GSM") None) (card !! 1%nat).
Definition ef_imsi : CardFile := default (blank CardDF (args "7f20" "DF.GSM") None) (card !! 2%nat).

Lemma child_selectable_witness :
  ∃ sels, get_selectables card 1 [] = Ok sels ∧ kv_get (lit "EF.IMSI") sels = Some 2%nat ∧
    ((∀ x xf, x ∈ (children df_gsm).*2 → card !! x = Some xf → filled (name xf) ≠ Some (lit "6f07")) →
     kv_get (lit "6f07") sels = Some 2%nat).
Proof.
  apply (child_selectable card 0 1 df_gsm (lit "6f07") 2 ef_imsi (lit "EF.IMSI")).
  - exact (wf_of_built _ card_built).
  - apply (card_in_tree 1 [1]%nat). vm_compute. reflexivity.
  - vm_compute. reflexivity.
  - vm_compute. reflexivity.
  - vm_compute. left.
  - vm_compute. reflexivity.
  - vm_compute. reflexivity.
  - intros a af Ha. exfalso. revert Ha. vm_compute. intros Ha. inversion Ha.
Defined.

Lemma parent_argument_raises_witness : ∀ i,
  (new_file TransparentEF {| a_fid := Some (lit "6f07"); a_sfid := None; a_name := None; a_parent := Some 1%nat;
                             a_profile := None; a_service := None |} h2).1 ≠ Ok i.
Proof. apply (parent_argument_raises TransparentEF _ 1); [reflexivity|vm_compute; lia|vm_compute; discriminate]. Defined.
End FsRun.
