(* ===== verification/Sms.v ===== *)
(** SMS transfer PDUs (pySim/sms.py): the user data header, the address
    field, SMS-DELIVER and SMS-SUBMIT with their conversions from and to the
    PDUs of the SMPP library. An address field is an object that its own
    encoder changes, so encoders are computations on the object. *)

From S2P Require Import Prelude Osmocom Construct.

(** ** Library parts *)

(** [TonNpi] of osmocom.construct: one byte with the type of number and the
    numbering plan, by name. *)
Class OsmocomConstruct := { TonNpi : con }.

(** Names of [TonNpi] that the code also has in its own tables. *)
Definition ton_names : list string :=
  ["unknown"; "international"; "national"; "network_specific"; "short_code"; "alphanumeric"; "abbreviated"]%string.
Definition npi_names : list string :=
  ["unknown"; "isdn_e164"; "data_x121"; "telex_f69"; "sc_specific6"; "national"; "private"; "ermes"]%string.

Definition ton_npi (ext : bool) (ton npi : value) : value :=
  VDict [("ext"%string, VBool ext); ("type_of_number"%string, ton); ("numbering_plan_id"%string, npi)].

Definition known (names : list string) (v : value) : Prop := ∃ s, v = VStr (lit s) ∧ s ∈ names.

Class OsmocomConstructLaws `{Construct, OsmocomConstruct, OsmocomUtils} := {
  TonNpi_wf : wf TonNpi = true;
  TonNpi_greedy : greedy TonNpi = false;
  TonNpi_size : size_of TonNpi = Some 1%nat;
  TonNpi_dom ctx ext ton npi :
    known ton_names ton → known npi_names npi → dom TonNpi ctx (ton_npi ext ton npi);
  (** [BcdAdapter]: digits with the nibbles of every byte exchanged *)
  bcd_decode b : is_bytes b → decode "BcdAdapter" (VBytes b) = Ok (VStr (swap_nibbles (b2h b)));
  bcd_encode s b : h2b (swap_nibbles s) = Ok b → encode "BcdAdapter" (VStr s) = Ok (VBytes b);
}.

(** The types of the SMPP library, as far as the code looks into them;
    enumeration members by name. *)
Inductive DataCoding :=
| DefaultScheme (coding : string)
| GsmMessageClass (msgCoding : string)
| OtherScheme.

Record SmppPdu := mkSmpp {
  is_submit_sm : bool;
  data_coding : DataCoding;
  source_addr : bytes; source_addr_ton : string; source_addr_npi : string;
  destination_addr : bytes; dest_addr_ton : string; dest_addr_npi : string;
  udhi_set : bool;
  replace_if_present : bool;
  registered_delivery : bool;
  protocol_id : Z;
  short_message : bytes }.

Record DeliverSM := mkDeliverSM {
  dsm_source : option (str * string * string); dsm_protocol_id : option Z; dsm_short_message : option bytes }.
Record SubmitSM := mkSubmitSM {
  ssm_destination : str * string * string; ssm_replace : bool; ssm_protocol_id : option Z; ssm_short_message : option bytes }.

Inductive BytesOrHex := Hex (s : str) | Bin (b : bytes).

Section sms.
Context `{Construct, OsmocomConstruct, OsmocomUtils}.

(** [if isinstance(inb, str): inb = h2b(inb)] *)
Definition inb_bytes (inb : BytesOrHex) : result bytes :=
  match inb with Hex s => h2b s | Bin b => Ok b end.

(** ** UserDataHeader *)

Open Scope con_scope.

Definition ie_c : con :=
  Struct ["iei" / Int8ub; "length" / Int8ub; "value" / Bytes (This ["length"%string])].
Definition udh_construct : con :=
  Struct ["ies" / Prefixed Int8ub (GreedyRange ie_c); "data" / GreedyBytes].

Record UserDataHeader := mkUdh { ies : list value }.

Fixpoint has_ie_in (iei : Z) (l : list value) : result bool :=
  match l with
  | [] => Ok false
  | ie :: l' =>
      i ← item ie "iei";
      n ← as_int i;
      if n =? iei then Ok true else has_ie_in iei l'
  end.

Definition has_ie (udh : UserDataHeader) (iei : Z) : result bool := has_ie_in iei (ies udh).

Definition as_list (v : value) : result (list value) := match v with VList l => Ok l | _ => Err TypeError end.

Definition udh_from_bytes (inb : BytesOrHex) : result (UserDataHeader * bytes) :=
  inb ← inb_bytes inb;
  '(res, _) ← parse udh_construct [] 0 inb;
  i ← item res "ies"; l ← as_list i;
  d ← item res "data"; data ← as_bytes d;
  Ok (mkUdh l, data).

Definition udh_to_bytes (udh : UserDataHeader) : result bytes :=
  build udh_construct [] (VDict ["ies" / VList (ies udh); "data" / VBytes []]).

(** ** Data coding *)

Definition smpp_dcs_is_8bit (dcs : DataCoding) : bool :=
  match dcs with
  | DefaultScheme c => String.eqb c "OCTET_UNSPECIFIED" || String.eqb c "OCTET_UNSPECIFIED_COMMON"
  | GsmMessageClass m => String.eqb m "DATA_8BIT"
  | OtherScheme => false
  end.

Definition ensure_smpp_is_8bit (dcs : DataCoding) : result unit := guard_else (smpp_dcs_is_8bit dcs) ValueError.

(** ** AddressField *)

Definition address_construct : con :=
  Struct ["addr_len" / Int8ub;
          "type_of_addr" / TonNpi;
          "digits" / Adapter "BcdAdapter" (Bytes (Add (FloorDiv (This ["addr_len"%string]) (Num 2))
                                                     (Mod (This ["addr_len"%string]) (Num 2))));
          "tell" / Tell].

Definition smpp_map_npi : list (string * string) :=
  [("UNKNOWN", "unknown"); ("ISDN", "isdn_e164"); ("DATA", "data_x121"); ("TELEX", "telex_f69");
   ("LAND_MOBILE", "sc_specific6"); ("NATIONAL", "national"); ("PRIVATE", "private"); ("ERMES", "ermes")]%string.

Definition smpp_map_ton : list (string * string) :=
  [("UNKNOWN", "unknown"); ("INTERNATIONAL", "international"); ("NATIONAL", "national");
   ("NETWORK_SPECIFIC", "network_specific"); ("SUBSCRIBER_NUMBER", "short_code");
   ("ALPHANUMERIC", "alphanumeric"); ("ABBREVIATED", "abbreviated")]%string.

(** [bidict[k]] and [bidict.inverse[v]] *)
Fixpoint forward (m : list (string * string)) (k : string) : result str :=
  match m with
  | [] => Err KeyError
  | (k', v) :: m' => if String.eqb k k' then Ok (lit v) else forward m' k
  end.
Fixpoint inverse (m : list (string * string)) (v : value) : result string :=
  match m with
  | [] => Err KeyError
  | (k, v') :: m' => if is_str v v' then Ok k else inverse m' v
  end.

(** Type of number and numbering plan as the parser gives them: a name, or
    the number of one that has no name. *)
Record AddressField := mkAddress { digits : str; ton : value; npi : value }.

Definition address_from_bytes (inb : BytesOrHex) : result (AddressField * bytes) :=
  inb ← inb_bytes inb;
  '(res, _) ← parse address_construct [] 0 inb;
  toa ← item res "type_of_addr";
  t ← item toa "type_of_number";
  n ← item toa "numbering_plan_id";
  d ← item res "digits"; d ← as_str d;
  l ← item res "addr_len"; l ← as_int l;
  p ← item res "tell"; p ← as_int p;
  Ok (mkAddress (take (Z.to_nat l) d) t n, drop (Z.to_nat p) inb).

(** [addr.decode('ascii')] *)
Definition decode_ascii (b : bytes) : result str :=
  if forallb (λ x, x <? 128) b then Ok (map chr b) else Err (LibError "UnicodeDecodeError").

Definition address_from_smpp (addr : bytes) (ton npi : string) : result AddressField :=
  addr ← decode_ascii addr;
  t ← forward smpp_map_ton ton;
  n ← forward smpp_map_npi npi;
  Ok (mkAddress addr (VStr t) (VStr n)).

Definition address_to_smpp (a : AddressField) : result (str * string * string) :=
  t ← inverse smpp_map_ton (ton a);
  n ← inverse smpp_map_npi (npi a);
  Ok (digits a, t, n).

(** The encoder pads the digits of the object itself. *)
Definition address_to_bytes : M AddressField bytes :=
  a ← get;
  let num_digits := len (digits a) in
  (if truthy (num_digits mod 2) then modify (λ a, mkAddress (digits a ++ lit "f") (ton a) (npi a)) else mret ());;
  a ← get;
  lift (build address_construct []
          (VDict ["addr_len" / VInt num_digits;
                  "type_of_addr" / ton_npi true (ton a) (npi a);
                  "digits" / VStr (digits a)])).

(** ** T-PDUs *)

Record SMS_TPDU := mkTpdu {
  tp_mti : Z; tp_rp : bool; tp_udhi : bool;
  tp_pid : option Z; tp_dcs : option Z; tp_udl : option Z; tp_ud : option bytes }.

(** [outb.append(x)], [outb.extend(b)] for an attribute that may be None *)
Definition append (x : option Z) : result bytes :=
  z ← from_opt TypeError x; bytes_of_ints [z].
Definition extend (b : option bytes) : result bytes := from_opt TypeError b.

Record SMS_DELIVER := mkDeliver {
  d_tpdu : SMS_TPDU; tp_lp : bool; tp_mms : bool; tp_oa : option AddressField;
  tp_scts : option bytes; tp_sri : bool }.

(** The name tp_rp stands twice in the declaration. *)
Definition deliver_flags : con :=
  BitStruct ["tp_rp" / Flag; "tp_udhi" / Flag; "tp_rp" / Flag; "tp_sri" / Flag;
             "" / Padding 1; "tp_mms" / Flag; "tp_mti" / BitsInteger 2].

(** The constructor fixes [tp_mti]. *)
Definition new_deliver (t : SMS_TPDU) (lp mms : bool) (oa : option AddressField) (scts : option bytes) (sri : bool) : SMS_DELIVER :=
  mkDeliver (mkTpdu 0 (tp_rp t) (tp_udhi t) (tp_pid t) (tp_dcs t) (tp_udl t) (tp_ud t)) lp mms oa scts sri.

Definition as_flag (v : value) : result bool := match v with VBool b => Ok b | _ => Err TypeError end.

Definition deliver_from_bytes (inb : BytesOrHex) : result SMS_DELIVER :=
  inb ← inb_bytes inb;
  '(d, _) ← parse deliver_flags [] 0 inb;
  '(oa, remainder) ← address_from_bytes (Bin (drop 1 inb));
  pid ← idx remainder 0;
  dcs ← idx remainder 1;
  let scts := slice 2 9 remainder in
  udl ← idx remainder 9;
  let ud := drop 10 remainder in
  rp ← item d "tp_rp"; rp ← as_flag rp;
  udhi ← item d "tp_udhi"; udhi ← as_flag udhi;
  sri ← item d "tp_sri"; sri ← as_flag sri;
  mms ← item d "tp_mms"; mms ← as_flag mms;
  Ok (new_deliver (mkTpdu 0 rp udhi (Some pid) (Some dcs) (Some udl) (Some ud)) false mms (Some oa) (Some scts) sri).

(** [self.tp_oa.to_bytes()] on the address the PDU holds *)
Definition oa_to_bytes : M SMS_DELIVER bytes := λ d,
  match tp_oa d with
  | None => (Err AttributeError, d)
  | Some a => let '(r, a') := address_to_bytes a in
              (r, mkDeliver (d_tpdu d) (tp_lp d) (tp_mms d) (Some a') (tp_scts d) (tp_sri d))
  end.

Definition deliver_to_bytes : M SMS_DELIVER bytes :=
  d ← get;
  let t := d_tpdu d in
  flags ← lift (build deliver_flags []
    (VDict ["tp_mti" / VInt (tp_mti t); "tp_mms" / VBool (tp_mms d); "tp_lp" / VBool (tp_lp d);
            "tp_rp" / VBool (tp_rp t); "tp_udhi" / VBool (tp_udhi t); "tp_sri" / VBool (tp_sri d)]));
  oa ← oa_to_bytes;
  pid ← lift (append (tp_pid t));
  dcs ← lift (append (tp_dcs t));
  scts ← lift (extend (tp_scts d));
  udl ← lift (append (tp_udl t));
  ud ← lift (extend (tp_ud t));
  mret (flags ++ oa ++ pid ++ dcs ++ scts ++ udl ++ ud).

(** [h2b('22705200000000')] *)
Definition FIXED_SCTS : bytes := [34; 112; 82; 0; 0; 0; 0].

Definition deliver_from_smpp_submit (pdu : SmppPdu) : result SMS_DELIVER :=
  ensure_smpp_is_8bit (data_coding pdu);;
  oa ← address_from_smpp (source_addr pdu) (source_addr_ton pdu) (source_addr_npi pdu);
  let ud := short_message pdu in
  Ok (new_deliver (mkTpdu 0 false (udhi_set pdu) (Some (protocol_id pdu)) (Some 246) (Some (len ud)) (Some ud))
        false false (Some oa) (Some FIXED_SCTS) false).

Definition deliver_from_smpp (pdu : SmppPdu) : result SMS_DELIVER :=
  if is_submit_sm pdu then deliver_from_smpp_submit pdu else Err ValueError.

Definition deliver_to_smpp (d : SMS_DELIVER) : result DeliverSM :=
  let t := d_tpdu d in
  guard_else (bool_decide (tp_dcs t = Some 246)) ValueError;;
  src ← (match tp_oa d with Some a => s ← address_to_smpp a; Ok (Some s) | None => Ok None end);
  Ok (mkDeliverSM src (tp_pid t) (tp_ud t)).

(** *** SMS-SUBMIT *)

(** [tp_vpf] is a name, or None. *)
Record SMS_SUBMIT := mkSubmit {
  s_tpdu : SMS_TPDU; tp_rd : bool; tp_vpf : value; tp_srr : bool; tp_mr : option Z;
  tp_da : option AddressField; tp_vp : option bytes }.

Definition submit_flags : con :=
  BitStruct ["tp_srr" / Flag; "tp_udhi" / Flag; "tp_rp" / Flag;
             "tp_vpf" / Enum (BitsInteger 2) [("none", 0); ("relative", 2); ("enhanced", 1); ("absolute", 3)]%string;
             "tp_rd" / Flag; "tp_mti" / BitsInteger 2].

Definition new_submit (t : SMS_TPDU) (rd : bool) (vpf : value) (srr : bool) (mr : option Z)
    (da : option AddressField) (vp : option bytes) : SMS_SUBMIT :=
  mkSubmit (mkTpdu 1 (tp_rp t) (tp_udhi t) (tp_pid t) (tp_dcs t) (tp_udl t) (tp_ud t)) rd vpf srr mr da vp.

(** How many bytes of validity period follow, by its format. *)
Definition vp_length (vpf : value) : result (option nat) :=
  if is_str vpf "none" then Ok None
  else if is_str vpf "relative" then Ok (Some 1%nat)
  else if is_str vpf "enhanced" then Ok (Some 7%nat)
  else if is_str vpf "absolute" then Ok (Some 7%nat)
  else Err ValueError.

Definition submit_from_bytes (inb : BytesOrHex) : result SMS_SUBMIT :=
  inb ← inb_bytes inb;
  '(d, _) ← parse submit_flags [] 0 inb;
  mr ← idx inb 1;
  '(da, remainder) ← address_from_bytes (Bin (drop 2 inb));
  pid ← idx remainder 0;
  dcs ← idx remainder 1;
  vpf ← item d "tp_vpf";
  n ← vp_length vpf;
  let vp := match n with Some n => Some (slice 2 (2 + n) remainder) | None => None end in
  let offset := (2 + default 0 n)%nat in
  udl ← idx remainder offset;
  let ud := drop (S offset) remainder in
  rp ← item d "tp_rp"; rp ← as_flag rp;
  udhi ← item d "tp_udhi"; udhi ← as_flag udhi;
  srr ← item d "tp_srr"; srr ← as_flag srr;
  rd ← item d "tp_rd"; rd ← as_flag rd;
  Ok (new_submit (mkTpdu 1 rp udhi (Some pid) (Some dcs) (Some udl) (Some ud)) rd vpf srr (Some mr) (Some da) vp).

Definition da_to_bytes : M SMS_SUBMIT bytes := λ s,
  match tp_da s with
  | None => (Err AttributeError, s)
  | Some a => let '(r, a') := address_to_bytes a in
              (r, mkSubmit (s_tpdu s) (tp_rd s) (tp_vpf s) (tp_srr s) (tp_mr s) (Some a') (tp_vp s))
  end.

Definition submit_to_bytes : M SMS_SUBMIT bytes :=
  s ← get;
  let t := s_tpdu s in
  flags ← lift (build submit_flags []
    (VDict ["tp_mti" / VInt (tp_mti t); "tp_rd" / VBool (tp_rd s); "tp_vpf" / tp_vpf s;
            "tp_rp" / VBool (tp_rp t); "tp_udhi" / VBool (tp_udhi t); "tp_srr" / VBool (tp_srr s)]));
  mr ← lift (append (tp_mr s));
  da ← da_to_bytes;
  pid ← lift (append (tp_pid t));
  dcs ← lift (append (tp_dcs t));
  vp ← lift (if is_str (tp_vpf s) "none" then Ok [] else extend (tp_vp s));
  udl ← lift (append (tp_udl t));
  ud ← lift (extend (tp_ud t));
  mret (flags ++ mr ++ da ++ pid ++ dcs ++ vp ++ udl ++ ud).

Definition submit_from_smpp_submit (pdu : SmppPdu) : result SMS_SUBMIT :=
  ensure_smpp_is_8bit (data_coding pdu);;
  da ← address_from_smpp (destination_addr pdu) (dest_addr_ton pdu) (dest_addr_npi pdu);
  let ud := short_message pdu in
  Ok (new_submit (mkTpdu 1 false (udhi_set pdu) (Some (protocol_id pdu)) (Some 246) (Some (len ud)) (Some ud))
        (replace_if_present pdu) VNone (registered_delivery pdu) (Some 0) (Some da) None).

Definition submit_from_smpp (pdu : SmppPdu) : result SMS_SUBMIT :=
  if is_submit_sm pdu then submit_from_smpp_submit pdu else Err ValueError.

Definition submit_to_smpp (s : SMS_SUBMIT) : result SubmitSM :=
  let t := s_tpdu s in
  guard_else (bool_decide (tp_dcs t = Some 246)) ValueError;;
  a ← from_opt AttributeError (tp_da s);
  dst ← address_to_smpp a;
  Ok (mkSubmitSM dst (tp_rp t) (tp_pid t) (tp_ud t)).

(** [SMS_DELIVER.from_submit] *)
Definition deliver_from_submit (s : SMS_SUBMIT) : SMS_DELIVER :=
  new_deliver (s_tpdu s) false false None (Some FIXED_SCTS) false.
End sms.

(** ** Facts *)

Section facts.
Context `{ConstructLaws, OsmocomUtilsLaws, !OsmocomConstruct, !OsmocomConstructLaws}.
Open Scope con_scope.

(** *** User data header *)

Lemma idx_0 (a : Z) r : idx (a :: r) 0 = Ok a.
Proof. reflexivity. Qed.
Lemma idx_1 (a b : Z) r : idx (a :: b :: r) 1 = Ok b.
Proof. reflexivity. Qed.

Lemma inb_bin b : inb_bytes (Bin b) = Ok b.
Proof. reflexivity. Qed.

(** An information element with its own length. *)
Definition ie (i : Z) (v : bytes) : value :=
  VDict ["iei" / VInt i; "length" / VInt (len v); "value" / VBytes v].
Definition ie_bytes (e : Z * bytes) : bytes := e.1 :: len e.2 :: e.2.
Definition ie_ok (e : Z * bytes) : Prop := is_byte e.1 ∧ is_bytes e.2 ∧ len e.2 < 256.
Definition payload (l : list (Z * bytes)) : bytes := concat (map ie_bytes l).

Lemma be1 z : is_byte z → be 1 z = [z].
Proof. intros Hz. change (be 1 z) with [z mod 256]. by rewrite Z.mod_small. Qed.

Lemma build_byte ctx z : is_byte z → build Int8ub ctx (VInt z) = Ok [z].
Proof. intros Hz. unfold Int8ub. rewrite build_int, bool_decide_ok by done. by rewrite be1. Qed.

Lemma parse_byte ctx pos z r : parse Int8ub ctx pos (z :: r) = Ok (VInt z, r).
Proof. unfold Int8ub. rewrite parse_int. change (z :: r) with ([z] ++ r). by rewrite read_app. Qed.

Lemma ie_dom ctx e : ie_ok e → dom ie_c ctx (ie e.1 e.2).
Proof.
  intros (Hi & Hb & Hl). apply dom_struct. eexists. split; [done|]. cbn.
  pose proof (len_nonneg e.2). unfold is_byte in Hi.
  repeat split; [exists e.1; split; [done|lia] | exists (len e.2); split; [done|lia] | exists e.2; done].
Qed.

Lemma build_ie ctx e : ie_ok e → build ie_c ctx (ie e.1 e.2) = Ok (ie_bytes e).
Proof.
  intros (Hi & Hb & Hl). unfold ie_c, ie. rewrite build_struct. cbn [build_fields dict_get String.eqb Ascii.eqb Bool.eqb from_option id].
  rewrite !build_byte by (unfold is_byte in *; pose proof (len_nonneg e.2); lia). cbn.
  rewrite (build_bytes _ _ _ (len e.2)) by done. rewrite Z.eqb_refl. cbn. by rewrite app_nil_r.
Qed.

Lemma build_ies ctx l : Forall ie_ok l → build_items ie_c ctx (map (λ e, ie e.1 e.2) l) = Ok (payload l).
Proof.
  intros Hl. unfold build_items.
  assert (map_r (build ie_c ctx) (map (λ e, ie e.1 e.2) l) = Ok (map ie_bytes l)) as ->; [|done].
  induction Hl as [|e l He _ IH]; [done|]. cbn [map map_r]. by rewrite build_ie, IH.
Qed.

Lemma udh_ok l :
  Forall ie_ok l → len (payload l) < 256 →
  let udh := mkUdh (map (λ e, ie e.1 e.2) l) in
  udh_to_bytes udh = Ok (len (payload l) :: payload l) ∧
  ∀ data, udh_from_bytes (Bin ((len (payload l) :: payload l) ++ data)) = Ok (udh, data).
Proof.
  intros Hl Hp udh. pose proof (len_nonneg (payload l)) as Hp0. split.
  - unfold udh_to_bytes, udh_construct. rewrite build_struct. cbn [build_fields dict_get String.eqb Ascii.eqb Bool.eqb from_option id].
    rewrite build_prefixed, build_greedy_range, build_greedy_bytes. cbn [ies udh]. rewrite build_ies by done. cbn.
    rewrite build_byte by (unfold is_byte; lia). cbn. by rewrite app_nil_r.
  - intros data. unfold udh_from_bytes, udh_construct. cbn [inb_bytes]. rewrite R_bind_Ok, parse_struct.
    cbn [parse_fields String.eqb app]. rewrite parse_prefixed, parse_byte. cbn [as_length].
    rewrite !R_bind_Ok. cbn [as_length]. rewrite R_bind_Ok, read_app by done. rewrite R_bind_Ok.
    destruct (con_round_trip (GreedyRange ie_c) (VList (ies udh))) as (bs & Hb & _ & _ & Hr).
    { done. }
    { eexists. split; [done|]. apply List.Forall_map. eapply List.Forall_impl; [|exact Hl]. intros e He. by apply ie_dom. }
    rewrite build_greedy_range in Hb. cbn [ies udh] in Hb. rewrite build_ies in Hb by done. injection Hb as <-.
    specialize (Hr 0 [] (λ _, eq_refl)). rewrite app_nil_r in Hr. rewrite Hr.
    rewrite !R_bind_Ok. rewrite parse_greedy_bytes. done.
Qed.

(** *** Addresses *)

Definition address_fields : list (string * con) :=
  ["addr_len" / Int8ub;
   "type_of_addr" / TonNpi;
   "digits" / Adapter "BcdAdapter" (Bytes (Add (FloorDiv (This ["addr_len"%string]) (Num 2))
                                              (Mod (This ["addr_len"%string]) (Num 2))))].

Record address_ok (a : AddressField) : Prop := {
  ao_digits : Forall (λ c, is_lhex c = true) (digits a);
  ao_len : len (digits a) < 256;
  ao_ton : known ton_names (ton a);
  ao_npi : known npi_names (npi a);
}.

Definition padding_of (a : AddressField) : str := if truthy (len (digits a) mod 2) then lit "f" else [].
Definition padded (a : AddressField) : AddressField := mkAddress (digits a ++ padding_of a) (ton a) (npi a).

Definition address_dict (a : AddressField) : dict :=
  ["addr_len" / VInt (len (digits a)); "type_of_addr" / ton_npi true (ton a) (npi a);
   "digits" / VStr (digits a ++ padding_of a)].

Lemma padded_half a :
  length (digits a ++ padding_of a) = (2 * Z.to_nat (len (digits a) / 2 + len (digits a) mod 2))%nat.
Proof.
  rewrite length_app. unfold padding_of, truthy, len. destruct (Z.eqb_spec (Z.of_nat (length (digits a)) mod 2) 0) as [E|E];
    cbn [negb]; cbn [length lit list_ascii_of_string]; dlia.
Qed.

Lemma padded_lhex a : address_ok a → Forall (λ c, is_lhex c = true) (digits a ++ padding_of a).
Proof.
  intros Ha. apply Forall_app. split; [apply Ha|]. unfold padding_of. destruct (truthy _); [|constructor].
  by repeat constructor.
Qed.

Lemma address_dom a : address_ok a → dom_fields address_fields [] (address_dict a).
Proof.
  intros Ha. pose proof (len_nonneg (digits a)). pose proof (ao_len _ Ha).
  split; [done|]. split; [eexists; split; [done|]; lia|].
  split; [done|]. split; [apply TonNpi_dom; apply Ha|].
  split; [done|]. split; [|done].
  set (s := digits a ++ padding_of a).
  destruct (swap_nibbles_even _ s (padded_half a)) as [Hl Hs].
  destruct (h2b_lhex _ (swap_nibbles s) (eq_trans Hl (padded_half a))) as (b & Hb & Hlb & He & Hd).
  { eapply swap_nibbles_Forall; [apply padded_half | by apply padded_lhex]. }
  exists (VBytes b). split; [by apply bcd_encode|]. split.
  { rewrite bcd_decode, Hd by done. by rewrite Hs. }
  exists b. split; [done|]. split; [done|]. cbn. unfold len at 3. rewrite Hlb. f_equal. dlia.
Qed.

(** The encoder gives what the decoder reads back, in front of anything. *)
Lemma address_ok_bytes a :
  address_ok a → ∃ bs,
    address_to_bytes a = (Ok bs, padded a) ∧ is_bytes bs ∧
    ∀ rest, address_from_bytes (Bin (bs ++ rest)) = Ok (a, rest).
Proof.
  intros Ha.
  assert (wf (Struct address_fields) = true) as Hw.
  { rewrite wf_struct. apply andb_true_intro. split; [apply bool_decide_ok; cbn; by repeat constructor; set_solver|].
    cbn. by rewrite TonNpi_wf, TonNpi_greedy. }
  destruct (struct_fields_codes _ _ Hw (address_dom a Ha)) as [bs Hb]. exists bs. split; [|split; [apply Hb|]].
  - unfold address_to_bytes. unfold padded, padding_of.
    assert (build address_construct []
              (VDict ["addr_len" / VInt (len (digits a)); "type_of_addr" / ton_npi true (ton a) (npi a);
                      "digits" / VStr (digits a ++ padding_of a)]) = Ok bs) as Hbuild.
    { unfold address_construct. rewrite build_struct.
      change (build_fields _ ?d) with (build_fields (address_fields ++ ["tell" / Tell]) d).
      rewrite build_fields_app. pose proof (cf_build _ _ _ _ Hb) as E. cbn [app] in E. unfold address_dict in E. rewrite E.
      cbn. rewrite build_tell. cbn. by rewrite app_nil_r. }
    unfold padding_of in Hbuild. mrun. destruct (truthy (len (digits a) mod 2)); cbn [digits ton npi] in *.
    + mrun. cbn [digits ton npi]. by rewrite Hbuild.
    + rewrite app_nil_r in *. mrun. rewrite Hbuild. by destruct a.
  - intros rest. unfold address_from_bytes, address_construct. cbn [inb_bytes]. rewrite R_bind_Ok, parse_struct.
    change (parse_fields _ ?c ?p ?b) with (parse_fields (address_fields ++ ["tell" / Tell]) c p b).
    rewrite parse_fields_app, (cf_parse _ _ _ _ Hb) by (cbn; by rewrite TonNpi_greedy). rewrite R_bind_Ok.
    cbn [parse_fields]. rewrite parse_tell. cbn.
    replace (0 + len (bs ++ rest) - len rest) with (len bs) by (rewrite len_app; lia).
    unfold len. rewrite !Nat2Z.id, take_app_length, drop_app_length. by destruct a.
Qed.

(** *** Flag bytes *)

Definition fl (b : bool) : Z := if b then 1 else 0.

Lemma fl_bit b : is_bit (fl b).
Proof. destruct b; [by right | by left]. Qed.

Lemma build_flag_fl ctx b : build Flag ctx (VBool b) = Ok [fl b].
Proof. apply build_flag. Qed.

Lemma parse_flag_fl ctx pos b r : parse Flag ctx pos (fl b :: r) = Ok (VBool b, r).
Proof. rewrite parse_flag. change (fl b :: r) with ([fl b] ++ r). rewrite read_app by done. by destruct b. Qed.

Lemma parse_pad1 ctx pos b r : parse (Padding 1) ctx pos (b :: r) = Ok (VNone, r).
Proof. rewrite parse_padding. change (b :: r) with ([b] ++ r). by rewrite read_app. Qed.

Lemma parse_two_bits ctx pos a b r : parse (BitsInteger 2) ctx pos (a :: b :: r) = Ok (VInt (a * 2 + b), r).
Proof. rewrite parse_bits. change (a :: b :: r) with ([a; b] ++ r). rewrite read_app by done. cbn. done. Qed.

Lemma parse_two_bits_enum names ctx pos a b r :
  parse (Enum (BitsInteger 2) names) ctx pos (a :: b :: r) =
  Ok (match label_of (a * 2 + b) names with Some s => VStr (lit s) | None => VInt (a * 2 + b) end, r).
Proof. by rewrite parse_enum, parse_two_bits. Qed.

Lemma build_two_bits ctx z : 0 <= z < 4 → build (BitsInteger 2) ctx (VInt z) = Ok [z / 2 mod 2; z mod 2].
Proof. intros Hz. by rewrite build_bits, bool_decide_ok. Qed.

(** A bit structure of eight bits is one byte. *)
Lemma bitstruct_byte fs d bits :
  size_of (Struct fs) = Some 8%nat → build_fields fs d = Ok bits → Forall is_bit bits → length bits = 8%nat →
  ∃ b, build (BitStruct fs) [] (VDict d) = Ok [b] ∧ is_byte b ∧
       ∀ pos rest, parse (BitStruct fs) [] pos (b :: rest) =
                   ('(d, _) ← parse_fields fs [] 0 bits; Ok (VDict d, rest)).
Proof.
  intros Hs Hb Hbits Hl. destruct (bytes_to_bits_to_bytes 1 bits Hbits Hl) as [E F].
  assert (∃ b, bits_to_bytes 1 bits = [b]) as [b Eb] by (cbn; eauto). exists b.
  unfold BitStruct. split; [|split].
  - rewrite (build_bitwise _ _ _ 1), build_struct, Hb by done. cbn [bits_to_bytes] in *. by rewrite <- Eb.
  - rewrite Eb in F. by apply Forall_cons_1 in F as [F _].
  - intros pos rest. rewrite (parse_bitwise _ _ _ _ 1) by done. change (b :: rest) with ([b] ++ rest).
    rewrite read_app by done. rewrite R_bind_Ok. rewrite <- Eb, E, parse_struct.
    by destruct (parse_fields fs [] 0 bits) as [[d' r]|].
Qed.

Ltac flags_tac :=
  cbn [build_fields dict_get String.eqb Ascii.eqb Bool.eqb from_option id];
  rewrite ?build_flag_fl, ?build_padding, ?build_two_bits by lia; reflexivity.

Ltac parse_flags_tac :=
  repeat (cbn [parse_fields dict_set String.eqb Ascii.eqb Bool.eqb];
          first [rewrite parse_flag_fl | rewrite parse_pad1 | rewrite parse_two_bits]; rewrite ?R_bind_Ok);
  reflexivity.

Definition fields_of (c : con) : list (string * con) :=
  match c with Bitwise (Struct fs) => fs | _ => [] end.

Definition deliver_dict (lp rp udhi sri mms : bool) : dict :=
  ["tp_mti" / VInt 0; "tp_mms" / VBool mms; "tp_lp" / VBool lp; "tp_rp" / VBool rp; "tp_udhi" / VBool udhi; "tp_sri" / VBool sri].

Lemma deliver_flags_ok lp rp udhi sri mms :
  ∃ b, build deliver_flags [] (VDict (deliver_dict lp rp udhi sri mms)) = Ok [b] ∧ is_byte b ∧
       ∀ pos rest, parse deliver_flags [] pos (b :: rest) =
         Ok (VDict ["tp_rp" / VBool rp; "tp_udhi" / VBool udhi; "tp_sri" / VBool sri; "tp_mms" / VBool mms; "tp_mti" / VInt 0], rest).
Proof.
  change deliver_flags with (BitStruct (fields_of deliver_flags)).
  destruct (bitstruct_byte (fields_of deliver_flags) (deliver_dict lp rp udhi sri mms)
              [fl rp; fl udhi; fl rp; fl sri; 0; fl mms; 0; 0] eq_refl) as (b & Hb & Hby & Hp).
  - unfold deliver_flags, BitStruct, fields_of, deliver_dict. flags_tac.
  - repeat (apply Forall_cons_2; [apply fl_bit || by left|]). constructor.
  - done.
  - exists b. split; [done|]. split; [done|]. intros pos rest. rewrite Hp.
    unfold deliver_flags, BitStruct, fields_of. parse_flags_tac.
Qed.

Definition vpf_bits (n : Z) : list Z := [n / 2 mod 2; n mod 2].

(** The formats of the validity period, with their number and length. *)
Inductive vpf_is : value → Z → nat → Prop :=
| vpf_none : vpf_is (VStr (lit "none")) 0 0
| vpf_relative : vpf_is (VStr (lit "relative")) 2 1
| vpf_enhanced : vpf_is (VStr (lit "enhanced")) 1 7
| vpf_absolute : vpf_is (VStr (lit "absolute")) 3 7.

Definition submit_dict (rd : bool) (vpf : value) (rp udhi srr : bool) : dict :=
  ["tp_mti" / VInt 1; "tp_rd" / VBool rd; "tp_vpf" / vpf; "tp_rp" / VBool rp; "tp_udhi" / VBool udhi; "tp_srr" / VBool srr].

Lemma submit_flags_ok rd vpf n k rp udhi srr :
  vpf_is vpf n k →
  ∃ b, build submit_flags [] (VDict (submit_dict rd vpf rp udhi srr)) = Ok [b] ∧ is_byte b ∧
       ∀ pos rest, parse submit_flags [] pos (b :: rest) =
         Ok (VDict ["tp_srr" / VBool srr; "tp_udhi" / VBool udhi; "tp_rp" / VBool rp; "tp_vpf" / vpf;
                    "tp_rd" / VBool rd; "tp_mti" / VInt 1], rest).
Proof.
  intros Hv. change submit_flags with (BitStruct (fields_of submit_flags)).
  destruct (bitstruct_byte (fields_of submit_flags) (submit_dict rd vpf rp udhi srr)
              [fl srr; fl udhi; fl rp; n / 2 mod 2; n mod 2; fl rd; 0; 1] eq_refl) as (b & Hb & Hby & Hp).
  - unfold submit_flags, BitStruct, fields_of, submit_dict.
    cbn [build_fields dict_get String.eqb Ascii.eqb Bool.eqb from_option id].
    rewrite !build_flag_fl. destruct Hv; rewrite build_enum_label;
      match goal with |- context [number_of ?s ?t] =>
        let x := eval vm_compute in (number_of s t) in change (number_of s t) with x end;
      cbv beta iota; rewrite !build_two_bits by lia; reflexivity.
  - repeat (apply Forall_cons_2; [apply fl_bit || (by left) || (by right) || (unfold is_bit; dlia)|]). constructor.
  - done.
  - exists b. split; [done|]. split; [done|]. intros pos rest. rewrite Hp.
    unfold submit_flags, BitStruct, fields_of.
    destruct Hv;
    repeat (cbn [parse_fields dict_set String.eqb Ascii.eqb Bool.eqb];
            first [rewrite parse_flag_fl | rewrite parse_two_bits_enum | rewrite parse_two_bits]; rewrite ?R_bind_Ok;
            try match goal with |- context [label_of ?s ?t] =>
                  let x := eval vm_compute in (label_of s t) in change (label_of s t) with x end; cbv beta iota);
    reflexivity.
Qed.

(** *** PDUs *)

Record tpdu_ok (t : SMS_TPDU) : Prop := {
  to_pid : ∃ p, tp_pid t = Some p ∧ is_byte p;
  to_dcs : ∃ p, tp_dcs t = Some p ∧ is_byte p;
  to_udl : ∃ p, tp_udl t = Some p ∧ is_byte p;
  to_ud : ∃ u, tp_ud t = Some u;
}.

Lemma append_ok p : is_byte p → append (Some p) = Ok [p].
Proof. intros Hp. unfold append. cbn. unfold bytes_of_ints. rewrite bool_decide_ok; [done|]. by apply Forall_singleton. Qed.

Definition deliver_ok (d : SMS_DELIVER) : Prop :=
  tp_mti (d_tpdu d) = 0 ∧ tpdu_ok (d_tpdu d) ∧
  (∃ a, tp_oa d = Some a ∧ address_ok a) ∧ (∃ s, tp_scts d = Some s ∧ length s = 7%nat).

Definition deliver_padded (d : SMS_DELIVER) : SMS_DELIVER :=
  mkDeliver (d_tpdu d) (tp_lp d) (tp_mms d) (padded <$> tp_oa d) (tp_scts d) (tp_sri d).

Definition without_lp (d : SMS_DELIVER) : SMS_DELIVER :=
  mkDeliver (d_tpdu d) false (tp_mms d) (tp_oa d) (tp_scts d) (tp_sri d).

Lemma deliver_ok_bytes d :
  deliver_ok d → ∃ bs, deliver_to_bytes d = (Ok bs, deliver_padded d) ∧
                       deliver_from_bytes (Bin bs) = Ok (without_lp d).
Proof.
  destruct d as [[mti rp udhi pid dcs udl ud] lp mms oa scts sri].
  intros (Hm & [(p & Hp & Hpb) (c & Hc & Hcb) (l & Hl & Hlb) (u & Hu)] & (a & Ho & Ha) & (s & Hs & Hsl)).
  cbn in Hm, Hp, Hc, Hl, Hu, Ho, Hs. subst.
  destruct (deliver_flags_ok lp rp udhi sri mms) as (b & Hb & Hbb & Hparse).
  destruct (address_ok_bytes a Ha) as (ab & Hab & Habb & Haf).
  exists ([b] ++ ab ++ [p] ++ [c] ++ s ++ [l] ++ u). split.
  - unfold deliver_to_bytes. mrun. cbn [d_tpdu tp_mti tp_mms tp_lp tp_rp tp_udhi tp_sri tp_pid tp_dcs tp_udl tp_ud tp_scts].
    unfold deliver_dict in Hb. rewrite Hb. mrun. unfold oa_to_bytes. cbn [tp_oa d_tpdu tp_lp tp_mms tp_scts tp_sri].
    rewrite Hab. mrun. rewrite !append_ok by done. mrun. done.
  - unfold deliver_from_bytes. rewrite inb_bin, R_bind_Ok. cbn [app]. rewrite Hparse, R_bind_Ok. change (drop 1 (b :: ?r)) with r.
    rewrite Haf, R_bind_Ok. rewrite idx_0, R_bind_Ok, idx_1, R_bind_Ok.
    assert ((p :: c :: s ++ l :: u) !! 9%nat = Some l ∧ drop 10 (p :: c :: s ++ l :: u) = u ∧
            slice 2 9 (p :: c :: s ++ l :: u) = s) as (E1 & E2 & E3).
    { do 8 (destruct s as [|? s]; [done|]). destruct s; [|done]. done. }
    unfold idx. rewrite E1, E2, E3. done.
Qed.

Definition submit_ok (s : SMS_SUBMIT) : Prop :=
  tp_mti (s_tpdu s) = 1 ∧ tpdu_ok (s_tpdu s) ∧ (∃ m, tp_mr s = Some m ∧ is_byte m) ∧
  (∃ a, tp_da s = Some a ∧ address_ok a) ∧
  ∃ n k, vpf_is (tp_vpf s) n k ∧
         match tp_vp s with None => k = 0%nat | Some v => length v = k ∧ k ≠ 0%nat end.

Definition submit_padded (s : SMS_SUBMIT) : SMS_SUBMIT :=
  mkSubmit (s_tpdu s) (tp_rd s) (tp_vpf s) (tp_srr s) (tp_mr s) (padded <$> tp_da s) (tp_vp s).

Lemma vpf_is_none vpf n k : vpf_is vpf n k → is_str vpf "none" = bool_decide (k = 0%nat).
Proof. by destruct 1. Qed.

Lemma vpf_is_length vpf n k : vpf_is vpf n k → vp_length vpf = Ok (if bool_decide (k = 0%nat) then None else Some k).
Proof. by destruct 1. Qed.

(** The bytes after the data coding scheme: validity period, length, data. *)
Lemma after_dcs (p c l : Z) (v u : bytes) :
  (p :: c :: v ++ l :: u) !! (2 + length v)%nat = Some l ∧
  drop (S (2 + length v)) (p :: c :: v ++ l :: u) = u ∧ slice 2 (2 + length v) (p :: c :: v ++ l :: u) = v.
Proof.
  repeat split.
  - change ((v ++ l :: u) !! length v = Some l). by apply list_lookup_middle.
  - change (drop (S (length v)) (v ++ l :: u) = u). by induction v.
  - unfold slice. rewrite Nat.add_comm, Nat.add_sub.
    change (drop 2 _) with (v ++ l :: u). apply take_app_length.
Qed.

Lemma submit_ok_bytes s :
  submit_ok s → ∃ bs, submit_to_bytes s = (Ok bs, submit_padded s) ∧ submit_from_bytes (Bin bs) = Ok s.
Proof.
  destruct s as [[mti rp udhi pid dcs udl ud] rd vpf srr mr da vp].
  intros (Hm & [(p & Hp & Hpb) (c & Hc & Hcb) (l & Hl & Hlb) (u & Hu)] & (m & Hr & Hrb) & (a & Ho & Ha) & (n & k & Hv & Hvl)).
  cbn in Hm, Hp, Hc, Hl, Hu, Ho, Hr, Hv, Hvl. subst.
  destruct (submit_flags_ok rd vpf n k rp udhi srr Hv) as (b & Hb & Hbb & Hparse).
  destruct (address_ok_bytes a Ha) as (ab & Hab & Habb & Haf).
  pose proof (vpf_is_none _ _ _ Hv) as Hn. pose proof (vpf_is_length _ _ _ Hv) as Hlen.
  set (v := default [] vp).
  assert (length v = k ∧ (if bool_decide (k = 0%nat) then None else Some v) = vp) as [Hk Evp].
  { unfold v. destruct vp as [w|]; cbn in *.
    - destruct Hvl as [<- Hne]. by rewrite bool_decide_false.
    - by subst k. }
  exists ([b] ++ [m] ++ ab ++ [p] ++ [c] ++ v ++ [l] ++ u). split.
  - unfold submit_to_bytes. mrun. cbn [s_tpdu tp_mti tp_rd tp_vpf tp_rp tp_udhi tp_srr tp_mr tp_pid tp_dcs tp_udl tp_ud tp_vp].
    unfold submit_dict in Hb. rewrite Hb. mrun. rewrite append_ok by done. mrun.
    unfold da_to_bytes. cbn [tp_da s_tpdu tp_rd tp_vpf tp_srr tp_mr tp_vp].
    rewrite Hab. mrun. rewrite !append_ok by done. mrun. rewrite Hn.
    assert ((if bool_decide (k = 0%nat) then Ok [] else extend vp) = Ok v) as ->; [|mrun; done].
    unfold v. destruct vp as [w|]; cbn in *.
    + destruct Hvl as [<- Hne]. by rewrite bool_decide_false.
    + by subst k.
  - unfold submit_from_bytes. rewrite inb_bin, R_bind_Ok. cbn [app]. rewrite Hparse, R_bind_Ok, idx_1, R_bind_Ok.
    change (drop 2 (b :: m :: ?r)) with r.
    rewrite Haf, R_bind_Ok, idx_0, R_bind_Ok, idx_1, R_bind_Ok.
    change (item (VDict _) "tp_vpf") with (Ok vpf). rewrite R_bind_Ok, Hlen, R_bind_Ok.
    destruct (after_dcs p c l v u) as (E1 & E2 & E3). rewrite Hk in E1, E2, E3. unfold idx.
    destruct (decide (k = 0%nat)) as [->|Hne].
    + rewrite bool_decide_ok in * by done. cbn [default from_option id]. rewrite E1, E2, <- Evp. done.
    + rewrite bool_decide_false in * by done. cbn [default from_option id]. rewrite E1, E2, E3, <- Evp. done.
Qed.

(** C40: Encoding an SMS-DELIVER or an SMS-SUBMIT and decoding the bytes gives
    the PDU back, whatever its flags, validity period, address and data. Two
    things do not survive: [tp_lp], which the declaration of the flags does
    not have, and the object's own address, to which the encoder appends the
    filler of an odd number of digits. *)
Theorem sms_tpdu_round_trip :
  (∀ d, deliver_ok d → ∃ bs, deliver_to_bytes d = (Ok bs, deliver_padded d) ∧
                             deliver_from_bytes (Bin bs) = Ok (without_lp d)) ∧
  (∀ s, submit_ok s → ∃ bs, submit_to_bytes s = (Ok bs, submit_padded s) ∧ submit_from_bytes (Bin bs) = Ok s).
Proof. split; [apply deliver_ok_bytes | apply submit_ok_bytes]. Qed.

(** Encoding an address with an odd number of digits twice gives two
    different addresses: the second one has the filler as a digit. *)
Lemma address_encoded_twice a :
  address_ok a → len (digits a) mod 2 = 1 → len (digits a) < 255 →
  ∃ b1 b2, (x ← address_to_bytes; y ← address_to_bytes; mret (x, y)) a = (Ok (b1, b2), padded a) ∧
           address_from_bytes (Bin b1) = Ok (a, []) ∧ address_from_bytes (Bin b2) = Ok (padded a, []) ∧
           padded a ≠ a.
Proof.
  intros Ha Ho Hl. destruct (address_ok_bytes a Ha) as (b1 & E1 & _ & D1).
  assert (padding_of a = lit "f") as Hp by (unfold padding_of; rewrite Ho; done).
  assert (address_ok (padded a)) as Hpa.
  { split; [by apply padded_lhex| |apply Ha|apply Ha]. cbn. rewrite Hp, len_app. change (len (lit "f")) with 1. lia. }
  assert (padded (padded a) = padded a) as Hpp.
  { unfold padded at 1. unfold padding_of. cbn [digits padded]. rewrite Hp, len_app. change (len (lit "f")) with 1.
    replace ((len (digits a) + 1) mod 2) with 0 by dlia. change (truthy 0) with false. cbv iota.
    rewrite app_nil_r. unfold padded. by rewrite Hp. }
  destruct (address_ok_bytes _ Hpa) as (b2 & E2 & _ & D2). exists b1, b2.
  rewrite !M_bind_eq, E1, M_bind_eq, E2, Hpp. split; [done|].
  specialize (D1 []). specialize (D2 []). rewrite app_nil_r in D1, D2. split; [done|]. split; [done|].
  unfold padded. rewrite Hp. destruct a as [d t n]. cbn. intros E. apply (f_equal digits) in E. cbn in E.
  apply (f_equal length) in E. rewrite length_app in E. cbn in E. lia.
Qed.

(** An SMS-SUBMIT made from an SMPP PDU cannot be encoded: its validity
    period format is None, which the declaration of the flags refuses. *)
Lemma submit_from_smpp_not_encodable pdu s :
  submit_from_smpp pdu = Ok s → submit_to_bytes s = (Err MappingError, s).
Proof.
  unfold submit_from_smpp, submit_from_smpp_submit. intros E. destruct (is_submit_sm pdu); [|done]. inv_ok.
  unfold submit_to_bytes. mrun. cbn [new_submit s_tpdu tp_vpf tp_mti tp_rd tp_rp tp_udhi tp_srr].
  assert (∀ d, dict_get "tp_vpf" d = Some VNone → (∃ a, dict_get "tp_srr" d = Some (VBool a)) →
               (∃ a, dict_get "tp_udhi" d = Some (VBool a)) → (∃ a, dict_get "tp_rp" d = Some (VBool a)) →
               build submit_flags [] (VDict d) = Err MappingError) as Hb.
  { intros d Hv [a Ha] [b Hb] [c Hc]. unfold submit_flags, BitStruct.
    rewrite (build_bitwise _ _ _ 1), build_struct by done. cbn [build_fields].
    rewrite Ha, Hb, Hc, Hv. cbn [default from_option id]. rewrite !build_flag, !R_bind_Ok, build_enum_none. done. }
  rewrite Hb; [done|done|..]; cbn; eauto.
Qed.

(** The names of the SMPP library and those of the address field translate
    into each other. *)
Lemma address_smpp_round_trip a n t p :
  address_to_smpp a = Ok (n, t, p) → Forall (λ c, code c < 128) n →
  address_from_smpp (map code n) t p = Ok a.
Proof.
  unfold address_to_smpp, address_from_smpp. intros E Hn. inv_ok.
  assert (∀ m v k, inverse m v = Ok k → NoDup (map fst m) → ∃ s, v = VStr s ∧ forward m k = Ok s) as Hinv.
  { clear. induction m as [|[k' v'] m IH]; intros v k E Hd; cbn in *; [done|].
    apply list.NoDup_cons in Hd as [Hk Hd]. destruct (is_str v v') eqn:Ev.
    - injection E as <-. rewrite String.eqb_refl. destruct v; try done. cbn in Ev.
      apply bool_decide_eq_true in Ev as ->. eauto.
    - destruct (IH _ _ E Hd) as (s & -> & Hf). exists s. split; [done|].
      destruct (String.eqb_spec k k') as [->|]; [|done]. exfalso. apply Hk.
      clear -E. induction m as [|[k v'] m IH]; cbn in *; [done|]. case_bool_decide.
      + injection E as ->. left.
      + right. auto. }
  assert (decode_ascii (map code (digits a)) = Ok (digits a)) as ->.
  { unfold decode_ascii. assert (forallb (λ x, x <? 128) (map code (digits a)) = true) as ->.
    { apply forallb_forall. intros x (c & <- & Hc)%in_map_iff. apply Z.ltb_lt.
      by apply (proj1 (List.Forall_forall _ _) Hn). }
    f_equal. rewrite map_map. rewrite <- (map_id (digits a)) at 2. apply map_ext. intros c. apply chr_code. }
  destruct a as [d tn pn]. cbn [digits ton npi] in *. rewrite R_bind_Ok.
  match goal with Ht : inverse smpp_map_ton _ = Ok _, Hp : inverse smpp_map_npi _ = Ok _ |- _ =>
    destruct (Hinv _ _ _ Ht) as (s1 & -> & ->); [refine (bool_decide_unpack _ _); vm_compute; exact I|];
    destruct (Hinv _ _ _ Hp) as (s2 & -> & ->); [refine (bool_decide_unpack _ _); vm_compute; exact I|]
  end. done.
Qed.
End facts.

(** ** Concrete runs *)

Module SmsRun.
Import Osmocom.Ref.

(** A construct library with the adapter for digits, and the declaration of
    type of number and numbering plan. *)
Definition dec (a : string) (v : value) : result value :=
  match v with VBytes b => Ok (VStr (swap_nibbles (b2h b))) | _ => Err TypeError end.
Definition enc (a : string) (v : value) : result value :=
  match v with VStr s => b ← h2b (swap_nibbles s); Ok (VBytes b) | _ => Err TypeError end.

#[export] Instance construct : Construct := RefConstruct.ref dec enc.
#[export] Instance construct_laws : ConstructLaws := RefConstruct.ref_laws dec enc.

Definition numbered (l : list string) (ns : list Z) : list (string * Z) := zip l ns.

#[export] Instance oconstruct : OsmocomConstruct := {|
  TonNpi := BitStruct [("ext", Flag);
                       ("type_of_number", Enum (BitsInteger 3) (zip ton_names [0; 1; 2; 3; 4; 5; 6]));
                       ("numbering_plan_id", Enum (BitsInteger 4) (zip npi_names [0; 1; 3; 4; 6; 8; 9; 10]))]%string
|}.

#[export] Instance oconstruct_laws : OsmocomConstructLaws.
Proof.
  split; try reflexivity.
  - intros ctx ext t n (s & -> & Hs) (u & -> & Hu). eexists. split; [reflexivity|].
    split; [done|]. split; [by eexists|]. split; [done|]. split.
    { left. unfold ton_names in Hs. repeat (apply elem_of_cons in Hs as [->|Hs]; [do 2 eexists; split; [reflexivity|]; split; [reflexivity|]; eexists; split; [reflexivity|]; by (split; vm_compute)|]). by apply not_elem_of_nil in Hs. }
    split; [done|]. split; [|done].
    left. unfold npi_names in Hu. repeat (apply elem_of_cons in Hu as [->|Hu]; [do 2 eexists; split; [reflexivity|]; split; [reflexivity|]; eexists; split; [reflexivity|]; by (split; vm_compute)|]). by apply not_elem_of_nil in Hu.
  - intros s b E. change (enc "BcdAdapter" (VStr s) = Ok (VBytes b)). unfold enc. by rewrite E.
Qed.

(** A text to +12345 and from 12, as PDUs. *)
Definition submit1 : SMS_SUBMIT :=
  mkSubmit (mkTpdu 1 false true (Some 127) (Some 246) (Some 3) (Some [1; 2; 3])) true (VStr (lit "relative")) false
    (Some 9) (Some (mkAddress (lit "12345") (VStr (lit "international")) (VStr (lit "isdn_e164")))) (Some [167]).
Definition deliver1 : SMS_DELIVER :=
  mkDeliver (mkTpdu 0 true false (Some 127) (Some 246) (Some 2) (Some [8; 9])) true false
    (Some (mkAddress (lit "12") (VStr (lit "unknown")) (VStr (lit "unknown")))) (Some FIXED_SCTS) true.

Example submit1_bytes :
  (submit_to_bytes submit1).1 = Ok ([85; 9] ++ [5; 145; 33; 67; 245] ++ [127; 246; 167; 3; 1; 2; 3]).
Proof. vm_compute. reflexivity. Qed.

Lemma known_in names s : s ∈ names → known names (VStr (lit s)).
Proof. intros Hs. by exists s. Qed.

Ltac address_tac :=
  split; [repeat constructor | done | apply known_in; refine (bool_decide_unpack _ _); vm_compute; exact I
         | apply known_in; refine (bool_decide_unpack _ _); vm_compute; exact I].
Ltac tpdu_tac := split; eexists; try (split; [reflexivity | by (split; vm_compute)]); reflexivity.

Lemma submit1_ok : submit_ok submit1.
Proof.
  split; [done|]. split; [tpdu_tac|]. split; [eexists; split; [reflexivity | by (split; vm_compute)]|].
  split; [eexists; split; [reflexivity|]; address_tac|].
  exists 2, 1%nat. split; [constructor | done].
Qed.

Lemma deliver1_ok : deliver_ok deliver1.
Proof.
  split; [done|]. split; [tpdu_tac|]. split; [eexists; split; [reflexivity|]; address_tac|].
  by eexists.
Qed.

Lemma sms_tpdu_round_trip_witness :
  (∃ bs, deliver_to_bytes deliver1 = (Ok bs, deliver_padded deliver1) ∧ deliver_from_bytes (Bin bs) = Ok (without_lp deliver1)) ∧
  (∃ bs, submit_to_bytes submit1 = (Ok bs, submit_padded submit1) ∧ submit_from_bytes (Bin bs) = Ok submit1).
Proof.
  destruct sms_tpdu_round_trip as [H1 H2]. split; [apply (H1 deliver1), deliver1_ok | apply (H2 submit1), submit1_ok].
Defined.
End SmsRun.
