(* ===== verification/Ota.v ===== *)
(** Over-the-air remote management (pySim/ota.py): secured command packets
    for SMS as TS 102 225 and TS 31.115 define them, built and read back, and
    the response packets of the card. *)

From S2P Require Import Prelude Osmocom Crypto Construct Sms.

(** ** Declarations *)

Open Scope con_scope.

Definition ResponseStatus : con :=
  Enum Int8ub [("por_ok", 0); ("rc_cc_ds_failed", 1); ("cntr_low", 2); ("cntr_high", 3); ("cntr_blocked", 4);
               ("ciphering_error", 5); ("undefined_security_error", 6); ("insufficient_memory", 7);
               ("more_time_needed", 8); ("tar_unknown", 9); ("insufficient_security_level", 10);
               ("actual_response_sms_submit", 11); ("actual_response_ussd", 12)]%string.

Definition CompactRemoteResp : con :=
  Struct ["number_of_commands" / Int8ub;
          "last_status_word" / Adapter "HexAdapter" (Bytes (Num 2));
          "last_response_data" / Adapter "HexAdapter" GreedyBytes].

Definition RC_CC_DS : con := Enum (BitsInteger 2) [("no_rc_cc_ds", 0); ("rc", 1); ("cc", 2); ("ds", 3)]%string.

Definition SPI : con :=
  BitStruct ["" / Padding 3;
             "counter" / Enum (BitsInteger 2)
               [("no_counter", 0); ("counter_no_replay_or_seq", 1); ("counter_must_be_higher", 2); ("counter_must_be_lower", 3)]%string;
             "ciphering" / Flag;
             "rc_cc_ds" / RC_CC_DS;
             "" / Padding 2;
             "por_in_submit" / Flag;
             "por_shall_be_ciphered" / Flag;
             "por_rc_cc_ds" / RC_CC_DS;
             "por" / Enum (BitsInteger 2) [("no_por", 0); ("por_required", 1); ("por_only_when_error", 2)]%string].

Definition KIC : con :=
  BitStruct ["key" / BitsInteger 4;
             "algo" / Enum (BitsInteger 4)
               [("implicit", 0); ("single_des", 1); ("triple_des_cbc2", 5); ("triple_des_cbc3", 9); ("aes_cbc", 2)]%string].

Definition KID_CC : con :=
  BitStruct ["key" / BitsInteger 4;
             "algo" / Enum (BitsInteger 4)
               [("implicit", 0); ("single_des", 1); ("triple_des_cbc2", 5); ("triple_des_cbc3", 9); ("aes_cmac", 2)]%string].

Definition KID_RC : con :=
  BitStruct ["key" / BitsInteger 4;
             "algo" / Enum (BitsInteger 4) [("implicit", 0); ("crc16", 1); ("crc32", 5); ("proprietary", 3)]%string].

Definition SmsCommandPacket : con :=
  Struct ["cmd_pkt_len" / Int16ub; "cmd_hdr_len" / Int8ub; "spi" / SPI; "kic" / KIC;
          "kid" / Switch ["spi"; "rc_cc_ds"]%string ["cc" / KID_CC; "rc" / KID_RC] Pass;
          "tar" / Bytes (Num 3);
          "secured_data" / GreedyBytes].

Definition SimFileAccessAndToolkitAppSpecParams : con :=
  Struct ["access_domain" / Prefixed Int8ub GreedyBytes;
          "prio_level_of_tk_app_inst" / Int8ub;
          "max_num_of_timers" / Int8ub;
          "max_text_length_for_menu_entry" / Int8ub;
          "menu_entries" / PrefixedArray Int8ub (Struct ["id" / Int8ub; "pos" / Int8ub]);
          "max_num_of_channels" / Int8ub;
          "msl" / Prefixed Int8ub GreedyBytes;
          "tar_values" / Prefixed Int8ub (GreedyRange (Bytes (Num 3)))].

Definition SmsResponsePacket : con :=
  Struct ["rpl" / Int16ub; "rhl" / Int8ub; "tar" / Bytes (Num 3); "cntr" / Bytes (Num 5); "pcntr" / Int8ub;
          "response_status" / ResponseStatus;
          "cc_rc" / Bytes (Sub (This ["rhl"%string]) (Num 10));
          "secured_data" / GreedyBytes].

Definition hdr_construct : con :=
  Struct ["chl" / Int8ub; "spi" / SPI; "kic" / KIC; "kid" / KID_CC; "tar" / Bytes (Num 3)].

(** ** Keys and algorithms *)

Record OtaKeyset := mkOtak {
  algo_crypt : string; kic_idx : Z; kic : bytes;
  algo_auth : string; kid_idx : Z; kid : bytes; cntr : Z }.

(** The subclasses of OtaAlgoCrypt and OtaAlgoAuth, in the order of their
    definition; [enum_name] and [blocksize] of each. *)
Inductive OtaAlgo := AlgoDES | AlgoDES3 | AlgoAES.

Definition crypt_enum_name (a : OtaAlgo) : string :=
  match a with AlgoDES => "single_des" | AlgoDES3 => "triple_des_cbc2" | AlgoAES => "aes_cbc" end.
Definition auth_enum_name (a : OtaAlgo) : string :=
  match a with AlgoDES => "single_des" | AlgoDES3 => "triple_des_cbc2" | AlgoAES => "aes_cmac" end.
Definition crypt_blocksize (a : OtaAlgo) : nat := match a with AlgoAES => 16 | _ => 8 end.
Definition auth_blocksize (a : OtaAlgo) : nat := match a with AlgoAES => 1 | _ => 8 end.

Definition subclasses : list OtaAlgo := [AlgoDES; AlgoDES3; AlgoAES].

Fixpoint find_algo (enum_name : OtaAlgo → string) (name : string) (l : list OtaAlgo) : result OtaAlgo :=
  match l with
  | [] => Err ValueError
  | a :: l' => if String.eqb (enum_name a) name then Ok a else find_algo enum_name name l'
  end.

(** [OtaAlgoCrypt.from_keyset], [OtaAlgoAuth.from_keyset] *)
Definition crypt_from_keyset (otak : OtaKeyset) : result OtaAlgo :=
  find_algo crypt_enum_name (algo_crypt otak) subclasses.
Definition auth_from_keyset (otak : OtaKeyset) : result OtaAlgo :=
  find_algo auth_enum_name (algo_auth otak) subclasses.

Definition _get_padding (in_len : Z) (multiple : nat) : bytes :=
  let m := Z.of_nat multiple in
  if in_len mod m =? 0 then []
  else let pad_cnt := m - in_len mod m in replicate (Z.to_nat pad_cnt) 0.

Definition _pad_to_multiple (indat : bytes) (multiple : nat) : bytes :=
  indat ++ _get_padding (len indat) multiple.

Definition zero_iv (blocksize : nat) : bytes := replicate blocksize 0.

Section ota.
Context `{Cryptodome, Construct, OsmocomConstruct, OsmocomUtils}.

Definition _encrypt (a : OtaAlgo) (otak : OtaKeyset) (data : bytes) : result bytes :=
  let iv := zero_iv (crypt_blocksize a) in
  match a with
  | AlgoDES => des_cbc_encrypt (kic otak) iv data
  | AlgoDES3 => des3_cbc_encrypt (kic otak) iv data
  | AlgoAES => aes_cbc_encrypt (kic otak) iv data
  end.

Definition _decrypt (a : OtaAlgo) (otak : OtaKeyset) (data : bytes) : result bytes :=
  let iv := zero_iv (crypt_blocksize a) in
  match a with
  | AlgoDES => des_cbc_decrypt (kic otak) iv data
  | AlgoDES3 => des3_cbc_decrypt (kic otak) iv data
  | AlgoAES => aes_cbc_decrypt (kic otak) iv data
  end.

(** CMAC with [mac_len=8] is the front of the full CMAC. *)
Definition _sign (a : OtaAlgo) (otak : OtaKeyset) (data : bytes) : result bytes :=
  let iv := zero_iv (auth_blocksize a) in
  match a with
  | AlgoDES => ciph ← des_cbc_encrypt (kid otak) iv data; Ok (last_n 8 ciph)
  | AlgoDES3 => ciph ← des3_cbc_encrypt (kid otak) iv data; Ok (last_n 8 ciph)
  | AlgoAES => ciph ← aes_cmac (kid otak) data; Ok (last_n 8 (take 8 ciph))
  end.

Definition encrypt (a : OtaAlgo) (otak : OtaKeyset) (data : bytes) : result bytes :=
  let padded_data := _pad_to_multiple data (crypt_blocksize a) in
  _encrypt a otak padded_data.

Definition decrypt (a : OtaAlgo) (otak : OtaKeyset) (data : bytes) : result bytes := _decrypt a otak data.

Definition sign (a : OtaAlgo) (otak : OtaKeyset) (data : bytes) : result bytes :=
  let padded_data := _pad_to_multiple data (auth_blocksize a) in
  _sign a otak padded_data.

Definition check_sig (a : OtaAlgo) (otak : OtaKeyset) (data cc_received : bytes) : result unit :=
  cc ← sign a otak data;
  guard_else (bool_decide (cc_received = cc)) OtaCheckError.

(** [zlib.crc32]: polynomial 0xEDB88320, bits of a byte from the lowest. *)
Definition crc32_bit (c : Z) : Z :=
  if Z.testbit c 0 then Z.lxor (Z.shiftr c 1) 3988292384 else Z.shiftr c 1.
Definition crc32_byte (c b : Z) : Z := Nat.iter 8 crc32_bit (Z.lxor c b).
Definition crc32 (data : bytes) : Z := Z.lxor (foldl crc32_byte 4294967295 data) 4294967295.

(** ** The SMS dialect *)

Definition _compute_sig_len (spi : value) : result Z :=
  v ← item spi "rc_cc_ds";
  if is_str v "no_rc_cc_ds" then Ok 0
  else if is_str v "rc" then Ok 4
  else if is_str v "cc" then Ok 8
  else Err ValueError.

(** [l[:n]], where a negative [n] counts from the end *)
Definition slice_to (n : Z) (l : bytes) : bytes :=
  if n <? 0 then take (Z.to_nat (len l + n)) l else take (Z.to_nat n) l.

Definition encode_cmd (otak : OtaKeyset) (tar : bytes) (spi : value) (apdu : bytes) : result bytes :=
  len_sig ← _compute_sig_len spi;
  c ← item spi "ciphering";
  let ciphering := truth c in
  '(pad_cnt, apdu) ←
    (if ciphering then
       let len_cipher := 6 + len_sig + len apdu in
       a ← crypt_from_keyset otak;
       let padding := _get_padding len_cipher (crypt_blocksize a) in
       Ok (len padding, apdu ++ padding)
     else Ok (0, apdu));
  let kic := VDict ["key" / VInt (kic_idx otak); "algo" / VStr (lit (algo_crypt otak))] in
  let kid := VDict ["key" / VInt (kid_idx otak); "algo" / VStr (lit (algo_auth otak))] in
  let chl := 13 + len_sig in
  part_head ← build hdr_construct []
    (VDict ["chl" / VInt chl; "spi" / spi; "kic" / kic; "kid" / kid; "tar" / VBytes tar]);
  cnt ← to_bytes 5 (cntr otak);
  pc ← to_bytes 1 pad_cnt;
  let part_cnt := cnt ++ pc in
  let envelope_data := part_head ++ part_cnt ++ apdu in
  let cpl := len envelope_data + len_sig in
  cplb ← to_bytes 2 cpl;
  let envelope_data := cplb ++ envelope_data in
  r ← item spi "rc_cc_ds";
  envelope_data ←
    (if is_str r "cc" then
       a ← auth_from_keyset otak;
       cc ← sign a otak envelope_data;
       Ok (part_cnt ++ cc ++ apdu)
     else if is_str r "rc" then
       crc ← to_bytes 4 (Z.land (crc32 envelope_data) 4294967295);
       Ok (part_cnt ++ crc ++ apdu)
     else if is_str r "no_rc_cc_ds" then Ok (part_cnt ++ apdu)
     else Err ValueError);
  envelope_data ←
    (if ciphering then
       a ← crypt_from_keyset otak;
       ciph ← encrypt a otak envelope_data;
       let envelope_data := part_head ++ ciph in
       cplb ← to_bytes 2 (len envelope_data);
       Ok (cplb ++ envelope_data)
     else Ok (part_head ++ envelope_data));
  guard_else (negb (140 <? len envelope_data)) ValueError;;
  Ok envelope_data.

Definition decode_cmd (otak : OtaKeyset) (encoded : bytes) : result (bytes * value * bytes) :=
  let cpl := from_bytes (take 2 encoded) in
  let part_head := slice 2 (2 + 8) encoded in
  let ciph := drop (2 + 8) encoded in
  a ← crypt_from_keyset otak;
  envelope_data ← decrypt a otak ciph;
  '(hdr_dec, _) ← parse hdr_construct [] 0 part_head;
  let part_cnt := take 6 envelope_data in
  let cntr := from_bytes (take 5 part_cnt) in
  let pad_cnt := from_bytes (drop 5 part_cnt) in
  let envelope_data := drop 6 envelope_data in
  spi ← item hdr_dec "spi";
  r ← item spi "rc_cc_ds";
  apdu ←
    (if is_str r "cc" then
       let cc := take 8 envelope_data in
       let apdu := drop 8 envelope_data in
       cplb ← to_bytes 2 cpl;
       let temp_data := cplb ++ part_head ++ part_cnt ++ apdu in
       a ← auth_from_keyset otak;
       check_sig a otak temp_data cc;;
       Ok apdu
     else if is_str r "rc" then Err NotImplementedError
     else if is_str r "no_rc_cc_ds" then Ok envelope_data
     else Err ValueError);
  let apdu := slice_to (len apdu - pad_cnt) apdu in
  tar ← item hdr_dec "tar"; tar ← as_bytes tar;
  Ok (tar, spi, apdu).

(** [res[key] = v] *)
Definition set_item (res : value) (key : string) (v : value) : result value :=
  match res with VDict d => Ok (VDict (dict_set key v d)) | _ => Err TypeError end.

(** The response packet, and the decoded response of the application when
    the card reports success with data. *)
Definition decode_resp (otak : OtaKeyset) (spi : value) (data : BytesOrHex) : result (value * option value) :=
  data ← inb_bytes data;
  d0 ← idx data 0;
  guard_else (d0 =? 2) ValueError;;
  '(udhd, remainder) ← udh_from_bytes (Bin data);
  rpi ← has_ie udhd 113;
  guard_else rpi ValueError;;
  let rph_rhl_tar := take 6 remainder in
  '(res, _) ← parse SmsResponsePacket [] 0 remainder;
  c ← item spi "por_shall_be_ciphered";
  '(res, remainder) ←
    (if truth c then
       let ciphered_part := drop 6 remainder in
       a ← crypt_from_keyset otak;
       deciph ← decrypt a otak ciphered_part;
       let temp_data := rph_rhl_tar ++ deciph in
       '(res, _) ← parse SmsResponsePacket [] 0 temp_data;
       p ← item res "pcntr"; pcntr ← as_int p;
       res ← (if truthy pcntr then
                s ← item res "secured_data"; sd ← as_bytes s;
                set_item res "secured_data" (VBytes (slice_to (- pcntr) sd))
              else Ok res);
       Ok (res, temp_data)
     else Ok (res, remainder));
  h ← item res "rhl"; rhl ← as_int h;
  let len_sig := rhl - 10 in
  p ← item spi "por_rc_cc_ds";
  (if is_str p "no_rc_cc_ds" then guard_else (negb (truthy len_sig)) OtaCheckError
   else if is_str p "cc" then
     let udh := take 3 data in
     let rpl_rhl_tar_cntr_pcntr_sts := take 13 remainder in
     let temp_data := udh ++ rpl_rhl_tar_cntr_pcntr_sts ++ drop (Z.to_nat (13 + len_sig)) remainder in
     a ← auth_from_keyset otak;
     cc ← item res "cc_rc"; cc ← as_bytes cc;
     check_sig a otak temp_data cc
   else Err OtaCheckError);;
  st ← item res "response_status";
  s ← item res "secured_data"; sd ← as_bytes s;
  dec ← (if is_str st "por_ok" && truthy (len sd) then
           '(v, _) ← parse CompactRemoteResp [] 0 sd; Ok (Some v)
         else Ok None);
  Ok (res, dec).
End ota.

(** ** Facts *)

Section facts.
Context `{CryptodomeLaws, ConstructLaws, OsmocomUtilsLaws, !OsmocomConstruct, !OsmocomConstructLaws}.

Definition crypt_key_len (a : OtaAlgo) : nat := match a with AlgoDES => 8 | _ => 16 end.

Record keyset_ok (otak : OtaKeyset) (a b : OtaAlgo) : Prop := {
  ko_crypt : crypt_from_keyset otak = Ok a;
  ko_kic : length (kic otak) = crypt_key_len a;
  ko_auth : auth_from_keyset otak = Ok b;
  ko_kid : length (kid otak) = crypt_key_len b;
  ko_kic_idx : 0 <= kic_idx otak < 16;
  ko_kid_idx : 0 <= kid_idx otak < 16;
  ko_cntr : 0 <= cntr otak < 2 ^ 40;
}.

Lemma find_algo_name f n l a : find_algo f n l = Ok a → n = f a.
Proof.
  induction l as [|x l IH]; [done|]. cbn. destruct (String.eqb_spec (f x) n) as [<-|]; [|done]. by intros [= <-].
Qed.

Lemma padding_blocks n (m : nat) : (0 < m)%nat → 0 <= n →
  (n + len (_get_padding n m)) mod Z.of_nat m = 0 ∧ len (_get_padding n m) < Z.of_nat m ∧
  is_bytes (_get_padding n m).
Proof.
  intros Hm Hn. unfold _get_padding. destruct (Z.eqb_spec (n mod Z.of_nat m) 0) as [E|E].
  - change (len (@nil Z)) with 0. rewrite Z.add_0_r. split; [done|]. split; [lia|]. constructor.
  - pose proof (Z.mod_pos_bound n (Z.of_nat m)). rewrite len_replicate.
    rewrite Z2Nat.id by lia. split; [|split; [lia|]].
    + replace (n + (Z.of_nat m - n mod Z.of_nat m)) with (Z.of_nat m * (n / Z.of_nat m + 1))
        by (pose proof (Z.div_mod n (Z.of_nat m)); lia).
      rewrite Z.mul_comm. by apply Z.mod_mul; lia.
    + by apply is_bytes_replicate.
Qed.

Lemma padding_none n (m : nat) : n mod Z.of_nat m = 0 → _get_padding n m = [].
Proof. intros E. unfold _get_padding. by rewrite E. Qed.

Lemma len_blocks (m : nat) (d : bytes) : (0 < m)%nat → len d mod Z.of_nat m = 0 → blocks m d.
Proof.
  intros Hm E. apply blocks_mod; [lia|]. unfold len in E. rewrite <- Nat2Z.inj_mod in E. lia.
Qed.

Lemma crypt_blocksize_pos a : (0 < crypt_blocksize a)%nat.
Proof. destruct a; cbn; lia. Qed.

Lemma encrypt_ok a otak d :
  length (kic otak) = crypt_key_len a → is_bytes d → len d mod Z.of_nat (crypt_blocksize a) = 0 →
  ∃ c, encrypt a otak d = Ok c ∧ length c = length d ∧ is_bytes c ∧ decrypt a otak c = Ok d.
Proof.
  intros Hk Hd Hm. unfold encrypt, decrypt, _pad_to_multiple. rewrite padding_none by done. rewrite app_nil_r.
  pose proof (len_blocks _ _ (crypt_blocksize_pos a) Hm) as Hb. unfold _encrypt, _decrypt.
  destruct a; cbn [crypt_blocksize crypt_key_len] in *;
    [apply des_cbc_ok | apply des3_cbc_ok | apply aes_cbc_ok]; try done.
Qed.

Lemma last_n_length {A} n (l : list A) : (n <= length l)%nat → length (last_n n l) = n.
Proof. intros Hn. unfold last_n. rewrite length_drop. lia. Qed.

Lemma is_bytes_last_n n l : is_bytes l → is_bytes (last_n n l).
Proof. apply is_bytes_drop. Qed.

Lemma padded_data m d : (0 < m)%nat → is_bytes d →
  is_bytes (_pad_to_multiple d m) ∧ blocks m (_pad_to_multiple d m) ∧ (length d <= length (_pad_to_multiple d m))%nat.
Proof.
  intros Hm Hd. unfold _pad_to_multiple. destruct (padding_blocks (len d) m Hm (len_nonneg d)) as (E & _ & Hb).
  split; [by apply is_bytes_app|]. split; [|rewrite length_app; lia].
  apply len_blocks; [done|]. by rewrite len_app.
Qed.

Lemma ota_sign_ok b otak d :
  length (kid otak) = crypt_key_len b → is_bytes d → d ≠ [] →
  ∃ s, sign b otak d = Ok s ∧ length s = 8%nat ∧ is_bytes s.
Proof.
  intros Hk Hd Hne. unfold sign.
  destruct (padded_data (auth_blocksize b) d) as (Hpb & Hbl & Hle); [destruct b; cbn; lia | done|].
  set (p := _pad_to_multiple d (auth_blocksize b)) in *.
  assert (blocks 8 p → (8 <= length p)%nat) as H8.
  { intros [n Hn]. destruct d; [done|]. cbn [length] in Hle. destruct n; lia. }
  unfold _sign. destruct b; cbn [auth_blocksize crypt_key_len zero_iv] in *.
  - destruct (des_cbc_ok (kid otak) (zero_iv 8) Hk eq_refl p Hpb Hbl) as (c & -> & Hl & Hcb & _). cbn.
    eexists. split; [done|]. split; [apply last_n_length; rewrite Hl; auto | by apply is_bytes_last_n].
  - destruct (des3_cbc_ok (kid otak) (zero_iv 8) Hk eq_refl p Hpb Hbl) as (c & -> & Hl & Hcb & _). cbn.
    eexists. split; [done|]. split; [apply last_n_length; rewrite Hl; auto | by apply is_bytes_last_n].
  - destruct (aes_cmac_ok (kid otak) p Hk Hpb) as (c & -> & Hl & Hcb). cbn.
    eexists. split; [done|]. split; [apply last_n_length; rewrite length_take; lia|].
    by apply is_bytes_last_n, is_bytes_take.
Qed.

(** *** The header *)

Definition key_value (idx : Z) (algo : string) : value := VDict ["key" / VInt idx; "algo" / VStr (lit algo)].

Definition hdr_value (otak : OtaKeyset) (len_sig : Z) (spi : value) (tar : bytes) : value :=
  VDict ["chl" / VInt (13 + len_sig); "spi" / spi; "kic" / key_value (kic_idx otak) (algo_crypt otak);
         "kid" / key_value (kid_idx otak) (algo_auth otak); "tar" / VBytes tar].

Lemma key_dom names ctx i algo n :
  0 <= i < 16 → number_of (lit algo) names = Some n → 0 <= n < 16 →
  dom (BitStruct ["key" / BitsInteger 4; "algo" / Enum (BitsInteger 4) names]) ctx (key_value i algo).
Proof.
  intros Hi Hn Hb. apply (proj2 (dom_struct _ ctx _)). eexists. split; [done|]. cbn -[Z.pow].
  split; [done|]. split; [exists i; split; [done | exact Hi]|]. split; [done|]. split; [|done].
  left. exists (lit algo), n. split; [done|]. split; [done|]. exists n. split; [done | exact Hb].
Qed.

Lemma hdr_dom otak a b len_sig spi tar :
  keyset_ok otak a b → 0 <= len_sig <= 8 → dom SPI [] spi → (∀ ctx, dom SPI ctx spi ↔ dom SPI [] spi) →
  is_bytes tar → length tar = 3%nat → dom hdr_construct [] (hdr_value otak len_sig spi tar).
Proof.
  intros Hk Hl Hs Hctx Ht Htl. apply dom_struct. eexists. split; [done|].
  split; [done|]. split; [eexists; split; [done|]; cbn; lia|].
  split; [done|]. split; [by apply Hctx|].
  split; [done|]. split.
  { rewrite (find_algo_name _ _ _ _ (ko_crypt _ _ _ Hk)). pose proof (ko_kic_idx _ _ _ Hk).
    destruct a; eapply key_dom; try done. }
  split; [done|]. split.
  { rewrite (find_algo_name _ _ _ _ (ko_auth _ _ _ Hk)). pose proof (ko_kid_idx _ _ _ Hk).
    destruct b; eapply key_dom; try done. }
  split; [done|]. split; [|done]. exists tar. split; [done|]. split; [done|].
  cbn. unfold len. by rewrite Htl.
Qed.

(** The domain of a bit structure does not look at the context. *)
Lemma spi_dom_ctx spi ctx : dom SPI ctx spi ↔ dom SPI [] spi.
Proof. done. Qed.

Lemma hdr_codes otak a b len_sig spi tar :
  keyset_ok otak a b → 0 <= len_sig <= 8 → dom SPI [] spi → is_bytes tar → length tar = 3%nat →
  ∃ h, build hdr_construct [] (hdr_value otak len_sig spi tar) = Ok h ∧ is_bytes h ∧ length h = 8%nat ∧
       ∀ pos rest, parse hdr_construct [] pos (h ++ rest) = Ok (hdr_value otak len_sig spi tar, rest).
Proof.
  intros Hk Hl Hs Ht Htl.
  destruct (con_round_trip hdr_construct (hdr_value otak len_sig spi tar)) as (h & Hb & Hby & Hsz & Hp).
  - reflexivity.
  - eapply hdr_dom; eauto using spi_dom_ctx.
  - exists h. split; [done|]. split; [done|]. split; [by apply Hsz|]. intros pos rest. by apply Hp.
Qed.

(** *** Commands *)

(** Length of the checksum by the requested protection. *)
Definition protection (spi : value) (len_sig : Z) : Prop :=
  item spi "rc_cc_ds" = Ok (VStr (lit "cc")) ∧ len_sig = 8 ∨
  item spi "rc_cc_ds" = Ok (VStr (lit "no_rc_cc_ds")) ∧ len_sig = 0.

(** What is signed, and the checksum in front of the data. *)
Definition checksum (b : OtaAlgo) (otak : OtaKeyset) (spi : value) (signed cc : bytes) : Prop :=
  match item spi "rc_cc_ds" with
  | Ok r => if is_str r "cc" then sign b otak signed = Ok cc ∧ length cc = 8%nat ∧ is_bytes cc else cc = []
  | Err _ => False
  end.

Lemma checksum_exists b otak spi L signed :
  length (kid otak) = crypt_key_len b → protection spi L → is_bytes signed → signed ≠ [] →
  ∃ cc, checksum b otak spi signed cc ∧ len cc = L ∧ is_bytes cc.
Proof.
  intros Hk [[E ->]|[E ->]] Hs Hne; unfold checksum; rewrite E; cbn [is_str].
  - destruct (ota_sign_ok b otak signed Hk Hs Hne) as (cc & Hc & Hl & Hb). exists cc.
    rewrite bool_decide_ok by done. unfold len. rewrite Hl. done.
  - exists []. rewrite bool_decide_false by done. repeat split. constructor.
Qed.

Record packet := mkPacket {
  p_head : bytes; p_cnt : bytes; p_cc : bytes; p_data : bytes; p_ciph : bytes }.

Definition p_cpl (p : packet) : Z := len (p_head p ++ p_cnt p ++ p_data p) + len (p_cc p).
Definition p_plain (p : packet) : bytes := p_cnt p ++ p_cc p ++ p_data p.
Definition p_signed (p : packet) : bytes := be 2 (p_cpl p) ++ p_head p ++ p_cnt p ++ p_data p.
Definition p_bytes (p : packet) : bytes := be 2 (len (p_head p ++ p_ciph p)) ++ p_head p ++ p_ciph p.

(** The parts of the packet for a command. *)
Record packet_for (otak : OtaKeyset) (a b : OtaAlgo) (tar : bytes) (spi : value) (apdu : bytes) (L : Z) (p : packet) : Prop := {
  pf_head : build hdr_construct [] (hdr_value otak L spi tar) = Ok (p_head p);
  pf_head_len : length (p_head p) = 8%nat;
  pf_parse : parse hdr_construct [] 0 (p_head p) = Ok (hdr_value otak L spi tar, []);
  pf_cnt : p_cnt p = be 5 (cntr otak) ++ be 1 (len (_get_padding (6 + L + len apdu) (crypt_blocksize a)));
  pf_data : p_data p = apdu ++ _get_padding (6 + L + len apdu) (crypt_blocksize a);
  pf_cc : checksum b otak spi (p_signed p) (p_cc p);
  pf_cc_len : len (p_cc p) = L;
  pf_ciph : encrypt a otak (p_plain p) = Ok (p_ciph p);
  pf_decrypt : decrypt a otak (p_ciph p) = Ok (p_plain p);
  pf_ciph_len : length (p_ciph p) = length (p_plain p);
  pf_cpl : 0 <= p_cpl p < 65536;
}.

Lemma padding_byte n a : 0 <= n → is_byte (len (_get_padding n (crypt_blocksize a))).
Proof.
  intros Hn. destruct (padding_blocks n _ (crypt_blocksize_pos a) Hn) as (_ & Hl & _).
  pose proof (len_nonneg (_get_padding n (crypt_blocksize a))). unfold is_byte. destruct a; cbn in *; lia.
Qed.

Lemma packet_exists otak a b tar spi apdu L :
  keyset_ok otak a b → length tar = 3%nat → is_bytes tar → dom SPI [] spi → protection spi L →
  is_bytes apdu → len apdu <= 65000 → ∃ p, packet_for otak a b tar spi apdu L p.
Proof.
  intros Hk Htl Ht Hs HL Ha Hal.
  assert (L = 0 ∨ L = 8) as HL' by (destruct HL as [[_ ->]|[_ ->]]; auto).
  destruct (hdr_codes otak a b L spi tar Hk) as (h & Hh & Hhb & Hhl & Hp); try done; [lia|].
  set (pad := _get_padding (6 + L + len apdu) (crypt_blocksize a)).
  pose proof (len_nonneg apdu).
  destruct (padding_blocks (6 + L + len apdu) _ (crypt_blocksize_pos a)) as (Hm & Hpl & Hpb); [lia|].
  fold pad in Hm, Hpl, Hpb.
  assert (Z.of_nat (crypt_blocksize a) <= 16) as H16 by (destruct a; cbn; lia). pose proof (len_nonneg pad).
  set (cnt := be 5 (cntr otak) ++ be 1 (len pad)). set (d := apdu ++ pad).
  assert (len cnt = 6) as Hcl by done.
  assert (len h = 8) as Hhl' by (unfold len; lia).
  assert (is_bytes cnt) as Hcb by (apply is_bytes_app; split; apply is_bytes_be).
  assert (is_bytes d) as Hdb by by apply is_bytes_app.
  set (cpl := len (h ++ cnt ++ d) + L).
  assert (0 <= cpl < 65536) as Hcpl.
  { unfold cpl, d. rewrite !len_app. lia. }
  destruct (checksum_exists b otak spi L (be 2 cpl ++ h ++ cnt ++ d)) as (cc & Hcc & Hccl & Hccb); try done.
  { apply Hk. }
  { rewrite !is_bytes_app. auto using is_bytes_be. }
  assert (len (cnt ++ cc ++ d) mod Z.of_nat (crypt_blocksize a) = 0) as Hmod.
  { unfold d. rewrite !len_app, Hcl, Hccl. rewrite <- Hm. f_equal. lia. }
  destruct (encrypt_ok a otak (cnt ++ cc ++ d)) as (ciph & He & Hel & _ & Hd); try done.
  { apply Hk. }
  { rewrite !is_bytes_app. auto. }
  exists (mkPacket h cnt cc d ciph). split; try done.
  - cbn. specialize (Hp 0 []). by rewrite app_nil_r in Hp.
  - unfold p_signed, p_cpl. cbn. by rewrite Hccl.
  - unfold p_cpl. cbn. by rewrite Hccl.
Qed.

Lemma to_bytes_be n z : 0 <= z < 256 ^ Z.of_nat n → to_bytes n z = Ok (be n z).
Proof. intros Hz. unfold to_bytes. by rewrite bool_decide_ok. Qed.

Lemma protection_sig_len spi L : protection spi L → _compute_sig_len spi = Ok L.
Proof. intros [[E ->]|[E ->]]; unfold _compute_sig_len; by rewrite E. Qed.

Lemma checksum_cc b otak spi signed cc :
  checksum b otak spi signed cc → item spi "rc_cc_ds" = Ok (VStr (lit "cc")) → sign b otak signed = Ok cc.
Proof. unfold checksum. intros Hc E. rewrite E in Hc. by destruct Hc. Qed.

Lemma cpl_ciph otak a b tar spi apdu L p :
  packet_for otak a b tar spi apdu L p → len (p_head p ++ p_ciph p) = p_cpl p.
Proof.
  intros Hp. pose proof (pf_ciph_len _ _ _ _ _ _ _ _ Hp) as Hl. unfold p_cpl, p_plain in *.
  unfold len in *. rewrite !length_app in *. lia.
Qed.

Lemma encode_cmd_packet otak a b tar spi apdu L p :
  keyset_ok otak a b → protection spi L → item spi "ciphering" = Ok (VBool true) →
  packet_for otak a b tar spi apdu L p →
  encode_cmd otak tar spi apdu = if len (p_bytes p) <=? 140 then Ok (p_bytes p) else Err ValueError.
Proof.
  intros Hk HL Hc Hp. unfold encode_cmd. rewrite (protection_sig_len _ _ HL), R_bind_Ok, Hc, R_bind_Ok.
  cbn [truth]. rewrite (ko_crypt _ _ _ Hk), !R_bind_Ok. cbv beta iota zeta.
  change (VDict ["chl" / _; "spi" / spi; "kic" / _; "kid" / _; "tar" / VBytes tar]) with (hdr_value otak L spi tar).
  rewrite (pf_head _ _ _ _ _ _ _ _ Hp), R_bind_Ok, <- (pf_data _ _ _ _ _ _ _ _ Hp).
  rewrite (to_bytes_be 5) by apply (ko_cntr _ _ _ Hk). rewrite R_bind_Ok.
  assert (0 <= 6 + L + len apdu) as Hn.
  { pose proof (len_nonneg apdu). destruct HL as [[_ ->]|[_ ->]]; lia. }
  rewrite (to_bytes_be 1) by apply (padding_byte _ a Hn). rewrite R_bind_Ok, <- (pf_cnt _ _ _ _ _ _ _ _ Hp).
  replace (len (p_head p ++ p_cnt p ++ p_data p) + L) with (p_cpl p)
    by (unfold p_cpl; by rewrite (pf_cc_len _ _ _ _ _ _ _ _ Hp)).
  rewrite (to_bytes_be 2) by apply (pf_cpl _ _ _ _ _ _ _ _ Hp). rewrite R_bind_Ok.
  change (be 2 (p_cpl p) ++ p_head p ++ p_cnt p ++ p_data p) with (p_signed p).
  pose proof (pf_cc _ _ _ _ _ _ _ _ Hp) as Hcc.
  assert ((r ← item spi "rc_cc_ds";
           if is_str r "cc" then
             a ← auth_from_keyset otak; cc ← sign a otak (p_signed p); Ok (p_cnt p ++ cc ++ p_data p)
           else if is_str r "rc" then
             crc ← to_bytes 4 (Z.land (crc32 (p_signed p)) 4294967295); Ok (p_cnt p ++ crc ++ p_data p)
           else if is_str r "no_rc_cc_ds" then Ok (p_cnt p ++ p_data p)
           else Err ValueError) = Ok (p_plain p)) as Hplain.
  { rewrite (ko_auth _ _ _ Hk), R_bind_Ok. unfold p_plain. destruct HL as [[E ->]|[E ->]].
    - rewrite E, R_bind_Ok. by rewrite (checksum_cc _ _ _ _ _ Hcc E).
    - unfold checksum in Hcc. rewrite E in Hcc |- *. cbn in Hcc. rewrite Hcc. reflexivity. }
  destruct (item spi "rc_cc_ds") as [r|]; [|done]. rewrite R_bind_Ok in Hplain |- *.
  rewrite Hplain, !R_bind_Ok, (pf_ciph _ _ _ _ _ _ _ _ Hp), !R_bind_Ok. cbv zeta.
  rewrite (to_bytes_be 2) by (rewrite (cpl_ciph _ _ _ _ _ _ _ _ Hp); apply (pf_cpl _ _ _ _ _ _ _ _ Hp)).
  rewrite !R_bind_Ok. change (be 2 (len (p_head p ++ p_ciph p)) ++ p_head p ++ p_ciph p) with (p_bytes p).
  rewrite Z.leb_antisym. by destruct (140 <? len (p_bytes p)).
Qed.

Lemma packet_parts otak a b tar spi apdu L p :
  packet_for otak a b tar spi apdu L p →
  from_bytes (take 2 (p_bytes p)) = p_cpl p ∧ slice 2 (2 + 8) (p_bytes p) = p_head p ∧ drop (2 + 8) (p_bytes p) = p_ciph p.
Proof.
  intros Hp. pose proof (cpl_ciph _ _ _ _ _ _ _ _ Hp) as Hcpl. pose proof (pf_head_len _ _ _ _ _ _ _ _ Hp) as Hhl.
  pose proof (pf_cpl _ _ _ _ _ _ _ _ Hp) as Hb. unfold p_bytes. rewrite Hcpl.
  assert (length (be 2 (p_cpl p)) = 2%nat) as Hl2 by apply length_be. split; [|split].
  - rewrite take_app_length' by done. by apply from_bytes_be.
  - apply (slice_app_mid (be 2 (p_cpl p)) (p_head p) (p_ciph p) 2 (2 + 8)); [done | by rewrite length_app, Hl2, Hhl].
  - rewrite app_assoc. apply drop_app_length'. by rewrite length_app, Hl2, Hhl.
Qed.

Lemma plain_parts otak a b tar spi apdu L p :
  keyset_ok otak a b → protection spi L → packet_for otak a b tar spi apdu L p →
  take 6 (p_plain p) = p_cnt p ∧ drop 6 (p_plain p) = p_cc p ++ p_data p ∧
  from_bytes (drop 5 (p_cnt p)) = len (_get_padding (6 + L + len apdu) (crypt_blocksize a)).
Proof.
  intros Hk HL Hp. pose proof (pf_cnt _ _ _ _ _ _ _ _ Hp) as Hc.
  assert (length (p_cnt p) = 6%nat) as Hc6 by by rewrite Hc.
  unfold p_plain. rewrite take_app_length', drop_app_length' by done. split; [done|]. split; [done|].
  rewrite Hc, drop_app_length' by done. apply from_bytes_be. apply padding_byte.
  pose proof (len_nonneg apdu). destruct HL as [[_ ->]|[_ ->]]; lia.
Qed.

Lemma decode_cmd_packet otak a b tar spi apdu L p :
  keyset_ok otak a b → protection spi L → packet_for otak a b tar spi apdu L p →
  decode_cmd otak (p_bytes p) = Ok (tar, spi, apdu).
Proof.
  intros Hk HL Hp. unfold decode_cmd.
  destruct (packet_parts _ _ _ _ _ _ _ _ Hp) as (-> & -> & ->).
  rewrite (ko_crypt _ _ _ Hk), R_bind_Ok, (pf_decrypt _ _ _ _ _ _ _ _ Hp), R_bind_Ok.
  rewrite (pf_parse _ _ _ _ _ _ _ _ Hp), R_bind_Ok.
  destruct (plain_parts _ _ _ _ _ _ _ _ Hk HL Hp) as (-> & -> & ->).
  change (item (hdr_value otak L spi tar) "spi") with (Ok spi).
  change (item (hdr_value otak L spi tar) "tar") with (Ok (VBytes tar)). rewrite R_bind_Ok.
  rewrite (to_bytes_be 2) by apply (pf_cpl _ _ _ _ _ _ _ _ Hp). rewrite !R_bind_Ok.
  rewrite (ko_auth _ _ _ Hk), !R_bind_Ok. pose proof (pf_cc _ _ _ _ _ _ _ _ Hp) as Hcc.
  pose proof (pf_cc_len _ _ _ _ _ _ _ _ Hp) as Hccl.
  assert ((r ← item spi "rc_cc_ds";
           if is_str r "cc" then
             check_sig b otak (be 2 (p_cpl p) ++ p_head p ++ p_cnt p ++ drop 8 (p_cc p ++ p_data p))
               (take 8 (p_cc p ++ p_data p));;
             Ok (drop 8 (p_cc p ++ p_data p))
           else if is_str r "rc" then Err NotImplementedError
           else if is_str r "no_rc_cc_ds" then Ok (p_cc p ++ p_data p)
           else Err ValueError) = Ok (p_data p)) as Hdata.
  { destruct HL as [[E ->]|[E ->]]; rewrite E, R_bind_Ok; cbn [is_str].
    - rewrite bool_decide_ok by done. unfold len in Hccl.
      rewrite take_app_length', drop_app_length' by lia.
      change (be 2 (p_cpl p) ++ p_head p ++ p_cnt p ++ p_data p) with (p_signed p).
      unfold check_sig. rewrite (checksum_cc _ _ _ _ _ Hcc E), R_bind_Ok, bool_decide_ok by done. done.
    - unfold checksum in Hcc. rewrite E in Hcc. cbn in Hcc. rewrite Hcc. reflexivity. }
  destruct (item spi "rc_cc_ds") as [r|]; [|done]. rewrite R_bind_Ok in Hdata. rewrite R_bind_Ok.
  rewrite Hdata, !R_bind_Ok. cbn [as_bytes]. rewrite R_bind_Ok.
  rewrite (pf_data _ _ _ _ _ _ _ _ Hp), len_app. do 2 f_equal.
  set (pad := _get_padding _ _). replace (len apdu + len pad - len pad) with (len apdu) by lia.
  unfold slice_to. pose proof (len_nonneg apdu). destruct (Z.ltb_spec (len apdu) 0); [lia|].
  unfold len. by rewrite Nat2Z.id, take_app_length.
Qed.


(** *** Responses *)

Lemma parse_field k c fs ctx pos bs v r :
  String.eqb k "" = false → parse c ctx pos bs = Ok (v, r) →
  parse_fields ((k, c) :: fs) ctx pos bs = parse_fields fs (dict_set k v ctx) (pos + len bs - len r) r.
Proof. intros Hk E. cbn [parse_fields]. by rewrite E, R_bind_Ok, Hk. Qed.

Lemma parse_int_at n ctx pos x r : length x = n → parse (BytesInteger n) ctx pos (x ++ r) = Ok (VInt (from_bytes x), r).
Proof. intros <-. by rewrite parse_int, read_app. Qed.

Lemma parse_bytes_at e ctx pos x r : eval e ctx = Some (len x) → parse (Bytes e) ctx pos (x ++ r) = Ok (VBytes x, r).
Proof. intros He. by rewrite (parse_bytes _ _ _ _ _ He), read_app. Qed.

Definition status_value (st : Z) : value :=
  match ResponseStatus with
  | Enum _ names => match label_of st names with Some s => VStr (lit s) | None => VInt st end
  | _ => VNone
  end.

Definition resp_value (rpl rhl : Z) (tar c5 : bytes) (pc st : Z) (cc sd : bytes) : value :=
  VDict ["rpl" / VInt rpl; "rhl" / VInt rhl; "tar" / VBytes tar; "cntr" / VBytes c5; "pcntr" / VInt pc;
         "response_status" / status_value st; "cc_rc" / VBytes cc; "secured_data" / VBytes sd].

Lemma parse_response rpl rhl tar c5 pc st cc sd :
  0 <= rpl < 65536 → length tar = 3%nat → length c5 = 5%nat → len cc = rhl - 10 →
  parse SmsResponsePacket [] 0 (be 2 rpl ++ [rhl] ++ tar ++ c5 ++ [pc] ++ [st] ++ cc ++ sd) =
  Ok (resp_value rpl rhl tar c5 pc st cc sd, []).
Proof.
  intros Hr Ht Hc Hcc. unfold SmsResponsePacket. rewrite parse_struct.
  erewrite parse_field; [|done|by apply parse_int_at].
  erewrite parse_field; [|done|by apply (parse_int_at 1)].
  erewrite parse_field; [|done|apply parse_bytes_at; cbn; unfold len; by rewrite Ht].
  erewrite parse_field; [|done|apply parse_bytes_at; cbn; unfold len; by rewrite Hc].
  erewrite parse_field; [|done|by apply (parse_int_at 1)].
  erewrite parse_field; [|done|unfold ResponseStatus; rewrite parse_enum, (parse_int_at 1 _ _ [st]) by done; reflexivity].
  erewrite parse_field; [|done|apply parse_bytes_at; cbn -[from_bytes]; by rewrite Hcc].
  erewrite parse_field; [|done|apply parse_greedy_bytes].
  cbn -[from_bytes be label_of]. rewrite from_bytes_be by done. done.
Qed.

(** What the card sends: protection as the SPI of the command asks for. *)
Record response := mkResp {
  r_rpl : Z; r_tar : bytes; r_cntr : bytes; r_status : Z; r_data : bytes }.

Record response_ok (r : response) : Prop := {
  ro_rpl : 0 <= r_rpl r < 65536;
  ro_tar : length (r_tar r) = 3%nat ∧ is_bytes (r_tar r);
  ro_cntr : length (r_cntr r) = 5%nat ∧ is_bytes (r_cntr r);
  ro_status : is_byte (r_status r);
  ro_data : is_bytes (r_data r);
}.

Section response.
Context (otak : OtaKeyset) (a b : OtaAlgo) (spi : value) (ciphered signed : bool) (r : response) (cc : bytes).
Context (Hk : keyset_ok otak a b) (Hr : response_ok r).
Context (Hciph : item spi "por_shall_be_ciphered" = Ok (VBool ciphered)).
Context (Hsig : item spi "por_rc_cc_ds" = Ok (VStr (lit (if signed then "cc" else "no_rc_cc_ds")))).
Context (Hcc : len cc = if signed then 8 else 0) (Hccb : is_bytes cc).

Definition r_udh : bytes := [2; 113; 0].
Definition r_pad : bytes :=
  if ciphered then _get_padding (7 + len cc + len (r_data r)) (crypt_blocksize a) else [].
Definition r_head : bytes := be 2 (r_rpl r) ++ [10 + len cc] ++ r_tar r.
Definition r_front : bytes := r_cntr r ++ [len r_pad] ++ [r_status r].
Definition r_signed : bytes := r_udh ++ r_head ++ r_front ++ r_data r ++ r_pad.
Definition r_plain : bytes := r_front ++ cc ++ r_data r ++ r_pad.

(** The response packet with the checksum [cc]. *)
Definition r_packet (body : bytes) : Prop :=
  if ciphered then encrypt a otak r_plain = Ok body else body = r_plain.

Lemma r_pad_byte : is_byte (len r_pad) ∧ is_bytes r_pad.
Proof.
  clear Hciph. unfold r_pad. destruct ciphered; [|split; [split; [done|reflexivity]|constructor]].
  pose proof (len_nonneg cc). pose proof (len_nonneg (r_data r)).
  split; [apply padding_byte; lia|]. apply padding_blocks; [apply crypt_blocksize_pos | lia].
Qed.

Lemma r_plain_bytes : is_bytes r_plain.
Proof.
  destruct r_pad_byte as [Hp Hb]. unfold r_plain, r_front. rewrite !is_bytes_app.
  repeat split; try apply Hr; try done; by apply Forall_singleton; first [done | apply Hr].
Qed.

Lemma r_packet_exists : ∃ body, r_packet body ∧ length body = length r_plain ∧
  (ciphered = true → decrypt a otak body = Ok r_plain).
Proof.
  clear Hciph. unfold r_packet. destruct ciphered eqn:E; [|by exists r_plain].
  destruct (encrypt_ok a otak r_plain) as (body & He & Hl & _ & Hd); [apply Hk | apply r_plain_bytes| |by exists body].
  unfold r_plain, r_front, r_pad. rewrite E. rewrite !len_app.
  pose proof (len_nonneg cc). pose proof (len_nonneg (r_data r)).
  destruct (padding_blocks (7 + len cc + len (r_data r)) _ (crypt_blocksize_pos a)) as (Hm & _); [lia|].
  rewrite <- Hm. f_equal. destruct (ro_cntr _ Hr) as [Hc _].
  assert (len (r_cntr r) = 5) as -> by (unfold len; by rewrite Hc).
  change (len [_]) with 1. lia.
Qed.

(** The decoded application response, for a success with data. *)
Definition app_response : result (option value) :=
  if bool_decide (r_status r = 0) && negb (bool_decide (r_data r = [])) then
    '(v, _) ← parse CompactRemoteResp [] 0 (r_data r); Ok (Some v)
  else Ok None.

Definition resp_fields (sd : bytes) : value :=
  resp_value (r_rpl r) (10 + len cc) (r_tar r) (r_cntr r) (len r_pad) (r_status r) cc sd.

Lemma parse_plain : parse SmsResponsePacket [] 0 (r_head ++ r_plain) = Ok (resp_fields (r_data r ++ r_pad), []).
Proof.
  unfold r_head, r_plain, r_front. rewrite <- !app_assoc.
  apply parse_response; [apply Hr..|lia].
Qed.

(** A ciphered packet parses too, to fields that mean nothing. *)
Lemma parse_any body : length body = length r_plain → ∃ v, parse SmsResponsePacket [] 0 (r_head ++ body) = Ok (v, []).
Proof.
  intros Hl. destruct (ro_cntr _ Hr) as [Hc5 _].
  assert (length body = 7 + length cc + length (r_data r ++ r_pad))%nat as Hlen.
  { rewrite Hl. unfold r_plain, r_front. rewrite !length_app, Hc5. cbn. lia. }
  destruct (drop 5 body) as [|pc body'] eqn:E5; [apply (f_equal length) in E5; rewrite length_drop in E5; cbn in E5; lia|].
  destruct body' as [|st body'']; [apply (f_equal length) in E5; rewrite length_drop in E5; cbn in E5; lia|].
  apply (f_equal length) in E5 as El. rewrite length_drop in El. cbn in El.
  rewrite <- (take_drop 5 body), E5, <- (take_drop (length cc) body'').
  change (pc :: st :: ?x) with ([pc] ++ [st] ++ x). unfold r_head. rewrite <- !app_assoc.
  eexists. apply parse_response; [apply Hr..| |].
  - rewrite length_take. lia.
  - unfold len. rewrite length_take. lia.
Qed.

Lemma status_ok st : is_str (status_value st) "por_ok" = bool_decide (st = 0).
Proof.
  unfold status_value, ResponseStatus. cbn [label_of].
  repeat (match goal with |- context [st =? ?k] => destruct (Z.eqb_spec st k) as [->|] end; [done|]).
  by rewrite bool_decide_false.
Qed.

Lemma app_response_eq :
  (if is_str (status_value (r_status r)) "por_ok" && truthy (len (r_data r)) then
     '(v, _) ← parse CompactRemoteResp [] 0 (r_data r); Ok (Some v)
   else Ok None) = app_response.
Proof.
  unfold app_response. rewrite status_ok.
  assert (truthy (len (r_data r)) = negb (bool_decide (r_data r = []))) as ->; [|done].
  destruct (r_data r) as [|x l]; [done|]. rewrite bool_decide_false by done. unfold truthy.
  pose proof (len_nonneg l). rewrite len_cons. destruct (Z.eqb_spec (1 + len l) 0); [lia|done].
Qed.

Lemma length_r_head : length r_head = 6%nat.
Proof. unfold r_head. destruct (ro_tar _ Hr) as [Ht _]. rewrite !length_app, length_be, Ht. done. Qed.

Lemma udh_part x : udh_from_bytes (Bin (r_udh ++ x)) = Ok (mkUdh [ie 113 []], x).
Proof.
  destruct (udh_ok [(113, [])]) as [_ Hu]; [apply Forall_singleton; split; [split; [done|reflexivity]|split; [constructor|done]] | done|].
  exact (Hu x).
Qed.

(** Removing the padding that was announced. *)
Lemma unpad_data :
  ciphered = true →
  (if truthy (len r_pad)
   then set_item (resp_fields (r_data r ++ r_pad)) "secured_data" (VBytes (slice_to (- len r_pad) (r_data r ++ r_pad)))
   else Ok (resp_fields (r_data r ++ r_pad))) = Ok (resp_fields (r_data r)).
Proof.
  intros _. unfold truthy. destruct (Z.eqb_spec (len r_pad) 0) as [E|E]; cbn [negb].
  - destruct r_pad; [|rewrite len_cons in E; pose proof (len_nonneg l); lia]. by rewrite app_nil_r.
  - pose proof (len_nonneg r_pad). unfold slice_to. destruct (Z.ltb_spec (- len r_pad) 0); [|lia].
    rewrite len_app. replace (len (r_data r) + len r_pad + - len r_pad) with (len (r_data r)) by lia.
    unfold len at 1. rewrite Nat2Z.id, take_app_length. done.
Qed.

(** The fields of the packet, deciphered and without padding, and the bytes
    the checksum covers. *)
Lemma open_packet body :
  r_packet body →
  ('(res, _) ← parse SmsResponsePacket [] 0 (r_head ++ body);
   c ← item spi "por_shall_be_ciphered";
   (if truth c then
      let ciphered_part := drop 6 (r_head ++ body) in
      a ← crypt_from_keyset otak;
      deciph ← decrypt a otak ciphered_part;
      let temp_data := take 6 (r_head ++ body) ++ deciph in
      '(res, _) ← parse SmsResponsePacket [] 0 temp_data;
      p ← item res "pcntr"; pcntr ← as_int p;
      res ← (if truthy pcntr then
               s ← item res "secured_data"; sd ← as_bytes s;
               set_item res "secured_data" (VBytes (slice_to (- pcntr) sd))
             else Ok res);
      Ok (res, temp_data)
    else Ok (res, r_head ++ body))) = Ok (resp_fields (r_data r), r_head ++ r_plain).
Proof.
  intros Hb. rewrite Hciph. pose proof unpad_data as Hun. unfold r_packet in Hb.
  destruct r_packet_exists as (body' & Hb' & Hl & Hd). unfold r_packet in Hb'.
  destruct ciphered eqn:E.
  - assert (body' = body) as -> by congruence.
    destruct (parse_any body Hl) as [v Hv]. rewrite Hv, !R_bind_Ok. cbn [truth]. cbv zeta.
    rewrite (ko_crypt _ _ _ Hk), R_bind_Ok, drop_app_length' by (symmetry; apply length_r_head).
    rewrite (Hd eq_refl), R_bind_Ok, take_app_length' by (symmetry; apply length_r_head).
    pose proof parse_plain as Hp. unfold r_plain in Hp |- *. 
    rewrite Hp, R_bind_Ok.
    change (item (resp_fields _) "pcntr") with (Ok (VInt (len r_pad))). rewrite R_bind_Ok. cbn [as_int]. rewrite R_bind_Ok.
    change (item (resp_fields ?x) "secured_data") with (Ok (VBytes x)). rewrite !R_bind_Ok. cbn [as_bytes]. rewrite R_bind_Ok.
    by rewrite (Hun eq_refl).
  - subst body. rewrite parse_plain, !R_bind_Ok. cbn [truth].
    assert (r_pad = []) as Hpad by (unfold r_pad; by rewrite E). by rewrite Hpad, app_nil_r.
Qed.

Lemma decode_resp_eq body :
  r_packet body →
  decode_resp otak spi (Bin (r_udh ++ r_head ++ body)) =
  ((if signed then expected ← sign b otak r_signed; guard_else (bool_decide (cc = expected)) OtaCheckError else Ok ());;
   dec ← app_response; Ok (resp_fields (r_data r), dec)).
Proof.
  intros Hb. unfold decode_resp. rewrite inb_bin, R_bind_Ok.
  change (idx (r_udh ++ r_head ++ body) 0) with (Ok 2). rewrite R_bind_Ok. cbn [guard_else Z.eqb Pos.eqb]. rewrite R_bind_Ok.
  rewrite udh_part, R_bind_Ok. change (has_ie (mkUdh [ie 113 []]) 113) with (Ok true). rewrite R_bind_Ok.
  cbn [guard_else]. rewrite R_bind_Ok. pose proof (open_packet body Hb) as Ho.
  destruct (parse SmsResponsePacket [] 0 (r_head ++ body)) as [[res rest]|]; [|done]. rewrite R_bind_Ok in Ho. rewrite R_bind_Ok.
  destruct (item spi "por_shall_be_ciphered") as [c|]; [|done]. rewrite R_bind_Ok in Ho. rewrite R_bind_Ok.
  cbv zeta in Ho. cbv zeta. rewrite Ho, R_bind_Ok. clear Ho.
  change (item (resp_fields _) "rhl") with (Ok (VInt (10 + len cc))). rewrite R_bind_Ok. cbn [as_int]. rewrite R_bind_Ok.
  replace (10 + len cc - 10) with (len cc) by lia. rewrite Hsig, R_bind_Ok.
  change (item (resp_fields _) "response_status") with (Ok (status_value (r_status r))).
  change (item (resp_fields ?x) "secured_data") with (Ok (VBytes x)).
  change (item (resp_fields ?x) "cc_rc") with (Ok (VBytes cc)).
  rewrite !R_bind_Ok. cbn [as_bytes]. rewrite !R_bind_Ok, app_response_eq.
  destruct signed; cbn [is_str].
  - rewrite bool_decide_false, bool_decide_ok by done. rewrite (ko_auth _ _ _ Hk), !R_bind_Ok.
    assert (take 3 (r_udh ++ r_head ++ body) ++ take 13 (r_head ++ r_plain) ++ drop (Z.to_nat (13 + len cc)) (r_head ++ r_plain)
            = r_signed) as ->; [|done].
    unfold r_signed. change (take 3 (r_udh ++ ?x)) with r_udh. f_equal.
    assert (length (r_head ++ r_front) = 13%nat) as H13.
    { destruct (ro_cntr _ Hr) as [Hc5 _]. unfold r_front. rewrite !length_app, length_r_head, Hc5. done. }
    unfold r_plain. rewrite (app_assoc r_head r_front). rewrite take_app_length' by done.
    rewrite <- app_assoc. do 2 f_equal. rewrite (app_assoc (r_head ++ r_front)).
    rewrite drop_app_length'; [done|]. rewrite length_app, H13. unfold len. lia.
  - rewrite bool_decide_ok by done. rewrite Hcc. done.
Qed.
End response.

(** C39: A response of the card, ciphered and signed as the SPI asks for, is
    taken apart into its fields and its data without padding, and accepted
    exactly when its checksum is the one of the shared key over user data
    header, header and data. *)
Theorem ota_resp_decoded otak a b spi (ciphered signed : bool) r cc :
  keyset_ok otak a b → response_ok r →
  item spi "por_shall_be_ciphered" = Ok (VBool ciphered) →
  item spi "por_rc_cc_ds" = Ok (VStr (lit (if signed then "cc" else "no_rc_cc_ds"))) →
  len cc = (if signed then 8 else 0) → is_bytes cc →
  ∃ body, r_packet otak a ciphered r cc body ∧
    decode_resp otak spi (Bin (r_udh ++ r_head r cc ++ body)) =
    ((if signed then expected ← sign b otak (r_signed a ciphered r cc);
                     guard_else (bool_decide (cc = expected)) OtaCheckError
      else Ok ());;
     dec ← app_response r; Ok (resp_fields a ciphered r cc (r_data r), dec)).
Proof.
  intros Hk Hr Hci Hsig Hcc Hccb.
  destruct (r_packet_exists otak a b ciphered r cc Hk Hr Hccb) as (body & Hb & _).
  exists body. split; [done|]. by apply decode_resp_eq.
Qed.
End facts.

(** ** Concrete runs *)

Module OtaRun.
Import Osmocom.Ref RefCrypto SmsRun.

Definition otak1 : OtaKeyset :=
  mkOtak "triple_des_cbc2" 3 (replicate 16 7) "triple_des_cbc2" 3 (replicate 16 9) 5.
Definition otak2 : OtaKeyset :=
  mkOtak "aes_cbc" 2 (replicate 16 7) "aes_cmac" 2 (replicate 16 9) 0.

Definition spi (ciphering : bool) (rc_cc_ds : string) (por_ciph : bool) (por_cc : string) : value :=
  VDict ["counter" / VStr (lit "no_counter"); "ciphering" / VBool ciphering; "rc_cc_ds" / VStr (lit rc_cc_ds);
         "por_in_submit" / VBool false; "por_shall_be_ciphered" / VBool por_ciph;
         "por_rc_cc_ds" / VStr (lit por_cc); "por" / VStr (lit "por_required")].

Definition tar1 : bytes := [176; 0; 17].
Definition apdu1 : bytes := [0; 164; 0; 4; 2; 63; 0].

Lemma keys1 : keyset_ok otak1 AlgoDES3 AlgoDES3.
Proof. by split. Qed.
Lemma keys2 : keyset_ok otak2 AlgoAES AlgoAES.
Proof. by split. Qed.

Ltac label_tac n :=
  left; eexists; exists n; split; [reflexivity|]; split; [reflexivity|]; exists n; split; [reflexivity | by split].

Lemma spi_dom : dom SPI [] (spi true "cc" true "cc").
Proof.
  unfold SPI, BitStruct, spi. eexists. split; [reflexivity|].
  split; [done|]. split; [done|]. split; [label_tac 0|].
  split; [done|]. split; [by eexists|]. split; [done|]. split; [label_tac 2|].
  split; [done|]. split; [done|]. split; [by eexists|]. split; [done|]. split; [by eexists|].
  split; [done|]. split; [label_tac 2|]. split; [done|]. split; [label_tac 1|]. done.
Qed.


Definition resp1 : response := mkResp 22 tar1 (replicate 5 0) 0 [1; 97; 47].

Lemma ota_resp_decoded_witness :
  ∃ body, r_packet otak2 AlgoAES true resp1 (replicate 8 1) body ∧
    decode_resp otak2 (spi true "cc" true "cc") (Bin (r_udh ++ r_head resp1 (replicate 8 1) ++ body)) =
    ((expected ← sign AlgoAES otak2 (r_signed AlgoAES true resp1 (replicate 8 1));
      guard_else (bool_decide (replicate 8 1 = expected)) OtaCheckError);;
     dec ← app_response resp1; Ok (resp_fields AlgoAES true resp1 (replicate 8 1) (r_data resp1), dec)).
Proof.
  apply (ota_resp_decoded otak2 AlgoAES AlgoAES (spi true "cc" true "cc") true true resp1 (replicate 8 1));
    [exact keys2 | | done | done | done | repeat constructor; done].
  split; try done; try (split; [done|]); repeat constructor; done.
Defined.

(** A command without ciphering is built without the two length bytes the
    decoder expects, and one with a CRC is built but not read back. *)
Example clear_command_not_read_back :
  ∃ e, encode_cmd otak1 tar1 (spi false "cc" false "cc") apdu1 = Ok e ∧
       decode_cmd otak1 e ≠ Ok (tar1, spi false "cc" false "cc", apdu1).
Proof. eexists. split; [vm_compute; reflexivity|]. vm_compute. discriminate. Qed.

Example crc_command_not_read_back :
  ∃ e, encode_cmd otak1 tar1 (spi true "rc" false "cc") apdu1 = Ok e ∧ decode_cmd otak1 e = Err NotImplementedError.
Proof. eexists. split; vm_compute; reflexivity. Qed.

(** CRC-32 of "123456789", the check value of the standard. *)
Example crc32_check : crc32 (map code (lit "123456789")) = 3421780262.
Proof. vm_compute. reflexivity. Qed.
End OtaRun.
