(* ===== verification/Scp.v ===== *)
(** pySim/global_platform/scp.py: the GlobalPlatform secure channel protocols
    SCP02 and SCP03: key derivation, mutual authentication, and the wrapping
    of command and unwrapping of response APDUs. *)

From S2P Require Import Prelude Osmocom Crypto Utils.

(** ** Keys (GpCardKeyset of global_platform/__init__.py) *)

Record GpCardKeyset := mkKeyset { kvn : Z; key_enc : bytes; key_mac : bytes; key_dek : bytes }.

(** [GpCardKeyset.__init__] *)
Definition new_keyset (kvn : Z) (enc mac dek : bytes) : result GpCardKeyset :=
  assert_ ((0 <=? kvn) && (kvn <? 256));;
  assert_ ((len enc =? len mac) && (len mac =? len dek));;
  Ok (mkKeyset kvn enc mac dek).

Definition from_single_key (kvn : Z) (base_key : bytes) : result GpCardKeyset :=
  new_keyset kvn base_key base_key base_key.

(** ** Padding *)

Definition pad80 (s : bytes) (BS : nat) : bytes :=
  let l := (BS - 1 - length s mod BS)%nat in
  s ++ [128] ++ replicate l 0.

Definition unpad80 (padded : bytes) : result bytes :=
  let stripped := drop_while_end (λ b, b =? 0) padded in
  l ← zidx stripped (-1);
  assert_ (l =? 128);;
  Ok (but_last 1 stripped).

Definition INS_INIT_UPDATE : Z := 80.
Definition INS_EXT_AUTH : Z := 130.
Definition CLA_SM : Z := 4.

(** ** The state of a session

    [K]: the session keys of the protocol, missing until the response to
    INITIALIZE UPDATE has been parsed. *)
Record SCP (K : Type) := mkScp {
  lchan_nr : Z; card_keys : GpCardKeyset; sk : option K; mac_on_unmodified : bool; security_level : Z;
  host_challenge : option bytes; card_challenge : option bytes;
  host_cryptogram : option bytes; card_cryptogram : option bytes }.
Arguments mkScp {K}. Arguments lchan_nr {K}. Arguments card_keys {K}. Arguments sk {K}.
Arguments mac_on_unmodified {K}. Arguments security_level {K}. Arguments host_challenge {K}.
Arguments card_challenge {K}. Arguments host_cryptogram {K}. Arguments card_cryptogram {K}.

Section scp.
Context `{Cryptodome, OsmocomTlv}.

(** ** SCP02 session keys *)

Definition scp02_key_derivation (constant : bytes) (counter : Z) (base_key : bytes) : result bytes :=
  assert_ (len constant =? 2);;
  assert_ ((0 <=? counter) && (counter <=? 65535));;
  assert_ (len base_key =? 16);;
  ctr ← to_bytes 2 counter;
  let derivation_data := constant ++ ctr ++ replicate 12 0 in
  des3_cbc_encrypt base_key (replicate 8 0) derivation_data.

Record Scp02SessionKeys := mkKeys02 {
  icv02 : option bytes; counter : Z; c_mac : bytes; r_mac : bytes; enc02 : bytes; data_enc : bytes;
  icv_encrypt : bool }.

Definition blocksize02 : nat := 8.

Definition DERIV_CONST_CMAC : bytes := [1; 1].
Definition DERIV_CONST_RMAC : bytes := [1; 2].
Definition DERIV_CONST_ENC : bytes := [1; 130].
Definition DERIV_CONST_DENC : bytes := [1; 129].

(** [Scp02SessionKeys.__init__] *)
Definition new_keys02 (counter : Z) (card_keys : GpCardKeyset) (icv_encrypt : bool) : result Scp02SessionKeys :=
  cm ← scp02_key_derivation DERIV_CONST_CMAC counter (key_mac card_keys);
  rm ← scp02_key_derivation DERIV_CONST_RMAC counter (key_mac card_keys);
  en ← scp02_key_derivation DERIV_CONST_ENC counter (key_enc card_keys);
  de ← scp02_key_derivation DERIV_CONST_DENC counter (key_dek card_keys);
  Ok (mkKeys02 None counter cm rm en de icv_encrypt).

(** [for i in range(q): h = e.encrypt(strxor(h, padded_data[8*i:8*(i+1)]))] *)
Fixpoint mac_blocks (e : bytes → result bytes) (padded_data : bytes) (i q : nat) (h : bytes) : result bytes :=
  match q with
  | O => Ok h
  | S q' =>
      x ← strxor h (slice (8 * i) (8 * (i + 1)) padded_data);
      h ← e x;
      mac_blocks e padded_data (S i) q' h
  end.

Definition set_icv02 (icv : bytes) (k : Scp02SessionKeys) : Scp02SessionKeys :=
  mkKeys02 (Some icv) (counter k) (c_mac k) (r_mac k) (enc02 k) (data_enc k) (icv_encrypt k).

Definition calc_mac_1des (data : bytes) (reset_icv : bool) : M Scp02SessionKeys bytes :=
  k ← get;
  let e := des_ecb_encrypt (take 8 (c_mac k)) in
  let d := des_ecb_decrypt (drop 8 (c_mac k)) in
  let padded_data := pad80 data 8 in
  let q := (length padded_data / 8)%nat in
  icv ← lift (if reset_icv then Ok (replicate 8 0) else from_opt TypeError (icv02 k));
  h ← lift (mac_blocks e padded_data 0 q icv);
  h ← lift (d h);
  h ← lift (e h);
  icv' ← lift (if icv_encrypt k then e h else Ok h);
  modify (set_icv02 icv');;
  mret h.

Definition calc_mac_3des (data : bytes) (k : Scp02SessionKeys) : result bytes :=
  let padded_data := pad80 data 8 in
  let q := (length padded_data / 8)%nat in
  mac_blocks (des3_ecb_encrypt (enc02 k)) padded_data 0 q (replicate 8 0).

(** ** SCP03 session keys *)

(** The loop of the KDF; [i] is one byte, so [bytes([i])] ends it before
    257 rounds. *)
Fixpoint kdf_loop (fuel : nat) (base_key prefix context : bytes) (output_len : nat) (i : Z) (dk : bytes)
    : result bytes :=
  if (length dk <? output_len)%nat then
    match fuel with
    | O => Err OutOfFuel
    | S f =>
        ib ← bytes_of_ints [i];
        let info := prefix ++ ib ++ context in
        p ← aes_cmac base_key info;
        if 65535 <? i + 1 then Err ValueError
        else kdf_loop f base_key prefix context output_len (i + 1) (dk ++ p)
    end
  else Ok dk.

Definition scp03_key_derivation (constant context base_key : bytes) (l : option Z) : result bytes :=
  let l := default (len base_key * 8) l in
  let output_len := Z.to_nat (l / 8) in
  assert_ (len constant =? 1);;
  let label := replicate 11 0 ++ constant in
  lb ← to_bytes 2 l;
  dk ← kdf_loop 257 base_key (label ++ [0] ++ lb) context output_len 1 [];
  Ok (take output_len dk).

Record Scp03SessionKeys := mkKeys03 {
  s_enc : bytes; s_mac : bytes; s_rmac : bytes; mac_chaining_value : bytes; block_nr : Z }.

Definition blocksize03 : nat := 16.

Definition DERIV_CONST_AUTH_CGRAM_CARD : bytes := [0].
Definition DERIV_CONST_AUTH_CGRAM_HOST : bytes := [1].
Definition DERIV_CONST_KDERIV_S_ENC : bytes := [4].
Definition DERIV_CONST_KDERIV_S_MAC : bytes := [6].
Definition DERIV_CONST_KDERIV_S_RMAC : bytes := [7].

(** [Scp03SessionKeys.__init__] *)
Definition new_keys03 (card_keys : GpCardKeyset) (host_challenge card_challenge : bytes) : result Scp03SessionKeys :=
  let context := host_challenge ++ card_challenge in
  en ← scp03_key_derivation DERIV_CONST_KDERIV_S_ENC context (key_enc card_keys) None;
  mc ← scp03_key_derivation DERIV_CONST_KDERIV_S_MAC context (key_mac card_keys) None;
  rm ← scp03_key_derivation DERIV_CONST_KDERIV_S_RMAC context (key_mac card_keys) None;
  Ok (mkKeys03 en mc rm (replicate 16 0) 0).

Definition set_chain (c : bytes) (k : Scp03SessionKeys) : Scp03SessionKeys :=
  mkKeys03 (s_enc k) (s_mac k) (s_rmac k) c (block_nr k).
Definition inc_block (k : Scp03SessionKeys) : Scp03SessionKeys :=
  mkKeys03 (s_enc k) (s_mac k) (s_rmac k) (mac_chaining_value k) (block_nr k + 1).

Definition calc_cmac (apdu : bytes) : M Scp03SessionKeys bytes :=
  k ← get;
  cmac_val ← lift (aes_cmac (s_mac k) (mac_chaining_value k ++ apdu));
  modify (set_chain cmac_val);;
  mret cmac_val.

Definition calc_rmac (rdata_and_sw : bytes) (k : Scp03SessionKeys) : result bytes :=
  aes_cmac (s_rmac k) (mac_chaining_value k ++ rdata_and_sw).

Definition _get_icv (is_response : bool) : M Scp03SessionKeys bytes :=
  (if is_response then mret () else modify inc_block);;
  k ← get;
  data ← lift (to_bytes blocksize03 (block_nr k));
  let data := if is_response then 128 :: drop 1 data else data in
  lift (aes_cbc_encrypt (s_enc k) (replicate blocksize03 0) data).

Definition _encrypt (data : bytes) (is_response : bool) : M Scp03SessionKeys bytes :=
  icv ← _get_icv is_response; k ← get; lift (aes_cbc_encrypt (s_enc k) icv data).

Definition _decrypt (data : bytes) (is_response : bool) : M Scp03SessionKeys bytes :=
  icv ← _get_icv is_response; k ← get; lift (aes_cbc_decrypt (s_enc k) icv data).

(** ** The common part of both protocols *)

Definition in_kvn_range (kvn : Z) (r : Z * Z) : bool := (r.1 <=? kvn) && (kvn <=? r.2).

(** [SCP.__init__] *)
Definition new_scp {K} (kvn_ranges : list (Z * Z)) (ck : GpCardKeyset) (lchan_nr : Z) : result (SCP K) :=
  guard_else ((kvn ck =? 0) || existsb (in_kvn_range (kvn ck)) kvn_ranges) ValueError;;
  Ok (mkScp lchan_nr ck None false 0 None None None None).

Definition kvn_ranges02 : list (Z * Z) := [(1, 1); (32, 47); (112, 112)].
Definition kvn_ranges03 : list (Z * Z) := [(48, 63)].

Section common.
Context {K : Type}.
Implicit Types s : SCP K.

Definition do_cmac s : bool := truthy (Z.land (security_level s) 1).
Definition do_rmac s : bool := truthy (Z.land (security_level s) 16).
Definition do_cenc s : bool := truthy (Z.land (security_level s) 2).
Definition do_renc s : bool := truthy (Z.land (security_level s) 32).

Definition _cla (sm b8 : bool) s : Z :=
  let ret := if b8 then 128 else 0 in
  let ret := if sm then Z.lor ret CLA_SM else ret in
  ret + lchan_nr s.

Definition set_sk (k : option K) s : SCP K :=
  mkScp (lchan_nr s) (card_keys s) k (mac_on_unmodified s) (security_level s)
    (host_challenge s) (card_challenge s) (host_cryptogram s) (card_cryptogram s).
Definition set_level (l : Z) s : SCP K :=
  mkScp (lchan_nr s) (card_keys s) (sk s) (mac_on_unmodified s) l
    (host_challenge s) (card_challenge s) (host_cryptogram s) (card_cryptogram s).
Definition set_host_challenge (c : bytes) s : SCP K :=
  mkScp (lchan_nr s) (card_keys s) (sk s) (mac_on_unmodified s) (security_level s)
    (Some c) (card_challenge s) (host_cryptogram s) (card_cryptogram s).
Definition set_card_challenge (c : bytes) s : SCP K :=
  mkScp (lchan_nr s) (card_keys s) (sk s) (mac_on_unmodified s) (security_level s)
    (host_challenge s) (Some c) (host_cryptogram s) (card_cryptogram s).
Definition set_host_cryptogram (c : bytes) s : SCP K :=
  mkScp (lchan_nr s) (card_keys s) (sk s) (mac_on_unmodified s) (security_level s)
    (host_challenge s) (card_challenge s) (Some c) (card_cryptogram s).
Definition set_card_cryptogram (c : bytes) s : SCP K :=
  mkScp (lchan_nr s) (card_keys s) (sk s) (mac_on_unmodified s) (security_level s)
    (host_challenge s) (card_challenge s) (host_cryptogram s) (Some c).

(** A method of [self.sk]. *)
Definition with_sk {A} (m : M K A) : M (SCP K) A := λ s,
  match sk s with
  | None => (Err AttributeError, s)
  | Some k => let '(r, k') := m k in (r, set_sk (Some k') s)
  end.

(** [SCP.wrap_cmd_apdu]: only GlobalPlatform commands are protected. *)
Definition wrap_cmd_apdu (_wrap_cmd_apdu : bytes → M (SCP K) bytes) (apdu : bytes) : M (SCP K) bytes :=
  cla ← lift (idx apdu 0);
  if truthy (Z.land cla 128) then _wrap_cmd_apdu apdu else mret apdu.

(** [SCP.encrypt_key] and [decrypt_key], with the block size of the session
    keys. *)
Definition encrypt_key (blocksize : nat) (dek_encrypt : bytes → result bytes) (key : bytes) (s : SCP K)
    : result bytes :=
  from_opt AttributeError (sk s);;
  let num_pad := (length key mod blocksize)%nat in
  if negb (num_pad =? 0)%nat then
    c ← dek_encrypt (key ++ replicate num_pad 0);
    Ok (bertlv_encode_len (len key) ++ c)
  else dek_encrypt key.

Definition decrypt_key (blocksize : nat) (dek_decrypt : bytes → result bytes) (encrypted_key : bytes) (s : SCP K)
    : result bytes :=
  from_opt AttributeError (sk s);;
  if negb (length encrypted_key mod blocksize =? 0)%nat then
    decrypted ← dek_decrypt encrypted_key;
    '(key_len, remainder) ← bertlv_parse_len decrypted;
    Ok (take (Z.to_nat key_len) remainder)
  else dek_decrypt encrypted_key.
End common.

(** ** SCP02 *)

Definition SCP02 := SCP Scp02SessionKeys.

Definition dek_encrypt02 (s : SCP02) : bytes → result bytes := des_ecb_encrypt (take 8 (key_dek (card_keys s))).
Definition dek_decrypt02 (s : SCP02) : bytes → result bytes := des_ecb_decrypt (take 8 (key_dek (card_keys s))).

Definition gen_init_update_apdu02 (host_challenge : bytes) : M SCP02 bytes :=
  modify (set_host_challenge host_challenge);;
  s ← get;
  h ← lift (bytes_of_ints [_cla false true s; INS_INIT_UPDATE; kvn (card_keys s); 0; 8]);
  mret (h ++ host_challenge ++ [0]).

(** The fields of [constr_iur] that are used: sequence counter, card
    challenge, card cryptogram. *)
Definition StreamError : exn := LibError "StreamError".
Definition ConstError : exn := LibError "ConstError".

Definition parse_iur02 (resp : bytes) : result (Z * bytes * bytes) :=
  if len resp <? 12 then Err StreamError
  else if negb (bool_decide (slice 11 12 resp = [2])) then Err ConstError
  else if len resp <? 28 then Err StreamError
  else Ok (from_bytes (slice 12 14 resp), slice 14 20 resp, slice 20 28 resp).

Definition _compute_cryptograms02 (card_challenge host_challenge : bytes) : M SCP02 unit :=
  s ← get;
  k ← lift (from_opt AttributeError (sk s));
  ctr ← lift (to_bytes 2 (counter k));
  hc ← lift (calc_mac_3des (ctr ++ card_challenge ++ host_challenge) k);
  modify (set_host_cryptogram hc);;
  cc ← lift (calc_mac_3des (host_challenge ++ ctr ++ card_challenge) k);
  modify (set_card_cryptogram cc).

Definition parse_init_update_resp02 (resp_bin : bytes) : M SCP02 unit :=
  '(seq_counter, cch, ccg) ← lift (parse_iur02 resp_bin);
  modify (set_card_challenge cch);;
  s ← get;
  k ← lift (new_keys02 seq_counter (card_keys s) true);
  modify (set_sk (Some k));;
  hch ← lift (from_opt AttributeError (host_challenge s));
  _compute_cryptograms02 cch hch;;
  s ← get;
  lift (guard_else (bool_decide (card_cryptogram s = Some ccg)) ValueError).

Definition gen_ext_auth_apdu02 (level : Z) : M SCP02 bytes :=
  (if truthy (Z.land level 240) then raise NotImplementedError else mret ());;
  modify (set_level level);;
  s ← get;
  header ← lift (if mac_on_unmodified s
                 then bytes_of_ints [_cla false true s; INS_EXT_AUTH; security_level s; 0; 8]
                 else bytes_of_ints [_cla true true s; INS_EXT_AUTH; security_level s; 0; 16]);
  hc ← lift (from_opt AttributeError (host_cryptogram s));
  mac ← with_sk (calc_mac_1des (header ++ hc) true);
  h2 ← lift (bytes_of_ints [_cla true true s; INS_EXT_AUTH; security_level s; 0; 16]);
  mret (h2 ++ hc ++ mac).

Definition _wrap_cmd_apdu02 (apdu : bytes) : M SCP02 bytes :=
  s ← get;
  if negb (do_cmac s) then mret apdu
  else
    '(case, lc, le, data) ← lift (parse_command_apdu apdu);
    lift (assert_ (lc <=? 256));;
    lift (assert_ (le <=? 256));;
    let lc := Z.land lc 255 in
    cla ← lift (idx apdu 0);
    let b8 := truthy (Z.land cla 128) in
    (if truthy (Z.land cla 3) || truthy (Z.land cla CLA_SM)
     then lift (assert_ (cla =? _cla false b8 s)) else mret ());;
    let '(mlc, clac) := if mac_on_unmodified s then (lc, cla) else (lc + 8, Z.lor cla CLA_SM) in
    k ← lift (from_opt AttributeError (sk s));
    clac_b ← lift (bytes_of_ints [clac]);
    mlc_b ← lift (bytes_of_ints [mlc]);
    mac ← with_sk (calc_mac_1des (clac_b ++ slice 1 4 apdu ++ mlc_b ++ data) false);
    '(data, lc) ← lift (if do_cenc s then
                          c ← des3_cbc_encrypt (enc02 k) (replicate 8 0) (pad80 data 8); Ok (c, len c)
                        else Ok (data, lc));
    let lc := lc + 8 in
    cla_b ← lift (bytes_of_ints [_cla true b8 s]);
    lc_b ← lift (bytes_of_ints [lc]);
    let apdu := cla_b ++ slice 1 4 apdu ++ lc_b ++ data ++ mac in
    mret (if (case =? 4) || (case =? 2) then apdu ++ [0] else apdu).

Definition unwrap_rsp_apdu02 (sw rsp_apdu : bytes) : M SCP02 bytes := mret rsp_apdu.

(** ** SCP03, with MACs of [s_mode] bytes *)

Definition SCP03 := SCP Scp03SessionKeys.
Variable s_mode : nat.

Definition dek_encrypt03 (s : SCP03) : bytes → result bytes := aes_cbc_encrypt (key_dek (card_keys s)) (replicate 16 0).
Definition dek_decrypt03 (s : SCP03) : bytes → result bytes := aes_cbc_decrypt (key_dek (card_keys s)) (replicate 16 0).

Definition _compute_cryptograms03 : M SCP03 unit :=
  s ← get;
  k ← lift (from_opt AttributeError (sk s));
  hch ← lift (from_opt AttributeError (host_challenge s));
  cch ← lift (from_opt AttributeError (card_challenge s));
  let context := hch ++ cch in
  cc ← lift (scp03_key_derivation DERIV_CONST_AUTH_CGRAM_CARD context (s_mac k) (Some (Z.of_nat s_mode * 8)));
  modify (set_card_cryptogram cc);;
  hc ← lift (scp03_key_derivation DERIV_CONST_AUTH_CGRAM_HOST context (s_mac k) (Some (Z.of_nat s_mode * 8)));
  modify (set_host_cryptogram hc).

Definition gen_init_update_apdu03 (hch : option bytes) : M SCP03 bytes :=
  let hch := default (replicate s_mode 0) hch in
  lift (guard_else (len hch =? Z.of_nat s_mode) ValueError);;
  modify (set_host_challenge hch);;
  s ← get;
  h ← lift (bytes_of_ints [_cla false true s; INS_INIT_UPDATE; kvn (card_keys s); 0; len hch]);
  mret (h ++ hch ++ [0]).

(** card challenge and card cryptogram *)
Definition parse_iur03 (resp : bytes) : result (bytes * bytes) :=
  if negb (bool_decide (slice 11 12 resp = [3])) then Err ConstError
  else if len resp <? 13 + 2 * Z.of_nat s_mode then Err StreamError
  else Ok (slice 13 (13 + s_mode) resp, slice (13 + s_mode) (13 + 2 * s_mode) resp).

Definition parse_init_update_resp03 (resp_bin : bytes) : M SCP03 unit :=
  lift (guard_else (bool_decide (len resp_bin ∈ [29; 45; 32; 48])) ValueError);;
  '(cch, ccg) ← lift (parse_iur03 resp_bin);
  modify (set_card_challenge cch);;
  s ← get;
  hch ← lift (from_opt AttributeError (host_challenge s));
  k ← lift (new_keys03 (card_keys s) hch cch);
  modify (set_sk (Some k));;
  _compute_cryptograms03;;
  s ← get;
  lift (guard_else (bool_decide (card_cryptogram s = Some ccg)) ValueError).

Definition _wrap_cmd_apdu03 (skip_cenc : bool) (apdu : bytes) : M SCP03 bytes :=
  s ← get;
  if negb (do_cmac s) then mret apdu
  else
    cla ← lift (idx apdu 0);
    ins ← lift (idx apdu 1);
    p1 ← lift (idx apdu 2);
    p2 ← lift (idx apdu 3);
    '(case, lc, le, cmd_data) ← lift (parse_command_apdu apdu);
    lift (assert_ (lc <=? 256));;
    lift (assert_ (le <=? 256));;
    let lc := Z.land lc 255 in
    '(lc, cmd_data) ←
      (if do_cenc s && negb skip_cenc then
         if case <=? 2 then with_sk (modify inc_block);; mret (lc, cmd_data)
         else
           let padded_data := pad80 cmd_data 16 in
           let lc := len padded_data in
           lift (guard_else (negb (256 <=? lc)) ValueError);;
           c ← with_sk (_encrypt padded_data false);
           mret (lc, c)
       else mret (lc, cmd_data));
    let mlc := lc + Z.of_nat s_mode in
    lift (guard_else (negb (256 <=? mlc)) ValueError);;
    let mcla := Z.lor (Z.land cla 240) CLA_SM in
    h ← lift (bytes_of_ints [mcla; ins; p1; p2; mlc]);
    let apdu := h ++ cmd_data in
    cmac ← with_sk (calc_cmac apdu);
    let apdu := apdu ++ take s_mode cmac in
    mret (if (case =? 4) || (case =? 2) then apdu ++ [0] else apdu).

Definition gen_ext_auth_apdu03 (level : Z) : M SCP03 bytes :=
  modify (set_level level);;
  s ← get;
  header ← lift (bytes_of_ints [_cla false true s; INS_EXT_AUTH; security_level s; 0; Z.of_nat s_mode]);
  hc ← lift (from_opt AttributeError (host_cryptogram s));
  wrap_cmd_apdu (_wrap_cmd_apdu03 true) (header ++ hc).

Definition unwrap_rsp_apdu03 (sw rsp_apdu : bytes) : M SCP03 bytes :=
  s ← get;
  if negb (do_rmac s) then lift (assert_ (negb (do_renc s)));; mret rsp_apdu
  else
    err ← lift (if bool_decide (sw = [144; 0]) then Ok false
                else b ← idx sw 0; Ok (negb (bool_decide (b ∈ [98; 99]))));
    if (err : bool) then mret rsp_apdu
    else
      let response_data := but_last s_mode rsp_apdu in
      let rmac := last_n s_mode rsp_apdu in
      k ← lift (from_opt AttributeError (sk s));
      r ← lift (calc_rmac (response_data ++ sw) k);
      let rmac_exp := take s_mode r in
      lift (guard_else (bool_decide (rmac = rmac_exp)) ValueError);;
      if do_renc s then
        decrypted ← with_sk (_decrypt response_data true);
        lift (unpad80 decrypted)
      else mret response_data.
End scp.

(** ** Padding: facts *)

Lemma unpad80_replicate s n : unpad80 (s ++ [128] ++ replicate n 0) = Ok s.
Proof.
  unfold unpad80. rewrite app_assoc, drop_while_end_replicate, drop_while_end_snoc_id, zidx_last by done.
  mrun. by rewrite but_last_app.
Qed.

Lemma unpad80_pad80 s bs : unpad80 (pad80 s bs) = Ok s.
Proof. apply unpad80_replicate. Qed.

Lemma length_pad80 s bs : (0 < bs)%nat → length (pad80 s bs) = (bs * (length s / bs + 1))%nat.
Proof.
  intros. unfold pad80. rewrite !length_app, length_replicate. cbn [length].
  pose proof (Nat.div_mod_eq (length s) bs). pose proof (Nat.mod_upper_bound (length s) bs). nia.
Qed.

Lemma pad80_blocks s bs : (0 < bs)%nat → blocks bs (pad80 s bs).
Proof. intros. exists (length s / bs + 1)%nat. rewrite length_pad80 by done. lia. Qed.

Lemma pad80_bytes s bs : is_bytes s → is_bytes (pad80 s bs).
Proof.
  intros. unfold pad80. rewrite !is_bytes_app. split_and!; [done|bytes_tac|].
  apply is_bytes_replicate. bytes_tac.
Qed.
#[export] Hint Resolve pad80_blocks pad80_bytes : sdauto.

(** ** The card's side of SCP03

    The security levels of Amendment D, table 7-4: C-MAC (bit 1), C-ENC
    (bit 2), R-MAC (bit 5) and R-ENC (bit 6) are switched on in this order. *)
Definition valid_level (l : Z) : Prop := In l [0; 1; 3; 17; 19; 51].

Section card03.
Context `{Cryptodome} (s_mode : nat).

Definition has (l mask : Z) : bool := truthy (Z.land l mask).

(** What the card does with the data once the MAC is accepted. *)
Definition card03_data (level : Z) (body : bytes) : M Scp03SessionKeys bytes :=
  if has level 2 then
    if bool_decide (body = []) then modify inc_block;; mret []
    else d ← _decrypt body false; lift (unpad80 d)
  else mret body.

(** What a card does with a command (6.2.4 to 6.2.6): it recomputes the MAC
    over the chaining value, the header as it was transmitted and the data,
    compares it, and decrypts what is left. The result is the instruction
    with its parameters, and the data. *)
Definition card03_receive (level : Z) (apdu : bytes) : M Scp03SessionKeys (bytes * bytes) :=
  '(_, lc, _, data) ← lift (parse_command_apdu apdu);
  if negb (has level 1) then mret (slice 1 4 apdu, data)
  else
    let body := but_last s_mode data in
    cmac ← calc_cmac (take 4 apdu ++ [lc] ++ body);
    lift (guard_else (bool_decide (last_n s_mode data = take s_mode cmac)) ValueError);;
    d ← card03_data level body;
    mret (slice 1 4 apdu, d).

(** What it answers with (6.2.5, 6.2.7): encrypted padded data, and the MAC
    over data and status word; an error status word comes alone. *)
Definition card03_respond (level : Z) (sw data : bytes) : M Scp03SessionKeys bytes :=
  if negb (has level 16) then mret data
  else if negb (bool_decide (sw = [144; 0]) || bool_decide (head sw ∈ [Some 98; Some 99])) then mret data
  else
    body ← (if has level 32 then _encrypt (pad80 data 16) true else mret data);
    k ← get;
    r ← lift (calc_rmac (body ++ sw) k);
    mret (body ++ take s_mode r).

(** One command of a session, from the host's [wrap_cmd_apdu] to its
    [unwrap_rsp_apdu]; the state is the host's session and the card's keys.
    [exchange] gives the command the card reads and the response data the
    host reads. *)
Record Exchange := mkExchange { x_apdu : bytes; x_sw : bytes; x_response : bytes }.

Definition exchange `{!OsmocomTlv} (level : Z) (x : Exchange) : M (SCP03 * Scp03SessionKeys) ((bytes * bytes) * bytes) :=
  w ← zoom fst (λ h s, (h, s.2)) (wrap_cmd_apdu (_wrap_cmd_apdu03 s_mode false) (x_apdu x));
  d ← zoom snd (λ k s, (s.1, k)) (card03_receive level w);
  r ← zoom snd (λ k s, (s.1, k)) (card03_respond level (x_sw x) (x_response x));
  u ← zoom fst (λ h s, (h, s.2)) (unwrap_rsp_apdu03 s_mode (x_sw x) r);
  mret (d, u).
(** Opening a session (6.2.2): the card derives the session keys from the
    host challenge of INITIALIZE UPDATE and its own, and answers with its key
    information, its challenge and its cryptogram. It accepts EXTERNAL
    AUTHENTICATE if MAC and host cryptogram are right; P1 is the level. *)
Definition cryptogram03 (constant context : bytes) (k : Scp03SessionKeys) : result bytes :=
  scp03_key_derivation constant context (s_mac k) (Some (Z.of_nat s_mode * 8)).

Definition card03_open (keys : GpCardKeyset) (kdd : bytes) (i_param : Z) (card_challenge apdu : bytes)
    : result (bytes * Scp03SessionKeys * bytes) :=
  '(_, _, _, hch) ← parse_command_apdu apdu;
  k ← new_keys03 keys hch card_challenge;
  cc ← cryptogram03 DERIV_CONST_AUTH_CGRAM_CARD (hch ++ card_challenge) k;
  hc ← cryptogram03 DERIV_CONST_AUTH_CGRAM_HOST (hch ++ card_challenge) k;
  Ok (kdd ++ [kvn keys; 3; i_param] ++ card_challenge ++ cc, k, hc).

Definition card03_authenticate (hc apdu : bytes) : M Scp03SessionKeys Z :=
  '(h, d) ← card03_receive 1 apdu;
  lift (guard_else (bool_decide (d = hc)) ValueError);;
  lift (idx h 1).

(** The whole handshake, from a new host session. *)
Definition handshake (keys : GpCardKeyset) (host_challenge : bytes) (kdd : bytes) (i_param : Z)
    (card_challenge : bytes) (level : Z) (s : SCP03) : result (Z * (SCP03 * Scp03SessionKeys)) :=
  let '(r, s) := gen_init_update_apdu03 s_mode (Some host_challenge) s in
  apdu ← r;
  '(resp, k, hc) ← card03_open keys kdd i_param card_challenge apdu;
  let '(r, s) := parse_init_update_resp03 s_mode resp s in
  r;;
  let '(r, s) := gen_ext_auth_apdu03 s_mode level s in
  apdu ← r;
  let '(r, k) := card03_authenticate hc apdu k in
  l ← r;
  Ok (l, (s, k)).
End card03.

(** ** The key derivation function *)

Section kdf_facts.
Context `{CryptodomeLaws}.

Definition kdf_block (base_key prefix context : bytes) (i : Z) : result bytes :=
  aes_cmac base_key (prefix ++ [i] ++ context).

Lemma kdf_loop_ok m : ∀ fuel base_key prefix context n i dk,
  (m <= fuel)%nat → length base_key = 16%nat → is_bytes prefix → is_bytes context →
  0 < i → i + Z.of_nat m <= 256 →
  (n <= length dk + 16 * m)%nat → (m ≠ 0 → length dk + 16 * (m - 1) < n)%nat →
  ∃ bs, map_r (kdf_block base_key prefix context) (seqZ i (Z.of_nat m)) = Ok bs ∧
    kdf_loop fuel base_key prefix context n i dk = Ok (dk ++ concat bs) ∧
    length (concat bs) = (16 * m)%nat ∧ is_bytes (concat bs).
Proof.
  induction m as [|m IH]; intros fuel base_key prefix context n i dk Hf Hk Hp Hc Hi Him Hn Hm.
  { exists []. split; [done|]. cbn. rewrite app_nil_r. split_and!; [|done|by constructor].
    unfold kdf_loop. destruct fuel; by rewrite (proj2 (Nat.ltb_ge _ _)) by lia. }
  destruct fuel as [|fuel]; [lia|].
  destruct (aes_cmac_ok base_key (prefix ++ [i] ++ context)) as (b & Eb & Hlb & Hbb); [done|..].
  { rewrite !is_bytes_app. split_and!; try done. constructor; [|done]. unfold is_byte. lia. }
  destruct (IH fuel base_key prefix context n (i + 1) (dk ++ b)) as (bs & E & El & Hl & Hbs);
    try done; try lia; [rewrite length_app; lia|rewrite length_app; lia|].
  exists (b :: bs). rewrite seqZ_cons by lia.
  replace (Z.succ i) with (i + 1) by lia. replace (Z.pred (Z.of_nat (S m))) with (Z.of_nat m) by lia.
  cbn [map_r]. assert (kdf_block base_key prefix context i = Ok b) as -> by done. mrun. rewrite E. mrun. split; [done|].
  cbn [kdf_loop concat]. rewrite (proj2 (Nat.ltb_lt _ _)) by lia.
  unfold bytes_of_ints. rewrite bool_decide_ok by (constructor; [unfold is_byte; lia|done]). mrun.
  rewrite Eb. mrun. rewrite (proj2 (Z.ltb_ge 65535 _)) by lia. rewrite El, <- app_assoc.
  split; [done|]. rewrite length_app, is_bytes_app. split; [lia|done].
Qed.

(** The number of 16-byte blocks that make up [n] bytes. *)
Definition blocks_for (n : Z) : Z := (n + 15) / 16.

Lemma kdf_ok constant context base_key n :
  len constant = 1 → length base_key = 16%nat → is_bytes constant → is_bytes context → 0 <= n <= 4080 →
  ∃ bs, map_r (kdf_block base_key (replicate 11 0 ++ constant ++ [0] ++ be 2 (8 * n)) context)
          (seqZ 1 (blocks_for n)) = Ok bs ∧
    scp03_key_derivation constant context base_key (Some (8 * n)) = Ok (take (Z.to_nat n) (concat bs)) ∧
    len (take (Z.to_nat n) (concat bs)) = n ∧ is_bytes (take (Z.to_nat n) (concat bs)).
Proof.
  intros Hc Hk Hcb Hxb Hn. unfold blocks_for.
  destruct (kdf_loop_ok (Z.to_nat ((n + 15) / 16)) 257 base_key (replicate 11 0 ++ constant ++ [0] ++ be 2 (8 * n))
              context (Z.to_nat n) 1 []) as (bs & E & El & Hl & Hbs); try done; try (cbn [length]; dlia).
  { rewrite !is_bytes_app. split_and!; [apply is_bytes_replicate; bytes_tac|done|bytes_tac|apply is_bytes_be]. }
  rewrite Z2Nat.id in E by dlia. exists bs. split; [done|].
  unfold scp03_key_derivation. cbn [default id]. rewrite Hc, Z.eqb_refl. mrun.
  unfold to_bytes. rewrite bool_decide_ok by (change (256 ^ Z.of_nat 2) with 65536; lia). mrun.
  replace (8 * n / 8) with n by dlia. rewrite <- (app_assoc (replicate 11 0)), El. mrun. split; [done|]. split; [|by apply is_bytes_take].
  unfold len. rewrite length_take. dlia.
Qed.

(** The SP 800-108 style key derivation function gives the first [n]
    bytes of the CMAC blocks with counters 1, 2, ..., for every output of up
    to 255 blocks; the loop ends. *)
Theorem scp03_key_derivation_spec constant context base_key n :
  len constant = 1 → length base_key = 16%nat → is_bytes constant → is_bytes context → 0 <= n <= 4080 →
  ∃ bs, map_r (kdf_block base_key (replicate 11 0 ++ constant ++ [0] ++ be 2 (8 * n)) context)
          (seqZ 1 (blocks_for n)) = Ok bs ∧
    scp03_key_derivation constant context base_key (Some (8 * n)) = Ok (take (Z.to_nat n) (concat bs)) ∧
    len (take (Z.to_nat n) (concat bs)) = n.
Proof.
  intros Hc Hk Hcb Hxb Hn. destruct (kdf_ok constant context base_key n) as (bs & ? & ? & ? & _); eauto.
Qed.
End kdf_facts.

(** ** The host's side of SCP03 *)

Section facts03.
Context `{CryptodomeLaws} {OT : OsmocomTlv} (s_mode : nat).
Hypothesis Hmode : s_mode = 8%nat ∨ s_mode = 16%nat.

Record keys03_wf (k : Scp03SessionKeys) : Prop := {
  wf_enc : length (s_enc k) = 16%nat;
  wf_mac : length (s_mac k) = 16%nat;
  wf_rmac : length (s_rmac k) = 16%nat;
  wf_chain : is_bytes (mac_chaining_value k);
  wf_block : 0 <= block_nr k;
}.

Lemma calc_cmac_ok k apdu :
  keys03_wf k → is_bytes apdu →
  ∃ c, calc_cmac apdu k = (Ok c, set_chain c k) ∧ length c = 16%nat ∧ is_bytes c ∧ keys03_wf (set_chain c k).
Proof.
  intros [He Hm Hr Hc Hb] Ha. unfold calc_cmac. mrun.
  destruct (aes_cmac_ok (s_mac k) (mac_chaining_value k ++ apdu)) as (c & -> & Hl & Hcb);
    [done|by apply is_bytes_app|]. mrun. exists c. split_and!; try done; by split.
Qed.

Lemma get_icv03_ok k (r : bool) :
  keys03_wf k → block_nr k + 1 < 256 ^ 16 →
  ∃ icv, length icv = 16%nat ∧
  ∀ x, _get_icv r (set_chain x k) = (Ok icv, set_chain x (if r then k else inc_block k)).
Proof.
  intros [He Hm Hr Hc Hb] Hn. set (n := if r then block_nr k else block_nr k + 1).
  set (d := be 16 n). set (d' := if r then 128 :: drop 1 d else d).
  assert (length d' = 16%nat ∧ is_bytes d') as [Hl Hd].
  { unfold d', d. pose proof (is_bytes_be 16 n). destruct r; [|by rewrite length_be].
    split; [cbn [length]; by rewrite length_drop, length_be|].
    constructor; [by unfold is_byte|by apply is_bytes_drop]. }
  destruct (aes_cbc_encrypt_ok (s_enc k) (replicate 16 0) d') as (icv & Ei & Hil & _ & _);
    [done..|by exists 1%nat|]. exists icv. split; [lia|]. intros x.
  clear Hl Hd. subst d' d n.
  unfold _get_icv, to_bytes, blocksize03. destruct r; mrun; cbn [block_nr inc_block s_enc set_chain];
    rewrite bool_decide_ok by (change (Z.of_nat 16) with 16; lia); mrun; by rewrite Ei.
Qed.

(** Encryption and decryption advance the counter alike (for a command, not
    for a response) and undo each other; neither looks at the MAC chaining
    value. *)
Lemma encrypt_decrypt03 k (r : bool) d :
  keys03_wf k → block_nr k + 1 < 256 ^ 16 → is_bytes d → blocks 16 d →
  let k' := if r then k else inc_block k in
  ∃ c, length c = length d ∧ is_bytes c ∧ keys03_wf k' ∧
  ∀ x, _encrypt d r (set_chain x k) = (Ok c, set_chain x k') ∧ _decrypt c r (set_chain x k) = (Ok d, set_chain x k').
Proof.
  intros Hk Hn Hd Hbl k'. destruct (get_icv03_ok k r Hk Hn) as (icv & Hil & Ei).
  destruct (aes_cbc_encrypt_ok (s_enc k') icv d) as (c & Ec & Hl & Hcb & Ed);
    [unfold k'; by destruct r, Hk|done..|].
  exists c. split_and!; try done.
  - unfold k'. destruct Hk, r; split; cbn; try done; lia.
  - intros x. unfold _encrypt, _decrypt. mrun. rewrite Ei. fold k'. mrun. cbn [s_enc set_chain]. by rewrite Ec, Ed.
Qed.

Lemma set_chain_id k : set_chain (mac_chaining_value k) k = k.
Proof. by destruct k. Qed.

Lemma take_mode_length (c : bytes) : length c = 16%nat → length (take s_mode c) = s_mode.
Proof. intros Hl. rewrite length_take. lia. Qed.

Lemma is_byte_log2 z : 0 <= z → Z.log2 z < 8 → is_byte z.
Proof.
  intros Hz Hl. split; [done|]. destruct (decide (z = 0)) as [->|]; [done|]. apply (Z.log2_lt_pow2 z 8); lia.
Qed.

Lemma byte_log2 z : is_byte z → Z.log2 z < 8.
Proof.
  intros [Hz Hl]. destruct (decide (z = 0)) as [->|]; [done|]. apply (Z.log2_lt_pow2 z 8); lia.
Qed.

(** The class byte of a protected command. *)
Lemma mcla_byte cla : is_byte cla → is_byte (Z.lor (Z.land cla 240) CLA_SM).
Proof.
  intros Hb. pose proof (byte_log2 cla Hb). unfold is_byte in Hb.
  assert (0 <= Z.land cla 240) by (apply Z.land_nonneg; lia).
  apply is_byte_log2; [apply Z.lor_nonneg; done|].
  rewrite Z.log2_lor by done. pose proof (Z.log2_land cla 240). unfold CLA_SM.
  change (Z.log2 4) with 2. change (Z.log2 240) with 7 in *. lia.
Qed.

(** The tail of [_wrap_cmd_apdu]: a command with the MAC at the end of its
    data, which the card's check accepts. *)
Lemma mac_accepted k h body case :
  keys03_wf k → length h = 4%nat → is_bytes h → is_bytes body → len body + Z.of_nat s_mode < 256 →
  let mlc := len body + Z.of_nat s_mode in
  ∃ c, calc_cmac (h ++ [mlc] ++ body) k = (Ok c, set_chain c k) ∧ keys03_wf (set_chain c k) ∧
  length (take s_mode c) = s_mode ∧
  let w := h ++ [mlc] ++ body ++ take s_mode c ++ (if (case =? 4) || (case =? 2) then [0] else []) in
  ∃ case' le', parse_command_apdu w = Ok (case', mlc, le', body ++ take s_mode c) ∧ take 4 w = h.
Proof.
  intros Hk Hh Hhb Hb Hl mlc.
  assert (len h = 4) as Hh' by (unfold len; lia).
  pose proof (len_nonneg body).
  destruct (calc_cmac_ok k (h ++ [mlc] ++ body)) as (c & Ec & Hlc & Hcb & Hwf); [done|..].
  { rewrite !is_bytes_app. split_and!; try done. constructor; [|done]. unfold is_byte. lia. }
  exists c. split; [done|]. split; [done|]. split; [by apply take_mode_length|]. cbn zeta.
  assert (len (body ++ take s_mode c) = mlc) as Hd.
  { rewrite len_app. unfold mlc. f_equal. unfold len. by rewrite take_mode_length. }
  assert (1 <= mlc <= 256) as Hm by lia.
  assert (mlc mod 256 = mlc) as Hmod by (apply Z.mod_small; lia).
  assert (∀ r : bytes, take 4 (h ++ r) = h) as Ht by (intros; by apply take_app_length').
  destruct (_ || _); [exists 4, 256|exists 3, 0]; (split; [|apply Ht]);
    apply (parse_apdu_of h); unfold apdu_of; rewrite Hh', Hd, !Z.eqb_refl, (coded_ok mlc), Hmod by done; cbn;
    by rewrite <- ?app_assoc, ?app_nil_r.
Qed.

(** A command [wrap_cmd_apdu] can protect at [level]: one of the four cases,
    with the GlobalPlatform bit in its class, and with room for padding and
    MAC in the data. *)
Definition wrappable (level : Z) (apdu : bytes) (case lc le : Z) (data : bytes) : Prop :=
  ∃ h, apdu_of h case lc le data = Some apdu ∧ is_bytes apdu ∧ truthy (Z.land (default 0 (head h)) 128) = true ∧
  len (if has level 2 && (2 <? case) then pad80 data 16 else data) + Z.of_nat s_mode < 256.

Lemma wrappable_parts level apdu case lc le data :
  wrappable level apdu case lc le data →
  parse_command_apdu apdu = Ok (case, lc, le, data) ∧ 0 <= lc <= 256 ∧ 0 <= le <= 256 ∧ lc = len data
  ∧ is_bytes data ∧ (case <=? 2 = true → data = []) ∧
  ∃ cla ins p1 p2 r, apdu = cla :: ins :: p1 :: p2 :: r ∧ truthy (Z.land cla 128) = true ∧
    is_bytes [cla; ins; p1; p2].
Proof.
  intros (h & Hap & Hb & Hgp & _). split; [by eapply parse_apdu_of|].
  unfold apdu_of in Hap. destruct (Z.eqb_spec (len h) 4) as [El|]; [|done].
  destruct h as [|cla [|ins [|p1 [|p2 [|]]]]]; try (unfold len in El; cbn in El; lia).
  cbn [negb] in Hap. unfold coded in Hap.
  destruct (Z.eqb_spec case 1) as [->|]; [|destruct (Z.eqb_spec case 2) as [->|];
      [|destruct (Z.eqb_spec case 3) as [->|]; [|destruct (Z.eqb_spec case 4) as [->|]; [|done]]]];
    destruct (_ && _) eqn:Ec in Hap; try done; injection Hap as <-;
    rewrite !andb_true_iff, ?Z.eqb_eq, ?bool_decide_eq_true in Ec; destruct Ec as [[? ?] ?]; subst;
    cbn [app] in Hb; unfold is_bytes in *; rewrite !list.Forall_cons, ?list.Forall_app in Hb;
    (destruct data; [|try (unfold len in *; cbn [length] in *; lia)]);
    split_and!; rewrite ?len_nil in *; try lia; try tauto; try done; try by constructor.
  all: eexists _, _, _, _, _; split; [reflexivity|]; split; [exact Hgp|];
    rewrite !list.Forall_cons, list.Forall_nil; tauto.
Qed.

(** ** Commands and responses *)

Implicit Types (s : SCP03) (k : Scp03SessionKeys).

Lemma set_sk_twice {K} (a b : option K) (s : SCP K) : set_sk a (set_sk b s) = set_sk a s.
Proof. done. Qed.

Lemma set_sk_id {K} (k : option K) (s : SCP K) : sk s = k → set_sk k s = s.
Proof. intros <-. by destruct s. Qed.

Lemma with_sk_eq {A} (m : M Scp03SessionKeys A) k s r k' :
  sk s = Some k → m k = (r, k') → with_sk m s = (r, set_sk (Some k') s).
Proof. intros Hs Hm. unfold with_sk. by rewrite Hs, Hm. Qed.

(** The middle part of [_wrap_cmd_apdu]: the data of the command, encrypted
    where the level asks for it. *)
Definition host03_data (skip_cenc : bool) (lc case : Z) (cmd_data : bytes) : M SCP03 (Z * bytes) :=
  s ← get;
  if do_cenc s && negb skip_cenc then
    if case <=? 2 then with_sk (modify inc_block);; mret (lc, cmd_data)
    else
      let padded_data := pad80 cmd_data 16 in
      let lc := len padded_data in
      lift (guard_else (negb (256 <=? lc)) ValueError);;
      c ← with_sk (_encrypt padded_data false);
      mret (lc, c)
  else mret (lc, cmd_data).

Lemma host_card_data s k skip level case data :
  sk s = Some k → has level 2 = do_cenc s && negb skip → keys03_wf k → block_nr k + 1 < 256 ^ 16 → is_bytes data →
  (case <=? 2 = true → data = []) →
  len (if has level 2 && (2 <? case) then pad80 data 16 else data) + Z.of_nat s_mode < 256 →
  ∃ body k', host03_data skip (len data) case data s = (Ok (len body, body), set_sk (Some k') s) ∧ is_bytes body ∧
    keys03_wf k' ∧ (k' = k ∨ k' = inc_block k) ∧
    len body + Z.of_nat s_mode < 256 ∧
    ∀ x, card03_data level body (set_chain x k) = (Ok data, set_chain x k').
Proof.
  intros Hs Hl Hk Hn Hd Hc Hroom. unfold host03_data, card03_data. mrun. rewrite <- Hl.
  destruct (has level 2); cbn [andb] in Hroom.
  2: { exists data, k. rewrite set_sk_id by done. split_and!; auto. }
  destruct (Z.leb_spec case 2) as [Hle|Hgt].
  - rewrite (proj2 (Z.ltb_ge 2 case)) in Hroom by done. rewrite Hc in * by done.
    exists [], (inc_block k). destruct Hk. split_and!; auto; [|split; cbn; try done; lia].
    mrun. by rewrite (with_sk_eq _ k s (Ok ()) (inc_block k)).
  - rewrite (proj2 (Z.ltb_lt 2 case)) in Hroom by done.
    destruct (encrypt_decrypt03 k false (pad80 data 16)) as (c & Hcl & Hcb & Hwf & Hed); [auto with sdauto lia..|].
    exists c, (inc_block k).
    assert (len c = len (pad80 data 16)) as El by (unfold len; by rewrite Hcl).
    split_and!; auto; [|lia|intros x].
    + rewrite (proj2 (Z.leb_gt 256 _)) by lia. cbn [negb]. mrun.
      pose proof (proj1 (Hed (mac_chaining_value k))) as E. rewrite set_chain_id in E.
      rewrite (with_sk_eq _ _ _ _ _ Hs E), <- El. by destruct k.
    + rewrite bool_decide_eq_false_2.
      2: { intros ->. unfold pad80 in El. rewrite !len_app, len_cons, len_nil in El.
           pose proof (len_nonneg data). pose proof (len_nonneg (replicate (16 - 1 - length data mod 16) 0)). lia. }
      mrun. rewrite (proj2 (Hed x)). by rewrite unpad80_pad80.
Qed.

Lemma bytes_of_ints_ok l : is_bytes l → bytes_of_ints l = Ok l.
Proof. intros Hl. unfold bytes_of_ints. by rewrite bool_decide_ok. Qed.

(** What [_wrap_cmd_apdu] does at a level with C-MAC. *)
Lemma wrap_cmd_apdu03_eq s k skip cla ins p1 p2 r case lc le data :
  let apdu := cla :: ins :: p1 :: p2 :: r in
  sk s = Some k → do_cmac s = true →
  parse_command_apdu apdu = Ok (case, lc, le, data) → lc <= 256 → le <= 256 → truthy (Z.land cla 128) = true →
  wrap_cmd_apdu (_wrap_cmd_apdu03 s_mode skip) apdu s =
  ('(lc, cmd_data) ← host03_data skip (Z.land lc 255) case data;
   let mlc := lc + Z.of_nat s_mode in
   lift (guard_else (negb (256 <=? mlc)) ValueError);;
   let mcla := Z.lor (Z.land cla 240) CLA_SM in
   h ← lift (bytes_of_ints [mcla; ins; p1; p2; mlc]);
   cmac ← with_sk (calc_cmac (h ++ cmd_data));
   let apdu := (h ++ cmd_data) ++ take s_mode cmac in
   mret (if (case =? 4) || (case =? 2) then apdu ++ [0] else apdu)) s.
Proof.
  intros apdu Hs Hm Hp Hlc Hle Hcla. unfold wrap_cmd_apdu. mrun. unfold idx at 1. cbn [lookup list_lookup apdu].
  mrun. rewrite Hcla. unfold _wrap_cmd_apdu03. mrun. rewrite Hm. cbn [negb]. unfold idx. fold apdu.
  cbn [lookup list_lookup apdu]. mrun. fold apdu. rewrite Hp. mrun.
  rewrite !(proj2 (Z.leb_le _ 256)) by done. mrun.
  unfold host03_data. mrun. by destruct (do_cenc s && negb skip).
Qed.

Lemma land_255 n : 0 <= n < 256 → Z.land n 255 = n.
Proof. intros. change 255 with (Z.ones 8). rewrite Z.land_ones by done. by apply Z.mod_small. Qed.

(** The card, at a level that matches what the host applies, accepts the
    wrapped command and reads its data. *)
Lemma wrap_received s k skip level apdu case lc le data :
  sk s = Some k → has level 1 = do_cmac s → has level 2 = do_cenc s && negb skip →
  (has level 1 = false → has level 2 = false) → keys03_wf k → block_nr k + 1 < 256 ^ 16 →
  wrappable level apdu case lc le data →
  ∃ w k', wrap_cmd_apdu (_wrap_cmd_apdu03 s_mode skip) apdu s = (Ok w, set_sk (Some k') s)
    ∧ card03_receive s_mode level w k = (Ok (slice 1 4 apdu, data), k') ∧ keys03_wf k' ∧ block_nr k' <= block_nr k + 1.
Proof.
  intros Hs Hm He Hv Hk Hn Hw.
  destruct (wrappable_parts _ _ _ _ _ _ Hw) as (Hp & Hlc & Hle & -> & Hd & Hc & cla & ins & p1 & p2 & r & -> & Hcla & Hb).
  destruct Hw as (_ & _ & _ & _ & Hroom).
  destruct (has level 1) eqn:H1.
  2: { exists (cla :: ins :: p1 :: p2 :: r), k. rewrite set_sk_id by done. split_and!; try done; [| |lia].
       - unfold wrap_cmd_apdu, _wrap_cmd_apdu03. mrun. unfold idx at 1. cbn [lookup list_lookup]. mrun.
         rewrite Hcla. mrun. by rewrite <- Hm.
       - unfold card03_receive. mrun. rewrite Hp. mrun. by rewrite H1. }
  rewrite (wrap_cmd_apdu03_eq s k skip) with (case := case) (lc := len data) (le := le) (data := data) by (done || lia).
  destruct (host_card_data s k skip level case data) as (body & k1 & Eh & Hbb & Hwf & Hk1 & Hlen & Ecard); try done.
  assert (Z.land (len data) 255 = len data) as ->.
  { apply land_255. split; [lia|]. destruct (has level 2 && (2 <? case)); [|lia].
    unfold pad80 in Hroom. rewrite len_app in Hroom. pose proof (len_nonneg ([128] ++ replicate (16 - 1 - length data mod 16) 0)). lia. }
  set (h := [Z.lor (Z.land cla 240) CLA_SM; ins; p1; p2]).
  assert (is_bytes h) as Hh.
  { unfold is_bytes, h in *. rewrite list.Forall_cons in *. split; [apply mcla_byte|]; tauto. }
  destruct (mac_accepted k h body case) as (c & Ec & Hwf' & Hlc' & case' & le' & Ew & Et); try done.
  assert (calc_cmac (h ++ [len body + Z.of_nat s_mode] ++ body) k1 = (Ok c, set_chain c k1)) as Ec1.
  { destruct Hk1 as [->| ->]; [done|]. revert Ec. unfold calc_cmac. mrun. cbn [s_mac inc_block mac_chaining_value].
    destruct (aes_cmac _ _); intros E; [by injection E as -> _|done]. }
  set (mlc := len body + Z.of_nat s_mode) in *.
  exists (h ++ [mlc] ++ body ++ take s_mode c ++ (if (case =? 4) || (case =? 2) then [0] else [])), (set_chain c k1).
  split; [|split; [|split]].
  3: { destruct Hk1 as [->| ->]; [done|]. destruct Hwf, Hwf'. by split. }
  3: { destruct Hk1 as [->| ->]; cbn; lia. }
  - mrun. rewrite Eh. mrun. fold mlc. rewrite (proj2 (Z.leb_gt 256 _)) by lia. cbn [negb]. mrun.
    change [Z.lor (Z.land cla 240) CLA_SM; ins; p1; p2; mlc] with (h ++ [mlc]).
    rewrite bytes_of_ints_ok.
    2: { rewrite is_bytes_app. split; [done|]. constructor; [|done]. pose proof (len_nonneg body). unfold is_byte. lia. }
    mrun. rewrite <- app_assoc, (with_sk_eq _ k1 (set_sk (Some k1) s) _ _ eq_refl Ec1).
    destruct (_ || _); by rewrite <- ?app_assoc, ?app_nil_r.
  - unfold card03_receive. mrun. rewrite Ew. mrun. rewrite H1. cbn [negb].
    rewrite (but_last_app s_mode), (last_n_app s_mode) by done. mrun. rewrite Et, Ec. mrun.
    rewrite bool_decide_ok by done. mrun. rewrite (Ecard c). done.
Qed.



(** Host and card agree on which status words are errors. *)
Definition protected_sw (sw : bytes) : bool :=
  bool_decide (sw = [144; 0]) || bool_decide (head sw ∈ [Some 98; Some 99]).

Lemma error_status sw :
  sw ≠ [] →
  (if bool_decide (sw = [144; 0]) then Ok false
   else b ← idx sw 0; Ok (negb (bool_decide (b ∈ [98; 99])))) = Ok (negb (protected_sw sw)).
Proof.
  intros Hsw. destruct sw as [|b sw]; [done|]. unfold protected_sw. destruct (bool_decide _); [done|].
  unfold idx. cbn [lookup list_lookup head orb]. mrun. do 2 f_equal. apply bool_decide_ext.
  rewrite !elem_of_cons, !elem_of_nil. naive_solver.
Qed.

Lemma response_unwrapped s k level sw data :
  valid_level level → sk s = Some k → security_level s = level → keys03_wf k → block_nr k + 1 < 256 ^ 16 →
  sw ≠ [] → is_bytes sw → is_bytes data →
  ∃ r, card03_respond s_mode level sw data k = (Ok r, k) ∧ unwrap_rsp_apdu03 s_mode sw r s = (Ok data, s).
Proof.
  intros Hv Hs Hl Hk Hn Hsw Hswb Hd. unfold card03_respond, unwrap_rsp_apdu03.
  fold (protected_sw sw).
  assert (do_rmac s = has level 16) as E16 by (by rewrite <- Hl).
  assert (do_renc s = has level 32) as E32 by (by rewrite <- Hl).
  destruct (has level 16) eqn:H16; cbn [negb].
  2: { assert (has level 32 = false) as H32 by (by destruct Hv as [<-|[<-|[<-|[<-|[<-|[<-|[]]]]]]]).
       exists data. split; [done|]. mrun. rewrite E16, E32, H32. done. }
  destruct (protected_sw sw) eqn:Hp; cbn [negb].
  2: { exists data. split; [done|]. mrun. rewrite E16. cbn [negb]. mrun. by rewrite error_status, Hp. }
  assert (∃ body, (if has level 32 then _encrypt (pad80 data 16) true else mret data) k = (Ok body, k)
    ∧ is_bytes body ∧ (if has level 32 then d ← _decrypt body true; lift (unpad80 d) else mret body) k = (Ok data, k))
    as (body & Eb & Hb & Ed).
  { destruct (has level 32); [|by exists data].
    destruct (encrypt_decrypt03 k true (pad80 data 16)) as (c & _ & Hcb & _ & Hed); [auto with sdauto lia..|].
    destruct (Hed (mac_chaining_value k)) as [E1 E2]. rewrite set_chain_id in E1, E2.
    exists c. split; [done|]. split; [done|]. mrun. rewrite E2. by rewrite unpad80_pad80. }
  destruct Hk as [_ _ Hr Hc _].
  destruct (aes_cmac_ok (s_rmac k) (mac_chaining_value k ++ body ++ sw)) as (c & Ec & Hlc & _);
    [done|by rewrite !is_bytes_app|].
  exists (body ++ take s_mode c). split.
  - rewrite M_bind_eq, Eb. mrun. unfold calc_rmac. by rewrite Ec.
  - mrun. rewrite E16. cbn [negb]. mrun. rewrite error_status, Hp by done. cbn [negb]. mrun.
    rewrite but_last_app, last_n_app by (by apply take_mode_length). rewrite Hs. mrun. unfold calc_rmac. rewrite Ec.
    mrun. rewrite bool_decide_ok by done. mrun. rewrite E32. destruct (has level 32).
    + mrun. revert Ed. mrun. destruct (_decrypt body true k) as [[d|e] k'] eqn:Edd; [|done].
      intros [= Ed ->]. rewrite (with_sk_eq _ _ _ _ _ Hs Edd), Ed. by rewrite set_sk_id.
    + by injection Ed as ->.
Qed.

(** Host and card hold the same keys, chaining value and counter. *)
Definition in_sync (level : Z) (st : SCP03 * Scp03SessionKeys) : Prop :=
  sk st.1 = Some st.2 ∧ security_level st.1 = level ∧ keys03_wf st.2.

(** An exchange the protocol can carry, and what each side reads of it. *)
Definition carries level (x : Exchange) (dr : (bytes * bytes) * bytes) : Prop :=
  dr.1.1 = slice 1 4 (x_apdu x) ∧ (∃ case lc le, wrappable level (x_apdu x) case lc le dr.1.2) ∧
  x_sw x ≠ [] ∧ is_bytes (x_sw x) ∧ is_bytes (x_response x) ∧ dr.2 = x_response x.

Lemma exchange_ok level x dr st :
  valid_level level → in_sync level st → carries level x dr → block_nr st.2 + 2 < 256 ^ 16 →
  ∃ st', exchange s_mode level x st = (Ok dr, st') ∧ in_sync level st' ∧ block_nr st'.2 <= block_nr st.2 + 1.
Proof.
  destruct st as [s k], dr as [[hd d] rd]. intros Hv (Hs & Hl & Hk) (Hhd & (case & lc & le & Hw) & Hsw & Hswb & Hrb & Hrd) Hn.
  cbn [fst snd] in *. subst rd hd. destruct (wrap_received s k false level _ _ _ _ _ Hs
    ltac:(by rewrite <- Hl) ltac:(by rewrite <- Hl, andb_true_r)
    ltac:(by destruct Hv as [<-|[<-|[<-|[<-|[<-|[<-|[]]]]]]]) Hk ltac:(lia) Hw) as (w & k' & Ew & Er & Hk' & Hn').
  destruct (response_unwrapped (set_sk (Some k') s) k' level (x_sw x) (x_response x))
    as (r & Ec & Eu); try done; [lia|].
  exists (set_sk (Some k') s, k'). split_and!; try done.
  unfold exchange. mrun. cbn [fst snd]. rewrite Ew. mrun. cbn [fst snd]. rewrite Er. mrun. cbn [fst snd].
  rewrite Ec. mrun. cbn [fst snd]. by rewrite Eu.
Qed.

(** ** Opening a session *)

Record keyset_wf (ck : GpCardKeyset) : Prop := {
  wf_kvn : is_byte (kvn ck);
  wf_key_enc : length (key_enc ck) = 16%nat;
  wf_key_mac : length (key_mac ck) = 16%nat;
}.

Lemma new_keys03_ok ck hch cch :
  keyset_wf ck → is_bytes hch → is_bytes cch →
  ∃ k, new_keys03 ck hch cch = Ok k ∧ keys03_wf k ∧ block_nr k = 0.
Proof.
  intros [_ He Hm] Hh Hc.
  unfold new_keys03, DERIV_CONST_KDERIV_S_ENC, DERIV_CONST_KDERIV_S_MAC, DERIV_CONST_KDERIV_S_RMAC.
  assert (∀ c key, is_byte c → length key = 16%nat →
    ∃ d, scp03_key_derivation [c] (hch ++ cch) key None = Ok d ∧ length d = 16%nat ∧ is_bytes d) as Hd.
  { intros c key Hcb Hk. destruct (kdf_ok [c] (hch ++ cch) key 16) as (bs & _ & E & Hl & Hb);
      [done|done|by constructor|by apply is_bytes_app|lia|].
    assert (len key = 16) as Hl' by (unfold len; by rewrite Hk).
    change (Z.to_nat 16) with 16%nat in *. exists (take 16 (concat bs)). split; [|split; [unfold len in Hl; lia|done]].
    rewrite <- E. unfold scp03_key_derivation. cbn [default id]. by rewrite Hl'. }
  destruct (Hd 4 (key_enc ck)) as (en & -> & ? & ?); [done..|]. mrun.
  destruct (Hd 6 (key_mac ck)) as (mc & -> & ? & ?); [done..|]. mrun.
  destruct (Hd 7 (key_mac ck)) as (rm & -> & ? & ?); [done..|]. mrun.
  eexists. split; [done|]. split; [|done]. split; cbn; try done. bytes_tac.
Qed.

Lemma cryptogram03_ok c ctx k :
  keys03_wf k → is_byte c → is_bytes ctx →
  ∃ d, cryptogram03 s_mode [c] ctx k = Ok d ∧ length d = s_mode ∧ is_bytes d.
Proof.
  intros [_ Hm _ _ _] Hc Hx.
  destruct (kdf_ok [c] ctx (s_mac k) (Z.of_nat s_mode)) as (bs & _ & E & Hl & Hb);
    [done|done|by constructor|done|lia|].
  unfold cryptogram03. rewrite (Z.mul_comm (Z.of_nat s_mode)), E.
  eexists. split; [done|]. unfold len in Hl. split; [lia|done].
Qed.

(** The fields of a response to INITIALIZE UPDATE. *)
Definition init_response (kdd : bytes) (ver i_param : Z) (cch ccg seq : bytes) : bytes :=
  kdd ++ [ver; 3; i_param] ++ cch ++ ccg ++ seq.

Lemma parse_iur03_ok kdd ver i_param cch ccg seq :
  length kdd = 10%nat → length cch = s_mode → length ccg = s_mode →
  parse_iur03 s_mode (init_response kdd ver i_param cch ccg seq) = Ok (cch, ccg).
Proof.
  intros Hk Hc Hg. unfold parse_iur03, init_response.
  assert (slice 11 12 (kdd ++ [ver; 3; i_param] ++ cch ++ ccg ++ seq) = [3]) as ->.
  { change ([ver; 3; i_param] ++ cch ++ ccg ++ seq) with ([ver] ++ [3] ++ [i_param] ++ cch ++ ccg ++ seq).
    rewrite (app_assoc kdd). apply slice_app_mid; rewrite ?length_app; cbn; lia. }
  rewrite bool_decide_ok by done. cbn [negb].
  rewrite (proj2 (Z.ltb_ge _ _)) by (unfold len; rewrite !length_app; cbn [length]; lia).
  rewrite (app_assoc kdd).
  rewrite (slice_app_mid (kdd ++ [ver; 3; i_param]) cch) by (rewrite ?length_app; cbn; lia).
  rewrite (app_assoc (kdd ++ [ver; 3; i_param])).
  by rewrite (slice_app_mid ((kdd ++ [ver; 3; i_param]) ++ cch) ccg) by (rewrite ?length_app; cbn; lia).
Qed.

Lemma parse_init_update_resp03_ok s hch kdd ver i_param cch ccg seq :
  host_challenge s = Some hch → keyset_wf (card_keys s) → is_bytes hch → is_bytes cch →
  length kdd = 10%nat → length cch = s_mode → length ccg = s_mode → length seq = 0%nat ∨ length seq = 3%nat →
  ∃ k cc hc, new_keys03 (card_keys s) hch cch = Ok k ∧ keys03_wf k ∧ block_nr k = 0 ∧
    cryptogram03 s_mode DERIV_CONST_AUTH_CGRAM_CARD (hch ++ cch) k = Ok cc ∧
    cryptogram03 s_mode DERIV_CONST_AUTH_CGRAM_HOST (hch ++ cch) k = Ok hc ∧
    length hc = s_mode ∧ is_bytes hc ∧ length cc = s_mode ∧
    parse_init_update_resp03 s_mode (init_response kdd ver i_param cch ccg seq) s =
      (if bool_decide (cc = ccg) then Ok () else Err ValueError,
       set_host_cryptogram hc (set_card_cryptogram cc (set_sk (Some k) (set_card_challenge cch s)))).
Proof.
  intros Hh Hck Hhb Hcb Hlk Hlc Hlg Hls.
  destruct (new_keys03_ok (card_keys s) hch cch) as (k & Ek & Hk & Hn); [done..|].
  assert (is_bytes (hch ++ cch)) as Hctx by (by apply is_bytes_app).
  destruct (cryptogram03_ok 0 (hch ++ cch) k) as (cc & Ec & Hcl & _); [done|by unfold is_byte|done|].
  destruct (cryptogram03_ok 1 (hch ++ cch) k) as (hc & Eh & Hhl & Hhcb); [done|by unfold is_byte|done|].
  exists k, cc, hc. do 8 (split; [done|]).
  unfold DERIV_CONST_AUTH_CGRAM_CARD, DERIV_CONST_AUTH_CGRAM_HOST.
  unfold parse_init_update_resp03. mrun. rewrite bool_decide_ok.
  2: { assert (len (init_response kdd ver i_param cch ccg seq) = 13 + 2 * Z.of_nat s_mode + len seq) as ->
         by (unfold init_response, len; rewrite !length_app; cbn [length]; lia).
       assert (len seq = 0 ∨ len seq = 3) by (unfold len; lia). rewrite !elem_of_cons. lia. }
  mrun. rewrite parse_iur03_ok by done. mrun. cbn [host_challenge set_card_challenge]. rewrite Hh. mrun.
  cbn [card_keys set_card_challenge]. rewrite Ek. mrun. unfold _compute_cryptograms03. mrun.
  cbn [sk host_challenge card_challenge set_sk set_card_challenge]. mrun. rewrite Hh. mrun.
  fold (cryptogram03 s_mode DERIV_CONST_AUTH_CGRAM_CARD (hch ++ cch) k).
  unfold DERIV_CONST_AUTH_CGRAM_CARD. rewrite Ec. mrun.
  fold (cryptogram03 s_mode DERIV_CONST_AUTH_CGRAM_HOST (hch ++ cch) k).
  unfold DERIV_CONST_AUTH_CGRAM_HOST. rewrite Eh. mrun.
  cbn [card_cryptogram set_host_cryptogram set_card_cryptogram].
  rewrite (bool_decide_ext (Some cc = Some ccg) (cc = ccg)) by (split; congruence). done.
Qed.

(** GlobalPlatform commands in class 8x are built by [_cla]. *)
Lemma cla_byte (s : SCP03) :
  0 <= lchan_nr s < 4 → is_byte (_cla false true s) ∧ truthy (Z.land (_cla false true s) 128) = true.
Proof. unfold _cla. generalize (lchan_nr s). apply (small_cases _ 4). by repeat constructor. Qed.

Lemma command_bytes cla ins p1 p2 data :
  is_byte cla → is_byte ins → is_byte p1 → is_byte p2 → is_bytes data → length data = s_mode →
  is_bytes ([cla; ins; p1; p2; Z.of_nat s_mode] ++ data) ∧
  apdu_of [cla; ins; p1; p2] 3 (Z.of_nat s_mode) 0 data = Some ([cla; ins; p1; p2; Z.of_nat s_mode] ++ data) ∧
  apdu_of [cla; ins; p1; p2] 4 (Z.of_nat s_mode) 256 data = Some ([cla; ins; p1; p2; Z.of_nat s_mode] ++ data ++ [0]).
Proof.
  intros Hc Hi H1 H2 Hd Hl. assert (len data = Z.of_nat s_mode) as Hl' by (unfold len; by rewrite Hl).
  split.
  - rewrite is_bytes_app. split; [|done]. unfold is_bytes. rewrite !list.Forall_cons, list.Forall_nil.
    unfold is_byte in *. split_and!; try done; lia.
  - unfold apdu_of. rewrite Hl', !Z.eqb_refl, (coded_ok (Z.of_nat s_mode)), (Z.mod_small (Z.of_nat s_mode)) by lia. done.
Qed.

Lemma init_update_apdu03_ok s hch :
  is_byte (kvn (card_keys s)) → is_bytes hch → length hch = s_mode → 0 <= lchan_nr s < 4 →
  ∃ apdu, gen_init_update_apdu03 s_mode (Some hch) s = (Ok apdu, set_host_challenge hch s) ∧
    parse_command_apdu apdu = Ok (4, Z.of_nat s_mode, 256, hch).
Proof.
  intros Hv Hb Hl Hch. destruct (cla_byte s Hch) as [Hcla _].
  destruct (command_bytes (_cla false true s) 80 (kvn (card_keys s)) 0 hch) as (Hbs & _ & E);
    try done; try by unfold is_byte.
  unfold gen_init_update_apdu03. cbn [default id]. mrun.
  assert (len hch = Z.of_nat s_mode) as Hl' by (unfold len; by rewrite Hl). rewrite Hl', Z.eqb_refl. mrun.
  rewrite bytes_of_ints_ok by (by apply is_bytes_app in Hbs as [? _]).
  mrun. eexists. split; [done|]. eapply parse_apdu_of, E.
Qed.

Lemma ext_auth_apdu03_ok s k hc level :
  valid_level level → level ≠ 0 → sk s = Some k → keys03_wf k → block_nr k = 0 → host_cryptogram s = Some hc →
  is_bytes hc → length hc = s_mode → 0 <= lchan_nr s < 4 →
  ∃ apdu k', gen_ext_auth_apdu03 s_mode level s = (Ok apdu, set_sk (Some k') (set_level level s)) ∧
    card03_authenticate s_mode hc apdu k = (Ok level, k') ∧ keys03_wf k' ∧ block_nr k' <= 1.
Proof.
  intros Hv Hnz Hs Hk Hn Hc Hb Hl Hch. destruct (cla_byte s Hch) as [Hcla H8].
  assert (is_byte level ∧ truthy (Z.land level 1) = true) as [Hlb Hl1]
    by (by destruct Hv as [<-|[<-|[<-|[<-|[<-|[<-|[]]]]]]]).
  destruct (command_bytes (_cla false true s) 130 level 0 hc) as (Hbs & E & _);
    try done; try by unfold is_byte.
  destruct (wrap_received (set_level level s) k true 1 ([_cla false true s; 130; level; 0; Z.of_nat s_mode] ++ hc)
    3 (Z.of_nat s_mode) 0 hc) as (w & k' & Ew & Er & Hk' & Hn');
    [done|by unfold do_cmac; cbn [security_level set_level]; rewrite Hl1|by rewrite andb_false_r|done|done|by rewrite Hn|..].
  { exists [_cla false true s; 130; level; 0]. split_and!; try done.
    change (has 1 2) with false. cbn [andb]. unfold len. rewrite Hl. lia. }
  exists w, k'. split_and!; [| |done|lia].
  - unfold gen_ext_auth_apdu03. mrun. cbn [security_level set_level host_cryptogram].
    rewrite bytes_of_ints_ok by (by apply is_bytes_app in Hbs as [? _]). mrun. rewrite Hc. mrun. exact Ew.
  - unfold card03_authenticate. mrun. rewrite Er. mrun. rewrite bool_decide_ok by done. mrun. done.
Qed.

Lemma apdu_256_parts h case le data apdu :
  apdu_of h case 256 le data = Some apdu → is_bytes apdu →
  ∃ cla ins p1 p2 r, h = [cla; ins; p1; p2] ∧ apdu = cla :: ins :: p1 :: p2 :: r ∧ le <= 256 ∧ len data = 256 ∧
    is_bytes h ∧ is_bytes data.
Proof.
  intros Hap Hb. unfold apdu_of in Hap. destruct (Z.eqb_spec (len h) 4) as [El|]; [|done].
  destruct h as [|cla [|ins [|p1 [|p2 [|]]]]]; try (unfold len in El; cbn in El; lia).
  cbn [negb] in Hap. unfold coded in Hap.
  destruct (Z.eqb_spec case 1) as [->|]; [|destruct (Z.eqb_spec case 2) as [->|];
      [|destruct (Z.eqb_spec case 3) as [->|]; [|destruct (Z.eqb_spec case 4) as [->|]; [|done]]]];
    destruct (_ && _) eqn:Ec in Hap; try done; injection Hap as <-;
    rewrite !andb_true_iff, ?Z.eqb_eq, ?bool_decide_eq_true in Ec; destruct Ec as [[? ?] ?]; try lia;
    change (cla :: ins :: p1 :: p2 :: ?r) with ([cla; ins; p1; p2] ++ r) in Hb;
    cbn [app] in Hb; unfold is_bytes in *; rewrite !list.Forall_cons, ?list.Forall_app in Hb;
    eexists _, _, _, _, _; split_and!; try reflexivity; try lia; rewrite ?list.Forall_cons, ?list.Forall_nil; tauto.
Qed.

(** C18: the host authenticates the card: a response to INITIALIZE UPDATE is
    accepted exactly when its cryptogram is the one the card keys and both
    challenges give, and the session then has fresh keys derived from them. *)
Theorem scp03_card_authenticated s hch kdd ver i_param cch ccg seq :
  host_challenge s = Some hch → keyset_wf (card_keys s) → is_bytes hch → is_bytes cch →
  length kdd = 10%nat → length cch = s_mode → length ccg = s_mode → length seq = 0%nat ∨ length seq = 3%nat →
  ∃ k cc s', new_keys03 (card_keys s) hch cch = Ok k ∧
    cryptogram03 s_mode DERIV_CONST_AUTH_CGRAM_CARD (hch ++ cch) k = Ok cc ∧
    parse_init_update_resp03 s_mode (init_response kdd ver i_param cch ccg seq) s =
      (if bool_decide (cc = ccg) then Ok () else Err ValueError, s') ∧ sk s' = Some k.
Proof.
  intros. destruct (parse_init_update_resp03_ok s hch kdd ver i_param cch ccg seq)
    as (k & cc & hc & Ek & _ & _ & Ec & _ & _ & _ & _ & E); [done..|]. eauto 8.
Qed.

(** C8: opening a session under SCP03. With a card that has the same keys, the
    handshake of INITIALIZE UPDATE and EXTERNAL AUTHENTICATE succeeds: each
    side accepts the other's cryptogram, the card sees the requested level,
    and the two sides are in step with a fresh encryption counter, which is
    where sessions start. *)
Theorem scp03_handshake ck hch cch kdd i_param level s :
  card_keys s = ck → keyset_wf ck → is_bytes hch → is_bytes cch → 0 <= lchan_nr s < 4 →
  length hch = s_mode → length cch = s_mode → length kdd = 10%nat → valid_level level → level ≠ 0 →
  ∃ st, handshake s_mode ck hch kdd i_param cch level s = Ok (level, st) ∧ in_sync level st ∧ block_nr st.2 <= 1.
Proof.
  intros <- Hck Hhb Hcb Hch Hlh Hlc Hlk Hv Hnz.
  destruct (init_update_apdu03_ok s hch) as (apdu & E1 & Ep); [apply Hck|done..|].
  set (s1 := set_host_challenge hch s) in *.
  assert (∀ ccg, length ccg = s_mode → _) as Hpr
    by (intros ccg Hg; exact (parse_init_update_resp03_ok s1 hch kdd (kvn (card_keys s)) i_param cch ccg []
          eq_refl Hck Hhb Hcb Hlk Hlc Hg (or_introl eq_refl))).
  destruct (Hpr (replicate s_mode 0)) as (k & cc & hc & Ek & Hk & Hn & Ec & Eh & Hlhc & Hbhc & Hlcc & _);
    [by rewrite length_replicate|].
  destruct (Hpr cc Hlcc) as (k2 & cc2 & hc2 & Ek2 & _ & _ & Ec2 & Eh2 & _ & _ & _ & E2).
  rewrite Ek in Ek2. injection Ek2 as <-. rewrite Ec in Ec2. injection Ec2 as <-. rewrite Eh in Eh2. injection Eh2 as <-.
  rewrite bool_decide_ok in E2 by done.
  set (s2 := set_host_cryptogram _ _) in E2.
  destruct (ext_auth_apdu03_ok s2 k hc level) as (w & k' & E3 & E4 & Hk' & Hn'); try done.
  exists (set_sk (Some k') (set_level level s2), k'). split; [|done].
  unfold handshake. rewrite E1. mrun. unfold card03_open. rewrite Ep. mrun. cbn [card_keys s1 set_host_challenge] in Ek.
  rewrite Ek. mrun. rewrite Ec. mrun. rewrite Eh. mrun.
  unfold init_response in E2. rewrite app_nil_r in E2. rewrite E2. mrun. rewrite E3. mrun. by rewrite E4.
Qed.

(** C1: secure channel sessions under SCP03. Host and card start with the same
    session keys at one of the defined security levels; then through any
    sequence of exchanges the card accepts every wrapped command and reads
    its instruction, parameters and data, the host accepts every protected response and reads its data,
    and they stay in step, as long as the data fits and the 128-bit
    encryption counter does not run out. *)
Theorem scp03_session level xs drs st :
  valid_level level → in_sync level st → Forall2 (carries level) xs drs →
  block_nr st.2 + len xs + 1 < 256 ^ 16 →
  ∃ st', map_m (exchange s_mode level) xs st = (Ok drs, st') ∧ in_sync level st'.
Proof.
  intros Hv Hst Hx. revert st Hst. induction Hx as [|x dr xs drs Hx _ IH]; intros st Hst Hn.
  { by exists st. }
  rewrite len_cons in Hn. pose proof (len_nonneg xs).
  destruct (exchange_ok level x dr st) as (st1 & E1 & Hst1 & Hn1); [done..|lia|].
  destruct (IH st1) as (st2 & E2 & Hst2); [done|lia|].
  exists st2. split; [|done]. cbn [map_m]. mrun. rewrite E1. mrun. by rewrite E2.
Qed.

(** 256 bytes of command data without C-ENC. The length is masked to 0
    before the check that it leaves room for the MAC, so the command is
    wrapped all the same, with an Lc of [s_mode] that does not fit the data:
    the result is no command APDU. *)
Theorem wrap_256_malformed s k h case le data apdu :
  sk s = Some k → keys03_wf k → do_cmac s = true → do_cenc s = false →
  apdu_of h case 256 le data = Some apdu → is_bytes apdu → truthy (Z.land (default 0 (head h)) 128) = true →
  ∃ w s', wrap_cmd_apdu (_wrap_cmd_apdu03 s_mode false) apdu s = (Ok w, s') ∧ parse_command_apdu w = Err ValueError.
Proof.
  intros Hs Hk Hm He Hap Hb Hgp.
  assert (parse_command_apdu apdu = Ok (case, 256, le, data)) as Hp by (by eapply parse_apdu_of).
  destruct (apdu_256_parts h case le data apdu) as (cla & ins & p1 & p2 & r & -> & -> & Hle & Hd & Hbh & Hbd); [done..|].
  cbn [default head id] in Hgp.
  rewrite (wrap_cmd_apdu03_eq s k false) with (case := case) (lc := 256) (le := le) (data := data) by (done || lia).
  change (Z.land 256 255) with 0. unfold host03_data. rewrite M_bind_eq. mrun. rewrite He. cbn [andb]. mrun.
  rewrite (proj2 (Z.leb_gt 256 _)) by lia. cbn [negb]. mrun.
  set (h' := [Z.lor (Z.land cla 240) CLA_SM; ins; p1; p2]).
  assert (is_bytes h') as Hh'.
  { unfold is_bytes, h' in *. rewrite list.Forall_cons in *. split; [apply mcla_byte|]; tauto. }
  change ([Z.lor (Z.land cla 240) CLA_SM; ins; p1; p2; 0 + Z.of_nat s_mode]) with (h' ++ [Z.of_nat s_mode]).
  assert (is_bytes (h' ++ [Z.of_nat s_mode])) as Hhb.
  { rewrite is_bytes_app. split; [done|]. constructor; [|done]. unfold is_byte. lia. }
  rewrite bytes_of_ints_ok by done. mrun.
  destruct (calc_cmac_ok k ((h' ++ [Z.of_nat s_mode]) ++ data)) as (c & Ec & Hlc & _); [done|by rewrite is_bytes_app|].
  rewrite (with_sk_eq _ _ _ _ _ Hs Ec). mrun. eexists _, _. split; [reflexivity|].
  assert (∀ t, len t <= 1 → parse_command_apdu ((((h' ++ [Z.of_nat s_mode]) ++ data) ++ take s_mode c) ++ t) = Err ValueError) as Hbad.
  { intros t Ht. rewrite <- !app_assoc. pose proof (len_nonneg t).
    assert (len (take s_mode c) = Z.of_nat s_mode) as Hlm by (unfold len; by rewrite take_mode_length).
    change (h' ++ [Z.of_nat s_mode] ++ data ++ take s_mode c ++ t) with (h' ++ Z.of_nat s_mode :: data ++ take s_mode c ++ t).
    rewrite parse_long by (done || (rewrite !len_app; lia)). cbn zeta.
    assert (coded_len (Z.of_nat s_mode) = Z.of_nat s_mode) as -> by (by destruct Hmode as [->| ->]).
    rewrite !len_app. rewrite !(proj2 (Z.eqb_neq _ _)) by lia. done. }
  destruct (_ || _); [by apply (Hbad [0])|]. rewrite <- (app_nil_r (_ ++ take s_mode c)). by apply (Hbad []).
Qed.

End facts03.

(** ** Wrapping of keys under the DEK *)

Section key_facts.
Context `{CryptodomeLaws} `{OsmocomTlvLaws}.
Implicit Types s : SCP03.

(** A key of whole blocks encrypted under the DEK decrypts to itself. *)
Theorem encrypt_key_round_trip s k key :
  sk s = Some k → length (key_dek (card_keys s)) = 16%nat → is_bytes key → blocks 16 key →
  ∃ c, encrypt_key blocksize03 (dek_encrypt03 s) key s = Ok c ∧ decrypt_key blocksize03 (dek_decrypt03 s) c s = Ok key.
Proof.
  intros Hs Hk Hb Hbl. unfold encrypt_key, decrypt_key, dek_encrypt03, dek_decrypt03, blocksize03. rewrite Hs. mrun.
  destruct (aes_cbc_encrypt_ok (key_dek (card_keys s)) (replicate 16 0) key) as (c & Ec & Hl & _ & Ed); [done..|].
  apply blocks_mod in Hbl; [|done]. exists c. rewrite Ec, Hbl, Hl, Hbl. cbn [Nat.eqb negb]. mrun. by rewrite Ed.
Qed.

(** A key that is not whole blocks does not survive: [encrypt_key] appends
    [len mod 16] instead of [16 - len mod 16] bytes, so that it either raises
    ValueError or gives a block, length field first, whose decryption does. *)
Theorem unaligned_key_not_recovered s k key :
  sk s = Some k → length (key_dek (card_keys s)) = 16%nat → is_bytes key → ¬ blocks 16 key → len key < 128 →
  encrypt_key blocksize03 (dek_encrypt03 s) key s = Err ValueError ∨
  ∃ c, encrypt_key blocksize03 (dek_encrypt03 s) key s = Ok c ∧
       decrypt_key blocksize03 (dek_decrypt03 s) c s = Err ValueError.
Proof.
  intros Hs Hk Hb Hbl Hl. rewrite blocks_mod in Hbl by done. pose proof (len_nonneg key).
  unfold encrypt_key, decrypt_key, dek_encrypt03, dek_decrypt03, blocksize03. rewrite Hs. mrun.
  rewrite (proj2 (Nat.eqb_neq _ _)) by done. cbn [negb].
  set (pad := key ++ replicate (length key mod 16) 0).
  destruct (decide (length pad mod 16 = 0)%nat) as [Hp|Hp].
  - right. apply blocks_mod in Hp; [|done].
    destruct (aes_cbc_encrypt_ok (key_dek (card_keys s)) (replicate 16 0) pad) as (c & Ec & Hlc & _ & _);
      [done|done|apply is_bytes_app; split; [done|apply is_bytes_replicate; bytes_tac]|done|].
    rewrite Ec. mrun. eexists. split; [done|]. mrun. rewrite encode_len_short by lia.
    apply blocks_mod in Hp; [|done].
    assert (length ([len key] ++ c) mod 16 ≠ 0)%nat as Hu.
    { cbn [app length]. rewrite Hlc. pose proof (Nat.div_mod_eq (length pad) 16). rewrite Hp in *.
      intros E. pose proof (Nat.div_mod_eq (S (length pad)) 16). lia. }
    rewrite (proj2 (Nat.eqb_neq _ _)) by done. cbn [negb].
    rewrite aes_cbc_decrypt_unaligned by (by rewrite blocks_mod). done.
  - left. rewrite aes_cbc_unaligned by (by rewrite blocks_mod). done.
Qed.
End key_facts.

(** ** Concrete runs *)

Module ScpRun.
Import Ref RefCrypto.
Definition hb (n : Z) (k : nat) : bytes := replicate k n.
Definition ks : GpCardKeyset := mkKeyset 48 (hb 1 16) (hb 2 16) (hb 3 16).
Definition k0 : Scp03SessionKeys := mkKeys03 (hb 4 16) (hb 5 16) (hb 6 16) (hb 0 16) 0.
Definition s0 : SCP03 := mkScp 0 ks None false 0 None None None None.
Definition s_level (l : Z) : SCP03 := set_level l (set_sk (Some k0) s0).

Lemma ks_wf : keyset_wf ks.
Proof. split; [by apply (bool_decide_unpack _); vm_compute|done..]. Qed.

Lemma k0_wf : keys03_wf k0.
Proof. split; try done. by apply (bool_decide_unpack _); vm_compute. Qed.

Ltac run_bytes := by apply (bool_decide_unpack _); vm_compute.

Lemma scp03_key_derivation_spec_witness :
  ∃ bs, map_r (kdf_block (hb 1 16) (replicate 11 0 ++ [4] ++ [0] ++ be 2 (8 * 40)) (hb 9 16))
          (seqZ 1 (blocks_for 40)) = Ok bs ∧
    scp03_key_derivation [4] (hb 9 16) (hb 1 16) (Some (8 * 40)) = Ok (take 40 (concat bs)) ∧
    len (take 40 (concat bs)) = 40.
Proof. apply (scp03_key_derivation_spec [4] (hb 9 16) (hb 1 16) 40); try done; run_bytes. Defined.

Lemma scp03_card_authenticated_witness :
  ∃ k cc s', new_keys03 ks (hb 7 8) (hb 8 8) = Ok k ∧
    cryptogram03 8 DERIV_CONST_AUTH_CGRAM_CARD (hb 7 8 ++ hb 8 8) k = Ok cc ∧
    parse_init_update_resp03 8 (init_response (hb 0 10) 48 96 (hb 8 8) (hb 1 8) []) (set_host_challenge (hb 7 8) s0) =
      (if bool_decide (cc = hb 1 8) then Ok () else Err ValueError, s') ∧ sk s' = Some k.
Proof.
  apply (scp03_card_authenticated 8 (or_introl eq_refl) (set_host_challenge (hb 7 8) s0) (hb 7 8));
    [done|exact ks_wf|run_bytes|run_bytes|done|done|done|by left].
Defined.

Lemma scp03_handshake_witness :
  ∃ st, handshake 8 ks (hb 7 8) (hb 0 10) 96 (hb 8 8) 51 s0 = Ok (51, st) ∧ in_sync 51 st ∧ block_nr st.2 <= 1.
Proof.
  apply (scp03_handshake 8 (or_introl eq_refl) ks (hb 7 8) (hb 8 8) (hb 0 10) 96 51 s0);
    [done|exact ks_wf|run_bytes|run_bytes|done|done|done|done|by cbn; tauto|done].
Defined.

(** STORE DATA with five bytes, a warning and an answer; then GET STATUS
    without data, and an error. *)
Lemma scp03_session_witness :
  ∃ st', map_m (exchange 8 51)
    [mkExchange ([128; 226; 0; 1; 5] ++ [1; 2; 3; 4; 5] ++ [0]) [98; 0] [9; 9];
     mkExchange [128; 242; 128; 0; 0] [106; 136] []] (s_level 51, k0)
    = (Ok [(([226; 0; 1], [1; 2; 3; 4; 5]), [9; 9]); (([242; 128; 0], []), [])], st') ∧ in_sync 51 st'.
Proof.
  apply (scp03_session 8 (or_introl eq_refl) 51); [by cbn; tauto|split; [done|split; [done|exact k0_wf]]|..|done].
  constructor; [|constructor; [|constructor]].
  - split; [done|]. split; [|split_and!; try done; run_bytes].
    exists 4, 5, 256, [128; 226; 0; 1]. split_and!; try done; run_bytes.
  - split; [done|]. split; [|split_and!; try done; run_bytes].
    exists 2, 0, 256, [128; 242; 128; 0]. split_and!; try done; run_bytes.
Defined.

Lemma wrap_256_malformed_witness :
  ∃ w s', wrap_cmd_apdu (_wrap_cmd_apdu03 8 false) ([128; 226; 0; 1] ++ [0] ++ hb 7 256) (s_level 1) = (Ok w, s') ∧
    parse_command_apdu w = Err ValueError.
Proof.
  apply (wrap_256_malformed 8 (or_introl eq_refl) (s_level 1) k0 [128; 226; 0; 1] 3 0 (hb 7 256));
    [done|exact k0_wf|done|done|by vm_compute|run_bytes|done].
Defined.

Lemma encrypt_key_round_trip_witness :
  ∃ c, encrypt_key blocksize03 (dek_encrypt03 (s_level 1)) (hb 9 32) (s_level 1) = Ok c ∧
    decrypt_key blocksize03 (dek_decrypt03 (s_level 1)) c (s_level 1) = Ok (hb 9 32).
Proof. apply (encrypt_key_round_trip (s_level 1) k0); [done|done|run_bytes|by exists 2%nat]. Defined.

Lemma unaligned_key_not_recovered_witness :
  encrypt_key blocksize03 (dek_encrypt03 (s_level 1)) (hb 9 24) (s_level 1) = Err ValueError ∨
  ∃ c, encrypt_key blocksize03 (dek_encrypt03 (s_level 1)) (hb 9 24) (s_level 1) = Ok c ∧
    decrypt_key blocksize03 (dek_decrypt03 (s_level 1)) c (s_level 1) = Err ValueError.
Proof.
  apply (unaligned_key_not_recovered (s_level 1) k0); [done|done|run_bytes|by rewrite blocks_mod|done].
Defined.
End ScpRun.
