(* ===== verification/Transport.v ===== *)
(** pySim/transport/__init__.py: the link to a card. APDUs are checked,
    turned into the TPDUs of T=0 with their automatic GET RESPONSE, and
    proactive commands of the card are fetched and answered. *)

From S2P Require Import Prelude Osmocom Utils.

(** A response: data and status word, both hex strings. A link layer that
    gets no status word hands on None. *)
Abbreviation rsp := (str * option str)%type.

(** [sw_match] of a status word that may be None, which has no [lower]. *)
Definition sw_match_opt (sw : option str) (pattern : str) : result bool :=
  s ← from_opt AttributeError sw; sw_match s pattern.

(** ** Proactive commands

    The children of a proactive command and of a response to one
    (pySim/cat.py): the two kinds that [prepare_response] looks at, the
    Result it makes, and any other. *)
Inductive cat_ie :=
| CommandDetails (v : bytes)
| DeviceIdentities (source_dev_id dest_dev_id : Z)
| Result (general_result additional_information : str)
| OtherIe (tag : Z) (v : bytes).

(** A decoded proactive command: the name of its class and its children. *)
Record ProactiveCommand := mkPcmd { pcmd_class : str; pcmd_children : list cat_ie }.

(** The TLV codec of these classes (osmocom.tlv and construct). *)
Class CatTlv := {
  pcmd_from_tlv : bytes → result ProactiveCommand;
  ie_to_tlv : cat_ie → result bytes;
}.

Definition is_command_details (c : cat_ie) : bool := match c with CommandDetails _ => true | _ => false end.
Definition is_device_identities (c : cat_ie) : bool := match c with DeviceIdentities _ _ => true | _ => false end.

(** [(x,) = l] *)
Definition the_only {A} (l : list A) : result A := match l with [x] => Ok x | _ => Err ValueError end.

Definition swap_identities (c : cat_ie) : cat_ie :=
  match c with DeviceIdentities s d => DeviceIdentities d s | _ => c end.

Definition prepare_response (pcmd : ProactiveCommand) (general_result : str) : result (list cat_ie) :=
  command_details ← the_only (filter (λ c, is_command_details c = true) (pcmd_children pcmd));
  command_dev_ids ← the_only (filter (λ c, is_device_identities c = true) (pcmd_children pcmd));
  Ok [command_details; swap_identities command_dev_ids; Result general_result []].

Section transport.
Context `{OsmocomUtils, CatTlv} {W : Type} (send_tpdu : str → M W rsp).

(** A subclass of ProactiveHandler: its [handle_...] methods by name and,
    where it overrides it, [receive_fetch]. *)
Record ProactiveHandler := mkHandler {
  handle_methods : gmap str (ProactiveCommand → M W (list cat_ie));
  receive_fetch_method : option (ProactiveCommand → M W (list cat_ie)) }.

Definition receive_fetch (h : ProactiveHandler) (pcmd : ProactiveCommand) : M W (list cat_ie) :=
  match receive_fetch_method h with Some m => m pcmd | None => raise NotImplementedError end.

Definition receive_fetch_raw (h : ProactiveHandler) (pcmd : ProactiveCommand) : M W (list cat_ie) :=
  match handle_methods h !! (lit "handle_" ++ pcmd_class pcmd) with
  | Some handler => handler pcmd
  | None => receive_fetch h pcmd
  end.

(** [LinkBase] and [LinkBaseTpdu]; [card] is all that the reader and the
    card remember. *)
Record Link := mkLink {
  proactive_handler : option ProactiveHandler; apdu_strict : bool; protocol : Z; card : W }.

Definition with_card (w : W) (l : Link) : Link := mkLink (proactive_handler l) (apdu_strict l) (protocol l) w.

Definition set_tpdu_format (p : Z) : M Link unit :=
  modify (λ l, mkLink (proactive_handler l) (apdu_strict l) p (card l)).

Definition on_card {A} : M W A → M Link A := zoom card with_card.

(** [while sw[0:2] in ['9f', '61', '62', '63']]: the loop ends when the card
    says so, hence the fuel. *)
Definition more_data (sw : str) : bool :=
  bool_decide (take 2 sw ∈ [lit "9f"; lit "61"; lit "62"; lit "63"]).

Fixpoint get_response (fuel : nat) (tpdu prev_tpdu data : str) (sw : option str) : M W (str * option str * str) :=
  match sw with
  | Some s =>
      if more_data s then
        match fuel with
        | O => raise OutOfFuel
        | S f =>
            let tpdu_gr := slice 0 2 tpdu ++ lit "c00000" ++ slice 2 4 s in
            '(d, sw) ← send_tpdu tpdu_gr;
            get_response f tpdu tpdu_gr (data ++ d) sw
        end
      else mret (data, sw, prev_tpdu)
  | None => raise TypeError
  end.

Definition __send_apdu_T0 (fuel : nat) (apdu : str) : M W rsp :=
  b ← lift (h2b apdu);
  '(case, _, _, _) ← lift (parse_command_apdu b);
  let tpdu := if case =? 1 then apdu ++ lit "00"
              else if case =? 4 then but_last 2 apdu
              else apdu in
  '(data, sw) ← send_tpdu tpdu;
  match sw with
  | None => mret (data, None)
  | Some _ =>
      '(data, sw, prev_tpdu) ← get_response fuel tpdu tpdu data sw;
      s ← lift (from_opt TypeError sw);
      if bool_decide (take 2 s = lit "6c") then
        send_tpdu (take 8 prev_tpdu ++ slice 2 4 s)
      else mret (data, sw)
  end.

Definition __send_apdu_transparent (apdu : str) : M W rsp := send_tpdu apdu.

Definition _send_apdu (fuel : nat) (apdu : str) : M Link rsp :=
  l ← get;
  if protocol l =? 0 then on_card (__send_apdu_T0 fuel apdu)
  else if protocol l =? 1 then on_card (__send_apdu_transparent apdu)
  else raise ValueError.

Definition send_apdu (fuel : nat) (apdu : str) : M Link rsp :=
  b ← lift (h2b apdu);
  '(case, _, _, _) ← lift (parse_command_apdu b);
  '(data, sw) ← _send_apdu fuel apdu;
  l ← get;
  if (0 <? len data) && ((case =? 3) || (case =? 1)) && apdu_strict l then raise ValueError
  else mret (data, sw).

(** What is sent back for a fetched proactive command. *)
Definition answer_proactive (pcmd : ProactiveCommand) : M Link (list cat_ie) :=
  l ← get;
  match proactive_handler l with
  | Some h =>
      ti_list ← on_card (receive_fetch_raw h pcmd);
      match ti_list with
      | [] => lift (prepare_response pcmd (lit "FIXME"))
      | _ => mret ti_list
      end
  | None => raise AttributeError
  end.

Definition proactive_pending (sw : str) (last_sw : option str) : result bool :=
  if bool_decide (sw = lit "9000") then sw_match_opt last_sw (lit "91xx") else Ok false.

Definition terminal_response (tail : bytes) : result str :=
  n ← to_bytes 1 (len tail);
  Ok (lit "80140000" ++ b2h (n ++ tail)).

Definition drop_opt (n : nat) (s : option str) : result str := from_opt TypeError (drop n <$> s).

(** The loop of [send_apdu_checksw] over the commands the card announces;
    [checksw] is its own recursive call, for FETCH. *)
Fixpoint proactive_loop (checksw : str → str → M Link rsp) (send : str → M Link rsp) (sw : str)
    (n : nat) (rv : rsp) (last_sw : option str) : M Link rsp :=
  more ← lift (proactive_pending sw last_sw);
  if negb more then mret rv
  else match n with
  | O => raise OutOfFuel
  | S n' =>
      length_ ← lift (drop_opt 2 last_sw);
      fetch_rv ← checksw (lit "80120000" ++ length_) sw;
      b ← lift (h2b fetch_rv.1);
      pcmd ← lift (pcmd_from_tlv b);
      ti_list ← answer_proactive pcmd;
      ti_list_bin ← lift (map_r ie_to_tlv ti_list);
      tr ← lift (terminal_response (concat ti_list_bin));
      terminal_response_rv ← send tr;
      proactive_loop checksw send sw n' (rv.1, Some (lit "9000")) terminal_response_rv.2
  end.

(** It ends when the card has no more proactive commands, hence the fuel. *)
Fixpoint send_apdu_checksw (fuel : nat) (apdu sw : str) : M Link rsp :=
  match fuel with
  | O => raise OutOfFuel
  | S f =>
      rv ← send_apdu f apdu;
      rv ← proactive_loop (send_apdu_checksw f) (send_apdu f) sw f rv rv.2;
      ok ← lift (sw_match_opt rv.2 sw);
      if (ok : bool) then mret rv
      else s ← lift (from_opt AttributeError rv.2); raise (SwMatchError s (str_lower sw))
  end.
End transport.
Arguments Link : clear implicits.
Arguments ProactiveHandler : clear implicits.

(** ** Hex strings *)

Lemma bytes_hex_take n l : take (2 * n) (bytes_hex l) = bytes_hex (take n l).
Proof.
  revert l. induction n as [|n IH]; intros l; [done|]. destruct l as [|b l]; [done|].
  rewrite bytes_hex_cons, hexw2. cbn [take]. rewrite bytes_hex_cons, hexw2, <- IH.
  by replace (2 * S n)%nat with (S (S (2 * n))) by lia.
Qed.

Lemma bytes_hex_drop n l : drop (2 * n) (bytes_hex l) = bytes_hex (drop n l).
Proof.
  revert l. induction n as [|n IH]; intros l; [done|]. destruct l as [|b l]; [done|].
  rewrite bytes_hex_cons, hexw2. cbn [drop]. rewrite <- IH.
  by replace (2 * S n)%nat with (S (S (2 * n))) by lia.
Qed.

Lemma bytes_hex_slice a b l : slice (2 * a) (2 * b) (bytes_hex l) = bytes_hex (slice a b l).
Proof.
  unfold slice. rewrite bytes_hex_drop. replace (2 * b - 2 * a)%nat with (2 * (b - a))%nat by lia.
  apply bytes_hex_take.
Qed.

Lemma bytes_hex_but_last n l : but_last (2 * n) (bytes_hex l) = bytes_hex (but_last n l).
Proof.
  unfold but_last. rewrite length_bytes_hex.
  replace (2 * length l - 2 * n)%nat with (2 * (length l - n))%nat by lia. apply bytes_hex_take.
Qed.

Lemma hex_eq_iff l k : is_bytes l → is_bytes k → bytes_hex l = bytes_hex k ↔ l = k.
Proof. intros Hl Hk. split; [by apply bytes_hex_inj|by intros ->]. Qed.

(** ** The T=0 card

    The behaviour of a card towards a T=0 terminal (ETSI TS 102 221, 7.3.1.1)
    around the commands proper: [exec] is what a command does, as header and
    data to response data and status word. The card keeps response data back
    until GET RESPONSE asks for it, and answers 6Cxx to a wrong length. *)
Section t0_card.
Context {S : Type} (exec : bytes → bytes → S → (bytes * bytes) * S).

Record T0Card := mkT0 { core : S; pending : bytes; final_sw : bytes }.

Definition sw_more (r : bytes) : bytes := [97; if 256 <=? len r then 0 else len r].
Definition wrong_length : bytes := [103; 0].

Definition t0_get_response (p3 : Z) (c : T0Card) : (bytes * bytes) * T0Card :=
  let n := Z.to_nat (coded_len p3) in
  let rest := drop n (pending c) in
  if bool_decide (rest = []) then ((pending c, final_sw c), mkT0 (core c) [] [])
  else ((take n (pending c), sw_more rest), mkT0 (core c) rest (final_sw c)).

Definition t0_command (h : bytes) (p3 : Z) (data : bytes) (c : T0Card) : (bytes * bytes) * T0Card :=
  let '((r, sw), s') := exec h data (core c) in
  if bool_decide (r = []) then (([], sw), mkT0 s' [] [])
  else match data with
  | [] => if coded_len p3 =? len r then ((r, sw), mkT0 s' [] []) else (([], [108; len r mod 256]), c)
  | _ => (([], sw_more r), mkT0 s' r sw)
  end.

Definition t0_step (tpdu : bytes) (c : T0Card) : (bytes * bytes) * T0Card :=
  match tpdu with
  | cla :: ins :: p1 :: p2 :: p3 :: data =>
      if ins =? 192 then t0_get_response p3 c
      else if bool_decide (data = []) || (len data =? coded_len p3) then t0_command [cla; ins; p1; p2] p3 data c
      else (([], wrong_length), c)
  | _ => (([], wrong_length), c)
  end.

Definition t0_run `{OsmocomUtils} (b : bytes) : M T0Card rsp := λ c,
  let '((d, sw), c') := t0_step b c in (Ok (b2h d, Some (b2h sw)), c').

Definition t0_send `{OsmocomUtils} (tpdu : str) : M T0Card rsp := b ← lift (h2b tpdu); t0_run b.
End t0_card.
Arguments T0Card : clear implicits.
Arguments mkT0 {S}.

(** Status words that end a command: neither data to fetch nor a wrong
    length. *)
Definition ends_command (sw : bytes) : Prop :=
  ∃ a b, sw = [a; b] ∧ is_bytes sw ∧ a ∉ [159; 97; 98; 99; 108].

(** A response the case of the command allows. *)
Definition response_fits (case : Z) (r : bytes) : Prop :=
  is_bytes r ∧ (case = 1 ∨ case = 3 → r = []) ∧ (case = 2 → len r <= 256).

Section t0_facts.
Context `{OsmocomUtilsLaws} {S : Type} (exec : bytes → bytes → S → (bytes * bytes) * S).
Notation send := (t0_send exec).

Lemma t0_send_eq tpdu c :
  is_bytes tpdu →
  send (bytes_hex tpdu) c =
  let '((d, sw), c') := t0_step exec tpdu c in (Ok (b2h d, Some (b2h sw)), c').
Proof. intros Hb. unfold t0_send. rewrite <- b2h_hex by done. mrun. by rewrite h2b_b2h. Qed.

Lemma more_data_hex a b :
  is_bytes [a; b] → more_data (bytes_hex [a; b]) = bool_decide (a ∈ [159; 97; 98; 99]).
Proof.
  intros Hb. unfold more_data. rewrite (bytes_hex_take 1 [a; b] : take 2 _ = bytes_hex [a]).
  assert (is_bytes [a]) as Ha by (unfold is_bytes in *; rewrite !list.Forall_cons in *; tauto).
  apply bool_decide_ext. rewrite !elem_of_cons, !elem_of_nil.
  change (lit "9f") with (bytes_hex [159]). change (lit "61") with (bytes_hex [97]).
  change (lit "62") with (bytes_hex [98]). change (lit "63") with (bytes_hex [99]).
  rewrite !hex_eq_iff by (done || bytes_tac). naive_solver.
Qed.

Lemma sw_more_bytes r : is_bytes (sw_more r).
Proof.
  unfold sw_more. pose proof (len_nonneg r). destruct (Z.leb_spec 256 (len r)); bytes_tac.
Qed.

(** GET RESPONSE empties the card, however long the response. *)
Lemma get_response_drains fuel : ∀ cla tpdu prev data r sw c,
  (length r <= 256 * fuel)%nat → is_bytes (cla :: tpdu) → is_bytes r → r ≠ [] → ends_command sw →
  pending c = r → final_sw c = sw →
  ∃ prev', get_response send fuel (bytes_hex (cla :: tpdu)) prev data (Some (bytes_hex (sw_more r))) c
    = (Ok (data ++ bytes_hex r, Some (bytes_hex sw), prev'), mkT0 (core c) [] []).
Proof.
  induction fuel as [|fuel IH]; intros cla tpdu prev data r sw c Hf Hb Hr Hne Hsw Hp Hs.
  { destruct r; [done|cbn in Hf; lia]. }
  set (x := if 256 <=? len r then 0 else len r). pose proof (len_nonneg r).
  assert (is_byte x) as Hx by (unfold is_byte, x; destruct (Z.leb_spec 256 (len r)); lia).
  cbn [get_response]. change (sw_more r) with [97; x].
  rewrite more_data_hex by apply (sw_more_bytes r). rewrite (bool_decide_ok (97 ∈ _)) by set_solver.
  assert (slice 0 2 (bytes_hex (cla :: tpdu)) ++ lit "c00000" ++ slice 2 4 (bytes_hex [97; x])
    = bytes_hex [cla; 192; 0; 0; x]) as ->.
  { rewrite (bytes_hex_slice 0 1 (cla :: tpdu) : slice 0 2 _ = bytes_hex [cla]).
    rewrite (bytes_hex_slice 1 2 [97; x] : slice 2 4 _ = bytes_hex [x]).
    change (lit "c00000") with (bytes_hex [192; 0; 0]). by rewrite <- !bytes_hex_app. }
  rewrite M_bind_eq, t0_send_eq.
  2: { unfold is_bytes in *. rewrite !list.Forall_cons in *. split_and!; try tauto; by unfold is_byte. }
  cbn [t0_step]. rewrite (proj2 (Z.eqb_eq 192 192)) by done. unfold t0_get_response. rewrite Hp, Hs.
  set (n := Z.to_nat (coded_len x)).
  assert (n = 256%nat ∧ (256 <= length r)%nat ∨ n = length r) as Hn.
  { unfold n, coded_len, x, len. destruct (Z.leb_spec 256 (Z.of_nat (length r))); cbn; [left; lia|right].
    destruct (Z.eqb_spec (Z.of_nat (length r)) 0); [destruct r; [done|cbn in *; lia]|lia]. }
  destruct (bool_decide (drop n r = [])) eqn:Ed.
  - destruct Hsw as (a & b & -> & Hsb & Ha).
    rewrite !b2h_hex by done. destruct fuel; cbn [get_response];
      rewrite more_data_hex, bool_decide_eq_false_2 by (done || set_solver); by eexists.
  - apply bool_decide_eq_false in Ed.
    assert (n = 256%nat) as En by (destruct Hn as [[-> _]| ->]; [done|by rewrite drop_all in Ed]).
    destruct (IH cla tpdu (bytes_hex [cla; 192; 0; 0; x]) (data ++ bytes_hex (take n r)) (drop n r) sw
      (mkT0 (core c) (drop n r) sw)) as (prev' & E); try done.
    { rewrite length_drop. lia. }
    { by apply is_bytes_drop. }
    exists prev'. rewrite !b2h_hex by (try apply sw_more_bytes; by apply is_bytes_take). rewrite E. cbn [core].
    by rewrite <- app_assoc, <- bytes_hex_app, take_drop.
Qed.

(** The TPDU of an APDU, and how the card reads it. *)
Definition tpdu_of (h : bytes) (case lc le : Z) (data : bytes) : bytes :=
  if case =? 1 then h ++ [0] else if case =? 2 then h ++ [le mod 256] else h ++ [lc mod 256] ++ data.

Lemma tpdu_hex h case lc le data apdu :
  apdu_of h case lc le data = Some apdu →
  (if case =? 1 then bytes_hex apdu ++ lit "00"
   else if case =? 4 then but_last 2 (bytes_hex apdu) else bytes_hex apdu) = bytes_hex (tpdu_of h case lc le data).
Proof.
  unfold apdu_of, tpdu_of. destruct (len h =? 4); [|done]. cbn [negb].
  destruct (Z.eqb_spec case 1) as [->|]; [|destruct (Z.eqb_spec case 2) as [->|];
    [|destruct (Z.eqb_spec case 3) as [->|]; [|destruct (Z.eqb_spec case 4) as [->|]; [|done]]]];
    destruct (_ && _); try done; intros [= <-]; cbn [Z.eqb Pos.eqb]; try done.
  - by rewrite bytes_hex_app.
  - rewrite (bytes_hex_but_last 1 _ : but_last 2 _ = _).
    change (h ++ lc mod 256 :: data ++ [le mod 256]) with (h ++ (lc mod 256 :: data) ++ [le mod 256]).
    by rewrite app_assoc, but_last_app.
Qed.

Lemma t0_step_tpdu h case lc le data apdu c :
  apdu_of h case lc le data = Some apdu → is_bytes apdu → (h !! 1%nat) ≠ Some 192 →
  t0_step exec (tpdu_of h case lc le data) c = t0_command exec h (if case =? 1 then 0 else if case =? 2 then le mod 256 else lc mod 256) data c
  ∧ is_bytes (tpdu_of h case lc le data) ∧ (case =? 1 = true ∨ case =? 2 = true ↔ data = []) ∧
  (case = 2 → 1 <= le <= 256) ∧ ∃ cla r, tpdu_of h case lc le data = cla :: r ∧ length h = 4%nat.
Proof.
  intros Hap Hb Hins. unfold apdu_of in Hap. destruct (Z.eqb_spec (len h) 4) as [El|]; [|done].
  destruct h as [|cla [|ins [|p1 [|p2 [|]]]]]; try (unfold len in El; cbn in El; lia).
  cbn [negb] in Hap. unfold coded in Hap. unfold tpdu_of.
  assert (ins =? 192 = false) as E192 by (apply Z.eqb_neq; cbn in Hins; congruence).
  destruct (Z.eqb_spec case 1) as [->|]; [|destruct (Z.eqb_spec case 2) as [->|];
      [|destruct (Z.eqb_spec case 3) as [->|]; [|destruct (Z.eqb_spec case 4) as [->|]; [|done]]]];
    destruct (_ && _) eqn:Ec in Hap; try done; injection Hap as <-;
    rewrite !andb_true_iff, ?Z.eqb_eq, ?bool_decide_eq_true in Ec; destruct Ec as [[? ?] ?]; subst;
    cbn [app Z.eqb Pos.eqb t0_step] in *; rewrite E192.
  - destruct data; [|unfold len in *; cbn [length] in *; lia]. cbn.
    split_and!; try done; [|by tauto|by eexists _, _].
    unfold is_bytes in *. rewrite !list.Forall_cons in *. split_and!; try tauto. by unfold is_byte.
  - destruct data; [|unfold len in *; cbn [length] in *; lia]. cbn.
    split_and!; try done; [by tauto|by eexists _, _].
  - rewrite coded_len_mod, Z.eqb_refl, orb_true_r by done.
    split_and!; try done; [|by eexists _, _]. split; [intros [?|?]; done|].
    intros ->. rewrite len_nil in *. lia.
  - rewrite coded_len_mod, Z.eqb_refl, orb_true_r by done.
    split_and!; try done; [| |by eexists _, _].
    + unfold is_bytes in *. rewrite !list.Forall_cons, list.Forall_app in *. tauto.
    + split; [intros [?|?]; done|]. intros ->. rewrite len_nil in *. lia.
Qed.

Lemma no_more_data fuel tpdu prev data a b c :
  is_bytes [a; b] → a ∉ [159; 97; 98; 99] →
  get_response send fuel tpdu prev data (Some (bytes_hex [a; b])) c = (Ok (data, Some (bytes_hex [a; b]), prev), c).
Proof.
  intros Hb Ha. destruct fuel; cbn [get_response]; by rewrite more_data_hex, bool_decide_eq_false_2.
Qed.

Lemma ends_sw_hex fuel tpdu prev data sw c :
  ends_command sw →
  get_response send fuel tpdu prev data (Some (bytes_hex sw)) c = (Ok (data, Some (bytes_hex sw), prev), c) ∧
  bool_decide (take 2 (bytes_hex sw) = lit "6c") = false.
Proof.
  intros (a & b & -> & Hb & Ha). split.
  - apply no_more_data; [done|set_solver].
  - rewrite (bytes_hex_take 1 [a; b] : take 2 _ = bytes_hex [a]). apply bool_decide_eq_false_2.
    change (lit "6c") with (bytes_hex [108]). unfold is_bytes in Hb. rewrite !list.Forall_cons in Hb.
    rewrite hex_eq_iff by (bytes_tac || (constructor; [tauto|done])). set_solver.
Qed.

End t0_facts.

(** ** A card with proactive commands

    The card side of ETSI TS 102 221, 7.4.2, under T=1: commands waiting to
    be fetched, and the TERMINAL RESPONSEs received so far. Every other
    command gives [answer]; 91xx announces the length of the next proactive
    command. *)
Section proactive.
Context `{OsmocomUtilsLaws} {CT : CatTlv} (answer : bytes).

Record PCard := mkPCard { queue : list bytes; responses : list bytes }.

Definition pending_sw (q : list bytes) : bytes :=
  match q with [] => [144; 0] | p :: _ => [145; len p mod 256] end.

Definition p_step (apdu : bytes) (c : PCard) : (bytes * bytes) * PCard :=
  if bool_decide (take 2 apdu = [128; 18]) then
    match queue c with
    | p :: q => ((p, [144; 0]), mkPCard q (responses c))
    | [] => (([], [111; 0]), c)
    end
  else if bool_decide (take 2 apdu = [128; 20]) then
    (([], pending_sw (queue c)), mkPCard (queue c) (responses c ++ [drop 5 apdu]))
  else ((answer, pending_sw (queue c)), c).

Definition p_run (apdu : bytes) : M PCard rsp := λ c,
  let '((d, sw), c') := p_step apdu c in (Ok (b2h d, Some (b2h sw)), c').

Definition p_send (tpdu : str) : M PCard rsp := b ← lift (h2b tpdu); p_run b.

(** [h] answers the proactive command [p] with the TLVs [tail]. *)
Definition answered (h : ProactiveHandler PCard) (p tail : bytes) : Prop :=
  is_bytes p ∧ p ≠ [] ∧ len p <= 256 ∧ is_bytes tail ∧ len tail <= 255 ∧
  ∃ pcmd ti bins, pcmd_from_tlv p = Ok pcmd ∧ ti ≠ [] ∧ (∀ c, receive_fetch_raw h pcmd c = (Ok ti, c)) ∧
    map_r ie_to_tlv ti = Ok bins ∧ concat bins = tail.

Definition p_link (h : ProactiveHandler PCard) (q rs : list bytes) : Link PCard :=
  mkLink (Some h) false 1 (mkPCard q rs).

Notation checksw := (send_apdu_checksw p_send).

Lemma p_send_apdu fuel apdu h q rs d sw c' case lc le data :
  is_bytes apdu → parse_command_apdu apdu = Ok (case, lc, le, data) →
  p_step apdu (mkPCard q rs) = ((d, sw), c') →
  send_apdu p_send fuel (b2h apdu) (p_link h q rs)
  = (Ok (b2h d, Some (b2h sw)), p_link h (queue c') (responses c')).
Proof.
  intros Hb Hp Hs. unfold send_apdu. mrun. rewrite h2b_b2h by done. mrun. rewrite Hp. mrun.
  unfold _send_apdu. mrun. cbn [protocol p_link Z.eqb Pos.eqb]. unfold on_card, __send_apdu_transparent, p_send.
  cbv [zoom]. mrun. rewrite h2b_b2h by done. unfold p_run. cbn [card p_link]. rewrite Hs. mrun.
  cbn [apdu_strict with_card]. rewrite andb_false_r. by destruct c'.
Qed.

Lemma match_9000 : sw_match_opt (Some (b2h [144; 0])) (lit "9000") = Ok true ∧
  proactive_pending (lit "9000") (Some (b2h [144; 0])) = Ok false.
Proof. rewrite b2h_hex by bytes_tac. done. Qed.

Lemma proactive_done checksw send sw n rv last_sw (l : Link PCard) :
  proactive_pending sw last_sw = Ok false → proactive_loop checksw send sw n rv last_sw l = (Ok rv, l).
Proof. intros E. destruct n; cbn [proactive_loop]; mrun; by rewrite E. Qed.

(** One FETCH. *)
Lemma fetch_ok fuel h p q rs n :
  is_byte n →
  checksw (S fuel) (b2h [128; 18; 0; 0; n]) (lit "9000") (p_link h (p :: q) rs)
  = (Ok (b2h p, Some (b2h [144; 0])), p_link h q rs).
Proof.
  intros Hn. cbn [send_apdu_checksw]. mrun.
  rewrite (p_send_apdu fuel [128; 18; 0; 0; n] h (p :: q) rs p [144; 0] (mkPCard q rs) 2 0 (coded_len n) []) by
    first [reflexivity | unfold is_bytes; rewrite !list.Forall_cons, list.Forall_nil; unfold is_byte in *; lia].
  mrun. destruct match_9000 as [E1 E2]. rewrite proactive_done by done. mrun. cbn [snd]. by rewrite E1.
Qed.

Lemma pending_hex p q :
  is_bytes p → p ≠ [] → len p <= 256 →
  proactive_pending (lit "9000") (Some (b2h (pending_sw (p :: q)))) = Ok true ∧
  drop_opt 2 (Some (b2h (pending_sw (p :: q)))) = Ok (bytes_hex [len p mod 256]).
Proof.
  intros Hb Hne Hl. cbn [pending_sw]. pose proof (Z.mod_pos_bound (len p) 256).
  rewrite b2h_hex by (unfold is_bytes; rewrite !list.Forall_cons, list.Forall_nil; unfold is_byte; lia).
  split; [|unfold drop_opt; cbn [fmap option_fmap option_map from_opt];
    by rewrite (bytes_hex_drop 1 [145; len p mod 256] : drop 2 _ = _)].
  unfold proactive_pending. rewrite bool_decide_ok by done. cbn [sw_match_opt from_opt]. mrun.
  reflexivity.
Qed.

Lemma response_apdu tail :
  len tail <= 255 → ∃ case lc le data, parse_command_apdu ([128; 20; 0; 0; len tail] ++ tail) = Ok (case, lc, le, data).
Proof.
  intros Hl. pose proof (len_nonneg tail). destruct (decide (tail = [])) as [->|Hne]; [by eexists _, _, _, _|].
  assert (1 <= len tail) by (destruct tail; [done|rewrite len_cons in *; pose proof (len_nonneg tail); lia]).
  eexists 3, (len tail), 0, tail. change ([128; 20; 0; 0; len tail] ++ tail) with ([128; 20; 0; 0] ++ len tail :: tail).
  rewrite parse_long by (done || lia). cbn zeta. unfold coded_len. rewrite (proj2 (Z.eqb_neq (len tail) 0)) by lia.
  by rewrite Z.eqb_refl, take_len.
Qed.

(** One round: FETCH, then TERMINAL RESPONSE. *)
Lemma answer_round f h p tail qs rs :
  answered h p tail → (1 <= f)%nat →
  ∃ pcmd ti bins tr,
    checksw f (lit "80120000" ++ bytes_hex [len p mod 256]) (lit "9000") (p_link h (p :: qs) rs)
      = (Ok (b2h p, Some (b2h [144; 0])), p_link h qs rs) ∧
    h2b (b2h p) = Ok p ∧ pcmd_from_tlv p = Ok pcmd ∧
    answer_proactive pcmd (p_link h qs rs) = (Ok ti, p_link h qs rs) ∧ map_r ie_to_tlv ti = Ok bins ∧
    terminal_response (concat bins) = Ok tr ∧
    send_apdu p_send f tr (p_link h qs rs)
      = (Ok (b2h [], Some (b2h (pending_sw qs))), p_link h qs (rs ++ [tail])).
Proof.
  intros (Hb & Hne & Hl & Htb & Htl & pcmd & ti & bins & Ep & Hti & Hh & Em & Ec) Hf.
  pose proof (Z.mod_pos_bound (len p) 256). pose proof (len_nonneg tail).
  destruct f as [|f]; [lia|].
  exists pcmd, ti, bins, (b2h ([128; 20; 0; 0; len tail] ++ tail)).
  assert (is_bytes ([128; 20; 0; 0; len tail] ++ tail)) as Hcb.
  { unfold is_bytes in *. cbn [app]. rewrite !list.Forall_cons. unfold is_byte. split_and!; (lia || done). }
  split_and!; try done.
  - replace (lit "80120000" ++ bytes_hex [len p mod 256]) with (b2h [128; 18; 0; 0; len p mod 256]).
    { apply fetch_ok. unfold is_byte. lia. }
    rewrite b2h_hex by (unfold is_bytes; rewrite !list.Forall_cons, list.Forall_nil; unfold is_byte; lia). done.
  - by apply h2b_b2h.
  - unfold answer_proactive. mrun. cbn [proactive_handler p_link]. unfold on_card. mrun. rewrite Hh.
    cbn [with_card p_link proactive_handler apdu_strict protocol]. destruct ti; [done|]. mrun. done.
  - unfold terminal_response, to_bytes. rewrite Ec, bool_decide_ok by (change (256 ^ Z.of_nat 1) with 256; lia). mrun.
    assert (be 1 (len tail) = [len tail]) as -> by (unfold be; rewrite Z.mod_small by lia; done).
    f_equal. rewrite !b2h_hex; [done|done|].
    unfold is_bytes in *. cbn [app]. rewrite !list.Forall_cons. unfold is_byte. split_and!; (lia || done).
  - destruct (response_apdu tail Htl) as (case & lc & le & data & Epc).
    by rewrite (p_send_apdu (S f) _ h qs rs [] (pending_sw qs) (mkPCard qs (rs ++ [tail])) case lc le data).
Qed.

Lemma loop_ok f h tails : ∀ qs rs n rv last,
  Forall2 (answered h) qs tails → (length qs <= n)%nat → (1 <= f)%nat →
  last = b2h (pending_sw qs) →
  proactive_loop (checksw f) (send_apdu p_send f) (lit "9000") n rv (Some last) (p_link h qs rs)
  = (Ok (match qs with [] => rv | _ => (rv.1, Some (lit "9000")) end), p_link h [] (rs ++ tails)).
Proof.
  induction tails as [|tail tails IH]; intros qs rs n rv last Hq Hn Hf ->.
  - inversion Hq; subst. destruct match_9000 as [_ E]. cbn [pending_sw]. by rewrite proactive_done, app_nil_r.
  - inversion Hq as [|p ? qs' ? Hp Hqs]; subst. cbn [length] in Hn. destruct n as [|n]; [lia|].
    destruct (answer_round f h p tail qs' rs Hp Hf) as (pcmd & ti & bins & tr & E1 & E2 & E3 & E4 & E5 & E6 & E7).
    destruct Hp as (Hb & Hne & Hl & _). destruct (pending_hex p qs' Hb Hne Hl) as [Ea Eb].
    cbn [proactive_loop]. mrun. rewrite Ea. cbn [negb]. mrun. rewrite Eb. mrun. rewrite E1. mrun. cbn [fst].
    rewrite E2. mrun. rewrite E3. mrun. rewrite E4. mrun. rewrite E5. mrun. rewrite E6. mrun. rewrite E7. mrun. cbn [snd].
    rewrite (IH qs' (rs ++ [tail]) n) by (done || lia). rewrite <- app_assoc. by destruct qs'.
Qed.

(** C12: every proactive command is fetched and answered. When a command of
    another class leaves the card with proactive commands waiting,
    [send_apdu_checksw] fetches them in the card's order, sends the answers of
    the handler as TERMINAL RESPONSEs in the same order until none is left,
    and still returns the data of the command, with status 9000. *)
Theorem proactive_commands_answered h apdu case lc le data qs tails rs fuel :
  is_bytes apdu → parse_command_apdu apdu = Ok (case, lc, le, data) → head apdu ≠ Some 128 →
  Forall2 (answered h) qs tails → (length qs + 1 <= fuel)%nat →
  checksw (S fuel) (b2h apdu) (lit "9000") (p_link h qs rs)
  = (Ok (b2h answer, Some (lit "9000")), p_link h [] (rs ++ tails)).
Proof.
  intros Hb Hp Hcla Hq Hf. cbn [send_apdu_checksw]. mrun.
  assert (p_step apdu (mkPCard qs rs) = ((answer, pending_sw qs), mkPCard qs rs)) as Es.
  { unfold p_step. rewrite !bool_decide_eq_false_2; [done| |]; destruct apdu as [|x [|y r]]; cbn in *; congruence. }
  rewrite (p_send_apdu fuel apdu h qs rs answer (pending_sw qs) (mkPCard qs rs) case lc le data) by done. mrun. cbn [snd].
  rewrite (loop_ok fuel h tails qs rs fuel) by (done || lia). mrun.
  assert (b2h [144; 0] = lit "9000") as E9 by (rewrite b2h_hex by bytes_tac; done).
  destruct qs; cbn [pending_sw fst snd]; by rewrite ?E9.
Qed.
End proactive.

(** The status words a link can give. *)
Definition gives {W} (send_tpdu : str → M W rsp) (P : str → Prop) : Prop :=
  ∀ tpdu w d sw w', send_tpdu tpdu w = (Ok (d, sw), w') → ∃ s, sw = Some s ∧ P s.

Lemma get_response_final {W} (send_tpdu : str → M W rsp) P fuel : ∀ tpdu prev data s0 w d sw p w',
  gives send_tpdu P → P s0 → get_response send_tpdu fuel tpdu prev data (Some s0) w = (Ok (d, sw, p), w') →
  ∃ s, sw = Some s ∧ more_data s = false ∧ P s.
Proof.
  intros tpdu prev data s0 w d sw p w' Hg. revert prev data s0 w.
  induction fuel as [|fuel IH]; intros prev data s0 w Hp; cbn [get_response];
    destruct (more_data s0) eqn:E; try done; try (intros [= _ <- _ _]; by eauto).
  rewrite M_bind_eq. destruct (send_tpdu _ w) as [[[d1 sw1]|e] w1] eqn:Es; [|done].
  destruct (Hg _ _ _ _ _ Es) as (s1 & -> & Hp1). by apply IH.
Qed.

(** Against a card that never answers 6Cxx the procedure ends with none of
    the status words it takes for "more data". *)
Lemma t0_status_final `{OsmocomUtils} {W} (send_tpdu : str → M W rsp) fuel apdu w d sw w' :
  gives send_tpdu (λ s, take 2 s ≠ lit "6c") →
  __send_apdu_T0 send_tpdu fuel apdu w = (Ok (d, sw), w') → ∃ s, sw = Some s ∧ more_data s = false.
Proof.
  intros Hg. unfold __send_apdu_T0. mrun. destruct (h2b apdu) as [b|]; [|done].
  mrun. destruct (parse_command_apdu b) as [[[[case lc] le] cd]|]; [|done]. mrun.
  destruct (send_tpdu _ w) as [[[d1 sw1]|e] w1] eqn:E1; [|done].
  destruct (Hg _ _ _ _ _ E1) as (s1 & -> & Hp1).
  mrun. destruct (get_response _ _ _ _ _ _ w1) as [[[[d2 sw2] p2]|e] w2] eqn:E2; [|done].
  destruct (get_response_final _ _ _ _ _ _ _ _ _ _ _ _ Hg Hp1 E2) as (s2 & -> & Hm & Hp2).
  cbn [from_opt]. mrun. rewrite bool_decide_eq_false_2 by done. intros [= _ <- _]. eauto.
Qed.

(** ** Status words *)

Section checksw.
Context `{OsmocomUtils, CatTlv} {W : Type} (send_tpdu : str → M W rsp).

(** With nothing proactive in play, a command is sent once, and the
    exchange succeeds exactly when the status word matches the pattern;
    otherwise SwMatchError names the word received and the pattern in lower
    case. *)
Theorem send_apdu_checksw_spec fuel apdu sw l data s l' ok :
  send_apdu send_tpdu fuel apdu l = (Ok (data, Some s), l') →
  proactive_pending sw (Some s) = Ok false → sw_match s sw = Ok ok →
  send_apdu_checksw send_tpdu (S fuel) apdu sw l
  = (if ok then Ok (data, Some s) else Err (SwMatchError s (str_lower sw)), l').
Proof.
  intros Es Ep Em. cbn [send_apdu_checksw]. mrun. rewrite Es. mrun. cbn [snd].
  assert (proactive_loop (send_apdu_checksw send_tpdu fuel) (send_apdu send_tpdu fuel) sw fuel (data, Some s) (Some s) l'
    = (Ok (data, Some s), l')) as -> by (destruct fuel; cbn [proactive_loop]; mrun; by rewrite Ep).
  mrun. cbn [snd]. assert (sw_match_opt (Some s) sw = Ok ok) as -> by done. by destruct ok.
Qed.

(** Without a proactive handler a pending proactive command is fetched and
    then lost, and so is the response of the command that succeeded: the
    branch for this case uses the handler that is not there, which raises
    AttributeError. *)
Theorem proactive_without_handler fuel apdu l data s l1 len_ fdata fs b pcmd l2 :
  send_apdu send_tpdu (S fuel) apdu l = (Ok (data, Some s), l1) →
  sw_match s (lit "91xx") = Ok true → drop_opt 2 (Some s) = Ok len_ →
  send_apdu_checksw send_tpdu (S fuel) (lit "80120000" ++ len_) (lit "9000") l1 = (Ok (fdata, fs), l2) →
  h2b fdata = Ok b → pcmd_from_tlv b = Ok pcmd → proactive_handler l2 = None →
  send_apdu_checksw send_tpdu (S (S fuel)) apdu (lit "9000") l = (Err AttributeError, l2).
Proof.
  intros Es Em Ed Ef Eb Ep Eh. remember (S fuel) as f eqn:Hf. cbn [send_apdu_checksw]. mrun. rewrite Es. mrun. cbn [snd].
  assert (proactive_pending (lit "9000") (Some s) = Ok true) as Epp.
  { unfold proactive_pending. by rewrite bool_decide_ok. }
  rewrite Hf at 3. cbn [proactive_loop]. mrun. rewrite Epp. cbn [negb]. mrun. rewrite Ed. mrun. rewrite Ef. mrun. cbn [fst].
  rewrite Eb. mrun. rewrite Ep. mrun. unfold answer_proactive. mrun. by rewrite Eh.
Qed.
End checksw.

(** ** Concrete runs *)

Module TransportRun.
Import Ref.

(** A command that answers a block of data to every APDU of case 2 or 4. *)
Definition exec (h data : bytes) (n : nat) : (bytes * bytes) * nat :=
  ((if bool_decide (h !! 1%nat = Some 164) then replicate 600 7 else [], [144; 0]), S n).


#[export] Instance cat : CatTlv := {
  pcmd_from_tlv b := Ok (mkPcmd (lit "Refresh") [CommandDetails b; DeviceIdentities 129 130]);
  ie_to_tlv c := match c with
                 | CommandDetails v => Ok ([1; len v] ++ v)
                 | DeviceIdentities s d => Ok [2; 2; s; d]
                 | Result _ _ => Ok [3; 1; 0]
                 | OtherIe t v => Ok ([t; len v] ++ v)
                 end }.

Definition refuse {W} : ProactiveHandler W :=
  mkHandler ∅ (Some (λ p, lift (prepare_response p (lit "command_beyond_terminal_capability")))).

Lemma proactive_commands_answered_witness :
  send_apdu_checksw (p_send [5; 6]) 4 (b2h [0; 176; 0; 0; 2]) (lit "9000") (p_link refuse [[208; 1]; [208; 2; 3]] [])
  = (Ok (b2h [5; 6], Some (lit "9000")),
     p_link refuse [] ([] ++ [[1; 2; 208; 1; 2; 2; 130; 129; 3; 1; 0]; [1; 3; 208; 2; 3; 2; 2; 130; 129; 3; 1; 0]])).
Proof.
  apply (proactive_commands_answered [5; 6] refuse [0; 176; 0; 0; 2] 2 0 2 []);
    [by apply (bool_decide_unpack _); vm_compute|done|done| |cbn; lia].
  repeat constructor; try done; try (by apply (bool_decide_unpack _); vm_compute);
    eexists _, _, _; repeat split; done.
Defined.

Lemma send_apdu_checksw_spec_witness :
  send_apdu_checksw (p_send [5; 6]) 2 (b2h [0; 176; 0; 0; 2]) (lit "6a??") (p_link refuse [] [])
  = (Err (SwMatchError (lit "9000") (lit "6a??")), p_link refuse [] []).
Proof.
  apply (send_apdu_checksw_spec (p_send [5; 6]) 1 (b2h [0; 176; 0; 0; 2]) (lit "6a??") (p_link refuse [] [])
    (b2h [5; 6]) (lit "9000") (p_link refuse [] []) false); reflexivity.
Defined.

Lemma proactive_without_handler_witness :
  send_apdu_checksw (p_send [5; 6]) 3 (b2h [0; 176; 0; 0; 2]) (lit "9000") (mkLink None false 1 (mkPCard [[208; 1]] []))
  = (Err AttributeError, mkLink None false 1 (mkPCard [] [])).
Proof.
  eapply (proactive_without_handler (p_send [5; 6]) 1 (b2h [0; 176; 0; 0; 2])); reflexivity.
Defined.
End TransportRun.
