(* ===== verification/Commands.v ===== *)
(** pySim/commands.py and pySim/secure_channel.py: the commands a terminal
    sends to a card, on one logical channel, in clear or through a secure
    channel. *)

From S2P Require Import Prelude Osmocom Utils Transport.

(** ** Logical channels *)

Definition lchan_nr_to_cla (cla lchan_nr : Z) : result Z :=
  if lchan_nr <? 4 then
    if bool_decide (Z.shiftr cla 4 ∈ [0; 10; 8]) then Ok (Z.lor (Z.land cla 252) (Z.land lchan_nr 3))
    else Err ValueError
  else if lchan_nr <? 16 then
    if bool_decide (Z.shiftr cla 6 ∈ [1; 3]) then Ok (Z.lor (Z.land cla 240) (Z.land (lchan_nr - 4) 15))
    else Err ValueError
  else Err ValueError.

(** ** Secure channels

    [SecureChannel]: what the commands need of a secure channel protocol
    with state [S]. *)
Record SecureChannel (S : Type) := mkSecureChannel {
  overhead : Z;
  sc_wrap_cmd_apdu : bytes → M S bytes;
  sc_unwrap_rsp_apdu : bytes → bytes → M S bytes }.
Arguments mkSecureChannel {S}. Arguments overhead {S}.
Arguments sc_wrap_cmd_apdu {S}. Arguments sc_unwrap_rsp_apdu {S}.

(** What the commands need of a link with state [T]. *)
Record LinkOps (T : Type) := mkLinkOps {
  tp_send_apdu : str → M T rsp;
  tp_send_apdu_checksw : str → str → M T rsp;
  tp_get_atr : M T str;
  tp_reset_card : M T Z }.
Arguments mkLinkOps {T}. Arguments tp_send_apdu {T}. Arguments tp_send_apdu_checksw {T}.
Arguments tp_get_atr {T}. Arguments tp_reset_card {T}.

(** [TLV(tags).parse] of the package pytlv *)
Class PyTlv := pytlv_parse : list str → str → result (gmap str str).

Section commands.
Context `{OsmocomUtils, OsmocomTlv, PyTlv} {Sc Lk : Type} (sc : SecureChannel Sc) (tp : LinkOps Lk).

Record SimCardCommands := mkCommands {
  sel_ctrl : str; lchan_nr : Z; cla_byte : str; scp : option Sc; link : Lk }.
Abbreviation C := (M SimCardCommands).

Definition new_commands (lchan : Z) (t : Lk) : SimCardCommands :=
  mkCommands (lit "0000") lchan (lit "a0") None t.

Definition fork_lchan (lchan : Z) (c : SimCardCommands) : SimCardCommands :=
  mkCommands (sel_ctrl c) lchan (cla_byte c) None (link c).

Definition max_cmd_len (c : SimCardCommands) : Z :=
  match scp c with Some _ => 255 - overhead sc | None => 255 end.

Definition on_link {A} : M Lk A → C A :=
  zoom link (λ t c, mkCommands (sel_ctrl c) (lchan_nr c) (cla_byte c) (scp c) t).
Definition on_scp {A} (m : M Sc A) : C A := λ c,
  match scp c with
  | None => (Err AttributeError, c)
  | Some s => let '(r, s') := m s in (r, mkCommands (sel_ctrl c) (lchan_nr c) (cla_byte c) (Some s') (link c))
  end.

Definition cla_with_lchan (cla_byte : str) (lchan_nr : Z) : result str :=
  l ← h2i cla_byte;
  cla_int ← idx l 0;
  cla ← lchan_nr_to_cla cla_int lchan_nr;
  Ok (i2h [cla]).

(** [SecureChannel.send_apdu_wrapper] *)
Definition send_apdu_wrapper (send_fn : str → M Lk rsp) (pdu : str) : C rsp :=
  b ← lift (h2b pdu);
  w ← on_scp (sc_wrap_cmd_apdu sc b);
  '(res, sw) ← on_link (send_fn (b2h w));
  s ← lift (from_opt TypeError sw);
  sw_b ← lift (h2b s);
  res_b ← lift (h2b res);
  u ← on_scp (sc_unwrap_rsp_apdu sc sw_b res_b);
  mret (b2h u, sw).

Definition with_channel (apply_lchan : bool) (pdu : str) : C str :=
  if apply_lchan then
    c ← get;
    cla ← lift (cla_with_lchan (slice 0 2 pdu) (lchan_nr c));
    mret (cla ++ drop 2 pdu)
  else mret pdu.

Definition send_ (send_fn : str → M Lk rsp) (pdu : str) : C rsp :=
  c ← get;
  match scp c with Some _ => send_apdu_wrapper send_fn pdu | None => on_link (send_fn pdu) end.

Definition send_apdu (pdu : str) (apply_lchan : bool) : C rsp :=
  pdu ← with_channel apply_lchan pdu;
  send_ (tp_send_apdu tp) pdu.

Definition send_apdu_checksw (pdu sw : str) (apply_lchan : bool) : C rsp :=
  pdu ← with_channel apply_lchan pdu;
  send_ (λ p, tp_send_apdu_checksw tp p sw) pdu.

(** With the default status word and on the instance's channel. *)
Definition send_ok (pdu : str) : C rsp := send_apdu_checksw pdu (lit "9000") true.

(** [cmd]: the command data [cmd_constr] builds, None when there is none to
    build; [resp]: the parser of [resp_constr], None when there is none. *)
Definition send_apdu_constr {R} (cla ins p1 p2 : str) (cmd : option (result bytes)) (resp : option (bytes → result R))
    (apply_lchan : bool) : C (option R * option str) :=
  cmd_b ← lift (match cmd with Some r => r | None => Ok [] end);
  let lc := match cmd with Some _ => i2h [len cmd_b] | None => [] end in
  let le := match resp with Some _ => lit "00" | None => [] end in
  '(data, sw) ← send_apdu (concat [cla; ins; p1; p2; lc; b2h cmd_b; le]) apply_lchan;
  if negb (bool_decide (data = [])) then
    parse ← lift (from_opt AttributeError resp);
    b ← lift (h2b data);
    rsp ← lift (parse b);
    mret (Some rsp, sw)
  else mret (None, sw).

Definition send_apdu_constr_checksw {R} (cla ins p1 p2 : str) (cmd : option (result bytes))
    (resp : option (bytes → result R)) (sw_exp : str) (apply_lchan : bool) : C (option R * option str) :=
  '(rsp, sw) ← send_apdu_constr cla ins p1 p2 cmd resp apply_lchan;
  ok ← lift (sw_match_opt sw sw_exp);
  if (ok : bool) then mret (rsp, sw)
  else s ← lift (from_opt AttributeError sw); raise (SwMatchError s (str_lower sw_exp)).

(** ** File control parameters *)

Definition fcp_tags : list str :=
  map lit ["82"; "83"; "84"; "a5"; "8a"; "8b"; "8c"; "80"; "ab"; "c6"; "81"; "88"]%string.

Definition __parse_fcp (fcp : str) : result (gmap str str) :=
  let fcp := str_lower fcp in
  if negb (bool_decide (slice 0 2 fcp = lit "62")) then Err ValueError
  else
    exp_tlv_len ← py_int 16 (slice 2 4 fcp);
    skip ← (if len (drop 4 fcp) / 2 =? exp_tlv_len then Ok 4%nat
            else
              _ ← py_int 16 (slice 2 6 fcp);
              Err ValueError);
    pytlv_parse fcp_tags (drop skip fcp).

Definition lookup_tag (m : gmap str str) (t : string) : result str := from_opt KeyError (m !! lit t).

Definition __record_len (r : list str) : C Z :=
  c ← get;
  last_r ← lift (zidx r (-1));
  if bool_decide (sel_ctrl c = lit "0004") then
    m ← lift (__parse_fcp last_r);
    fd ← lift (lookup_tag m "82");
    lift (py_int 16 (slice 4 8 fd))
  else lift (py_int 16 (slice 28 30 last_r)).

Definition __len (r : list str) : C Z :=
  c ← get;
  last_r ← lift (zidx r (-1));
  if bool_decide (sel_ctrl c = lit "0004") then
    m ← lift (__parse_fcp last_r);
    s ← lift (lookup_tag m "80");
    lift (py_int 16 s)
  else lift (py_int 16 (slice 4 8 last_r)).

Definition get_atr : C str := on_link (tp_get_atr tp).

(** ** SELECT *)

Definition select_pdu (c : SimCardCommands) (fid : str) : str :=
  cla_byte c ++ lit "a4" ++ sel_ctrl c ++ lit "02" ++ fid ++ lit "00".

Fixpoint try_select_path (dir_list : list str) (rv : list rsp) : C (list rsp) :=
  match dir_list with
  | [] => mret rv
  | i :: dir_list' =>
      c ← get;
      '(data, sw) ← send_apdu (select_pdu c i) true;
      let rv := rv ++ [(data, sw)] in
      if bool_decide (sw = Some (lit "9000")) then try_select_path dir_list' rv else mret rv
  end.

Definition select_file (fid : str) : C rsp := c ← get; send_ok (select_pdu c fid).

Definition select_path (dir_list : list str) : C (list str) :=
  map_m (λ i, '(data, _) ← select_file i; mret data) dir_list.

Definition select_parent_df : C rsp := c ← get; send_ok (cla_byte c ++ lit "a40304").

Definition select_adf (aid : str) : C rsp :=
  c ← get;
  let aidlen := last_n 2 (lit "0" ++ fmt_x 0 (len aid / 2)) in
  send_ok (cla_byte c ++ lit "a4" ++ lit "0404" ++ aidlen ++ aid ++ lit "00").

(** ** Transparent files *)

(** [chunk_offset] runs to [length] in steps of at most [max_cmd_len]; the
    loop ends when that is positive, hence the fuel. The result is the data
    and the last status word, None when the loop did nothing. *)
Fixpoint read_loop (fuel : nat) (length offset chunk_offset : Z) (total_data : str) (sw : option (option str))
    : C (str * option (option str)) :=
  if chunk_offset <? length then
    match fuel with
    | O => raise OutOfFuel
    | S f =>
        c ← get;
        let chunk_len := Z.min (max_cmd_len c) (length - chunk_offset) in
        let pdu := cla_byte c ++ lit "b0" ++ fmt_x 4 (offset + chunk_offset) ++ fmt_x 2 chunk_len in
        '(data, sw) ← send_ok pdu;
        read_loop f length offset (chunk_offset + chunk_len) (total_data ++ data) (Some sw)
    end
  else mret (total_data, sw).

(** The result is (None, None), or data and status word. *)
Definition read_binary (ef : list str) (length : option Z) (offset : Z) : C (option str * option str) :=
  r ← select_path ef;
  last_r ← lift (zidx r (-1));
  if bool_decide (last_r = []) then mret (None, None)
  else
    length ← (match length with Some l => mret l | None => l ← __len r; mret (l - offset) end);
    if length <? 0 then mret (None, None)
    else
      '(total_data, sw) ← read_loop (Z.to_nat length) length offset 0 [] None;
      sw ← lift (from_opt UnboundLocalError sw);
      mret (Some total_data, sw).

Definition __verify_binary (ef : list str) (data : str) (offset : Z) : C unit :=
  res ← read_binary ef (Some (len data / 2)) offset;
  d ← lift (from_opt AttributeError res.1);
  lift (guard_else (bool_decide (str_lower d = str_lower data)) ValueError).

Definition binary_size (ef : list str) : C Z := r ← select_path ef; __len r.

Fixpoint update_loop (fuel : nat) (data : str) (data_length offset chunk_offset : Z) (total_data : str)
    (chunk_sw : option (option str)) : C (str * option (option str)) :=
  if chunk_offset <? data_length then
    match fuel with
    | O => raise OutOfFuel
    | S f =>
        c ← get;
        let chunk_len := Z.min (max_cmd_len c) (data_length - chunk_offset) in
        let pdu := cla_byte c ++ lit "d6" ++ fmt_x 4 (offset + chunk_offset) ++ fmt_x 2 chunk_len
                   ++ slice (Z.to_nat (chunk_offset * 2)) (Z.to_nat ((chunk_offset + chunk_len) * 2)) data in
        '(_, sw) ← send_ok pdu;
        update_loop f data data_length offset (chunk_offset + chunk_len) (total_data ++ data) (Some sw)
    end
  else mret (total_data, chunk_sw).

(** [try: read; if equal: return None, sw; except Exception: pass]; fuel that
    ran out is no exception of the program. *)
Definition conserve_write (read : C (option str * option str)) (cut : str → str) (data : str)
    : C (option (option str)) :=
  catch
    ('(data_current, sw) ← read;
     match data_current with
     | Some d => mret (if bool_decide (cut d = data) then Some sw else None)
     | None => mret None
     end)
    (λ e, if bool_decide (e = OutOfFuel) then raise OutOfFuel else mret None).

Definition update_binary (ef : list str) (data : str) (offset : Z) (verify conserve : bool)
    : C (option str * option str) :=
  file_len ← binary_size ef;
  data ← lift (expand_hex data file_len);
  let data_length := len data / 2 in
  same ← (if conserve then conserve_write (read_binary ef (Some data_length) offset) id data else mret None);
  match same with
  | Some sw => mret (None, sw)
  | None =>
      select_path ef;;
      '(total_data, chunk_sw) ← update_loop (Z.to_nat data_length) data data_length offset 0 [] None;
      (if verify then __verify_binary ef data offset else mret ());;
      sw ← lift (from_opt UnboundLocalError chunk_sw);
      mret (Some total_data, sw)
  end.

(** ** Record files *)

Definition read_record (ef : list str) (rec_no : Z) : C rsp :=
  r ← select_path ef;
  rec_length ← __record_len r;
  c ← get;
  send_ok (cla_byte c ++ lit "b2" ++ fmt_x 2 rec_no ++ lit "04" ++ fmt_x 2 rec_length).

Definition __verify_record (ef : list str) (rec_no : Z) (data : str) : C unit :=
  res ← read_record ef rec_no;
  lift (guard_else (bool_decide (str_lower res.1 = str_lower data)) ValueError).

Definition update_record (ef : list str) (rec_no : Z) (data : str) (force_len verify conserve leftpad : bool)
    : C (option str * option str) :=
  res ← select_path ef;
  rec_length ← __record_len res;
  data ← lift (expand_hex data rec_length);
  '(rec_length, data) ←
    lift (if force_len then Ok (len data / 2, data)
          else if rec_length <? len data / 2 then Err ValueError
          else if len data / 2 <? rec_length then
            Ok (rec_length, if leftpad then lpad data (Z.to_nat (rec_length * 2)) else rpad data (Z.to_nat (rec_length * 2)))
          else Ok (rec_length, data));
  same ← (if conserve then
            conserve_write (r ← read_record ef rec_no; mret (Some r.1, r.2))
              (take (Z.to_nat (rec_length * 2))) data
          else mret None);
  match same with
  | Some sw => mret (None, sw)
  | None =>
      c ← get;
      res ← send_ok (cla_byte c ++ lit "dc" ++ fmt_x 2 rec_no ++ lit "04" ++ fmt_x 2 rec_length ++ data);
      (if verify then __verify_record ef rec_no data else mret ());;
      mret (Some res.1, res.2)
  end.

Definition record_size (ef : list str) : C Z := r ← select_path ef; __record_len r.

(** [a // b]: ZeroDivisionError for a divisor of zero *)
Definition record_count (ef : list str) : C Z :=
  r ← select_path ef;
  n ← __len r;
  k ← __record_len r;
  lift (guard_else (negb (k =? 0)) ZeroDivisionError);;
  mret (n / k).

(** ** BER-TLV files *)

Definition _retrieve_data (tag : Z) (first : bool) : C rsp :=
  send_ok (if first then lit "80cb008001" ++ fmt_x 2 tag ++ lit "00" else lit "80cb0000").

(** The card says when the last block has been read, hence the fuel. *)
Fixpoint retrieve_loop (fuel : nat) (tag : Z) (total_data : str) (sw : option str) : C rsp :=
  if bool_decide (sw ∈ [Some (lit "62f1"); Some (lit "62f2")]) then
    match fuel with
    | O => raise OutOfFuel
    | S f => '(data, sw) ← _retrieve_data tag false; retrieve_loop f tag (total_data ++ data) sw
    end
  else mret (total_data, sw).

Definition retrieve_data (fuel : nat) (ef : list str) (tag : Z) : C (option str * option str) :=
  r ← select_path ef;
  last_r ← lift (zidx r (-1));
  if bool_decide (last_r = []) then mret (None, None)
  else
    '(data, sw) ← _retrieve_data tag true;
    '(total_data, sw) ← retrieve_loop fuel tag data sw;
    mret (Some total_data, sw).

Definition _set_data (data : str) (first : bool) : C rsp :=
  let p1 := if first then 128 else 0 in
  send_ok (lit "80db00" ++ fmt_x 2 p1 ++ fmt_x 2 (len data / 2) ++ data).

Fixpoint set_loop (fuel : nat) (remaining : bytes) (first : bool) (last : option rsp) : C (option rsp) :=
  if 0 <? len remaining then
    match fuel with
    | O => raise OutOfFuel
    | S f =>
        c ← get;
        let n := Z.to_nat (max_cmd_len c) in
        r ← _set_data (b2h (take n remaining)) first;
        c ← get;
        set_loop f (drop (Z.to_nat (max_cmd_len c)) remaining) false (Some r)
    end
  else mret last.

Definition set_data (ef : list str) (tag : Z) (value : str) : C (option str * option str) :=
  r ← select_path ef;
  last_r ← lift (zidx r (-1));
  if bool_decide (last_r = []) then mret (None, None)
  else if bool_decide (value = []) then
    r ← _set_data (fmt_x 2 tag) true; mret (Some r.1, r.2)
  else
    let tl := fmt_x 2 tag ++ b2h (bertlv_encode_len (len value / 2)) in
    tlv_bin ← lift (h2b (tl ++ value));
    last ← set_loop (length tlv_bin) tlv_bin true None;
    r ← lift (from_opt UnboundLocalError last);
    mret (Some r.1, r.2).

(** ** Authentication *)

Definition run_gsm (rand : str) : C rsp :=
  lift (guard_else (len rand =? 32) ValueError);;
  select_path [lit "3f00"; lit "7f20"];;
  send_ok (lit "a088000010" ++ rand ++ lit "00").

(** [LV] of osmocom.construct: a length byte and that many bytes, in hex. *)
Definition build_lv (s : str) : result bytes := b ← h2b s; n ← bytes_of_ints [len b]; Ok (n ++ b).

Definition StreamError : exn := LibError "StreamError".
Definition parse_lv (b : bytes) : result (str * bytes) :=
  match b with
  | n :: r => if len r <? n then Err StreamError else Ok (b2h (take (Z.to_nat n) r), drop (Z.to_nat n) r)
  | [] => Err StreamError
  end.

(** A failing [COptional] builds and parses nothing. *)
Definition AuthCmd3G (rand autn : str) : result bytes :=
  r ← build_lv rand;
  Ok (r ++ match build_lv autn with Ok a => a | Err _ => [] end).

Inductive AuthResp3G :=
| AuthResp3GSyncFail (auts : str)
| AuthResp3GSuccess (res ck ik : str) (kc : option str).

Definition parse_AuthResp3G (b : bytes) : result AuthResp3G :=
  match b with
  | 220 :: r =>
      match parse_lv r with
      | Ok (auts, _) => Ok (AuthResp3GSyncFail auts)
      | Err _ => Err (LibError "SelectError")
      end
  | 219 :: r =>
      match ('(res, r) ← parse_lv r; '(ck, r) ← parse_lv r; '(ik, r) ← parse_lv r; Ok (res, ck, ik, r)) with
      | Ok (res, ck, ik, r) =>
          Ok (AuthResp3GSuccess res ck ik (match parse_lv r with Ok (kc, _) => Some kc | Err _ => None end))
      | Err _ => Err (LibError "SelectError")
      end
  | _ => Err (LibError "SelectError")
  end.

(** The result is a successful authentication or a synchronisation failure,
    by the constructor; an empty response is None, on which [in] raises. *)
Definition authenticate (rand autn context : str) : C (AuthResp3G * option str) :=
  p2 ← lift (if bool_decide (context = lit "3g") then Ok (lit "81")
             else if bool_decide (context = lit "gsm") then Ok (lit "80")
             else Err ValueError);
  c ← get;
  '(data, sw) ← send_apdu_constr_checksw (cla_byte c) (lit "88") (lit "00") p2 (Some (AuthCmd3G rand autn))
                  (Some parse_AuthResp3G) (lit "9000") true;
  d ← lift (from_opt TypeError data);
  mret (d, sw).

(** ** Administrative commands *)

Definition status : C rsp := send_ok (lit "80F20000").
Definition deactivate_file : C (option unit * option str) :=
  c ← get; send_apdu_constr_checksw (cla_byte c) (lit "04") (lit "00") (lit "00") None None (lit "9000") true.
Definition activate_file (fid : str) : C rsp := c ← get; send_ok (cla_byte c ++ lit "44000002" ++ fid).
Definition create_file (payload : str) : C rsp :=
  c ← get; send_ok (cla_byte c ++ lit "e00000" ++ fmt_x 2 (len payload / 2) ++ payload).
Definition resize_file (payload : str) : C rsp := send_ok (lit "80d40000" ++ fmt_x 2 (len payload / 2) ++ payload).
Definition delete_file (fid : str) : C rsp := c ← get; send_ok (cla_byte c ++ lit "e4000002" ++ fid).
Definition terminate_df (fid : str) : C rsp := c ← get; send_ok (cla_byte c ++ lit "e6000002" ++ fid).
Definition terminate_ef (fid : str) : C rsp := c ← get; send_ok (cla_byte c ++ lit "e8000002" ++ fid).
Definition terminate_card_usage : C rsp := c ← get; send_ok (cla_byte c ++ lit "fe000000").

Definition manage_channel (mode : str) (lchan : Z) : C rsp :=
  c ← get;
  let p1 := if bool_decide (mode = lit "close") then 128 else 0 in
  send_ok (cla_byte c ++ lit "70" ++ fmt_x 2 p1 ++ fmt_x 2 lchan).

Definition reset_card : C Z := on_link (tp_reset_card tp).

(** ** Card holder verification *)

(** The tries left are part of the message: [int(sw[3])]. *)
Definition _chv_process_sw (sw : option str) : result unit :=
  m ← sw_match_opt sw (lit "63cx");
  if (m : bool) then
    s ← from_opt TypeError sw;
    d ← idx s 3;
    _ ← py_int 10 [d];
    Err RuntimeError
  else if bool_decide (sw = Some (lit "9000")) then Ok ()
  else s ← from_opt AttributeError sw; Err (SwMatchError s (lit "9000")).

Definition chv_command (ins : string) (chv_no : Z) (lc : string) (fc : str) : C rsp :=
  c ← get;
  '(data, sw) ← send_apdu (cla_byte c ++ lit ins ++ fmt_X 2 chv_no ++ lit lc ++ fc) true;
  lift (_chv_process_sw sw);;
  mret (data, sw).

Definition verify_chv (chv_no : Z) (code : bytes) : C rsp := chv_command "2000" chv_no "08" (rpad (b2h code) 16).
Definition unblock_chv (chv_no : Z) (puk_code pin_code : bytes) : C rsp :=
  chv_command "2C00" chv_no "10" (rpad (b2h puk_code) 16 ++ rpad (b2h pin_code) 16).
Definition change_chv (chv_no : Z) (pin_code new_pin_code : bytes) : C rsp :=
  chv_command "2400" chv_no "10" (rpad (b2h pin_code) 16 ++ rpad (b2h new_pin_code) 16).
Definition disable_chv (chv_no : Z) (pin_code : bytes) : C rsp :=
  chv_command "2600" chv_no "08" (rpad (b2h pin_code) 16).
Definition enable_chv (chv_no : Z) (pin_code : bytes) : C rsp :=
  chv_command "2800" chv_no "08" (rpad (b2h pin_code) 16).

(** ** Toolkit and suspension *)

Definition envelope (payload : str) : C rsp :=
  send_apdu_checksw (lit "80c20000" ++ fmt_x 2 (len payload / 2) ++ payload ++ lit "00") (lit "9000") false.
Definition terminal_profile (payload : str) : C rsp :=
  send_apdu_checksw (lit "80100000" ++ fmt_x 2 (len payload / 2) ++ payload) (lit "9000") false.

Definition day : Z := 24 * 60 * 60.

Definition encode_duration (secs : Z) : str :=
  if 10 * day <=? secs then lit "04" ++ fmt_x 2 (secs / (10 * day))
  else if day <=? secs then lit "03" ++ fmt_x 2 (secs / day)
  else if 3600 <=? secs then lit "02" ++ fmt_x 2 (secs / 3600)
  else if 60 <=? secs then lit "01" ++ fmt_x 2 (secs / 60)
  else lit "00" ++ fmt_x 2 secs.

Definition decode_duration (enc : str) : result Z :=
  let time_unit := slice 0 2 enc in
  l ← h2i (slice 2 4 enc);
  length_ ← idx l 0;
  if bool_decide (time_unit = lit "04") then Ok (length_ * (10 * day))
  else if bool_decide (time_unit = lit "03") then Ok (length_ * day)
  else if bool_decide (time_unit = lit "02") then Ok (length_ * 3600)
  else if bool_decide (time_unit = lit "01") then Ok (length_ * 60)
  else if bool_decide (time_unit = lit "00") then Ok length_
  else Err ValueError.

Definition suspend_uicc (min_len_secs max_len_secs : Z) : C (Z * str * option str) :=
  '(data, sw) ← send_apdu_checksw (lit "8076000004" ++ encode_duration min_len_secs ++ encode_duration max_len_secs)
                  (lit "9000") false;
  negotiated ← lift (decode_duration (slice 0 4 data));
  mret (negotiated, drop 4 data, sw).

Definition resume_uicc (token : str) : C rsp :=
  b ← lift (h2b token);
  lift (guard_else (len b =? 8) ValueError);;
  send_apdu_checksw (lit "8076010008" ++ token) (lit "9000") false.

Definition get_data (tag cla : Z) : C rsp := send_ok (fmt_x 2 cla ++ lit "ca" ++ fmt_x 4 tag ++ lit "00").
Definition get_identity (context : Z) : C rsp := send_ok (lit "807800" ++ fmt_x 2 context ++ lit "00").
End commands.
Arguments SimCardCommands : clear implicits.

(** ** Class bytes *)

(** The logical channel a class byte names (ETSI TS 102 221, 10.1.1). *)
Definition lchan_of_cla (cla : Z) : Z := if bit cla 6 then Z.land cla 15 + 4 else Z.land cla 3.

(** The bits of a class byte that do not name the channel. *)
Definition cla_kind (lchan_nr cla : Z) : Z := if lchan_nr <? 4 then Z.land cla 252 else Z.land cla 240.

Definition cla_ok (cla n : Z) : bool :=
  match lchan_nr_to_cla cla n with
  | Ok c => bool_decide (is_byte c) && (lchan_of_cla c =? n) && (cla_kind n c =? cla_kind n cla)
  | Err e => bool_decide (e = ValueError) &&
      if n <? 4 then bool_decide (cla / 16 ∉ [0; 8; 10]) else negb (bit cla 6)
  end.

Lemma cla_ok_all :
  forallb (λ cla, forallb (λ n, cla_ok (Z.of_nat cla) (Z.of_nat n)) (List.seq 0 16)) (List.seq 0 256) = true.
Proof. by vm_compute. Qed.

(** A channel number put into a class byte is the one that the class byte
    then names, and the other bits stay; it is refused exactly for channels
    above 15 and for classes that have no room for it. *)
Theorem lchan_nr_to_cla_spec cla n :
  is_byte cla → 0 <= n →
  match lchan_nr_to_cla cla n with
  | Ok c => is_byte c ∧ lchan_of_cla c = n ∧ cla_kind n c = cla_kind n cla
  | Err e => e = ValueError ∧ (16 <= n ∨ n < 4 ∧ cla / 16 ∉ [0; 8; 10] ∨ 4 <= n ∧ bit cla 6 = false)
  end.
Proof.
  intros Hc Hn. destruct (Z.ltb_spec n 16) as [Hlt|Hge].
  - pose proof cla_ok_all as Ha. rewrite forallb_forall in Ha.
    specialize (Ha (Z.to_nat cla)). rewrite forallb_forall in Ha.
    assert (cla_ok cla n = true) as E.
    { rewrite <- (Z2Nat.id cla), <- (Z2Nat.id n) by (unfold is_byte in *; lia).
      apply Ha; apply in_seq; unfold is_byte in *; lia. }
    unfold cla_ok in E. destruct (lchan_nr_to_cla cla n) as [c|e].
    + rewrite !andb_true_iff, !Z.eqb_eq in E. destruct E as [[E1 E2] E3]. by apply bool_decide_eq_true in E1.
    + rewrite andb_true_iff in E. destruct E as [E1 E2]. apply bool_decide_eq_true in E1. split; [done|].
      destruct (Z.ltb_spec n 4); [apply bool_decide_eq_true in E2; auto|]. apply negb_true_iff in E2. auto.
  - unfold lchan_nr_to_cla. rewrite !(proj2 (Z.ltb_ge _ _)) by lia. auto.
Qed.

Lemma lchan_nr_to_cla_spec_witness :
  match lchan_nr_to_cla 160 2 with
  | Ok c => is_byte c ∧ lchan_of_cla c = 2 ∧ cla_kind 2 c = cla_kind 2 160
  | Err e => e = ValueError ∧ (16 <= 2 ∨ 2 < 4 ∧ 160 / 16 ∉ [0; 8; 10] ∨ 4 <= 2 ∧ bit 160 6 = false)
  end.
Proof. apply (lchan_nr_to_cla_spec 160 2); [by unfold is_byte|done]. Defined.

(** ** A card with one transparent file

    The card's side of SELECT, READ BINARY and UPDATE BINARY for the file
    selected (TS 51.011, 9.2): an answer to SELECT with size and record
    length at their places, and reads and updates within the file. *)
Record FCard := mkFCard { file : bytes; rec_len : Z }.

Definition sw_ok : bytes := [144; 0].

Definition select_answer (f : FCard) : bytes :=
  [0; 0] ++ be 2 (len (file f)) ++ replicate 10 0 ++ [rec_len f].

Definition write_at (f : bytes) (off : nat) (d : bytes) : bytes := take off f ++ d ++ drop (off + length d) f.

Definition f_step (apdu : bytes) (f : FCard) : (bytes * bytes) * FCard :=
  match apdu with
  | _ :: ins :: p1 :: p2 :: p3 :: data =>
      let off := p1 * 256 + p2 in
      if ins =? 164 then ((select_answer f, sw_ok), f)
      else if ins =? 176 then
        if (p1 <? 128) && (off + coded_len p3 <=? len (file f))
        then ((slice (Z.to_nat off) (Z.to_nat (off + coded_len p3)) (file f), sw_ok), f)
        else (([], [107; 0]), f)
      else if ins =? 214 then
        if (p1 <? 128) && (len data =? p3) && (off + p3 <=? len (file f))
        then (([], sw_ok), mkFCard (write_at (file f) (Z.to_nat off) data) (rec_len f))
        else (([], [107; 0]), f)
      else (([], [109; 0]), f)
  | _ => (([], [103; 0]), f)
  end.

Section fcard.
Context `{OsmocomUtils}.

Definition f_run (apdu : bytes) : M FCard rsp := λ f,
  let '((d, sw), f') := f_step apdu f in (Ok (b2h d, Some (b2h sw)), f').
Definition f_send (pdu : str) : M FCard rsp := b ← lift (h2b pdu); f_run b.
Definition f_send_checksw (pdu sw : str) : M FCard rsp :=
  rv ← f_send pdu;
  ok ← lift (sw_match_opt rv.2 sw);
  if (ok : bool) then mret rv else s ← lift (from_opt AttributeError rv.2); raise (SwMatchError s (str_lower sw)).
Definition f_link : LinkOps FCard := mkLinkOps f_send f_send_checksw (mret []) (mret 1).
End fcard.

Lemma int_digits_hexw w : ∀ acc z s,
  0 <= z → int_digits 16 acc (hexw w z ++ s) = int_digits 16 (acc * 16 ^ Z.of_nat w + z mod 16 ^ Z.of_nat w) s.
Proof.
  induction w as [|w IH]; intros acc z s Hz.
  { cbn. f_equal. rewrite Z.mod_1_r. lia. }
  cbn [hexw]. rewrite <- app_assoc, IH by (apply Z.div_pos; lia). cbn [app int_digits].
  rewrite hexval_hexdig by (apply Z.mod_pos_bound; lia).
  rewrite (proj2 (Z.ltb_lt _ 16)) by (apply Z.mod_pos_bound; lia). f_equal.
  rewrite Nat2Z.inj_succ, Z.pow_succ_r by lia. rewrite (Z.rem_mul_r z 16) by lia. ring.
Qed.

Lemma hexdig_char z : 0 <= z < 16 →
  is_space (hexdig z) = false ∧ Ascii.eqb (hexdig z) "-" = false ∧ Ascii.eqb (hexdig z) "+" = false ∧
  Ascii.eqb (hexdig z) "_" = false ∧ Ascii.eqb (lower1 (hexdig z)) "x" = false.
Proof. revert z. apply (small_cases _ 16). repeat constructor. Qed.

Lemma strip_hex bs : strip (bytes_hex bs) = bytes_hex bs.
Proof.
  assert (Forall (λ c, is_space c = false) (bytes_hex bs)) as Hn.
  { induction bs as [|b bs IH]; [by constructor|]. rewrite bytes_hex_cons, hexw2.
    repeat constructor; [| |exact IH]; apply hexdig_char; apply Z.mod_pos_bound; lia. }
  unfold strip. rewrite drop_while_id; [by apply drop_while_end_none|].
  intros x Hx. destruct (bytes_hex bs); [done|]. injection Hx as ->. by inversion Hn.
Qed.

Lemma int_unsigned_hex bs :
  is_bytes bs → bs ≠ [] → int_unsigned 16 (bytes_hex bs) = Some (from_bytes bs).
Proof.
  intros Hb Hne. destruct bs as [|b bs]; [done|]. clear Hne.
  pose proof (from_bytes_bound (b :: bs) Hb) as Hz. unfold len in Hz.
  set (n := length (b :: bs)) in *. set (z := from_bytes (b :: bs)) in *.
  assert (bytes_hex (b :: bs) = hexw (2 * n) z) as E.
  { rewrite hexw_bytes_hex. unfold z, n. by rewrite be_from_bytes. }
  assert (0 <= z < 16 ^ Z.of_nat (2 * n)) as Hz' by (rewrite Nat2Z.inj_mul, Z.pow_mul_r by lia; done).
  assert (int_digits 16 0 (bytes_hex (b :: bs)) = Some z) as Ei.
  { rewrite E, <- (app_nil_r (hexw _ _)), int_digits_hexw by lia.
    cbn [int_digits]. f_equal. rewrite Z.mod_small by done. lia. }
  rewrite bytes_hex_cons, hexw2 in *. cbn [app int_unsigned].
  destruct (hexdig_char (b / 16 mod 16)) as (_ & _ & _ & -> & _); [apply Z.mod_pos_bound; lia|]. done.
Qed.

Lemma py_int_hex bs : is_bytes bs → bs ≠ [] → py_int 16 (bytes_hex bs) = Ok (from_bytes bs).
Proof.
  intros Hb Hne. unfold py_int. rewrite strip_hex. pose proof (int_unsigned_hex bs Hb Hne) as Ei.
  destruct bs as [|b bs]; [done|]. rewrite bytes_hex_cons, hexw2 in *. cbn [app].
  destruct (hexdig_char (b / 16 mod 16)) as (_ & -> & -> & _ & _); [apply Z.mod_pos_bound; lia|].
  unfold int_prefixed. destruct (hexdig_char (b mod 16)) as (_ & _ & _ & _ & ->); [apply Z.mod_pos_bound; lia|].
  rewrite andb_false_r. cbn [app] in Ei. by rewrite Ei.
Qed.

Section file_facts.
Context `{OsmocomUtilsLaws} {OT : OsmocomTlv} {PT : PyTlv} {Sc : Type} (sc : SecureChannel Sc).
Implicit Types c : SimCardCommands Sc FCard.
Notation run m := (m sc f_link).

Definition with_file (f : FCard) c : SimCardCommands Sc FCard :=
  mkCommands (sel_ctrl c) (lchan_nr c) (cla_byte c) (scp c) f.

(** A channel without secure messaging, with the SELECT of a SIM, whose class
    byte [a] becomes [a'] on the channel. *)
Record plain (a a' : Z) c : Prop := {
  plain_scp : scp c = None;
  plain_sel : sel_ctrl c = lit "0000";
  plain_cla : cla_byte c = bytes_hex [a];
  plain_byte : is_byte a ∧ is_byte a';
  plain_lchan : lchan_nr_to_cla a (lchan_nr c) = Ok a';
}.

Lemma plain_with_file a a' c f : plain a a' c → plain a a' (with_file f c).
Proof. intros []. by split. Qed.

Definition sw9000 : option str := Some (lit "9000").

Lemma send_ok_plain a a' c rest d f' :
  plain a a' c → is_bytes rest → is_bytes d → f_step (a' :: rest) (link c) = ((d, sw_ok), f') →
  run send_ok (bytes_hex (a :: rest)) c = (Ok (bytes_hex d, sw9000), with_file f' c).
Proof.
  intros [Hs _ Hc [Ha Ha'] Hl] Hr Hd Hf. unfold send_ok, send_apdu_checksw, with_channel, cla_with_lchan. mrun.
  rewrite (bytes_hex_slice 0 1 (a :: rest) : slice 0 2 _ = bytes_hex [a]).
  assert (is_bytes [a]) as Hab by (by constructor). assert (is_bytes [a']) as Hab' by (by constructor).
  rewrite h2i_hex by apply is_hexstr_bytes_hex. rewrite fromhex_hex by done. mrun. unfold idx. cbn [lookup list_lookup from_opt].
  mrun. rewrite Hl. mrun. rewrite i2h_hex by done.
  rewrite (bytes_hex_drop 1 (a :: rest) : drop 2 _ = bytes_hex rest), <- bytes_hex_app. cbn [app].
  unfold send_. mrun. rewrite Hs. unfold on_link, f_link. cbn [tp_send_apdu_checksw]. unfold f_send_checksw, f_send. mrun.
  rewrite <- b2h_hex by (by constructor). rewrite h2b_b2h by (by constructor). mrun. unfold f_run. rewrite Hf. mrun.
  cbn [snd]. rewrite !b2h_hex by (done || bytes_tac).
  assert (sw_match_opt (Some (bytes_hex sw_ok)) (lit "9000") = Ok true) as -> by done.
  unfold with_file. by rewrite Hs.
Qed.

Lemma select_ok a a' c fid :
  plain a a' c → is_bytes fid → is_byte (rec_len (link c)) →
  run select_path [bytes_hex fid] c = (Ok [bytes_hex (select_answer (link c))], c).
Proof.
  intros Hp Hf Hr. unfold select_path. cbn [map_m]. mrun. unfold select_file, select_pdu. mrun.
  destruct Hp as [Hs Hsel Hc Ha Hl] eqn:Ep. rewrite Hsel, Hc.
  assert (bytes_hex [a] ++ lit "a4" ++ lit "0000" ++ lit "02" ++ bytes_hex fid ++ lit "00"
    = bytes_hex (a :: [164; 0; 0; 2] ++ fid ++ [0])) as ->.
  { change (lit "a4" ++ lit "0000" ++ lit "02" ++ bytes_hex fid ++ lit "00")
      with (bytes_hex [164; 0; 0; 2] ++ bytes_hex fid ++ bytes_hex [0]). by rewrite <- !bytes_hex_app. }
  rewrite (send_ok_plain a a' c _ (select_answer (link c)) (link c)); try done.
  - mrun. unfold with_file. by destruct c.
  - rewrite !is_bytes_app. split_and!; [bytes_tac|done|bytes_tac].
  - unfold select_answer. rewrite !is_bytes_app. split_and!; [bytes_tac|apply is_bytes_be|bytes_tac|by constructor].
Qed.

Lemma slice_bytes x y (l : bytes) : is_bytes l → is_bytes (slice x y l).
Proof. intros. unfold slice. by apply is_bytes_take, is_bytes_drop. Qed.

Lemma slice_slice x y z (l : bytes) : (x <= y <= z)%nat → slice x y l ++ slice y z l = slice x z l.
Proof.
  intros Hx. unfold slice. replace (z - x)%nat with ((y - x) + (z - y))%nat by lia.
  rewrite <- (take_take_drop (drop x l)), drop_drop. by replace (x + (y - x))%nat with y by lia.
Qed.

(** Offset and length as they are put into a command. *)
Lemma offset_hex off n :
  0 <= off < 65536 → 0 <= n < 256 →
  fmt_x 4 off ++ fmt_x 2 n = bytes_hex [off / 256; off mod 256; n].
Proof.
  intros Ho Hn. rewrite !fmt_x_hexw by (lia || (change (16 ^ Z.of_nat 4) with 65536; lia) || (change (16 ^ Z.of_nat 2) with 256; lia)).
  rewrite (hexw_bytes_hex 2 off : hexw 4 off = _), (hexw_bytes_hex 1 n : hexw 2 n = _), <- bytes_hex_app.
  unfold be. cbn [app]. do 2 f_equal; [|f_equal; f_equal]; rewrite Z.mod_small by dlia; done.
Qed.

(** One READ BINARY. *)
Lemma read_chunk a a' c off n :
  plain a a' c → is_bytes (file (link c)) → 0 <= off → 1 <= n <= 255 → off + n <= len (file (link c)) → off < 32768 →
  run send_ok (cla_byte c ++ lit "b0" ++ fmt_x 4 off ++ fmt_x 2 n) c
  = (Ok (bytes_hex (slice (Z.to_nat off) (Z.to_nat (off + n)) (file (link c))), sw9000), c).
Proof.
  intros Hp Hb Ho Hn Hl Hm. rewrite offset_hex by lia.
  assert (cla_byte c ++ lit "b0" ++ bytes_hex [off / 256; off mod 256; n]
    = bytes_hex (a :: [176; off / 256; off mod 256; n])) as ->.
  { rewrite (plain_cla a a' c Hp). change (lit "b0") with (bytes_hex [176]). by rewrite <- !bytes_hex_app. }
  rewrite (send_ok_plain a a' c _ (slice (Z.to_nat off) (Z.to_nat (off + n)) (file (link c))) (link c)); try done.
  - by destruct c.
  - unfold is_bytes. rewrite !list.Forall_cons, list.Forall_nil. unfold is_byte. split_and!; dlia.
  - by apply slice_bytes.
  - cbn [f_step Z.eqb Pos.eqb]. replace (off / 256 * 256 + off mod 256) with off by dlia.
    assert (coded_len n = n) as -> by (unfold coded_len; rewrite (proj2 (Z.eqb_neq n 0)) by lia; done).
    rewrite (proj2 (Z.ltb_lt _ 128)), (proj2 (Z.leb_le (off + n) _)) by (lia || dlia). done.
Qed.

Lemma read_loop_ok fuel : ∀ a a' c length off o total sw,
  plain a a' c → is_bytes (file (link c)) → 0 <= off → 0 <= o <= length → off + length <= len (file (link c)) →
  off + length <= 32768 → length - o <= Z.of_nat fuel →
  run read_loop fuel length off o total sw c
  = (Ok (total ++ bytes_hex (slice (Z.to_nat (off + o)) (Z.to_nat (off + length)) (file (link c))),
         if o <? length then Some sw9000 else sw), c).
Proof.
  induction fuel as [|fuel IH]; intros a a' c length off o total sw Hp Hb Hoff Ho Hl Hm Hf; cbn [read_loop].
  - rewrite (proj2 (Z.ltb_ge o length)) by lia. replace o with length by lia.
    unfold slice. rewrite Nat.sub_diag. cbn. by rewrite app_nil_r.
  - destruct (Z.ltb_spec o length) as [Hlt|Hge].
    + mrun. unfold max_cmd_len at 1 2. rewrite (plain_scp a a' c Hp).
      set (n := Z.min 255 (length - o)). assert (1 <= n <= 255) as Hn by lia.
      rewrite (read_chunk a a' c (off + o) n) by (done || lia). mrun.
      rewrite (IH a a' c length off (o + n)) by (done || lia). rewrite <- app_assoc, <- bytes_hex_app.
      rewrite (Z.add_assoc off o n), slice_slice by lia. destruct (_ <? _); done.
    + replace o with length by lia. unfold slice. rewrite Nat.sub_diag. cbn. by rewrite app_nil_r.
Qed.

Lemma size_of_answer a a' c :
  plain a a' c → len (file (link c)) < 65536 →
  __len [bytes_hex (select_answer (link c))] c = (Ok (len (file (link c))), c).
Proof.
  intros Hp Hl. unfold __len. mrun. change (zidx [?x] (-1)) with (Ok x : result str). mrun.
  rewrite (plain_sel a a' c Hp), bool_decide_eq_false_2 by done.
  rewrite (bytes_hex_slice 2 4 (select_answer (link c)) : slice 4 8 _ = _).
  pose proof (len_nonneg (file (link c))).
  assert (slice 2 4 (select_answer (link c)) = be 2 (len (file (link c)))) as ->.
  { unfold select_answer. apply slice_app_mid; [done|]. by rewrite length_app, length_be. }
  rewrite py_int_hex, from_bytes_be; try done.
  - apply is_bytes_be.
Qed.

Lemma read_binary_ok a a' c fid length offset :
  plain a a' c → is_bytes fid → is_byte (rec_len (link c)) → is_bytes (file (link c)) →
  let size := len (file (link c)) in
  let n := default (size - offset) length in
  size <= 32768 → 0 <= offset → 0 <= n → offset + n <= size →
  run read_binary [bytes_hex fid] length offset c
  = (if 0 <? n then Ok (Some (bytes_hex (slice (Z.to_nat offset) (Z.to_nat (offset + n)) (file (link c)))), sw9000)
     else Err UnboundLocalError, c).
Proof.
  intros Hp Hf Hr Hb size n Hs Ho Hn Hl. unfold read_binary. mrun.
  rewrite (select_ok a a') by done. mrun. change (zidx [?x] (-1)) with (Ok x : result str). mrun.
  rewrite bool_decide_eq_false_2 by done.
  destruct length as [l|]; cbn [default id] in n; subst n size; mrun;
    [|rewrite (size_of_answer a a') by (done || lia); mrun];
    rewrite (proj2 (Z.ltb_ge _ 0)) by lia; mrun; rewrite (read_loop_ok _ a a') by (done || lia); mrun;
    rewrite Z.add_0_r; by destruct (0 <? _).
Qed.

Lemma length_write_at f off d : (off + length d <= length f)%nat → length (write_at f off d) = length f.
Proof. intros. unfold write_at. rewrite !length_app, length_take, length_drop. lia. Qed.

Lemma write_at_app f off x y :
  (off + length x + length y <= length f)%nat →
  write_at (write_at f off x) (off + length x) y = write_at f off (x ++ y).
Proof.
  intros Hl. unfold write_at. rewrite length_app.
  rewrite (app_assoc (take off f) x), take_app_length' by (rewrite length_app, length_take; lia).
  rewrite drop_app_ge by (rewrite length_app, length_take; lia).
  rewrite drop_drop, length_app, length_take, <- !app_assoc. do 3 f_equal. f_equal. lia.
Qed.

Lemma write_at_nil f off : write_at f off [] = f.
Proof. unfold write_at. cbn [app length]. rewrite Nat.add_0_r. apply take_drop. Qed.

Lemma write_at_bytes f off d : is_bytes f → is_bytes d → is_bytes (write_at f off d).
Proof. intros. unfold write_at. rewrite !is_bytes_app. auto using is_bytes_take, is_bytes_drop. Qed.

Lemma slice_write_at f off d :
  (off + length d <= length f)%nat → slice off (off + length d) (write_at f off d) = d.
Proof.
  intros. unfold write_at. apply slice_app_mid; rewrite ?length_app, length_take; lia.
Qed.

Definition wrote (off : Z) (d : bytes) c : SimCardCommands Sc FCard :=
  with_file (mkFCard (write_at (file (link c)) (Z.to_nat off) d) (rec_len (link c))) c.

(** One UPDATE BINARY. *)
Lemma update_chunk a a' c off n d :
  plain a a' c → is_bytes d → len d = n → 0 <= off → 1 <= len d <= 255 → off + len d <= len (file (link c)) → off < 32768 →
  run send_ok (cla_byte c ++ lit "d6" ++ fmt_x 4 off ++ fmt_x 2 n ++ bytes_hex d) c
  = (Ok ([], sw9000), wrote off d c).
Proof.
  intros Hp Hb <- Ho Hn Hl Hm. rewrite (app_assoc (fmt_x 4 off)), offset_hex by lia.
  assert (cla_byte c ++ lit "d6" ++ bytes_hex [off / 256; off mod 256; len d] ++ bytes_hex d
    = bytes_hex (a :: [214; off / 256; off mod 256; len d] ++ d)) as ->.
  { rewrite (plain_cla a a' c Hp). change (lit "d6") with (bytes_hex [214]). by rewrite <- !bytes_hex_app. }
  rewrite (send_ok_plain a a' c _ [] (mkFCard (write_at (file (link c)) (Z.to_nat off) d) (rec_len (link c)))); try done.
  - rewrite is_bytes_app. split; [|done]. unfold is_bytes. rewrite !list.Forall_cons, list.Forall_nil. unfold is_byte. split_and!; dlia.
  - by constructor.
  - cbn [app f_step Z.eqb Pos.eqb]. replace (off / 256 * 256 + off mod 256) with off by dlia.
    rewrite (proj2 (Z.ltb_lt _ 128)), Z.eqb_refl, (proj2 (Z.leb_le (off + len d) _)) by (lia || dlia). done.
Qed.

Lemma wrote_wrote c off (o n : nat) d :
  0 <= off → (o <= n <= length d)%nat → off + len d <= len (file (link c)) →
  wrote (off + Z.of_nat o) (slice o n d) (wrote off (take o d) c) = wrote off (take n d) c.
Proof.
  intros Ho Hn Hl. unfold wrote, with_file. cbn [sel_ctrl lchan_nr cla_byte scp link file rec_len]. do 2 f_equal.
  assert (length (take o d) = o) as Hlo by (rewrite length_take; lia).
  replace (Z.to_nat (off + Z.of_nat o)) with (Z.to_nat off + length (take o d))%nat by lia.
  rewrite write_at_app.
  - f_equal. assert (∀ m, take m d = slice 0 m d) as Et by (intros; unfold slice; by rewrite drop_0, Nat.sub_0_r).
    rewrite !Et. apply slice_slice. lia.
  - unfold slice, len in *. rewrite !length_take, length_drop. lia.
Qed.

(** The number of commands [n] bytes take. *)
Definition chunks (n : Z) : Z := (n + 254) / 255.

Lemma update_loop_ok fuel : ∀ a a' c d off o total sw,
  plain a a' c → is_bytes d → 0 <= off → 0 <= o <= len d → off + len d <= len (file (link c)) →
  off + len d <= 32768 → len d - o <= Z.of_nat fuel →
  run update_loop fuel (bytes_hex d) (len d) off o total sw (wrote off (take (Z.to_nat o) d) c)
  = (Ok (total ++ repeat_list (Z.to_nat (chunks (len d - o))) (bytes_hex d), if o <? len d then Some sw9000 else sw),
     wrote off d c).
Proof.
  induction fuel as [|fuel IH]; intros a a' c d off o total sw Hp Hb Hoff Ho Hl Hm Hf; cbn [update_loop].
  - rewrite (proj2 (Z.ltb_ge o (len d))) by lia. replace o with (len d) by lia.
    rewrite take_len by lia. rewrite Z.sub_diag. cbn. by rewrite app_nil_r.
  - destruct (Z.ltb_spec o (len d)) as [Hlt|Hge].
    2: { replace o with (len d) by lia. rewrite take_len by lia. rewrite Z.sub_diag. cbn. by rewrite app_nil_r. }
    mrun. set (c1 := wrote off (take (Z.to_nat o) d) c).
    assert (plain a a' c1) as Hp1 by (by apply plain_with_file).
    unfold max_cmd_len. rewrite (plain_scp a a' c1 Hp1).
    set (n := Z.min 255 (len d - o)). assert (1 <= n <= 255) as Hn by lia.
    assert (slice (Z.to_nat (o * 2)) (Z.to_nat ((o + n) * 2)) (bytes_hex d)
      = bytes_hex (slice (Z.to_nat o) (Z.to_nat (o + n)) d)) as ->.
    { rewrite <- bytes_hex_slice. f_equal; lia. }
    set (ch := slice (Z.to_nat o) (Z.to_nat (o + n)) d).
    assert (len ch = n) as Hch by (unfold ch, slice, len in *; rewrite length_take, length_drop; lia).
    rewrite (update_chunk a a' c1 (off + o) n ch); try done; try lia.
    2: { by apply slice_bytes. }
    2: { unfold c1, wrote. cbn [link with_file file]. unfold len in *. rewrite length_write_at by (rewrite length_take; lia). lia. }
    mrun.
    assert (wrote (off + o) ch c1 = wrote off (take (Z.to_nat (o + n)) d) c) as ->.
    { rewrite <- (wrote_wrote c off (Z.to_nat o)) by (unfold len in *; lia). by rewrite Z2Nat.id by lia. }
    rewrite (IH a a' c d off (o + n)) by (done || lia). rewrite <- app_assoc. do 3 f_equal.
    + assert (Z.to_nat (chunks (len d - o)) = S (Z.to_nat (chunks (len d - (o + n))))) as ->; [|done].
      unfold chunks, n. destruct (Z.min_spec 255 (len d - o)) as [[? ->]|[? ->]]; dlia.
    + by destruct (_ <? _).
Qed.

Lemma expand_hex_hex d n : expand_hex (bytes_hex d) n = Ok (bytes_hex d).
Proof.
  assert (Forall (λ x, is_char dot x = false) (bytes_hex d)) as Hd.
  { induction d as [|b d IH]; [by constructor|]. rewrite bytes_hex_cons, hexw2.
    assert (∀ z, 0 <= z < 16 → is_char dot (hexdig z) = false) as Hz by (apply (small_cases _ 16); by repeat constructor).
    repeat constructor; [| |exact IH]; apply Hz, Z.mod_pos_bound; lia. }
  unfold expand_hex.
  assert (count_c dot (bytes_hex d) = 0%nat) as ->.
  { induction Hd as [|x l Hx _ IH]; [done|]. unfold count_c in *.
    rewrite filter_cons_False; [done|]. intros ->. unfold is_char in Hx. by rewrite Ascii.eqb_refl in Hx. }
  assert (∀ l, Forall (λ x, is_char dot x = false) l → count_dots l = 0%nat) as Hc.
  { induction 1 as [|x l Hx Hl IHl]; [done|]. destruct l as [|y l]; [done|]. cbn [count_dots] in *. by rewrite Hx. }
  by rewrite Hc.
Qed.

(** C14: writing to a transparent file changes exactly the bytes from [offset]
    on into the data, whatever number of commands it takes; with [verify] the
    file is read back and found equal. The data returned is not what the card
    answered but one copy of the whole data per command sent. Writing no bytes
    raises UnboundLocalError. *)
Theorem update_binary_spec a a' c fid d offset verify :
  plain a a' c → is_bytes fid → is_byte (rec_len (link c)) → is_bytes (file (link c)) → is_bytes d →
  let size := len (file (link c)) in
  size <= 32768 → 0 <= offset → offset + len d <= size →
  run update_binary [bytes_hex fid] (bytes_hex d) offset verify false c
  = (if 0 <? len d then Ok (Some (repeat_list (Z.to_nat (chunks (len d))) (bytes_hex d)), sw9000)
     else Err UnboundLocalError, wrote offset d c).
Proof.
  intros Hp Hf Hr Hb Hd size Hs Ho Hl. pose proof (len_nonneg d). unfold update_binary, binary_size. mrun.
  rewrite (select_ok a a') by done. mrun. rewrite (size_of_answer a a') by (done || lia). mrun.
  rewrite expand_hex_hex. mrun. rewrite (select_ok a a') by done. mrun.
  assert (len (bytes_hex d) / 2 = len d) as -> by (unfold len; rewrite length_bytes_hex; dlia).
  pose proof (update_loop_ok (Z.to_nat (len d)) a a' c d offset 0 [] None) as El.
  assert (wrote offset (take (Z.to_nat 0) d) c = c) as Ew.
  { cbn [Z.to_nat take]. unfold wrote, with_file. rewrite write_at_nil. by destruct c as [? ? ? ? []]. }
  rewrite Ew, Z.sub_0_r in El. rewrite El by (done || lia). mrun. clear El Ew.
  assert ((if verify then __verify_binary sc f_link [bytes_hex fid] (bytes_hex d) offset else λ s0, (Ok (), s0)) (wrote offset d c)
    = (if (0 <? len d) || negb verify then Ok () else Err UnboundLocalError, wrote offset d c)) as ->.
  { destruct verify; [|by rewrite orb_true_r]. rewrite orb_false_r. unfold __verify_binary. mrun.
    assert (len (bytes_hex d) / 2 = len d) as -> by (unfold len; rewrite length_bytes_hex; dlia).
    assert (length (write_at (file (link c)) (Z.to_nat offset) d) = length (file (link c))) as Hlw
      by (apply length_write_at; unfold len in *; lia).
    rewrite (read_binary_ok a a');
      cbn [wrote with_file link file rec_len default id]; try done; try (unfold len in *; rewrite ?Hlw; lia);
      [|by apply plain_with_file|by apply write_at_bytes].
    destruct (0 <? len d); [|done]. mrun. cbn [fst].
    replace (Z.to_nat (offset + len d)) with (Z.to_nat offset + length d)%nat by (unfold len; lia).
    rewrite slice_write_at by (unfold len in *; lia). mrun. by rewrite bool_decide_ok. }
  destruct (0 <? len d), verify; done.
Qed.
(** C13: reading a transparent file gives exactly the bytes asked for, from
    [offset] on, or to the end of the file when no length is given, whatever
    number of commands it takes; card and channel are as before. A range of
    no bytes is the exception: nothing is read and the missing status word
    raises UnboundLocalError. *)
Theorem read_binary_spec a a' c fid length offset :
  plain a a' c → is_bytes fid → is_byte (rec_len (link c)) → is_bytes (file (link c)) →
  let size := len (file (link c)) in
  let n := default (size - offset) length in
  size <= 32768 → 0 <= offset → 0 <= n → offset + n <= size →
  run read_binary [bytes_hex fid] length offset c
  = (if 0 <? n then Ok (Some (bytes_hex (slice (Z.to_nat offset) (Z.to_nat (offset + n)) (file (link c)))), sw9000)
     else Err UnboundLocalError, c).
Proof. apply read_binary_ok. Qed.

End file_facts.

(** ** PIN commands over T=0 *)

Section chv.
Context `{OsmocomUtils} {CT : CatTlv} {OT : OsmocomTlv} {PT : PyTlv} {W Sc : Type}
  (send_tpdu : str → M W rsp) (fuel : nat) (sc : SecureChannel Sc).

(** A link of pySim/transport as the commands use it. *)
Definition t0_link (reset : M (Link W) Z) (atr : M (Link W) str) : LinkOps (Link W) :=
  mkLinkOps (Transport.send_apdu send_tpdu fuel) (Transport.send_apdu_checksw send_tpdu fuel) atr reset.

Lemma lower_digit x : lower1 x = "6"%char ∨ lower1 x = "3"%char → x = "6"%char ∨ x = "3"%char.
Proof. destruct x as [[] [] [] [] [] [] [] []]; vm_compute; intuition congruence. Qed.

Lemma lower_char x k : (k = "6"%char ∨ k = "3"%char) → lower1 x = k → x = k.
Proof. destruct x as [[] [] [] [] [] [] [] []]; intros [-> | ->]; vm_compute; congruence. Qed.

Lemma match_63cx s : sw_match s (lit "63cx") = Ok true → more_data s = true.
Proof.
  unfold sw_match. destruct s as [|a [|b [|c r]]]; try done.
  cbn [map_r]. unfold sw_mask_char, idx. cbn. intros [= E%bool_decide_eq_true].
    injection E as Ea Eb Ec. apply lower_char in Ea; [|by auto]. apply lower_char in Eb; [|by auto].
  subst. by vm_compute.
Qed.

(** The tries left are never reported. Over T=0 a status 63Cx, which says
    how many tries a PIN has left, is taken for an announcement of data and
    answered with GET RESPONSE; so on a card that does not answer 6Cxx the
    status word of a PIN command is never 63Cx, and the branch of
    [_chv_process_sw] that reports the number of tries is not reached. *)
Theorem chv_tries_never_reported reset atr pdu apply_lchan (c : SimCardCommands Sc (Link W)) data sw c' :
  gives send_tpdu (λ s, take 2 s ≠ lit "6c") → scp c = None → protocol (link c) = 0 →
  send_apdu sc (t0_link reset atr) pdu apply_lchan c = (Ok (data, sw), c') →
  _chv_process_sw sw ≠ Err RuntimeError.
Proof.
  intros Hg Hs Hp. unfold send_apdu, with_channel.
  assert (∀ p c1, scp c1 = None → protocol (link c1) = 0 →
    send_ sc (tp_send_apdu (t0_link reset atr)) p c1 = (Ok (data, sw), c') → _chv_process_sw sw ≠ Err RuntimeError) as Hsend.
  { intros p c1 Hs1 Hp1. unfold send_. mrun. rewrite Hs1. unfold on_link, t0_link. cbn [tp_send_apdu]. mrun.
    unfold Transport.send_apdu. mrun. destruct (h2b p) as [b|]; [|done]. mrun.
    destruct (parse_command_apdu b) as [[[[case lc] le] cd]|]; [|done]. mrun. unfold _send_apdu. mrun. rewrite Hp1.
    cbn [Z.eqb]. unfold on_card. mrun.
    destruct (__send_apdu_T0 send_tpdu fuel p (card (link c1))) as [[[d1 sw1]|e] w1] eqn:E; [|done].
    destruct (t0_status_final _ _ _ _ _ _ _ Hg E) as (s & -> & Hm). cbn [apdu_strict with_card].
    mrun. destruct (_ && _); [done|]. intros [= _ <- _]. unfold _chv_process_sw. mrun.
    change (sw_match_opt (Some s) (lit "63cx")) with (sw_match s (lit "63cx")).
    destruct (sw_match s (lit "63cx")) as [[|]|e] eqn:Em.
    - apply match_63cx in Em. congruence.
    - mrun. destruct (bool_decide _); mrun; discriminate.
    - mrun. intros [= ->]. revert Em. unfold sw_match. clear. cbn [map_r]. unfold sw_mask_char, idx.
      destruct (str_lower s) as [|x [|y [|z r]]]; cbn; done. }
  destruct apply_lchan; [|by apply Hsend]. mrun. destruct (cla_with_lchan _ _) as [cla|]; [|done]. mrun. by apply Hsend.
Qed.
End chv.

(** Two hex digits. *)
Lemma hex_byte n : 0 <= n < 256 → fmt_x 2 n = bytes_hex [n].
Proof. intros. by rewrite fmt_x_hexw by (lia || (change (16 ^ Z.of_nat 2) with 256; lia)). Qed.

(** ** SET DATA *)

(** A link that records what is sent and accepts everything; SELECT is
    answered with one byte. *)
Definition l_checksw `{OsmocomUtils} (pdu sw : str) : M (list bytes) rsp :=
  b ← lift (h2b pdu); modify (λ l, l ++ [b]);; mret (lit "62", Some (lit "9000")).
Definition l_link `{OsmocomUtils} : LinkOps (list bytes) :=
  mkLinkOps (λ p, l_checksw p []) l_checksw (mret []) (mret 1).

Section set_data_facts.
Context `{OsmocomUtilsLaws} {OT : OsmocomTlv} {PT : PyTlv} {Sc : Type} (sc : SecureChannel Sc).
Implicit Types c : SimCardCommands Sc (list bytes).

Definition sent (l : list bytes) c : SimCardCommands Sc (list bytes) :=
  mkCommands (sel_ctrl c) (lchan_nr c) (cla_byte c) (scp c) (link c ++ l).

Lemma send_logged a y c rest :
  scp c = None → lchan_nr_to_cla a (lchan_nr c) = Ok y → is_byte a → is_byte y → is_bytes rest →
  send_ok sc l_link (bytes_hex ([a] ++ rest)) c = (Ok (lit "62", sw9000), sent [[y] ++ rest] c).
Proof.
  intros Hs Hl Ha Hy Hr. assert (is_bytes [a]) as Hab by (by constructor). assert (is_bytes [y]) as Hyb by (by constructor).
  unfold send_ok, send_apdu_checksw, with_channel, cla_with_lchan. mrun.
  rewrite (bytes_hex_slice 0 1 ([a] ++ rest) : slice 0 2 _ = bytes_hex [a]).
  rewrite h2i_hex by apply is_hexstr_bytes_hex. rewrite fromhex_hex by done. mrun.
  unfold idx. cbn [lookup list_lookup from_opt]. mrun. rewrite Hl. mrun. rewrite i2h_hex by done.
  rewrite (bytes_hex_drop 1 ([a] ++ rest) : drop 2 _ = bytes_hex rest), <- bytes_hex_app.
  unfold send_. mrun. rewrite Hs. unfold on_link, l_link, l_checksw. cbn [tp_send_apdu_checksw]. mrun.
  rewrite <- b2h_hex by (by apply is_bytes_app). rewrite h2b_b2h by (by apply is_bytes_app).
  mrun. unfold sent. by rewrite Hs.
Qed.

(** The SET DATA command for a fragment, on the channel of class byte [x]. *)
Definition set_data_pdu (x : Z) (first : bool) (fr : bytes) : bytes :=
  [x; 219; 0; (if first then 128 else 0); len fr] ++ fr.

Lemma set_one x c first fr :
  scp c = None → lchan_nr_to_cla 128 (lchan_nr c) = Ok x → is_byte x → is_bytes fr → len fr <= 255 →
  _set_data sc l_link (b2h fr) first c = (Ok (lit "62", sw9000), sent [set_data_pdu x first fr] c).
Proof.
  intros Hs Hl Hx Hb Hn. pose proof (len_nonneg fr). unfold _set_data. rewrite b2h_hex by done.
  set (p1 := if first then 128 else 0). assert (is_byte p1) as Hp1 by (unfold p1; by destruct first).
  assert (len (bytes_hex fr) / 2 = len fr) as -> by (unfold len; rewrite length_bytes_hex; dlia).
  assert (lit "80db00" ++ fmt_x 2 p1 ++ fmt_x 2 (len fr) ++ bytes_hex fr = bytes_hex ([128] ++ [219; 0; p1; len fr] ++ fr)) as ->.
  { unfold is_byte in Hp1. rewrite !hex_byte by lia.
    change (lit "80db00") with (bytes_hex [128; 219; 0]). by rewrite <- !bytes_hex_app. }
  assert (is_bytes ([219; 0; p1; len fr] ++ fr)) as Hrb.
  { rewrite is_bytes_app. split; [|done]. unfold is_bytes. rewrite !list.Forall_cons, list.Forall_nil. unfold is_byte in *. split_and!; lia || done. }
  by rewrite (send_logged 128 x).
Qed.

(** The commands for consecutive fragments: the first one is marked. *)
Fixpoint set_data_pdus (x : Z) (first : bool) (frs : list bytes) : list bytes :=
  match frs with
  | [] => []
  | fr :: frs => set_data_pdu x first fr :: set_data_pdus x false frs
  end.

Lemma set_loop_ok fuel : ∀ x c remaining first last,
  scp c = None → lchan_nr_to_cla 128 (lchan_nr c) = Ok x → is_byte x → is_bytes remaining →
  (length remaining <= fuel)%nat →
  ∃ frs, concat frs = remaining ∧ Forall (λ fr, 1 <= len fr <= 255) frs ∧
    set_loop sc l_link fuel remaining first last c
    = (Ok (if 0 <? len remaining then Some (lit "62", sw9000) else last), sent (set_data_pdus x first frs) c).
Proof.
  induction fuel as [|fuel IH]; intros x c remaining first last Hs Hl Hx Hb Hf.
  { destruct remaining; [|cbn in Hf; lia]. exists []. split_and!; [done|by constructor|]. cbn.
    unfold sent. rewrite app_nil_r. by destruct c. }
  cbn [set_loop]. destruct (Z.ltb_spec 0 (len remaining)) as [Hlt|Hge].
  - assert (max_cmd_len sc c = 255) as Em by (unfold max_cmd_len; by rewrite Hs).
    mrun. rewrite Em. change (Z.to_nat 255) with 255%nat.
    set (fr := take 255 remaining).
    assert (1 <= len fr <= 255) as Hfr by (unfold fr, len in *; rewrite length_take; lia).
    rewrite (set_one x) by (done || lia || by apply is_bytes_take). mrun.
    assert (max_cmd_len sc (sent [set_data_pdu x first fr] c) = 255) as -> by (unfold max_cmd_len; cbn; by rewrite Hs).
    destruct (IH x (sent [set_data_pdu x first fr] c) (drop 255 remaining) false (Some (lit "62", sw9000)))
      as (frs & Ec & Hfrs & E); try done.
    { by apply is_bytes_drop. }
    { rewrite length_drop. unfold len in Hlt. lia. }
    exists (fr :: frs). split_and!; [cbn [concat]; unfold fr; by rewrite Ec, take_drop|by constructor|].
    change (Z.to_nat 255) with 255%nat. rewrite E. destruct (0 <? _); unfold sent; cbn; by rewrite <- app_assoc.
  - destruct remaining; [|rewrite len_cons in Hge; pose proof (len_nonneg remaining); lia].
    exists []. split_and!; [done|by constructor|]. cbn. unfold sent. rewrite app_nil_r. by destruct c.
Qed.

Lemma select_logged a y c fid :
  scp c = None → cla_byte c = bytes_hex [a] → sel_ctrl c = lit "0000" → is_byte a → is_byte y →
  lchan_nr_to_cla a (lchan_nr c) = Ok y → is_bytes fid →
  select_path sc l_link [bytes_hex fid] c = (Ok [lit "62"], sent [[y; 164; 0; 0; 2] ++ fid ++ [0]] c).
Proof.
  intros Hs Hc Hsel Ha Hy Hl Hf. unfold select_path. cbn [map_m]. mrun. unfold select_file, select_pdu. mrun.
  rewrite Hsel, Hc. change (lit "a4" ++ lit "0000" ++ lit "02" ++ bytes_hex fid ++ lit "00")
    with (bytes_hex [164; 0; 0; 2] ++ bytes_hex fid ++ bytes_hex [0]). rewrite <- !bytes_hex_app.
  rewrite (send_logged a y) by (done || (rewrite !is_bytes_app; split_and!; [bytes_tac|done|bytes_tac])). done.
Qed.

(** A value stored in a BER-TLV file is cut into commands of at most 255
    bytes whose data, put together, is tag, BER length and value; the first
    command and no other is marked as first. *)
Theorem set_data_fragments a x y c fid tag v :
  scp c = None → cla_byte c = bytes_hex [a] → sel_ctrl c = lit "0000" → is_byte a → is_byte x → is_byte y →
  lchan_nr_to_cla a (lchan_nr c) = Ok y → lchan_nr_to_cla 128 (lchan_nr c) = Ok x →
  is_bytes fid → is_byte tag → is_bytes v → v ≠ [] → is_bytes (bertlv_encode_len (len v)) →
  ∃ frs, concat frs = [tag] ++ bertlv_encode_len (len v) ++ v ∧ Forall (λ fr, 1 <= len fr <= 255) frs ∧
    set_data sc l_link [bytes_hex fid] tag (bytes_hex v) c
    = (Ok (Some (lit "62"), sw9000),
       sent (([y; 164; 0; 0; 2] ++ fid ++ [0]) :: set_data_pdus x true frs) c).
Proof.
  intros Hs Hc Hsel Ha Hx Hy Hla Hl Hf Ht Hv Hne Hlb. unfold set_data. mrun.
  rewrite (select_logged a y) by done. mrun. change (zidx [?z] (-1)) with (Ok z : result str). mrun.
  rewrite bool_decide_eq_false_2 by done. rewrite bool_decide_eq_false_2.
  2: { intros E. apply (f_equal length) in E. rewrite length_bytes_hex in E. destruct v; [done|cbn in E; lia]. }
  assert (len (bytes_hex v) / 2 = len v) as -> by (unfold len; rewrite length_bytes_hex; dlia).
  set (tlv := [tag] ++ bertlv_encode_len (len v) ++ v).
  assert (is_bytes tlv) as Htlv by (unfold tlv; rewrite !is_bytes_app; split_and!; [by constructor|done|done]).
  assert ((fmt_x 2 tag ++ b2h (bertlv_encode_len (len v))) ++ bytes_hex v = b2h tlv) as ->.
  { rewrite !b2h_hex by done. unfold is_byte in Ht. rewrite hex_byte by lia.
    unfold tlv. by rewrite !bytes_hex_app, <- app_assoc. }
  rewrite h2b_b2h by done. mrun.
  destruct (set_loop_ok (length tlv) x (sent [[y; 164; 0; 0; 2] ++ fid ++ [0]] c) tlv true None) as (frs & E1 & E2 & E3); try done.
  exists frs. split_and!; [done|done|]. rewrite E3. mrun.
  assert (0 <? len tlv = true) as -> by (apply Z.ltb_lt; unfold tlv; cbn [app]; unfold len; cbn [length]; lia).
  mrun. cbn [fst snd]. unfold sent. cbn. by rewrite <- app_assoc.
Qed.
End set_data_facts.

(** ** Durations *)

Definition unit_of (secs : Z) : Z :=
  if 10 * day <=? secs then 10 * day else if day <=? secs then day
  else if 3600 <=? secs then 3600 else if 60 <=? secs then 60 else 1.

(** A duration of less than 2560 days is sent to the card in four hex
    digits and read back rounded down to its unit. *)
Theorem duration_round_trip `{OsmocomUtilsLaws} secs :
  0 <= secs < 2560 * day →
  length (encode_duration secs) = 4%nat ∧ decode_duration (encode_duration secs) = Ok (secs / unit_of secs * unit_of secs).
Proof.
  intros Hs.
  assert (∀ t n u, t ∈ [0; 1; 2; 3; 4] → 0 <= n < 256 →
    u = (if t =? 4 then 10 * day else if t =? 3 then day else if t =? 2 then 3600 else if t =? 1 then 60 else 1) →
    length (bytes_hex [t] ++ fmt_x 2 n) = 4%nat ∧ decode_duration (bytes_hex [t] ++ fmt_x 2 n) = Ok (n * u)) as Hd.
  { intros t n u Ht Hn ->. rewrite hex_byte, <- bytes_hex_app by done. cbn [app]. split; [by rewrite length_bytes_hex|].
    unfold decode_duration. rewrite (bytes_hex_slice 0 1 [t; n] : slice 0 2 _ = bytes_hex [t]).
    rewrite (bytes_hex_slice 1 2 [t; n] : slice 2 4 _ = bytes_hex [n]).
    rewrite h2i_hex by apply is_hexstr_bytes_hex. rewrite fromhex_hex by (by constructor). mrun.
    unfold idx. cbn [lookup list_lookup from_opt]. mrun. rewrite !elem_of_cons in Ht.
    destruct Ht as [->|[->|[->|[->|[->|Ht]]]]]; [..|by apply elem_of_nil in Ht]; cbn; f_equal; lia. }
  unfold encode_duration, unit_of. unfold day in *.
  repeat (match goal with |- context [if ?x <=? ?y then _ else _] => destruct (Z.leb_spec x y) end).
  - apply (Hd 4); [set_solver|dlia|done].
  - apply (Hd 3); [set_solver|dlia|done].
  - apply (Hd 2); [set_solver|dlia|done].
  - apply (Hd 1); [set_solver|dlia|done].
  - rewrite Z.div_1_r. apply (Hd 0); [set_solver|lia|done].
Qed.

(** ** Concrete runs *)

Module CommandsRun.
Import Ref TransportRun.
#[local] Instance no_tlv : PyTlv := λ _ _, Err KeyError.
Definition clear_channel : SecureChannel unit := mkSecureChannel 0 mret (λ _, mret).
Definition f0 : FCard := mkFCard (replicate 600 17) 10.
Definition c0 : SimCardCommands unit FCard := mkCommands (lit "0000") 1 (lit "a0") None f0.

Lemma c0_plain : plain 160 161 c0.
Proof. by split. Qed.

Ltac run_bytes := by apply (bool_decide_unpack _); vm_compute.

Lemma read_binary_spec_witness :
  read_binary clear_channel f_link [bytes_hex [111; 7]] (Some 300) 200 c0
  = (Ok (Some (bytes_hex (slice 200 500 (file f0))), sw9000), c0).
Proof.
  apply (read_binary_spec clear_channel 160 161 c0 [111; 7] (Some 300) 200);
    [exact c0_plain|run_bytes|by unfold is_byte|run_bytes|done..].
Defined.

Lemma update_binary_spec_witness :
  update_binary clear_channel f_link [bytes_hex [111; 7]] (bytes_hex (replicate 300 5)) 100 true false c0
  = (Ok (Some (repeat_list 2 (bytes_hex (replicate 300 5))), sw9000), wrote 100 (replicate 300 5) c0).
Proof.
  apply (update_binary_spec clear_channel 160 161 c0 [111; 7] (replicate 300 5) 100 true);
    [exact c0_plain|run_bytes|by unfold is_byte|run_bytes|run_bytes|done..].
Defined.

Lemma set_data_fragments_witness :
  let c := mkCommands (lit "0000") 0 (lit "00") None [] : SimCardCommands unit (list bytes) in
  ∃ frs, concat frs = [128] ++ bertlv_encode_len (len (replicate 300 9)) ++ replicate 300 9 ∧
    Forall (λ fr, 1 <= len fr <= 255) frs ∧
    set_data clear_channel l_link [bytes_hex [111; 7]] 128 (bytes_hex (replicate 300 9)) c
    = (Ok (Some (lit "62"), sw9000), sent (([0; 164; 0; 0; 2] ++ [111; 7] ++ [0]) :: set_data_pdus 128 true frs) c).
Proof.
  intros c. apply (set_data_fragments clear_channel 0 128 0 c [111; 7] 128 (replicate 300 9));
    try done; try (by unfold is_byte); run_bytes.
Defined.

Lemma duration_round_trip_witness :
  length (encode_duration 43200) = 4%nat ∧ decode_duration (encode_duration 43200) = Ok 43200.
Proof. apply (duration_round_trip 43200). done. Defined.

(** A card that answers 63C2 to the PIN and refuses GET RESPONSE. *)
Definition pin_card (tpdu : str) : M unit rsp := λ w,
  (Ok ([], Some (if bool_decide (slice 2 4 tpdu = lit "20") then lit "63c2" else lit "6f00")), w).

Lemma pin_card_gives : gives pin_card (λ s, take 2 s ≠ lit "6c").
Proof.
  intros tpdu w d sw w' [= _ <- _]. eexists. split; [done|]. by destruct (bool_decide _).
Qed.

Lemma chv_tries_never_reported_witness :
  let c := mkCommands (lit "0004") 0 (lit "00") None (mkLink None false 0 ()) : SimCardCommands unit (Link unit) in
  (send_apdu clear_channel (t0_link pin_card 3 (mret 1) (mret [])) (bytes_hex [0; 32; 0; 1; 1; 49]) true c).1
    = Ok ([], Some (lit "6f00")) ∧
  _chv_process_sw (Some (lit "6f00")) ≠ Err RuntimeError.
Proof.
  intros c. split; [reflexivity|].
  apply (chv_tries_never_reported pin_card 3 clear_channel (mret 1) (mret []) (bytes_hex [0; 32; 0; 1; 1; 49]) true c [] _ c);
    [exact pin_card_gives|done|done|reflexivity].
Defined.
End CommandsRun.
