(* ===== verification/Cards.v ===== *)
(** pySim/cards.py: classic SIM and UICC on top of the card commands:
    existence of files, the applications listed in EF.DIR, selection of an
    application, detection of the kind of card. *)

From S2P Require Import Prelude Osmocom Utils Construct Filesystem Transport Commands.

Section cards.
Context `{OsmocomUtils, OsmocomTlv, PyTlv} {Sc Lk : Type} (sc : SecureChannel Sc) (tp : LinkOps Lk).

(** [card_uicc]: is the object a [UiccCardBase] or a [SimCardBase]. *)
Record Card := mkCard { card_scc : SimCardCommands Sc Lk; card_aids : list str; card_uicc : bool }.
Abbreviation K := (M Card).

Definition on_card {A} : M (SimCardCommands Sc Lk) A → K A :=
  zoom card_scc (λ c k, mkCard c (card_aids k) (card_uicc k)).
Definition set_aids (l : list str) : K unit := modify (λ k, mkCard (card_scc k) l (card_uicc k)).

Definition with_parameters (cla ctrl : str) (c : SimCardCommands Sc Lk) : SimCardCommands Sc Lk :=
  mkCommands ctrl (lchan_nr c) cla (scp c) (link c).

Definition set_apdu_parameter (cla ctrl : str) : K unit := on_card (modify (with_parameters cla ctrl)).
Definition get_apdu_parameter : K (str * str) := on_card (gets (λ c, (cla_byte c, sel_ctrl c))).

Definition SimCardBase (c : SimCardCommands Sc Lk) : Card := mkCard (with_parameters (lit "A0") (lit "0000") c) [] false.
Definition UiccCardBase (c : SimCardCommands Sc Lk) : Card := mkCard (with_parameters (lit "00") (lit "0004") c) [] true.

Definition reset : K (option str) :=
  rc ← on_card (Commands.reset_card tp);
  if rc =? 1 then a ← on_card (Commands.get_atr tp); mret (Some a) else mret None.

(** [decode]: [CardProfileUICC.decode_select_response]. Whatever it raises
    is swallowed, as is the lookup in something that is no dict. *)
Definition activated (decode : str → result value) (data : str) : bool :=
  match decode data with
  | Ok (VDict d) =>
      match dict_get "life_cycle_status_integer" d with
      | Some v => is_str v "operational_activated"
      | None => true
      end
  | _ => true
  end.

Definition file_exists (decode : str → result value) (fid : list str) : K bool :=
  res_arr ← on_card (try_select_path sc tp fid []);
  if existsb (λ res, negb (bool_decide (res.2 = Some (lit "9000")))) res_arr then mret false
  else match list.last res_arr with Some r => mret (activated decode r.1) | None => mret true end.

(** [adf in aid_map] *)
Definition _get_aid (adf : str) : option str :=
  let adf := str_lower adf in
  if bool_decide (adf = lit "usim") then Some (lit "a0000000871002")
  else if bool_decide (adf = lit "isim") then Some (lit "a0000000871004")
  else None.

(** [is_hex(s)] with the default bounds *)
Definition is_hex_any (s : str) : bool := is_hex s 2 (length s).

Fixpoint first_with_prefix (aid : str) (l : list str) : option str :=
  match l with
  | [] => None
  | k :: l' => if startswith k aid then Some k else first_with_prefix aid l'
  end.
Definition _complete_aid (aids : list str) (aid : str) : option str :=
  if is_hex_any aid then first_with_prefix aid aids else None.

Definition adf_present (aids : list str) (adf : str) : bool :=
  match _get_aid adf with Some aid => bool_decide (is_Some (filled (_complete_aid aids aid))) | None => false end.

(** The AID of the SELECT command for [adf], if there is one. *)
Definition adf_key (uicc : bool) (aids : list str) (adf : str) : option str :=
  if uicc then
    match filled (if is_hex_any adf then Some adf else _get_aid adf) with
    | Some aid => Some (default aid (filled (_complete_aid aids aid)))
    | None => None
    end
  else None.

(** On the commands of the caller's channel. *)
Definition select_adf_by_aid (uicc : bool) (aids : list str) (adf : str)
    : M (SimCardCommands Sc Lk) (option str * option str) :=
  match adf_key uicc aids adf with
  | Some aid => '(data, sw) ← Commands.select_adf sc tp aid; mret (Some data, sw)
  | None => mret (None, None)
  end.

(** The AID in a record of EF.DIR: tag 61, then tag 4F and its length. *)
Definition record_aid (rec : str) : result (option str) :=
  if bool_decide (slice 0 2 rec = lit "61") && bool_decide (slice 4 6 rec = lit "4f") && (12 <? len rec) then
    n ← py_int 16 (slice 6 8 rec);
    Ok (Some (slice 8 (8 + Z.to_nat (n * 2)) rec))
  else Ok None.

Fixpoint read_aids_loop (fuel : nat) (rec_cnt i : Z) : K unit :=
  match fuel with
  | O => mret ()
  | S f =>
      if i <? rec_cnt then
        rec ← on_card (Commands.read_record sc tp [lit "2f00"] (i + 1));
        a ← lift (record_aid rec.1);
        k ← get;
        match a with
        | Some a => if bool_decide (a ∈ card_aids k) then mret () else set_aids (card_aids k ++ [a])
        | None => mret ()
        end;;
        read_aids_loop f rec_cnt (i + 1)
      else mret ()
  end.

Definition read_aids : K (list str) :=
  k ← get;
  if card_uicc k then
    set_aids [];;
    catch (rec_cnt ← on_card (record_count sc tp [lit "2f00"]);
           read_aids_loop (Z.to_nat rec_cnt) rec_cnt 0)
          (λ e, if bool_decide (e = OutOfFuel) then raise OutOfFuel else set_aids []);;
    gets card_aids
  else mret [].

Definition probe (decode : str → result value) : K bool :=
  k ← get;
  if card_uicc k then file_exists decode [lit "3f00"];; file_exists decode [lit "2f00"]
  else file_exists decode [lit "7f20"].

(** [card_detect]: the commands object is shared by the two attempts. *)
Definition card_detect (decode : str → result value) : M (SimCardCommands Sc Lk) (option Card) := λ c,
  let '(r, k) := probe decode (UiccCardBase c) in
  match r with
  | Err e => (Err e, card_scc k)
  | Ok true => (Ok (Some k), card_scc k)
  | Ok false =>
      let '(r, k) := probe decode (SimCardBase (card_scc k)) in
      match r with
      | Err e => (Err e, card_scc k)
      | Ok true => (Ok (Some k), card_scc k)
      | Ok false => (Ok None, card_scc k)
      end
  end.
End cards.
#[global] Arguments mkCard {Sc Lk}. #[global] Arguments card_scc {Sc Lk}.
#[global] Arguments card_aids {Sc Lk}. #[global] Arguments card_uicc {Sc Lk}.
