(* ===== verification/Runtime.v ===== *)
(** pySim/runtime.py: what the program believes about the card it talks to.
    A [RuntimeLchan] follows the file that is selected on one logical
    channel; [RuntimeState] holds the tree of files and the channels.

    The shell commands that are registered when a file is selected belong to
    the user interface; the methods are modelled without a command
    application ([cmd_app=None]). *)

From S2P Require Import Prelude Osmocom Utils Construct Filesystem Transport Commands Cards.

(** ** Logical channel numbers *)

Definition lchan_nr_from_cla (cla : Z) : result Z :=
  if bool_decide (Z.shiftr cla 4 ∈ [0; 10; 8]) then Ok (Z.land cla 3)
  else if bool_decide (Z.land cla 208 ∈ [64; 192]) then Ok (4 + Z.land cla 15)
  else Err ValueError.

Section runtime.
Context `{OsmocomUtils, OsmocomTlv, PyTlv} {Sc Lk : Type} (sc : SecureChannel Sc) (tp : LinkOps Lk).

(** ** The state of a logical channel

    The attributes of a [RuntimeLchan], and those of its [RuntimeState] and
    of the card that its methods use. The link is in [scc]. *)
Record Lchan := mkLchan {
  files : heap;
  rs_mf : nat;
  rs_uicc : bool;
  rs_aids : list str;
  rs_profile : CardProfile;
  conserve_write : bool;
  scc : SimCardCommands Sc Lk;
  selected_file : nat;
  selected_adf : option nat;
  selected_file_fcp_hex : option str;
  selected_file_fcp : option value }.
Abbreviation L := (M Lchan).

Definition set_files (h : heap) (s : Lchan) : Lchan :=
  mkLchan h (rs_mf s) (rs_uicc s) (rs_aids s) (rs_profile s) (conserve_write s) (scc s) (selected_file s)
    (selected_adf s) (selected_file_fcp_hex s) (selected_file_fcp s).
Definition set_scc (c : SimCardCommands Sc Lk) (s : Lchan) : Lchan :=
  mkLchan (files s) (rs_mf s) (rs_uicc s) (rs_aids s) (rs_profile s) (conserve_write s) c (selected_file s)
    (selected_adf s) (selected_file_fcp_hex s) (selected_file_fcp s).
Definition set_selected_file (f : nat) (s : Lchan) : Lchan :=
  mkLchan (files s) (rs_mf s) (rs_uicc s) (rs_aids s) (rs_profile s) (conserve_write s) (scc s) f
    (selected_adf s) (selected_file_fcp_hex s) (selected_file_fcp s).
Definition set_selected_adf (a : option nat) (s : Lchan) : Lchan :=
  mkLchan (files s) (rs_mf s) (rs_uicc s) (rs_aids s) (rs_profile s) (conserve_write s) (scc s) (selected_file s)
    a (selected_file_fcp_hex s) (selected_file_fcp s).
Definition set_fcp_hex (d : option str) (s : Lchan) : Lchan :=
  mkLchan (files s) (rs_mf s) (rs_uicc s) (rs_aids s) (rs_profile s) (conserve_write s) (scc s) (selected_file s)
    (selected_adf s) d (selected_file_fcp s).
Definition set_fcp (v : option value) (s : Lchan) : Lchan :=
  mkLchan (files s) (rs_mf s) (rs_uicc s) (rs_aids s) (rs_profile s) (conserve_write s) (scc s) (selected_file s)
    (selected_adf s) (selected_file_fcp_hex s) v.

Definition on_scc {A} : M (SimCardCommands Sc Lk) A → L A := zoom scc set_scc.
Definition on_files {A} : H A → L A := zoom files set_files.
Definition look {A} (f : heap → result A) : L A := s ← get; lift (f (files s)).

(** [self.selected_file], as an object *)
Definition selected : L CardFile := s ← get; look (λ h, obj h (selected_file s)).

(** ** Reading the state *)

Definition selected_file_descriptor_byte : L value :=
  s ← get;
  fcp ← lift (from_opt TypeError (selected_file_fcp s));
  fd ← lift (item fcp "file_descriptor");
  lift (item fd "file_descriptor_byte").
Definition selected_file_shareable : L value := b ← selected_file_descriptor_byte; lift (item b "shareable").
Definition selected_file_structure : L value := b ← selected_file_descriptor_byte; lift (item b "structure").
Definition selected_file_type : L value := b ← selected_file_descriptor_byte; lift (item b "file_type").

(** [d.get(k)] *)
Definition get_item (v : value) (k : string) : result value :=
  match v with VDict d => Ok (default VNone (dict_get k d)) | _ => Err AttributeError end.

Definition selected_file_num_of_rec : L value :=
  s ← get;
  fcp ← lift (from_opt TypeError (selected_file_fcp s));
  fd ← lift (item fcp "file_descriptor");
  lift (get_item fd "num_of_rec").
Definition selected_file_record_len : L value :=
  s ← get;
  fcp ← lift (from_opt TypeError (selected_file_fcp s));
  fd ← lift (item fcp "file_descriptor");
  lift (get_item fd "record_len").
Definition selected_file_size : L value :=
  s ← get; fcp ← lift (from_opt AttributeError (selected_file_fcp s)); lift (get_item fcp "file_size").
Definition selected_file_reserved_file_size : L value :=
  s ← get;
  fcp ← lift (from_opt TypeError (selected_file_fcp s));
  p ← lift (item fcp "proprietary_information");
  lift (get_item p "reserved_file_size").
Definition selected_file_maximum_file_size : L value :=
  s ← get;
  fcp ← lift (from_opt TypeError (selected_file_fcp s));
  p ← lift (item fcp "proprietary_information");
  lift (get_item p "maximum_file_size").

(** The DF that is or holds the selected file; None for a file outside every
    tree. *)
Definition get_cwd : L (option nat) :=
  s ← get; f ← selected; mret (if is_df (cls f) then Some (selected_file s) else parent f).

Fixpoint application_above (h : heap) (fuel node : nat) : result (option nat) :=
  match fuel with
  | O => Err OutOfFuel
  | S n =>
      f ← obj h node;
      if decide (parent f = Some node) then Ok None
      else if is_adf (cls f) then Ok (Some node)
      else p ← from_opt AttributeError (parent f); application_above h n p
  end.
Definition get_application_df : L (option nat) :=
  s ← get; look (λ h, application_above h (enough h) (selected_file s)).

Fixpoint resolve_names (h : heap) (pathlist : list str) (file : nat) : result (option nat) :=
  match pathlist with
  | [] => Ok (Some file)
  | p :: pathlist' =>
      sels ← get_selectables h file [];
      match kv_get p sels with Some f => resolve_names h pathlist' f | None => Ok None end
  end.

(** The elements of a path; [/DF.GSM/foo] is [MF/DF.GSM/foo]. *)
Definition split_path (name : str) : list str :=
  match split_on "/"%char name with
  | [] :: v :: l => lit "MF" :: v :: l
  | pathlist => pathlist
  end.

Definition get_file_by_name (name : str) : L (option nat) :=
  cwd ← get_cwd;
  file ← lift (from_opt AttributeError cwd);
  look (λ h, resolve_names h (split_path name) file).

(** The status word tables of the application, then of the profile. *)
Definition lchan_interpret_sw (sw : str) : L (option (str * str)) :=
  adf ← get_application_df;
  res ← (match adf with
         | Some a =>
             f ← look (λ h, obj h a);
             match application f with Some app => lift (interpret_sw (app_sw app) sw) | None => mret None end
         | None => mret None
         end);
  match res with
  | Some r => mret (Some r)
  | None => s ← get; lift (interpret_sw (profile_sw (rs_profile s)) sw)
  end.

(** ** Selecting files *)

Definition _select_post (file : option nat) (select_resp_data : option str) : L unit :=
  match file with
  | None => mret ()
  | Some file =>
      modify (set_selected_file file);;
      f ← selected;
      (if is_adf (cls f) then modify (set_selected_adf (Some file)) else mret ());;
      match filled select_resp_data with
      | Some data =>
          modify (set_fcp_hex (Some data));;
          v ← look (λ h, decode_select_response h file data);
          modify (set_fcp (Some v))
      | None => modify (set_fcp_hex None);; modify (set_fcp None)
      end
  end.

(** The command that selects one file on the card. *)
Definition select_on_card (f : CardFile) : L (option str) :=
  if is_adf (cls f) then
    s ← get;
    '(data, _) ← on_scc (select_adf_by_aid sc tp (rs_uicc s) (rs_aids s) (aid f));
    mret data
  else
    k ← lift (from_opt TypeError (fid f));
    '(data, _) ← on_scc (Commands.select_file sc tp k);
    mret (Some data).

(** [except SwMatchError]: record how far the selection got. *)
Fixpoint walk_path (inter_path : list nat) (selected_file : nat) (data : option str) : L (nat * option str) :=
  match inter_path with
  | [] => mret (selected_file, data)
  | f :: inter_path' =>
      ff ← look (λ h, obj h f);
      data' ← catch (select_on_card ff)
        (λ e, match e with
              | SwMatchError _ _ => _select_post (Some selected_file) data;; raise e
              | _ => raise e
              end);
      walk_path inter_path' f data'
  end.

Definition probed_class (resp : value) : result file_class :=
  fd ← item resp "file_descriptor";
  b ← item fd "file_descriptor_byte";
  t ← item b "file_type";
  if is_str t "df" then Ok CardDF
  else
    s ← item b "structure";
    Ok (if is_str s "transparent" then TransparentEF else LinFixedEF).

Definition probed_args (c : file_class) (fid : str) : file_args :=
  {| a_fid := Some fid; a_sfid := None;
     a_name := Some (lit (if is_df c then "DF." else "EF.") ++ str_upper fid);
     a_parent := None; a_profile := None; a_service := None |}.

Definition probe_file (fid : str) : L unit :=
  lift (guard_else (is_hex fid 4 4) ValueError);;
  '(data, _) ← catch (on_scc (Commands.select_file sc tp fid))
    (λ e, match e with
          | SwMatchError sw _ =>
              _select_post None None;;
              k ← lchan_interpret_sw sw;
              match k with None => raise e | Some _ => raise RuntimeError end
          | _ => raise e
          end);
  s ← get;
  select_resp ← look (λ h, decode_select_response h (selected_file s) data);
  c ← lift (probed_class select_resp);
  f ← on_files (new_file c (probed_args c fid));
  on_files (add_files (selected_file s) [f] false);;
  _select_post (Some f) (Some data).

(** [except Exception as e: handle; raise e]; fuel that ran out is no
    exception of the program. *)
Definition on_exception {A} (m : L A) (handle : L unit) : L A :=
  catch m (λ e, if bool_decide (e = OutOfFuel) then raise e else handle;; raise e).

(** The first application of the card that has a file system. *)
Fixpoint escape_route (h : heap) (sels : list nat) : result (option CardFile) :=
  match sels with
  | [] => Ok None
  | i :: sels' =>
      f ← obj h i;
      if is_adf (cls f) && has_fs f then Ok (Some f) else escape_route h sels'
  end.

(** Is the channel in an application without files, and [f] no application. *)
Definition trapped (h : heap) (s : Lchan) (f : CardFile) : result bool :=
  match selected_adf s with
  | Some a => af ← obj h a; Ok (negb (is_adf (cls f)) && negb (has_fs af))
  | None => Ok false
  end.

(** [RuntimeLchan.select_file], where [select] is the method it calls to get
    out of an application without files. *)
Definition select_file_with (select : str → L (option value)) (file : nat) : L unit :=
  f ← look (λ h, obj h file);
  s ← get;
  t ← look (λ h, trapped h s f);
  (if t : bool then
     sels ← look (λ h, get_selectables h (rs_mf s) []);
     adf ← look (λ h, escape_route h sels.*2);
     match adf with
     | Some a => nm ← lift (from_opt TypeError (name a)); select nm;; mret ()
     | None => mret ()
     end
   else mret ());;
  s ← get;
  inter_path ← look (λ h, build_select_path_to h (selected_file s) file);
  match inter_path with
  | Some (x :: p) =>
      '(f', data) ← walk_path (x :: p) (selected_file s) (selected_file_fcp_hex s);
      _select_post (Some f') data
  | _ => raise RuntimeError
  end.

(** [RuntimeLchan.select], with the methods it calls. *)
Definition select_with (select : str → L (option value)) (select_file : nat → L unit) (name : str) : L (option value) :=
  s ← get;
  let prev_sel_file := selected_file s in
  if bool_decide ("/"%char ∈ name) then
    on_exception (for_each (split_path name) (λ p, select p;; mret ())) (select_file prev_sel_file);;
    gets selected_file_fcp
  else
    sels ← look (λ h, get_selectables h prev_sel_file []);
    let name := if is_hex_any name then str_lower name else name in
    on_exception (match kv_get name sels with Some f => select_file f | None => probe_file name end)
      (select_file prev_sel_file);;
    gets selected_file_fcp.

(** The two methods call each other; the fuel bounds the nesting. *)
Fixpoint select_file (fuel : nat) (file : nat) : L unit :=
  match fuel with O => raise OutOfFuel | S n => select_file_with (select n) file end
with select (fuel : nat) (name : str) : L (option value) :=
  match fuel with O => raise OutOfFuel | S n => select_with (select n) (select_file n) name end.

(** ** Access to the selected file *)

Definition status : L value :=
  '(data, _) ← on_scc (Commands.status sc tp);
  s ← get;
  look (λ h, decode_select_response h (selected_file s) data).

Definition get_file_for_filename (name : str) : L nat :=
  s ← get;
  sels ← look (λ h, get_selectables h (selected_file s) []);
  lift (from_opt KeyError (kv_get name sels)).

Definition activate_file (name : str) : L rsp :=
  i ← get_file_for_filename name;
  f ← look (λ h, obj h i);
  k ← lift (from_opt TypeError (fid f));
  on_scc (Commands.activate_file sc tp k).

(** [isinstance(self.selected_file, ...)], else TypeError; then the path the
    card commands select first. *)
Definition selected_as (p : file_class → bool) : L (list str) :=
  f ← selected;
  lift (guard_else (p (cls f)) TypeError);;
  k ← lift (from_opt TypeError (fid f));
  mret [k].

Definition read_binary (length : option Z) (offset : Z) : L (option str * option str) :=
  ef ← selected_as is_transparent; on_scc (Commands.read_binary sc tp ef length offset).

Definition update_binary (data_hex : str) (offset : Z) : L (option str * option str) :=
  ef ← selected_as is_transparent;
  s ← get;
  on_scc (Commands.update_binary sc tp ef data_hex offset false (conserve_write s)).

Definition read_record (rec_nr : Z) : L rsp :=
  ef ← selected_as is_linear_fixed; on_scc (Commands.read_record sc tp ef rec_nr).

(** [leftpad]: the attribute of the selected file. *)
Definition update_record (leftpad : bool) (rec_nr : Z) (data_hex : str) : L (option str * option str) :=
  ef ← selected_as is_linear_fixed;
  s ← get;
  on_scc (Commands.update_record sc tp ef rec_nr data_hex false false (conserve_write s) leftpad).

Definition retrieve_data (fuel : nat) (tag : Z) : L (option str * option str) :=
  ef ← selected_as is_ber_tlv; on_scc (Commands.retrieve_data sc tp fuel ef tag).

Definition retrieve_tags (fuel : nat) : L (list Z) :=
  ef ← selected_as is_ber_tlv;
  '(data, _) ← on_scc (Commands.retrieve_data sc tp fuel ef 92);
  d ← lift (from_opt TypeError data);
  b ← lift (h2b d);
  '(_, _, value, _) ← lift (bertlv_parse_one b);
  mret value.

Definition set_data (tag : Z) (data_hex : str) : L (option str * option str) :=
  ef ← selected_as is_ber_tlv; on_scc (Commands.set_data sc tp ef tag data_hex).

(** ** The state of a session *)

(** The attributes of one [RuntimeLchan]; its link is that of the card. *)
Record LchanData := mkLchanData {
  d_scc : SimCardCommands Sc Lk;
  d_selected_file : nat;
  d_selected_adf : option nat;
  d_fcp_hex : option str;
  d_fcp : option value }.

Record RuntimeState := mkRuntimeState {
  st_files : heap;
  st_mf : nat;
  st_card : Card (Sc := Sc) (Lk := Lk);
  st_profile : CardProfile;
  st_conserve_write : bool;
  st_lchan : gmap Z LchanData;
  st_adm_verified : bool;
  st_atr : option (option str) }.
Abbreviation R := (M RuntimeState).

Definition set_lchan (m : gmap Z LchanData) (r : RuntimeState) : RuntimeState :=
  mkRuntimeState (st_files r) (st_mf r) (st_card r) (st_profile r) (st_conserve_write r) m (st_adm_verified r) (st_atr r).
Definition set_card (k : Card) (r : RuntimeState) : RuntimeState :=
  mkRuntimeState (st_files r) (st_mf r) k (st_profile r) (st_conserve_write r) (st_lchan r) (st_adm_verified r) (st_atr r).
Definition set_adm (b : bool) (r : RuntimeState) : RuntimeState :=
  mkRuntimeState (st_files r) (st_mf r) (st_card r) (st_profile r) (st_conserve_write r) (st_lchan r) b (st_atr r).
Definition set_atr (a : option str) (r : RuntimeState) : RuntimeState :=
  mkRuntimeState (st_files r) (st_mf r) (st_card r) (st_profile r) (st_conserve_write r) (st_lchan r) (st_adm_verified r) (Some a).

(** The commands object [c] on the link of the commands object [l]. *)
Definition with_link (c l : SimCardCommands Sc Lk) : SimCardCommands Sc Lk :=
  mkCommands (sel_ctrl c) (lchan_nr c) (cla_byte c) (scp c) (link l).

(** The state a method of channel [d] works on, and back. *)
Definition enter (r : RuntimeState) (d : LchanData) : Lchan :=
  mkLchan (st_files r) (st_mf r) (card_uicc (st_card r)) (card_aids (st_card r)) (st_profile r) (st_conserve_write r)
    (with_link (d_scc d) (card_scc (st_card r))) (d_selected_file d) (d_selected_adf d) (d_fcp_hex d) (d_fcp d).
Definition leave (nr : Z) (s : Lchan) (r : RuntimeState) : RuntimeState :=
  let k := st_card r in
  mkRuntimeState (files s) (st_mf r) (mkCard (with_link (card_scc k) (scc s)) (card_aids k) (card_uicc k)) (st_profile r)
    (st_conserve_write r)
    (<[nr := mkLchanData (scc s) (selected_file s) (selected_adf s) (selected_file_fcp_hex s) (selected_file_fcp s)]> (st_lchan r))
    (st_adm_verified r) (st_atr r).

Definition on_lchan {A} (nr : Z) (m : L A) : R A := λ r,
  match st_lchan r !! nr with
  | None => (Err KeyError, r)
  | Some d => let '(a, s) := m (enter r d) in (a, leave nr s r)
  end.

(** [RuntimeLchan(lchan_nr, self)] *)
Definition new_lchan (nr : Z) (r : RuntimeState) : LchanData :=
  mkLchanData (fork_lchan nr (card_scc (st_card r))) (st_mf r) None None None.

(** [RuntimeState.add_lchan] *)
Definition rs_add_lchan (nr : Z) : R LchanData :=
  r ← get;
  match st_lchan r !! nr with
  | Some _ => raise ValueError
  | None =>
      let d := new_lchan nr r in
      modify (set_lchan (<[nr := d]> (st_lchan r)));;
      mret d
  end.

(** [RuntimeLchan.add_lchan] of channel [from] *)
Definition add_lchan (from nr : Z) : R unit :=
  d ← rs_add_lchan nr;
  if from =? 0 then mret ()
  else
    cwd ← on_lchan from get_cwd;
    cwd ← lift (from_opt AttributeError cwd);
    r ← get;
    f ← lift (from_opt KeyError (st_lchan r !! from));
    modify (set_lchan (<[nr := mkLchanData (d_scc d) cwd (d_selected_adf f) (d_fcp_hex d) (d_fcp d)]> (st_lchan r))).

Definition del_lchan (nr : Z) : R bool :=
  r ← get;
  match st_lchan r !! nr with
  | Some _ => modify (set_lchan (delete nr (st_lchan r)));; mret true
  | None => mret false
  end.

Definition get_lchan_by_cla (cla : Z) : R (option Z) :=
  nr ← lift (lchan_nr_from_cla cla);
  r ← get;
  mret (match st_lchan r !! nr with Some _ => Some nr | None => None end).

(** Forget the secure channel. *)
Definition no_scp (d : LchanData) : LchanData :=
  let c := d_scc d in
  mkLchanData (mkCommands (sel_ctrl c) (lchan_nr c) (cla_byte c) None (link c)) (d_selected_file d) (d_selected_adf d)
    (d_fcp_hex d) (d_fcp d).

Definition on_rs_card {A} : M Card A → R A := zoom st_card set_card.

Definition rs_reset (fuel : nat) : R (option str) :=
  modify (λ r, set_lchan (no_scp <$> filter (λ kv, kv.1 = 0) (st_lchan r)) r);;
  modify (set_adm false);;
  atr ← on_rs_card (Cards.reset tp);
  on_lchan 0 (select fuel (lit "MF"));;
  on_lchan 0 (modify (set_selected_adf None));;
  modify (set_atr atr);;
  mret atr.

(** ** Setting a session up

    An application of the profile with its ADF, and an add-on with its test
    and its files; both exist before the session. *)
Record AppEntry := { entry_app : CardApplication; entry_adf : option nat }.
Record Addon := { addon_probe : M (Card (Sc := Sc) (Lk := Lk)) bool; addon_files : list nat }.

(** [f.aid in a] for every AID of the card and every application: the
    applications found, by their index in the profile, in the order found. *)
Fixpoint apps_in (a : str) (apps : list AppEntry) (i : nat) : result (list nat) :=
  match apps with
  | [] => Ok []
  | f :: apps' =>
      x ← from_opt TypeError (app_aid (entry_app f));
      r ← apps_in a apps' (S i);
      Ok (if str_in x a then i :: r else r)
  end.
Fixpoint apps_on_card (aids : list str) (apps : list AppEntry) : result (list nat) :=
  match aids with
  | [] => Ok []
  | a :: aids' => here ← apps_in a apps 0; r ← apps_on_card aids' apps; Ok (here ++ r)
  end.

(** [sorted(set(apps_profile) - set(apps_taken), key=str)] *)
Fixpoint insert_app (apps : list AppEntry) (i : nat) (l : list nat) : list nat :=
  let text j := match apps !! j with Some f => lit "APP(" ++ app_name (entry_app f) ++ lit ")" | None => [] end in
  match l with
  | [] => [i]
  | j :: l' => if str_leb (text i) (text j) then i :: l else j :: insert_app apps i l'
  end.
Definition apps_left (apps : list AppEntry) (taken : list nat) : list nat :=
  foldr (insert_app apps) [] (filter (λ i, i ∉ taken) (seq 0 (length apps))).

(** Applications that are not registered in EF.DIR are looked for. *)
Fixpoint probe_apps (apps : list AppEntry) (l taken : list nat) : M (Card (Sc := Sc) (Lk := Lk)) (list nat) :=
  match l with
  | [] => mret taken
  | i :: l' =>
      f ← lift (from_opt IndexError (apps !! i));
      x ← lift (from_opt AttributeError (app_aid (entry_app f)));
      k ← get;
      sw ← catch ('(_, sw) ← on_card (select_adf_by_aid sc tp (card_uicc k) (card_aids k) x); mret sw)
             (λ e, match e with
                   | SwMatchError _ _ => mret None
                   | LibError n => if String.eqb n "ProtocolError" then mret None else raise e
                   | _ => raise e
                   end);
      probe_apps apps l' (if bool_decide (sw = Some (lit "9000")) then taken ++ [i] else taken)
  end.

Definition _match_applications (apps : list AppEntry) : R (list nat) :=
  if bool_decide (length apps = O) then mret []
  else
    aids_card ← on_rs_card (read_aids sc tp);
    taken ← lift (apps_on_card aids_card apps);
    on_rs_card (probe_apps apps (apps_left apps taken) taken).

Definition on_rs_files {A} : H A → R A :=
  zoom st_files (λ h r, mkRuntimeState h (st_mf r) (st_card r) (st_profile r) (st_conserve_write r) (st_lchan r)
                          (st_adm_verified r) (st_atr r)).

(** The rest of [RuntimeState.__init__], from the MF and channel 0 on. *)
Definition rs_setup (fuel : nat) (apps : list AppEntry) (addons : list Addon) (files_in_mf : list nat) : R unit :=
  r ← get;
  let mf := st_mf r in
  on_rs_card (set_apdu_parameter (profile_cla (st_profile r)) (profile_sel_ctrl (st_profile r)));;
  on_lchan 0 (select fuel (lit "MF"));;
  for_each addons (λ a,
    found ← on_rs_card (addon_probe a);
    if (found : bool) then for_each (addon_files a) (λ f, on_rs_files (add_file mf f false)) else mret ());;
  on_lchan 0 (select fuel (lit "MF"));;
  taken ← _match_applications apps;
  for_each taken (λ i,
    match apps !! i with
    | Some f => match entry_adf f with Some a => on_rs_files (add_application_df mf a) | None => mret () end
    | None => mret ()
    end);;
  for_each files_in_mf (λ f, on_rs_files (add_file mf f false));;
  rs_reset fuel;;
  mret ().

(** [RuntimeState(card, profile)] in the heap [h]. *)
Definition new_runtime_state (fuel : nat) (h : heap) (card : Card) (p : CardProfile) (apps : list AppEntry)
    (addons : list Addon) (files_in_mf : list nat) : result unit * RuntimeState :=
  let '(r, h) := new_mf (Some p) h in
  let mf := match r with Ok i => i | Err _ => O end in
  let rs := mkRuntimeState h mf card p true ∅ false None in
  let rs := set_lchan {[ 0 := new_lchan 0 rs ]} rs in
  match r with Err e => (Err e, rs) | Ok _ => rs_setup fuel apps addons files_in_mf rs end.
End runtime.

(** ** Properties that need no card *)

Definition all_cla : list Z := seqZ 0 256.
Definition all_lchan : list Z := seqZ 0 16.

(** For every class byte and channel: the channel is read back from the
    class byte made for it, except on extended channels when bit 5 of the
    class byte is set. *)
Definition lchan_read_back (cla n : Z) : bool :=
  match lchan_nr_to_cla cla n with
  | Ok c => bool_decide (lchan_nr_from_cla c = if (4 <=? n) && bit cla 4 then Err ValueError else Ok n)
  | Err _ => true
  end.

Lemma all_lchans_read_back : forallb (λ cla, forallb (lchan_read_back cla) all_lchan) all_cla = true.
Proof. vm_compute. reflexivity. Qed.

Theorem lchan_nr_round_trip cla n c : 0 <= cla < 256 → 0 <= n → lchan_nr_to_cla cla n = Ok c →
  lchan_nr_from_cla c = if (4 <=? n) && bit cla 4 then Err ValueError else Ok n.
Proof.
  intros Hcla Hn E. assert (n < 16) as Hn16.
  { unfold lchan_nr_to_cla in E. repeat case_match; simplify_eq; rewrite ?Z.ltb_lt in *; lia. }
  pose proof all_lchans_read_back as Hall. rewrite forallb_forall in Hall.
  specialize (Hall cla). rewrite forallb_forall in Hall.
  assert (lchan_read_back cla n = true) as Hb.
  { apply Hall; apply list_elem_of_In, elem_of_seqZ; lia. }
  unfold lchan_read_back in Hb. rewrite E in Hb. by apply bool_decide_eq_true in Hb.
Qed.

Lemma lchan_nr_round_trip_witness : lchan_nr_from_cla 131 = Ok 3 ∧ lchan_nr_from_cla 91 = Err ValueError.
Proof.
  split.
  - apply (lchan_nr_round_trip 128 3 131); [lia|lia|vm_compute; reflexivity].
  - apply (lchan_nr_round_trip 80 15 91); [lia|lia|vm_compute; reflexivity].
Defined.

(** Two applications on the card that contain the AID of one application of
    the profile match it twice. *)
Lemma matched_twice a b (f : AppEntry) x : app_aid (entry_app f) = Some x → str_in x a = true → str_in x b = true →
  apps_on_card [a; b] [f] = Ok [0; 0]%nat.
Proof. intros E Ha Hb. cbn. rewrite E. cbn. by rewrite Ha, Hb. Qed.

(** The second time the ADF is added, ValueError ends the constructor of
    the session: a card with two USIM applications cannot be used. *)
Lemma added_twice mf a (h h' : heap) : add_application_df mf a h = (Ok (), h') →
  (add_application_df mf a h').1 = Err ValueError.
Proof.
  unfold add_application_df. mrun. destruct (obj h mf) as [f|] eqn:Ef; mrun; [|done]. apply obj_inv in Ef.
  destruct (is_mf (cls f)) eqn:Em; mrun; [|done].
  destruct (obj h a) as [af|] eqn:Ea; mrun; [|done]. apply obj_inv in Ea.
  destruct (is_adf (cls af)) eqn:Eadf; mrun; [|done].
  destruct (bool_decide (is_Some (kv_get (aid af) (applications f)))) eqn:Eg; cbn [negb]; mrun; [done|].
  assert (a ≠ mf) as Hne by (intros ->; simplify_eq; by destruct (cls f)).
  rewrite (update_obj_ok _ _ _ _ Ef). mrun.
  rewrite (update_obj_ok a _ _ af) by by rewrite lookup_insert_ne. intros [= <-].
  rewrite (obj_ok _ mf _) by (rewrite lookup_insert_ne by done; apply lookup_insert_eq). mrun. cbn [set_applications cls].
  rewrite Em. mrun. rewrite (obj_ok _ _ _ (lookup_insert_eq _ _ _)). mrun. cbn [set_parent cls aid]. rewrite Eadf. mrun.
  rewrite bool_decide_true; [done|]. cbn [applications set_applications]. rewrite kv_get_set, decide_True by done. eauto.
Qed.

(** The class byte and the selection control of the profile do not reach
    channel 0, which has its own commands object by then. *)
Lemma parameters_miss_channel_0 {Sc Lk} cla ctrl (r : RuntimeState (Sc := Sc) (Lk := Lk)) :
  st_lchan (on_rs_card (set_apdu_parameter cla ctrl) r).2 = st_lchan r.
Proof. reflexivity. Qed.
