(* ===== verification/Navigation.v ===== *)
(** The file a logical channel is believed to have selected is the file the
    card has selected. [FileCard] states what a card promises about SELECT
    (ETSI TS 102 221, 8.4 and 11.1.1); against this interface [select] is
    shown to move the card and the channel together, to the file meant or,
    on any error, back to where it was. [RefCard] is a card with these
    properties. *)

From S2P Require Import Prelude Osmocom Utils Construct Filesystem Transport Commands Cards Runtime.

(** ** What a card does on SELECT

    A file of the card is named by the identifiers from the MF, or from its
    application, down to it. *)
Definition pos : Type := list str.

Record card_fs := { on_card_ : pos → bool; card_df : pos → bool }.

Section resolution.
Context (fs : card_fs).

Definition card_cwd (p : pos) : pos := if card_df fs p then p else removelast p.

(** The file a FID names while [p] is selected: the MF, a child of the
    current directory, this directory, its parent, a directory next to it. *)
Definition resolve (p : pos) (fid : str) : option pos :=
  let cwd := card_cwd p in
  if bool_decide (fid = lit "3f00") then Some [lit "3f00"]
  else if on_card_ fs (cwd ++ [fid]) then Some (cwd ++ [fid])
  else if bool_decide (list.last cwd = Some fid) then Some cwd
  else if bool_decide (1 < length cwd)%nat then
    if bool_decide (list.last (removelast cwd) = Some fid) then Some (removelast cwd)
    else if on_card_ fs (removelast cwd ++ [fid]) && card_df fs (removelast cwd ++ [fid]) then Some (removelast cwd ++ [fid])
    else None
  else None.

(** The file systems the specification allows: files are in directories that
    exist, and no file has the identifier of the MF, of its directory or of
    the directory above. *)
Record card_fs_ok : Prop := {
  fs_root : on_card_ fs [lit "3f00"] = true ∧ card_df fs [lit "3f00"] = true;
  fs_parent : ∀ p f, p ≠ [] → on_card_ fs (p ++ [f]) = true → on_card_ fs p = true ∧ card_df fs p = true;
  fs_ids : ∀ p f, p ≠ [] → on_card_ fs (p ++ [f]) = true →
    f ≠ lit "3f00" ∧ list.last p ≠ Some f ∧ list.last (removelast p) ≠ Some f }.
End resolution.

(** [at_pos c p]: the card behind the commands [c] has [p] selected. *)
Class FileCard `{OsmocomUtils} {Sc Lk : Type} (sc : SecureChannel Sc) (tp : LinkOps Lk) := {
  fs : card_fs;
  fs_ok : card_fs_ok fs;
  at_pos : SimCardCommands Sc Lk → pos → Prop;
  at_exists c p : at_pos c p → on_card_ fs p = true;
  select_found c p k q : at_pos c p → length k = 4%nat → resolve fs p k = Some q →
    ∃ d c', Commands.select_file sc tp k c = (Ok d, c') ∧ at_pos c' q;
  select_missing c p k : at_pos c p → length k = 4%nat → resolve fs p k = None →
    ∃ a e c', Commands.select_file sc tp k c = (Err (SwMatchError a e), c') ∧ at_pos c' p;
  adf_found c p x : at_pos c p → on_card_ fs [x] = true →
    ∃ d c', Commands.select_adf sc tp x c = (Ok d, c') ∧ at_pos c' [x];
  adf_missing c p x : at_pos c p → on_card_ fs [x] = false →
    ∃ a e c', Commands.select_adf sc tp x c = (Err (SwMatchError a e), c') ∧ at_pos c' p }.

(** ** The files of the model, as files of the card *)

Section positions.
Context `{OsmocomUtils} (uicc : bool) (aids : list str) (h : heap).

Inductive pos_of : nat → pos → Prop :=
| pos_mf i f : h !! i = Some f → is_mf (cls f) = true → pos_of i [lit "3f00"]
| pos_adf i f x : h !! i = Some f → is_adf (cls f) = true → adf_key uicc aids (aid f) = Some x → pos_of i [x]
| pos_file i f p k l :
    h !! i = Some f → is_mf (cls f) = false → is_adf (cls f) = false → parent f = Some p → p ≠ i →
    fid f = Some k → pos_of p l → pos_of i (l ++ [k]).

Lemma pos_of_det i p : pos_of i p → ∀ q, pos_of i q → p = q.
Proof.
  induction 1 as [i f Hf Hm|i f x Hf Ha Hx|i f p k l Hf Hm Ha Hp Hne Hk Hl IH]; intros q Hq; inversion Hq; simplify_eq; try congruence;
    try by destruct (cls f).
  f_equal. by apply IH.
Qed.

Lemma pos_of_ne i p : pos_of i p → p ≠ [].
Proof. destruct 1; [done..|]. by destruct l. Qed.
End positions.

(** ** The model and the card fit together

    [agrees]: directories of the model are directories on the card; the AIDs
    of the model can be selected; a file the model lists but the card lacks
    is not found under its FID, and no file is found that the model does not
    list. *)
Record agrees `{OsmocomUtils} (fs : card_fs) (uicc : bool) (aids : list str) (h : heap) (mf : nat) : Prop := {
  ag_wf : wf h;
  ag_mf : ∀ i f, in_tree h mf i → h !! i = Some f → is_mf (cls f) = true → fid f = Some (lit "3f00");
  ag_adf : ∀ i f, in_tree h mf i → h !! i = Some f → is_adf (cls f) = true →
    (∃ x, adf_key uicc aids (aid f) = Some x) ∧ has_fs f = true ∧ parent f = Some mf;
  ag_fid : ∀ i f, in_tree h mf i → h !! i = Some f → is_adf (cls f) = false → ∃ k, fid f = Some k ∧ length k = 4%nat;
  ag_df : ∀ i f p, in_tree h mf i → h !! i = Some f → pos_of uicc aids h i p → on_card_ fs p = true →
    card_df fs p = is_df (cls f);
  ag_absent : ∀ c cf p l k, in_tree h mf c → h !! c = Some cf → is_adf (cls cf) = false → parent cf = Some p → p ≠ c →
    pos_of uicc aids h p l → fid cf = Some k → on_card_ fs (l ++ [k]) = false → resolve fs l k = None;
  ag_complete : ∀ i p sels k, in_tree h mf i → pos_of uicc aids h i p → on_card_ fs p = true →
    get_selectables h i [] = Ok sels →
    kv_get k sels = None → length k = 4%nat → resolve fs p k = None;
  ag_decode : ∀ i d, in_tree h mf i → ∃ v, decode_select_response h i d = Ok v }.

Section navigation.
Context `{OsmocomUtilsLaws} {Sc Lk : Type} {sc : SecureChannel Sc} {tp : LinkOps Lk} `{!FileCard sc tp}.
Context (uicc : bool) (aids : list str) (h : heap) (mf : nat) (Ag : agrees fs uicc aids h mf).
Abbreviation ok := (in_tree h mf).
Abbreviation pos_of := (pos_of uicc aids h).
Abbreviation there p := (on_card_ fs p = true).
Abbreviation select_on_card := (select_on_card sc tp).
Abbreviation LS := (Lchan (Sc := Sc) (Lk := Lk)).

Let Hwf : wf h := ag_wf _ _ _ _ _ Ag.

Lemma pos_exists i : ok i → ∃ p, pos_of i p.
Proof.
  intros Hi. destruct Hi as [[l Hl] Hm]. remember (mf :: l) as ml eqn:E. revert l E.
  induction Hl as [i f Hf Hp|i f p l' Hf Hp Hne Hl IH]; intros l E.
  - simplify_eq. unfold obj_is in Hm. rewrite Hf in Hm. exists [lit "3f00"]. by eapply pos_mf.
  - destruct l' as [|r l']; [by apply path_to_split in Hl as [[|??] ?]|]. simplify_eq/=.
    assert (Hoki : ok i) by (split; [by exists (l' ++ [i]); rewrite app_comm_cons; eapply path_below|done]).
    destruct (IH l' eq_refl) as [q Hq].
    destruct (is_adf (cls f)) eqn:Ea.
    + destruct (ag_adf _ _ _ _ _ Ag i f Hoki Hf Ea) as ([x Hx] & _). exists [x]. by eapply pos_adf.
    + destruct (ag_fid _ _ _ _ _ Ag i f Hoki Hf Ea) as (k & Hk & _). exists (q ++ [k]).
      eapply pos_file; [done| |done..]. destruct (is_mf (cls f)) eqn:Em; [|done].
      apply (wf_mf _ _ _ (wf_get _ _ _ Hwf Hf)) in Em. congruence.
Qed.
(** *** One SELECT command *)


Lemma resolve_mf p : resolve fs p (lit "3f00") = Some [lit "3f00"].
Proof. done. Qed.

Lemma resolve_child p k : there (p ++ [k]) → p ≠ [] → card_df fs p = true → resolve fs p k = Some (p ++ [k]).
Proof.
  intros Hp Hne Hd. unfold resolve, card_cwd. rewrite Hd.
  destruct (fs_ids _ fs_ok p k Hne Hp) as (N1 & _). rewrite bool_decide_false by done. by rewrite Hp.
Qed.

(** From a directory, or from a file in it, to the directory [q ++ [k]]. *)
Lemma resolve_up q k x : q ≠ [] → there ((q ++ [k]) ++ [x]) → resolve fs ((q ++ [k]) ++ [x]) k = Some (q ++ [k]).
Proof.
  intros Hq Hx. assert (Hqk : q ++ [k] ≠ []) by by destruct q.
  destruct (fs_parent _ fs_ok _ _ Hqk Hx) as [Ht Hd]. destruct (fs_ids _ fs_ok _ _ Hq Ht) as (N1 & N2 & _).
  assert (Hno : on_card_ fs ((q ++ [k]) ++ [k]) = false).
  { destruct (on_card_ fs ((q ++ [k]) ++ [k])) eqn:E; [|done].
    destruct (fs_ids _ fs_ok _ _ Hqk E) as (_ & Hl & _). by rewrite last_snoc in Hl. }
  unfold resolve, card_cwd. rewrite bool_decide_false by done. rewrite (removelast_last (q ++ [k]) x).
  destruct (card_df fs ((q ++ [k]) ++ [x])) eqn:Ed.
  - assert (on_card_ fs (((q ++ [k]) ++ [x]) ++ [k]) = false) as ->.
    { destruct (on_card_ fs (((q ++ [k]) ++ [x]) ++ [k])) eqn:E; [|done].
      destruct (fs_ids _ fs_ok ((q ++ [k]) ++ [x]) k) as (_ & _ & Hl); [by destruct q|done|].
      by rewrite removelast_last, last_snoc in Hl. }
    rewrite last_snoc. rewrite bool_decide_false.
    2: { intros [= ->]. destruct (fs_ids _ fs_ok _ _ Hqk Hx) as (_ & Hl & _). by rewrite last_snoc in Hl. }
    rewrite bool_decide_true by (rewrite !length_app; cbn; destruct q; [done|cbn; lia]).
    rewrite removelast_last, last_snoc, bool_decide_true by done. done.
  - rewrite Hno. rewrite last_snoc, bool_decide_true by done. done.
Qed.

(** From an application or from the MF directly, to a file of the root. *)
Lemma resolve_up_root r x : there ([r] ++ [x]) → r = lit "3f00" → resolve fs ([r] ++ [x]) r = Some [r].
Proof. intros _ ->. apply resolve_mf. Qed.

(** The session whose tree of files and applications these are. *)
Record session_of (s : LS) : Prop := {
  so_files : files s = h;
  so_mf : rs_mf s = mf;
  so_uicc : rs_uicc s = uicc;
  so_aids : rs_aids s = aids }.

Definition select_outcome (p q : pos) (jf : CardFile) (s : LS) : Prop :=
  (there q ∧ ∃ d c', select_on_card jf s = (Ok d, set_scc c' s) ∧ at_pos c' q) ∨
  (on_card_ fs q = false ∧ ∃ a e c', select_on_card jf s = (Err (SwMatchError a e), set_scc c' s) ∧ at_pos c' p).

Lemma select_adf_step p jf s x : is_adf (cls jf) = true → adf_key uicc aids (aid jf) = Some x →
  session_of s → at_pos (scc s) p → select_outcome p [x] jf s.
Proof.
  intros Ha Hx [_ _ Hu Hs] Hp. unfold select_outcome, Runtime.select_on_card. rewrite Ha. mrun.
  unfold on_scc, select_adf_by_aid. rewrite Hu, Hs, Hx. mrun.
  destruct (on_card_ fs [x]) eqn:E; [left|right].
  - destruct (adf_found _ _ _ Hp E) as ([d sw] & c' & Ec & Hc'). split; [done|]. rewrite Ec. by exists (Some d), c'.
  - destruct (adf_missing _ _ _ Hp E) as (a & e & c' & Ec & Hc'). split; [done|]. rewrite Ec. by exists a, e, c'.
Qed.

Lemma select_fid_step p q jf s k : is_adf (cls jf) = false → fid jf = Some k → length k = 4%nat →
  at_pos (scc s) p → (there q → resolve fs p k = Some q) → (on_card_ fs q = false → resolve fs p k = None) →
  select_outcome p q jf s.
Proof.
  intros Ha Hk Hlen Hp Hyes Hno. unfold select_outcome, Runtime.select_on_card. rewrite Ha, Hk. mrun. unfold on_scc. mrun.
  destruct (on_card_ fs q) eqn:E; [left|right].
  - destruct (select_found _ _ _ _ Hp Hlen (Hyes eq_refl)) as ([d sw] & c' & Ec & Hc'). split; [done|].
    rewrite Ec. by exists (Some d), c'.
  - destruct (select_missing _ _ _ Hp Hlen (Hno eq_refl)) as (a & e & c' & Ec & Hc'). split; [done|].
    rewrite Ec. by exists a, e, c'.
Qed.

Lemma not_both c : is_mf c = true → is_adf c = true → False.
Proof. by destruct c. Qed.

Lemma select_step i j p q jf s : ok i → ok j → step h i j → pos_of i p → pos_of j q → h !! j = Some jf →
  session_of s → at_pos (scc s) p → select_outcome p q jf s.
Proof.
  intros Hi Hj Hstep Hpi Hqj Hjf Hses Hp. pose proof (at_exists _ _ Hp) as Hthere.
  destruct Hqj as [j f Hf Hm|j f x Hf Ha Hx|j f pj k l Hf Hm Ha Hpar Hne Hk Hl].
  - simplify_eq. destruct (is_adf (cls f)) eqn:Ea; [by destruct (not_both (cls f))|].
    apply (select_fid_step _ _ _ _ (lit "3f00")); [done|by apply (ag_mf _ _ _ _ _ Ag j)|done|done|by intros|].
    intros E. destruct (fs_root _ fs_ok) as [E' _]. congruence.
  - simplify_eq. by apply select_adf_step.
  - assert (jf = f) as -> by congruence.
    destruct (ag_fid _ _ _ _ _ Ag j f Hj Hf Ha) as (k' & Hk' & Hlen).
    assert (k' = k) as -> by congruence. apply (select_fid_step _ _ _ _ k); try done.
    all: destruct Hstep as [Hs1|[Hs1|[Hup|Hdown]]];
      [unfold obj_is in Hs1; rewrite Hf in Hs1; congruence..| |].
    + (* to the parent *)
      intros _. destruct Hup as (fi & Hfi & Hpi' & Hji). inversion Hpi as [? f' Hf' Hm'|? f' x Hf' Ha' Hx|? f' p' k2 l2 Hf' Hm' Ha' Hp2 Hne2 Hk2 Hl2]; simplify_eq.
      * apply (wf_mf _ _ _ (wf_get _ _ _ Hwf Hfi)) in Hm'. congruence.
      * destruct (ag_adf _ _ _ _ _ Ag i fi Hi Hfi Ha') as (_ & _ & Hpm).
        destruct (in_tree_mf h mf Hwf i Hi) as (mff & Hmff & Hmm & _). congruence.
      * assert (l2 = l ++ [k]) as ->.
        { refine (pos_of_det _ _ _ _ _ Hl2 _ _). by eapply pos_file. }
        apply resolve_up; [by eapply pos_of_ne|done].
    + (* to a child *)
      intros Hq. destruct Hdown as (fj & Hfj & Hpj & Hij). simplify_eq.
      assert (l = p) as -> by by eapply pos_of_det.
      apply resolve_child; [done|by eapply pos_of_ne|]. by destruct (fs_parent _ fs_ok _ _ (pos_of_ne _ _ _ _ _ Hl) Hq).
    + intros Hno. exfalso. destruct Hup as (fi & Hfi & Hpi' & Hji).
      inversion Hpi as [? f' Hf' Hm'|? f' x Hf' Ha' Hx|? f' p' k2 l2 Hf' Hm' Ha' Hp2 Hne2 Hk2 Hl2]; simplify_eq.
      * apply (wf_mf _ _ _ (wf_get _ _ _ Hwf Hfi)) in Hm'. congruence.
      * destruct (ag_adf _ _ _ _ _ Ag i fi Hi Hfi Ha') as (_ & _ & Hpm).
        destruct (in_tree_mf h mf Hwf i Hi) as (mff & Hmff & Hmm & _). congruence.
      * assert (l2 = l ++ [k]) as -> by (refine (pos_of_det _ _ _ _ _ Hl2 _ _); by eapply pos_file).
        destruct (fs_parent _ fs_ok (l ++ [k]) k2) as [E _]; [by destruct l|done|congruence].
    + intros Hno. destruct Hdown as (fj & Hfj & Hpj & Hij). simplify_eq.
      assert (l = p) as <- by by eapply pos_of_det. by apply (ag_absent _ _ _ _ _ Ag j fj i l k).
Qed.

(** *** Coherence of channel and card *)

Definition present (i : nat) : Prop := ∃ p, pos_of i p ∧ there p.
Definition at_file (c : SimCardCommands Sc Lk) (i : nat) : Prop := ∃ p, pos_of i p ∧ at_pos c p.
Definition not_trapped (s : LS) : Prop := ∀ a, selected_adf s = Some a → ∃ f, h !! a = Some f ∧ has_fs f = true.

(** The channel [s] and the card have the file [i] selected. *)
Record coherent (s : LS) (i : nat) : Prop := {
  co_session : session_of s;
  co_file : selected_file s = i;
  co_ok : ok i;
  co_card : at_file (scc s) i;
  co_adf : not_trapped s }.

Lemma at_file_present c i : at_file c i → present i.
Proof. intros (p & Hp & Hat). exists p. split; [done|]. by eapply at_exists. Qed.

Lemma present_dec i : ok i → present i ∨ ¬ present i.
Proof.
  intros Hi. destruct (pos_exists i Hi) as [p Hp]. destruct (on_card_ fs p) eqn:E; [left; by exists p|].
  right. intros (q & Hq & Hon). rewrite (pos_of_det _ _ _ _ _ Hp _ Hq) in E. congruence.
Qed.

(** The directories above a file of the card are on the card. *)
Lemma present_above x i : ok i → present i → above h x i → present x.
Proof.
  intros Hi Hon (l & Hl & Hx). revert Hi Hon Hx.
  induction Hl as [i f Hf Hp|i f p l Hf Hp Hne Hl IH]; intros Hi Hon Hx.
  - apply list_elem_of_singleton in Hx. by subst.
  - apply elem_of_app in Hx as [Hx|Hx%list_elem_of_singleton]; [|by subst]. apply IH; [|clear IH|done].
    + by eapply in_tree_parent.
    + destruct Hon as (q & Hq & Hon). inversion Hq as [? f' Hf' Hm'|? f' y Hf' Ha' Hy|? f' p' k2 l2 Hf' Hm' Ha' Hp2 Hne2 Hk2 Hl2]; simplify_eq.
      * apply (wf_mf _ _ _ (wf_get _ _ _ Hwf Hf)) in Hm'. congruence.
      * destruct (ag_adf _ _ _ _ _ Ag i f Hi Hf Ha') as (_ & _ & Hpm). simplify_eq.
        destruct (in_tree_mf h p Hwf i Hi) as (mff & Hmff & Hmm & _). exists [lit "3f00"].
        split; [by eapply pos_mf|]. apply fs_ok.
      * exists l2. split; [done|]. destruct (fs_parent _ fs_ok l2 k2) as [E _]; [by eapply pos_of_ne|done..].
Qed.

Lemma session_scc s c : session_of s → session_of (set_scc c s).
Proof. by intros []. Qed.

Lemma select_post_ok s i d : session_of s → not_trapped s → ok i → at_file (scc s) i →
  ∃ s', _select_post (Some i) d s = (Ok (), s') ∧ coherent s' i.
Proof.
  intros Hses Hadf Hi Hat. destruct (in_tree_get h mf Hwf i Hi) as (f & p & Hf & _).
  unfold _select_post. mrun. unfold selected, look. mrun.
  assert (E : ∀ s1 : LS, files s1 = files s → ∀ x, x = i → obj (files s1) x = Ok f).
  { intros s1 -> x ->. apply obj_ok. by rewrite (so_files _ Hses). }
  rewrite E by done. mrun.
  assert (Ed : ∀ s1 : LS, files s1 = files s → ∀ data, ∃ v, decode_select_response (files s1) i data = Ok v).
  { intros s1 -> data. rewrite (so_files _ Hses). by apply (ag_decode _ _ _ _ _ Ag). }
  assert (Hcoh : ∀ s', session_of s' → selected_file s' = i → scc s' = scc s →
    (selected_adf s' = selected_adf s ∨ (selected_adf s' = Some i ∧ is_adf (cls f) = true)) → coherent s' i).
  { intros s' Hs' Hf' Hc' Hsel. split; [done..|by rewrite Hc'|]. intros a Ha. destruct Hsel as [Hsel|[Hsel Hisadf]].
    - apply Hadf. congruence.
    - assert (a = i) as -> by congruence. exists f. split; [done|]. by apply (ag_adf _ _ _ _ _ Ag i f). }
  destruct (is_adf (cls f)) eqn:Ea; mrun; destruct (filled d) as [data|]; mrun;
    try match goal with |- context [decode_select_response (files ?s1) i data] =>
      destruct (Ed s1 eq_refl data) as [v ->]; mrun end;
    (eexists; split; [reflexivity|]; apply Hcoh; [by destruct Hses|done..|]); by (left + right).
Qed.

Abbreviation walk_path := (walk_path sc tp).
Abbreviation sw_error r := (∃ a e, r = Err (SwMatchError a e)).

Lemma walk_path_ok path : ∀ i t d s, walk h i path t → ok i → Forall ok path →
  session_of s → not_trapped s → at_file (scc s) i →
  (Forall present path ∧ ∃ d' c', walk_path path i d s = (Ok (t, d'), set_scc c' s) ∧ at_file c' t) ∨
  (¬ Forall present path ∧ ∃ r s' j, walk_path path i d s = (r, s') ∧ sw_error r ∧ coherent s' j).
Proof.
  induction path as [|x path IH]; intros i t d s Hw Hi Hpath Hses Hadf Hat; inversion Hw; subst; cbn [Runtime.walk_path].
  - left. split; [apply Forall_nil_2|]. exists d, (scc s). split; [by destruct s|done].
  - apply Forall_cons_1 in Hpath as [Hx Hpath]. destruct Hat as (p & Hp & Hat).
    destruct (in_tree_get h mf Hwf x Hx) as (xf & xp & Hxf & _). unfold look. mrun.
    rewrite (so_files _ Hses), (obj_ok _ _ _ Hxf). mrun. destruct (pos_exists x Hx) as [q Hq].
    destruct (select_step i x p q xf s) as [(Hthere & d' & c' & E & Hc')|(Hno & a & e & c' & E & Hc')]; try done; rewrite E.
    + destruct (IH x t d' (set_scc c' s)) as [(Hall & d2 & c2 & E2 & H2)|(Hnall & r & s2 & j & E2 & H2)]; try done.
      { by apply session_scc. }
      { by exists q. }
      * left. split; [by apply Forall_cons_2; [exists q|]|]. exists d2, c2. by rewrite E2.
      * right. split; [by intros [_ ?]%Forall_cons_1|]. by exists r, s2, j.
    + right. split.
      { intros [(q' & Hq' & Hon) _]%Forall_cons_1. assert (q' = q) as -> by by eapply pos_of_det. congruence. }
      destruct (select_post_ok (set_scc c' s) i d) as (s' & Es & Hs'); [by apply session_scc|done|done|by exists p|].
      rewrite M_bind_eq, Es. cbn. eexists _, s', i. split_and!; [done|by exists a, e|done].
Qed.

Abbreviation select_file := (select_file sc tp).
Abbreviation select := (select sc tp).

(** Selecting a file of the model: done when the card has it, else
    SwMatchError somewhere on the way; channel and card agree in both cases. *)
Lemma select_file_ok n s i t : coherent s i → ok t →
  (present t ∧ ∃ s', select_file (S n) t s = (Ok (), s') ∧ coherent s' t) ∨
  (¬ present t ∧ ∃ r s' j, select_file (S n) t s = (r, s') ∧ sw_error r ∧ coherent s' j).
Proof.
  intros [Hses Hsel Hi Hat Hadf] Ht. cbn [Runtime.select_file]. unfold select_file_with, look. mrun.
  destruct (in_tree_get h mf Hwf t Ht) as (tf & tp' & Htf & _).
  rewrite (so_files _ Hses), (obj_ok _ _ _ Htf). mrun. rewrite (so_files _ Hses).
  assert (trapped h s tf = Ok false) as ->.
  { unfold trapped. destruct (selected_adf s) as [a|] eqn:Ea; [|done].
    destruct (Hadf a Ea) as (af & Haf & Hfs). rewrite (obj_ok _ _ _ Haf), R_bind_Ok, Hfs. by rewrite andb_false_r. }
  mrun. rewrite (so_files _ Hses), Hsel.
  destruct (select_path_exists h mf Hwf i t Hi Ht) as (path & Ep & Hne & Hw & _ & Habove). rewrite Ep.
  assert (Hok : Forall ok path).
  { apply list.Forall_forall. intros x Hx. destruct (Habove x Hx) as [Hx'|Hx']; [by apply (above_in_tree h mf x i)|by apply (above_in_tree h mf x t)]. }
  assert (Hpres : present t ↔ Forall present path).
  { split.
    - intros Hpt. apply list.Forall_forall. intros x Hx. destruct (Habove x Hx) as [Hx'|Hx'].
      + apply (present_above x i); [done|by eapply at_file_present|done].
      + by apply (present_above x t).
    - intros Hall. apply (proj1 (list.Forall_forall _ _) Hall). apply walk_end in Hw.
      destruct path; [done|]. rewrite last_cons_cons in Hw. apply last_Some in Hw as [l' E]. rewrite E. set_solver. }
  destruct path as [|x path]; [done|].
  destruct (walk_path_ok (x :: path) i t (selected_file_fcp_hex s) s Hw Hi Hok Hses Hadf Hat)
    as [(Hall & d' & c' & E & Hc')|(Hnall & r & s' & j & E & (a & e & ->) & Hc')]; mrun; rewrite E.
  - left. split; [by apply Hpres|]. by apply select_post_ok; [apply session_scc|..].
  - right. split; [by rewrite Hpres|]. eexists _, s', j. split; [done|]. split; [by exists a, e|done].
Qed.

(** *** Names and paths *)

(** A name as [select] looks it up. *)
Definition norm (name : str) : str := if is_hex_any name then str_lower name else name.

(** From [i] the name [n] selects [t], which the card has. *)
Definition goes (i : nat) (n : str) (t : nat) : Prop :=
  ∃ sels, get_selectables h i [] = Ok sels ∧ kv_get (norm n) sels = Some t ∧ present t.

Inductive navigates : nat → list str → nat → Prop :=
| nav_nil i : navigates i [] i
| nav_cons i n j ns t : goes i n j → navigates j ns t → navigates i (n :: ns) t.

Lemma goes_det i n t t' : goes i n t → goes i n t' → t = t'.
Proof. intros (s & E & Hk & _) (s' & E' & Hk' & _). congruence. Qed.

Lemma on_exception_ok {A} (m : M LS A) hd s a s' : m s = (Ok a, s') → on_exception m hd s = (Ok a, s').
Proof. intros E. unfold on_exception, catch. by rewrite E. Qed.

Lemma on_exception_err {A} (m : M LS A) hd s e s1 r s2 : m s = (Err e, s1) → e ≠ OutOfFuel → hd s1 = (r, s2) →
  on_exception m hd s = (match r with Ok _ => Err e | Err e' => Err e' end, s2).
Proof.
  intros E Hne Eh. unfold on_exception, catch. rewrite E, bool_decide_false by done. mrun. rewrite Eh. by destruct r as [[]|].
Qed.

(** A failed attempt is followed by selecting the file that was selected
    before, which the card still has. *)
Lemma restored {A} n (m : M LS A) s i e s1 j : coherent s i → m s = (Err e, s1) → e ≠ OutOfFuel → coherent s1 j →
  ∃ s2, on_exception m (select_file (S n) i) s = (Err e, s2) ∧ coherent s2 i.
Proof.
  intros Hs E Hne Hs1. destruct (select_file_ok n s1 j i Hs1 (co_ok _ _ Hs)) as [(_ & s2 & E2 & H2)|(Hno & _)].
  - exists s2. split; [|done]. by rewrite (on_exception_err m _ s e s1 (Ok ()) s2 E Hne E2).
  - exfalso. apply Hno. eapply at_file_present. apply (co_card _ _ Hs).
Qed.

(** An exception of the program: not fuel that ran out. *)
Definition raised {A} (r : result A) : Prop := ∃ e, r = Err e ∧ e ≠ OutOfFuel.

Lemma application_above_total i : ok i → ∃ a, application_above h (enough h) i = Ok a.
Proof.
  intros Hi. assert (∀ l, path_to h i (mf :: l) → ∀ n, (length l < n)%nat → ∃ a, application_above h n i = Ok a) as Hgo.
  { destruct Hi as [_ Hm]. intros l Hl. remember (mf :: l) as ml eqn:E. revert l E.
    induction Hl as [i f Hf Hp|i f p l' Hf Hp Hne Hl IH]; intros l E [|n] Hn; try lia; cbn [application_above];
      rewrite (obj_ok _ _ _ Hf), R_bind_Ok.
    - simplify_eq. unfold obj_is in Hm. rewrite Hf in Hm. apply (wf_mf _ _ _ (wf_get _ _ _ Hwf Hf)) in Hm.
      rewrite decide_True by done. eauto.
    - rewrite decide_False by congruence. destruct (is_adf (cls f)); [eauto|]. rewrite Hp. cbn [from_opt]. rewrite R_bind_Ok.
      destruct l' as [|r l']; [by apply path_to_split in Hl as [[|??] ?]|]. simplify_eq/=.
      apply (IH l'); [done|]. rewrite length_app in Hn. cbn in Hn. lia. }
  destruct Hi as [[l Hl] _]. apply (Hgo l Hl). apply path_to_length in Hl. cbn in Hl. unfold enough. lia.
Qed.

Definition no_fuel {A} (r : result A) : Prop := r ≠ Err OutOfFuel.

Lemma idx_no_fuel {A} (l : list A) i : no_fuel (idx l i).
Proof. unfold idx. by destruct (l !! i). Qed.

Lemma bind_no_fuel {A B} (m : result A) (f : A → result B) : no_fuel m → (∀ a, no_fuel (f a)) → no_fuel (m ≫= f).
Proof. intros Hm Hf. destruct m as [a|e]; [apply Hf|]. intros [= ->]. by apply Hm. Qed.

Lemma map_r_no_fuel {A B} (f : A → result B) l : (∀ a, no_fuel (f a)) → no_fuel (map_r f l).
Proof.
  intros Hf. induction l as [|x l IH]; cbn; [done|]. apply bind_no_fuel; [done|]. intros b. by apply bind_no_fuel.
Qed.

Lemma sw_match_no_fuel sw p : no_fuel (sw_match sw p).
Proof.
  unfold sw_match. apply bind_no_fuel; [|done]. apply map_r_no_fuel. intros i. unfold sw_mask_char.
  apply bind_no_fuel; [apply idx_no_fuel|]. intros a. destruct (is_char "?" a); [done|]. destruct (is_char "x" a); [done|].
  apply idx_no_fuel.
Qed.

Lemma interpret_sw_no_fuel d sw : no_fuel (interpret_sw d sw).
Proof.
  induction d as [|[c dict] d IH]; cbn; [done|]. destruct (kv_get sw dict); [done|].
  apply bind_no_fuel; [|by intros []]. induction dict as [|[p t] dict IHd]; cbn; [done|].
  apply bind_no_fuel; [apply sw_match_no_fuel|]. by intros [].
Qed.

Lemma lchan_interpret_sw_ok s i sw : coherent s i → ∃ r, lchan_interpret_sw sw s = (r, s) ∧ no_fuel r.
Proof.
  intros [Hses Hsel Hi _ _]. unfold lchan_interpret_sw, get_application_df, look. mrun.
  rewrite (so_files _ Hses), Hsel. destruct (application_above_total i Hi) as [[a|] ->]; mrun.
  - rewrite (so_files _ Hses). destruct (obj h a) as [f|e] eqn:Ef; mrun.
    + destruct (application f) as [app|]; mrun.
      * pose proof (interpret_sw_no_fuel (app_sw app) sw) as Hn. destruct (interpret_sw (app_sw app) sw) as [[k|]|]; mrun; eauto.
        eexists. split; [done|]. apply interpret_sw_no_fuel.
      * eexists. split; [done|]. apply interpret_sw_no_fuel.
    + exists (Err e). split; [done|]. intros [= ->]. apply (f_equal (λ r, match r with Err OutOfFuel => true | _ => false end)) in Ef.
      unfold obj in Ef. by destruct (h !! a).
  - eexists. split; [done|]. apply interpret_sw_no_fuel.
Qed.

(** Looking on the card for a file it does not have. *)
Lemma probe_file_missing s i n : coherent s i → (∀ p, pos_of i p → there p → length n = 4%nat → resolve fs p n = None) →
  ∃ r s', probe_file sc tp n s = (r, s') ∧ raised r ∧ coherent s' i.
Proof.
  intros Hco Hno. unfold probe_file. mrun. destruct (is_hex n 4 4) eqn:Ehex; mrun.
  2: { exists (Err ValueError), s. split_and!; [done| |done]. by exists ValueError. }
  assert (length n = 4%nat) as Hlen by (apply is_hex_length in Ehex; lia).
  pose proof Hco as [Hses Hsel Hi (p & Hp & Hat) Hadf].
  destruct (select_missing _ _ _ Hat Hlen (Hno p Hp (at_exists _ _ Hat) Hlen)) as (a & e & c' & E & Hc').
  unfold on_scc. mrun. rewrite E. mrun. cbn [_select_post]. mrun.
  assert (Hco' : coherent (set_scc c' s) i) by (split; [by apply session_scc|done..|by exists p|done]).
  destruct (lchan_interpret_sw_ok _ _ a Hco') as (r & Er & Hr). rewrite Er.
  destruct r as [[k|]|x]; mrun; eexists _, _; (split; [done|]); (split; [|done]).
  - by exists RuntimeError.
  - by exists (SwMatchError a e).
  - exists x. split; [done|]. congruence.
Qed.
(** *** [select] *)

Lemma select_name n s i name : coherent s i → "/"%char ∉ name →
  (∃ t s', goes i name t ∧ select (S (S n)) name s = (Ok (selected_file_fcp s'), s') ∧ coherent s' t) ∨
  ((∀ t, ¬ goes i name t) ∧ ∃ r s', select (S (S n)) name s = (r, s') ∧ raised r ∧ coherent s' i).
Proof.
  intros Hs Hname. pose proof Hs as [Hses Hsel Hi (p & Hp & Hat) Hadf].
  change (select (S (S n)) name) with (select_with sc tp (select (S n)) (select_file (S n)) name).
  unfold select_with, look. mrun. rewrite bool_decide_false by done. mrun. rewrite (so_files _ Hses), Hsel.
  destruct (get_selectables_ok h mf Hwf i [] Hi) as (sels & Esels & Hall). rewrite Esels. mrun. fold (norm name).
  assert (Hfail : ∀ m : M LS unit, (∃ r s1 j, m s = (r, s1) ∧ raised r ∧ coherent s1 j) →
    ∃ r s', (on_exception m (select_file (S n) i) ≫= λ _, gets selected_file_fcp) s = (r, s') ∧ raised r ∧ coherent s' i).
  { intros m (r & s1 & j & E & (e & -> & Hne) & Hs1). destruct (restored n m s i e s1 j Hs E Hne Hs1) as (s2 & E2 & Hs2).
    rewrite M_bind_eq, E2. exists (Err e), s2. split_and!; [done|by exists e|done]. }
  destruct (kv_get (norm name) sels) as [t|] eqn:Ek.
  - pose proof (kv_get_forall (in_tree h mf) _ _ _ Hall Ek) as Ht.
    destruct (select_file_ok n s i t Hs Ht) as [(Hpres & s' & E & Hs')|(Hno & r & s' & j & E & (a & e & ->) & Hs')].
    + left. exists t, s'. split; [by exists sels|]. erewrite on_exception_ok by exact E. done.
    + right. split.
      { intros t' (sels' & Esels' & Ek' & Hpres'). assert (t' = t) as -> by congruence. done. }
      apply Hfail. eexists _, s', j. split; [exact E|]. split; [by exists (SwMatchError a e)|done].
  - right. split.
    { intros t' (sels' & Esels' & Ek' & _). congruence. }
    apply Hfail. destruct (probe_file_missing s i (norm name) Hs) as (r & s' & E & Hr & Hs'); [|by exists r, s', i].
    intros p' Hp' Hthere Hlen. by eapply (ag_complete _ _ _ _ _ Ag i p' sels).
Qed.

Lemma select_names n names : ∀ s i, coherent s i → Forall (λ m, "/"%char ∉ m) names →
  (∃ t s', navigates i names t ∧ for_each names (λ p, select (S (S n)) p;; mret ()) s = (Ok (), s') ∧ coherent s' t) ∨
  ((∀ t, ¬ navigates i names t) ∧
   ∃ r s' j, for_each names (λ p, select (S (S n)) p;; mret ()) s = (r, s') ∧ raised r ∧ coherent s' j).
Proof.
  induction names as [|m names IH]; intros s i Hs Hnames; cbn [for_each].
  - left. exists i, s. by split; [constructor|].
  - apply Forall_cons_1 in Hnames as [Hm Hnames].
    destruct (select_name n s i m Hs Hm) as [(t & s1 & Hg & E & Hs1)|(Hno & r & s1 & E & (e & -> & Hne) & Hs1)];
      rewrite !M_bind_eq, E; cbn [mret M_ret].
    + destruct (IH s1 t Hs1 Hnames) as [(t' & s2 & Hn & E2 & Hs2)|(Hno & r & s2 & j & E2 & Hr & Hs2)].
      * left. exists t', s2. split; [by eapply nav_cons|]. split; [exact E2|done].
      * right. split; [|by exists r, s2, j]. intros t' Hn. inversion Hn; subst.
        match goal with X : goes i m ?z |- _ => pose proof (goes_det _ _ _ _ Hg X); subst end. by eapply Hno.
    + right. split; [|exists (Err e), s1, i; split_and!; [done|by exists e|done]].
      intros t Hn. inversion Hn; subst. by eapply Hno.
Qed.

Lemma split_on_free c s : Forall (λ m, c ∉ m) (split_on c s).
Proof.
  induction s as [|d s IH]; cbn; [by apply Forall_singleton; set_solver|].
  destruct (Ascii.eqb c d) eqn:E; [apply Forall_cons_2; [set_solver|done]|].
  apply Ascii.eqb_neq in E. destruct (split_on c s) as [|w ws]; [apply Forall_singleton; set_solver|].
  apply Forall_cons_1 in IH as [H1' H2']. apply Forall_cons_2; [|done]. set_solver.
Qed.

(** The names a call of [select] goes through. *)
Definition names_of (name : str) : list str :=
  if bool_decide ("/"%char ∈ name) then split_path name else [name].

Lemma names_of_free name : Forall (λ m, "/"%char ∉ m) (names_of name).
Proof.
  unfold names_of. case_bool_decide; [|by apply Forall_singleton]. unfold split_path.
  pose proof (split_on_free "/" name) as Hf. destruct (split_on "/"%char name) as [|[|c w] [|v l]]; try done.
  cbn. apply Forall_cons_1 in Hf as [_ Hf]. apply Forall_cons_2; [|done]. refine (bool_decide_unpack _ _). vm_compute. exact I.
Qed.

Lemma select_moves n s i name : (3 <= n)%nat → coherent s i →
  (∃ t s', navigates i (names_of name) t ∧ select n name s = (Ok (selected_file_fcp s'), s') ∧ coherent s' t) ∨
  ((∀ t, ¬ navigates i (names_of name) t) ∧ ∃ r s', select n name s = (r, s') ∧ raised r ∧ coherent s' i).
Proof.
  intros Hn Hs. destruct n as [|[|[|n]]]; try lia. pose proof (names_of_free name) as Hfree.
  unfold names_of in *. case_bool_decide as Hslash.
  - change (select (S (S (S n))) name) with (select_with sc tp (select (S (S n))) (select_file (S (S n))) name).
    unfold select_with. mrun. rewrite bool_decide_true by done. pose proof Hs as [_ Hsel _ _ _]. rewrite Hsel.
    destruct (select_names n (split_path name) s i Hs Hfree) as [(t & s1 & Hnav & E & Hs1)|(Hno & r & s1 & j & E & (e & -> & Hne) & Hs1)].
    + left. exists t, s1. split; [done|]. rewrite M_bind_eq. erewrite on_exception_ok by exact E. done.
    + right. split; [done|].
      unfold mret, M_ret in E. destruct (restored (S n) _ s i e s1 j Hs E Hne Hs1) as (s2 & E2 & Hs2). rewrite M_bind_eq, E2.
      exists (Err e), s2. split_and!; [done|by exists e|done].
  - destruct (select_name (S n) s i name Hs Hslash) as [(t & s1 & Hg & E & Hs1)|(Hno & r & s1 & E & Hr & Hs1)].
    + left. exists t, s1. split; [|by split]. eapply nav_cons; [done|constructor].
    + right. split; [|by exists r, s1]. intros t Hnav. inversion Hnav; subst. by eapply Hno.
Qed.

End navigation.

(** ** A card with these properties *)
Module RefCard.
Import Ref.

Section reference_card.
Context (entries : list (pos * bool)).

Definition ref_fs : card_fs := {|
  on_card_ p := bool_decide (p ∈ entries.*1);
  card_df p := bool_decide ((p, true) ∈ entries) |}.
Context (Hfs : card_fs_ok ref_fs).

Definition no_secure_channel : SecureChannel unit := mkSecureChannel 0 mret (λ b _, mret b).

(** The file the SELECT command names, by FID or by AID. *)
Definition target (p : pos) (pdu : str) : option pos :=
  if bool_decide (slice 4 8 pdu = lit "0404") then
    let aid := but_last 2 (drop 10 pdu) in
    if on_card_ ref_fs [aid] then Some [aid] else None
  else resolve ref_fs p (slice 10 14 pdu).

Definition answer (pdu : str) : M pos rsp := λ p,
  match target p pdu with
  | Some q => (Ok (lit "6200", Some (lit "9000")), q)
  | None => (Ok ([], Some (lit "6a82")), p)
  end.

Definition answer_checksw (pdu sw : str) : M pos rsp := λ p,
  match target p pdu with
  | Some q => (Ok (lit "6200", Some (lit "9000")), q)
  | None => (Err (SwMatchError (lit "6a82") sw), p)
  end.

Definition ref_tp : LinkOps pos := mkLinkOps answer answer_checksw (mret (lit "3b00")) (λ _, (Ok 1, [lit "3f00"])).

Lemma resolve_last p k q : resolve ref_fs p k = Some q → list.last q = Some k.
Proof.
  unfold resolve. intros E. repeat case_match; simplify_eq; try by rewrite last_snoc.
  - by rewrite bool_decide_eq_true in *; subst.
  - by rewrite bool_decide_eq_true in *.
  - by rewrite bool_decide_eq_true in *.
Qed.

Lemma there_above q x : q ≠ [] → on_card_ ref_fs (q ++ [x]) = true → on_card_ ref_fs q = true.
Proof. intros Hq Hx. by destruct (fs_parent _ Hfs q x Hq Hx). Qed.

Lemma there_removelast p : removelast p ≠ [] → on_card_ ref_fs p = true → on_card_ ref_fs (removelast p) = true.
Proof.
  intros Hne Hp. destruct p as [|x p _] using rev_ind; [done|]. rewrite removelast_last in *. by eapply there_above.
Qed.

Lemma resolve_there p k q : on_card_ ref_fs p = true → resolve ref_fs p k = Some q → on_card_ ref_fs q = true.
Proof.
  intros Hp E. unfold resolve in E.
  assert (Hcwd : card_cwd ref_fs p ≠ [] → on_card_ ref_fs (card_cwd ref_fs p) = true).
  { unfold card_cwd. destruct (card_df ref_fs p); [done|]. intros Hne. by apply there_removelast. }
  case_bool_decide; [simplify_eq; apply Hfs|].
  destruct (on_card_ ref_fs (card_cwd ref_fs p ++ [k])) eqn:E1; [by simplify_eq|].
  case_bool_decide as E2; [simplify_eq; apply Hcwd; by intros E3; rewrite E3 in E2|].
  case_bool_decide; [|done]. case_bool_decide as E3.
  - simplify_eq. apply there_removelast; [by intros E4; rewrite E4 in E3|]. apply Hcwd. by intros E4; rewrite E4 in E3.
  - destruct (_ && _) eqn:E4; [|done]. apply andb_true_iff in E4 as [E4 _]. by simplify_eq.
Qed.

Abbreviation SC := (SimCardCommands unit pos).

(** A UICC on the basic channel, without a secure channel. *)
Definition ref_at (c : SC) (p : pos) : Prop :=
  cla_byte c = lit "00" ∧ sel_ctrl c = lit "0004" ∧ lchan_nr c = 0 ∧ scp c = None ∧ link c = p ∧ on_card_ ref_fs p = true.

Definition ref_commands (p : pos) : SC := mkCommands (lit "0004") 0 (lit "00") None p.

Lemma ref_at_eq c p : ref_at c p → c = ref_commands p ∧ on_card_ ref_fs p = true.
Proof. intros (H1 & H2 & H3 & H4 & H5 & H6). destruct c. cbn in *. by subst. Qed.

Lemma ref_at_commands p : on_card_ ref_fs p = true → ref_at (ref_commands p) p.
Proof. by intros. Qed.

Lemma send_select p (rest : str) : send_ok no_secure_channel ref_tp (lit "00a4" ++ rest) (ref_commands p) =
  let '(r, q) := answer_checksw (lit "00a4" ++ rest) (lit "9000") p in (r, ref_commands q).
Proof. reflexivity. Qed.

Lemma select_fid_eq p k : length k = 4%nat → Commands.select_file no_secure_channel ref_tp k (ref_commands p) =
  match resolve ref_fs p k with
  | Some q => (Ok (lit "6200", Some (lit "9000")), ref_commands q)
  | None => (Err (SwMatchError (lit "6a82") (lit "9000")), ref_commands p)
  end.
Proof.
  intros Hk. unfold Commands.select_file. mrun. unfold select_pdu. cbn [cla_byte sel_ctrl ref_commands].
  change (lit "00" ++ lit "a4" ++ lit "0004" ++ lit "02" ++ k ++ lit "00") with (lit "00a4" ++ (lit "000402" ++ k ++ lit "00")).
  rewrite send_select. unfold answer_checksw, target.
  destruct k as [|a [|b [|c [|d [|]]]]]; try done. cbn [slice]. rewrite bool_decide_false by done.
  change (slice 10 14 (lit "00a4" ++ lit "000402" ++ [a; b; c; d] ++ lit "00")) with [a; b; c; d].
  by destruct (resolve ref_fs p [a; b; c; d]).
Qed.

Lemma digits_ne fuel z : digits fuel 16 z ≠ [] ∨ (fuel = O ∧ 16 <= z).
Proof.
  destruct fuel as [|fuel]; cbn [digits]; destruct (Z.ltb_spec z 16); [by left|by right|by left|].
  left. by destruct (digits fuel 16 (z / 16)).
Qed.

Lemma aidlen_length z : 0 <= z → length (last_n 2 (lit "0" ++ fmt_x 0 z)) = 2%nat.
Proof.
  intros Hz. unfold last_n, fmt_x, fmt_base. rewrite (proj2 (Z.ltb_ge z 0)) by lia. unfold zfill. cbn [Nat.sub replicate app].
  rewrite length_drop, !length_app, ?length_replicate. cbn [length lit String.list_ascii_of_string].
  assert (length (digits_of 16 z) ≠ O); [|lia]. intros E%nil_length_inv. unfold digits_of in E.
  destruct (digits_ne (Z.to_nat (Z.log2 z)) z) as [Hd|[Hf Hz16]]; [done|].
  assert (4 <= Z.log2 z); [|lia]. by apply Z.log2_le_pow2; lia.
Qed.

Lemma select_aid_eq p x : Commands.select_adf no_secure_channel ref_tp x (ref_commands p) =
  if on_card_ ref_fs [x] then (Ok (lit "6200", Some (lit "9000")), ref_commands [x])
  else (Err (SwMatchError (lit "6a82") (lit "9000")), ref_commands p).
Proof.
  unfold Commands.select_adf. mrun. cbn [cla_byte ref_commands].
  set (n := last_n 2 (lit "0" ++ fmt_x 0 (len x / 2))).
  assert (length n = 2%nat) as Hn by (apply aidlen_length; unfold len; dlia).
  change (lit "00" ++ lit "a4" ++ lit "0404" ++ n ++ x ++ lit "00") with (lit "00a4" ++ (lit "0404" ++ n ++ x ++ lit "00")).
  rewrite send_select. unfold answer_checksw, target. destruct n as [|a [|b [|]]]; try done.
  rewrite bool_decide_true by done.
  change (drop 10 (lit "00a4" ++ lit "0404" ++ [a; b] ++ x ++ lit "00")) with (x ++ lit "00").
  assert (but_last 2 (x ++ lit "00") = x) as ->.
  { unfold but_last. rewrite length_app. cbn [length lit String.list_ascii_of_string].
    rewrite Nat.add_sub, take_app_length. done. }
  by destruct (on_card_ ref_fs [x]).
Qed.

#[export] Instance ref_card : FileCard no_secure_channel ref_tp.
Proof.
  refine {| fs := ref_fs; fs_ok := Hfs; at_pos := ref_at |}.
  - by intros c p (_ & _ & _ & _ & _ & ?).
  - intros c p k q [-> Hp]%ref_at_eq Hk E. rewrite select_fid_eq, E by done. eexists _, _. split; [done|].
    apply ref_at_commands. by eapply resolve_there.
  - intros c p k [-> Hp]%ref_at_eq Hk E. rewrite select_fid_eq, E by done. eexists _, _, _. by split.
  - intros c p x [-> Hp]%ref_at_eq E. rewrite select_aid_eq, E. eexists _, _. by split.
  - intros c p x [-> Hp]%ref_at_eq E. rewrite select_aid_eq, E. eexists _, _, _. by split.
Defined.
End reference_card.
End RefCard.

(** ** The small card of [FsRun], without the file EF.SMS of the model *)
Module NavRun.
Import Ref FsRun RefCard.

Definition usim_aid : str := lit "a0000000871002".
Definition entries : list (pos * bool) :=
  [([lit "3f00"], true); ([lit "3f00"; lit "7f20"], true); ([lit "3f00"; lit "7f20"; lit "6f07"], false);
   ([lit "3f00"; lit "2fe2"], false); ([usim_aid], true)].

Definition entry_ok (q : pos) : bool :=
  match removelast q with
  | [] => true
  | p => on_card_ (ref_fs entries) p && card_df (ref_fs entries) p && negb (bool_decide (list.last q = Some (lit "3f00")))
         && negb (bool_decide (list.last p = list.last q)) && negb (bool_decide (list.last (removelast p) = list.last q))
  end.

Lemma entry_spec p f : p ≠ [] → on_card_ (ref_fs entries) (p ++ [f]) = true →
  on_card_ (ref_fs entries) p = true ∧ card_df (ref_fs entries) p = true ∧ f ≠ lit "3f00" ∧
  list.last p ≠ Some f ∧ list.last (removelast p) ≠ Some f.
Proof.
  intros Hne Hin%bool_decide_eq_true. assert (forallb entry_ok entries.*1 = true) as Hall by (vm_compute; reflexivity).
  rewrite forallb_forall in Hall. specialize (Hall _ (proj1 (list_elem_of_In _ _) Hin)). unfold entry_ok in Hall.
  rewrite removelast_last, last_snoc in Hall. destruct p as [|x p]; [done|].
  rewrite !andb_true_iff, !negb_true_iff, !bool_decide_eq_false in Hall. destruct Hall as ((((? & ?) & H1) & ?) & ?).
  split_and!; try done. intros ->. by apply H1.
Qed.

Lemma entries_ok : card_fs_ok (ref_fs entries).
Proof.
  split; [by vm_compute|..]; intros p f Hne Hin; destruct (entry_spec p f Hne Hin) as (? & ? & ? & ? & ?); by split_and!.
Qed.

#[export] Instance the_card : FileCard no_secure_channel (ref_tp entries) := ref_card entries entries_ok.

Definition file (i : nat) : CardFile := default (blank CardDF (args "7f20" "DF.GSM") None) (card !! i).
Definition where_ (i : nat) : pos :=
  nth i [[lit "3f00"]; [lit "3f00"; lit "7f20"]; [lit "3f00"; lit "7f20"; lit "6f07"]; [lit "3f00"; lit "2fe2"];
         [usim_aid]; [usim_aid; lit "6f3c"]] [].

Definition nodes : list nat := [0; 1; 2; 3; 4; 5]%nat.
Lemma card_nodes i f : card !! i = Some f → i ∈ nodes ∧ f = file i.
Proof.
  intros E. split; [|unfold file; by rewrite E].
  assert (map_Forall (λ i _, i ∈ nodes) card) as Hall by (refine (bool_decide_unpack _ _); vm_compute; exact I).
  by apply (Hall i f).
Qed.

Lemma node i : i ∈ nodes → card !! i = Some (file i).
Proof. intros Hi. repeat (apply elem_of_cons in Hi as [->|Hi]; [vm_compute; reflexivity|]). set_solver. Qed.

Lemma node_in_tree i : in_tree card 0 i → i ∈ nodes ∧ ∃ f, card !! i = Some f.
Proof.
  intros Hi. destruct (in_tree_get card 0 (wf_of_built _ card_built) i Hi) as (f & _ & Hf & _).
  split; [|by exists f]. by destruct (card_nodes i f Hf).
Qed.

Ltac each_node Hi := repeat (apply elem_of_cons in Hi as [->|Hi]; [|]); [..|destruct (not_elem_of_nil _ Hi)].

Lemma node_pos i : i ∈ nodes → pos_of true [] card i (where_ i).
Proof.
  intros Hi.
  assert (P0 : pos_of true [] card 0 (where_ 0)) by (apply (pos_mf _ _ _ 0 (file 0)); vm_compute; reflexivity).
  assert (P1 : pos_of true [] card 1 (where_ 1)).
  { apply (pos_file _ _ _ 1 (file 1) 0 (lit "7f20") [lit "3f00"]); try (vm_compute; reflexivity); [lia|exact P0]. }
  assert (P4 : pos_of true [] card 4 (where_ 4)) by (apply (pos_adf _ _ _ 4 (file 4) usim_aid); vm_compute; reflexivity).
  each_node Hi; [exact P0|exact P1| | |exact P4|].
  - apply (pos_file _ _ _ 2 (file 2) 1 (lit "6f07") (where_ 1)); try (vm_compute; reflexivity); [lia|exact P1].
  - apply (pos_file _ _ _ 3 (file 3) 0 (lit "2fe2") (where_ 0)); try (vm_compute; reflexivity); [lia|exact P0].
  - apply (pos_file _ _ _ 5 (file 5) 4 (lit "6f3c") (where_ 4)); try (vm_compute; reflexivity); [lia|exact P4].
Qed.

Lemma node_pos_eq i p : in_tree card 0 i → pos_of true [] card i p → i ∈ nodes ∧ p = where_ i.
Proof.
  intros Hi Hp. destruct (node_in_tree i Hi) as [Hn _]. split; [done|]. eapply pos_of_det; [exact Hp|]. by apply node_pos.
Qed.

(** The FIDs of the card's files that are not found from [i]. *)
Definition listed (i : nat) : bool :=
  match get_selectables card i [] with
  | Ok sels => forallb (λ q, match list.last q with
                             | Some k => negb (bool_decide (is_Some (resolve (ref_fs entries) (where_ i) k)))
                                         || bool_decide (is_Some (kv_get k sels)) || negb (bool_decide (length k = 4%nat))
                             | None => true
                             end) entries.*1
  | Err _ => false
  end.

Lemma card_agrees : agrees fs true [] card 0.
Proof.
  split.
  - exact (wf_of_built _ card_built).
  - intros i f _ Hf Hm. destruct (card_nodes i f Hf) as [Hi ->]. revert Hm. clear -Hi. each_node Hi; vm_compute; congruence.
  - intros i f _ Hf Ha. destruct (card_nodes i f Hf) as [Hi ->]. revert Ha. clear -Hi.
    each_node Hi; intros Ha; try (exfalso; revert Ha; vm_compute; discriminate).
    clear. split_and!; [exists usim_aid|..]; vm_compute; reflexivity.
  - intros i f _ Hf Ha. destruct (card_nodes i f Hf) as [Hi ->]. revert Ha. clear -Hi.
    each_node Hi; intros Ha; try (exfalso; revert Ha; vm_compute; discriminate);
      (clear; eexists; split; vm_compute; reflexivity).
  - intros i f p Hi Hf Hp. destruct (card_nodes i f Hf) as [_ ->]. destruct (node_pos_eq i p Hi Hp) as [Hn ->]. clear -Hn.
    each_node Hn; vm_compute; congruence.
  - intros c cf p l k Hc Hcf Ha Hpar Hne Hl Hk. destruct (card_nodes c cf Hcf) as [Hn ->].
    assert (Hp : in_tree card 0 p) by exact (in_tree_parent card 0 c (file c) p Hc Hcf Hpar).
    destruct (node_pos_eq p l Hp Hl) as [_ ->]. revert Ha Hpar Hne Hk. clear -Hn.
    each_node Hn; intros _ Hpar; vm_compute in Hpar; injection Hpar as <-; intros Hne Hk; vm_compute in Hk;
      (discriminate Hk || injection Hk as <-); clear -Hne; vm_compute; congruence.
  - intros i p sels k Hi Hp Hon Hsels Hk Hlen. destruct (node_pos_eq i p Hi Hp) as [Hn ->].
    destruct (resolve fs (where_ i) k) as [q|] eqn:E; [|done]. exfalso.
    assert (listed i = true) as Hlist by (clear -Hn; each_node Hn; vm_compute; reflexivity).
    unfold listed in Hlist. rewrite Hsels, forallb_forall in Hlist.
    pose proof (resolve_there entries entries_ok _ _ _ Hon E) as Hq%bool_decide_eq_true.
    specialize (Hlist q (proj1 (list_elem_of_In _ _) Hq)). rewrite (resolve_last _ _ _ _ E), Hk in Hlist.
    rewrite (bool_decide_true (length k = 4%nat)) in Hlist by done.
    change fs with (ref_fs entries) in E. rewrite E, bool_decide_true, bool_decide_false in Hlist; [done|by intros []|by eauto].
  - intros i d Hi. destruct (node_in_tree i Hi) as [Hn _]. exists (VStr d). clear -Hn.
    each_node Hn; destruct d; vm_compute; reflexivity.
Qed.
(** Channel 0 with the MF selected. *)
Definition start : Lchan (Sc := unit) (Lk := pos) :=
  mkLchan card 0 true [] prof true (ref_commands [lit "3f00"]) 0 None None None.

Abbreviation sel := (Runtime.select no_secure_channel (ref_tp entries) 3).

Example imsi_selected : (λ r, (r.1, selected_file r.2, link (scc r.2))) (sel (lit "/DF.GSM/EF.IMSI") start) =
  (Ok (Some (VStr (lit "6200"))), 2%nat, [lit "3f00"; lit "7f20"; lit "6f07"]).
Proof. vm_compute. reflexivity. Qed.

(** The last file of the path is missing on the card. *)
Example sms_not_found : (λ r, (r.1, selected_file r.2, link (scc r.2))) (sel (lit "ADF.USIM/EF.SMS") start) =
  (Err (SwMatchError (lit "6a82") (lit "9000")), 0%nat, [lit "3f00"]).
Proof. vm_compute. reflexivity. Qed.

Lemma start_coherent : coherent true [] card 0 start 0.
Proof.
  split.
  - by split.
  - reflexivity.
  - apply (card_in_tree 0 []). vm_compute. reflexivity.
  - exists (where_ 0). split; [apply node_pos; left|]. apply ref_at_commands. vm_compute. reflexivity.
  - intros a Ha. discriminate Ha.
Qed.


End NavRun.

(** ** Where the channel goes wrong *)
Module NavLimits.
Import Ref FsRun RefCard.

Definition ef_fcp : value :=
  VDict [("file_descriptor", VDict [("file_descriptor_byte",
    VDict [("file_type", VStr (lit "working_ef")); ("structure", VStr (lit "transparent"))])])]%string.
Definition prof2 : CardProfile :=
  {| profile_sw := []; profile_cla := lit "00"; profile_sel_ctrl := lit "0004";
     profile_decode_select_response := λ _, Ok ef_fcp |}.

Definition adf_args (n : string) : file_args :=
  {| a_fid := None; a_sfid := None; a_name := Some (lit n); a_parent := None; a_profile := None; a_service := None |}.

(** MF (0), DF.GSM (1), EF.IMSI (2), ADF.USIM (3), EF.SMS (4) below it, ADF.ISIM (5) *)
Definition build_tree : H unit :=
  mf ← new_mf (Some prof2);
  gsm ← new_file CardDF (args "7f20" "DF.GSM");
  imsi ← new_file TransparentEF (args "6f07" "EF.IMSI");
  usim ← new_adf (lit "a0000000871002") true (adf_args "ADF.USIM");
  sms ← new_file LinFixedEF (args "6f3c" "EF.SMS");
  isim ← new_adf (lit "a0000000871004") true (adf_args "ADF.ISIM");
  add_file gsm imsi false;; add_file mf gsm false;; add_file usim sms false;;
  add_application_df mf usim;; add_application_df mf isim.
Definition tree : heap := (build_tree ∅).2.

Definition card_entries : list (pos * bool) :=
  [([lit "3f00"], true); ([lit "3f00"; lit "7f20"], true); ([lit "3f00"; lit "7f20"; lit "6f07"], false);
   ([lit "3f00"; lit "7f20"; lit "6f99"], false); ([lit "a0000000871002"], true);
   ([lit "a0000000871002"; lit "6f3c"], false); ([lit "a0000000871004"], true)].

Definition begin : Lchan (Sc := unit) (Lk := pos) :=
  mkLchan tree 0 true [] prof2 true (ref_commands [lit "3f00"]) 0 None None None.

Abbreviation sel := (Runtime.select no_secure_channel (ref_tp card_entries) 3).
Definition seen {A} (r : result A * Lchan (Sc := unit) (Lk := pos)) : result unit * nat * option nat * pos :=
  ((λ _, ()) <$> r.1, selected_file r.2, selected_adf r.2, link (scc r.2)).

(** A file the model does not list, selected by FID from its directory. *)
Example probed_from_df : seen ((sel (lit "DF.GSM");; sel (lit "6f99")) begin) =
  (Ok (), 6%nat, None, [lit "3f00"; lit "7f20"; lit "6f99"]).
Proof. vm_compute. reflexivity. Qed.

(** From an EF of that directory the card finds the file too, but the EF has
    no [add_files]: AttributeError. *)
Example probed_from_ef : seen ((sel (lit "DF.GSM/EF.IMSI");; sel (lit "6f99")) begin) =
  (Err AttributeError, 2%nat, None, [lit "3f00"; lit "7f20"; lit "6f07"]).
Proof. vm_compute. reflexivity. Qed.

(** After a failed excursion to another application the channel is back in
    the file of the first one, but [selected_adf] is still the other. *)
Example stale_adf :
  seen ((sel (lit "ADF.USIM/EF.SMS");; sel (lit "/ADF.ISIM/EF.IMPI")) begin) =
  (Err ValueError, 4%nat, Some 5%nat, [lit "a0000000871002"; lit "6f3c"]).
Proof. vm_compute. reflexivity. Qed.
End NavLimits.
