(* ===== verification/Oid.v ===== *)
(** pySim/esim/saip/oid.py: the object identifiers of profile templates. *)

From S2P Require Import Prelude.
From Stdlib Require Import Sorted.

(** ** The class [OID] *)

Definition intlist_from_str (instr : str) : result (list Z) := map_r (py_int 10) (split_on "." instr).

Definition str_from_intlist (intlist : list Z) : str := join "." (map str_of_int intlist).

Record OID := { intlist : list Z }.

#[export] Instance OID_eq_dec : EqDecision OID.
Proof. solve_decision. Defined.

(** [initializer: Union[List[int], str]] *)
Inductive initializer := FromList (l : list Z) | FromStr (s : str).

Definition OID_init (i : initializer) : result OID :=
  match i with
  | FromStr s => l ← intlist_from_str s; Ok {| intlist := l |}
  | FromList l => Ok {| intlist := l |}
  end.

Definition OID_str (o : OID) : str := str_from_intlist (intlist o).

Definition OID_eq (a b : OID) : bool := bool_decide (intlist a = intlist b).
Definition OID_ne (a b : OID) : bool := negb (OID_eq a b).

(** The body of the loop of [cmp], for the indices that are left. *)
Fixpoint cmp_loop (range : list nat) (a b : list Z) : Z :=
  match range with
  | [] => 0
  | i :: range' =>
      if (length a <=? i)%nat then -1
      else if (length b <=? i)%nat then 1
      else if nth i b 0 <? nth i a 0 then 1
      else if nth i a 0 <? nth i b 0 then -1
      else cmp_loop range' a b
  end.

Definition cmp (a b : OID) : Z :=
  cmp_loop (seq 0 (Nat.max (length (intlist a)) (length (intlist b)) + 1)) (intlist a) (intlist b).

(** [__gt__] gives True or None; [__lt__] is what functools.total_ordering
    makes of it. *)
Definition OID_gt (a b : OID) : bool := 0 <? cmp a b.
Definition OID_lt (a b : OID) : bool := negb (OID_gt a b) && OID_ne a b.

(** [sorted]: stable, by [__lt__] *)
Fixpoint insert_oid (o : OID) (l : list OID) : list OID :=
  match l with
  | [] => [o]
  | p :: l' => if OID_lt o p then o :: l else p :: insert_oid o l'
  end.
Definition sorted (l : list OID) : list OID := foldl (λ s o, insert_oid o s) [] l.

Definition highest_oid (oids : list OID) : result OID := zidx (sorted oids) (-1).

(** The argument is a string or an OID, which [str] makes a string. *)
Definition prefix_match (self : OID) (oid_str : str) : bool := startswith oid_str (OID_str self).

(** ** The class [eOID] and the identifiers of the templates *)

Definition eOID_prefix : list Z := [2; 23; 143; 1].

Definition eOID_init (i : initializer) : result OID :=
  l ← match i with FromStr s => intlist_from_str s | FromList l => Ok l end;
  OID_init (FromList (eOID_prefix ++ l)).

(** An identifier of the module; [identifiers_made] below says that every
    one of them is made without an exception. *)
Definition eOID (s : string) : OID :=
  match eOID_init (FromStr s) with Ok o => o | Err _ => {| intlist := [] |} end.

Definition MF := eOID "2.1".
Definition DF_CD := eOID "2.2".
Definition DF_TELECOM := eOID "2.3".
Definition DF_TELECOM_v2 := eOID "2.3.2".
Definition ADF_USIM_by_default := eOID "2.4".
Definition ADF_USIM_by_default_v2 := eOID "2.4.2".
Definition ADF_USIMopt_not_by_default := eOID "2.5".
Definition ADF_USIMopt_not_by_default_v2 := eOID "2.5.2".
Definition ADF_USIMopt_not_by_default_v3 := eOID "2.5.3".
Definition DF_PHONEBOOK_ADF_USIM := eOID "2.6".
Definition DF_GSM_ACCESS_ADF_USIM := eOID "2.7".
Definition ADF_ISIM_by_default := eOID "2.8".
Definition ADF_ISIMopt_not_by_default := eOID "2.9".
Definition ADF_ISIMopt_not_by_default_v2 := eOID "2.9.2".
Definition ADF_CSIM_by_default := eOID "2.10".
Definition ADF_CSIM_by_default_v2 := eOID "2.10.2".
Definition ADF_CSIMopt_not_by_default := eOID "2.11".
Definition ADF_CSIMopt_not_by_default_v2 := eOID "2.11.2".
Definition DF_EAP := eOID "2.12".
Definition DF_5GS := eOID "2.13".
Definition DF_5GS_v2 := eOID "2.13.2".
Definition DF_5GS_v3 := eOID "2.13.3".
Definition DF_5GS_v4 := eOID "2.13.4".
Definition DF_SAIP := eOID "2.14".
Definition DF_SNPN := eOID "2.15".
Definition DF_5GProSe := eOID "2.16".
Definition IoT_by_default := eOID "2.17".
Definition IoTopt_not_by_default := eOID "2.18".

Definition all_oids : list OID :=
  [MF; DF_CD; DF_TELECOM; DF_TELECOM_v2; ADF_USIM_by_default; ADF_USIM_by_default_v2;
   ADF_USIMopt_not_by_default; ADF_USIMopt_not_by_default_v2; ADF_USIMopt_not_by_default_v3;
   DF_PHONEBOOK_ADF_USIM; DF_GSM_ACCESS_ADF_USIM; ADF_ISIM_by_default; ADF_ISIMopt_not_by_default;
   ADF_ISIMopt_not_by_default_v2; ADF_CSIM_by_default; ADF_CSIM_by_default_v2;
   ADF_CSIMopt_not_by_default; ADF_CSIMopt_not_by_default_v2; DF_EAP; DF_5GS; DF_5GS_v2; DF_5GS_v3;
   DF_5GS_v4; DF_SAIP; DF_SNPN; DF_5GProSe; IoT_by_default; IoTopt_not_by_default].

Lemma identifiers_made : Forall (λ o, take 4 (intlist o) = eOID_prefix ∧ (5 <= length (intlist o))%nat) all_oids
  ∧ NoDup all_oids.
Proof. split; [by vm_compute; repeat constructor|]. by apply (bool_decide_unpack _); vm_compute. Qed.

(** ** Decimal numbers *)

Lemma digits_step fuel b z : (b <=? z) = true → (0 < fuel)%nat →
  digits fuel b z = digits (fuel - 1) b (z / b) ++ [hexdig (z mod b)].
Proof.
  intros Hz Hf. destruct fuel as [|n]; [lia|]. cbn [digits]. destruct (Z.ltb_spec z b); [lia|].
  by replace (S n - 1)%nat with n by lia.
Qed.

Lemma log2_div10 z : 10 <= z → Z.log2 (z / 10) <= Z.log2 z - 3.
Proof.
  intros Hz.
  assert (Z.log2 (z / 10) <= Z.log2 (z / 8)) by (apply Z.log2_le_mono; dlia).
  assert (Z.log2 (z / 8) = Z.log2 z - 3); [|lia].
  change 8 with (2 ^ 3). rewrite <- Z.shiftr_div_pow2 by lia. rewrite Z.log2_shiftr by lia.
  pose proof (Z.log2_le_mono 8 z). change (Z.log2 8) with 3 in *. lia.
Qed.

(** Induction along the decimal digits of a number. *)
Lemma decimal_ind (P : nat → Z → Prop) :
  (∀ fuel z, 0 <= z < 10 → P fuel z) →
  (∀ fuel z, 10 <= z → P fuel (z / 10) → P (S fuel) z) →
  ∀ fuel z, 0 <= z → Z.log2 z <= Z.of_nat fuel → P fuel z.
Proof.
  intros H0 HS. induction fuel as [|n IH]; intros z Hz Hl.
  - apply H0. assert (Z.log2 z = 0) as E by (pose proof (Z.log2_nonneg z); lia).
    apply Z.log2_null in E. lia.
  - destruct (Z.ltb_spec z 10); [by apply H0|]. apply HS; [done|]. apply IH; [dlia|].
    pose proof (log2_div10 z). lia.
Qed.

Lemma digit_facts d : 0 <= d < 10 →
  hexval (hexdig d) = Some d ∧ is_digit (hexdig d) = true ∧ is_space (hexdig d) = false
  ∧ Ascii.eqb (hexdig d) "_" = false ∧ Ascii.eqb (hexdig d) "-" = false ∧ Ascii.eqb (hexdig d) "+" = false
  ∧ Ascii.eqb "." (hexdig d) = false.
Proof. revert d. apply (small_cases _ 10). by repeat constructor. Qed.

Definition is_dec (s : str) : Prop := Forall (λ c, ∃ d, 0 <= d < 10 ∧ c = hexdig d) s.

Lemma digits_dec fuel z : 0 <= z → Z.log2 z <= Z.of_nat fuel → is_dec (digits fuel 10 z) ∧ digits fuel 10 z ≠ [].
Proof.
  revert fuel z. apply (decimal_ind (λ fuel z, is_dec (digits fuel 10 z) ∧ digits fuel 10 z ≠ [])).
  - intros fuel z Hz. assert (digits fuel 10 z = [hexdig z]) as -> by (destruct fuel; cbn; by destruct (Z.ltb_spec z 10); [|lia]).
    split; [|done]. apply Forall_singleton. eauto.
  - intros fuel z Hz [IH _]. rewrite digits_step by lia. replace (S fuel - 1)%nat with fuel by lia.
    split; [|by destruct (digits _ _ _)]. apply Forall_app. split; [done|].
    apply Forall_singleton. exists (z mod 10). split; [dlia|done].
Qed.

Lemma digits_value fuel z : 0 <= z → Z.log2 z <= Z.of_nat fuel → ∀ acc s,
  int_digits 10 acc (digits fuel 10 z ++ s) = int_digits 10 (acc * 10 ^ len (digits fuel 10 z) + z) s.
Proof.
  revert fuel z. apply (decimal_ind (λ fuel z, ∀ acc s,
    int_digits 10 acc (digits fuel 10 z ++ s) = int_digits 10 (acc * 10 ^ len (digits fuel 10 z) + z) s)).
  - intros fuel z Hz acc s.
    assert (digits fuel 10 z = [hexdig z]) as -> by (destruct fuel; cbn; by destruct (Z.ltb_spec z 10); [|lia]).
    cbn [app int_digits]. destruct (digit_facts z Hz) as (-> & _). destruct (Z.ltb_spec z 10); [|lia].
    reflexivity.
  - intros fuel z Hz IH acc s. rewrite digits_step by lia. replace (S fuel - 1)%nat with fuel by lia.
    rewrite <- app_assoc, IH. cbn [app int_digits].
    destruct (digit_facts (z mod 10)) as (-> & _); [dlia|].
    destruct (Z.ltb_spec (z mod 10) 10); [|dlia]. f_equal.
    rewrite len_app. change (len [hexdig (z mod 10)]) with 1. rewrite Z.pow_add_r by (pose proof (len_nonneg (digits fuel 10 (z / 10))); lia).
    set (p := 10 ^ len _). pose proof (Z.div_mod z 10). nia.
Qed.

Lemma str_of_int_digits z : 0 <= z → str_of_int z = digits_of 10 z.
Proof. intros. unfold str_of_int, fmt_d, fmt_base. destruct (Z.ltb_spec z 0); [lia|]. done. Qed.

Lemma fuel_enough z : 0 <= z → Z.log2 z <= Z.of_nat (Z.to_nat (Z.log2 z)).
Proof. pose proof (Z.log2_nonneg z). lia. Qed.

Lemma str_of_int_dec z : 0 <= z → is_dec (str_of_int z) ∧ str_of_int z ≠ [].
Proof. intros. rewrite str_of_int_digits by done. apply digits_dec; [done|]. by apply fuel_enough. Qed.

Lemma strip_dec s : is_dec s → strip s = s.
Proof.
  intros Hs. assert (∀ t, is_dec t → drop_while is_space t = t) as Hd.
  { intros [|c t]; [done|]. intros [(d & Hd0 & ->) _]%Forall_cons_1. cbn. by destruct (digit_facts d Hd0) as (_ & _ & -> & _). }
  unfold strip, drop_while_end. rewrite (Hd s) by done. rewrite (Hd (rev s)) by by apply List.Forall_rev. apply rev_involutive.
Qed.

Lemma py_int_str z : 0 <= z → py_int 10 (str_of_int z) = Ok z.
Proof.
  intros Hz. destruct (str_of_int_dec z Hz) as [Hd Hne]. unfold py_int. rewrite strip_dec by done.
  assert (int_unsigned 10 (str_of_int z) = Some z) as Hu.
  { destruct (str_of_int z) as [|c s] eqn:E; [done|]. cbn [int_unsigned].
    apply Forall_cons_1 in Hd as [(d & Hd & ->) _]. destruct (digit_facts d Hd) as (_ & _ & _ & -> & _).
    rewrite <- E, str_of_int_digits by done. rewrite <- (app_nil_r (digits_of _ _)).
    unfold digits_of. rewrite digits_value by (done || by apply fuel_enough). done. }
  destruct (str_of_int z) as [|c s] eqn:E; [done|].
  apply Forall_cons_1 in Hd as [(d & Hd & ->) _].
  destruct (digit_facts d Hd) as (_ & _ & _ & _ & -> & -> & _).
  destruct s; cbn [int_prefixed]; by rewrite Hu.
Qed.

Lemma str_of_int_inj a b : 0 <= a → 0 <= b → str_of_int a = str_of_int b → a = b.
Proof. intros Ha Hb E. apply (f_equal (py_int 10)) in E. rewrite !py_int_str in E by done. by simplify_eq. Qed.

(** ** The order of identifiers *)

Fixpoint lex (a b : list Z) : comparison :=
  match a, b with
  | [], [] => Eq
  | [], _ :: _ => Lt
  | _ :: _, [] => Gt
  | x :: a', y :: b' => match x ?= y with Eq => lex a' b' | c => c end
  end.

Lemma cmp_loop_lex a : ∀ b p q n, length p = length q → (Nat.max (length a) (length b) < n)%nat →
  cmp_loop (seq (length p) n) (p ++ a) (q ++ b) = match lex a b with Gt => 1 | _ => -1 end.
Proof.
  induction a as [|x a IH]; intros b p q n Hpq Hn; (destruct n as [|n]; [lia|]); cbn [seq cmp_loop];
    rewrite !length_app, <- Hpq.
  - rewrite Nat.add_0_r. destruct (Nat.leb_spec (length p) (length p)); [|lia]. by destruct b.
  - destruct (Nat.leb_spec (length p + length (x :: a)) (length p)) as [Hl|_]; [cbn in Hl; lia|].
    destruct b as [|y b].
    { rewrite Nat.add_0_r. destruct (Nat.leb_spec (length p) (length p)); [|lia]. done. }
    destruct (Nat.leb_spec (length p + length (y :: b)) (length p)) as [Hl|_]; [cbn in Hl; lia|].
    rewrite (app_nth2 p) by lia. rewrite (app_nth2 q) by lia. rewrite <- Hpq, Nat.sub_diag. cbn [nth lex].
    destruct (Z.ltb_spec y x), (Z.ltb_spec x y), (Z.compare_spec x y); try lia; try done. subst y.
    specialize (IH b (p ++ [x]) (q ++ [x]) n). rewrite !length_app, <- !app_assoc in IH. cbn [app length] in IH.
    rewrite Nat.add_comm in IH. apply IH; [lia|]. cbn [length] in Hn. lia.
Qed.

Lemma cmp_lex a b : cmp a b = match lex (intlist a) (intlist b) with Gt => 1 | _ => -1 end.
Proof. apply (cmp_loop_lex (intlist a) (intlist b) [] []); [done|]. lia. Qed.

Lemma lex_eq a : ∀ b, lex a b = Eq ↔ a = b.
Proof.
  induction a as [|x a IH]; intros [|y b]; cbn; try done.
  destruct (Z.compare_spec x y); [|split; intros; simplify_eq; lia..]. rewrite IH. naive_solver.
Qed.

Lemma lex_antisym a : ∀ b, lex b a = CompOpp (lex a b).
Proof.
  induction a as [|x a IH]; intros [|y b]; cbn; try done.
  rewrite Z.compare_antisym. by destruct (x ?= y); cbn.
Qed.

Lemma lex_trans a : ∀ b c, lex a b = Lt → lex b c = Lt → lex a c = Lt.
Proof.
  induction a as [|x a IH]; intros [|y b] [|z c]; cbn; try done.
  destruct (Z.compare_spec x y), (Z.compare_spec y z), (Z.compare_spec x z); try lia; try done; subst; eauto.
Qed.

Lemma OID_lt_lex a b : OID_lt a b = true ↔ lex (intlist a) (intlist b) = Lt.
Proof.
  unfold OID_lt, OID_gt, OID_ne, OID_eq. rewrite cmp_lex.
  pose proof (lex_eq (intlist a) (intlist b)) as He.
  destruct (lex _ _) eqn:E; cbn; [|by rewrite bool_decide_false by naive_solver|done].
  rewrite bool_decide_true by naive_solver. done.
Qed.

#[export] Instance OID_lt_strict : StrictOrder (λ a b, OID_lt a b = true).
Proof.
  split.
  - intros a. unfold complement. rewrite OID_lt_lex. by rewrite (proj2 (lex_eq _ _)).
  - intros a b c. rewrite !OID_lt_lex. apply lex_trans.
Qed.

Lemma OID_eta a b : intlist a = intlist b → a = b.
Proof. destruct a, b. cbn. by intros ->. Qed.

Lemma OID_trichotomy a b : OID_lt a b = true ∨ a = b ∨ OID_lt b a = true.
Proof.
  rewrite !OID_lt_lex, (lex_antisym (intlist a) (intlist b)). pose proof (lex_eq (intlist a) (intlist b)) as He.
  destruct (lex _ _); cbn; [|auto..]. right; left. by apply OID_eta, He.
Qed.

(** The comparison operators are a strict total order, the lexicographic
    one on the arcs; [cmp] itself never gives 0, not even for equal
    identifiers. *)
Lemma oid_order a b :
  (OID_gt a b = true ↔ lex (intlist a) (intlist b) = Gt) ∧ OID_lt a b = OID_gt b a ∧ cmp a a = -1.
Proof.
  pose proof (OID_lt_lex a b) as Hl. unfold OID_gt. rewrite !cmp_lex.
  rewrite (proj2 (lex_eq (intlist a) (intlist a)) eq_refl), (lex_antisym (intlist a) (intlist b)).
  destruct (lex (intlist a) (intlist b)), (OID_lt a b); cbn; naive_solver.
Qed.

Definition not_after (a b : OID) : Prop := OID_lt b a = false.

#[export] Instance not_after_trans : Transitive not_after.
Proof.
  intros a b c Hab Hbc. unfold not_after in *. destruct (OID_lt c a) eqn:E; [|done].
  destruct (OID_trichotomy b c) as [H|[->|H]]; [|congruence|congruence].
  rewrite <- Hab. symmetry. by apply (@transitivity _ _ (@StrictOrder_Transitive _ _ OID_lt_strict) b c a).
Qed.

Lemma lt_not_after a b : OID_lt a b = true → not_after a b.
Proof.
  intros H. unfold not_after. destruct (OID_lt b a) eqn:E; [|done].
  exfalso. apply (irreflexivity (λ a b, OID_lt a b = true) a).
  exact (@transitivity _ _ (@StrictOrder_Transitive _ _ OID_lt_strict) a b a H E).
Qed.

Lemma insert_oid_perm o l : Permutation (insert_oid o l) (o :: l).
Proof.
  induction l as [|p l IH]; cbn; [done|]. destruct (OID_lt o p); [done|]. rewrite IH. constructor.
Qed.

Lemma insert_oid_sorted o l : StronglySorted not_after l → StronglySorted not_after (insert_oid o l).
Proof.
  induction 1 as [|p l Hs IH Hp]; cbn; [by repeat constructor|]. destruct (OID_lt o p) eqn:E.
  - constructor; [by constructor|]. apply lt_not_after in E. constructor; [done|].
    eapply List.Forall_impl; [|exact Hp]. intros q Hq. by etransitivity.
  - constructor; [done|]. rewrite insert_oid_perm. by constructor.
Qed.

Lemma sorted_spec l : StronglySorted not_after (sorted l) ∧ Permutation (sorted l) l.
Proof.
  unfold sorted. assert (∀ acc, StronglySorted not_after acc →
    StronglySorted not_after (foldl (λ s o, insert_oid o s) acc l) ∧ Permutation (foldl (λ s o, insert_oid o s) acc l) (acc ++ l)) as H;
    [|destruct (H []); [constructor|done]].
  induction l as [|o l IH]; intros acc Ha; cbn; [by rewrite app_nil_r|].
  destruct (IH (insert_oid o acc)) as [H1 H2]; [by apply insert_oid_sorted|]. split; [done|].
  rewrite H2, insert_oid_perm. cbn. by rewrite Permutation_middle.
Qed.

(** [highest_oid] is in the list and no identifier of the list is higher;
    the empty list raises. *)
Lemma highest_oid_spec l :
  match highest_oid l with
  | Ok o => o ∈ l ∧ ∀ p, p ∈ l → p = o ∨ OID_lt p o = true
  | Err e => l = [] ∧ e = IndexError
  end.
Proof.
  destruct (sorted_spec l) as [Hs Hp]. unfold highest_oid.
  destruct (sorted l) as [|o s _] using rev_ind.
  { apply Permutation_nil in Hp. by subst. }
  assert (zidx (s ++ [o]) (-1) = Ok o) as ->.
  { unfold zidx. rewrite len_app. change (len [o]) with 1. pose proof (len_nonneg s).
    rewrite bool_decide_false by lia. rewrite bool_decide_true by lia.
    replace (Z.to_nat (len s + 1 + -1)) with (length s) by (unfold len; lia).
    unfold idx. by rewrite list_lookup_middle. }
  split; [rewrite <- Hp; set_solver|]. intros p Hin. rewrite <- Hp in Hin.
  apply elem_of_app in Hin as [Hin|Hin]; [|set_solver].
  assert (not_after p o) as Hn.
  { clear Hp. induction s as [|q s IH]; [set_solver|]. cbn in Hs. apply StronglySorted_inv in Hs as [Hs Hq].
    apply elem_of_cons in Hin as [->|Hin]; [|by apply IH].
    eapply list.Forall_forall; [exact Hq|]. set_solver. }
  destruct (OID_trichotomy p o) as [H|[H|H]]; [by right|by left|]. unfold not_after in Hn. congruence.
Qed.

(** ** Text form *)

#[local] Arguments Ascii.eqb : simpl never.

Definition no_dot (s : str) : Prop := Forall (λ d, Ascii.eqb "." d = false) s.

Lemma str_of_int_no_dot z : 0 <= z → no_dot (str_of_int z).
Proof.
  intros Hz. eapply List.Forall_impl; [|apply (str_of_int_dec z Hz)].
  intros c (d & Hd & ->). by destruct (digit_facts d Hd) as (_ & _ & _ & _ & _ & _ & ->).
Qed.

Lemma split_join ws : ws ≠ [] → Forall no_dot ws → split_on "." (join "." ws) = ws.
Proof.
  intros Hne. induction 1 as [|w ws Hw Hws IH]; [done|]. destruct ws as [|w' ws].
  - by apply split_on_none.
  - change (join "." (w :: w' :: ws)) with (w ++ "."%char :: join "." (w' :: ws)).
    rewrite split_on_app by done. by rewrite IH.
Qed.

Definition arcs_ok (l : list Z) : Prop := l ≠ [] ∧ Forall (λ z, 0 <= z) l.

Lemma no_dots l : Forall (λ z, 0 <= z) l → Forall no_dot (map str_of_int l).
Proof. intros Hl. apply List.Forall_map. eapply List.Forall_impl; [|exact Hl]. apply str_of_int_no_dot. Qed.

(** An identifier is read back from its text. *)
Lemma oid_text_round_trip l : arcs_ok l →
  OID_init (FromStr (OID_str {| intlist := l |})) = Ok {| intlist := l |}.
Proof.
  intros [Hne Hl]. unfold OID_init, OID_str, intlist_from_str, str_from_intlist. cbn [intlist].
  rewrite split_join by (by apply no_dots || by destruct l).
  assert (map_r (py_int 10) (map str_of_int l) = Ok l) as ->; [|done].
  clear Hne. induction Hl as [|z l Hz Hl IH]; [done|]. cbn [map map_r]. rewrite py_int_str by done. mrun.
  by rewrite IH.
Qed.

Lemma prefix_no_dot u : ∀ v r, no_dot u → prefix_of u (v ++ "."%char :: r) = prefix_of u v.
Proof.
  induction u as [|c u IH]; intros v r Hu; [done|]. apply Forall_cons_1 in Hu as [Hc Hu].
  destruct v as [|d v]; cbn.
  - rewrite Ascii.eqb_sym in Hc. by rewrite Hc.
  - by rewrite IH.
Qed.

Lemma prefix_dot_dot u : ∀ v r t, no_dot u → no_dot v →
  prefix_of (u ++ "."%char :: r) (v ++ "."%char :: t) = bool_decide (u = v) && prefix_of r t.
Proof.
  induction u as [|c u IH]; intros [|d v] r t Hu Hv; cbn.
  - by rewrite bool_decide_true.
  - apply Forall_cons_1 in Hv as [Hd _]. rewrite Hd. by rewrite bool_decide_false.
  - apply Forall_cons_1 in Hu as [Hc _]. rewrite Ascii.eqb_sym, Hc. by rewrite bool_decide_false.
  - apply Forall_cons_1 in Hu as [_ Hu], Hv as [_ Hv]. rewrite IH by done.
    destruct (Ascii.eqb_spec c d) as [->|Hne]; cbn.
    + f_equal. apply bool_decide_ext. naive_solver.
    + rewrite bool_decide_false by naive_solver. done.
Qed.

Lemma prefix_of_dot_none u r : ∀ v, no_dot v → prefix_of (u ++ "."%char :: r) v = false.
Proof.
  induction u as [|c u IH]; intros [|d v] Hv; cbn; try done; apply Forall_cons_1 in Hv as [Hd Hv].
  - by rewrite Hd.
  - rewrite IH by done. by rewrite andb_false_r.
Qed.

(** The identifiers a prefix matches, arc by arc. *)
Lemma prefix_arcs a : ∀ b, arcs_ok a → Forall (λ z, 0 <= z) b →
  prefix_of (str_from_intlist a) (str_from_intlist b) = true ↔
  ∃ p x y s, a = p ++ [x] ∧ b = p ++ y :: s ∧ prefix_of (str_of_int x) (str_of_int y) = true.
Proof.
  unfold str_from_intlist. induction a as [|x a IH]; intros b [Hne Ha] Hb; [done|].
  apply Forall_cons_1 in Ha as [Hx Ha]. pose proof (str_of_int_no_dot x Hx) as Hdx.
  destruct b as [|y b]; [|apply Forall_cons_1 in Hb as [Hy Hb]; pose proof (str_of_int_no_dot y Hy) as Hdy].
  { split.
    - destruct (str_of_int_dec x Hx) as [_ Hn]. destruct a; cbn; by destruct (str_of_int x).
    - by intros ([|??] & ? & ? & ? & _ & ? & _). }
  destruct a as [|x' a].
  - assert (prefix_of (join "." (map str_of_int [x])) (join "." (map str_of_int (y :: b)))
            = prefix_of (str_of_int x) (str_of_int y)) as ->.
    { destruct b as [|y' b]; [done|]. cbn [map join]. by apply prefix_no_dot. }
    split; [intros H; by exists [], x, y, b|].
    intros ([|z p] & x1 & y1 & s & E1 & E2 & H); simplify_eq/=; [done|]. by destruct p.
  - destruct b as [|y' b].
    { split; [|intros ([|z p] & x1 & y1 & s & E1 & E2 & H); simplify_eq/=; by destruct p].
      change (join "." (map str_of_int (x :: x' :: a))) with (str_of_int x ++ "."%char :: join "." (map str_of_int (x' :: a))).
      cbn [map]. change (join "." [str_of_int y]) with (str_of_int y). by rewrite prefix_of_dot_none. }
    change (join "." (map str_of_int (x :: x' :: a))) with (str_of_int x ++ "."%char :: join "." (map str_of_int (x' :: a))).
    change (join "." (map str_of_int (y :: y' :: b))) with (str_of_int y ++ "."%char :: join "." (map str_of_int (y' :: b))).
    rewrite prefix_dot_dot by done. rewrite andb_true_iff, bool_decide_eq_true, IH by done. split.
    + intros [E%str_of_int_inj (p & x1 & y1 & s & -> & -> & H)]; [|done..]. subst y. by exists (x :: p), x1, y1, s.
    + intros ([|z p] & x1 & y1 & s & E1 & E2 & H); simplify_eq/=. split; [done|]. by exists p, x1, y1, s.
Qed.

(** [prefix_match] compares text: apart from the identifiers equal to or
    below its own it takes those whose arc at the last position only begins
    with the digits of its last arc. *)
Theorem prefix_match_spec a b : arcs_ok (intlist a) → Forall (λ z, 0 <= z) (intlist b) →
  prefix_match a (OID_str b) = true ↔
  (∃ s, intlist b = intlist a ++ s) ∨
  (∃ p x y s, intlist a = p ++ [x] ∧ intlist b = p ++ y :: s ∧ x ≠ y ∧ prefix_of (str_of_int x) (str_of_int y) = true).
Proof.
  intros Ha Hb. unfold prefix_match, startswith, OID_str. rewrite prefix_arcs by done. split.
  - intros (p & x & y & s & E1 & E2 & H). destruct (decide (x = y)) as [->|Hne].
    + left. exists s. rewrite E1, E2. by rewrite <- app_assoc.
    + right. by exists p, x, y, s.
  - intros [(s & E)|(p & x & y & s & E1 & E2 & _ & H)]; [|by exists p, x, y, s].
    destruct (intlist a) as [|x p _] using rev_ind; [by destruct Ha|].
    exists p, x, x, s. rewrite E, <- app_assoc. split_and!; [done..|]. apply prefix_of_spec. exists []. by rewrite app_nil_r.
Qed.

(** The MF template's identifier takes the one of DF.EAP for its own. *)
Lemma prefix_match_spec_witness : prefix_match MF (OID_str DF_EAP) = true.
Proof.
  apply (prefix_match_spec MF DF_EAP); [by vm_compute; repeat constructor..|].
  right. exists [2; 23; 143; 1; 2], 1, 12, []. split_and!; [by vm_compute..|done|by vm_compute].
Defined.
