(* ===== verification/Templates.v ===== *)
(** pySim/esim/saip/templates.py, and the class Path of pySim/filesystem.py
    it uses: file templates, profile templates and their registry, versions
    of the specification. The templates themselves are in [TemplateData].

    The code hangs the files of a template below each other through
    attributes of the [FileTemplate] objects; here [ProfileTemplate] has them
    as lists that go with [files], so that a file is named by its position. *)

From S2P Require Import Prelude Osmocom Construct Filesystem Oid.

(** ** Paths

    The argument of [Path] is one string with slashes, a list of names or a
    list of integers (told by its first element). *)

Abbreviation Path := (list str).

Inductive path_arg := PathStr (s : str) | PathNames (l : list str) | PathInts (l : list Z).

Definition Path_init (p : path_arg) : Path :=
  map str_upper
    (match p with PathStr s => split_on "/" s | PathNames l => l | PathInts l => map (fmt_x 4) l end).

Definition Path_str (p : Path) : str := join "/" p.

(** [self + a] for a list or a path, and for a single name *)
Definition Path_add (self a : Path) : Path := Path_init (PathNames (self ++ a)).
Definition Path_add1 (self : Path) (a : str) : Path := Path_init (PathNames (self ++ [a])).

Definition relative_to_mf (self : Path) : Path :=
  match self with
  | x :: rest => if bool_decide (x = lit "MF") || bool_decide (x = lit "3F00") then Path_init (PathNames rest) else self
  | [] => self
  end.

Definition is_parent (self other : Path) : bool :=
  if len other <=? len self then false else bool_decide (take (length self) other = self).

(** ** [FileTemplate] *)

(** [ftype]: 'MF', 'DF', ... *)
Inductive file_type := FT_MF | FT_DF | FT_ADF | FT_TR | FT_LF | FT_CY | FT_BT.

#[export] Instance file_type_eq_dec : EqDecision file_type.
Proof. solve_decision. Defined.

(** [file_type in ['LF', 'CY']], [... in ['TR', 'BT']], [... in ['MF', 'DF', 'ADF']] *)
Definition record_based (t : file_type) : bool := match t with FT_LF | FT_CY => true | _ => false end.
Definition size_based (t : file_type) : bool := match t with FT_TR | FT_BT => true | _ => false end.
Definition dedicated (t : file_type) : bool := match t with FT_MF | FT_DF | FT_ADF => true | _ => false end.

(** The arguments of the constructor. *)
Record FileTemplateArgs := {
  a_fid : option Z;
  a_name : str;
  a_ftype : file_type;
  a_nb_rec : option Z;
  a_size : option Z;
  a_arr : Z;
  a_sfi : option Z;
  a_default_val : option str;
  a_content_rqd : option bool;
  a_params : option (list str);
  a_ass_serv : option value;
  a_high_update : bool;
  a_pe_name : option str;
  a_repeat : bool;
  a_ppath : list Z }.

(** [nb_rec], [rec_len] and [file_size] are attributes of the files their
    type has them for; [has_records] and [has_size] below are [hasattr]. *)
Record FileTemplate := {
  t_fid : option Z;
  t_name : str;
  t_pe_name : str;
  t_file_type : file_type;
  t_nb_rec : option Z;
  t_rec_len : option Z;
  t_file_size : option Z;
  t_arr : Z;
  t_sfi : option Z;
  t_default_val : option str;
  t_default_val_repeat : bool;
  t_content_rqd : option bool;
  t_params : option (list str);
  t_ass_serv : option value;
  t_high_update : bool;
  t_ppath : list Z }.

Definition has_records (t : FileTemplate) : bool := record_based (t_file_type t).
Definition has_size (t : FileTemplate) : bool := size_based (t_file_type t).

Definition _default_value_len (self : FileTemplate) : option Z :=
  match t_file_type self with
  | FT_TR => t_file_size self
  | FT_LF | FT_CY => t_rec_len self
  | _ => None
  end.

(** [s.split(sep)]; [skip] characters of a separator are still to be passed. *)
Fixpoint split_sub (sep : str) (skip : nat) (s : str) : list str :=
  match s with
  | [] => [[]]
  | c :: s' =>
      match skip with
      | S k => split_sub sep k s'
      | O =>
          if prefix_of sep s then [] :: split_sub sep (length sep - 1) s'
          else match split_sub sep 0 s' with w :: ws => (c :: w) :: ws | [] => [[c]] end
      end
  end.
Definition split_str (sep s : str) : list str := split_sub sep 0 s.

(** [l[:n]] for any integer. *)
Definition py_take {A} (n : Z) (l : list A) : list A :=
  take (Z.to_nat (if n <? 0 then len l + n else n)) l.

(** [l * n] for any integer. *)
Definition py_mul {A} (l : list A) (n : Z) : list A := repeat_list (Z.to_nat n) l.

Section templates.
Context `{OsmocomUtils}.

(** A [length] of None asks for the default length of the file. *)
Definition expand_default_value_pattern (self : FileTemplate) (length : option Z) : result (option bytes) :=
  length ← from_opt ValueError (match length with Some n => Some n | None => _default_value_len self end);
  match filled (t_default_val self) with
  | None => Ok None
  | Some default_val =>
      if negb (str_in (lit "...") default_val) then Some <$> h2b default_val
      else
        match split_str (lit "...") default_val with
        | [l0; l1] =>
            prefix ← h2b l0;
            suffix ← h2b l1;
            let pad_len := length - len prefix - len suffix in
            if pad_len <=? 0 then Ok (Some (py_take length (prefix ++ suffix)))
            else Ok (Some (prefix ++ py_mul (last_n 1 prefix) pad_len ++ suffix))
        | _ => Err ValueError
        end
  end.

Definition FileTemplate_attrs (a : FileTemplateArgs) : FileTemplate :=
  {| t_fid := a_fid a; t_name := a_name a;
     t_pe_name := match filled (a_pe_name a) with
                  | Some n => n
                  | None => str_lower (replace_c "_" "-" (replace_c "." "-" (a_name a)))
                  end;
     t_file_type := a_ftype a;
     t_nb_rec := if record_based (a_ftype a) then a_nb_rec a else None;
     t_rec_len := if record_based (a_ftype a) then a_size a else None;
     t_file_size := if size_based (a_ftype a) then a_size a else None;
     t_arr := a_arr a; t_sfi := a_sfi a; t_default_val := a_default_val a;
     t_default_val_repeat := a_repeat a; t_content_rqd := a_content_rqd a; t_params := a_params a;
     t_ass_serv := a_ass_serv a; t_high_update := a_high_update a; t_ppath := a_ppath a |}.

(** The constructor tries the pattern once; [length or 100] *)
Definition FileTemplate_init (a : FileTemplateArgs) : result FileTemplate :=
  let self := FileTemplate_attrs a in
  (match filled (t_default_val self) with
   | None => Ok ()
   | Some _ =>
       let n := match _default_value_len self with Some n => if truthy n then n else 100 | None => 100 end in
       _ ← expand_default_value_pattern self (Some n); Ok ()
   end);;
  Ok self.
End templates.

(** ** [ProfileTemplate] *)

(** [t_parents], [t_children]: the attributes [parent] and [children] of the
    files, by position; [files_by_pename] and [tree] refer to positions. *)
Inductive ProfileTemplate := {
  created_by_default : bool;
  optional : bool;
  oid : option OID;
  files : list FileTemplate;
  extends : option ProfileTemplate;
  t_parent : option ProfileTemplate;
  files_by_pename : list (str * nat);
  tree : list nat;
  t_parents : list (option nat);
  t_children : list (list nat) }.

(** The body of a class derived from [ProfileTemplate]. *)
Record class_body := {
  b_created_by_default : bool;
  b_optional : bool;
  b_oid : option OID;
  b_files : list FileTemplate;
  b_extends : option ProfileTemplate;
  b_parent : option ProfileTemplate }.

Record links := {
  l_cur_df : option nat;
  l_parents : list (option nat);
  l_children : list (list nat);
  l_tree : list nat;
  l_by_pename : list (str * nat) }.

(** One file of the loop of [__init_subclass__]; [i] is its position, and
    [children] has an empty list for each file so far. *)
Definition link_file (s : links) (f : FileTemplate) : links :=
  let i := length (l_parents s) in
  let children := l_children s ++ [[]] in
  let by_pename := kv_set (t_pe_name f) i (l_by_pename s) in
  let add_below p cur_df :=
    {| l_cur_df := cur_df; l_parents := l_parents s ++ [Some p];
       l_children := alter (λ l, l ++ [i]) p children; l_tree := l_tree s; l_by_pename := by_pename |} in
  let add_root cur_df :=
    {| l_cur_df := cur_df; l_parents := l_parents s ++ [None]; l_children := children;
       l_tree := l_tree s ++ [i]; l_by_pename := by_pename |} in
  if dedicated (t_file_type f) then
    match l_cur_df s with
    | None => add_root (Some i)
    | Some cur_df =>
        let cur_df := match l_parents s !! cur_df with Some (Some p) => p | _ => cur_df end in
        add_below cur_df (Some i)
    end
  else
    match l_cur_df s with
    | None => add_root None
    | Some cur_df => add_below cur_df (Some cur_df)
    end.

Definition link_files (l : list FileTemplate) : links :=
  foldl link_file {| l_cur_df := None; l_parents := []; l_children := []; l_tree := []; l_by_pename := [] |} l.

(** The class itself; adding it to the registry is [registry_add]. *)
Definition init_subclass (b : class_body) : result ProfileTemplate :=
  (if b_optional b then Ok ()
   else f ← idx (b_files b) 0; guard_else (dedicated (t_file_type f)) ValueError);;
  let l := link_files (b_files b) in
  Ok {| created_by_default := b_created_by_default b; optional := b_optional b; oid := b_oid b;
        files := b_files b; extends := b_extends b; t_parent := b_parent b;
        files_by_pename := l_by_pename l; tree := l_tree l;
        t_parents := l_parents l; t_children := l_children l |}.

(** The [path] property: along [parent], which is always an earlier file. *)
Fixpoint template_path_fuel (fuel : nat) (cls : ProfileTemplate) (i : nat) : result Path :=
  match fuel with
  | O => Err OutOfFuel
  | S n =>
      f ← from_opt AttributeError (files cls !! i);
      match t_parents cls !! i with
      | Some (Some p) => path ← template_path_fuel n cls p; Ok (Path_add1 path (t_name f))
      | _ => Ok (Path_init (PathStr (t_name f)))
      end
  end.
Definition template_path (cls : ProfileTemplate) (i : nat) : result Path :=
  template_path_fuel (S (length (files cls))) cls i.

(** [get_file_by_path], which recurses on the path. *)
Fixpoint get_file_by_path (cls : ProfileTemplate) (i : nat) (path : list str) : result (option nat) :=
  match path with
  | [] => Err IndexError
  | p0 :: path' =>
      f ← from_opt AttributeError (files cls !! i);
      if negb (bool_decide (str_lower p0 = str_lower (t_name f))) then Ok None
      else
        (fix search cs :=
           match cs with
           | [] => Ok None
           | c :: cs' =>
               p1 ← idx path' 0;
               cf ← from_opt AttributeError (files cls !! c);
               if bool_decide (str_lower p1 = str_lower (t_name cf)) then get_file_by_path cls c path'
               else search cs'
           end) (default [] (t_children cls !! i))
  end.

(** [template.files_by_pename.get(pename, None)] *)
Definition file_by_pename (cls : ProfileTemplate) (pename : str) : option FileTemplate :=
  kv_get pename (files_by_pename cls) ≫= λ i, files cls !! i.

(** [base_df] returns a file, but for a template that extends another one the
    method [base_df] of that template (it is not called). *)
Inductive base := BaseFile (f : FileTemplate) | BaseMethod (cls : ProfileTemplate).

Definition base_df (cls : ProfileTemplate) : result base :=
  match extends cls with
  | Some e => Ok (BaseMethod e)
  | None => f ← idx (files cls) 0; Ok (BaseFile f)
  end.

(** [base_df().pe_name]: a method has no such attribute *)
Definition base_pe_name (cls : ProfileTemplate) : result str :=
  b ← base_df cls;
  match b with BaseFile f => Ok (t_pe_name f) | BaseMethod _ => Err AttributeError end.

(** ** [ProfileTemplateRegistry] *)

Abbreviation registry := (list (str * ProfileTemplate)).

(** [str(tpl.oid)]: 'None' for a class without one *)
Definition oid_str (o : option OID) : str := match o with Some o => OID_str o | None => lit "None" end.

Definition registry_add (by_oid : registry) (tpl : ProfileTemplate) : result registry :=
  let s := oid_str (oid tpl) in
  guard_else (match kv_get s by_oid with Some _ => false | None => true end) ValueError;;
  Ok (kv_set s tpl by_oid).

(** The class statements of a module, in order. *)
Fixpoint register_all (by_oid : registry) (l : list (result ProfileTemplate)) : result registry :=
  match l with
  | [] => Ok by_oid
  | c :: l' => tpl ← c; by_oid ← registry_add by_oid tpl; register_all by_oid l'
  end.

(** The object identifier as text or as a list of integers. *)
Definition get_by_oid (by_oid : registry) (o : value) : result (option ProfileTemplate) :=
  s ← match o with
      | VStr s => Ok s
      | VList l => str_from_intlist <$> map_r as_int l
      | _ => Err TypeError
      end;
  Ok (kv_get s by_oid).

(** ** [SaipSpecVersion] *)

Record SaipSpecVersion := { version : str; oids : list OID }.

Definition suports_template_OID (cls : SaipSpecVersion) (o : OID) : bool := existsb (OID_eq o) (oids cls).

(** [while l[-1] == '0': l.pop()] *)
Fixpoint strip_zeroes_rev (l : list str) : result (list str) :=
  match l with
  | [] => Err IndexError
  | x :: l' => if bool_decide (x = lit "0") then strip_zeroes_rev l' else Ok l
  end.
Definition strip_trailing_zeroes (l : list str) : result (list str) :=
  l ← strip_zeroes_rev (rev l); Ok (rev l).

Definition version_match (cls : SaipSpecVersion) (ver : str) : result bool :=
  cls_ver_l ← strip_trailing_zeroes (split_on "." (version cls));
  ver_l ← strip_trailing_zeroes (split_on "." ver);
  Ok (bool_decide (cls_ver_l = ver_l)).

(** [for_version]: [subclasses] are the subclasses in the order of
    [all_subclasses], which is a set. *)
Fixpoint for_version (subclasses : list SaipSpecVersion) (req_version : str) : result (option SaipSpecVersion) :=
  match subclasses with
  | [] => Ok None
  | c :: l => b ← version_match c req_version; (if (b : bool) then Ok (Some c) else for_version l req_version)
  end.

(** ** The patterns of default values *)

Definition no_stop (s : str) : Prop := Forall (λ c, c ≠ "."%char) s.

Lemma split_dots p : ∀ q, no_stop p → no_stop q → split_str (lit "...") (p ++ lit "..." ++ q) = [p; q].
Proof.
  change (lit "...") with ["."; "."; "."]%char. unfold split_str. intros q Hp Hq.
  assert (split_sub ["."; "."; "."]%char 0 q = [q]) as Eq.
  { clear Hp. induction Hq as [|c q Hc Hq IH]; [done|]. cbn [split_sub prefix_of].
    destruct (Ascii.eqb_spec "." c) as [<-|_]; [done|]. cbn [andb]. by rewrite IH. }
  induction Hp as [|c p Hc Hp IH].
  - cbn. by rewrite Eq.
  - cbn [app split_sub prefix_of]. destruct (Ascii.eqb_spec "." c) as [<-|_]; [done|]. cbn [andb].
    change (p ++ "."%char :: "."%char :: "."%char :: q) with (p ++ ["."; "."; "."]%char ++ q). by rewrite IH.
Qed.

Lemma str_in_mid sub p q : str_in sub (p ++ sub ++ q) = true.
Proof.
  induction p as [|c p IH]; cbn [app].
  - destruct (sub ++ q) as [|c s] eqn:E; cbn [str_in];
      (rewrite (proj2 (prefix_of_spec _ _)) by (exists q; by rewrite <- E)); done.
  - cbn [str_in]. by rewrite IH, orb_true_r.
Qed.

(** What a pattern "P...Q" stands for at [n] bytes. *)
Definition filled_pattern (P Q : bytes) (n : Z) : bytes :=
  if n <=? len P + len Q then take (Z.to_nat n) (P ++ Q)
  else P ++ replicate (Z.to_nat (n - len P - len Q)) (default 0 (list.last P)) ++ Q.

Lemma length_filled_pattern P Q n : 0 <= n → P ≠ [] → len (filled_pattern P Q n) = n.
Proof.
  intros Hn HP. unfold filled_pattern. destruct (Z.leb_spec n (len P + len Q)).
  - unfold len in *. rewrite length_take, length_app. lia.
  - autorewrite with sd. lia.
Qed.

Lemma py_mul_last {A} (P : list A) n x : list.last P = Some x → py_mul (last_n 1 P) n = replicate (Z.to_nat n) x.
Proof.
  intros HP. destruct P as [|y P _] using rev_ind; [done|]. rewrite list.last_snoc in HP. simplify_eq.
  unfold py_mul. rewrite last_n_app by done. unfold repeat_list.
  induction (Z.to_nat n) as [|k IH]; [done|]. cbn. by rewrite IH.
Qed.

Section patterns.
Context `{OsmocomUtils}.

Lemma expand_dots t p q P Q n :
  t_default_val t = Some (p ++ lit "..." ++ q) → no_stop p → no_stop q →
  h2b p = Ok P → h2b q = Ok Q → P ≠ [] → 0 <= n →
  expand_default_value_pattern t (Some n) = Ok (Some (filled_pattern P Q n)).
Proof.
  intros Hd Hp Hq EP EQ HP Hn. unfold expand_default_value_pattern. mrun. rewrite Hd.
  assert (filled (Some (p ++ lit "..." ++ q)) = Some (p ++ lit "..." ++ q)) as -> by (by destruct p).
  rewrite str_in_mid. cbn [negb]. rewrite split_dots by done. rewrite EP, EQ. mrun.
  unfold filled_pattern. destruct (list.last P) as [x|] eqn:El; [|by apply list.last_None in El].
  rewrite (py_mul_last P _ x) by done. unfold py_take. cbn [default].
  destruct (Z.leb_spec (n - len P - len Q) 0), (Z.leb_spec n (len P + len Q)); try lia; [|done].
  destruct (Z.ltb_spec n 0); [lia|]. done.
Qed.

Lemma expand_constant t s P n :
  t_default_val t = Some s → s ≠ [] → str_in (lit "...") s = false → h2b s = Ok P →
  expand_default_value_pattern t (Some n) = Ok (Some P).
Proof.
  intros Hd Hs Hi EP. unfold expand_default_value_pattern. mrun. rewrite Hd.
  destruct s as [|c s]; [done|]. cbn [filled]. rewrite Hi. cbn [negb]. by rewrite EP.
Qed.
End patterns.

(** ** The tree of a template *)

(** How many steps [parent] can go up from file [i]. *)
Definition up (parents : list (option nat)) (i : nat) : option nat := mjoin (parents !! i).

Record linked (s : links) (fs : list FileTemplate) : Prop := {
  k_parents : length (l_parents s) = length fs;
  k_children : length (l_children s) = length fs;
  k_below : ∀ i p, up (l_parents s) i = Some p → (p < i)%nat ∧ (∃ f, fs !! p = Some f ∧ dedicated (t_file_type f) = true);
  k_depth : ∀ i p, up (l_parents s) i = Some p → up (l_parents s) p ≫= up (l_parents s) = None;
  k_depth_df : ∀ i p f, up (l_parents s) i = Some p → fs !! i = Some f → dedicated (t_file_type f) = true → up (l_parents s) p = None;
  k_listed : ∀ i p, up (l_parents s) i = Some p ↔ ∃ l, l_children s !! p = Some l ∧ i ∈ l;
  k_tree : ∀ i, i ∈ l_tree s ↔ (i < length fs)%nat ∧ up (l_parents s) i = None;
  k_cur : ∀ d, l_cur_df s = Some d → ∃ f, fs !! d = Some f ∧ dedicated (t_file_type f) = true;
  k_pename : ∀ n, match kv_get n (l_by_pename s) with
                  | Some i => ∃ f, fs !! i = Some f ∧ t_pe_name f = n ∧ ∀ j g, (i < j)%nat → fs !! j = Some g → t_pe_name g ≠ n
                  | None => ∀ i f, fs !! i = Some f → t_pe_name f ≠ n
                  end }.

Lemma up_snoc ps x i : up (ps ++ [x]) i = if decide (i = length ps) then x else up ps i.
Proof.
  unfold up. case_decide as Hi.
  - subst. by rewrite list_lookup_middle.
  - destruct (decide (i < length ps)%nat); [by rewrite lookup_app_l|].
    rewrite !lookup_ge_None_2 by (rewrite ?length_app; cbn; lia). done.
Qed.

Lemma up_lt ps i p : up ps i = Some p → (i < length ps)%nat.
Proof. unfold up. destruct (ps !! i) eqn:E; [|done]. intros _. by apply lookup_lt_Some in E. Qed.

Lemma pename_snoc fs f i m :
  i = length fs →
  (∀ n, match kv_get n m with
        | Some i => ∃ f, fs !! i = Some f ∧ t_pe_name f = n ∧ ∀ j g, (i < j)%nat → fs !! j = Some g → t_pe_name g ≠ n
        | None => ∀ i f, fs !! i = Some f → t_pe_name f ≠ n
        end) →
  ∀ n, match kv_get n (kv_set (t_pe_name f) i m) with
       | Some i => ∃ g, (fs ++ [f]) !! i = Some g ∧ t_pe_name g = n ∧ ∀ j g', (i < j)%nat → (fs ++ [f]) !! j = Some g' → t_pe_name g' ≠ n
       | None => ∀ i g, (fs ++ [f]) !! i = Some g → t_pe_name g ≠ n
       end.
Proof.
  intros -> Hm n. rewrite kv_get_set. case_decide as Hn.
  - exists f. rewrite list_lookup_middle by done. split_and!; [done..|].
    intros j g Hj Hg. apply lookup_lt_Some in Hg. rewrite length_app in Hg. cbn in Hg. lia.
  - specialize (Hm n). destruct (kv_get n m) as [i|].
    + destruct Hm as (g & Hg & Hne & Hl). exists g. split_and!; [by apply lookup_app_l_Some|done|].
      intros j g' Hj Hg'. apply lookup_snoc_Some in Hg' as [[_ Hg']|[_ <-]]; eauto.
    + intros i g Hg. apply lookup_snoc_Some in Hg as [[_ Hg]|[_ <-]]; eauto.
Qed.

Section link.
Context (s : links) (fs : list FileTemplate) (f : FileTemplate) (Hs : linked s fs).

Lemma linked_root cur :
  (∀ d, cur = Some d → d = length fs ∧ dedicated (t_file_type f) = true) →
  linked {| l_cur_df := cur; l_parents := l_parents s ++ [None]; l_children := l_children s ++ [[]];
            l_tree := l_tree s ++ [length (l_parents s)];
            l_by_pename := kv_set (t_pe_name f) (length (l_parents s)) (l_by_pename s) |} (fs ++ [f]).
Proof.
  intros Hcur. destruct Hs as [kp kc kb kd kdd kl kt kcur kn].
  split; cbn [l_cur_df l_parents l_children l_tree l_by_pename].
  - rewrite !length_app. cbn. lia.
  - rewrite !length_app. cbn. lia.
  - intros i p. rewrite up_snoc. case_decide; [done|]. intros (? & g & ? & ?)%kb. split; [done|].
    exists g. split; [by apply lookup_app_l_Some|done].
  - intros i p. rewrite up_snoc. case_decide; [done|]. intros Hi. pose proof (kb _ _ Hi) as [Hlt _].
    pose proof (up_lt _ _ _ Hi). rewrite up_snoc. case_decide; [lia|].
    specialize (kd _ _ Hi). destruct (up (l_parents s) p) as [q|] eqn:E; [|done]. cbn in *.
    rewrite up_snoc. by case_decide.
  - intros i p g. rewrite up_snoc. case_decide; [done|]. intros Hi Hg Hded.
    apply lookup_snoc_Some in Hg as [[_ Hg]|[-> _]]; [|rewrite kp in *; done].
    rewrite up_snoc. case_decide; [done|]. eauto.
  - intros i p. rewrite up_snoc. case_decide as Hi.
    + split; [done|]. intros (l & Hl & Hin). apply lookup_snoc_Some in Hl as [[_ Hl]|[_ <-]]; [|set_solver].
      assert (up (l_parents s) i = Some p) as Hu by (apply kl; eauto). apply up_lt in Hu. lia.
    + rewrite kl. split; intros (l & Hl & Hin); exists l; (split; [|done]).
      * by apply lookup_app_l_Some.
      * apply lookup_snoc_Some in Hl as [[_ Hl]|[_ <-]]; [done|set_solver].
  - intros i. rewrite elem_of_app, list_elem_of_singleton, kt, up_snoc, length_app. cbn.
    case_decide; [intuition lia|]. rewrite kp in *. intuition lia.
  - intros d Hd. destruct (Hcur _ Hd) as [-> ?]. exists f. by rewrite list_lookup_middle.
  - by apply pename_snoc.
Qed.

Lemma linked_below p cur :
  (∃ g, fs !! p = Some g ∧ dedicated (t_file_type g) = true) →
  (dedicated (t_file_type f) = true → up (l_parents s) p = None) →
  (∀ d, cur = Some d → d = p ∨ d = length fs ∧ dedicated (t_file_type f) = true) →
  linked {| l_cur_df := cur; l_parents := l_parents s ++ [Some p];
            l_children := alter (λ l, l ++ [length (l_parents s)]) p (l_children s ++ [[]]);
            l_tree := l_tree s;
            l_by_pename := kv_set (t_pe_name f) (length (l_parents s)) (l_by_pename s) |} (fs ++ [f]).
Proof.
  intros (gp & Hgp & Hdp) Hroot Hcur. destruct Hs as [kp kc kb kd kdd kl kt kcur kn].
  pose proof (lookup_lt_Some _ _ _ Hgp) as Hp.
  split; cbn [l_cur_df l_parents l_children l_tree l_by_pename].
  - rewrite !length_app. cbn. lia.
  - rewrite length_alter, !length_app. cbn. lia.
  - intros i q. rewrite up_snoc. case_decide; [intros [= <-]|intros (? & g & ? & ?)%kb].
    + split; [lia|]. exists gp. split; [by apply lookup_app_l_Some|done].
    + split; [done|]. exists g. split; [by apply lookup_app_l_Some|done].
  - intros i q. rewrite up_snoc. case_decide as Hi.
    + intros [= <-]. rewrite up_snoc. case_decide; [lia|].
      destruct (up (l_parents s) p) as [q|] eqn:E; [|done]. cbn. rewrite up_snoc.
      pose proof (kb _ _ E) as [? _]. case_decide; [lia|]. eauto.
    + intros Hq. pose proof (kb _ _ Hq) as [Hlt _]. pose proof (up_lt _ _ _ Hq). rewrite up_snoc. case_decide; [lia|].
      specialize (kd _ _ Hq). destruct (up (l_parents s) q) as [r|] eqn:E; [|done]. cbn in *.
      rewrite up_snoc. pose proof (kb _ _ E) as [? _]. case_decide; [lia|done].
  - intros i q g. rewrite up_snoc. case_decide as Hi.
    + intros [= <-] Hg Hded. apply lookup_snoc_Some in Hg as [[? _]|[_ <-]]; [lia|].
      rewrite up_snoc. case_decide; [lia|]. by apply Hroot.
    + intros Hq Hg Hded. pose proof (kb _ _ Hq) as [? _]. pose proof (up_lt _ _ _ Hq).
      apply lookup_snoc_Some in Hg as [[_ Hg]|[-> _]]; [|lia].
      rewrite up_snoc. case_decide; [lia|]. eauto.
  - intros i q. rewrite up_snoc. destruct (decide (p = q)) as [<-|Hpq];
      [rewrite list_lookup_alter_eq|rewrite list_lookup_alter_ne by done].
    + rewrite lookup_app_l by lia. destruct (lookup_lt_is_Some_2 (l_children s) p) as [l Hl]; [lia|]. rewrite Hl. cbn.
      case_decide as Hi.
      * split; [|done]. intros _. exists (l ++ [length (l_parents s)]). split; [done|]. set_solver.
      * rewrite kl. split.
        -- intros (l' & ? & ?). simplify_eq. exists (l ++ [length (l_parents s)]). split; [done|set_solver].
        -- intros (l' & ? & Hin). simplify_eq. exists l. split; [done|set_solver].
    + case_decide as Hi.
      * split; [by intros [= ->]|]. intros (l & Hl & Hin). exfalso.
        apply lookup_snoc_Some in Hl as [[_ Hl]|[_ <-]]; [|set_solver].
        assert (up (l_parents s) i = Some q) as Hu by (apply kl; eauto). apply up_lt in Hu. lia.
      * rewrite kl. split; intros (l & Hl & Hin); exists l; (split; [|done]).
        -- by apply lookup_app_l_Some.
        -- apply lookup_snoc_Some in Hl as [[_ Hl]|[_ <-]]; [done|set_solver].
  - intros i. rewrite kt, up_snoc, length_app. cbn. case_decide; [rewrite kp in *; intuition (lia || done)|]. rewrite kp in *. intuition lia.
  - intros d Hd. destruct (Hcur _ Hd) as [->|[-> ?]].
    + exists gp. split; [by apply lookup_app_l_Some|done].
    + exists f. by rewrite list_lookup_middle.
  - by apply pename_snoc.
Qed.

Lemma link_file_linked : linked (link_file s f) (fs ++ [f]).
Proof.
  pose proof (k_cur _ _ Hs) as Hc. pose proof (k_parents _ _ Hs) as Hl. unfold link_file.
  destruct (dedicated (t_file_type f)) eqn:Ed, (l_cur_df s) as [d|] eqn:Ecur.
  - destruct (Hc d eq_refl) as (g & Hg & Hdg). apply linked_below.
    + destruct (l_parents s !! d) as [[q|]|] eqn:E; [|eauto..].
      apply (k_below _ _ Hs d q). unfold up. by rewrite E.
    + intros _. destruct (l_parents s !! d) as [[q|]|] eqn:E; [|unfold up; by rewrite E..].
      eapply (k_depth_df _ _ Hs d); [unfold up; by rewrite E|done..].
    + intros ? [= <-]. right. by rewrite Hl.
  - apply linked_root. intros ? [= <-]. by rewrite Hl.
  - apply linked_below; [by eauto|by rewrite Ed|]. intros ? [= <-]. by left.
  - by apply linked_root.
Qed.
End link.

Lemma link_files_linked fs : linked (link_files fs) fs.
Proof.
  unfold link_files. induction fs as [|f fs IH] using rev_ind.
  - split; cbn; try done; intros.
    + unfold up. rewrite lookup_nil. cbn. naive_solver.
    + split; [by intros ?%elem_of_nil|lia].
  - rewrite foldl_app. by apply link_file_linked.
Qed.

(** Files of a class that went through [__init_subclass__]. *)
Definition linked_class (cls : ProfileTemplate) : Prop :=
  linked {| l_cur_df := None; l_parents := t_parents cls; l_children := t_children cls; l_tree := tree cls;
            l_by_pename := files_by_pename cls |} (files cls).

Lemma init_subclass_linked b cls : init_subclass b = Ok cls → linked_class cls ∧ files cls = b_files b.
Proof.
  unfold init_subclass. intros (u & _ & [= <-])%bind_ok. split; [|done].
  destruct (link_files_linked (b_files b)). split; try done.
Qed.

Lemma template_path_total cls : linked_class cls → ∀ n i, (i < n)%nat → (i < length (files cls))%nat →
  ∃ path, ∀ m, (n <= m)%nat → template_path_fuel m cls i = Ok path.
Proof.
  intros Hc. induction n as [|n IH]; intros i Hn Hi; [lia|].
  destruct (lookup_lt_is_Some_2 (files cls) i Hi) as [f Ef].
  destruct (t_parents cls !! i) as [[p|]|] eqn:Ep.
  - destruct (k_below _ _ Hc i p) as [Hlt _]; [unfold up; cbn; by rewrite Ep|].
    destruct (IH p) as [path Hp]; [lia..|]. exists (Path_add1 path (t_name f)).
    intros [|m] Hm; [lia|]. cbn [template_path_fuel]. rewrite Ef. mrun. rewrite Ep, Hp by lia. done.
  - exists (Path_init (PathStr (t_name f))). intros [|m] Hm; [lia|]. cbn [template_path_fuel]. rewrite Ef. mrun. by rewrite Ep.
  - exists (Path_init (PathStr (t_name f))). intros [|m] Hm; [lia|]. cbn [template_path_fuel]. rewrite Ef. mrun. by rewrite Ep.
Qed.

Lemma template_path_eq cls i f : linked_class cls → files cls !! i = Some f →
  template_path cls i =
    match up (t_parents cls) i with
    | None => Ok (Path_init (PathStr (t_name f)))
    | Some p => above ← template_path cls p; Ok (Path_add1 above (t_name f))
    end.
Proof.
  intros Hc Ef. pose proof (lookup_lt_Some _ _ _ Ef) as Hi. unfold template_path at 1.
  cbn [template_path_fuel]. rewrite Ef. mrun. unfold up. destruct (t_parents cls !! i) as [[p|]|] eqn:Ep; [|done..].
  cbn [mjoin option_join]. destruct (k_below _ _ Hc i p) as [Hlt _]; [unfold up; cbn; by rewrite Ep|].
  destruct (template_path_total cls Hc (length (files cls)) p) as [path Hp]; [lia..|].
  unfold template_path. by rewrite !Hp by lia.
Qed.


(** [get_file_by_path] never finds a file: it gives None or runs past the end
    of the path. *)
Lemma get_file_by_path_none cls path : ∀ i r, get_file_by_path cls i path = Ok r → r = None.
Proof.
  induction path as [|p0 path IH]; intros i r; [done|]. cbn [get_file_by_path].
  intros (f & _ & E)%bind_ok. destruct (negb _); [by simplify_eq|].
  induction (default [] (t_children cls !! i)) as [|c cs IHc]; [by simplify_eq|].
  apply bind_ok in E as (p1 & _ & (cf & _ & E)%bind_ok). destruct (bool_decide _); [by eapply IH|by apply IHc].
Qed.

(** ** Versions *)

Lemma version_match_strip c v cv : strip_trailing_zeroes (split_on "." (version c)) = Ok cv →
  version_match c v = (l ← strip_trailing_zeroes (split_on "." v); Ok (bool_decide (cv = l))).
Proof. intros E. unfold version_match. by rewrite E. Qed.

(** ** The registry *)

Lemma register_all_spec l : ∀ r0 r, register_all r0 l = Ok r →
  (∀ s c, kv_get s r0 = Some c → kv_get s r = Some c) ∧
  (length r = length r0 + length l)%nat ∧
  ∀ c, c ∈ l → ∃ cls, c = Ok cls ∧ kv_get (oid_str (oid cls)) r = Some cls.
Proof.
  induction l as [|c l IH]; intros r0 r; cbn [register_all].
  - intros [= <-]. split_and!; [done|cbn; lia|]. intros c Hc. by apply elem_of_nil in Hc.
  - intros (tpl & -> & (r1 & E1 & Er)%bind_ok)%bind_ok. unfold registry_add in E1.
    apply bind_ok in E1 as (u & Hg & [= <-]). apply guard_else_ok in Hg.
    destruct (kv_get (oid_str (oid tpl)) r0) eqn:Ef; [done|].
    destruct (IH _ _ Er) as (H1 & H2 & H3). rewrite kv_set_fresh in H2 by done. rewrite length_app in H2. cbn in H2.
    split_and!.
    + intros s c Hs. apply H1. rewrite kv_get_set. case_decide as E; [|done]. congruence.
    + cbn. lia.
    + intros c [->|Hc]%elem_of_cons; [|eauto]. exists tpl. split; [done|]. apply H1.
      rewrite kv_get_set. by rewrite decide_True.
Qed.

(** ** Finding a version *)

Definition stripped (c : SaipSpecVersion) : result (list str) := strip_trailing_zeroes (split_on "." (version c)).

(** [for_version] does not depend on the order of the classes when their
    versions differ. *)
Lemma for_version_perm l k v : Permutation l k →
  Forall (λ c, ∃ s, stripped c = Ok s) l → NoDup (map stripped l) →
  for_version l v = for_version k v.
Proof.
  intros Hp Hs Hnd. destruct (strip_trailing_zeroes (split_on "." v)) as [lv|e] eqn:Ev.
  - assert (∀ c s, stripped c = Ok s → version_match c v = Ok (bool_decide (s = lv))) as Hm.
    { intros c s E. rewrite (version_match_strip _ _ s) by done. by rewrite Ev. }
    assert (∀ l r, Forall (λ c, ∃ s, stripped c = Ok s) l → for_version l v = r →
      ∃ o, r = Ok o ∧ match o with Some c => c ∈ l ∧ stripped c = Ok lv | None => ∀ c, c ∈ l → stripped c ≠ Ok lv end) as Hf.
    { clear l k Hp Hs Hnd. intros l r Hs <-. induction Hs as [|c l [s Hs] Hl IH]; cbn [for_version].
      - exists None. split; [done|]. intros c Hc. by apply elem_of_nil in Hc.
      - rewrite (Hm c s) by done. mrun. case_bool_decide as E.
        + subst. eexists; split; [done|]. split; [set_solver|done].
        + destruct IH as (o & -> & Ho). exists o. split; [done|]. destruct o as [c'|].
          * split; [set_solver|tauto].
          * intros c' [->|Hc']%elem_of_cons; [congruence|eauto]. }
    destruct (Hf l _ Hs eq_refl) as (o1 & -> & H1).
    destruct (Hf k _ ltac:(by rewrite <- Hp) eq_refl) as (o2 & -> & H2). f_equal.
    destruct o1 as [c1|], o2 as [c2|].
    + f_equal. destruct H1 as [Hi1 E1], H2 as [Hi2 E2]. rewrite <- Hp in Hi2.
      apply list_elem_of_lookup in Hi1 as [i Hi1], Hi2 as [j Hi2].
      assert (i = j) as ->; [|congruence].
      eapply NoDup_lookup; [exact Hnd|rewrite list_lookup_fmap, Hi1; done|rewrite list_lookup_fmap, Hi2; cbn; congruence].
    + destruct H1 as [Hi1 E1]. rewrite Hp in Hi1. by destruct (H2 c1 Hi1).
    + destruct H2 as [Hi2 E2]. rewrite <- Hp in Hi2. by destruct (H1 c2 Hi2).
    + done.
  - assert (∀ l, Forall (λ c, ∃ s, stripped c = Ok s) l → for_version l v = if (length l =? 0)%nat then Ok None else Err e) as Hf.
    { intros l' Hl. destruct l' as [|c l']; [done|]. apply Forall_cons_1 in Hl as [[s Hc] _]. cbn [for_version length].
      rewrite (version_match_strip _ _ s) by done. by rewrite Ev. }
    rewrite !Hf by (done || by rewrite <- Hp). by rewrite (Permutation_length Hp).
Qed.

(** A directory with one file in it. *)
Definition tree_body : class_body :=
  let file n t := {| t_fid := Some 0x6f07; t_name := lit n; t_pe_name := lit n; t_file_type := t; t_nb_rec := None; t_rec_len := None;
                     t_file_size := None; t_arr := 1; t_sfi := None; t_default_val := None; t_default_val_repeat := false;
                     t_content_rqd := None; t_params := None; t_ass_serv := None; t_high_update := false; t_ppath := [] |} in
  {| b_created_by_default := true; b_optional := false; b_oid := None; b_files := [file "df" FT_DF; file "ef" FT_TR];
     b_extends := None; b_parent := None |}.

