(* ===== verification/TemplateData.v ===== *)
(** The profile templates of pySim/esim/saip/templates.py: the tables of
    files class by class, the classes with the templates they extend or lie
    below, the registry they form, and the versions of the specification.

    The tables keep the order and the arguments of the code; the optional
    arguments are a list of [kwarg]. A loop that appends a file per index is
    a [map] over [zrange]. *)

From S2P Require Import Prelude Osmocom Construct Filesystem Oid Templates.

(** [range(a, b)] *)
Definition zrange (a b : Z) : list Z := map (λ k, a + Z.of_nat k) (seq 0 (Z.to_nat (b - a))).

Inductive kwarg :=
| params (l : list str)
| ass_serv (v : value)
| high_update
| pe_name (s : string)
| repeat
| ppath (l : list Z).

Definition pick {A} (f : kwarg → option A) (kw : list kwarg) : option A := head (omap f kw).

(** [FileTemplate(fid, name, ftype, nb_rec, size, arr, sfi, default_val, content_rqd, ...)] *)
Definition FT (fid : option Z) (name : string) (ftype : file_type) (nb_rec size : option Z) (arr : Z)
    (sfi : option Z) (default_val : option str) (content_rqd : option bool) (kw : list kwarg) : FileTemplateArgs :=
  {| a_fid := fid; a_name := lit name; a_ftype := ftype; a_nb_rec := nb_rec; a_size := size; a_arr := arr;
     a_sfi := sfi; a_default_val := default_val; a_content_rqd := content_rqd;
     a_params := pick (λ k, match k with params l => Some l | _ => None end) kw;
     a_ass_serv := pick (λ k, match k with ass_serv v => Some v | _ => None end) kw;
     a_high_update := bool_decide (is_Some (pick (λ k, match k with high_update => Some () | _ => None end) kw));
     a_pe_name := pick (λ k, match k with pe_name s => Some (lit s) | _ => None end) kw;
     a_repeat := bool_decide (is_Some (pick (λ k, match k with repeat => Some () | _ => None end) kw));
     a_ppath := default [] (pick (λ k, match k with ppath l => Some l | _ => None end) kw) |}.

(** ** Tables of files *)

Definition FilesAtMF_files : list FileTemplateArgs :=
  [FT (Some 0x3f00) "MF" FT_MF None None 14 None None None [params [lit "pinStatusTemplateDO"]];
   FT (Some 0x2f05) "EF.PL" FT_TR None (Some 2) 1 (Some 0x05) (Some (lit "FF...FF")) None [];
   FT (Some 0x2f02) "EF.ICCID" FT_TR None (Some 10) 11 None None (Some true) [];
   FT (Some 0x2f00) "EF.DIR" FT_LF None None 10 (Some 0x1e) None (Some true) [params [lit "nb_rec"; lit "size"]];
   FT (Some 0x2f06) "EF.ARR" FT_LF None None 10 None None (Some true) [params [lit "nb_rec"; lit "size"]];
   FT (Some 0x2f08) "EF.UMPC" FT_TR None (Some 5) 10 (Some 0x08) None (Some false) []].

Definition FilesCD_files : list FileTemplateArgs :=
  [FT (Some 0x7f11) "DF.CD" FT_DF None None 14 None None (Some false) [params [lit "pinStatusTemplateDO"]];
   FT (Some 0x6f01) "EF.LAUNCHPAD" FT_TR None None 2 None None (Some true) [params [lit "size"]]]
  ++ map (λ i, FT (Some (0x6f00 + i)) "EF.ICON" FT_TR None None 2 None None (Some true) [params [lit "size"]]) (zrange 0x40 0x7f).

Definition df_pb_files : list FileTemplateArgs :=
  [FT (Some 0x5f3a) "DF.PHONEBOOK" FT_DF None None 14 None None (Some true) [params [lit "pinStatusTemplateDO"]];
   FT (Some 0x4f30) "EF.PBR" FT_LF None None 2 None None (Some true) [params [lit "nb_rec"; lit "size"]; ppath [0x5f3a]]]
  ++ map (λ i, FT (Some (0x4f00 + i)) "EF.EXT1" FT_LF None (Some 13) 5 None (Some (lit "00FF...FF")) (Some false) [params [lit "size"; lit "sfi"]; ppath [0x5f3a]]) (zrange 0x38 0x40)
  ++ map (λ i, FT (Some (0x4f00 + i)) "EF.AAS" FT_LF None None 5 None (Some (lit "FF...FF")) (Some false) [params [lit "nb_rec"; lit "size"]; ppath [0x5f3a]]) (zrange 0x40 0x48)
  ++ map (λ i, FT (Some (0x4f00 + i)) "EF.GAS" FT_LF None None 5 None (Some (lit "FF...FF")) (Some false) [params [lit "nb_rec"; lit "size"]; ppath [0x5f3a]]) (zrange 0x48 0x50)
  ++ [FT (Some 0x4f22) "EF.PSC" FT_TR None (Some 4) 5 None (Some (lit "00000000")) (Some false) [params [lit "sfi"]; ppath [0x5f3a]];
   FT (Some 0x4f23) "EF.CC" FT_TR None (Some 2) 5 None (Some (lit "0000")) (Some false) [params [lit "sfi"]; high_update; ppath [0x5f3a]];
   FT (Some 0x4f24) "EF.PUID" FT_TR None (Some 2) 5 None (Some (lit "0000")) (Some false) [params [lit "sfi"]; high_update; ppath [0x5f3a]]]
  ++ map (λ i, FT (Some (0x4f00 + i)) "EF.IAP" FT_LF None None 5 None (Some (lit "FF...FF")) (Some false) [params [lit "nb_rec"; lit "size"; lit "sfi"]; ppath [0x5f3a]]) (zrange 0x50 0x58)
  ++ map (λ i, FT (Some (0x4f00 + i)) "EF.ADN" FT_LF None None 5 None (Some (lit "FF...FF")) (Some false) [params [lit "nb_rec"; lit "size"; lit "sfi"]; ppath [0x5f3a]]) (zrange 0x58 0x60)
  ++ map (λ i, FT (Some (0x4f00 + i)) "EF.ADN" FT_LF None (Some 2) 5 None (Some (lit "00...00")) (Some false) [params [lit "nb_rec"; lit "sfi"]; ppath [0x5f3a]]) (zrange 0x60 0x68)
  ++ map (λ i, FT (Some (0x4f00 + i)) "EF.ANR" FT_LF None None 5 None (Some (lit "FF...FF")) (Some false) [params [lit "nb_rec"; lit "size"; lit "sfi"]; ppath [0x5f3a]]) (zrange 0x68 0x70)
  ++ map (λ i, FT (Some (0x4f00 + i)) "EF.PURI" FT_LF None None 5 None None (Some true) [params [lit "nb_rec"; lit "size"; lit "sfi"]; ppath [0x5f3a]]) (zrange 0x70 0x78)
  ++ map (λ i, FT (Some (0x4f00 + i)) "EF.EMAIL" FT_LF None None 5 None (Some (lit "FF...FF")) (Some false) [params [lit "nb_rec"; lit "size"; lit "sfi"]; ppath [0x5f3a]]) (zrange 0x78 0x80)
  ++ map (λ i, FT (Some (0x4f00 + i)) "EF.SNE" FT_LF None None 5 None (Some (lit "FF...FF")) (Some false) [params [lit "nb_rec"; lit "size"; lit "sfi"]; ppath [0x5f3a]]) (zrange 0x80 0x88)
  ++ map (λ i, FT (Some (0x4f00 + i)) "EF.UID" FT_LF None (Some 2) 5 None (Some (lit "0000")) (Some false) [params [lit "nb_rec"; lit "sfi"]; ppath [0x5f3a]]) (zrange 0x88 0x90)
  ++ map (λ i, FT (Some (0x4f00 + i)) "EF.GRP" FT_LF None None 5 None (Some (lit "00...00")) (Some false) [params [lit "nb_rec"; lit "size"; lit "sfi"]; ppath [0x5f3a]]) (zrange 0x90 0x98)
  ++ map (λ i, FT (Some (0x4f00 + i)) "EF.CCP1" FT_LF None None 5 None (Some (lit "FF...FF")) (Some false) [params [lit "nb_rec"; lit "size"; lit "sfi"]; ppath [0x5f3a]]) (zrange 0x98 0xa0).

Definition FilesTelecom_files : list FileTemplateArgs :=
  [FT (Some 0x7f10) "DF.TELECOM" FT_DF None None 14 None None (Some false) [params [lit "pinStatusTemplateDO"]];
   FT (Some 0x6f06) "EF.ARR" FT_LF None None 10 None None (Some true) [params [lit "nb_rec"; lit "size"]];
   FT (Some 0x6f53) "EF.RMA" FT_LF None None 3 None None (Some true) [params [lit "nb_rec"; lit "size"]];
   FT (Some 0x6f54) "EF.SUME" FT_TR None (Some 22) 3 None None (Some true) [];
   FT (Some 0x6fe0) "EF.ICE_DN" FT_LF (Some 50) (Some 24) 9 None (Some (lit "FF...FF")) (Some false) [];
   FT (Some 0x6fe1) "EF.ICE_FF" FT_LF None None 9 None (Some (lit "FF...FF")) (Some false) [params [lit "nb_rec"; lit "size"]];
   FT (Some 0x6fe5) "EF.PSISMSC" FT_LF None None 5 None None (Some true) [params [lit "nb_rec"; lit "size"]; ass_serv (VList [VInt 12; VInt 91])];
   FT (Some 0x5f50) "DF.GRAPHICS" FT_DF None None 14 None None (Some false) [params [lit "pinStatusTemplateDO"]];
   FT (Some 0x4f20) "EF.IMG" FT_LF None None 2 None (Some (lit "00FF...FF")) (Some false) [params [lit "nb_rec"; lit "size"]; ppath [0x5f50]];
   FT (Some 0x4f21) "EF.ICE_GRAPHICS" FT_BT None None 9 None None (Some false) [params [lit "size"]; ppath [0x5f50]];
   FT (Some 0x4f01) "EF.LAUNCH_SCWS" FT_TR None None 10 None None (Some true) [params [lit "size"]; ppath [0x5f50]]]
  ++ map (λ i, FT (Some (0x4f00 + i)) "EF.IIDF" FT_TR None None 2 None (Some (lit "FF...FF")) (Some false) [params [lit "size"]; ppath [0x5f50]]) (zrange 0x40 0x80)
  ++ map (λ i, FT (Some (0x4f00 + i)) "EF.ICON" FT_TR None None 10 None None (Some true) [params [lit "size"]; ppath [0x5f50]]) (zrange 0x80 0xc0)
  ++ df_pb_files
  ++ [FT (Some 0x5f3b) "DF.MULTIMEDIA" FT_DF None None 14 None None (Some false) [params [lit "pinStatusTemplateDO"]; ass_serv (VList [VInt 67])];
   FT (Some 0x4f47) "EF.MML" FT_BT None None 5 None None (Some false) [params [lit "size"]; ass_serv (VList [VInt 67]); ppath [0x5f3b]];
   FT (Some 0x4f48) "EF.MMDF" FT_BT None None 5 None None (Some false) [params [lit "size"]; ass_serv (VList [VInt 67]); ppath [0x5f3b]];
   FT (Some 0x5f3c) "DF.MMSS" FT_DF None None 14 None None (Some false) [params [lit "pinStatusTemplateDO"]];
   FT (Some 0x4f20) "EF.MLPL" FT_TR None None 2 (Some 0x01) None (Some true) [params [lit "size"]; ppath [0x5f3c]];
   FT (Some 0x4f21) "EF.MSPL" FT_TR None None 2 (Some 0x02) None (Some true) [params [lit "size"]; ppath [0x5f3c]];
   FT (Some 0x4f21) "EF.MMSSMODE" FT_TR None (Some 1) 2 (Some 0x03) None (Some true) [ppath [0x5f3c]]].

Definition FilesTelecomV2_files : list FileTemplateArgs :=
  [FT (Some 0x7f10) "DF.TELECOM" FT_DF None None 14 None None (Some false) [params [lit "pinStatusTemplateDO"]];
   FT (Some 0x6f06) "EF.ARR" FT_LF None None 10 None None (Some true) [params [lit "nb_rec"; lit "size"]];
   FT (Some 0x6f53) "EF.RMA" FT_LF None None 3 None None (Some true) [params [lit "nb_rec"; lit "size"]];
   FT (Some 0x6f54) "EF.SUME" FT_TR None (Some 22) 3 None None (Some true) [];
   FT (Some 0x6fe0) "EF.ICE_DN" FT_LF (Some 50) (Some 24) 9 None (Some (lit "FF...FF")) (Some false) [];
   FT (Some 0x6fe1) "EF.ICE_FF" FT_LF None None 9 None (Some (lit "FF...FF")) (Some false) [params [lit "nb_rec"; lit "size"]];
   FT (Some 0x6fe5) "EF.PSISMSC" FT_LF None None 5 None None (Some true) [params [lit "nb_rec"; lit "size"]; ass_serv (VList [VInt 12; VInt 91])];
   FT (Some 0x5f50) "DF.GRAPHICS" FT_DF None None 14 None None (Some false) [params [lit "pinStatusTemplateDO"]];
   FT (Some 0x4f20) "EF.IMG" FT_LF None None 2 None (Some (lit "00FF...FF")) (Some false) [params [lit "nb_rec"; lit "size"]; ppath [0x5f50]];
   FT (Some 0x4f21) "EF.ICE_GRRAPHICS" FT_BT None None 9 None None (Some false) [params [lit "size"]; ppath [0x5f50]];
   FT (Some 0x4f01) "EF.LAUNCH_SCWS" FT_TR None None 10 None None (Some true) [params [lit "size"]; ppath [0x5f50]]]
  ++ map (λ i, FT (Some (0x4f00 + i)) "EF.IIDF" FT_TR None None 2 None (Some (lit "FF...FF")) (Some false) [params [lit "size"]; ppath [0x5f50]]) (zrange 0x40 0x80)
  ++ map (λ i, FT (Some (0x4f00 + i)) "EF.ICON" FT_TR None None 10 None None (Some true) [params [lit "size"]; ppath [0x5f50]]) (zrange 0x80 0xc0)
  ++ df_pb_files
  ++ [FT (Some 0x5f3b) "DF.MULTIMEDIA" FT_DF None None 14 None None (Some false) [params [lit "pinStatusTemplateDO"]; ass_serv (VList [VInt 67])];
   FT (Some 0x4f47) "EF.MML" FT_BT None None 5 None None (Some false) [params [lit "size"]; ass_serv (VList [VInt 67]); ppath [0x5f3b]];
   FT (Some 0x4f48) "EF.MMDF" FT_BT None None 5 None None (Some false) [params [lit "size"]; ass_serv (VList [VInt 67]); ppath [0x5f3b]];
   FT (Some 0x5f3c) "DF.MMSS" FT_DF None None 14 None None (Some false) [params [lit "pinStatusTemplateDO"]];
   FT (Some 0x4f20) "EF.MLPL" FT_TR None None 2 (Some 0x01) None (Some true) [params [lit "size"]; ppath [0x5f3c]];
   FT (Some 0x4f21) "EF.MSPL" FT_TR None None 2 (Some 0x02) None (Some true) [params [lit "size"]; ppath [0x5f3c]];
   FT (Some 0x4f21) "EF.MMSSMODE" FT_TR None (Some 1) 2 (Some 0x03) None (Some true) [ppath [0x5f3c]];
   FT (Some 0x5f3d) "DF.MCS" FT_DF None None 14 None None (Some false) [params [lit "pinStatusTemplateDO"]; ass_serv (VDict [("usim"%string, VInt 109); ("isim"%string, VInt 15)])];
   FT (Some 0x4f01) "EF.MST" FT_TR None None 2 (Some 0x01) None (Some true) [params [lit "size"]; ass_serv (VDict [("usim"%string, VInt 109); ("isim"%string, VInt 15)]); ppath [0x5f3d]];
   FT (Some 0x4f02) "EF.MCSCONFIG" FT_BT None None 2 (Some 0x02) None (Some true) [params [lit "size"]; ass_serv (VDict [("usim"%string, VInt 109); ("isim"%string, VInt 15)]); ppath [0x5f3d]];
   FT (Some 0x5f3e) "DF.V2X" FT_DF None None 14 None None (Some false) [params [lit "pinStatusTemplateDO"]; ass_serv (VList [VInt 119])];
   FT (Some 0x4f01) "EF.VST" FT_TR None None 2 (Some 0x01) None (Some true) [params [lit "size"]; ass_serv (VList [VInt 119]); ppath [0x5f3e]];
   FT (Some 0x4f02) "EF.V2X_CONFIG" FT_BT None None 2 (Some 0x02) None (Some true) [params [lit "size"]; ass_serv (VList [VInt 119]); ppath [0x5f3e]];
   FT (Some 0x4f03) "EF.V2XP_PC5" FT_TR None None 2 None None (Some true) [params [lit "size"]; ass_serv (VList [VInt 119]); ppath [0x5f3e]];
   FT (Some 0x4f04) "EF.V2XP_Uu" FT_TR None None 2 None None (Some true) [params [lit "size"]; ass_serv (VList [VInt 119]); ppath [0x5f3e]]].

Definition FilesUsimMandatory_files : list FileTemplateArgs :=
  [FT None "ADF.USIM" FT_ADF None None 14 None None (Some false) [params [lit "aid"; lit "temp_fid"; lit "pinStatusTemplateDO"]];
   FT (Some 0x6f07) "EF.IMSI" FT_TR None (Some 9) 2 (Some 0x07) None (Some true) [params [lit "size"]];
   FT (Some 0x6f06) "EF.ARR" FT_LF None None 10 (Some 0x17) None (Some true) [params [lit "nb_rec"; lit "size"]];
   FT (Some 0x6f08) "EF.Keys" FT_TR None (Some 33) 5 (Some 0x08) (Some (lit "07FF...FF")) (Some false) [high_update];
   FT (Some 0x6f09) "EF.KeysPS" FT_TR None (Some 33) 5 (Some 0x09) (Some (lit "07FF...FF")) (Some false) [high_update; pe_name "ef-keysPS"];
   FT (Some 0x6f31) "EF.HPPLMN" FT_TR None (Some 1) 2 (Some 0x12) (Some (lit "0A")) (Some false) [];
   FT (Some 0x6f38) "EF.UST" FT_TR None (Some 14) 2 (Some 0x04) None (Some true) [];
   FT (Some 0x6f3b) "EF.FDN" FT_LF (Some 20) (Some 26) 8 None (Some (lit "FF...FF")) (Some false) [ass_serv (VList [VInt 2; VInt 89])];
   FT (Some 0x6f3c) "EF.SMS" FT_LF (Some 10) (Some 176) 5 None (Some (lit "00FF...FF")) (Some false) [ass_serv (VList [VInt 10])];
   FT (Some 0x6f42) "EF.SMSP" FT_LF (Some 1) (Some 38) 5 None (Some (lit "FF...FF")) (Some false) [ass_serv (VList [VInt 12])];
   FT (Some 0x6f43) "EF.SMSS" FT_TR None (Some 2) 5 None (Some (lit "FFFF")) (Some false) [ass_serv (VList [VInt 10])];
   FT (Some 0x6f46) "EF.SPN" FT_TR None (Some 17) 10 None None (Some true) [ass_serv (VList [VInt 19])];
   FT (Some 0x6f56) "EF.EST" FT_TR None (Some 1) 8 (Some 0x05) None (Some true) [ass_serv (VList [VInt 2; VInt 6; VInt 34; VInt 35])];
   FT (Some 0x6f5b) "EF.START-HFN" FT_TR None (Some 6) 5 (Some 0x0f) (Some (lit "F00000F00000")) (Some false) [high_update];
   FT (Some 0x6f5c) "EF.THRESHOLD" FT_TR None (Some 3) 2 (Some 0x10) (Some (lit "FFFFFF")) (Some false) [];
   FT (Some 0x6f73) "EF.PSLOCI" FT_TR None (Some 14) 5 (Some 0x0c) (Some (lit "FFFFFFFFFFFFFFFFFFFF0000FF01")) (Some false) [high_update];
   FT (Some 0x6f78) "EF.ACC" FT_TR None (Some 2) 2 (Some 0x06) None (Some true) [];
   FT (Some 0x6f7b) "EF.FPLMN" FT_TR None (Some 12) 5 (Some 0x0d) (Some (lit "FF...FF")) (Some false) [];
   FT (Some 0x6f7e) "EF.LOCI" FT_TR None (Some 11) 5 (Some 0x0b) (Some (lit "FFFFFFFFFFFFFF0000FF01")) (Some false) [high_update];
   FT (Some 0x6fad) "EF.AD" FT_TR None (Some 4) 10 (Some 0x03) (Some (lit "00000002")) (Some false) [];
   FT (Some 0x6fb7) "EF.ECC" FT_LF (Some 1) (Some 4) 10 (Some 0x01) None (Some true) [];
   FT (Some 0x6fc4) "EF.NETPAR" FT_TR None (Some 128) 5 None (Some (lit "FF...FF")) (Some false) [high_update];
   FT (Some 0x6fe3) "EF.EPSLOCI" FT_TR None (Some 18) 5 (Some 0x1e) (Some (lit "FFFFFFFFFFFFFFFFFFFFFFFFFFFFFF000001")) (Some false) [ass_serv (VList [VInt 85]); high_update];
   FT (Some 0x6fe4) "EF.EPSNSC" FT_LF (Some 1) (Some 80) 5 (Some 0x18) (Some (lit "FF...FF")) (Some false) [ass_serv (VList [VInt 85]); high_update]].

Definition FilesUsimMandatoryV2_files : list FileTemplateArgs :=
  [FT None "ADF.USIM" FT_ADF None None 14 None None (Some false) [params [lit "aid"; lit "temp_fid"; lit "pinStatusTemplateDO"]];
   FT (Some 0x6f07) "EF.IMSI" FT_TR None (Some 9) 2 (Some 0x07) None (Some true) [params [lit "size"]];
   FT (Some 0x6f06) "EF.ARR" FT_LF None None 10 (Some 0x17) None (Some true) [params [lit "nb_rec"; lit "size"]];
   FT (Some 0x6f08) "EF.Keys" FT_TR None (Some 33) 5 (Some 0x08) (Some (lit "07FF...FF")) (Some false) [high_update];
   FT (Some 0x6f09) "EF.KeysPS" FT_TR None (Some 33) 5 (Some 0x09) (Some (lit "07FF...FF")) (Some false) [high_update; pe_name "ef-keysPS"];
   FT (Some 0x6f31) "EF.HPPLMN" FT_TR None (Some 1) 2 (Some 0x12) (Some (lit "0A")) (Some false) [];
   FT (Some 0x6f38) "EF.UST" FT_TR None (Some 17) 2 (Some 0x04) None (Some true) [];
   FT (Some 0x6f3b) "EF.FDN" FT_LF (Some 20) (Some 26) 8 None (Some (lit "FF...FF")) (Some false) [ass_serv (VList [VInt 2; VInt 89])];
   FT (Some 0x6f3c) "EF.SMS" FT_LF (Some 10) (Some 176) 5 None (Some (lit "00FF...FF")) (Some false) [ass_serv (VList [VInt 10])];
   FT (Some 0x6f42) "EF.SMSP" FT_LF (Some 1) (Some 38) 5 None (Some (lit "FF...FF")) (Some false) [ass_serv (VList [VInt 12])];
   FT (Some 0x6f43) "EF.SMSS" FT_TR None (Some 2) 5 None (Some (lit "FFFF")) (Some false) [ass_serv (VList [VInt 10])];
   FT (Some 0x6f46) "EF.SPN" FT_TR None (Some 17) 10 None None (Some true) [ass_serv (VList [VInt 19])];
   FT (Some 0x6f56) "EF.EST" FT_TR None (Some 1) 8 (Some 0x05) None (Some true) [ass_serv (VList [VInt 2; VInt 6; VInt 34; VInt 35])];
   FT (Some 0x6f5b) "EF.START-HFN" FT_TR None (Some 6) 5 (Some 0x0f) (Some (lit "F00000F00000")) (Some false) [high_update];
   FT (Some 0x6f5c) "EF.THRESHOLD" FT_TR None (Some 3) 2 (Some 0x10) (Some (lit "FFFFFF")) (Some false) [];
   FT (Some 0x6f73) "EF.PSLOCI" FT_TR None (Some 14) 5 (Some 0x0c) (Some (lit "FFFFFFFFFFFFFFFFFFFF0000FF01")) (Some false) [high_update];
   FT (Some 0x6f78) "EF.ACC" FT_TR None (Some 2) 2 (Some 0x06) None (Some true) [];
   FT (Some 0x6f7b) "EF.FPLMN" FT_TR None (Some 12) 5 (Some 0x0d) (Some (lit "FF...FF")) (Some false) [];
   FT (Some 0x6f7e) "EF.LOCI" FT_TR None (Some 11) 5 (Some 0x0b) (Some (lit "FFFFFFFFFFFFFF0000FF01")) (Some false) [high_update];
   FT (Some 0x6fad) "EF.AD" FT_TR None (Some 4) 10 (Some 0x03) (Some (lit "00000002")) (Some false) [];
   FT (Some 0x6fb7) "EF.ECC" FT_LF (Some 1) (Some 4) 10 (Some 0x01) None (Some true) [];
   FT (Some 0x6fc4) "EF.NETPAR" FT_TR None (Some 128) 5 None (Some (lit "FF...FF")) (Some false) [high_update];
   FT (Some 0x6fe3) "EF.EPSLOCI" FT_TR None (Some 18) 5 (Some 0x1e) (Some (lit "FFFFFFFFFFFFFFFFFFFFFFFFFFFFFF000001")) (Some false) [ass_serv (VList [VInt 85]); high_update];
   FT (Some 0x6fe4) "EF.EPSNSC" FT_LF (Some 1) (Some 80) 5 (Some 0x18) (Some (lit "FF...FF")) (Some false) [ass_serv (VList [VInt 85]); high_update]].

Definition FilesUsimOptional_files : list FileTemplateArgs :=
  [FT (Some 0x6f05) "EF.LI" FT_TR None (Some 6) 1 (Some 0x02) (Some (lit "FF...FF")) (Some false) [];
   FT (Some 0x6f37) "EF.ACMmax" FT_TR None (Some 3) 5 None (Some (lit "000000")) (Some false) [ass_serv (VList [VInt 13]); pe_name "ef-acmax"];
   FT (Some 0x6f39) "EF.ACM" FT_CY (Some 1) (Some 3) 7 None (Some (lit "000000")) (Some false) [ass_serv (VList [VInt 13]); high_update];
   FT (Some 0x6f3e) "EF.GID1" FT_TR None (Some 8) 2 None None (Some true) [ass_serv (VList [VInt 17])];
   FT (Some 0x6f3f) "EF.GID2" FT_TR None (Some 8) 2 None None (Some true) [ass_serv (VList [VInt 18])];
   FT (Some 0x6f40) "EF.MSISDN" FT_LF (Some 1) (Some 24) 2 None (Some (lit "FF...FF")) (Some false) [ass_serv (VList [VInt 21])];
   FT (Some 0x6f41) "EF.PUCT" FT_TR None (Some 5) 5 None (Some (lit "FFFFFF0000")) (Some false) [ass_serv (VList [VInt 13])];
   FT (Some 0x6f45) "EF.CBMI" FT_TR None (Some 10) 5 None (Some (lit "FF...FF")) (Some false) [ass_serv (VList [VInt 15])];
   FT (Some 0x6f48) "EF.CBMID" FT_TR None (Some 10) 2 (Some 0x0e) (Some (lit "FF...FF")) (Some false) [ass_serv (VList [VInt 19])];
   FT (Some 0x6f49) "EF.SDN" FT_LF (Some 10) (Some 24) 2 None (Some (lit "FF...FF")) (Some false) [ass_serv (VList [VInt 4; VInt 89])];
   FT (Some 0x6f4b) "EF.EXT2" FT_LF (Some 10) (Some 13) 8 None (Some (lit "00FF...FF")) (Some false) [ass_serv (VList [VInt 3])];
   FT (Some 0x6f4c) "EF.EXT3" FT_LF (Some 10) (Some 13) 2 None (Some (lit "00FF...FF")) (Some false) [ass_serv (VList [VInt 5])];
   FT (Some 0x6f50) "EF.CBMIR" FT_TR None (Some 20) 5 None (Some (lit "FF...FF")) (Some false) [ass_serv (VList [VInt 16])];
   FT (Some 0x6f60) "EF.PLMNwAcT" FT_TR None (Some 40) 5 (Some 0x0a) (Some (lit "FFFFFF0000")) (Some false) [ass_serv (VList [VInt 20]); repeat];
   FT (Some 0x6f61) "EF.OPLMNwAcT" FT_TR None (Some 40) 2 (Some 0x11) (Some (lit "FFFFFF0000")) (Some false) [ass_serv (VList [VInt 42]); repeat];
   FT (Some 0x6f62) "EF.HPLMNwAcT" FT_TR None (Some 5) 2 (Some 0x13) (Some (lit "FFFFFF0000")) (Some false) [ass_serv (VList [VInt 43]); repeat];
   FT (Some 0x6f2c) "EF.DCK" FT_TR None (Some 16) 5 None (Some (lit "FF...FF")) (Some false) [ass_serv (VList [VInt 36])];
   FT (Some 0x6f32) "EF.CNL" FT_TR None (Some 30) 2 None (Some (lit "FF...FF")) (Some false) [ass_serv (VList [VInt 37])];
   FT (Some 0x6f47) "EF.SMSR" FT_LF (Some 10) (Some 30) 5 None (Some (lit "00FF...FF")) (Some false) [ass_serv (VList [VInt 11])];
   FT (Some 0x6f4d) "EF.BDN" FT_LF (Some 10) (Some 25) 8 None (Some (lit "FF...FF")) (Some false) [ass_serv (VList [VInt 6])];
   FT (Some 0x6f4e) "EF.EXT5" FT_LF (Some 10) (Some 13) 5 None (Some (lit "00FF...FF")) (Some false) [ass_serv (VList [VInt 44])];
   FT (Some 0x6f4f) "EF.CCP2" FT_LF (Some 5) (Some 15) 5 (Some 0x16) (Some (lit "FF...FF")) (Some false) [ass_serv (VList [VInt 14])];
   FT (Some 0x6f55) "EF.EXT4" FT_LF (Some 10) (Some 13) 8 None (Some (lit "00FF...FF")) (Some false) [ass_serv (VList [VInt 7])];
   FT (Some 0x6f57) "EF.ACL" FT_TR None (Some 101) 8 None (Some (lit "00FF...FF")) (Some false) [ass_serv (VList [VInt 35])];
   FT (Some 0x6f58) "EF.CMI" FT_LF (Some 10) (Some 11) 2 None (Some (lit "FF...FF")) (Some false) [ass_serv (VList [VInt 6])];
   FT (Some 0x6f80) "EF.ICI" FT_CY (Some 20) (Some 38) 5 (Some 0x14) (Some (lit "FF...FF0000000001FFFF")) (Some false) [ass_serv (VList [VInt 9]); high_update];
   FT (Some 0x6f81) "EF.OCI" FT_CY (Some 20) (Some 37) 5 (Some 0x15) (Some (lit "FF...FF00000001FFFF")) (Some false) [ass_serv (VList [VInt 8]); high_update];
   FT (Some 0x6f82) "EF.ICT" FT_CY (Some 1) (Some 3) 7 None (Some (lit "000000")) (Some false) [ass_serv (VList [VInt 9]); high_update];
   FT (Some 0x6f83) "EF.OCT" FT_CY (Some 1) (Some 3) 7 None (Some (lit "000000")) (Some false) [ass_serv (VList [VInt 8]); high_update];
   FT (Some 0x6fb1) "EF.VGCS" FT_TR None (Some 20) 2 None None (Some true) [ass_serv (VList [VInt 57])];
   FT (Some 0x6fb2) "EF.VGCSS" FT_TR None (Some 7) 5 None None (Some true) [ass_serv (VList [VInt 57])];
   FT (Some 0x6fb3) "EF.VBS" FT_TR None (Some 20) 2 None None (Some true) [ass_serv (VList [VInt 58])];
   FT (Some 0x6fb4) "EF.VBSS" FT_TR None (Some 7) 5 None None (Some true) [ass_serv (VList [VInt 58])];
   FT (Some 0x6fb5) "EF.eMLPP" FT_TR None (Some 2) 2 None None (Some true) [ass_serv (VList [VInt 24])];
   FT (Some 0x6fb6) "EF.AaeM" FT_TR None (Some 1) 5 None (Some (lit "00")) (Some false) [ass_serv (VList [VInt 25])];
   FT (Some 0x6fc3) "EF.HiddenKey" FT_TR None (Some 4) 5 None (Some (lit "FF...FF")) (Some false) [];
   FT (Some 0x6fc5) "EF.PNN" FT_LF (Some 10) (Some 16) 10 (Some 0x19) None (Some true) [ass_serv (VList [VInt 45])];
   FT (Some 0x6fc6) "EF.OPL" FT_LF (Some 5) (Some 8) 10 (Some 0x1a) None (Some true) [ass_serv (VList [VInt 46])];
   FT (Some 0x6fc7) "EF.MBDN" FT_LF (Some 3) (Some 24) 5 None None (Some true) [ass_serv (VList [VInt 47])];
   FT (Some 0x6fc8) "EF.EXT6" FT_LF (Some 10) (Some 13) 5 None (Some (lit "00FF...FF")) (Some false) [ass_serv (VList [VInt 47])];
   FT (Some 0x6fc9) "EF.MBI" FT_LF (Some 10) (Some 5) 5 None None (Some true) [ass_serv (VList [VInt 47])];
   FT (Some 0x6fca) "EF.MWIS" FT_LF (Some 10) (Some 6) 5 None (Some (lit "00...00")) (Some false) [ass_serv (VList [VInt 48]); high_update];
   FT (Some 0x6fcb) "EF.CFIS" FT_LF (Some 10) (Some 16) 5 None (Some (lit "0100FF...FF")) (Some false) [ass_serv (VList [VInt 49])];
   FT (Some 0x6fcb) "EF.EXT7" FT_LF (Some 10) (Some 13) 5 None (Some (lit "00FF...FF")) (Some false) [ass_serv (VList [VInt 49])];
   FT (Some 0x6fcd) "EF.SPDI" FT_TR None (Some 17) 2 (Some 0x1b) None (Some true) [ass_serv (VList [VInt 51])];
   FT (Some 0x6fce) "EF.MMSN" FT_LF (Some 10) (Some 6) 5 None (Some (lit "000000FF...FF")) (Some false) [ass_serv (VList [VInt 52])];
   FT (Some 0x6fcf) "EF.EXT8" FT_LF (Some 10) (Some 13) 5 None (Some (lit "00FF...FF")) (Some false) [ass_serv (VList [VInt 53])];
   FT (Some 0x6fd0) "EF.MMSICP" FT_TR None (Some 100) 2 None (Some (lit "FF...FF")) (Some false) [ass_serv (VList [VInt 52])];
   FT (Some 0x6fd1) "EF.MMSUP" FT_LF None None 5 None (Some (lit "FF...FF")) (Some false) [params [lit "nb_rec"; lit "size"]; ass_serv (VList [VInt 52])];
   FT (Some 0x6fd2) "EF.MMSUCP" FT_TR None (Some 100) 5 None (Some (lit "FF...FF")) (Some false) [ass_serv (VList [VInt 52; VInt 55])];
   FT (Some 0x6fd3) "EF.NIA" FT_LF (Some 5) (Some 11) 2 None (Some (lit "FF...FF")) (Some false) [ass_serv (VList [VInt 56])];
   FT (Some 0x6fd4) "EF.VGCSCA" FT_TR None None 2 None (Some (lit "00...00")) (Some false) [params [lit "size"]; ass_serv (VList [VInt 64])];
   FT (Some 0x6fd5) "EF.VBSCA" FT_TR None None 2 None (Some (lit "00...00")) (Some false) [params [lit "size"]; ass_serv (VList [VInt 65])];
   FT (Some 0x6fd6) "EF.GBABP" FT_TR None None 5 None (Some (lit "FF...FF")) (Some false) [params [lit "size"]; ass_serv (VList [VInt 68])];
   FT (Some 0x6fd7) "EF.MSK" FT_LF None None 2 None (Some (lit "FF...FF")) (Some false) [params [lit "nb_rec"; lit "size"]; ass_serv (VList [VInt 69]); high_update];
   FT (Some 0x6fd8) "EF.MUK" FT_LF None None 2 None (Some (lit "FF...FF")) (Some false) [params [lit "nb_rec"; lit "size"]; ass_serv (VList [VInt 69])];
   FT (Some 0x6fd9) "EF.EHPLMN" FT_TR None (Some 15) 2 (Some 0x1d) (Some (lit "FF...FF")) (Some false) [ass_serv (VList [VInt 71])];
   FT (Some 0x6fda) "EF.GBANL" FT_LF None None 2 None (Some (lit "FF...FF")) (Some false) [params [lit "nb_rec"; lit "size"]; ass_serv (VList [VInt 68])];
   FT (Some 0x6fdb) "EF.EHPLMNPI" FT_TR None (Some 1) 2 None (Some (lit "00")) (Some false) [ass_serv (VList [VInt 71; VInt 73])];
   FT (Some 0x6fdc) "EF.LRPLMNSI" FT_TR None (Some 1) 2 None (Some (lit "00")) (Some false) [ass_serv (VList [VInt 74])];
   FT (Some 0x6fdd) "EF.NAFKCA" FT_LF None None 2 None (Some (lit "FF...FF")) (Some false) [params [lit "nb_rec"; lit "size"]; ass_serv (VList [VInt 68; VInt 76])];
   FT (Some 0x6fde) "EF.SPNI" FT_TR None None 10 None (Some (lit "00FF...FF")) (Some false) [params [lit "size"]; ass_serv (VList [VInt 78])];
   FT (Some 0x6fdf) "EF.PNNI" FT_LF None None 10 None (Some (lit "00FF...FF")) (Some false) [params [lit "nb_rec"; lit "size"]; ass_serv (VList [VInt 79])];
   FT (Some 0x6fe2) "EF.NCP-IP" FT_LF None None 2 None None (Some true) [params [lit "nb_rec"; lit "size"]; ass_serv (VList [VInt 80])];
   FT (Some 0x6fe6) "EF.UFC" FT_TR None (Some 30) 10 None (Some (lit "801E60C01E900080040000000000000000F0000000004000000000000080")) (Some false) [];
   FT (Some 0x6fe8) "EF.NASCONFIG" FT_TR None (Some 18) 2 None None (Some true) [ass_serv (VList [VInt 96])];
   FT (Some 0x6fe7) "EF.UICCIARI" FT_LF None None 2 None None (Some true) [params [lit "nb_rec"; lit "size"]; ass_serv (VList [VInt 95])];
   FT (Some 0x6fec) "EF.PWS" FT_TR None None 10 None None (Some true) [params [lit "size"]; ass_serv (VList [VInt 97])];
   FT (Some 0x6fed) "EF.FDNURI" FT_LF None None 8 None (Some (lit "FF...FF")) (Some false) [params [lit "nb_rec"; lit "size"]; ass_serv (VList [VInt 2; VInt 99])];
   FT (Some 0x6fee) "EF.BDNURI" FT_LF None None 8 None (Some (lit "FF...FF")) (Some false) [params [lit "nb_rec"; lit "size"]; ass_serv (VList [VInt 6; VInt 99])];
   FT (Some 0x6fef) "EF.SDNURI" FT_LF None None 2 None (Some (lit "FF...FF")) (Some false) [params [lit "nb_rec"; lit "size"]; ass_serv (VList [VInt 4; VInt 99])];
   FT (Some 0x6ff0) "EF.IWL" FT_LF None None 3 None (Some (lit "FF...FF")) (Some false) [params [lit "nb_rec"; lit "size"]; ass_serv (VList [VInt 102])];
   FT (Some 0x6ff1) "EF.IPS" FT_CY None (Some 4) 10 None (Some (lit "FF...FF")) (Some false) [params [lit "size"]; ass_serv (VList [VInt 102]); high_update];
   FT (Some 0x6ff2) "EF.IPD" FT_LF None None 3 None (Some (lit "FF...FF")) (Some false) [params [lit "nb_rec"; lit "size"]; ass_serv (VList [VInt 102]); high_update]].

Definition FilesUsimOptionalV2_files : list FileTemplateArgs :=
  [FT (Some 0x6f05) "EF.LI" FT_TR None (Some 6) 1 (Some 0x02) (Some (lit "FF...FF")) (Some false) [];
   FT (Some 0x6f37) "EF.ACMmax" FT_TR None (Some 3) 5 None (Some (lit "000000")) (Some false) [ass_serv (VList [VInt 13])];
   FT (Some 0x6f39) "EF.ACM" FT_CY (Some 1) (Some 3) 7 None (Some (lit "000000")) (Some false) [ass_serv (VList [VInt 13]); high_update];
   FT (Some 0x6f3e) "EF.GID1" FT_TR None (Some 8) 2 None None (Some true) [ass_serv (VList [VInt 17])];
   FT (Some 0x6f3f) "EF.GID2" FT_TR None (Some 8) 2 None None (Some true) [ass_serv (VList [VInt 18])];
   FT (Some 0x6f40) "EF.MSISDN" FT_LF (Some 1) (Some 24) 2 None (Some (lit "FF...FF")) (Some false) [ass_serv (VList [VInt 21])];
   FT (Some 0x6f41) "EF.PUCT" FT_TR None (Some 5) 5 None (Some (lit "FFFFFF0000")) (Some false) [ass_serv (VList [VInt 13])];
   FT (Some 0x6f45) "EF.CBMI" FT_TR None (Some 10) 5 None (Some (lit "FF...FF")) (Some false) [ass_serv (VList [VInt 15])];
   FT (Some 0x6f48) "EF.CBMID" FT_TR None (Some 10) 2 (Some 0x0e) (Some (lit "FF...FF")) (Some false) [ass_serv (VList [VInt 19])];
   FT (Some 0x6f49) "EF.SDN" FT_LF (Some 10) (Some 24) 2 None (Some (lit "FF...FF")) (Some false) [ass_serv (VList [VInt 4; VInt 89])];
   FT (Some 0x6f4b) "EF.EXT2" FT_LF (Some 10) (Some 13) 8 None (Some (lit "00FF...FF")) (Some false) [ass_serv (VList [VInt 3])];
   FT (Some 0x6f4c) "EF.EXT3" FT_LF (Some 10) (Some 13) 2 None (Some (lit "00FF...FF")) (Some false) [ass_serv (VList [VInt 5])];
   FT (Some 0x6f50) "EF.CBMIR" FT_TR None (Some 20) 5 None (Some (lit "FF...FF")) (Some false) [ass_serv (VList [VInt 16])];
   FT (Some 0x6f60) "EF.PLMNwAcT" FT_TR None (Some 40) 5 (Some 0x0a) (Some (repeat_list 8 "FFFFFF0000")) (Some false) [ass_serv (VList [VInt 20])];
   FT (Some 0x6f61) "EF.OPLMNwAcT" FT_TR None (Some 40) 2 (Some 0x11) (Some (repeat_list 8 "FFFFFF0000")) (Some false) [ass_serv (VList [VInt 42])];
   FT (Some 0x6f62) "EF.HPLMNwAcT" FT_TR None (Some 5) 2 (Some 0x13) (Some (lit "FFFFFF0000")) (Some false) [ass_serv (VList [VInt 43])];
   FT (Some 0x6f2c) "EF.DCK" FT_TR None (Some 16) 5 None (Some (lit "FF...FF")) (Some false) [ass_serv (VList [VInt 36])];
   FT (Some 0x6f32) "EF.CNL" FT_TR None (Some 30) 2 None (Some (lit "FF...FF")) (Some false) [ass_serv (VList [VInt 37])];
   FT (Some 0x6f47) "EF.SMSR" FT_LF (Some 10) (Some 30) 5 None (Some (lit "00FF...FF")) (Some false) [ass_serv (VList [VInt 11])];
   FT (Some 0x6f4d) "EF.BDN" FT_LF (Some 10) (Some 25) 8 None (Some (lit "FF...FF")) (Some false) [ass_serv (VList [VInt 6])];
   FT (Some 0x6f4e) "EF.EXT5" FT_LF (Some 10) (Some 13) 5 None (Some (lit "00FF...FF")) (Some false) [ass_serv (VList [VInt 44])];
   FT (Some 0x6f4f) "EF.CCP2" FT_LF (Some 5) (Some 15) 5 (Some 0x16) (Some (lit "FF...FF")) (Some false) [ass_serv (VList [VInt 14])];
   FT (Some 0x6f55) "EF.EXT4" FT_LF (Some 10) (Some 13) 8 None (Some (lit "00FF...FF")) (Some false) [ass_serv (VList [VInt 7])];
   FT (Some 0x6f57) "EF.ACL" FT_TR None (Some 101) 8 None (Some (lit "00FF...FF")) (Some false) [ass_serv (VList [VInt 35])];
   FT (Some 0x6f58) "EF.CMI" FT_LF (Some 10) (Some 11) 2 None (Some (lit "FF...FF")) (Some false) [ass_serv (VList [VInt 6])];
   FT (Some 0x6f80) "EF.ICI" FT_CY (Some 20) (Some 38) 5 (Some 0x14) (Some (lit "FF...FF0000000001FFFF")) (Some false) [ass_serv (VList [VInt 9]); high_update];
   FT (Some 0x6f81) "EF.OCI" FT_CY (Some 20) (Some 37) 5 (Some 0x15) (Some (lit "FF...FF00000001FFFF")) (Some false) [ass_serv (VList [VInt 8]); high_update];
   FT (Some 0x6f82) "EF.ICT" FT_CY (Some 1) (Some 3) 7 None (Some (lit "000000")) (Some false) [ass_serv (VList [VInt 9]); high_update];
   FT (Some 0x6f83) "EF.OCT" FT_CY (Some 1) (Some 3) 7 None (Some (lit "000000")) (Some false) [ass_serv (VList [VInt 8]); high_update];
   FT (Some 0x6fb1) "EF.VGCS" FT_TR None (Some 20) 2 None None (Some true) [ass_serv (VList [VInt 57])];
   FT (Some 0x6fb2) "EF.VGCSS" FT_TR None (Some 7) 5 None None (Some true) [ass_serv (VList [VInt 57])];
   FT (Some 0x6fb3) "EF.VBS" FT_TR None (Some 20) 2 None None (Some true) [ass_serv (VList [VInt 58])];
   FT (Some 0x6fb4) "EF.VBSS" FT_TR None (Some 7) 5 None None (Some true) [ass_serv (VList [VInt 58])];
   FT (Some 0x6fb5) "EF.eMLPP" FT_TR None (Some 2) 2 None None (Some true) [ass_serv (VList [VInt 24])];
   FT (Some 0x6fb6) "EF.AaeM" FT_TR None (Some 1) 5 None (Some (lit "00")) (Some false) [ass_serv (VList [VInt 25])];
   FT (Some 0x6fc3) "EF.HiddenKey" FT_TR None (Some 4) 5 None (Some (lit "FF...FF")) (Some false) [];
   FT (Some 0x6fc5) "EF.PNN" FT_LF (Some 10) (Some 16) 10 (Some 0x19) None (Some true) [ass_serv (VList [VInt 45])];
   FT (Some 0x6fc6) "EF.OPL" FT_LF (Some 5) (Some 8) 10 (Some 0x1a) None (Some true) [ass_serv (VList [VInt 46])];
   FT (Some 0x6fc7) "EF.MBDN" FT_LF (Some 3) (Some 24) 5 None None (Some true) [ass_serv (VList [VInt 47])];
   FT (Some 0x6fc8) "EF.EXT6" FT_LF (Some 10) (Some 13) 5 None (Some (lit "00FF...FF")) (Some false) [ass_serv (VList [VInt 47])];
   FT (Some 0x6fc9) "EF.MBI" FT_LF (Some 10) (Some 5) 5 None None (Some true) [ass_serv (VList [VInt 47])];
   FT (Some 0x6fca) "EF.MWIS" FT_LF (Some 10) (Some 6) 5 None (Some (lit "00...00")) (Some false) [ass_serv (VList [VInt 48]); high_update];
   FT (Some 0x6fcb) "EF.CFIS" FT_LF (Some 10) (Some 16) 5 None (Some (lit "0100FF...FF")) (Some false) [ass_serv (VList [VInt 49])];
   FT (Some 0x6fcb) "EF.EXT7" FT_LF (Some 10) (Some 13) 5 None (Some (lit "00FF...FF")) (Some false) [ass_serv (VList [VInt 49])];
   FT (Some 0x6fcd) "EF.SPDI" FT_TR None (Some 17) 2 (Some 0x1b) None (Some true) [ass_serv (VList [VInt 51])];
   FT (Some 0x6fce) "EF.MMSN" FT_LF (Some 10) (Some 6) 5 None (Some (lit "000000FF...FF")) (Some false) [ass_serv (VList [VInt 52])];
   FT (Some 0x6fcf) "EF.EXT8" FT_LF (Some 10) (Some 13) 5 None (Some (lit "00FF...FF")) (Some false) [ass_serv (VList [VInt 53])];
   FT (Some 0x6fd0) "EF.MMSICP" FT_TR None (Some 100) 2 None (Some (lit "FF...FF")) (Some false) [ass_serv (VList [VInt 52])];
   FT (Some 0x6fd1) "EF.MMSUP" FT_LF None None 5 None (Some (lit "FF...FF")) (Some false) [params [lit "nb_rec"; lit "size"]; ass_serv (VList [VInt 52])];
   FT (Some 0x6fd2) "EF.MMSUCP" FT_TR None (Some 100) 5 None (Some (lit "FF...FF")) (Some false) [ass_serv (VList [VInt 52; VInt 55])];
   FT (Some 0x6fd3) "EF.NIA" FT_LF (Some 5) (Some 11) 2 None (Some (lit "FF...FF")) (Some false) [ass_serv (VList [VInt 56])];
   FT (Some 0x6fd4) "EF.VGCSCA" FT_TR None None 2 None (Some (lit "00...00")) (Some false) [params [lit "size"]; ass_serv (VList [VInt 64])];
   FT (Some 0x6fd5) "EF.VBSCA" FT_TR None None 2 None (Some (lit "00...00")) (Some false) [params [lit "size"]; ass_serv (VList [VInt 65])];
   FT (Some 0x6fd6) "EF.GBABP" FT_TR None None 5 None (Some (lit "FF...FF")) (Some false) [params [lit "size"]; ass_serv (VList [VInt 68])];
   FT (Some 0x6fd7) "EF.MSK" FT_LF None None 2 None (Some (lit "FF...FF")) (Some false) [params [lit "nb_rec"; lit "size"]; ass_serv (VList [VInt 69]); high_update];
   FT (Some 0x6fd8) "EF.MUK" FT_LF None None 2 None (Some (lit "FF...FF")) (Some false) [params [lit "nb_rec"; lit "size"]; ass_serv (VList [VInt 69])];
   FT (Some 0x6fd9) "EF.EHPLMN" FT_TR None (Some 15) 2 (Some 0x1d) (Some (lit "FF...FF")) (Some false) [ass_serv (VList [VInt 71])];
   FT (Some 0x6fda) "EF.GBANL" FT_LF None None 2 None (Some (lit "FF...FF")) (Some false) [params [lit "nb_rec"; lit "size"]; ass_serv (VList [VInt 68])];
   FT (Some 0x6fdb) "EF.EHPLMNPI" FT_TR None (Some 1) 2 None (Some (lit "00")) (Some false) [ass_serv (VList [VInt 71; VInt 73])];
   FT (Some 0x6fdc) "EF.LRPLMNSI" FT_TR None (Some 1) 2 None (Some (lit "00")) (Some false) [ass_serv (VList [VInt 74])];
   FT (Some 0x6fdd) "EF.NAFKCA" FT_LF None None 2 None (Some (lit "FF...FF")) (Some false) [params [lit "nb_rec"; lit "size"]; ass_serv (VList [VInt 68; VInt 76])];
   FT (Some 0x6fde) "EF.SPNI" FT_TR None None 10 None (Some (lit "00FF...FF")) (Some false) [params [lit "size"]; ass_serv (VList [VInt 78])];
   FT (Some 0x6fdf) "EF.PNNI" FT_LF None None 10 None (Some (lit "00FF...FF")) (Some false) [params [lit "nb_rec"; lit "size"]; ass_serv (VList [VInt 79])];
   FT (Some 0x6fe2) "EF.NCP-IP" FT_LF None None 2 None None (Some true) [params [lit "nb_rec"; lit "size"]; ass_serv (VList [VInt 80])];
   FT (Some 0x6fe6) "EF.UFC" FT_TR None (Some 30) 10 None (Some (lit "801E60C01E900080040000000000000000F0000000004000000000000080")) (Some false) [];
   FT (Some 0x6fe8) "EF.NASCONFIG" FT_TR None (Some 18) 2 None None (Some true) [ass_serv (VList [VInt 96])];
   FT (Some 0x6fe7) "EF.UICCIARI" FT_LF None None 2 None None (Some true) [params [lit "nb_rec"; lit "size"]; ass_serv (VList [VInt 95])];
   FT (Some 0x6fec) "EF.PWS" FT_TR None None 10 None None (Some true) [params [lit "size"]; ass_serv (VList [VInt 97])];
   FT (Some 0x6fed) "EF.FDNURI" FT_LF None None 8 None (Some (lit "FF...FF")) (Some false) [params [lit "nb_rec"; lit "size"]; ass_serv (VList [VInt 2; VInt 99])];
   FT (Some 0x6fee) "EF.BDNURI" FT_LF None None 8 None (Some (lit "FF...FF")) (Some false) [params [lit "nb_rec"; lit "size"]; ass_serv (VList [VInt 6; VInt 99])];
   FT (Some 0x6fef) "EF.SDNURI" FT_LF None None 2 None (Some (lit "FF...FF")) (Some false) [params [lit "nb_rec"; lit "size"]; ass_serv (VList [VInt 4; VInt 99])];
   FT (Some 0x6ff0) "EF.IWL" FT_LF None None 3 None (Some (lit "FF...FF")) (Some false) [params [lit "nb_rec"; lit "size"]; ass_serv (VList [VInt 102])];
   FT (Some 0x6ff1) "EF.IPS" FT_CY None (Some 4) 10 None (Some (lit "FF...FF")) (Some false) [params [lit "size"]; ass_serv (VList [VInt 102]); high_update];
   FT (Some 0x6ff2) "EF.IPD" FT_LF None None 3 None (Some (lit "FF...FF")) (Some false) [params [lit "nb_rec"; lit "size"]; ass_serv (VList [VInt 102]); high_update];
   FT (Some 0x6ff3) "EF.EPDGID" FT_TR None None 2 None None (Some true) [params [lit "size"]; ass_serv (VList [(VList [VInt 106; VInt 107])])];
   FT (Some 0x6ff4) "EF.EPDGSELECTION" FT_TR None None 2 None None (Some true) [params [lit "size"]; ass_serv (VList [(VList [VInt 106; VInt 107])])];
   FT (Some 0x6ff5) "EF.EPDGIDEM" FT_TR None None 2 None None (Some true) [params [lit "size"]; ass_serv (VList [(VList [VInt 110; VInt 111])])];
   FT (Some 0x6ff6) "EF.EPDGIDEMSEL" FT_TR None None 2 None None (Some true) [params [lit "size"]; ass_serv (VList [(VList [VInt 110; VInt 111])])];
   FT (Some 0x6ff7) "EF.FromPreferred" FT_TR None (Some 1) 2 None (Some (lit "00")) (Some false) [ass_serv (VList [VInt 114])];
   FT (Some 0x6ff8) "EF.IMSConfigData" FT_BT None None 2 None None (Some true) [params [lit "size"]; ass_serv (VList [VInt 115])];
   FT (Some 0x6ff9) "EF.3GPPPSDataOff" FT_TR None (Some 4) 2 None None (Some true) [ass_serv (VList [VInt 117])];
   FT (Some 0x6ffa) "EF.3GPPPSDOSLIST" FT_LF None None 2 None None (Some true) [params [lit "nb_rec"; lit "size"]; ass_serv (VList [VInt 118])];
   FT (Some 0x6ffc) "EF.XCAPConfigData" FT_BT None None 2 None None (Some true) [params [lit "size"]; ass_serv (VList [VInt 120])];
   FT (Some 0x6ffd) "EF.EARFCNLIST" FT_TR None None 10 None None (Some true) [params [lit "size"]; ass_serv (VList [VInt 121])];
   FT (Some 0x6ffd) "EF.MudMidCfgdata" FT_BT None None 2 None None (Some true) [params [lit "size"]; ass_serv (VList [VInt 134])]].

Definition FilesUsimOptionalV3_files : list FileTemplateArgs :=
  FilesUsimOptionalV2_files
  ++ [FT (Some 0x6f01) "EF.eAKA" FT_TR None (Some 1) 3 None None (Some true) [params [lit "size"]; ass_serv (VList [VInt 134])]].

Definition FilesUsimDfPhonebook_files : list FileTemplateArgs :=
  df_pb_files.

Definition FilesUsimDfGsmAccess_files : list FileTemplateArgs :=
  [FT (Some 0x5f3b) "DF.GSM-ACCESS" FT_DF None None 14 None None (Some false) [params [lit "pinStatusTemplateDO"]; ass_serv (VList [VInt 27])];
   FT (Some 0x4f20) "EF.Kc" FT_TR None (Some 9) 5 (Some 0x01) (Some (lit "FF...FF07")) (Some false) [ass_serv (VList [VInt 27]); high_update];
   FT (Some 0x4f52) "EF.KcGPRS" FT_TR None (Some 9) 5 (Some 0x02) (Some (lit "FF...FF07")) (Some false) [ass_serv (VList [VInt 27]); high_update];
   FT (Some 0x4f63) "EF.CPBCCH" FT_TR None (Some 10) 5 None (Some (lit "FF...FF")) (Some false) [ass_serv (VList [VInt 39]); high_update];
   FT (Some 0x4f64) "EF.InvScan" FT_TR None (Some 1) 2 None (Some (lit "00")) (Some false) [ass_serv (VList [VInt 40])]].

Definition FilesUsimDf5GS_files : list FileTemplateArgs :=
  [FT (Some 0x6fc0) "DF.5GS" FT_DF None None 14 None None (Some false) [params [lit "pinStatusTemplateDO"]; ass_serv (VList [VInt 122; VInt 126; VInt 127; VInt 128; VInt 129; VInt 130]); pe_name "df-df-5gs"];
   FT (Some 0x4f01) "EF.5GS3GPPLOCI" FT_TR None (Some 20) 5 (Some 0x01) (Some (lit "FFFFFFFFFFFFFFFFFFFFFFFFFFFFFFFF00000001")) (Some false) [ass_serv (VList [VInt 122]); high_update];
   FT (Some 0x4f02) "EF.5GSN3GPPLOCI" FT_TR None (Some 20) 5 (Some 0x02) (Some (lit "FFFFFFFFFFFFFFFFFFFFFFFFFFFFFFFF00000001")) (Some false) [ass_serv (VList [VInt 122]); high_update];
   FT (Some 0x4f03) "EF.5GS3GPPNSC" FT_LF (Some 1) (Some 57) 5 (Some 0x03) (Some (lit "FF...FF")) (Some false) [ass_serv (VList [VInt 122]); high_update];
   FT (Some 0x4f04) "EF.5GSN3GPPNSC" FT_LF (Some 1) (Some 57) 5 (Some 0x04) (Some (lit "FF...FF")) (Some false) [ass_serv (VList [VInt 122]); high_update];
   FT (Some 0x4f05) "EF.5GAUTHKEYS" FT_TR None (Some 110) 5 (Some 0x05) None (Some true) [ass_serv (VList [VInt 123]); high_update];
   FT (Some 0x4f06) "EF.UAC_AIC" FT_TR None (Some 4) 2 (Some 0x06) None (Some true) [ass_serv (VList [VInt 126])];
   FT (Some 0x4f07) "EF.SUCI_Calc_Info" FT_TR None None 2 (Some 0x07) (Some (lit "FF...FF")) (Some false) [ass_serv (VList [VInt 124])];
   FT (Some 0x4f08) "EF.OPL5G" FT_LF None (Some 10) 10 (Some 0x08) (Some (lit "FF...FF")) (Some false) [params [lit "nb_rec"]; ass_serv (VList [VInt 129])];
   FT (Some 0x4f09) "EF.SUPI_NAI" FT_TR None None 2 (Some 0x09) None (Some true) [params [lit "size"]; ass_serv (VList [VInt 130])];
   FT (Some 0x4f0a) "EF.Routing_Indicator" FT_TR None (Some 4) 2 (Some 0x0a) (Some (lit "F0FFFFFF")) (Some false) [ass_serv (VList [VInt 124])]].

Definition FilesUsimDf5GSv2_files : list FileTemplateArgs :=
  [FT (Some 0x6fc0) "DF.5GS" FT_DF None None 14 None None (Some false) [params [lit "pinStatusTemplateDO"]; ass_serv (VList [VInt 122; VInt 126; VInt 127; VInt 128; VInt 129; VInt 130]); pe_name "df-df-5gs"];
   FT (Some 0x4f01) "EF.5GS3GPPLOCI" FT_TR None (Some 20) 5 (Some 0x01) (Some (lit "FFFFFFFFFFFFFFFFFFFFFFFFFFFFFFFF00000001")) (Some false) [ass_serv (VList [VInt 122]); high_update];
   FT (Some 0x4f02) "EF.5GSN3GPPLOCI" FT_TR None (Some 20) 5 (Some 0x02) (Some (lit "FFFFFFFFFFFFFFFFFFFFFFFFFFFFFFFF00000001")) (Some false) [ass_serv (VList [VInt 122]); high_update];
   FT (Some 0x4f03) "EF.5GS3GPPNSC" FT_LF (Some 1) (Some 57) 5 (Some 0x03) (Some (lit "FF...FF")) (Some false) [ass_serv (VList [VInt 122]); high_update];
   FT (Some 0x4f04) "EF.5GSN3GPPNSC" FT_LF (Some 1) (Some 57) 5 (Some 0x04) (Some (lit "FF...FF")) (Some false) [ass_serv (VList [VInt 122]); high_update];
   FT (Some 0x4f05) "EF.5GAUTHKEYS" FT_TR None (Some 110) 5 (Some 0x05) None (Some true) [ass_serv (VList [VInt 123]); high_update];
   FT (Some 0x4f06) "EF.UAC_AIC" FT_TR None (Some 4) 2 (Some 0x06) None (Some true) [ass_serv (VList [VInt 126])];
   FT (Some 0x4f07) "EF.SUCI_Calc_Info" FT_TR None None 2 (Some 0x07) (Some (lit "FF...FF")) (Some false) [ass_serv (VList [VInt 124])];
   FT (Some 0x4f08) "EF.OPL5G" FT_LF None (Some 10) 10 (Some 0x08) (Some (lit "FF...FF")) (Some false) [params [lit "nb_rec"]; ass_serv (VList [VInt 129])];
   FT (Some 0x4f09) "EF.SUPI_NAI" FT_TR None None 2 (Some 0x09) None (Some true) [params [lit "size"]; ass_serv (VList [VInt 130])];
   FT (Some 0x4f0a) "EF.Routing_Indicator" FT_TR None (Some 4) 2 (Some 0x0a) (Some (lit "F0FFFFFF")) (Some false) [ass_serv (VList [VInt 124])];
   FT (Some 0x4f0b) "EF.URSP" FT_BT None None 2 None None (Some false) [ass_serv (VList [VInt 132])];
   FT (Some 0x4f0c) "EF.TN3GPPSNN" FT_TR None (Some 1) 2 (Some 0x0c) (Some (lit "00")) (Some false) [ass_serv (VList [VInt 135])]].

Definition FilesUsimDf5GSv3_files : list FileTemplateArgs :=
  [FT (Some 0x6fc0) "DF.5GS" FT_DF None None 14 None None (Some false) [params [lit "pinStatusTemplateDO"]; ass_serv (VList [VInt 122; VInt 126; VInt 127; VInt 128; VInt 129; VInt 130]); pe_name "df-df-5gs"];
   FT (Some 0x4f01) "EF.5GS3GPPLOCI" FT_TR None (Some 20) 5 (Some 0x01) (Some (lit "FFFFFFFFFFFFFFFFFFFFFFFFFFFFFFFF00000001")) (Some false) [ass_serv (VList [VInt 122]); high_update];
   FT (Some 0x4f02) "EF.5GSN3GPPLOCI" FT_TR None (Some 20) 5 (Some 0x02) (Some (lit "FFFFFFFFFFFFFFFFFFFFFFFFFFFFFFFF00000001")) (Some false) [ass_serv (VList [VInt 122]); high_update];
   FT (Some 0x4f03) "EF.5GS3GPPNSC" FT_LF (Some 2) (Some 62) 5 (Some 0x03) (Some (lit "FF...FF")) (Some false) [ass_serv (VList [VInt 122; VInt 136]); high_update];
   FT (Some 0x4f04) "EF.5GSN3GPPNSC" FT_LF (Some 2) (Some 62) 5 (Some 0x04) (Some (lit "FF...FF")) (Some false) [ass_serv (VList [VInt 122; VInt 136]); high_update];
   FT (Some 0x4f05) "EF.5GAUTHKEYS" FT_TR None (Some 110) 5 (Some 0x05) None (Some true) [ass_serv (VList [VInt 123]); high_update];
   FT (Some 0x4f06) "EF.UAC_AIC" FT_TR None (Some 4) 2 (Some 0x06) None (Some true) [ass_serv (VList [VInt 126])];
   FT (Some 0x4f07) "EF.SUCI_Calc_Info" FT_TR None None 2 (Some 0x07) (Some (lit "FF...FF")) (Some false) [ass_serv (VList [VInt 124])];
   FT (Some 0x4f08) "EF.OPL5G" FT_LF None (Some 10) 10 (Some 0x08) (Some (lit "FF...FF")) (Some false) [params [lit "nb_rec"]; ass_serv (VList [VInt 129])];
   FT (Some 0x4f09) "EF.SUPI_NAI" FT_TR None None 2 (Some 0x09) None (Some true) [params [lit "size"]; ass_serv (VList [VInt 130]); pe_name "ef-supinai"];
   FT (Some 0x4f0a) "EF.Routing_Indicator" FT_TR None (Some 4) 2 (Some 0x0a) (Some (lit "F0FFFFFF")) (Some false) [ass_serv (VList [VInt 124])];
   FT (Some 0x4f0b) "EF.URSP" FT_BT None None 2 None None (Some false) [ass_serv (VList [VInt 132])];
   FT (Some 0x4f0c) "EF.TN3GPPSNN" FT_TR None (Some 1) 2 (Some 0x0c) (Some (lit "00")) (Some false) [ass_serv (VList [VInt 135])]].

Definition FilesUsimDf5GSv4_files : list FileTemplateArgs :=
  [FT (Some 0x6fc0) "DF.5GS" FT_DF None None 14 None None (Some false) [params [lit "pinStatusTemplateDO"]; ass_serv (VList [VInt 122; VInt 126; VInt 127; VInt 128; VInt 129; VInt 130]); pe_name "df-df-5gs"];
   FT (Some 0x4f01) "EF.5GS3GPPLOCI" FT_TR None (Some 20) 5 (Some 0x01) (Some (lit "FFFFFFFFFFFFFFFFFFFFFFFFFFFFFFFF00000001")) (Some false) [ass_serv (VList [VInt 122]); high_update];
   FT (Some 0x4f02) "EF.5GSN3GPPLOCI" FT_TR None (Some 20) 5 (Some 0x02) (Some (lit "FFFFFFFFFFFFFFFFFFFFFFFFFFFFFFFF00000001")) (Some false) [ass_serv (VList [VInt 122]); high_update];
   FT (Some 0x4f03) "EF.5GS3GPPNSC" FT_LF (Some 2) (Some 62) 5 (Some 0x03) (Some (lit "FF...FF")) (Some false) [ass_serv (VList [VInt 122; VInt 136]); high_update];
   FT (Some 0x4f04) "EF.5GSN3GPPNSC" FT_LF (Some 2) (Some 62) 5 (Some 0x04) (Some (lit "FF...FF")) (Some false) [ass_serv (VList [VInt 122; VInt 136]); high_update];
   FT (Some 0x4f05) "EF.5GAUTHKEYS" FT_TR None (Some 110) 5 (Some 0x05) None (Some true) [ass_serv (VList [VInt 123]); high_update];
   FT (Some 0x4f06) "EF.UAC_AIC" FT_TR None (Some 4) 2 (Some 0x06) None (Some true) [ass_serv (VList [VInt 126])];
   FT (Some 0x4f07) "EF.SUCI_Calc_Info" FT_TR None None 2 (Some 0x07) (Some (lit "FF...FF")) (Some false) [ass_serv (VList [VInt 124])];
   FT (Some 0x4f08) "EF.OPL5G" FT_LF None (Some 10) 10 (Some 0x08) (Some (lit "FF...FF")) (Some false) [params [lit "nb_rec"]; ass_serv (VList [VInt 129])];
   FT (Some 0x4f09) "EF.SUPI_NAI" FT_TR None None 2 (Some 0x09) None (Some true) [params [lit "size"]; ass_serv (VList [VInt 130]); pe_name "ef-supinai"];
   FT (Some 0x4f0a) "EF.Routing_Indicator" FT_TR None (Some 4) 2 (Some 0x0a) (Some (lit "F0FF0000")) (Some false) [ass_serv (VList [VInt 124])];
   FT (Some 0x4f0b) "EF.URSP" FT_BT None None 2 None None (Some false) [ass_serv (VList [VInt 132])];
   FT (Some 0x4f0c) "EF.TN3GPPSNN" FT_TR None (Some 1) 2 (Some 0x0c) (Some (lit "00")) (Some false) [ass_serv (VList [VInt 135])];
   FT (Some 0x4f0d) "EF.CAG" FT_TR None (Some 2) 2 (Some 0x0d) None (Some true) [ass_serv (VList [VInt 137])];
   FT (Some 0x4f0e) "EF.SOR_CMCI" FT_TR None None 2 (Some 0x0e) None (Some true) [ass_serv (VList [VInt 138])];
   FT (Some 0x4f0f) "EF.DRI" FT_TR None (Some 7) 2 (Some 0x0f) None (Some true) [ass_serv (VList [VInt 150])];
   FT (Some 0x4f10) "EF.5GSEDRX" FT_TR None (Some 2) 2 (Some 0x10) None (Some true) [ass_serv (VList [VInt 141])];
   FT (Some 0x4f11) "EF.5GNSWO_CONF" FT_TR None (Some 1) 2 (Some 0x11) None (Some true) [ass_serv (VList [VInt 142])];
   FT (Some 0x4f15) "EF.MCHPPLMN" FT_TR None (Some 1) 2 (Some 0x15) None (Some true) [ass_serv (VList [VInt 144])];
   FT (Some 0x4f16) "EF.KAUSF_DERIVATION" FT_TR None (Some 1) 2 (Some 0x16) None (Some true) [ass_serv (VList [VInt 145])]].

Definition FilesUsimDfSaip_files : list FileTemplateArgs :=
  [FT (Some 0x6fd0) "DF.SAIP" FT_DF None None 14 None None (Some false) [params [lit "pinStatusTemplateDO"]; ass_serv (VList [(VList [VInt 124; VInt 125])]); pe_name "df-df-saip"];
   FT (Some 0x4f01) "EF.SUCICalcInfo" FT_TR None None 3 None (Some (lit "FF...FF")) (Some false) [params [lit "size"]; ass_serv (VList [VInt 125]); pe_name "ef-suci-calc-info-usim"]].

Definition FilesDfSnpn_files : list FileTemplateArgs :=
  [FT (Some 0x5fe0) "DF.SNPN" FT_DF None None 14 None None (Some false) [params [lit "pinStatusTemplateDO"]; ass_serv (VList [VInt 143]); pe_name "df-df-snpn"];
   FT (Some 0x4f01) "EF.PWS_SNPN" FT_TR None (Some 1) 10 None None (Some true) [ass_serv (VList [VInt 143])]].

Definition FilesDf5GProSe_files : list FileTemplateArgs :=
  [FT (Some 0x5ff0) "DF.5G_ProSe" FT_DF None None 14 None None (Some false) [params [lit "pinStatusTeimplateDO"]; ass_serv (VList [VInt 139]); pe_name "df-df-5g-prose"];
   FT (Some 0x4f01) "EF.5G_PROSE_ST" FT_TR None (Some 1) 2 (Some 0x01) None (Some true) [ass_serv (VList [VInt 139])];
   FT (Some 0x4f02) "EF.5G_PROSE_DD" FT_TR None (Some 26) 2 (Some 0x02) None (Some true) [ass_serv (VList [VInt 139; VInt 1001])];
   FT (Some 0x4f03) "EF.5G_PROSE_DC" FT_TR None (Some 12) 2 (Some 0x03) None (Some true) [ass_serv (VList [VInt 139; VInt 1002])];
   FT (Some 0x4f04) "EF.5G_PROSE_U2NRU" FT_TR None (Some 32) 2 (Some 0x04) None (Some true) [ass_serv (VList [VInt 139; VInt 1003])];
   FT (Some 0x4f05) "EF.5G_PROSE_RU" FT_TR None (Some 29) 2 (Some 0x05) None (Some true) [ass_serv (VList [VInt 139; VInt 1004])];
   FT (Some 0x4f06) "EF.5G_PROSE_UIR" FT_TR None (Some 32) 2 (Some 0x06) None (Some true) [ass_serv (VList [VInt 139; VInt 1005])]].

Definition FilesIsimMandatory_files : list FileTemplateArgs :=
  [FT None "ADF.ISIM" FT_ADF None None 14 None None (Some false) [params [lit "aid"; lit "temporary_fid"; lit "pinStatusTemplateDO"]];
   FT (Some 0x6f02) "EF.IMPI" FT_TR None None 2 (Some 0x02) None (Some true) [params [lit "size"]];
   FT (Some 0x6f04) "EF.IMPU" FT_LF (Some 1) None 2 (Some 0x04) None (Some true) [params [lit "size"]];
   FT (Some 0x6f03) "EF.Domain" FT_TR None None 2 (Some 0x05) None (Some true) [params [lit "size"]];
   FT (Some 0x6f07) "EF.IST" FT_TR None (Some 14) 2 (Some 0x07) None (Some true) [];
   FT (Some 0x6fad) "EF.AD" FT_TR None (Some 3) 10 (Some 0x03) (Some (lit "000000")) (Some false) [];
   FT (Some 0x6f06) "EF.ARR" FT_LF None None 10 (Some 0x06) None (Some true) [params [lit "nb_rec"; lit "size"]]].

Definition FilesIsimOptional_files : list FileTemplateArgs :=
  [FT (Some 0x6f09) "EF.P-CSCF" FT_LF (Some 1) None 2 None None (Some true) [params [lit "size"]; ass_serv (VList [VInt 1; VInt 5])];
   FT (Some 0x6f3c) "EF.SMS" FT_LF (Some 10) (Some 176) 5 None (Some (lit "00FF...FF")) (Some false) [ass_serv (VList [VInt 6; VInt 8])];
   FT (Some 0x6f42) "EF.SMSP" FT_LF (Some 1) (Some 38) 5 None (Some (lit "FF...FF")) (Some false) [ass_serv (VList [VInt 8])];
   FT (Some 0x6f43) "EF.SMSS" FT_TR None (Some 2) 5 None (Some (lit "FFFF")) (Some false) [ass_serv (VList [VInt 6; VInt 8])];
   FT (Some 0x6f47) "EF.SMSR" FT_LF (Some 10) (Some 30) 5 None (Some (lit "00FF...FF")) (Some false) [ass_serv (VList [VInt 7; VInt 8])];
   FT (Some 0x6fd5) "EF.GBABP" FT_TR None None 5 None (Some (lit "FF...FF")) (Some false) [params [lit "size"]; ass_serv (VList [VInt 2])];
   FT (Some 0x6fd7) "EF.GBANL" FT_LF None None 2 None (Some (lit "FF...FF")) (Some false) [params [lit "nb_rec"; lit "size"]; ass_serv (VList [VInt 2])];
   FT (Some 0x6fdd) "EF.NAFKCA" FT_LF None None 2 None (Some (lit "FF...FF")) (Some false) [params [lit "nb_rec"; lit "size"]; ass_serv (VList [VInt 2; VInt 4])];
   FT (Some 0x6fe7) "EF.UICCIARI" FT_LF None None 2 None None (Some true) [params [lit "nb_rec"; lit "size"]; ass_serv (VList [VInt 10])]].

Definition FilesIsimOptionalv2_files : list FileTemplateArgs :=
  [FT (Some 0x6f09) "EF.PCSCF" FT_LF (Some 1) None 2 None None (Some true) [params [lit "size"]; ass_serv (VList [VInt 1; VInt 5])];
   FT (Some 0x6f3c) "EF.SMS" FT_LF (Some 10) (Some 176) 5 None (Some (lit "00FF...FF")) (Some false) [ass_serv (VList [VInt 6; VInt 8])];
   FT (Some 0x6f42) "EF.SMSP" FT_LF (Some 1) (Some 38) 5 None (Some (lit "FF...FF")) (Some false) [ass_serv (VList [VInt 8])];
   FT (Some 0x6f43) "EF.SMSS" FT_TR None (Some 2) 5 None (Some (lit "FFFF")) (Some false) [ass_serv (VList [VInt 6; VInt 8])];
   FT (Some 0x6f47) "EF.SMSR" FT_LF (Some 10) (Some 30) 5 None (Some (lit "00FF...FF")) (Some false) [ass_serv (VList [VInt 7; VInt 8])];
   FT (Some 0x6fd5) "EF.GBABP" FT_TR None None 5 None (Some (lit "FF...FF")) (Some false) [params [lit "size"]; ass_serv (VList [VInt 2])];
   FT (Some 0x6fd7) "EF.GBANL" FT_LF None None 2 None (Some (lit "FF...FF")) (Some false) [params [lit "nb_rec"; lit "size"]; ass_serv (VList [VInt 2])];
   FT (Some 0x6fdd) "EF.NAFKCA" FT_LF None None 2 None (Some (lit "FF...FF")) (Some false) [params [lit "nb_rec"; lit "size"]; ass_serv (VList [VInt 2; VInt 4])];
   FT (Some 0x6fe7) "EF.UICCIARI" FT_LF None None 2 None None (Some true) [params [lit "nb_rec"; lit "size"]; ass_serv (VList [VInt 10])];
   FT (Some 0x6ff7) "EF.FromPreferred" FT_TR None (Some 1) 2 None (Some (lit "00")) (Some false) [ass_serv (VList [VInt 17])];
   FT (Some 0x6ff8) "EF.ImsConfigData" FT_BT None None 2 None None (Some true) [params [lit "size"]; ass_serv (VList [VInt 18])];
   FT (Some 0x6ffc) "EF.XcapconfigData" FT_BT None None 2 None None (Some true) [params [lit "size"]; ass_serv (VList [VInt 19])];
   FT (Some 0x6ffa) "EF.WebRTCURI" FT_LF None None 2 None None (Some true) [params [lit "nb_rec"; lit "size"]; ass_serv (VList [VInt 20])];
   FT (Some 0x6ffa) "EF.MudMidCfgData" FT_BT None None 2 None None (Some true) [params [lit "size"]; ass_serv (VList [VInt 21])]].

Definition FilesEap_files : list FileTemplateArgs :=
  [FT None "DF.EAP" FT_DF None None 14 None None (Some false) [params [lit "fid"; lit "pinStatusTemplateDO"]; ass_serv (VList [(VList [VInt 124; VInt 125])])];
   FT (Some 0x4f01) "EF.EAPKEYS" FT_TR None None 2 None None (Some true) [params [lit "size"]; high_update];
   FT (Some 0x4f02) "EF.EAPSTATUS" FT_TR None (Some 1) 2 None (Some (lit "00")) (Some false) [high_update];
   FT (Some 0x4f03) "EF.PUId" FT_TR None None 2 None None (Some true) [params [lit "size"]];
   FT (Some 0x4f04) "EF.Ps" FT_TR None None 5 None (Some (lit "FF...FF")) (Some false) [params [lit "size"]; high_update];
   FT (Some 0x4f20) "EF.CurID" FT_TR None None 5 None (Some (lit "FF...FF")) (Some false) [params [lit "size"]; high_update];
   FT (Some 0x4f21) "EF.RelID" FT_TR None None 5 None None (Some true) [params [lit "size"]];
   FT (Some 0x4f22) "EF.Realm" FT_TR None None 5 None None (Some true) [params [lit "size"]]].

(** ** Classes *)

Section classes.
Context `{OsmocomUtils}.

Definition template_class (created optional : bool) (oid : option OID) (files : list FileTemplateArgs)
    (extends parent : option (result ProfileTemplate)) : result ProfileTemplate :=
  fs ← map_r FileTemplate_init files;
  e ← match extends with Some r => c ← r; Ok (Some c) | None => Ok None end;
  p ← match parent with Some r => c ← r; Ok (Some c) | None => Ok None end;
  init_subclass {| b_created_by_default := created; b_optional := optional; b_oid := oid; b_files := fs;
                   b_extends := e; b_parent := p |}.

Definition FilesAtMF : result ProfileTemplate :=
  template_class true false (Some Oid.MF) FilesAtMF_files None None.
Definition FilesCD : result ProfileTemplate :=
  template_class false false (Some Oid.DF_CD) FilesCD_files None None.
Definition FilesTelecom : result ProfileTemplate :=
  template_class false false (Some Oid.DF_TELECOM) FilesTelecom_files None None.
Definition FilesTelecomV2 : result ProfileTemplate :=
  template_class false false (Some Oid.DF_TELECOM_v2) FilesTelecomV2_files None None.
Definition FilesUsimMandatory : result ProfileTemplate :=
  template_class true false (Some Oid.ADF_USIM_by_default) FilesUsimMandatory_files None None.
Definition FilesUsimMandatoryV2 : result ProfileTemplate :=
  template_class true false (Some Oid.ADF_USIM_by_default_v2) FilesUsimMandatoryV2_files None None.
Definition FilesUsimOptional : result ProfileTemplate :=
  template_class false true (Some Oid.ADF_USIMopt_not_by_default) FilesUsimOptional_files (Some FilesUsimMandatory) None.
Definition FilesUsimOptionalV2 : result ProfileTemplate :=
  template_class false true (Some Oid.ADF_USIMopt_not_by_default_v2) FilesUsimOptionalV2_files (Some FilesUsimMandatoryV2) None.
Definition FilesUsimOptionalV3 : result ProfileTemplate :=
  template_class false true (Some Oid.ADF_USIMopt_not_by_default_v3) FilesUsimOptionalV3_files (Some FilesUsimMandatoryV2) None.
Definition FilesUsimDfPhonebook : result ProfileTemplate :=
  template_class false false (Some Oid.DF_PHONEBOOK_ADF_USIM) FilesUsimDfPhonebook_files None None.
Definition FilesUsimDfGsmAccess : result ProfileTemplate :=
  template_class false false (Some Oid.DF_GSM_ACCESS_ADF_USIM) FilesUsimDfGsmAccess_files None (Some FilesUsimMandatory).
Definition FilesUsimDf5GS : result ProfileTemplate :=
  template_class false false (Some Oid.DF_5GS) FilesUsimDf5GS_files None (Some FilesUsimMandatory).
Definition FilesUsimDf5GSv2 : result ProfileTemplate :=
  template_class false false (Some Oid.DF_5GS_v2) FilesUsimDf5GSv2_files None (Some FilesUsimMandatory).
Definition FilesUsimDf5GSv3 : result ProfileTemplate :=
  template_class false false (Some Oid.DF_5GS_v3) FilesUsimDf5GSv3_files None (Some FilesUsimMandatory).
Definition FilesUsimDf5GSv4 : result ProfileTemplate :=
  template_class false false (Some Oid.DF_5GS_v4) FilesUsimDf5GSv4_files None (Some FilesUsimMandatory).
Definition FilesUsimDfSaip : result ProfileTemplate :=
  template_class false false (Some Oid.DF_SAIP) FilesUsimDfSaip_files None (Some FilesUsimMandatory).
Definition FilesDfSnpn : result ProfileTemplate :=
  template_class false false (Some Oid.DF_SNPN) FilesDfSnpn_files None (Some FilesUsimMandatory).
Definition FilesDf5GProSe : result ProfileTemplate :=
  template_class false false (Some Oid.DF_5GProSe) FilesDf5GProSe_files None (Some FilesUsimMandatory).
Definition FilesIsimMandatory : result ProfileTemplate :=
  template_class true false (Some Oid.ADF_ISIM_by_default) FilesIsimMandatory_files None None.
Definition FilesIsimOptional : result ProfileTemplate :=
  template_class false true (Some Oid.ADF_ISIMopt_not_by_default) FilesIsimOptional_files (Some FilesIsimMandatory) None.
Definition FilesIsimOptionalv2 : result ProfileTemplate :=
  template_class false true (Some Oid.ADF_ISIMopt_not_by_default_v2) FilesIsimOptionalv2_files (Some FilesIsimMandatory) None.
Definition FilesEap : result ProfileTemplate :=
  template_class false false (Some Oid.DF_EAP) FilesEap_files None None.

(** The classes in the order of the module, and the registry they leave. *)
Definition template_classes : list (result ProfileTemplate) :=
  [FilesAtMF;
   FilesCD;
   FilesTelecom;
   FilesTelecomV2;
   FilesUsimMandatory;
   FilesUsimMandatoryV2;
   FilesUsimOptional;
   FilesUsimOptionalV2;
   FilesUsimOptionalV3;
   FilesUsimDfPhonebook;
   FilesUsimDfGsmAccess;
   FilesUsimDf5GS;
   FilesUsimDf5GSv2;
   FilesUsimDf5GSv3;
   FilesUsimDf5GSv4;
   FilesUsimDfSaip;
   FilesDfSnpn;
   FilesDf5GProSe;
   FilesIsimMandatory;
   FilesIsimOptional;
   FilesIsimOptionalv2;
   FilesEap].

Definition by_oid : result registry := register_all [] template_classes.
End classes.

(** ** Versions of the specification *)

Definition SaipSpecVersion101 : SaipSpecVersion :=
  {| version := "1.0.1";
     oids := [Oid.MF; DF_CD; DF_TELECOM; ADF_USIM_by_default; ADF_USIMopt_not_by_default;
              DF_PHONEBOOK_ADF_USIM; DF_GSM_ACCESS_ADF_USIM; ADF_ISIM_by_default;
              ADF_ISIMopt_not_by_default; ADF_CSIM_by_default; ADF_CSIMopt_not_by_default] |}.
Definition SaipSpecVersion20 : SaipSpecVersion := {| version := "2.0"; oids := oids SaipSpecVersion101 |}.
Definition SaipSpecVersion21 : SaipSpecVersion := {| version := "2.1"; oids := oids SaipSpecVersion20 |}.
Definition SaipSpecVersion22 : SaipSpecVersion := {| version := "2.2"; oids := oids SaipSpecVersion21 ++ [DF_EAP] |}.
Definition SaipSpecVersion23 : SaipSpecVersion := {| version := "2.3"; oids := oids SaipSpecVersion22 ++ [DF_5GS; DF_SAIP] |}.
Definition SaipSpecVersion231 : SaipSpecVersion := {| version := "2.3.1"; oids := oids SaipSpecVersion23 |}.
Definition SaipSpecVersion31 : SaipSpecVersion :=
  {| version := "3.1";
     oids := [Oid.MF; DF_CD; DF_TELECOM_v2; ADF_USIM_by_default_v2; ADF_USIMopt_not_by_default_v2;
              DF_PHONEBOOK_ADF_USIM; DF_GSM_ACCESS_ADF_USIM; DF_5GS_v2; DF_5GS_v3; DF_SAIP;
              ADF_ISIM_by_default; ADF_ISIMopt_not_by_default_v2; ADF_CSIM_by_default_v2;
              ADF_CSIMopt_not_by_default_v2; DF_EAP] |}.
Definition SaipSpecVersion32 : SaipSpecVersion := {| version := "3.2"; oids := oids SaipSpecVersion31 |}.
Definition SaipSpecVersion331 : SaipSpecVersion :=
  {| version := "3.3.1";
     oids := oids SaipSpecVersion32 ++
             [ADF_USIMopt_not_by_default_v3; DF_5GS_v4; DF_SAIP; DF_SNPN; DF_5GProSe; IoT_by_default;
              IoTopt_not_by_default] |}.

Definition spec_versions : list SaipSpecVersion :=
  [SaipSpecVersion101; SaipSpecVersion20; SaipSpecVersion21; SaipSpecVersion22; SaipSpecVersion23;
   SaipSpecVersion231; SaipSpecVersion31; SaipSpecVersion32; SaipSpecVersion331].

(** ** What the tables give *)

(** Hex text, decided. *)
Definition hex_ok (s : str) : bool := forallb is_hexdig s && Nat.even (length s).

Definition pattern_ok (s : str) : bool :=
  if str_in (lit "...") s then match split_str (lit "...") s with [p; q] => hex_ok p && hex_ok q | _ => false end
  else hex_ok s.

Definition args_ok (a : FileTemplateArgs) : bool :=
  match filled (a_default_val a) with Some s => pattern_ok s | None => true end.

Lemma hexdig_val c : is_hexdig c = true → is_space c = false ∧ ∃ x, hexval c = Some x.
Proof.
  unfold is_hexdig, is_space, hexval, is_digit. intros Hc.
  destruct (in_range 48 57 c) eqn:E1; [|destruct (in_range 97 102 c) eqn:E2; [|destruct (in_range 65 70 c) eqn:E3; [|done]]];
    (split; [|by eexists]); unfold in_range in *; rewrite !andb_true_iff in *; lia.
Qed.

Lemma hexstr_bytes n s : length s = (2 * n)%nat → Forall (λ c, is_hexdig c = true) s → ∃ bs, bytes_fromhex s = Ok bs.
Proof.
  unfold bytes_fromhex. revert s. induction n as [|n IH]; intros [|a [|b s]] Hl Hs; cbn in Hl; try lia; [by eexists|].
  apply Forall_cons_1 in Hs as [Ha [Hb Hs]%Forall_cons_1].
  destruct (IH s) as [bs E]; [lia|done|]. apply from_opt_ok in E.
  destruct (hexdig_val a Ha) as (Hsa & x & Hx), (hexdig_val b Hb) as (_ & y & Hy).
  cbn [bytes_fromhex_opt]. rewrite Hsa, Hx, Hy, E. by eexists.
Qed.

Lemma hex_ok_hexstr s : hex_ok s = true → is_hexstr s ∧ ∃ bs, bytes_fromhex s = Ok bs.
Proof.
  unfold hex_ok. rewrite andb_true_iff, Nat.even_spec. intros [Hs [n Hn]].
  assert (Forall (λ c, is_hexdig c = true) s) as Hf by (apply List.Forall_forall; by apply forallb_forall).
  split; [|by eapply hexstr_bytes]. split; [done|]. by exists n.
Qed.

Section load.
Context `{OsmocomUtilsLaws}.

Lemma FileTemplate_init_ok a : args_ok a = true → FileTemplate_init a = Ok (FileTemplate_attrs a).
Proof.
  unfold args_ok, FileTemplate_init. cbn [t_default_val FileTemplate_attrs].
  destruct (filled (a_default_val a)) as [s|] eqn:Ed; [|done]. intros Hp.
  assert (∃ r, expand_default_value_pattern (FileTemplate_attrs a)
            (Some (match _default_value_len (FileTemplate_attrs a) with Some n => if truthy n then n else 100 | None => 100 end)) = Ok r) as [r ->];
    [|by mrun].
  unfold expand_default_value_pattern, pattern_ok in *. mrun. cbn [t_default_val FileTemplate_attrs]. rewrite Ed.
  destruct (str_in (lit "...") s) eqn:Ei; cbn [negb].
  - destruct (split_str _ _) as [|p [|q [|??]]]; try done. apply andb_true_iff in Hp as [Hp Hq].
    destruct (hex_ok_hexstr _ Hp) as (Hp' & P & EP), (hex_ok_hexstr _ Hq) as (Hq' & Q & EQ).
    rewrite (h2b_hex p), (h2b_hex q), EP, EQ by done. mrun. destruct (_ <=? 0); by eexists.
  - destruct (hex_ok_hexstr _ Hp) as (Hp' & P & EP). rewrite h2b_hex, EP by done. by eexists.
Qed.

Lemma map_init_ok l : forallb args_ok l = true → map_r FileTemplate_init l = Ok (map FileTemplate_attrs l).
Proof.
  induction l as [|a l IH]; [done|]. cbn [forallb map_r map]. intros [Ha Hl]%andb_true_iff.
  rewrite FileTemplate_init_ok by done. mrun. by rewrite IH.
Qed.
End load.

(** A class does not depend on the implementation of [h2b]. *)
Lemma template_class_same `{OsmocomUtilsLaws} c o i fs e p : forallb args_ok fs = true →
  template_class c o i fs e p = @template_class Ref.utils c o i fs e p.
Proof.
  intros Hf. unfold template_class. rewrite map_init_ok by done.
  by rewrite (@map_init_ok Ref.utils Ref.utils_laws) by done.
Qed.

(** Replace the implementation [U] by the reference one in a class. *)
Ltac same_class U L := rewrite (@template_class_same U L) by (vm_compute; reflexivity).

Section same.
Context `{U : OsmocomUtils} {L : @OsmocomUtilsLaws U}.

Lemma usim_mandatory_same : @FilesUsimMandatory U = @FilesUsimMandatory Ref.utils.
Proof. unfold FilesUsimMandatory. by same_class U L. Qed.
Lemma usim_mandatory_v2_same : @FilesUsimMandatoryV2 U = @FilesUsimMandatoryV2 Ref.utils.
Proof. unfold FilesUsimMandatoryV2. by same_class U L. Qed.
Lemma isim_mandatory_same : @FilesIsimMandatory U = @FilesIsimMandatory Ref.utils.
Proof. unfold FilesIsimMandatory. by same_class U L. Qed.

Lemma classes_same : @template_classes U = @template_classes Ref.utils.
Proof.
  unfold template_classes, FilesAtMF, FilesCD, FilesTelecom, FilesTelecomV2, FilesUsimOptional,
    FilesUsimOptionalV2, FilesUsimOptionalV3, FilesUsimDfPhonebook, FilesUsimDfGsmAccess, FilesUsimDf5GS,
    FilesUsimDf5GSv2, FilesUsimDf5GSv3, FilesUsimDf5GSv4, FilesUsimDfSaip, FilesDfSnpn,
    FilesDf5GProSe, FilesIsimOptional, FilesIsimOptionalv2, FilesEap.
  rewrite usim_mandatory_same, usim_mandatory_v2_same, isim_mandatory_same.
  repeat same_class U L. reflexivity.
Qed.

Lemma by_oid_same : @by_oid U = @by_oid Ref.utils.
Proof. unfold by_oid. by rewrite classes_same. Qed.
End same.

Lemma template_class_ok `{OsmocomUtils} c o i fs e p cls : template_class c o i fs e p = Ok cls →
  linked_class cls ∧ oid cls = i.
Proof.
  unfold template_class. intros (? & _ & (? & _ & (? & _ & E)%bind_ok)%bind_ok)%bind_ok.
  split; [by eapply init_subclass_linked|]. unfold init_subclass in E. by apply bind_ok in E as (? & _ & [= <-]).
Qed.

Section facts.
Context `{U : OsmocomUtils} {L : @OsmocomUtilsLaws U}.

Lemma get_by_oid_both r o : get_by_oid r (VStr (OID_str o)) = Ok (kv_get (OID_str o) r) ∧
  get_by_oid r (VList (map VInt (intlist o))) = Ok (kv_get (OID_str o) r).
Proof.
  split; [done|]. unfold get_by_oid, OID_str.
  assert (map_r as_int (map VInt (intlist o)) = Ok (intlist o)) as ->; [|done].
  induction (intlist o) as [|z l IH]; [done|]. cbn [map map_r as_int]. mrun. by rewrite IH.
Qed.

Lemma by_oid_loads : ∃ r, register_all [] (@template_classes Ref.utils) = Ok r.
Proof.
  assert (match register_all [] (@template_classes Ref.utils) with Ok _ => true | Err _ => false end = true)
    as Ht by (vm_compute; reflexivity).
  destruct (register_all [] _) as [r|]; [by exists r|done].
Qed.

Lemma classes_linked : Forall (λ c, ∀ cls, c = Ok cls → linked_class cls ∧ is_Some (oid cls)) (@template_classes Ref.utils).
Proof.
  unfold template_classes, FilesAtMF, FilesCD, FilesTelecom, FilesTelecomV2, FilesUsimMandatory,
    FilesUsimMandatoryV2, FilesUsimOptional, FilesUsimOptionalV2, FilesUsimOptionalV3, FilesUsimDfPhonebook,
    FilesUsimDfGsmAccess, FilesUsimDf5GS, FilesUsimDf5GSv2, FilesUsimDf5GSv3, FilesUsimDf5GSv4,
    FilesUsimDfSaip, FilesDfSnpn, FilesDf5GProSe, FilesIsimMandatory, FilesIsimOptional,
    FilesIsimOptionalv2, FilesEap.
  repeat apply List.Forall_cons; [..|apply List.Forall_nil];
    intros cls [? E]%template_class_ok; (split; [done|by rewrite E]).
Qed.

(** C36: Importing the module raises nothing: every class is made and every one
    is found under its own object identifier, in both forms. *)
Theorem registry_complete : ∃ r, by_oid = Ok r ∧ length r = 22%nat ∧
  ∀ c, c ∈ template_classes → ∃ cls o, c = Ok cls ∧ linked_class cls ∧ oid cls = Some o ∧
    get_by_oid r (VStr (OID_str o)) = Ok (Some cls) ∧
    get_by_oid r (VList (map VInt (intlist o))) = Ok (Some cls).
Proof.
  unfold by_oid. rewrite classes_same. pose proof classes_linked as Hall. destruct by_oid_loads as [r E].
  destruct (register_all_spec _ _ _ E) as (_ & Hl & Hc). exists r. split; [exact E|]. split; [exact Hl|].
  rewrite list.Forall_forall in Hall. intros c Hin. destruct (Hc c Hin) as (cls & -> & Hg).
  destruct (Hall _ Hin cls eq_refl) as (Hlk & o & Ho). rewrite Ho in Hg. cbn in Hg. exists cls, o.
  destruct (get_by_oid_both r o) as [-> ->]. rewrite Hg. auto.
Qed.

(** A template of [class] with its file of that name. *)
Definition template_of (c : result ProfileTemplate) (pe_name : str) : option FileTemplate :=
  match c with Ok cls => file_by_pename cls pe_name | Err _ => None end.

(** The flag [repeat] of a template is not used: the repeating pattern of
    EF.PLMNwAcT, a file of 40 bytes, is expanded to its 5 bytes once. *)
Lemma repeat_ignored : ∃ t, template_of FilesUsimOptional "ef-plmnwact" = Some t ∧
  t_default_val_repeat t = true ∧ t_file_size t = Some 40 ∧
  expand_default_value_pattern t None = Ok (Some [255; 255; 255; 0; 0]).
Proof.
  assert (FilesUsimOptional = @FilesUsimOptional Ref.utils) as ->.
  { unfold FilesUsimOptional. rewrite usim_mandatory_same. by same_class U L. }
  destruct (template_of (@FilesUsimOptional Ref.utils) "ef-plmnwact") as [t|] eqn:E; [|by vm_compute in E].
  exists t. split; [done|].
  assert (t_default_val_repeat t = true ∧ t_file_size t = Some 40 ∧ t_default_val t = Some (lit "FFFFFF0000") ∧ t_file_type t = FT_TR) as (-> & H1 & H2 & H3).
  { vm_compute in E. injection E as <-. done. }
  split_and!; [done..|]. transitivity (expand_default_value_pattern t (Some 40)).
  { unfold expand_default_value_pattern, _default_value_len. by rewrite H1, H3. }
  apply (expand_constant t _ _ 40 H2); [done|by vm_compute|].
  rewrite h2b_hex; [done|]. split; [by repeat constructor|]. by exists 5%nat.
Qed.
End facts.

(** Two files with one file identifier below the same DF, by name. *)
Definition fid_clashes (cls : ProfileTemplate) : list (str * str) :=
  let fs := imap (λ i f, (i, f)) (files cls) in
  concat (map (λ x, omap (λ y,
    if (x.1 <? y.1)%nat && bool_decide (t_fid x.2 = t_fid y.2 ∧ is_Some (t_fid x.2) ∧
         up (t_parents cls) x.1 = up (t_parents cls) y.1)
    then Some (t_name x.2, t_name y.2) else None) fs) fs).

(** The tables give four pairs of files the same identifier; of each pair
    only the second can be in a file system ([FsTree.add_child]). *)
Lemma template_fid_clashes `{U : OsmocomUtils} {L : @OsmocomUtilsLaws U} :
  omap (λ c, match c with Ok cls => Some (fid_clashes cls) | Err _ => None end)
       [FilesTelecomV2; FilesUsimOptional; FilesUsimOptionalV2; FilesIsimOptionalv2] =
  [[(lit "EF.MSPL", lit "EF.MMSSMODE")]; [(lit "EF.CFIS", lit "EF.EXT7")];
   [(lit "EF.CFIS", lit "EF.EXT7"); (lit "EF.EARFCNLIST", lit "EF.MudMidCfgdata")];
   [(lit "EF.WebRTCURI", lit "EF.MudMidCfgData")]].
Proof.
  unfold FilesTelecomV2, FilesUsimOptional, FilesUsimOptionalV2, FilesIsimOptionalv2.
  rewrite usim_mandatory_same, usim_mandatory_v2_same, isim_mandatory_same.
  repeat same_class U L. vm_compute. reflexivity.
Qed.

(** Every version string selects its own class, trailing zeros do not
    matter, and the order of the subclasses does not either. *)
Lemma versions_found l v : Permutation l spec_versions →
  for_version l v = for_version spec_versions v ∧
  map (for_version l) [lit "2.0"; lit "2"; lit "2.3.0"; lit "3.3.1"; lit "4.0"; lit "0.0"] =
  [Ok (Some SaipSpecVersion20); Ok (Some SaipSpecVersion20); Ok (Some SaipSpecVersion23);
   Ok (Some SaipSpecVersion331); Ok None; Err IndexError].
Proof.
  intros Hp.
  assert (∀ v, for_version l v = for_version spec_versions v) as Hv.
  { intros w. symmetry. apply for_version_perm; [by symmetry|by repeat (constructor; [by vm_compute; eexists|]); constructor|].
    apply (bool_decide_unpack _). by vm_compute. }
  split; [apply Hv|]. rewrite (map_ext _ _ Hv). by vm_compute.
Qed.

Import Ref.

Lemma registry_complete_witness :
  ∃ r, @by_oid Ref.utils = Ok r ∧ length r = 22%nat ∧
  ∀ c, c ∈ @template_classes Ref.utils → ∃ cls o, c = Ok cls ∧ linked_class cls ∧ oid cls = Some o ∧
    get_by_oid r (VStr (OID_str o)) = Ok (Some cls) ∧
    get_by_oid r (VList (map VInt (intlist o))) = Ok (Some cls).
Proof. exact (@registry_complete Ref.utils Ref.utils_laws). Defined.
