(* ===== verification/SaipFile.v ===== *)
(** pySim/esim/saip/__init__.py, the class File: a file of a profile between
    the decoded profile element (a list of tuples fileDescriptor,
    fillFileOffset, fillFileContent) and its attributes; with the declaration
    of the file descriptor from pySim/ts_102_221.py and the fill patterns of
    pySim/ts_102_222.py. *)

From S2P Require Import Prelude Osmocom Construct Oid Filesystem Templates.

(** ** The file descriptor (TS 102 221) *)

Definition ValidationError : exn := LibError "ValidationError".

(** [BerTlvAdapter._decode], [BerTlvAdapter._encode] *)
Definition BerTlvAdapter_decode (obj : value) : result value :=
  match obj with VInt n => if n =? 0x39 then Ok (VStr (lit "ber_tlv")) else Err ValidationError | _ => Err ValidationError end.
Definition BerTlvAdapter_encode (obj : value) : result value :=
  if is_str obj "ber_tlv" then Ok (VInt 0x39) else Err ValidationError.

(** The adapter under its name in declarations. *)
Class BerTlvAdapter `{Construct} := {
  decode_ber_tlv v : decode "BerTlvAdapter" v = BerTlvAdapter_decode v;
  encode_ber_tlv v : encode "BerTlvAdapter" v = BerTlvAdapter_encode v }.

Definition FDB : con :=
  Select
    (BitStruct ["" / ConstInt 0 Bit; "shareable" / Flag;
                "structure" / Construct.Adapter "BerTlvAdapter" (ConstInt 0x39 (BitsInteger 6));
                "file_type" / Computed (VStr (lit "working_ef"))]%con)
    (BitStruct ["" / ConstInt 0 Bit; "shareable" / Flag;
                "file_type" / Enum (BitsInteger 3) [("working_ef", 0); ("internal_ef", 1); ("df", 7)]%string;
                "structure" / Enum (BitsInteger 3)
                   [("no_info_given", 0); ("transparent", 1); ("linear_fixed", 2); ("cyclic", 6)]%string]%con).

Definition FileDescriptor : con :=
  Struct ["file_descriptor_byte" / FDB; "" / ConstBytes [0x21];
          "record_len" / Optional Int16ub; "num_of_rec" / Optional Int8ub]%con.

(** ** Fill patterns (TS 102 222) *)

Definition expand_pattern (pattern : bytes) (repeat : bool) (size : Z) : bytes :=
  if negb repeat then
    let pad_len := size - len pattern in
    pattern ++ py_mul (last_n 1 pattern) pad_len
  else
    let count := size / len pattern in
    let part_len := size - count * len pattern in
    py_mul pattern count ++ py_take part_len pattern.

(** ** The class [File] *)

(** The body is None, bytes, or the exception object that
    [file_content_from_tuples] returns (and does not raise). *)
Inductive content := Content (b : bytes) | AnException.

(** [template_derived], [own_name], [own_file_size] are the attributes with a
    leading underscore; [path] exists once it has been assigned. *)
Record File := {
  template_derived : bool;
  pe_name : option str;
  own_name : option str;
  template : option FileTemplate;
  body : option content;
  node : option nat;
  file_type : option Templates.file_type;
  fid : option Z;
  sfi : option Z;
  arr : option bytes;
  rec_len : option Z;
  nb_rec : option Z;
  own_file_size : option Z;
  high_update : bool;
  read_and_update_when_deact : bool;
  shareable : bool;
  df_name : option bytes;
  fill_pattern : option bytes;
  fill_pattern_repeat : bool;
  path : option (list Z) }.

Abbreviation tuples := (list (str * value)).

(** The attributes the methods assign. *)
Definition set_template_attrs (t : FileTemplate) (a : bytes) (f : File) : File :=
  {| template_derived := true; pe_name := pe_name f; own_name := own_name f; template := template f;
     body := body f; node := node f;
     file_type := Some (t_file_type t); fid := t_fid t; sfi := t_sfi t; arr := Some a;
     rec_len := t_rec_len t; nb_rec := t_nb_rec t;
     own_file_size := if has_size t then t_file_size t else own_file_size f;
     high_update := t_high_update t; read_and_update_when_deact := read_and_update_when_deact f;
     shareable := true; df_name := df_name f; fill_pattern := fill_pattern f;
     fill_pattern_repeat := fill_pattern_repeat f; path := path f |}.

Definition set_body (b : option content) (f : File) : File :=
  {| template_derived := template_derived f; pe_name := pe_name f; own_name := own_name f; template := template f;
     body := b; node := node f; file_type := file_type f; fid := fid f; sfi := sfi f; arr := arr f;
     rec_len := rec_len f; nb_rec := nb_rec f; own_file_size := own_file_size f; high_update := high_update f;
     read_and_update_when_deact := read_and_update_when_deact f; shareable := shareable f; df_name := df_name f;
     fill_pattern := fill_pattern f; fill_pattern_repeat := fill_pattern_repeat f; path := path f |}.

Definition set_node (n : option nat) (f : File) : File :=
  {| template_derived := template_derived f; pe_name := pe_name f; own_name := own_name f; template := template f;
     body := body f; node := n; file_type := file_type f; fid := fid f; sfi := sfi f; arr := arr f;
     rec_len := rec_len f; nb_rec := nb_rec f; own_file_size := own_file_size f; high_update := high_update f;
     read_and_update_when_deact := read_and_update_when_deact f; shareable := shareable f; df_name := df_name f;
     fill_pattern := fill_pattern f; fill_pattern_repeat := fill_pattern_repeat f; path := path f |}.

Definition set_gfm (p : list Z) (n : str) (f : File) : File :=
  {| template_derived := template_derived f; pe_name := Some n; own_name := own_name f; template := template f;
     body := body f; node := node f; file_type := file_type f; fid := fid f; sfi := sfi f; arr := arr f;
     rec_len := rec_len f; nb_rec := nb_rec f; own_file_size := own_file_size f; high_update := high_update f;
     read_and_update_when_deact := read_and_update_when_deact f; shareable := shareable f; df_name := df_name f;
     fill_pattern := fill_pattern f; fill_pattern_repeat := fill_pattern_repeat f; path := Some p |}.

Definition set_ids (i s : option Z) (d a : option bytes) (f : File) : File :=
  {| template_derived := template_derived f; pe_name := pe_name f; own_name := own_name f; template := template f;
     body := body f; node := node f; file_type := file_type f; fid := i; sfi := s; arr := a;
     rec_len := rec_len f; nb_rec := nb_rec f; own_file_size := own_file_size f; high_update := high_update f;
     read_and_update_when_deact := read_and_update_when_deact f; shareable := shareable f; df_name := d;
     fill_pattern := fill_pattern f; fill_pattern_repeat := fill_pattern_repeat f; path := path f |}.

Definition set_sizes (r n s : option Z) (f : File) : File :=
  {| template_derived := template_derived f; pe_name := pe_name f; own_name := own_name f; template := template f;
     body := body f; node := node f; file_type := file_type f; fid := fid f; sfi := sfi f; arr := arr f;
     rec_len := r; nb_rec := n; own_file_size := s; high_update := high_update f;
     read_and_update_when_deact := read_and_update_when_deact f; shareable := shareable f; df_name := df_name f;
     fill_pattern := fill_pattern f; fill_pattern_repeat := fill_pattern_repeat f; path := path f |}.

Definition set_file_type (t : option Templates.file_type) (f : File) : File :=
  {| template_derived := template_derived f; pe_name := pe_name f; own_name := own_name f; template := template f;
     body := body f; node := node f; file_type := t; fid := fid f; sfi := sfi f; arr := arr f;
     rec_len := rec_len f; nb_rec := nb_rec f; own_file_size := own_file_size f; high_update := high_update f;
     read_and_update_when_deact := read_and_update_when_deact f; shareable := shareable f; df_name := df_name f;
     fill_pattern := fill_pattern f; fill_pattern_repeat := fill_pattern_repeat f; path := path f |}.

Definition set_flags (h r s : bool) (f : File) : File :=
  {| template_derived := template_derived f; pe_name := pe_name f; own_name := own_name f; template := template f;
     body := body f; node := node f; file_type := file_type f; fid := fid f; sfi := sfi f; arr := arr f;
     rec_len := rec_len f; nb_rec := nb_rec f; own_file_size := own_file_size f; high_update := h;
     read_and_update_when_deact := r; shareable := s; df_name := df_name f;
     fill_pattern := fill_pattern f; fill_pattern_repeat := fill_pattern_repeat f; path := path f |}.

Definition set_fill (p : option bytes) (r : bool) (f : File) : File :=
  {| template_derived := template_derived f; pe_name := pe_name f; own_name := own_name f; template := template f;
     body := body f; node := node f; file_type := file_type f; fid := fid f; sfi := sfi f; arr := arr f;
     rec_len := rec_len f; nb_rec := nb_rec f; own_file_size := own_file_size f; high_update := high_update f;
     read_and_update_when_deact := read_and_update_when_deact f; shareable := shareable f; df_name := df_name f;
     fill_pattern := p; fill_pattern_repeat := r; path := path f |}.

(** [filled_b b]: a bytes object that is neither None nor empty;
    [nonzero n]: an integer that is neither None nor 0. *)
Definition filled_b (b : option bytes) : option bytes :=
  match b with Some [] | None => None | Some b => Some b end.
Definition nonzero (n : option Z) : option Z :=
  match n with Some n => if truthy n then Some n else None | None => None end.

(** ** [io.BytesIO], as far as it is used: the buffer and the position *)

Definition stream : Type := bytes * Z.

(** Writing behind the end fills the gap with zeros; writing nothing changes
    nothing. *)
Definition stream_write (v : bytes) (s : stream) : stream :=
  let '(buf, pos) := s in
  if len v =? 0 then s
  else
    let buf' := buf ++ replicate (Z.to_nat (pos - len buf)) 0 in
    (take (Z.to_nat pos) buf' ++ v ++ drop (Z.to_nat (pos + len v)) buf', pos + len v).

(** [stream.seek(v, os.SEEK_CUR)] stops at the start. *)
Definition stream_seek (v : Z) (s : stream) : stream := (s.1, Z.max 0 (s.2 + v)).

Section file.
Context `{OsmocomUtils} `{C : Construct}.

Definition name (self : File) : option str :=
  match filled (own_name self) with
  | Some n => Some n
  | None => t_name <$> template self
  end.

Definition file_size (self : File) : result (option Z) :=
  match file_type self with
  | Some FT_LF | Some FT_CY =>
      match nb_rec self, rec_len self with Some n, Some r => Ok (Some (n * r)) | _, _ => Err TypeError end
  | Some FT_TR | Some FT_BT => Ok (own_file_size self)
  | _ => Ok None
  end.

Fixpoint get_tuplelist_item (l : tuples) (key : str) : option value :=
  match l with
  | [] => None
  | (k, v) :: l' => if bool_decide (k = key) then Some v else get_tuplelist_item l' key
  end.

Definition _encode_file_size (size : option Z) : result bytes :=
  build GreedyInteger [] (match size with Some n => VInt n | None => VNone end).
Definition _decode_file_size (size : bytes) : result Z :=
  '(v, _) ← parse GreedyInteger [] 0 size; as_int v.

Definition from_template (t : FileTemplate) (self : File) : result File :=
  guard_else (negb (template_derived self)) ValueError;;
  a ← to_bytes 1 (t_arr t);
  Ok (set_template_attrs t a self).

Definition _recompute_size (self : File) : result File :=
  body_size ← match body self with Some (Content b) => Ok (len b) | _ => Err TypeError end;
  size ← file_size self;
  Ok (if match size with None => true | Some n => n <? body_size end
      then set_sizes (rec_len self) (nb_rec self) (Some body_size) self else self).

(** The setter of [body]: the assignment stays when the size fails. *)
Definition set_body_property (value : option content) : M File unit :=
  modify (set_body value);;
  self ← get;
  match _recompute_size self with Ok self => put self | Err e => raise e end.

(** [template.fid], [template.sfi], [template.arr] when there is no template *)
Definition the_template (self : File) : result FileTemplate := from_opt AttributeError (template self).

(** Entries of a dict, in the order of their assignment. *)
Definition entry (k : string) (v : option value) : dict := match v with Some v => [(k, v)] | None => [] end.

Definition fdb_of (self : File) : dict :=
  match file_type self with
  | Some FT_LF => [("file_type", VStr (lit "working_ef")); ("structure", VStr (lit "linear_fixed"))]
  | Some FT_CY => [("file_type", VStr (lit "working_ef")); ("structure", VStr (lit "cyclic"))]
  | Some FT_BT => [("file_type", VStr (lit "working_ef")); ("structure", VStr (lit "ber_tlv"))]
  | Some FT_TR => [("file_type", VStr (lit "working_ef")); ("structure", VStr (lit "transparent"))]
  | Some _ => [("file_type", VStr (lit "df")); ("structure", VStr (lit "no_info_given"))]
  | None => []
  end%string.

Definition spfi_of (self : File) : Z :=
  Z.lor (if high_update self then 0x80 else 0) (if read_and_update_when_deact self then 0x40 else 0).

Definition to_fileDescriptor (self : File) : result dict :=
  fileID ← (match nonzero (fid self) with
            | Some n => t ← the_template self;
                        if bool_decide (fid self = t_fid t) then Ok None else b ← to_bytes 2 n; Ok (Some (VBytes b))
            | None => Ok None end);
  shortEFID ← (match nonzero (sfi self) with
               | Some n => t ← the_template self;
                           if bool_decide (sfi self = t_sfi t) then Ok None else b ← bytes_of_ints [n]; Ok (Some (VBytes b))
               | None => Ok None end);
  arr ← (match filled_b (arr self) with
         | Some a => t ← the_template self; b ← to_bytes 1 (t_arr t);
                     Ok (if bool_decide (a = b) then None else Some (VBytes a))
         | None => Ok None end);
  efFileSize ← (match file_type self with
                | Some FT_LF | Some FT_CY =>
                    match nonzero (nb_rec self), nonzero (rec_len self) with
                    | Some _, Some _ => size ← file_size self; b ← _encode_file_size size; Ok (Some (VBytes b))
                    | _, _ => Ok None
                    end
                | Some FT_TR =>
                    size ← file_size self;
                    match nonzero size with Some _ => b ← _encode_file_size size; Ok (Some (VBytes b)) | None => Ok None end
                | _ => Ok None
                end);
  maximumFileSize ← (match file_type self with
                     | Some FT_BT =>
                         size ← file_size self;
                         match nonzero size with Some _ => b ← _encode_file_size size; Ok (Some (VBytes b)) | None => Ok None end
                     | _ => Ok None
                     end);
  let fdb_dec := fdb_of self in
  let fd_dict := entry "file_descriptor_byte"
                   (if len fdb_dec =? 0 then None
                    else Some (VDict (fdb_dec ++ [("shareable"%string, VBool (shareable self))])))
                 ++ entry "record_len" (VInt <$> nonzero (rec_len self)) in
  fileDescriptor ← (if len fd_dict =? 0 then Ok None else b ← build FileDescriptor [] (VDict fd_dict); Ok (Some (VBytes b)));
  spfi ← (if spfi_of self =? 0 then Ok None else b ← to_bytes 1 (spfi_of self); Ok (Some (VBytes b)));
  let pefi := entry "maximumFileSize" maximumFileSize ++ entry "specialFileInformation" spfi
              ++ (match filled_b (fill_pattern self) with
                  | Some p => [((if fill_pattern_repeat self then "repeatPattern" else "fillPattern")%string, VBytes p)]
                  | None => []
                  end) in
  Ok (entry "fileID" fileID ++ entry "shortEFID" shortEFID ++ entry "dfName" (VBytes <$> filled_b (df_name self))
      ++ entry "securityAttributesReferenced" arr ++ entry "efFileSize" efFileSize
      ++ entry "fileDescriptor" fileDescriptor
      ++ entry "proprietaryEFInfo" (if len pefi =? 0 then None else Some (VDict pefi))).

(** [d.get(k, None)] of an entry that holds bytes, when it is not empty *)
Definition get_bytes (d : dict) (k : string) : result (option bytes) :=
  match dict_get k d with
  | None | Some VNone => Ok None
  | Some v => if truth v then b ← as_bytes v; Ok (Some b) else Ok None
  end.

(** Part of [from_fileDescriptor]: record length, number of records and size
    of a working EF. *)
Definition read_sizes (fd fd_dec : dict) : M File unit :=
  num ← lift (item (VDict fd_dec) "num_of_rec");
  num ← (if truth num then n ← lift (as_int num); mret (Some n) else mret None);
  rlen ← lift (item (VDict fd_dec) "record_len");
  rlen ← (if truth rlen then n ← lift (as_int rlen); mret (Some n) else mret None);
  modify (λ f, set_sizes (match rlen with Some r => Some r | None => rec_len f end)
                         (match num with Some n => Some n | None => nb_rec f end) (own_file_size f) f);;
  efFileSize ← lift (get_bytes fd "efFileSize");
  match efFileSize with
  | Some b =>
      size ← lift (_decode_file_size b);
      modify (λ f, set_sizes (rec_len f)
                     (match nonzero (rec_len f), nb_rec f with Some r, None => Some (size / r) | _, _ => nb_rec f end)
                     (Some size) f)
  | None => mret ()
  end.

(** Part of [from_fileDescriptor]: the type of a working EF, with the size of
    a BER-TLV file. *)
Definition read_structure (pefi fdb_dec : dict) : M File unit :=
  structure ← lift (item (VDict fdb_dec) "structure");
  if is_str structure "linear_fixed" then modify (set_file_type (Some FT_LF))
  else if is_str structure "cyclic" then modify (set_file_type (Some FT_CY))
  else if is_str structure "transparent" then modify (set_file_type (Some FT_TR))
  else if is_str structure "ber_tlv" then
    modify (set_file_type (Some FT_BT));;
    match dict_get "maximumFileSize" pefi with
    | Some v => b ← lift (as_bytes v); size ← lift (_decode_file_size b);
                modify (λ f, set_sizes (rec_len f) (nb_rec f) (Some size) f)
    | None => mret ()
    end
  else mret ().

(** Part of [from_fileDescriptor]: the entries of [proprietaryEFInfo]. *)
Definition read_proprietary (pefi : dict) : M File unit :=
  spfi ← lift (get_bytes pefi "specialFileInformation");
  x ← (match spfi with Some b => lift (idx b 0) | None => mret 0 end);
  modify (λ f, set_flags (high_update f || truthy (Z.land x 0x80))
                         (read_and_update_when_deact f || truthy (Z.land x 0x40)) (shareable f) f);;
  (match dict_get "repeatPattern" pefi with
   | Some v => b ← lift (as_bytes v); modify (set_fill (Some b) true)
   | None => mret ()
   end);;
  match dict_get "fillPattern" pefi with
  | Some v => b ← lift (as_bytes v); modify (set_fill (Some b) false)
  | None => mret ()
  end.

(** Part of [from_fileDescriptor]: the branch for a working EF. *)
Definition read_working_ef (fd pefi fd_dec fdb_dec : dict) : M File unit :=
  read_sizes fd fd_dec;; read_structure pefi fdb_dec;; read_proprietary pefi.

Definition as_dict (v : value) : result dict := match v with VDict d => Ok d | _ => Err TypeError end.

(** Part of [from_fileDescriptor]: identifiers, name and access rules; it
    leaves the dict [pefi] to the rest. *)
Definition read_ids (fd : dict) : M File dict :=
  fileID ← lift (get_bytes fd "fileID");
  modify (λ f, set_ids (match fileID with Some b => Some (from_bytes b) | None => fid f end) (sfi f) (df_name f) (arr f) f);;
  shortEFID ← lift (get_bytes fd "shortEFID");
  x ← (match shortEFID with Some b => x ← lift (idx b 0); mret (Some x) | None => mret None end);
  modify (λ f, set_ids (fid f) (match x with Some n => Some n | None => sfi f end) (df_name f) (arr f) f);;
  dfName ← lift (get_bytes fd "dfName");
  modify (λ f, set_ids (fid f) (sfi f) (match dfName with Some b => Some b | None => df_name f end) (arr f) f);;
  pefi ← lift (as_dict (default (VDict []) (dict_get "proprietaryEFInfo" fd)));
  sar ← lift (get_bytes fd "securityAttributesReferenced");
  modify (λ f, set_ids (fid f) (sfi f) (df_name f) (match sar with Some b => Some b | None => arr f end) f);;
  mret pefi.

Definition from_fileDescriptor (fd : dict) : M File unit :=
  pefi ← read_ids fd;
  match dict_get "fileDescriptor" fd with
  | Some v =>
      b ← lift (as_bytes v);
      '(fd_dec, _) ← lift (parse FileDescriptor [] 0 b);
      fd_dec ← lift (as_dict fd_dec);
      fdb_dec ← lift (item (VDict fd_dec) "file_descriptor_byte");
      fdb_dec ← lift (as_dict fdb_dec);
      sh ← lift (item (VDict fdb_dec) "shareable");
      modify (λ f, set_flags (high_update f) (read_and_update_when_deact f) (truth sh) f);;
      ft ← lift (item (VDict fdb_dec) "file_type");
      if is_str ft "working_ef" then read_working_ef fd pefi fd_dec fdb_dec
      else if is_str ft "df" then
        modify (λ f, match file_type f with None => set_file_type (Some FT_DF) f | Some _ => f end)
      else mret ()
  | None => mret ()
  end.

Definition path_from_gfm (bin_path : bytes) : list Z :=
  map (λ i, from_bytes (slice (2 * i) (2 * i + 2) bin_path)) (seq 0 (Nat.div2 (length bin_path + 1))).

Definition path_to_gfm (p : list Z) : result bytes := l ← map_r (to_bytes 2) p; Ok (concat l).

Definition expand_fill_pattern (self : File) : result bytes :=
  pattern ← from_opt TypeError (fill_pattern self);
  size ← file_size self;
  size ← from_opt TypeError size;
  guard_else (negb (fill_pattern_repeat self) || negb (len pattern =? 0)) ZeroDivisionError;;
  Ok (expand_pattern pattern (fill_pattern_repeat self) size).

(** The loop of [file_content_from_tuples] over the stream. *)
Fixpoint fill_stream (l : tuples) (s : stream) : result (option content) :=
  match l with
  | [] => Ok (Some (Content s.1))
  | (k, v) :: l' =>
      if bool_decide (k = lit "doNotCreate") then Ok None
      else if bool_decide (k = lit "fileDescriptor") then fill_stream l' s
      else if bool_decide (k = lit "fillFileOffset") then
        n ← as_int v; fill_stream l' (stream_seek n s)
      else if bool_decide (k = lit "fillFileContent") then
        b ← as_bytes v; fill_stream l' (stream_write b s)
      else Ok (Some AnException)
  end.

(** What the file holds before its content is filled in. *)
Definition initial_content (self : File) : result bytes :=
  match filled_b (fill_pattern self) with
  | Some _ => expand_fill_pattern self
  | None =>
      match template self with
      | Some t =>
          match filled (t_default_val t) with
          | Some _ => size ← file_size self; b ← expand_default_value_pattern t size; from_opt TypeError b
          | None => Ok []
          end
      | None => Ok []
      end
  end.

Definition file_content_from_tuples (self : File) (l : tuples) : result (option content) :=
  b ← initial_content self;
  let '(buf, _) := stream_write b ([], 0) in
  fill_stream l (buf, 0).

(** (A body that is an exception stands as None here: neither can be encoded.) *)
Definition file_content_to_tuples (self : File) : tuples :=
  [(lit "fillFileContent", match body self with Some (Content b) => VBytes b | _ => VNone end)].

Definition to_tuples (self : File) : result tuples :=
  fd ← to_fileDescriptor self; Ok ((lit "fileDescriptor", VDict fd) :: file_content_to_tuples self).

Definition to_gfm (self : File) : result tuples :=
  p ← from_opt AttributeError (path self);
  b ← path_to_gfm p;
  fd ← to_fileDescriptor self;
  Ok ([(lit "filePath", VBytes b); (lit "createFCP", VDict fd)] ++ file_content_to_tuples self).

Definition from_tuples (l : tuples) : M File unit :=
  self ← get;
  let fd := match get_tuplelist_item l (lit "fileDescriptor") with
            | Some v => if truth v then Some v else None
            | None => None
            end in
  (match fd with
   | None => if template_derived self then mret () else raise ValueError
   | Some v => d ← lift (as_dict v); from_fileDescriptor d
   end);;
  self ← get;
  b ← lift (file_content_from_tuples self l);
  modify (set_body b).

Definition new_file (pename : option str) (t : option FileTemplate) (n : option str) : File :=
  {| template_derived := false; pe_name := pename; own_name := n; template := t; body := None; node := None;
     file_type := None; fid := None; sfi := None; arr := None; rec_len := None; nb_rec := None;
     own_file_size := Some 0; high_update := false; read_and_update_when_deact := false; shareable := true;
     df_name := None; fill_pattern := None; fill_pattern_repeat := false; path := None |}.

(** The constructor; an exception leaves no object. *)
Definition File_init (pename : option str) (l : option tuples) (t : option FileTemplate) (n : option str) : result File :=
  let self := new_file pename t n in
  self ← match t with Some t => from_template t self | None => Ok self end;
  match l with
  | Some ((_ :: _) as l) => let '(r, self) := from_tuples l self in _ ← r; Ok self
  | _ => Ok self
  end.
End file.

(** ** The file descriptor is read back *)

(** Evaluate a closed term of the goal; a comparison of strings. *)
Ltac eval_in t := let r := eval vm_compute in t in change t with r.
Ltac eval_is_str :=
  repeat match goal with
  | |- context [is_str (VStr (lit ?a)) ?b] => eval_in (is_str (VStr (lit a)) b)
  end.

Section descriptor.
Context `{ConstructLaws} `{!BerTlvAdapter}.

(** The file descriptor byte: shareable, type and structure. *)
Definition fdb_code (t : Templates.file_type) (sh : bool) : Z :=
  (if sh then 64 else 0) +
  match t with FT_LF => 2 | FT_CY => 6 | FT_TR => 1 | FT_BT => 57 | _ => 56 end.

Definition fdb_dict (t : Templates.file_type) (sh : bool) : dict :=
  match t with
  | FT_LF => [("shareable", VBool sh); ("file_type", VStr (lit "working_ef")); ("structure", VStr (lit "linear_fixed"))]
  | FT_CY => [("shareable", VBool sh); ("file_type", VStr (lit "working_ef")); ("structure", VStr (lit "cyclic"))]
  | FT_TR => [("shareable", VBool sh); ("file_type", VStr (lit "working_ef")); ("structure", VStr (lit "transparent"))]
  | FT_BT => [("shareable", VBool sh); ("structure", VStr (lit "ber_tlv")); ("file_type", VStr (lit "working_ef"))]
  | _ => [("shareable", VBool sh); ("file_type", VStr (lit "df")); ("structure", VStr (lit "no_info_given"))]
  end%string.


Ltac con_closed :=
  match goal with
  | |- context [number_of ?s ?n] => eval_in (number_of s n)
  | |- context [label_of ?s ?n] => eval_in (label_of s n)
  | |- context [BerTlvAdapter_encode ?v] => eval_in (BerTlvAdapter_encode v)
  | |- context [BerTlvAdapter_decode ?v] => eval_in (BerTlvAdapter_decode v)
  | |- context [bool_decide (0 <= ?a < ?b)] => eval_in (bool_decide (0 <= a < b))
  | |- context [bytes_to_bits ?l] => is_ground l; eval_in (bytes_to_bits l)
  | |- context [Z.eqb ?a ?b] => is_ground a; eval_in (Z.eqb a b)
  | |- context [bits_of ?n ?z] => eval_in (bits_of n z)
  | |- context [read ?n (?x :: ?l)] => is_ground n; let r := eval cbv in (read n (x :: l)) in change (read n (x :: l)) with r
  end.

Ltac con_build :=
  repeat (first
    [ rewrite build_struct | rewrite build_select | rewrite (build_bitwise _ _ _ 1) by reflexivity
    | rewrite build_const_int | rewrite build_bits | rewrite build_flag | rewrite build_adapter
    | rewrite encode_ber_tlv | rewrite build_computed | rewrite build_enum_label | con_closed
    | progress cbn [app build_fields dict_get default from_option id String.eqb Ascii.eqb Bool.eqb const_int_arg is_const truth select_ok] ];
    mrun).

(** A directory of any kind is written like a DF. *)
Definition fdb_type (t : Templates.file_type) : Templates.file_type := if dedicated t then FT_DF else t.

Lemma fdb_type_cases (P : Templates.file_type → Prop) :
  P FT_DF → P FT_TR → P FT_LF → P FT_CY → P FT_BT → ∀ t, P (fdb_type t).
Proof. intros ? ? ? ? ? []; done. Qed.

Lemma build_fdb t sh f ctx :
  file_type f = Some t →
  build FDB ctx (VDict (fdb_of f ++ [("shareable"%string, VBool sh)])) = Ok [fdb_code t sh].
Proof.
  intros Ht. assert (fdb_of f = fdb_of (set_file_type (Some (fdb_type t)) f)) as -> by (unfold fdb_of; rewrite Ht; by destruct t).
  assert (fdb_code t sh = fdb_code (fdb_type t) sh) as -> by by destruct t.
  unfold FDB, BitStruct, Bit, fdb_of. cbn [set_file_type file_type].
  pattern (fdb_type t). apply fdb_type_cases; con_build; by destruct sh.
Qed.

Ltac con_parse :=
  repeat (first
    [ rewrite parse_struct | rewrite parse_select | rewrite (parse_bitwise _ _ _ _ 1) by reflexivity
    | rewrite parse_const_int | rewrite parse_bits | rewrite parse_flag | rewrite parse_adapter
    | rewrite decode_ber_tlv | rewrite parse_computed | rewrite parse_enum | con_closed
    | progress cbn [app parse_fields dict_set String.eqb Ascii.eqb Bool.eqb is_const as_length select_ok
                    of_bits foldl negb] ];
    mrun).

Lemma parse_fdb t sh ctx pos rest :
  parse FDB ctx pos (fdb_code t sh :: rest) = Ok (VDict (fdb_dict t sh), rest).
Proof.
  assert (read (Z.of_nat 1) (fdb_code t sh :: rest) = Ok ([fdb_code t sh], rest)) as E
    by exact (read_app 1 [fdb_code t sh] rest eq_refl).
  unfold FDB, BitStruct, Bit. rewrite parse_select. rewrite !(parse_bitwise _ _ _ _ 1) by reflexivity.
  rewrite E. mrun. clear E.
  assert (fdb_code t sh = fdb_code (fdb_type t) sh) as -> by by destruct t.
  assert (fdb_dict t sh = fdb_dict (fdb_type t) sh) as -> by by destruct t.
  assert (bytes_to_bits [fdb_code (fdb_type t) sh] =
          0 :: Z.b2z sh :: bits_of 6 (fdb_code (fdb_type t) false)) as -> by (by destruct t, sh).
  pattern (fdb_type t). apply fdb_type_cases; cbn [fdb_code Z.add]; con_parse; by destruct sh.
Qed.

(** The optional record length of the descriptor. *)
Definition rec_bytes (r : option Z) : bytes := match r with Some n => be 2 n | None => [] end.
Definition opt_int (n : option Z) : value := match n with Some n => VInt n | None => VNone end.

Lemma build_optional_none n ctx : build (Optional (BytesInteger n)) ctx VNone = Ok [].
Proof. unfold Optional. rewrite build_select. destruct (build_int_none n ctx) as [e ->]. by rewrite build_pass. Qed.

Lemma build_descriptor t sh f r : file_type f = Some t → (∀ n, r = Some n → 0 <= n < 65536) →
  build FileDescriptor [] (VDict (entry "file_descriptor_byte" (Some (VDict (fdb_of f ++ [("shareable"%string, VBool sh)])))
                                  ++ entry "record_len" (VInt <$> r)))
  = Ok ([fdb_code t sh; 0x21] ++ rec_bytes r).
Proof.
  intros Ht Hr. unfold FileDescriptor, Int16ub, Int8ub. rewrite build_struct. cbn [build_fields].
  change (dict_get "file_descriptor_byte" _) with (Some (VDict (fdb_of f ++ [("shareable"%string, VBool sh)]))).
  cbn [default from_option id]. rewrite (build_fdb t) by done. mrun. rewrite build_const_bytes.
  assert (dict_get "num_of_rec" (entry "file_descriptor_byte" (Some (VDict (fdb_of f ++ [("shareable"%string, VBool sh)])))
                                  ++ entry "record_len" (VInt <$> r)) = None) as -> by by destruct r.
  assert (dict_get "" (entry "file_descriptor_byte" (Some (VDict (fdb_of f ++ [("shareable"%string, VBool sh)])))
                                  ++ entry "record_len" (VInt <$> r)) = None) as -> by by destruct r.
  assert (dict_get "record_len" (entry "file_descriptor_byte" (Some (VDict (fdb_of f ++ [("shareable"%string, VBool sh)])))
                                  ++ entry "record_len" (VInt <$> r)) = VInt <$> r) as -> by by destruct r.
  cbn [default from_option id const_bytes_arg]. mrun. rewrite build_optional_none. mrun. rewrite app_nil_r.
  destruct r as [n|]; cbn [fmap option_fmap option_map default from_option id rec_bytes].
  - unfold Optional. rewrite build_select, build_int. rewrite bool_decide_ok by (specialize (Hr n eq_refl); lia).
    mrun. done.
  - rewrite build_optional_none. mrun. done.
Qed.

Lemma parse_optional_end n ctx pos : (0 < n)%nat → parse (Optional (BytesInteger n)) ctx pos [] = Ok (VNone, []).
Proof.
  intros Hn. unfold Optional. rewrite parse_select, parse_int, read_nil by lia. mrun. by rewrite parse_pass.
Qed.

Lemma parse_optional_int n z ctx pos : 0 <= z < 256 ^ Z.of_nat n →
  parse (Optional (BytesInteger n)) ctx pos (be n z) = Ok (VInt z, []).
Proof.
  intros Hz. unfold Optional. rewrite parse_select, parse_int.
  assert (read (Z.of_nat n) (be n z) = Ok (be n z, [])) as ->.
  { rewrite <- (app_nil_r (be n z)) at 1. apply read_app. unfold len. by rewrite length_be. }
  mrun. cbn [select_ok]. by rewrite from_bytes_be.
Qed.

Lemma parse_descriptor t sh r : (∀ n, r = Some n → 0 <= n < 65536) →
  parse FileDescriptor [] 0 ([fdb_code t sh; 0x21] ++ rec_bytes r) =
  Ok (VDict [("file_descriptor_byte", VDict (fdb_dict t sh)); ("record_len", opt_int r); ("num_of_rec", VNone)]%string, []).
Proof.
  intros Hr. unfold FileDescriptor, Int16ub, Int8ub. rewrite parse_struct. cbn [app parse_fields]. rewrite parse_fdb. mrun.
  rewrite parse_const_bytes. rewrite (read_app 1 [33] (rec_bytes r) eq_refl : read (len [33]) (33 :: rec_bytes r) = _). mrun.
  rewrite bool_decide_ok by done. mrun. destruct r as [n|]; cbn [rec_bytes opt_int].
  - rewrite parse_optional_int by (specialize (Hr n eq_refl); lia). mrun.
    rewrite parse_optional_end by lia. mrun. done.
  - rewrite !parse_optional_end by lia. mrun. rewrite !parse_optional_end by lia. mrun. done.
Qed.
End descriptor.

(** ** A file is read back from its tuples *)

(** The files whose attributes the descriptor can carry next to template
    [t]: an attribute equals the template's or has a form that is written;
    what is only ever set on reading ([high_update]) is not cleared; the
    number of records is the template's, if that has one. *)
Record encodable (t : FileTemplate) (f : File) : Prop := {
  e_template : template f = Some t;
  e_derived : template_derived f = true;
  e_type : file_type f = Some (t_file_type t);
  e_fid : fid f = t_fid t ∨ ∃ n, fid f = Some n ∧ 0 < n < 65536;
  e_fid_range : ∀ n, fid f = Some n → 0 <= n < 65536;
  e_sfi : sfi f = t_sfi t ∨ ∃ n, sfi f = Some n ∧ 0 < n < 256;
  e_sfi_range : ∀ n, sfi f = Some n → 0 <= n < 256;
  e_arr : ∃ a, arr f = Some a ∧ a ≠ [];
  e_template_arr : 0 <= t_arr t < 256;
  e_df_name : df_name f ≠ Some [];
  e_records : if has_records t
    then ∃ n r, nb_rec f = Some n ∧ rec_len f = Some r ∧ 0 < n ∧ 0 < r < 65536 ∧ own_file_size f = Some (n * r) ∧
                (t_nb_rec t = None ∨ t_nb_rec t = Some n)
    else nb_rec f = None ∧ rec_len f = None ∧ t_nb_rec t = None ∧ t_rec_len t = None;
  e_size : if has_size t
    then (own_file_size f = t_file_size t ∨ ∃ n, own_file_size f = Some n ∧ 0 < n) ∧
         (∀ n, own_file_size f = Some n → 0 <= n)
    else has_records t = false → own_file_size f = Some 0;
  e_high_update : t_high_update t = true → high_update f = true;
  e_fill : fill_pattern f ≠ Some [];
  e_no_fill : fill_pattern f = None → fill_pattern_repeat f = false;
  e_directory : dedicated (t_file_type t) = true →
    high_update f = t_high_update t ∧ read_and_update_when_deact f = false ∧ fill_pattern f = None;
  e_fresh : node f = None ∧ path f = None }.

Lemma dict_get_entry k k' o d :
  dict_get k (entry k' o ++ d) = if String.eqb k k' then match o with Some v => Some v | None => dict_get k d end
                                 else dict_get k d.
Proof. destruct o; cbn; [done|]. by destruct (String.eqb k k'). Qed.

Lemma get_bytes_some d k b : dict_get k d = Some (VBytes b) → b ≠ [] → get_bytes d k = Ok (Some b).
Proof. intros E Hb. unfold get_bytes. rewrite E. cbn [truth as_bytes]. by rewrite bool_decide_false. Qed.

Lemma get_bytes_none d k : dict_get k d = None → get_bytes d k = Ok None.
Proof. intros E. unfold get_bytes. by rewrite E. Qed.

Lemma get_bytes_opt d k (o : option bytes) : dict_get k d = VBytes <$> o → o ≠ Some [] → get_bytes d k = Ok o.
Proof.
  intros E Ho. destruct o as [b|]; [apply get_bytes_some; [done|congruence]|by apply get_bytes_none].
Qed.

Lemma be_nonempty n z : (0 < n)%nat → be n z ≠ [].
Proof. intros Hn E%(f_equal length). rewrite length_be in E. cbn in E. lia. Qed.

Lemma file_ext (a b : File) :
  template_derived a = template_derived b → pe_name a = pe_name b → own_name a = own_name b → template a = template b →
  body a = body b → node a = node b → file_type a = file_type b → fid a = fid b → sfi a = sfi b → arr a = arr b →
  rec_len a = rec_len b → nb_rec a = nb_rec b → own_file_size a = own_file_size b → high_update a = high_update b →
  read_and_update_when_deact a = read_and_update_when_deact b → shareable a = shareable b → df_name a = df_name b →
  fill_pattern a = fill_pattern b → fill_pattern_repeat a = fill_pattern_repeat b → path a = path b → a = b.
Proof. destruct a, b. cbn. by intros -> -> -> -> -> -> -> -> -> -> -> -> -> -> -> -> -> -> -> ->. Qed.

Ltac file_eq := f_equal; apply file_ext; try reflexivity; cbn.

Section round_trip.
Context `{OsmocomUtils} `{ConstructLaws} `{!BerTlvAdapter} (t : FileTemplate) (f : File) (He : encodable t f).

(** The entries [to_fileDescriptor] writes. *)
Definition w_fid : option bytes :=
  match nonzero (fid f) with Some n => if bool_decide (fid f = t_fid t) then None else Some (be 2 n) | None => None end.
Definition w_sfi : option bytes :=
  match nonzero (sfi f) with Some n => if bool_decide (sfi f = t_sfi t) then None else Some [n] | None => None end.
Definition w_arr : option bytes :=
  match arr f with Some a => if bool_decide (a = be 1 (t_arr t)) then None else Some a | None => None end.
Definition w_size : option bytes :=
  match t_file_type t with
  | FT_LF | FT_CY => match nb_rec f, rec_len f with Some n, Some r => Some (be (octets (n * r)) (n * r)) | _, _ => None end
  | FT_TR => match nonzero (own_file_size f) with Some n => Some (be (octets n) n) | None => None end
  | _ => None
  end.
Definition w_max : option bytes :=
  match t_file_type t with
  | FT_BT => match nonzero (own_file_size f) with Some n => Some (be (octets n) n) | None => None end
  | _ => None
  end.
Definition w_spfi : option bytes := if spfi_of f =? 0 then None else Some [spfi_of f].
Definition w_pefi : dict :=
  entry "maximumFileSize" (VBytes <$> w_max) ++ entry "specialFileInformation" (VBytes <$> w_spfi)
  ++ (match fill_pattern f with
      | Some p => [((if fill_pattern_repeat f then "repeatPattern" else "fillPattern")%string, VBytes p)]
      | None => []
      end).
Definition w_fd : dict :=
  entry "fileID" (VBytes <$> w_fid) ++ entry "shortEFID" (VBytes <$> w_sfi) ++ entry "dfName" (VBytes <$> df_name f)
  ++ entry "securityAttributesReferenced" (VBytes <$> w_arr) ++ entry "efFileSize" (VBytes <$> w_size)
  ++ entry "fileDescriptor" (Some (VBytes ([fdb_code (t_file_type t) (shareable f); 0x21] ++ rec_bytes (rec_len f))))
  ++ entry "proprietaryEFInfo" (if len w_pefi =? 0 then None else Some (VDict w_pefi)).

Lemma filled_b_id (b : option bytes) : b ≠ Some [] → filled_b b = b.
Proof. by destruct b as [[]|]. Qed.

Lemma spfi_byte : spfi_of f =? 0 = false → 0 <= spfi_of f < 256.
Proof. intros _. unfold spfi_of. by destruct (high_update f), (read_and_update_when_deact f). Qed.

Lemma truthy_pos n : 0 < n → truthy n = true.
Proof. intros Hn. unfold truthy. by destruct (Z.eqb_spec n 0); [lia|]. Qed.

Lemma nonzero_pos n : 0 < n → nonzero (Some n) = Some n.
Proof. intros Hn. unfold nonzero, truthy. by destruct (Z.eqb_spec n 0); [lia|]. Qed.

Lemma nonzero_some o n : nonzero o = Some n → o = Some n ∧ n ≠ 0.
Proof. destruct o as [m|]; [|done]. unfold nonzero, truthy. destruct (Z.eqb_spec m 0); [done|]. by intros [= ->]. Qed.

Lemma to_fileDescriptor_eq : to_fileDescriptor f = Ok w_fd.
Proof.
  destruct He as [Ht _ Hty Hfid Hfr Hsfi Hsr (a & Ha & Hane) Htarr Hdf Hrec Hsize _ Hfill _ _ _].
  unfold to_fileDescriptor, the_template. rewrite Ht. cbn [from_opt].
  assert (match nonzero (fid f) with
          | Some n => t0 ← Ok t; if bool_decide (fid f = t_fid t0) then Ok None else b ← to_bytes 2 n; Ok (Some (VBytes b))
          | None => Ok None end = Ok (VBytes <$> w_fid)) as ->.
  { unfold w_fid. destruct (nonzero (fid f)) as [n|] eqn:E; [|done]. apply nonzero_some in E as [E Hn]. mrun.
    destruct (bool_decide _); [done|]. unfold to_bytes. specialize (Hfr _ E). rewrite bool_decide_ok by lia. done. }
  assert (match nonzero (sfi f) with
          | Some n => t0 ← Ok t; if bool_decide (sfi f = t_sfi t0) then Ok None else b ← bytes_of_ints [n]; Ok (Some (VBytes b))
          | None => Ok None end = Ok (VBytes <$> w_sfi)) as ->.
  { unfold w_sfi. destruct (nonzero (sfi f)) as [n|] eqn:E; [|done]. apply nonzero_some in E as [E Hn]. mrun.
    destruct (bool_decide _); [done|]. unfold bytes_of_ints. specialize (Hsr _ E).
    rewrite bool_decide_ok; [done|]. apply Forall_singleton. done. }
  assert (match filled_b (arr f) with
          | Some a => t0 ← Ok t; b ← to_bytes 1 (t_arr t0); Ok (if bool_decide (a = b) then None else Some (VBytes a))
          | None => Ok None end = Ok (VBytes <$> w_arr)) as ->.
  { unfold w_arr, to_bytes. rewrite Ha, filled_b_id by congruence. mrun. rewrite bool_decide_ok by (change (256 ^ Z.of_nat 1) with 256; lia).
    mrun. by destruct (bool_decide _). }
  mrun.
  assert (∀ n, 0 <= n → _encode_file_size (Some n) = Ok (be (octets n) n)) as Henc.
  { intros n Hn. unfold _encode_file_size. by rewrite build_greedy_integer. }
  assert (∀ n, own_file_size f = Some n → has_size t = true → 0 <= n) as Hpos.
  { intros n Hn Hs. rewrite Hs in Hsize. by apply Hsize. }
  unfold has_records, has_size in *. unfold file_size. rewrite !Hty.
  unfold w_fd, w_pefi, w_size, w_max.
  rewrite (filled_b_id _ Hdf), (filled_b_id _ Hfill).
  assert (∀ fd, file_type f = Some fd → (len (fdb_of f) =? 0) = false) as Hfdb
    by (intros fd E; unfold fdb_of; rewrite E; by destruct fd).
  rewrite (Hfdb _ Hty).
  assert ((if spfi_of f =? 0 then Ok None else b ← to_bytes 1 (spfi_of f); Ok (Some (VBytes b))) = Ok (VBytes <$> w_spfi)) as Hsp.
  { unfold w_spfi. destruct (spfi_of f =? 0) eqn:E; [done|]. pose proof (spfi_byte E). unfold to_bytes.
    rewrite bool_decide_ok by (change (256 ^ Z.of_nat 1) with 256; lia). mrun. cbn. unfold be. cbn. by rewrite Z.mod_small. }
  assert (∀ r, nonzero (rec_len f) = r → r = rec_len f → (∀ n, r = Some n → 0 <= n < 65536) →
    (b ← build FileDescriptor [] (VDict (entry "file_descriptor_byte" (Some (VDict (fdb_of f ++ [("shareable"%string, VBool (shareable f))])))
                                  ++ entry "record_len" (VInt <$> r))); Ok (Some (VBytes b))) =
    Ok (Some (VBytes ([fdb_code (t_file_type t) (shareable f); 0x21] ++ rec_bytes (rec_len f))))) as Hbuild.
  { intros r _ -> Hr. rewrite (build_descriptor (t_file_type t)) by done. done. }
  set (descr := Some (VBytes ([fdb_code (t_file_type t) (shareable f); 0x21] ++ rec_bytes (rec_len f)))) in *.
  assert (∀ d, (len (entry "file_descriptor_byte" (Some d) ++ entry "record_len" (VInt <$> nonzero (rec_len f))) =? 0) = false) as Hlen.
  { intros d. cbn. rewrite len_cons. pose proof (len_nonneg (entry "record_len" (VInt <$> nonzero (rec_len f)))).
    destruct (Z.eqb_spec (1 + len (entry "record_len" (VInt <$> nonzero (rec_len f)))) 0); [lia|done]. }
  assert ((if record_based (t_file_type t)
           then ∃ n r, nb_rec f = Some n ∧ rec_len f = Some r ∧ 0 < n ∧ 0 < r < 65536
           else rec_len f = None)) as Hrl.
  { destruct (record_based _); naive_solver. }
  assert (nonzero (rec_len f) = rec_len f ∧ (∀ n, rec_len f = Some n → 0 <= n < 65536)) as [Hnz Hrange].
  { destruct (record_based _); [destruct Hrl as (n & r & _ & -> & _ & Hr)|rewrite Hrl; done].
    rewrite nonzero_pos by lia. split; [done|]. intros m [= <-]. lia. }
  specialize (Hbuild _ Hnz eq_refl Hrange).
  destruct (t_file_type t) eqn:Etype; cbn [record_based size_based] in *; mrun;
    rewrite ?Hlen, ?Hnz, ?Hbuild; mrun; rewrite ?Hsp; mrun; try done.
  all: try (destruct (nonzero (own_file_size f)) as [n|] eqn:En;
    [apply nonzero_some in En as [En _]; rewrite En, Henc by eauto; mrun|]; rewrite ?Hlen, ?Hbuild; mrun; rewrite ?Hsp; mrun; done).
  all: destruct Hrl as (n & r & Hn1 & Hr1 & Hn & Hr); rewrite Hn1, Hr1 in *; rewrite !nonzero_pos in * by lia; mrun;
    rewrite Henc by nia; mrun; rewrite ?Hlen, ?Hbuild; mrun; rewrite ?Hsp; mrun; done.
Qed.

Lemma get_entries :
  get_bytes w_fd "fileID" = Ok w_fid ∧ get_bytes w_fd "shortEFID" = Ok w_sfi ∧
  get_bytes w_fd "dfName" = Ok (df_name f) ∧ get_bytes w_fd "securityAttributesReferenced" = Ok w_arr ∧
  get_bytes w_fd "efFileSize" = Ok w_size ∧
  dict_get "fileDescriptor" w_fd = Some (VBytes ([fdb_code (t_file_type t) (shareable f); 0x21] ++ rec_bytes (rec_len f))) ∧
  as_dict (default (VDict []) (dict_get "proprietaryEFInfo" w_fd)) = Ok w_pefi.
Proof.
  destruct He as [_ _ _ _ _ _ _ (a & Ha & Hane) _ Hdf Hrec Hsize _ _ _ _ _].
  split_and!;
    try (apply get_bytes_opt; [unfold w_fd; rewrite !dict_get_entry; cbn [String.eqb Ascii.eqb Bool.eqb];
      rewrite <- (app_nil_r (entry "proprietaryEFInfo" _)), dict_get_entry; cbn [String.eqb Ascii.eqb Bool.eqb dict_get]|]).
  - by destruct w_fid.
  - unfold w_fid. destruct (nonzero (fid f)); [|done]. destruct (bool_decide _); [done|].
    by intros [= E].
  - by destruct w_sfi.
  - unfold w_sfi. destruct (nonzero (sfi f)); [|done]. by destruct (bool_decide _).
  - by destruct (df_name f).
  - done.
  - by destruct w_arr.
  - unfold w_arr. rewrite Ha. destruct (bool_decide _); [done|]. congruence.
  - by destruct w_size.
  - unfold w_size. assert (∀ n, Some (be (octets n) n) ≠ Some []) as Hne.
    { intros n [= E]. apply (be_nonempty (octets n) n); [|done]. unfold octets. pose proof (Z.log2_nonneg n). dlia. }
    destruct (t_file_type t); try done; [by destruct (nonzero _)|by destruct (nb_rec f), (rec_len f)..].
  - unfold w_fd. rewrite !dict_get_entry. cbn [String.eqb Ascii.eqb Bool.eqb]. done.
  - unfold w_fd. rewrite !dict_get_entry. cbn [String.eqb Ascii.eqb Bool.eqb].
    assert (∀ o, dict_get "proprietaryEFInfo" (entry "proprietaryEFInfo" o) = o) as -> by (intros o; by destruct o).
    destruct w_pefi as [|x l] eqn:E; [done|]. rewrite len_cons. pose proof (len_nonneg l).
    by destruct (Z.eqb_spec (1 + len l) 0); [lia|].
Qed.

Lemma get_pefi :
  dict_get "maximumFileSize" w_pefi = VBytes <$> w_max ∧
  get_bytes w_pefi "specialFileInformation" = Ok w_spfi ∧
  dict_get "repeatPattern" w_pefi = (if fill_pattern_repeat f then VBytes <$> fill_pattern f else None) ∧
  dict_get "fillPattern" w_pefi = (if fill_pattern_repeat f then None else VBytes <$> fill_pattern f).
Proof.
  unfold w_pefi. rewrite !dict_get_entry. cbn [String.eqb Ascii.eqb Bool.eqb]. split_and!.
  - destruct w_max; [done|]. destruct (fill_pattern f); [|done]. by destruct (fill_pattern_repeat f).
  - apply get_bytes_opt; [|unfold w_spfi; by destruct (_ =? _)].
    rewrite !dict_get_entry. cbn [String.eqb Ascii.eqb Bool.eqb]. destruct w_spfi; [done|].
    destruct (fill_pattern f); [|done]. by destruct (fill_pattern_repeat f).
  - destruct (fill_pattern f); [|by destruct (fill_pattern_repeat f)]. by destruct (fill_pattern_repeat f).
  - destruct (fill_pattern f); [|by destruct (fill_pattern_repeat f)]. by destruct (fill_pattern_repeat f).
Qed.

Lemma decode_size n : 0 <= n → _decode_file_size (be (octets n) n) = Ok n.
Proof.
  intros Hn. destruct (octets_bound n Hn) as [Hb Ho]. unfold _decode_file_size.
  rewrite parse_greedy_integer by by apply be_nonempty. mrun. by rewrite from_bytes_be.
Qed.

(** A new file with the template's attributes. *)
Definition blank : File := set_template_attrs t (be 1 (t_arr t)) (new_file (pe_name f) (Some t) (own_name f)).

Lemma read_fid : match w_fid with Some b => Some (from_bytes b) | None => t_fid t end = fid f.
Proof.
  destruct He as [_ _ _ Hfid Hfr _ _ _ _ _ _ _ _ _ _ _ _]. unfold w_fid. destruct (nonzero (fid f)) as [n|] eqn:E.
  - apply nonzero_some in E as [E Hn]. case_bool_decide as Ht; [done|].
    rewrite from_bytes_be by (apply Hfr in E; lia). done.
  - destruct Hfid as [->|(n & En & Hn)]; [done|]. rewrite En, nonzero_pos in E by lia. done.
Qed.

Lemma read_sfi s : ∃ x,
  (match w_sfi with Some b => x ← lift (idx b 0); mret (Some x) | None => mret None end : M File (option Z)) s = (Ok x, s) ∧
  match x with Some n => Some n | None => t_sfi t end = sfi f.
Proof.
  destruct He as [_ _ _ _ _ Hsfi Hsr _ _ _ _ _ _ _ _ _ _]. unfold w_sfi. destruct (nonzero (sfi f)) as [n|] eqn:E.
  - apply nonzero_some in E as [E Hn]. case_bool_decide as Ht; [by exists None|]. by exists (Some n).
  - exists None. split; [done|]. destruct Hsfi as [->|(n & En & Hn)]; [done|]. rewrite En, nonzero_pos in E by lia. done.
Qed.

Lemma read_arr : match w_arr with Some b => Some b | None => Some (be 1 (t_arr t)) end = arr f.
Proof.
  destruct He as [_ _ _ _ _ _ _ (a & Ha & _) _ _ _ _ _ _ _ _ _]. unfold w_arr. rewrite Ha. by case_bool_decide as E; [rewrite E|].
Qed.

Lemma read_spfi s : ∃ x, (match w_spfi with Some b => lift (idx b 0) | None => mret 0 end : M File Z) s = (Ok x, s) ∧
  t_high_update t || truthy (Z.land x 0x80) = high_update f ∧ truthy (Z.land x 0x40) = read_and_update_when_deact f.
Proof.
  pose proof (e_high_update _ _ He) as Hh. exists (spfi_of f). unfold w_spfi, spfi_of.
  destruct (high_update f), (read_and_update_when_deact f); cbn; (split; [done|]); rewrite ?orb_true_r, ?orb_false_r; auto.
  all: destruct (t_high_update t); naive_solver.
Qed.

Definition with_ids : File := set_ids (fid f) (sfi f) (df_name f) (arr f) blank.

Lemma read_ids_eq : read_ids w_fd blank = (Ok w_pefi, with_ids).
Proof.
  destruct get_entries as (E1 & E2 & E3 & E4 & _ & _ & E7).
  unfold read_ids. rewrite E1. mrun. rewrite E2. mrun.
  match goal with |- context [(match w_sfi with _ => _ end) ?s] => destruct (read_sfi s) as (x & Ex & Hx) end.
  unfold lift, mret, M_ret in Ex. rewrite Ex. clear Ex. mrun. rewrite E3. mrun. rewrite E7. mrun. rewrite E4. mrun.
  f_equal. apply file_ext; try reflexivity; cbn.
  - apply read_fid.
  - done.
  - apply read_arr.
  - by destruct (df_name f).
Qed.

Definition with_flags : File := set_flags (high_update with_ids) (read_and_update_when_deact with_ids) (shareable f) with_ids.

Lemma from_fileDescriptor_step k :
  (∀ l, l = fdb_dict (t_file_type t) (shareable f) →
    (if dedicated (t_file_type t) then (Ok (), with_flags)
     else read_working_ef w_fd w_pefi
            [("file_descriptor_byte", VDict l); ("record_len", opt_int (rec_len f)); ("num_of_rec", VNone)]%string l with_flags) = k) →
  from_fileDescriptor w_fd blank = k.
Proof.
  intros Hk. specialize (Hk _ eq_refl). destruct get_entries as (_ & _ & _ & _ & _ & E6 & _).
  assert (∀ n, rec_len f = Some n → 0 <= n < 65536) as Hrl.
  { pose proof (e_records _ _ He) as Hr. destruct (has_records t); [|by destruct Hr as (_ & -> & _)].
    destruct Hr as (? & r & _ & -> & _ & ? & _). intros ? [= <-]. lia. }
  unfold from_fileDescriptor. rewrite M_bind_eq, read_ids_eq. rewrite E6. mrun. cbn [as_bytes].
  rewrite parse_descriptor by done. mrun. cbn [as_dict item dict_get String.eqb Ascii.eqb Bool.eqb from_opt]. mrun.
  fold with_flags. rewrite <- Hk. clear Hk E6 Hrl. destruct He as [_ _ Hty _ _ _ _ _ _ _ _ _ _ _ _ _ _].
  destruct (t_file_type t) eqn:Et; cbn [fdb_dict dedicated item dict_get String.eqb Ascii.eqb Bool.eqb from_opt truth]; mrun.
  all: unfold is_str; rewrite ?(bool_decide_false (lit "df" = lit "working_ef")), ?bool_decide_ok by done; try done.
  all: f_equal; cbn; by rewrite Et.
Qed.

Definition fd_dec_of (l : dict) : dict :=
  [("file_descriptor_byte", VDict l); ("record_len", opt_int (rec_len f)); ("num_of_rec", VNone)]%string.

Definition with_sizes : File :=
  set_sizes (rec_len f) (nb_rec f) (match t_file_type t with FT_BT => t_file_size t | _ => own_file_size f end) with_flags.

Lemma read_sizes_eq l : dedicated (t_file_type t) = false → read_sizes w_fd (fd_dec_of l) with_flags = (Ok (), with_sizes).
Proof.
  intros Hd. destruct get_entries as (_ & _ & _ & _ & E5 & _ & _).
  assert (own_file_size with_flags = if has_size t then t_file_size t else Some 0) as Ho by done.
  assert (rec_len with_flags = t_rec_len t ∧ nb_rec with_flags = t_nb_rec t) as [Hr0 Hn0] by done.
  destruct He as [_ _ Hty _ _ _ _ _ _ _ Hrec Hsize _ _ _ _ _].
  unfold read_sizes, fd_dec_of. cbn [item dict_get String.eqb Ascii.eqb Bool.eqb from_opt]. mrun. cbn [truth]. mrun.
  assert ((if truth (opt_int (rec_len f)) then n ← lift (as_int (opt_int (rec_len f))); mret (Some n) else mret None : M File (option Z))
          with_flags = (Ok (nonzero (rec_len f)), with_flags)) as Er.
  { destruct (rec_len f) as [r|]; [|done]. cbn [opt_int truth as_int nonzero]. by destruct (truthy r). }
  unfold lift, mret, M_ret in Er. rewrite Er. clear Er. mrun. rewrite E5. mrun. clear E5.
  unfold has_records, has_size in *. unfold w_size.
  destruct (t_file_type t) eqn:Et; try done; cbn [record_based size_based] in *.
  - destruct Hrec as (Hnb & Hrl & Htn & Htr). destruct Hsize as [Hsz Hpos]. rewrite Hrl. cbn [nonzero]. rewrite Hr0, Hn0, Htr, Htn.
    destruct (nonzero (own_file_size f)) as [n|] eqn:En.
    + apply nonzero_some in En as [En _]. rewrite decode_size by auto. mrun. f_equal. apply file_ext; try reflexivity; cbn.
      * by rewrite Hrl.
      * by rewrite Hnb.
      * by rewrite Et.
    + mrun. f_equal. apply file_ext; try reflexivity; cbn; [by rewrite Hrl|by rewrite Hnb|]. rewrite Et.
      destruct Hsz as [Hs|(n & Hs & Hn)]; [|rewrite Hs, nonzero_pos in En by lia; done].
      unfold has_size. by rewrite Et, Hs.
  - destruct Hrec as (n & r & Hnb & Hrl & Hn & Hr & Hown & Htn). rewrite Hnb, Hrl. rewrite nonzero_pos by lia.
    rewrite decode_size by nia. mrun. f_equal. apply file_ext; try reflexivity; cbn.
    + by rewrite Hrl.
    + rewrite Hnb, truthy_pos by lia. destruct Htn as [Htn|Htn]; rewrite Htn; [|done]. by rewrite Z.div_mul by lia.
    + by rewrite Et, Hown.
  - destruct Hrec as (n & r & Hnb & Hrl & Hn & Hr & Hown & Htn). rewrite Hnb, Hrl. rewrite nonzero_pos by lia.
    rewrite decode_size by nia. mrun. f_equal. apply file_ext; try reflexivity; cbn.
    + by rewrite Hrl.
    + rewrite Hnb, truthy_pos by lia. destruct Htn as [Htn|Htn]; rewrite Htn; [|done]. by rewrite Z.div_mul by lia.
    + by rewrite Et, Hown.
  - destruct Hrec as (Hnb & Hrl & Htn & Htr). rewrite Hrl. cbn [nonzero]. rewrite Hr0, Hn0, Htr, Htn. mrun.
    f_equal. apply file_ext; try reflexivity; cbn; [by rewrite Hrl|by rewrite Hnb|]. unfold has_size. by rewrite Et.
Qed.

(** The size of a BER-TLV file is in another entry. *)
Lemma read_max : t_file_type t = FT_BT →
  match w_max with
  | Some b => ∃ n, _decode_file_size b = Ok n ∧ own_file_size f = Some n
  | None => own_file_size f = t_file_size t
  end.
Proof.
  intros Et. pose proof (e_size _ _ He) as Hs. unfold has_size, w_max in *. rewrite Et in *. destruct Hs as [Hs Hpos].
  destruct (nonzero (own_file_size f)) as [n|] eqn:En.
  - apply nonzero_some in En as [En _]. exists n. split; [|done]. apply decode_size, Hpos, En.
  - destruct Hs as [->|(n & Hs & Hn)]; [done|]. rewrite Hs, nonzero_pos in En by lia. done.
Qed.

Definition with_structure : File := set_sizes (rec_len f) (nb_rec f) (own_file_size f) with_flags.

Lemma read_structure_eq l : l = fdb_dict (t_file_type t) (shareable f) → dedicated (t_file_type t) = false →
  read_structure w_pefi l with_sizes = (Ok (), with_structure).
Proof.
  intros -> Hd. pose proof read_max as Hmax. unfold read_structure. destruct get_pefi as (-> & _). unfold with_sizes.
  destruct (t_file_type t) eqn:Et; try done; cbn [fdb_dict item dict_get String.eqb Ascii.eqb Bool.eqb from_opt]; mrun;
    eval_is_str; mrun.
  1-3: file_eq; by rewrite Et.
  specialize (Hmax eq_refl). destruct w_max as [b|]; cbn [fmap option_fmap option_map as_bytes]; mrun.
  - destruct Hmax as (n & Hb & Hn). cbn [as_bytes]. mrun. rewrite Hb. mrun. file_eq; by rewrite ?Et, ?Hn.
  - file_eq; by rewrite ?Et, ?Hmax.
Qed.

Lemma read_proprietary_eq : dedicated (t_file_type t) = false →
  read_proprietary w_pefi with_structure = (Ok (), set_body None f).
Proof.
  intros Hd. destruct get_pefi as (_ & P2 & P3 & P4). unfold read_proprietary. rewrite P2, P3, P4. clear P2 P3 P4. mrun.
  match goal with |- context [(match w_spfi with _ => _ end) ?s] => destruct (read_spfi s) as (x & Ex & Hh & Hr) end.
  unfold lift, mret, M_ret in Ex. rewrite Ex. clear Ex. mrun.
  change (high_update with_structure) with (t_high_update t).
  change (read_and_update_when_deact with_structure) with false. rewrite Hh, orb_false_l, Hr.
  pose proof (e_no_fill _ _ He) as Hnf. destruct He as [Ht Hdr Hty _ _ _ _ _ _ _ _ _ _ _ _ _ [Hnode Hpath]].
  destruct (fill_pattern f) as [p|] eqn:Ep, (fill_pattern_repeat f) eqn:Epr; cbn [fmap option_fmap option_map]; mrun;
    cbn [as_bytes]; mrun; try (specialize (Hnf eq_refl); done).
  all: file_eq; congruence.
Qed.

Lemma read_working_ef_eq l : l = fdb_dict (t_file_type t) (shareable f) → dedicated (t_file_type t) = false →
  read_working_ef w_fd w_pefi (fd_dec_of l) l with_flags = (Ok (), set_body None f).
Proof.
  intros Hl Hd. unfold read_working_ef.
  rewrite M_bind_eq, read_sizes_eq by done. rewrite M_bind_eq, read_structure_eq by done. by rewrite read_proprietary_eq.
Qed.

(** Reading back what [to_fileDescriptor] wrote gives the attributes. *)
Lemma from_fileDescriptor_eq : from_fileDescriptor w_fd blank = (Ok (), set_body None f).
Proof.
  apply from_fileDescriptor_step. intros l Hl. destruct (dedicated (t_file_type t)) eqn:Hd; [|by apply read_working_ef_eq].
  destruct He as [Ht Hdr Hty _ _ _ _ _ _ _ Hrec Hsize _ _ Hnf Hdir [Hnode Hpath]].
  destruct (Hdir Hd) as (Hh & Hr & Hf). clear Hdir.
  assert (has_records t = false ∧ has_size t = false) as [Hhr Hhs]
    by (unfold has_records, has_size; by destruct (t_file_type t)).
  rewrite Hhr, Hhs in *. destruct Hrec as (Hn & Hl' & Htn & Htl). specialize (Hsize eq_refl). specialize (Hnf Hf).
  f_equal. apply file_ext; try reflexivity; cbn; rewrite ?Hhs; congruence.
Qed.

(** Writing over a shorter buffer replaces it. *)
Lemma stream_write_all v buf : len buf <= len v → (stream_write v (buf, 0)).1 = v.
Proof.
  intros Hl. unfold stream_write. destruct (Z.eqb_spec (len v) 0) as [E|_].
  - destruct v; [|rewrite len_cons in E; pose proof (len_nonneg v); lia].
    destruct buf; [done|]. rewrite len_cons in Hl. change (len []) with 0 in Hl. pose proof (len_nonneg buf). lia.
  - cbn [fst]. rewrite Z.sub_0_l, Z.add_0_l. rewrite (Z2Nat.nonpos (- len buf)) by (pose proof (len_nonneg buf); lia).
    cbn [replicate Z.to_nat]. rewrite take_0, app_nil_r, drop_ge by (unfold len in *; lia). by rewrite app_nil_r.
Qed.

Lemma stream_write_new v : stream_write v ([], 0) = (v, len v).
Proof.
  unfold stream_write. destruct (Z.eqb_spec (len v) 0) as [E|_].
  - destruct v; [done|]. rewrite len_cons in E. pose proof (len_nonneg v). lia.
  - change (len []) with 0. change (Z.to_nat (0 - 0)) with 0%nat. cbn [replicate app].
    by rewrite take_nil, drop_nil, app_nil_r, Z.add_0_l.
Qed.

Lemma truth_w_fd : truth (VDict w_fd) = true.
Proof. destruct get_entries as (_ & _ & _ & _ & _ & E & _). by destruct w_fd. Qed.

Lemma file_read_back b ini : body f = Some (Content b) → initial_content f = Ok ini → len ini <= len b →
  ∃ l, to_tuples f = Ok l ∧ File_init (pe_name f) (Some l) (Some t) (own_name f) = Ok f.
Proof.
  intros Hb Hini Hlen. unfold to_tuples. rewrite to_fileDescriptor_eq. mrun. eexists. split; [done|].
  unfold File_init, from_template, to_bytes. pose proof (e_template_arr _ _ He).
  rewrite (bool_decide_ok (0 <= t_arr t < 256 ^ Z.of_nat 1)) by (change (256 ^ Z.of_nat 1) with 256; lia). cbn [template_derived new_file negb]. mrun.
  fold blank. unfold from_tuples. mrun. cbn [get_tuplelist_item]. rewrite bool_decide_ok by done. rewrite truth_w_fd.
  mrun. cbn [as_dict]. mrun. rewrite from_fileDescriptor_eq. mrun.
  unfold file_content_from_tuples. change (initial_content (set_body None f)) with (initial_content f). rewrite Hini. mrun.
  rewrite stream_write_new.
  unfold file_content_to_tuples. rewrite Hb. cbn [fill_stream].
  rewrite (bool_decide_false (lit "fileDescriptor" = lit "doNotCreate")), (bool_decide_ok (lit "fileDescriptor" = _)) by done.
  rewrite (bool_decide_false (lit "fillFileContent" = lit "doNotCreate")), (bool_decide_false (lit "fillFileContent" = lit "fileDescriptor")),
    (bool_decide_false (lit "fillFileContent" = lit "fillFileOffset")), (bool_decide_ok (lit "fillFileContent" = _)) by done.
  mrun. cbn [as_bytes]. mrun. rewrite stream_write_all by done. mrun. f_equal. by apply file_ext.
Qed.
End round_trip.


(** ** The content of a file *)

(** The writes at absolute positions that a list of tuples asks for. *)
Fixpoint chunks (pos : Z) (l : tuples) : list (Z * bytes) :=
  match l with
  | [] => []
  | (_, VInt n) :: l' => chunks (pos + n) l'
  | (_, VBytes b) :: l' => (pos, b) :: chunks (pos + len b) l'
  | _ :: l' => chunks pos l'
  end.

(** Lists of descriptors, offsets that do not go back, and contents. *)
Definition content_entry (e : str * value) : Prop :=
  match e.2 with
  | VInt n => e.1 = lit "fillFileOffset" ∧ 0 <= n
  | VBytes _ => e.1 = lit "fillFileContent"
  | VDict _ => e.1 = lit "fileDescriptor"
  | _ => False
  end.

(** The byte at position [i] after the writes: that of the last chunk that
    covers it, of the former content, or zero in a gap. *)
Definition painted (cs : list (Z * bytes)) (buf : bytes) (i : nat) : option Z :=
  foldl (λ o c, if bool_decide (c.1 <= Z.of_nat i < c.1 + len c.2) then c.2 !! Z.to_nat (Z.of_nat i - c.1) else o)
        (buf !! i) cs.

(** Where the content ends. *)
Definition extent (cs : list (Z * bytes)) (n : Z) : Z :=
  foldl (λ m c, if len c.2 =? 0 then m else Z.max m (c.1 + len c.2)) n cs.

Lemma stream_write_pos v buf pos : (stream_write v (buf, pos)).2 = pos + len v.
Proof. unfold stream_write. destruct (Z.eqb_spec (len v) 0) as [E|_]; [|done]. cbn. lia. Qed.

Lemma stream_write_len v buf pos : 0 <= pos →
  len (stream_write v (buf, pos)).1 = if len v =? 0 then len buf else Z.max (len buf) (pos + len v).
Proof.
  intros Hp. unfold stream_write. destruct (Z.eqb_spec (len v) 0) as [E|Hv]; [done|]. cbn [fst].
  unfold len in *. rewrite !length_app, length_take, length_drop, length_app, length_replicate. lia.
Qed.

Lemma stream_write_lookup v buf pos i : 0 <= pos →
  default 0 ((stream_write v (buf, pos)).1 !! i) =
  default 0 (if bool_decide (pos <= Z.of_nat i < pos + len v) then v !! Z.to_nat (Z.of_nat i - pos) else buf !! i).
Proof.
  intros Hp. unfold stream_write. destruct (Z.eqb_spec (len v) 0) as [E|Hv]; cbn [fst].
  { rewrite bool_decide_false by lia. done. }
  unfold len in *. set (z := replicate _ 0).
  assert (Hz : length (buf ++ z) = Nat.max (length buf) (Z.to_nat pos)) by (unfold z; rewrite length_app, length_replicate; lia).
  assert (∀ j, default 0 ((buf ++ z) !! j) = default 0 (buf !! j)) as Hgap.
  { intros j. destruct (decide (j < length buf)%nat); [by rewrite lookup_app_l|].
    rewrite lookup_app_r, (lookup_ge_None_2 buf) by lia. unfold z.
    destruct (replicate _ 0 !! (j - length buf)%nat) as [x|] eqn:Ex; [|done]. by apply lookup_replicate in Ex as [-> _]. }
  rewrite lookup_app, length_take, Hz, Nat.min_l by lia. case_bool_decide as Hi.
  - rewrite lookup_take_ge by lia. rewrite lookup_app_l by lia. f_equal. f_equal. lia.
  - destruct (decide (i < Z.to_nat pos)%nat) as [Hl|Hl].
    + rewrite lookup_take_lt by done. rewrite <- Hgap. destruct ((buf ++ z) !! i) eqn:Ei; [done|].
      apply lookup_ge_None in Ei. lia.
    + rewrite lookup_take_ge by lia. rewrite lookup_app_r by lia. rewrite lookup_drop. rewrite <- Hgap. f_equal. f_equal. lia.
Qed.

Lemma painted_default cs (o o' : option Z) i : default 0 o = default 0 o' →
  let step := λ o (c : Z * bytes), if bool_decide (c.1 <= Z.of_nat i < c.1 + len c.2) then c.2 !! Z.to_nat (Z.of_nat i - c.1) else o in
  default 0 (foldl step o cs) = default 0 (foldl step o' cs).
Proof.
  revert o o'. induction cs as [|c cs IH]; intros o o' E; [done|]. cbn in *. apply IH. by case_bool_decide.
Qed.

Lemma fill_stream_painted l buf pos : Forall content_entry l → 0 <= pos →
  ∃ c, fill_stream l (buf, pos) = Ok (Some (Content c)) ∧ len c = extent (chunks pos l) (len buf) ∧
       ∀ i, default 0 (c !! i) = default 0 (painted (chunks pos l) buf i).
Proof.
  intros Hl. revert buf pos. induction Hl as [|[k v] l He _ IH]; intros buf pos Hp; [by exists buf|].
  cbn [fill_stream]. destruct v as [|z| |w| | |d]; try done; unfold content_entry in He; cbn [fst snd] in He.
  - destruct He as [-> Hz]. rewrite (bool_decide_false (lit "fillFileOffset" = lit "doNotCreate")),
      (bool_decide_false (lit "fillFileOffset" = lit "fileDescriptor")), bool_decide_ok by done.
    cbn [as_int]. mrun. cbn [chunks]. unfold stream_seek. cbn [fst snd]. rewrite Z.max_r by lia. apply IH. lia.
  - subst k. rewrite (bool_decide_false (lit "fillFileContent" = lit "doNotCreate")),
      (bool_decide_false (lit "fillFileContent" = lit "fileDescriptor")),
      (bool_decide_false (lit "fillFileContent" = lit "fillFileOffset")), bool_decide_ok by done.
    cbn [as_bytes]. mrun. pose proof (stream_write_pos w buf pos) as E.
    destruct (stream_write w (buf, pos)) as [buf' pos'] eqn:Es. cbn [snd] in E. subst pos'.
    pose proof (stream_write_len w buf pos Hp) as El. rewrite Es in El. cbn [fst] in El.
    destruct (IH buf' (pos + len w)) as (c & Hc & Hn & Hi); [pose proof (len_nonneg w); lia|].
    exists c. split; [done|]. split.
    + rewrite Hn, El. cbn [chunks extent foldl fst snd]. done.
    + intros i. rewrite Hi. unfold painted. cbn [chunks foldl fst snd]. apply painted_default.
      rewrite <- stream_write_lookup by done. by rewrite Es.
  - subst k. rewrite (bool_decide_false (lit "fileDescriptor" = lit "doNotCreate")), bool_decide_ok by done.
    by apply IH.
Qed.

(** C35: the content of a file is its fill pattern or template default with the
    listed contents written over it one after the other: every byte is
    that of the last content that covers its position, else the initial one,
    else zero, and the content ends where the furthest write ends. *)
Theorem file_content_spec `{OsmocomUtils} `{Construct} f l ini :
  initial_content f = Ok ini → Forall content_entry l →
  ∃ c, file_content_from_tuples f l = Ok (Some (Content c)) ∧ len c = extent (chunks 0 l) (len ini) ∧
       ∀ i, default 0 (c !! i) = default 0 (painted (chunks 0 l) ini i).
Proof.
  intros Hi Hl. unfold file_content_from_tuples. rewrite Hi. mrun. rewrite stream_write_new.
  by apply fill_stream_painted.
Qed.

Lemma fill_stream_app l l' s :
  Forall content_entry l → 0 <= s.2 → ∃ s', fill_stream (l ++ l') s = fill_stream l' s' ∧ 0 <= s'.2.
Proof.
  intros Hl. revert s. induction Hl as [|[k v] l He _ IH]; intros s Hs; [by exists s|]. cbn [app fill_stream].
  destruct v as [|z| |w| | |d]; try done; unfold content_entry in He; cbn [fst snd] in He; [destruct He as [-> Hz]|subst k..].
  - rewrite (bool_decide_false (lit "fillFileOffset" = lit "doNotCreate")),
      (bool_decide_false (lit "fillFileOffset" = lit "fileDescriptor")), bool_decide_ok by done.
    cbn [as_int]. mrun. apply IH. cbn. lia.
  - rewrite (bool_decide_false (lit "fillFileContent" = lit "doNotCreate")),
      (bool_decide_false (lit "fillFileContent" = lit "fileDescriptor")),
      (bool_decide_false (lit "fillFileContent" = lit "fillFileOffset")), bool_decide_ok by done.
    cbn [as_bytes]. mrun. destruct s as [buf pos]. apply IH. rewrite stream_write_pos. cbn in Hs. pose proof (len_nonneg w). lia.
  - rewrite (bool_decide_false (lit "fileDescriptor" = lit "doNotCreate")), bool_decide_ok by done. by apply IH.
Qed.

(** An entry of another name is not rejected: the exception is the
    return value, and the file gets it as its body; a file of a template that
    is not to be created has no body. *)
Theorem unknown_entry_body `{OsmocomUtils} `{Construct} pename t n l k v l' ini a :
  to_bytes 1 (t_arr t) = Ok a → initial_content (set_template_attrs t a (new_file pename (Some t) n)) = Ok ini →
  Forall content_entry l → Forall (λ e, e.1 ≠ lit "fileDescriptor") l →
  get_tuplelist_item l' (lit "fileDescriptor") = None → k ≠ lit "fileDescriptor" →
  k ∉ [lit "fillFileOffset"; lit "fillFileContent"] →
  ∃ f, File_init pename (Some (l ++ (k, v) :: l')) (Some t) n = Ok f ∧
       body f = if bool_decide (k = lit "doNotCreate") then None else Some AnException.
Proof.
  intros Ha Hini Hl Hnf Hl' Hk Hk2. unfold File_init, from_template. cbn [template_derived new_file negb]. rewrite Ha. mrun.
  assert (∀ A (x : A) y, match l ++ (k, v) :: l' with [] => x | _ :: _ => y end = y) as Hne by (by destruct l).
  assert (get_tuplelist_item (l ++ (k, v) :: l') (lit "fileDescriptor") = None) as Hg.
  { clear Hl. induction Hnf as [|[k' v'] l Hx _ IH]; cbn in *; [by rewrite bool_decide_false|].
    rewrite bool_decide_false by done. apply IH. intros. by destruct l. }
  destruct (l ++ (k, v) :: l') as [|e es] eqn:El; [by destruct l|]. unfold from_tuples. rewrite !M_bind_eq. unfold get.
  rewrite Hg. mrun. cbn [template_derived set_template_attrs]. mrun.
  unfold file_content_from_tuples. rewrite Hini. mrun. rewrite stream_write_new, <- El.
  destruct (fill_stream_app l ((k, v) :: l') (ini, 0) Hl) as (s' & -> & _); [done|]. cbn [fill_stream].
  case_bool_decide as Hd; mrun; [by eexists|]. rewrite !bool_decide_false by set_solver. mrun. by eexists.
Qed.

(** ** The paths of generic file management *)

Lemma path_from_gfm_cons a b r : path_from_gfm (a :: b :: r) = from_bytes [a; b] :: path_from_gfm r.
Proof.
  unfold path_from_gfm. cbn [length]. replace (S (S (length r)) + 1)%nat with (S (S (length r + 1))) by lia. cbn [Nat.div2].
  cbn [seq map]. f_equal. rewrite <- seq_shift, map_map. apply map_ext. intros i. unfold slice.
  replace (2 * S i)%nat with (S (S (2 * i))) by lia. cbn [drop]. by do 2 f_equal.
Qed.

Lemma path_gfm_round_trip p b : path_to_gfm p = Ok b → path_from_gfm b = p.
Proof.
  unfold path_to_gfm. intros E. inv_ok. revert x H. induction p as [|z p IH]; intros x E.
  - by injection E as <-.
  - cbn [map_r] in E. inv_ok. cbn [concat]. unfold to_bytes in *. inv_ok.
    case_bool_decide as Hz; [|done]. simplify_eq.
    assert (∃ a b, be 2 z = [a; b]) as (a & b & Eb) by (unfold be; cbn; eauto).
    rewrite Eb. cbn [app]. rewrite path_from_gfm_cons, <- Eb, from_bytes_be by done. f_equal. by apply IH.
Qed.

(** ** Concrete files *)

Module SaipRun.
Import Ref.

Definition dec (a : string) (v : value) : result value :=
  if String.eqb a "BerTlvAdapter" then BerTlvAdapter_decode v else Ok v.
Definition enc (a : string) (v : value) : result value :=
  if String.eqb a "BerTlvAdapter" then BerTlvAdapter_encode v else Ok v.

#[export] Instance con : Construct := RefConstruct.ref dec enc.
#[export] Instance con_laws : ConstructLaws := RefConstruct.ref_laws dec enc.
#[export] Instance ber_tlv : BerTlvAdapter.
Proof. by split. Defined.

(** A linear fixed file as the templates declare them, with its number of records left open. *)
Definition template_lf : FileTemplate :=
  {| t_fid := Some 0x6f3b; t_name := lit "EF.FDN"; t_pe_name := lit "ef-fdn"; t_file_type := FT_LF; t_nb_rec := None;
     t_rec_len := Some 4; t_file_size := None; t_arr := 8; t_sfi := None; t_default_val := Some (lit "FF...FF");
     t_default_val_repeat := true; t_content_rqd := Some false; t_params := None; t_ass_serv := None;
     t_high_update := false; t_ppath := [] |}.

Definition file_lf : File :=
  set_body (Some (Content [1; 2; 3; 4; 5; 6; 7; 8]))
    (set_sizes (Some 4) (Some 2) (Some 8) (set_template_attrs template_lf [8] (new_file (Some (lit "ef-fdn")) (Some template_lf) None))).

(** The same with one record, and a file derived from it that has two. *)
Definition template_one : FileTemplate :=
  {| t_fid := Some 0x6f3b; t_name := lit "EF.FDN"; t_pe_name := lit "ef-fdn"; t_file_type := FT_LF; t_nb_rec := Some 1;
     t_rec_len := Some 4; t_file_size := None; t_arr := 8; t_sfi := None; t_default_val := Some (lit "FF...FF");
     t_default_val_repeat := true; t_content_rqd := Some false; t_params := None; t_ass_serv := None;
     t_high_update := false; t_ppath := [] |}.

Definition file_two : File :=
  set_body (Some (Content [1; 2; 3; 4; 5; 6; 7; 8]))
    (set_sizes (Some 4) (Some 2) (Some 8) (set_template_attrs template_one [8] (new_file (Some (lit "ef-fdn")) (Some template_one) None))).

(** One byte at position 2, one six bytes behind it. *)
Definition patches : tuples :=
  [(lit "fillFileOffset", VInt 2); (lit "fillFileContent", VBytes [1]); (lit "fillFileOffset", VInt 6);
   (lit "fillFileContent", VBytes [7])].
End SaipRun.

Import Ref SaipRun.

Lemma file_lf_encodable : encodable template_lf file_lf.
Proof.
  split; cbn; try done; try lia; try (by left); naive_solver lia.
Qed.


Example to_tuples_run :
  to_tuples file_lf =
  Ok [(lit "fileDescriptor", VDict [("efFileSize", VBytes [8]); ("fileDescriptor", VBytes [0x42; 0x21; 0; 4])]%string);
      (lit "fillFileContent", VBytes [1; 2; 3; 4; 5; 6; 7; 8])].
Proof. by vm_compute. Qed.

Lemma file_content_spec_witness :
  ∃ c, file_content_from_tuples file_lf patches = Ok (Some (Content c)) ∧
       len c = 10 ∧ ∀ i, default 0 (c !! i) = default 0 (painted [(2, [1]); (9, [7])] (replicate 8 0xff) i).
Proof.
  apply (file_content_spec file_lf patches (replicate 8 0xff)); [by vm_compute|].
  repeat (constructor; [by vm_compute|]). constructor.
Defined.

Lemma unknown_entry_body_witness :
  ∃ f, File_init None (Some ([] ++ (lit "fillFileContents", VBytes [1]) :: [])) (Some template_one) None = Ok f ∧
       body f = Some AnException.
Proof.
  apply (unknown_entry_body None template_one None [] (lit "fillFileContents") (VBytes [1]) [] (replicate 4 0xff) [8]);
    try (by vm_compute); try constructor.
  by apply (bool_decide_eq_false (_ ∈ _)).
Defined.

(** The number of records is not written: next to a template that has one,
    a file of two records comes back with one. *)
Example record_count_lost :
  ∃ l f', to_tuples file_two = Ok l ∧ File_init (Some (lit "ef-fdn")) (Some l) (Some template_one) None = Ok f' ∧
          nb_rec file_two = Some 2 ∧ nb_rec f' = Some 1.
Proof. do 2 eexists. split; [by vm_compute|]. split; [by vm_compute|]. done. Qed.
