(* ===== verification/SaipTree.v ===== *)
(** pySim/esim/saip/__init__.py, the classes FsNode, FsNodeEF, FsNodeDF,
    FsNodeADF and FsNodeMF: the tree of directories and files that the
    profile elements of a profile build up, with its paths and lookups. *)

From S2P Require Import Prelude Osmocom Construct Oid Filesystem Templates SaipFile.

Inductive node_kind := NodeEF | NodeDF | NodeADF (df_name : option bytes) | NodeMF.

(** [own_node_name] is [_name]; [node_children] and [children_by_name] are the
    dicts of the code, in insertion order. *)
Record FsNode := {
  kind : node_kind;
  node_fid : option Z;
  node_file : option nat;
  node_parent : option nat;
  own_node_name : option str;
  node_children : list (option Z * nat);
  children_by_name : list (str * nat) }.

(** The nodes and the files; an object is its position. *)
Record tree := { nodes : list FsNode; tree_files : list File }.
Abbreviation T := (M tree).

Definition is_dir (k : node_kind) : bool := match k with NodeEF => false | _ => true end.

Definition node_at (t : tree) (i : nat) : result FsNode := from_opt AttributeError (nodes t !! i).
Definition file_at (t : tree) (i : nat) : result File := from_opt AttributeError (tree_files t !! i).

(** The attributes [children] and [children_by_name] of a directory. *)
Definition dir_at (t : tree) (i : nat) : result FsNode :=
  n ← node_at t i; guard_else (is_dir (kind n)) AttributeError;; Ok n.

Definition set_node_parent (p : option nat) (n : FsNode) : FsNode :=
  {| kind := kind n; node_fid := node_fid n; node_file := node_file n; node_parent := p;
     own_node_name := own_node_name n; node_children := node_children n; children_by_name := children_by_name n |}.

Definition set_node_children (c : list (option Z * nat)) (b : list (str * nat)) (n : FsNode) : FsNode :=
  {| kind := kind n; node_fid := node_fid n; node_file := node_file n; node_parent := node_parent n;
     own_node_name := own_node_name n; node_children := c; children_by_name := b |}.

Definition set_nodes (n : list FsNode) (t : tree) : tree := {| nodes := n; tree_files := tree_files t |}.
Definition set_files (f : list File) (t : tree) : tree := {| nodes := nodes t; tree_files := f |}.

Definition node_name (n : FsNode) : result str :=
  match filled (own_node_name n) with
  | Some s => Ok s
  | None => fid ← from_opt TypeError (node_fid n); Ok (fmt_X 4 fid)
  end.

(** ** Paths *)

Section paths.
Context (t : tree).

(** No way up is longer than the number of nodes. *)
Definition enough_nodes : nat := S (length (nodes t)).

Fixpoint fid_path_fuel (fuel : nat) (i : nat) : result (list (option Z)) :=
  match fuel with
  | O => Err OutOfFuel
  | S n =>
      x ← node_at t i;
      match node_parent x with
      | Some p => if decide (p = i) then Ok [node_fid x] else l ← fid_path_fuel n p; Ok (l ++ [node_fid x])
      | None => Ok [node_fid x]
      end
  end.
Definition fid_path (i : nat) : result (list (option Z)) := fid_path_fuel enough_nodes i.

Fixpoint name_path_fuel (fuel : nat) (i : nat) : result (list str) :=
  match fuel with
  | O => Err OutOfFuel
  | S n =>
      x ← node_at t i;
      match node_parent x with
      | Some p =>
          if decide (p = i) then s ← node_name x; Ok [s]
          else l ← name_path_fuel n p; s ← node_name x; Ok (l ++ [s])
      | None => s ← node_name x; Ok [s]
      end
  end.
Definition name_path (i : nat) : result (list str) := name_path_fuel enough_nodes i.

Fixpoint root_fuel (fuel : nat) (i : nat) : result nat :=
  match fuel with
  | O => Err OutOfFuel
  | S n =>
      x ← node_at t i;
      p ← from_opt AttributeError (node_parent x);
      if decide (p = i) then Ok i else root_fuel n p
  end.
(** The property [mf] *)
Definition root (i : nat) : result nat := root_fuel enough_nodes i.

(** [while len(path) and path[0] == 0x3f00: path.pop(0)] *)
Fixpoint strip_mf (path : list Z) : list Z :=
  match path with
  | [] => []
  | p :: path' => if p =? 0x3f00 then strip_mf path' else path
  end.

Fixpoint descend (cur : nat) (path : list Z) : result nat :=
  match path with
  | [] => Ok cur
  | d :: path' =>
      n ← dir_at t cur;
      c ← from_opt KeyError (kv_get (Some d) (node_children n));
      descend c path'
  end.
Definition lookup_by_fidpath (self : nat) (path : list Z) : result nat :=
  cur ← root self; descend cur (strip_mf path).

Fixpoint descend_names (cur : nat) (path : list str) : result nat :=
  match path with
  | [] => Ok cur
  | d :: path' =>
      n ← dir_at t cur;
      c ← from_opt KeyError (kv_get d (children_by_name n));
      descend_names c path'
  end.
Definition lookup_by_path (self : nat) (path : Path) : result nat :=
  cur ← root self; descend_names cur (relative_to_mf path).

(** [__getitem__] *)
Inductive node_key := KeyFid (fid : Z) | KeyName (name : str).
Definition get_child (self : nat) (fid : node_key) : result nat :=
  n ← dir_at t self;
  match fid with
  | KeyName s => from_opt KeyError (kv_get s (children_by_name n))
  | KeyFid z => from_opt KeyError (kv_get (Some z) (node_children n))
  end.

Fixpoint walk_fuel {A} (fn : nat → result A) (fuel : nat) (i : nat) : result (list A) :=
  match fuel with
  | O => Err OutOfFuel
  | S n =>
      a ← fn i;
      x ← node_at t i;
      if is_dir (kind x) then l ← map_r (walk_fuel fn n) (node_children x).*2; Ok (a :: concat l) else Ok [a]
  end.
Definition walk {A} (fn : nat → result A) (i : nat) : result (list A) := walk_fuel fn enough_nodes i.
End paths.

(** ** Growing the tree *)

(** [add_child]; the second parent of a node is refused, a second node with
    the identifier or the name of another takes its place. *)
Definition add_child (self child : nat) : T unit :=
  t ← get;
  n ← lift (dir_at t self);
  c ← lift (node_at t child);
  lift (guard_else (bool_decide (node_parent c = None)) ValueError);;
  s ← lift (node_name c);
  modify (set_nodes (<[self := set_node_children (kv_set (node_fid c) child (node_children n))
                                                 (kv_set s child (children_by_name n)) n]> (nodes t)));;
  t ← get;
  c ← lift (node_at t child);
  modify (set_nodes (<[child := set_node_parent (Some self) c]> (nodes t))).

(** [FsNode.__init__]; [FsNodeDF] makes its dicts after that. The object is
    in the heap before its parent gets it. *)
Definition FsNode_init (k : node_kind) (fid : option Z) (parent file : option nat) (name : option str) : T nat :=
  t ← get;
  file_name ← (match file with Some f => x ← lift (file_at t f); mret (SaipFile.name x) | None => mret None end);
  let i := length (nodes t) in
  let n := {| kind := k; node_fid := fid; node_file := file; node_parent := None;
              own_node_name := match filled name with Some s => Some s | None =>
                                 match filled file_name with Some s => Some s | None => name end end;
              node_children := []; children_by_name := [] |} in
  modify (set_nodes (nodes t ++ [n]));;
  (match parent with Some p => add_child p i | None => mret () end);;
  mret i.

Definition FsNodeMF_init (file : option nat) : T nat :=
  i ← FsNode_init NodeMF (Some 0x3f00) None file (Some (lit "MF"));
  t ← get;
  n ← lift (node_at t i);
  modify (set_nodes (<[i := set_node_parent (Some i) n]> (nodes t)));;
  mret i.

(** [file.node = i] *)
Definition link_file_node (f i : nat) : T unit :=
  t ← get;
  x ← lift (file_at t f);
  modify (set_files (<[f := set_node (Some i) x]> (tree_files t))).

Definition node_add_file (self f : nat) : T nat :=
  t ← get;
  x ← lift (file_at t f);
  lift (guard_else (bool_decide (node x = None)) ValueError);;
  match file_type x with
  | Some FT_TR | Some FT_LF | Some FT_CY | Some FT_BT =>
      i ← FsNode_init NodeEF (fid x) (Some self) (Some f) None;
      link_file_node f i;; mret self
  | Some FT_DF =>
      i ← FsNode_init NodeDF (fid x) (Some self) (Some f) None;
      link_file_node f i;; mret i
  | Some FT_ADF =>
      mf ← lift (root t self);
      i ← FsNode_init (NodeADF (df_name x)) (fid x) (Some mf) (Some f) None;
      link_file_node f i;; mret i
  | _ => raise ValueError
  end.

(** [ProfileElementSequence.cd]: the loop, from the MF. *)
Fixpoint cd_from (t : tree) (df : nat) (path : list Z) : result nat :=
  match path with
  | [] => Ok df
  | p :: path' =>
      n ← dir_at t df;
      c ← from_opt ValueError (kv_get (Some p) (node_children n));
      x ← node_at t c;
      guard_else (is_dir (kind x)) ValueError;;
      cd_from t c path'
  end.

(** ** The tree is well formed *)

(** Objects are made with their parent in the tree, so a parent is older than
    its children; only an MF is its own parent. What a directory lists under
    a key has that key and this parent. An object whose constructor failed
    has no parent and is not listed. *)
Record node_ok (t : tree) (i : nat) (n : FsNode) : Prop := {
  ok_parent p : node_parent n = Some p →
    (p = i ∧ kind n = NodeMF ∧ node_fid n = Some 0x3f00) ∨
    (p < i)%nat ∧ ∃ d, nodes t !! p = Some d ∧ is_dir (kind d) = true ∧ is_Some (node_parent d);
  ok_named : is_Some (node_parent n) → ∃ s, node_name n = Ok s;
  ok_child k c : kv_get k (node_children n) = Some c →
    ∃ x, nodes t !! c = Some x ∧ node_parent x = Some i ∧ (i < c)%nat ∧ node_fid x = k;
  ok_child_name s c : kv_get s (children_by_name n) = Some c →
    ∃ x, nodes t !! c = Some x ∧ node_parent x = Some i ∧ (i < c)%nat ∧ node_name x = Ok s;
  ok_keys : NoDup (node_children n).*1;
  ok_leaf : is_dir (kind n) = false ∨ node_parent n = None → node_children n = [] ∧ children_by_name n = [] }.

Definition tree_ok (t : tree) : Prop := ∀ i n, nodes t !! i = Some n → node_ok t i n.

(** A node that is in the tree. *)
Definition in_tree (t : tree) (i : nat) : Prop := ∃ n, nodes t !! i = Some n ∧ is_Some (node_parent n).

Lemma kv_set_keys {K V} `{EqDecision K} (k : K) (v : V) d :
  (kv_set k v d).*1 = if decide (k ∈ d.*1) then d.*1 else d.*1 ++ [k].
Proof.
  induction d as [|[k1 v1] d IH]; [done|]. cbn [kv_set].
  destruct (decide (k = k1)) as [->|Hk]; rewrite !fmap_cons; cbn [fst].
  - rewrite decide_True; [done|]. by left.
  - rewrite IH. destruct (decide (k ∈ d.*1)) as [Hin|Hin].
    + rewrite decide_True; [done|]. by right.
    + rewrite decide_False; [done|]. by intros [->|]%elem_of_cons.
Qed.

Lemma kv_set_nodup {K V} `{EqDecision K} (k : K) (v : V) d : NoDup d.*1 → NoDup (kv_set k v d).*1.
Proof.
  intros Hd. rewrite kv_set_keys. destruct (decide _); [done|]. apply list.NoDup_app. split; [done|].
  split; [by intros x Hx ->%list_elem_of_singleton|apply list.NoDup_singleton].
Qed.

Lemma kv_get_iff {K V} `{EqDecision K} (k : K) (v : V) d : NoDup d.*1 → (k, v) ∈ d ↔ kv_get k d = Some v.
Proof. intros Hd. split; [by apply kv_get_nodup|apply kv_get_in]. Qed.

Section total.
Context (t : tree) (Ht : tree_ok t).

Lemma node_at_some i n : nodes t !! i = Some n → node_at t i = Ok n.
Proof. unfold node_at. by intros ->. Qed.

Lemma parent_ok i n p : nodes t !! i = Some n → node_parent n = Some p →
  (p = i ∧ kind n = NodeMF ∧ node_fid n = Some 0x3f00) ∨
  (p < i)%nat ∧ ∃ d, nodes t !! p = Some d ∧ is_dir (kind d) = true ∧ is_Some (node_parent d).
Proof. intros Hn. by apply (ok_parent _ _ _ (Ht _ _ Hn)). Qed.

Lemma in_tree_ind (P : nat → FsNode → Prop) :
  (∀ i n, nodes t !! i = Some n → node_parent n = Some i → P i n) →
  (∀ i n p d, nodes t !! i = Some n → node_parent n = Some p → (p < i)%nat → nodes t !! p = Some d → P p d → P i n) →
  ∀ i n, nodes t !! i = Some n → is_Some (node_parent n) → P i n.
Proof.
  intros Hr Hs i. induction i as [i IH] using lt_wf_ind. intros n Hn [p Hp].
  destruct (parent_ok _ _ _ Hn Hp) as [(-> & _)|(Hlt & d & Hd & _ & Hpd)]; [by apply Hr|].
  eapply Hs; eauto.
Qed.

(** More fuel than the position changes nothing. *)
Lemma fid_path_fuel_ok i n : nodes t !! i = Some n → is_Some (node_parent n) →
  ∃ l, ∀ fuel, (i < fuel)%nat → fid_path_fuel t fuel i = Ok l.
Proof.
  revert i n. apply (in_tree_ind (λ i n, ∃ l, ∀ fuel, (i < fuel)%nat → fid_path_fuel t fuel i = Ok l)).
  - intros i n Hn Hp. exists [node_fid n]. intros [|fuel] Hf; [lia|]. cbn. rewrite (node_at_some _ _ Hn). mrun.
    by rewrite Hp, decide_True.
  - intros i n p d Hn Hp Hlt Hd [l IH]. exists (l ++ [node_fid n]). intros [|fuel] Hf; [lia|]. cbn.
    rewrite (node_at_some _ _ Hn). mrun. rewrite Hp, decide_False, IH by lia. done.
Qed.

Lemma root_fuel_ok i n : nodes t !! i = Some n → is_Some (node_parent n) →
  ∃ m x, nodes t !! m = Some x ∧ node_parent x = Some m ∧ ∀ fuel, (i < fuel)%nat → root_fuel t fuel i = Ok m.
Proof.
  revert i n. apply (in_tree_ind (λ i n, ∃ m x, nodes t !! m = Some x ∧ node_parent x = Some m ∧ ∀ fuel, (i < fuel)%nat → root_fuel t fuel i = Ok m)).
  - intros i n Hn Hp. exists i, n. split_and!; [done|done|]. intros [|fuel] Hf; [lia|]. cbn. rewrite (node_at_some _ _ Hn). mrun.
    rewrite Hp. mrun. by rewrite decide_True.
  - intros i n p d Hn Hp Hlt Hd (m & x & Hm & Hx & IH). exists m, x. split_and!; [done|done|]. intros [|fuel] Hf; [lia|]. cbn.
    rewrite (node_at_some _ _ Hn). mrun. rewrite Hp. mrun. rewrite decide_False, IH by lia. done.
Qed.

Lemma name_path_fuel_ok i n : nodes t !! i = Some n → is_Some (node_parent n) →
  ∃ l, ∀ fuel, (i < fuel)%nat → name_path_fuel t fuel i = Ok l.
Proof.
  revert i n. apply (in_tree_ind (λ i n, ∃ l, ∀ fuel, (i < fuel)%nat → name_path_fuel t fuel i = Ok l)).
  - intros i n Hn Hp. destruct (ok_named _ _ _ (Ht _ _ Hn)) as [s Hs]; [by eexists|].
    exists [s]. intros [|fuel] Hf; [lia|]. cbn. rewrite (node_at_some _ _ Hn). mrun.
    by rewrite Hp, decide_True, Hs.
  - intros i n p d Hn Hp Hlt Hd [l IH]. destruct (ok_named _ _ _ (Ht _ _ Hn)) as [s Hs]; [by eexists|].
    exists (l ++ [s]). intros [|fuel] Hf; [lia|]. cbn.
    rewrite (node_at_some _ _ Hn). mrun. rewrite Hp, decide_False, IH by lia. mrun. by rewrite Hs.
Qed.

Lemma fid_path_total i : in_tree t i → ∃ l, fid_path t i = Ok l ∧ ∀ fuel, (i < fuel)%nat → fid_path_fuel t fuel i = Ok l.
Proof.
  intros (n & Hn & Hp). destruct (fid_path_fuel_ok _ _ Hn Hp) as [l Hl]. exists l. split; [|done].
  apply Hl. unfold enough_nodes. apply lookup_lt_Some in Hn. lia.
Qed.

Lemma root_total i : in_tree t i → ∃ m x, nodes t !! m = Some x ∧ node_parent x = Some m ∧ root t i = Ok m ∧
  ∀ fuel, (i < fuel)%nat → root_fuel t fuel i = Ok m.
Proof.
  intros (n & Hn & Hp). destruct (root_fuel_ok _ _ Hn Hp) as (m & x & Hm & Hx & Hr). exists m, x. split_and!; try done.
  apply Hr. unfold enough_nodes. apply lookup_lt_Some in Hn. lia.
Qed.

Lemma fid_path_child i n p : nodes t !! i = Some n → node_parent n = Some p → (p < i)%nat →
  fid_path t i = (l ← fid_path t p; Ok (l ++ [node_fid n])).
Proof.
  intros Hn Hp Hlt. destruct (parent_ok _ _ _ Hn Hp) as [(-> & _)|(_ & d & Hd & _ & Hpd)]; [lia|].
  destruct (fid_path_total p) as (l & -> & Hl); [by exists d|]. mrun. unfold fid_path, enough_nodes. cbn [fid_path_fuel].
  rewrite (node_at_some _ _ Hn). mrun. rewrite Hp, decide_False by lia. rewrite Hl; [done|].
  apply lookup_lt_Some in Hn. lia.
Qed.

Lemma name_path_child i n p : nodes t !! i = Some n → node_parent n = Some p → (p < i)%nat →
  name_path t i = (l ← name_path t p; s ← node_name n; Ok (l ++ [s])).
Proof.
  intros Hn Hp Hlt. destruct (parent_ok _ _ _ Hn Hp) as [(-> & _)|(_ & d & Hd & _ & Hpd)]; [lia|].
  destruct (name_path_fuel_ok _ _ Hd Hpd) as [l Hl].
  assert (name_path t p = Ok l) as -> by (apply Hl; unfold enough_nodes; apply lookup_lt_Some in Hd; lia).
  mrun. unfold name_path, enough_nodes. cbn [name_path_fuel].
  rewrite (node_at_some _ _ Hn). mrun. rewrite Hp, decide_False by lia. rewrite Hl; [done|].
  apply lookup_lt_Some in Hn. lia.
Qed.

Lemma root_child i n p : nodes t !! i = Some n → node_parent n = Some p → (p < i)%nat → root t i = root t p.
Proof.
  intros Hn Hp Hlt. destruct (parent_ok _ _ _ Hn Hp) as [(-> & _)|(_ & d & Hd & _ & Hpd)]; [lia|].
  destruct (root_total p) as (m & x & _ & _ & -> & Hm); [by exists d|]. unfold root, enough_nodes. cbn [root_fuel].
  rewrite (node_at_some _ _ Hn). mrun. rewrite Hp. mrun. rewrite decide_False by lia. apply Hm.
  apply lookup_lt_Some in Hn. lia.
Qed.

Lemma root_paths m x : nodes t !! m = Some x → node_parent x = Some m →
  fid_path t m = Ok [Some 0x3f00] ∧ root t m = Ok m ∧ ∃ s, node_name x = Ok s ∧ name_path t m = Ok [s].
Proof.
  intros Hm Hx. destruct (parent_ok _ _ _ Hm Hx) as [(_ & _ & Hf)|(Hlt & _)]; [|lia].
  destruct (ok_named _ _ _ (Ht _ _ Hm)) as [s Hs]; [by eexists|].
  unfold fid_path, root, name_path, enough_nodes. cbn [fid_path_fuel root_fuel name_path_fuel].
  rewrite (node_at_some _ _ Hm). mrun. rewrite Hx. mrun. rewrite !decide_True, Hf, Hs by done. mrun. eauto.
Qed.

(** ** Looking up *)

Lemma dir_at_ok i n : dir_at t i = Ok n ↔ nodes t !! i = Some n ∧ is_dir (kind n) = true.
Proof.
  unfold dir_at, node_at. destruct (nodes t !! i) as [x|]; [|split; [done|by intros [? _]]]. mrun.
  destruct (is_dir (kind x)) eqn:E; mrun; split; [by intros [= ->]|by intros [[= ->] _]|done|by intros [[= ->] E2]; rewrite E2 in E].
Qed.

Lemma descend_child i n d c : nodes t !! i = Some n → kv_get (Some d) (node_children n) = Some c →
  ∃ x, nodes t !! c = Some x ∧ node_parent x = Some i ∧ (i < c)%nat ∧ node_fid x = Some d.
Proof. intros Hn. by apply (ok_child _ _ _ (Ht _ _ Hn)). Qed.

Lemma descend_path q : ∀ i n l, descend t i q = Ok n → fid_path t i = Ok l →
  fid_path t n = Ok (l ++ map Some q).
Proof.
  induction q as [|d q IH]; intros i n l; cbn [descend map].
  - intros [= ->]. by rewrite app_nil_r.
  - intros (x & Hx%dir_at_ok & (c & Hc%from_opt_ok & Hq)%bind_ok)%bind_ok Hl. destruct Hx as [Hx _].
    destruct (descend_child _ _ _ _ Hx Hc) as (y & Hy & Hyp & Hlt & Hyf).
    replace (l ++ Some d :: map Some q) with ((l ++ [Some d]) ++ map Some q) by by rewrite <- app_assoc.
    apply (IH c); [done|]. by rewrite (fid_path_child _ _ _ Hy Hyp Hlt), Hl, Hyf.
Qed.

Lemma descend_names_path q : ∀ i n l, descend_names t i q = Ok n → name_path t i = Ok l →
  name_path t n = Ok (l ++ q).
Proof.
  induction q as [|d q IH]; intros i n l; cbn [descend_names].
  - intros [= ->]. by rewrite app_nil_r.
  - intros (x & Hx%dir_at_ok & (c & Hc%from_opt_ok & Hq)%bind_ok)%bind_ok Hl. destruct Hx as [Hx _].
    destruct (ok_child_name _ _ _ (Ht _ _ Hx) _ _ Hc) as (y & Hy & Hyp & Hlt & Hyn).
    replace (l ++ d :: q) with ((l ++ [d]) ++ q) by by rewrite <- app_assoc.
    apply (IH c); [done|]. rewrite (name_path_child _ _ _ Hy Hyp Hlt), Hl. mrun. by rewrite Hyn.
Qed.

Lemma strip_mf_again path : strip_mf (strip_mf path) = strip_mf path.
Proof. induction path as [|p path IH]; [done|]. cbn. destruct (p =? 0x3f00) eqn:E; [done|]. cbn. by rewrite E. Qed.

Lemma lookup_paths self path n : in_tree t self → lookup_by_fidpath t self path = Ok n →
  let q := 0x3f00 :: strip_mf path in fid_path t n = Ok (map Some q) ∧ lookup_by_fidpath t self q = Ok n.
Proof.
  intros (m & x & Hm & Hx & Hr & _)%root_total. unfold lookup_by_fidpath. rewrite Hr. mrun. intros Hd.
  cbn [strip_mf]. change (0x3f00 =? 0x3f00) with true. cbn iota. rewrite strip_mf_again. split; [|done].
  destruct (root_paths _ _ Hm Hx) as (Hf & _). by rewrite (descend_path _ _ _ _ Hd Hf).
Qed.

Lemma lookup_name_paths self path n : in_tree t self → lookup_by_path t self path = Ok n →
  ∃ s, name_path t n = Ok (s :: relative_to_mf path).
Proof.
  intros (m & x & Hm & Hx & Hr & _)%root_total. unfold lookup_by_path. rewrite Hr. mrun. intros Hd.
  destruct (root_paths _ _ Hm Hx) as (_ & _ & s & _ & Hs). exists s. by rewrite (descend_names_path _ _ _ _ Hd Hs).
Qed.
End total.

(** ** Adding a file *)

(** The tree after a node [n] with the name [s] was made below [p]. *)
Definition grow (t : tree) (p : nat) (pn n : FsNode) (s : str) : list FsNode :=
  <[p := set_node_children (kv_set (node_fid n) (length (nodes t)) (node_children pn))
                           (kv_set s (length (nodes t)) (children_by_name pn)) pn]> (nodes t) ++ [n].

Section grow.
Context (t : tree) (p : nat) (pn n : FsNode) (s : str) (fs : list File).
Context (Ht : tree_ok t) (Hpn : nodes t !! p = Some pn) (Hdir : is_dir (kind pn) = true) (Hin : is_Some (node_parent pn)).
Context (Hparent : node_parent n = Some p) (Hname : node_name n = Ok s)
        (Hempty : node_children n = [] ∧ children_by_name n = []).

Abbreviation t' := {| nodes := grow t p pn n s; tree_files := fs |}.
Abbreviation new := (length (nodes t)).

Lemma p_lt : (p < new)%nat.
Proof. by apply lookup_lt_Some in Hpn. Qed.

Lemma grow_new : nodes t' !! new = Some n.
Proof. cbn. unfold grow. rewrite lookup_app_r; rewrite length_insert; [|lia]. by rewrite Nat.sub_diag. Qed.

Lemma grow_other c x : nodes t !! c = Some x → c ≠ p → nodes t' !! c = Some x.
Proof.
  intros Hc Hne. cbn. unfold grow. rewrite lookup_app_l by (rewrite length_insert; by apply lookup_lt_Some in Hc).
  by rewrite list_lookup_insert_ne.
Qed.

Lemma grow_parent : nodes t' !! p = Some (set_node_children (kv_set (node_fid n) new (node_children pn))
                                            (kv_set s new (children_by_name pn)) pn).
Proof.
  cbn. unfold grow. pose proof p_lt. rewrite lookup_app_l by by rewrite length_insert.
  rewrite list_lookup_insert_eq by done. done.
Qed.

Lemma grow_old c x : nodes t !! c = Some x →
  ∃ x', nodes t' !! c = Some x' ∧ node_parent x' = node_parent x ∧ node_fid x' = node_fid x ∧
        node_name x' = node_name x ∧ kind x' = kind x.
Proof.
  intros Hc. destruct (decide (c = p)) as [->|Hne].
  - simplify_eq. eexists. split; [apply grow_parent|]. done.
  - exists x. split; [by apply grow_other|]. done.
Qed.

Lemma grow_inv c x : nodes t' !! c = Some x → c = new ∧ x = n ∨ c = p ∨ nodes t !! c = Some x ∧ c ≠ p.
Proof.
  intros Hc. destruct (decide (c = p)) as [|Hne]; [auto|]. destruct (decide (c = new)) as [->|Hnew].
  - rewrite grow_new in Hc. by simplify_eq; left.
  - destruct (nodes t !! c) as [y|] eqn:E; [by rewrite (grow_other c y) in Hc by done; simplify_eq; auto|].
    apply lookup_lt_Some in Hc. cbn in Hc. unfold grow in Hc. rewrite length_app, length_insert in Hc.
    apply lookup_ge_None in E. cbn in Hc. lia.
Qed.

Lemma grow_ok : tree_ok t'.
Proof.
  pose proof p_lt as Hp.
  assert (∀ i k c, (∃ x, nodes t !! c = Some x ∧ node_parent x = Some i ∧ (i < c)%nat ∧ node_fid x = k) →
    ∃ x, nodes t' !! c = Some x ∧ node_parent x = Some i ∧ (i < c)%nat ∧ node_fid x = k) as Hc.
  { intros i k c (x & Hx & Hxp & Hlt & Hk). destruct (grow_old _ _ Hx) as (x' & Hx' & E1 & E2 & _). exists x'.
    split_and!; [done|congruence|done|congruence]. }
  assert (∀ i k c, (∃ x, nodes t !! c = Some x ∧ node_parent x = Some i ∧ (i < c)%nat ∧ node_name x = Ok k) →
    ∃ x, nodes t' !! c = Some x ∧ node_parent x = Some i ∧ (i < c)%nat ∧ node_name x = Ok k) as Hcn.
  { intros i k c (x & Hx & Hxp & Hlt & Hk). destruct (grow_old _ _ Hx) as (x' & Hx' & E1 & _ & E2 & _). exists x'.
    split_and!; [done|congruence|done|congruence]. }
  assert (∀ q, (∃ d, nodes t !! q = Some d ∧ is_dir (kind d) = true ∧ is_Some (node_parent d)) →
    ∃ d, nodes t' !! q = Some d ∧ is_dir (kind d) = true ∧ is_Some (node_parent d)) as Hd.
  { intros q (d & Hd & E1 & E2). destruct (grow_old _ _ Hd) as (d' & Hd' & E3 & _ & _ & E4). exists d'.
    split_and!; [done|congruence|by rewrite E3]. }
  intros i m Hi. destruct (grow_inv _ _ Hi) as [[-> ->]|[->|[Hm Hne]]].
  - destruct Hempty as [E1 E2]. split; rewrite ?E1, ?E2; try done; [|by exists s|by apply list.NoDup_nil].
    intros q Hq. right. rewrite Hparent in Hq. injection Hq as <-. split; [done|]. apply Hd. by exists pn.
  - rewrite grow_parent in Hi. injection Hi as <-. destruct (Ht _ _ Hpn) as [P1 P2 P3 P4 P5 P6]. split; cbn.
    + intros q Hq. destruct (P1 _ Hq) as [?|[? ?]]; [by left|]. right. split; [done|]. by apply Hd.
    + done.
    + intros k c. rewrite kv_get_set. destruct (decide (k = node_fid n)) as [->|]; [|by eauto].
      intros [= <-]. exists n. split_and!; [apply grow_new|done|done|done].
    + intros k c. rewrite kv_get_set. destruct (decide (k = s)) as [->|]; [|by eauto].
      intros [= <-]. exists n. split_and!; [apply grow_new|done|done|done].
    + by apply kv_set_nodup.
    + intros [E|E]; [by rewrite E in Hdir|]. rewrite E in Hin. by destruct Hin.
  - destruct (Ht _ _ Hm) as [P1 P2 P3 P4 P5 P6]. split; eauto.
    intros q Hq. destruct (P1 _ Hq) as [?|[? ?]]; [by left|]. right. split; [done|]. by apply Hd.
Qed.

Lemma grow_fid_path_new : fid_path t' new = (l ← fid_path t' p; Ok (l ++ [node_fid n])).
Proof. apply fid_path_child; [apply grow_ok|apply grow_new|done|apply p_lt]. Qed.

Lemma grow_paths i : in_tree t i → fid_path t' i = fid_path t i ∧ name_path t' i = name_path t i ∧ root t' i = root t i.
Proof.
  intros (x & Hx & Hp). revert i x Hx Hp.
  apply (in_tree_ind t Ht (λ i x, fid_path t' i = fid_path t i ∧ name_path t' i = name_path t i ∧ root t' i = root t i)).
  - intros i x Hi Hp. destruct (grow_old _ _ Hi) as (x' & Hx' & E1 & _ & E3 & _).
    destruct (root_paths t Ht _ _ Hi Hp) as (-> & -> & s1 & Hs1 & ->).
    destruct (root_paths t' grow_ok _ _ Hx') as (-> & -> & s2 & Hs2 & ->); [congruence|].
    rewrite E3, Hs1 in Hs2. by simplify_eq.
  - intros i x q d Hi Hq Hlt Hd (E1 & E2 & E3). destruct (grow_old _ _ Hi) as (x' & Hx' & F1 & F2 & F3 & _).
    rewrite Hq in F1.
    rewrite (fid_path_child t Ht _ _ _ Hi Hq Hlt), (name_path_child t Ht _ _ _ Hi Hq Hlt), (root_child t Ht _ _ _ Hi Hq Hlt).
    rewrite (fid_path_child t' grow_ok _ _ _ Hx' F1 Hlt), (name_path_child t' grow_ok _ _ _ Hx' F1 Hlt),
      (root_child t' grow_ok _ _ _ Hx' F1 Hlt). by rewrite E1, E2, E3, F2, F3.
Qed.

(** Lookups that do not pass [p] towards the key of the new node. *)
Lemma grow_descend q : ∀ i c, descend t i q = Ok c →
  (∀ q1 k q2, q = q1 ++ k :: q2 → descend t i q1 = Ok p → node_fid n ≠ Some k) → descend t' i q = Ok c.
Proof.
  induction q as [|d q IH]; intros i c; cbn [descend]; [done|].
  intros (x & Hx%dir_at_ok & (y & Hy%from_opt_ok & Hq)%bind_ok)%bind_ok Hno. destruct Hx as [Hx Hk].
  assert (∃ x', dir_at t' i = Ok x' ∧ kv_get (Some d) (node_children x') = Some y) as (x' & -> & Hy').
  { destruct (decide (i = p)) as [->|Hne].
    - simplify_eq. eexists. split; [by apply dir_at_ok; split; [apply grow_parent|]|]. cbn. rewrite kv_get_set, decide_False; [done|].
      intros E. by destruct (Hno [] d q eq_refl eq_refl).
    - exists x. split; [|done]. apply dir_at_ok. split; [by apply grow_other|done]. }
  mrun. rewrite Hy'. mrun. apply IH; [done|]. intros q1 k q2 -> Hq1. apply (Hno (d :: q1) k q2); [done|]. cbn.
  assert (dir_at t i = Ok x) as -> by by apply dir_at_ok. mrun. by rewrite Hy.
Qed.

Lemma descend_older q : ∀ i c, descend t i q = Ok c → (i <= c)%nat ∧ (q ≠ [] → (i < c)%nat).
Proof.
  induction q as [|d q IH]; intros i c; cbn [descend]; [intros [= ->]; split; [lia|done]|].
  intros (x & Hx%dir_at_ok & (y & Hy%from_opt_ok & Hq)%bind_ok)%bind_ok. destruct Hx as [Hx _].
  destruct (descend_child t Ht _ _ _ _ Hx Hy) as (z & _ & _ & Hlt & _). destruct (IH _ _ Hq). lia.
Qed.

Lemma descend_app t1 q1 q2 i : descend t1 i (q1 ++ q2) = (j ← descend t1 i q1; descend t1 j q2).
Proof.
  revert i. induction q1 as [|d q1 IH]; intros i; [done|]. cbn. destruct (dir_at t1 i); [|done]. mrun.
  destruct (kv_get _ _); [|done]. mrun. apply IH.
Qed.

Lemma grow_descend_new i q k : descend t i q = Ok p → node_fid n = Some k → descend t' i (q ++ [k]) = Ok new.
Proof.
  intros Hq Hk. rewrite descend_app, (grow_descend q i p Hq).
  - mrun. cbn. assert (dir_at t' p = Ok (set_node_children (kv_set (node_fid n) new (node_children pn))
      (kv_set s new (children_by_name pn)) pn)) as -> by (apply dir_at_ok; split; [apply grow_parent|done]).
    mrun. cbn. by rewrite kv_get_set, decide_True.
  - intros q1 k' q2 -> Hq1. rewrite descend_app, Hq1 in Hq. revert Hq. mrun. intros Hq.
    apply descend_older in Hq as [_ Hlt]. specialize (Hlt ltac:(done)). lia.
Qed.
End grow.

Definition made (k : node_kind) (fid : option Z) (f : nat) (x : File) (parent : option nat) : FsNode :=
  {| kind := k; node_fid := fid; node_file := Some f; node_parent := parent; own_node_name := filled (SaipFile.name x);
     node_children := []; children_by_name := [] |}.

Lemma made_name k fid f x p :
  node_name (made k fid f x p) =
  match filled (SaipFile.name x), fid with
  | Some s, _ => Ok s
  | None, Some z => Ok (fmt_X 4 z)
  | None, None => Err TypeError
  end.
Proof. unfold node_name, made. cbn. destruct (SaipFile.name x) as [[]|], fid; done. Qed.

(** A node that is not below another: without a parent, or an MF. *)
Lemma snoc_ok t n fs : tree_ok t →
  node_parent n = None ∨
  node_parent n = Some (length (nodes t)) ∧ kind n = NodeMF ∧ node_fid n = Some 0x3f00 ∧ (∃ s, node_name n = Ok s) →
  node_children n = [] → children_by_name n = [] → tree_ok {| nodes := nodes t ++ [n]; tree_files := fs |}.
Proof.
  intros Ht Hn E1 E2 i m Hi. cbn in Hi.
  assert (∀ c x, nodes t !! c = Some x → (nodes t ++ [n]) !! c = Some x) as Hold by (intros; by apply lookup_app_l_Some).
  apply lookup_app_Some in Hi as [Hi|[Hge Hi]].
  - destruct (Ht _ _ Hi) as [P1 P2 P3 P4 P5 P6]. split; cbn; try done.
    + intros p Hm. destruct (P1 _ Hm) as [?|(? & d & Hd & ?)]; [by left|]. right. split; [done|]. exists d. eauto.
    + intros k c Hc. destruct (P3 _ _ Hc) as (y & Hy & ?). exists y. eauto.
    + intros k c Hc. destruct (P4 _ _ Hc) as (y & Hy & ?). exists y. eauto.
  - destruct (i - length (nodes t))%nat as [|k] eqn:Ei; [|done]. injection Hi as <-. split; rewrite ?E1, ?E2; try done; [| |constructor].
    + intros p Hp. left. destruct Hn as [Hn|(Hn & ? & ? & _)]; [congruence|]. split_and!; [|done..].
      rewrite Hn in Hp. injection Hp as <-. lia.
    + intros [p Hp]. destruct Hn as [Hn|(_ & _ & _ & Hn)]; [congruence|done].
Qed.

(** A new MF is a tree of its own. *)
Lemma FsNodeMF_init_spec t f x : tree_ok t → tree_files t !! f = Some x →
  ∃ t', FsNodeMF_init (Some f) t = (Ok (length (nodes t)), t') ∧ tree_ok t' ∧ tree_files t' = tree_files t ∧
        (∃ n, nodes t' = nodes t ++ [n] ∧ kind n = NodeMF ∧ node_parent n = Some (length (nodes t)) ∧ node_file n = Some f).
Proof.
  intros Ht Hf. unfold FsNodeMF_init, FsNode_init. mrun. unfold file_at. rewrite Hf. mrun. unfold node_at. cbn [nodes set_nodes].
  rewrite lookup_app_r, Nat.sub_diag by lia. cbn [list_lookup lookup from_opt]. mrun. eexists. split; [done|].
  rewrite insert_app_r_alt, Nat.sub_diag by lia. cbn [list_insert insert]. split; [|split; [done|eauto 10]].
  apply snoc_ok; [done| |done|done]. right. split_and!; [done..|]. by eexists.
Qed.

Lemma FsNode_init_eq t k fid p pn f x : nodes t !! p = Some pn → is_dir (kind pn) = true → tree_files t !! f = Some x →
  FsNode_init k fid (Some p) (Some f) None t =
  match node_name (made k fid f x None) with
  | Ok s => (Ok (length (nodes t)), set_nodes (grow t p pn (made k fid f x (Some p)) s) t)
  | Err e => (Err e, set_nodes (nodes t ++ [made k fid f x None]) t)
  end.
Proof.
  intros Hp Hd Hf. unfold FsNode_init. mrun. unfold file_at. rewrite Hf. mrun.
  cbn [filled]. assert ({| kind := k; node_fid := fid; node_file := Some f; node_parent := None;
     own_node_name := match filled (SaipFile.name x) with Some s => Some s | None => None end;
     node_children := []; children_by_name := [] |} = made k fid f x None) as -> by (unfold made; f_equal; by destruct (filled _)).
  unfold add_child. mrun. unfold dir_at, node_at. cbn [nodes set_nodes].
  pose proof (lookup_lt_Some _ _ _ Hp) as Hlt.
  rewrite (lookup_app_l (nodes t)), Hp by done. mrun. rewrite Hd. mrun.
  rewrite (lookup_app_r (nodes t)), Nat.sub_diag by lia. cbn [list_lookup lookup from_opt]. mrun. rewrite bool_decide_ok by done. mrun.
  destruct (node_name (made k fid f x None)) as [s|e]; [|done]. mrun. cbn [nodes set_nodes].
  rewrite insert_app_l by done. rewrite lookup_app_r, length_insert, Nat.sub_diag by (rewrite length_insert; lia).
  cbn [list_lookup lookup from_opt]. mrun. unfold set_nodes. cbn [nodes tree_files]. unfold grow. f_equal. f_equal.
  rewrite insert_app_r_alt, length_insert, Nat.sub_diag by (rewrite length_insert; lia). done.
Qed.

(** The tree [t'] is [t] with the file [f] as node [i] below [p]: every former
    path is kept, the node has the path of [p] and the identifier of the file,
    it is found there, and lookups that do not go this way give the same. *)
Record attached (t t' : tree) (p f i : nat) (x : File) (k : node_kind) : Prop := {
  at_new : i = length (nodes t);
  at_ok : tree_ok t';
  at_files : tree_files t' = <[f := set_node (Some i) x]> (tree_files t);
  at_node : ∃ y, nodes t' !! i = Some y ∧ node_file y = Some f ∧ node_parent y = Some p ∧ kind y = k;
  at_kept j : in_tree t j → in_tree t' j ∧ fid_path t' j = fid_path t j;
  at_path : ∃ l, fid_path t p = Ok l ∧ fid_path t' i = Ok (l ++ [fid x]);
  at_found j q z : descend t j q = Ok p → fid x = Some z → descend t' j (q ++ [z]) = Ok i;
  at_same j q c : descend t j q = Ok c →
    (∀ q1 z q2, q = q1 ++ z :: q2 → descend t j q1 = Ok p → fid x ≠ Some z) → descend t' j q = Ok c }.

(** Neither a name nor an identifier: nothing but an object without a parent
    is new. *)
Record nameless (t t' : tree) (x : File) : Prop := {
  nl_name : filled (SaipFile.name x) = None;
  nl_fid : fid x = None;
  nl_ok : tree_ok t';
  nl_files : tree_files t' = tree_files t;
  nl_nodes j y : nodes t !! j = Some y → nodes t' !! j = Some y }.

(** Making the node of a file [x] below a directory of the tree. *)
Lemma made_in_tree t k p pn f x (r : nat → nat) : tree_ok t → nodes t !! p = Some pn → is_dir (kind pn) = true →
  is_Some (node_parent pn) → tree_files t !! f = Some x →
  match (i ← FsNode_init k (fid x) (Some p) (Some f) None; link_file_node f i;; mret (r i)) t with
  | (Ok c, t') => ∃ i, c = r i ∧ attached t t' p f i x k
  | (Err e, t') => e = TypeError ∧ nameless t t' x
  end.
Proof.
  intros Ht Hp Hd Hin Hf. rewrite !M_bind_eq, (FsNode_init_eq t k (fid x) p pn f x Hp Hd Hf).
  destruct (node_name (made k (fid x) f x None)) as [s|e] eqn:En.
  - mrun. unfold link_file_node. mrun. unfold file_at. cbn [tree_files set_nodes]. rewrite Hf. mrun.
    unfold set_files. cbn [nodes tree_files set_nodes].
    set (n := made k (fid x) f x (Some p)). set (fs := <[f := set_node (Some (length (nodes t))) x]> (tree_files t)).
    assert (node_name n = Ok s) as Hn by (rewrite <- En; done).
    pose proof (grow_ok t p pn n s fs Ht Hp Hd Hin eq_refl Hn (conj eq_refl eq_refl)) as Hok.
    exists (length (nodes t)). split; [done|]. split; [done|exact Hok|done| | | | |].
    + exists n. split; [exact (grow_new t p pn n s fs)|]. done.
    + intros j Hj. split; [|by apply (grow_paths t p pn n s fs Ht Hp Hd Hin eq_refl Hn (conj eq_refl eq_refl) j Hj)].
      destruct Hj as (y & Hy & Hyp). destruct (grow_old t p pn n s fs Hp _ _ Hy) as (y' & Hy' & E & _).
      exists y'. by rewrite E.
    + destruct (fid_path_total t Ht p) as (l & El & _); [by exists pn|]. exists l. split; [done|].
      rewrite (grow_fid_path_new t p pn n s fs Ht Hp Hd Hin eq_refl Hn (conj eq_refl eq_refl)).
      rewrite (proj1 (grow_paths t p pn n s fs Ht Hp Hd Hin eq_refl Hn (conj eq_refl eq_refl) p ltac:(by exists pn))), El. done.
    + intros j q z Hq Hz. by apply (grow_descend_new t p pn n s fs Ht Hp Hd).
    + intros j q c Hq Hno. by apply (grow_descend t p pn n s fs Hp).
  - mrun. rewrite made_name in En. destruct (filled (SaipFile.name x)) eqn:E1, (fid x) eqn:E2; try done. injection En as <-.
    split; [done|]. split; try done; [apply snoc_ok; [done|by left|done|done]|]. intros j y Hj. cbn. by apply lookup_app_l_Some.
Qed.

(** Whether [add_file] knows a place for files of this type. *)
Definition placed (x : File) : bool :=
  match file_type x with Some FT_MF | None => false | Some _ => true end.
Definition is_adf_file (x : File) : bool := match file_type x with Some FT_ADF => true | _ => false end.

(** The kind of the node of a file. *)
Definition kind_of (x : File) : node_kind :=
  match file_type x with Some FT_ADF => NodeADF (df_name x) | Some FT_DF => NodeDF | _ => NodeEF end.

(** C21: adding a file to a directory of the tree keeps the tree well formed.
    A file that has a node or no type to place it is refused and nothing
    changes; without name and identifier it is refused as well. Else it hangs
    below the directory, an ADF below the MF, and a directory becomes the
    current one. *)
Theorem node_add_file_spec t d dn f x :
  tree_ok t → nodes t !! d = Some dn → is_dir (kind dn) = true → is_Some (node_parent dn) → tree_files t !! f = Some x →
  match node_add_file d f t with
  | (Ok cur, t') =>
      node x = None ∧ placed x = true ∧
      ∃ p i, (if is_adf_file x then root t d = Ok p else p = d) ∧ attached t t' p f i x (kind_of x) ∧
             cur = if is_dir (kind_of x) then i else d
  | (Err e, t') =>
      (e = ValueError ∧ t' = t ∧ (is_Some (node x) ∨ placed x = false)) ∨ (e = TypeError ∧ nameless t t' x)
  end.
Proof.
  intros Ht Hd Hdir Hin Hf. unfold node_add_file. mrun. unfold file_at. rewrite Hf. mrun.
  destruct (node x) as [i|]; [rewrite bool_decide_false by done; mrun; left; eauto|].
  rewrite bool_decide_ok by done. mrun.
  assert (∀ k p pn (r : nat → nat), nodes t !! p = Some pn → is_dir (kind pn) = true → is_Some (node_parent pn) →
    match (i ← FsNode_init k (fid x) (Some p) (Some f) None; link_file_node f i;; mret (r i)) t with
    | (Ok cur, t') => ∃ i, attached t t' p f i x k ∧ cur = r i
    | (Err e, t') =>
        (e = ValueError ∧ t' = t ∧ (is_Some (@None nat) ∨ placed x = false)) ∨ (e = TypeError ∧ nameless t t' x)
    end) as Hmade.
  { intros k p pn r Hp Hpd Hpin. pose proof (made_in_tree t k p pn f x r Ht Hp Hpd Hpin Hf) as Hm.
    destruct (((_ : T nat) ≫= _) t) as [[c|e] t']; [|auto]. destruct Hm as (i & -> & Ha). eauto. }
  unfold mret, M_ret in Hmade.
  assert (placed x = false → ∀ t', t' = t → (ValueError = ValueError ∧ t' = t ∧ (is_Some (@None nat) ∨ placed x = false)) ∨
    (ValueError = TypeError ∧ nameless t t' x)) as Hbad by (left; auto).
  unfold placed, is_adf_file, kind_of in *. destruct (file_type x) as [[]|]; try (by apply Hbad).
  1: { specialize (Hmade NodeDF d dn id Hd Hdir Hin). destruct (((_ : T nat) ≫= _) t) as [[c|e] t']; [|exact Hmade].
       destruct Hmade as (i & Ha & ->). eauto 10. }
  1: { destruct (root_total t Ht d) as (m & mn & Hm & Hmp & Hr & _); [by exists dn|]. rewrite M_bind_eq. cbv beta. rewrite Hr.
       specialize (Hmade (NodeADF (df_name x)) m mn id Hm).
       destruct (parent_ok t Ht _ _ _ Hm Hmp) as [(_ & Hk & _)|[? _]]; [|lia]. rewrite Hk in Hmade.
       specialize (Hmade eq_refl ltac:(by eexists)). unfold id in Hmade.
       destruct (((_ : T nat) ≫= _) t) as [[c|e] t']; [|exact Hmade].
       destruct Hmade as (i & Ha & ->). eauto 10. }
  all: specialize (Hmade NodeEF d dn (λ _, d) Hd Hdir Hin); destruct (((_ : T nat) ≫= _) t) as [[c|e] t']; [|exact Hmade];
    destruct Hmade as (i & Ha & ->); eauto 10.
Qed.

(** ** Walking the tree *)

(** The node [c] is [i] or is listed somewhere below it. *)
Inductive below (t : tree) : nat → nat → Prop :=
  | below_self i : below t i i
  | below_child i n k c j : nodes t !! i = Some n → kv_get k (node_children n) = Some c → below t c j → below t i j.

Lemma walk_fuel_S {A} t (fn : nat → result A) n i :
  walk_fuel t fn (S n) i =
  (a ← fn i;
   x ← node_at t i;
   if is_dir (kind x) then l ← map_r (walk_fuel t fn n) (node_children x).*2; Ok (a :: concat l) else Ok [a]).
Proof. done. Qed.

Lemma walk_fuel_spec {A} t (fn : nat → result A) : tree_ok t →
  ∀ fuel i, in_tree t i → (length (nodes t) <= fuel + i)%nat → (∀ c, below t i c → ∃ a, fn c = Ok a) →
  ∃ l, walk_fuel t fn (S fuel) i = Ok l ∧ ∀ a, a ∈ l ↔ ∃ c, below t i c ∧ fn c = Ok a.
Proof.
  intros Ht. induction fuel as [|fuel IH]; intros i (n & Hn & Hp) Hlen Hfn; [apply lookup_lt_Some in Hn; lia|].
  assert (∀ k c, (k, c) ∈ node_children n → in_tree t c ∧ (i < c)%nat ∧ below t i c ∧ ∀ j, below t c j → below t i j) as Hch.
  { intros k c Hin. apply kv_get_iff in Hin; [|by apply (ok_keys _ _ _ (Ht _ _ Hn))].
    destruct (ok_child _ _ _ (Ht _ _ Hn) _ _ Hin) as (x & Hx & Hxp & Hlt & _). split; [by exists x; rewrite Hxp|].
    split; [done|]. split; [eapply below_child; eauto; constructor|]. intros j Hj. eapply below_child; eauto. }
  destruct (Hfn i) as [a Ha]; [constructor|].
  assert (∀ l, (∀ kc, kc ∈ l → kc ∈ node_children n) →
    ∃ r, map_r (walk_fuel t fn (S fuel)) l.*2 = Ok r ∧
      ∀ b, b ∈ concat r ↔ ∃ k c j, (k, c) ∈ l ∧ below t c j ∧ fn j = Ok b) as Hl.
  { induction l as [|[k c] l IHl]; intros Hsub.
    - exists []. split; [done|]. intros b. split; [intros []%not_elem_of_nil|]. by intros (? & ? & ? & []%not_elem_of_nil & _).
    - destruct (Hch k c) as (Hc & Hlt & _ & Hb); [apply Hsub; by left|].
      destruct (IH c Hc) as (lc & Hlc & Hin); [lia|by intros j Hj; apply Hfn, Hb|].
      destruct IHl as (r & Hr & Hrin); [by intros kc Hkc; apply Hsub; right|]. exists (lc :: r).
      rewrite fmap_cons. cbn [map_r snd]. rewrite Hlc. mrun. rewrite Hr. split; [done|]. intros b. cbn [concat].
      rewrite elem_of_app, Hin, Hrin. split.
      + intros [(j & Hj & Eb)|(k' & c' & j & Hk & Hj & Eb)]; [exists k, c, j|exists k', c', j]; (split; [|done]); [by left|by right].
      + intros (k' & c' & j & [[= -> ->]|Hk]%elem_of_cons & Hj & Eb); [left; eauto|right; eauto 10]. }
  destruct (Hl (node_children n)) as (r & Hr & Hrin); [done|]. rewrite walk_fuel_S, Ha. mrun. rewrite (node_at_some _ _ _ Hn). mrun.
  assert (∀ b j, below t i j → fn j = Ok b → b = a ∨ b ∈ concat r) as Hall.
  { intros b j Hj Eb. inversion Hj as [|? n' k c ? Hn' Hk Hcj]; subst; [left; congruence|]. right. simplify_eq.
    apply Hrin. exists k, c, j. split; [|done]. apply kv_get_iff; [by apply (ok_keys _ _ _ (Ht _ _ Hn))|done]. }
  destruct (is_dir (kind n)) eqn:Ek.
  - rewrite Hr. mrun. exists (a :: concat r). split; [done|]. intros b. rewrite elem_of_cons. split.
    + intros [->|(k & c & j & Hk & Hj & Eb)%Hrin]; [by exists i; split; [constructor|]|].
      exists j. split; [|done]. by apply (Hch k c Hk).
    + intros (j & Hj & Eb). by apply (Hall b j).
  - destruct (ok_leaf _ _ _ (Ht _ _ Hn)) as [E _]; [by left|]. rewrite E in Hr. injection Hr as <-.
    exists [a]. split; [done|]. intros b. rewrite list_elem_of_singleton. split.
    + intros ->. by exists i; split; [constructor|].
    + intros (j & Hj & Eb). by destruct (Hall b j Hj Eb) as [|[]%not_elem_of_nil].
Qed.

(** C28: in a well-formed tree every recursion ends: each node of the tree has
    paths, of identifiers and of names, and a root, which is an MF; a walk
    over what lies below it gives the results of exactly these nodes. *)
Theorem tree_walks_end {A} t i (fn : nat → result A) :
  tree_ok t → in_tree t i → (∀ c, below t i c → ∃ a, fn c = Ok a) →
  (∃ l, fid_path t i = Ok l) ∧ (∃ l, name_path t i = Ok l) ∧
  (∃ m n, root t i = Ok m ∧ nodes t !! m = Some n ∧ kind n = NodeMF ∧ node_parent n = Some m) ∧
  ∃ l, walk t fn i = Ok l ∧ ∀ a, a ∈ l ↔ ∃ c, below t i c ∧ fn c = Ok a.
Proof.
  intros Ht Hi Hfn. split; [by destruct (fid_path_total t Ht i Hi) as (l & Hl & _); eauto|]. split; [|split].
  - destruct Hi as (n & Hn & Hp). destruct (name_path_fuel_ok t Ht i n Hn Hp) as [l Hl]. exists l. apply Hl.
    unfold enough_nodes. apply lookup_lt_Some in Hn. lia.
  - destruct (root_total t Ht i Hi) as (m & n & Hm & Hmp & Hr & _). exists m, n. split_and!; try done.
    destruct (parent_ok t Ht _ _ _ Hm Hmp) as [(_ & Hk & _)|[? _]]; [done|lia].
  - apply walk_fuel_spec; [done|done|lia|done].
Qed.

(** C31: what a lookup finds has the path looked up, with the MF in front, and
    is found again under the path it reports itself. *)
Theorem lookup_fid_path t self path n : tree_ok t → in_tree t self → lookup_by_fidpath t self path = Ok n →
  let q := 0x3f00 :: strip_mf path in fid_path t n = Ok (map Some q) ∧ lookup_by_fidpath t self q = Ok n.
Proof. intros Ht. by apply lookup_paths. Qed.

Lemma Path_init_upper p : Forall (λ s, str_upper s = s) (Path_init p).
Proof. apply list.Forall_forall. intros u (v & -> & _)%list_elem_of_fmap. apply upper_idem. Qed.

(** A path of the class [Path] is in upper case; names of nodes are not, and
    a file whose name has small letters is never looked up by its path. *)
Lemma lookup_upper_case t self p n l : tree_ok t → in_tree t self →
  lookup_by_path t self (Path_init p) = Ok n → name_path t n = Ok l → Forall (λ s, str_upper s = s) (drop 1 l).
Proof.
  intros Ht Hs Hl Hn. destruct (lookup_name_paths t Ht _ _ _ Hs Hl) as [s Es]. rewrite Hn in Es. injection Es as ->. cbn [drop].
  rewrite drop_0. pose proof (Path_init_upper p) as Hp. unfold relative_to_mf. destruct (Path_init p) as [|x q]; [done|].
  destruct (_ || _); [apply Path_init_upper|done].
Qed.

Module TreeRun.

Definition template (n : string) (i : option Z) (ty : Templates.file_type) : FileTemplate :=
  {| t_fid := i; t_name := lit n; t_pe_name := lit n; t_file_type := ty; t_nb_rec := None; t_rec_len := None;
     t_file_size := Some 3; t_arr := 5; t_sfi := None; t_default_val := None; t_default_val_repeat := false;
     t_content_rqd := None; t_params := None; t_ass_serv := None; t_high_update := false; t_ppath := [] |}.

Definition a_file (n : string) (i : option Z) (ty : Templates.file_type) : File :=
  set_template_attrs (template n i ty) [5] (SaipFile.new_file (Some (lit n)) (Some (template n i ty)) None).

(** The templates of the USIM and the ISIM declare their ADF without file
    identifier, and EF.Keys in this spelling. *)
Definition start : tree :=
  {| nodes := []; tree_files := [a_file "MF" (Some 0x3f00) FT_MF; a_file "ADF.USIM" None FT_ADF;
                                 a_file "EF.Keys" (Some 0x6f08) FT_TR; a_file "ADF.ISIM" None FT_ADF;
                                 a_file "DF.TELECOM" (Some 0x7f10) FT_DF; a_file "EF.ARR" (Some 0x6f06) FT_LF] |}.

Definition with_mf : M tree nat := mf ← FsNodeMF_init (Some 0%nat); link_file_node 0 mf;; mret mf.
Definition with_usim : M tree nat := mf ← with_mf; adf ← node_add_file mf 1; node_add_file adf 2.
Definition usim_tree : tree := (with_usim start).2.
Definition telecom_tree : tree := ((mf ← with_mf; df ← node_add_file mf 4; node_add_file df 5) start).2.
Definition both_tree : tree := ((cur ← with_usim; node_add_file cur 3) start).2.

End TreeRun.

(** The invariant, decided. *)
Definition node_okb (t : tree) (i : nat) (n : FsNode) : bool :=
  let child {K} (key : FsNode → K → bool) (kc : K * nat) :=
    match nodes t !! kc.2 with
    | Some x => bool_decide (node_parent x = Some i) && bool_decide (i < kc.2)%nat && key x kc.1
    | None => false
    end in
  match node_parent n with
  | None => bool_decide (node_children n = [] ∧ children_by_name n = [])
  | Some p =>
      (bool_decide (p = i ∧ node_fid n = Some 0x3f00) && match kind n with NodeMF => true | _ => false end
       || bool_decide (p < i)%nat && match nodes t !! p with
                                     | Some d => is_dir (kind d) && bool_decide (is_Some (node_parent d))
                                     | None => false end)
      && match node_name n with Ok _ => true | Err _ => false end
      && (is_dir (kind n) || bool_decide (node_children n = [] ∧ children_by_name n = []))
  end
  && forallb (child (λ x k, bool_decide (node_fid x = k))) (node_children n)
  && forallb (child (λ x s, match node_name x with Ok s' => bool_decide (s' = s) | Err _ => false end)) (children_by_name n)
  && bool_decide (NoDup (node_children n).*1).

Definition tree_okb (t : tree) : bool := forallb (λ x, node_okb t x.1 x.2) (imap pair (nodes t)).

Ltac destr_bool :=
  repeat match goal with
  | H : _ && _ = true |- _ => apply andb_prop in H as [? ?]
  | H : _ || _ = true |- _ => apply orb_prop in H as [?|?]
  | H : bool_decide _ = true |- _ => apply bool_decide_eq_true in H
  | H : _ ∧ _ |- _ => destruct H
  end.

Lemma tree_okb_ok t : tree_okb t = true → tree_ok t.
Proof.
  intros Hb i n Hi. assert (node_okb t i n = true) as Hn.
  { unfold tree_okb in Hb. rewrite forallb_forall in Hb. apply (Hb (i, n)). apply list_elem_of_In, list_elem_of_lookup.
    exists i. by rewrite list_lookup_imap, Hi. }
  clear Hb. unfold node_okb in Hn. destr_bool. split.
  - intros p Hp. rewrite Hp in *. destr_bool.
    all: first [left; split_and!; [done|by destruct (kind n)|done]
               |right; split; [done|]; destruct (nodes t !! p) as [d|]; [|done]; destr_bool; by exists d].
  - intros [p Hp]. rewrite Hp in *. destr_bool. all: destruct (node_name n); [eauto|done].
  - intros k c Hc%kv_get_in. rewrite !forallb_forall in *. apply list_elem_of_In in Hc.
    match goal with H : ∀ x, In x (node_children n) → _ |- _ => specialize (H _ Hc); cbn [fst snd] in H end.
    destruct (nodes t !! c) as [x|]; [|done]. destr_bool. by exists x.
  - intros k c Hc%kv_get_in. rewrite !forallb_forall in *. apply list_elem_of_In in Hc.
    match goal with H : ∀ x, In x (children_by_name n) → _ |- _ => specialize (H _ Hc); cbn [fst snd] in H end.
    destruct (nodes t !! c) as [x|]; [|done]. destr_bool. exists x. split_and!; try done.
    destruct (node_name x); [|done]. by destr_bool; subst.
  - done.
  - intros Hl. destruct (node_parent n); destr_bool; destruct Hl as [Hl|Hl]; try done; by rewrite Hl in *.
Qed.

Import TreeRun.

(** The second ADF takes the place of the first among the children of the MF:
    EF.Keys has left the tree a walk sees. *)
Example second_adf_hides_first :
  walk usim_tree (λ i, Ok i) 0 = Ok [0; 1; 2]%nat ∧ walk both_tree (λ i, Ok i) 0 = Ok [0; 3]%nat ∧
  fid_path both_tree 1 = fid_path both_tree 3.
Proof. by vm_compute. Qed.

(** EF.Keys is in the tree under this name only. *)
Example mixed_case_not_found :
  name_path usim_tree 2 = Ok [lit "MF"; lit "ADF.USIM"; lit "EF.Keys"] ∧
  lookup_by_path usim_tree 0 (Path_init (PathStr "MF/ADF.USIM/EF.Keys")) = Err KeyError.
Proof. by vm_compute. Qed.

Lemma node_add_file_spec_witness :
  ∃ t', node_add_file 1 3 usim_tree = (Ok 3%nat, t') ∧ attached usim_tree t' 0 3 3 (a_file "ADF.ISIM" None FT_ADF) (NodeADF None).
Proof.
  pose proof (tree_okb_ok usim_tree eq_refl) as Hok.
  pose proof (node_add_file_spec usim_tree 1 (default {| kind := NodeEF; node_fid := None; node_file := None; node_parent := None;
    own_node_name := None; node_children := []; children_by_name := [] |} (nodes usim_tree !! 1%nat)) 3
    (a_file "ADF.ISIM" None FT_ADF) Hok eq_refl eq_refl ltac:(by eexists) eq_refl) as Hs.
  destruct (node_add_file 1 3 usim_tree) as [r t'] eqn:E. exists t'.
  assert (r = Ok 3%nat) as -> by (apply (f_equal fst) in E; vm_compute in E; by rewrite <- E). split; [done|].
  destruct Hs as (_ & _ & p & i & Hp & Ha & Hi). cbn in Hi. subst i. injection Hp as <-. exact Ha.
Defined.

Lemma tree_walks_end_witness : ∃ l, walk telecom_tree (λ i, Ok i) 0 = Ok l ∧ 2%nat ∈ l.
Proof.
  destruct (tree_walks_end telecom_tree 0 (λ i, Ok i) (tree_okb_ok telecom_tree eq_refl)) as (_ & _ & _ & l & Hl & _).
  - eexists. split; [reflexivity|by eexists].
  - intros c _. by exists c.
  - exists l. split; [exact Hl|]. vm_compute in Hl. injection Hl as <-. by apply (bool_decide_unpack _).
Defined.

Lemma lookup_fid_path_witness : fid_path telecom_tree 2 = Ok [Some 0x3f00; Some 0x7f10; Some 0x6f06].
Proof.
  apply (lookup_fid_path telecom_tree 1 [0x7f10; 0x6f06] 2 (tree_okb_ok telecom_tree eq_refl)).
  - eexists. split; [reflexivity|by eexists].
  - by vm_compute.
Defined.
