(* ===== verification/SaipElements.v ===== *)
(** pySim/esim/saip/__init__.py, the classes ProfileElement and those derived
    from it, as far as they are about their decoded contents: types, header
    names, what a new element holds, and the methods that edit it. Files and
    the sequence follow in SaipSequence. *)

From Stdlib Require Import String.
From S2P Require Import Prelude Osmocom Utils Construct Oid Filesystem Templates SaipFile.

#[local] Open Scope list_scope.

(** ** Classes *)

(** [PeGeneric] is ProfileElement itself: a type without a class of its own. *)
Inductive pe_class :=
| PeGeneric | PeHeader | PeGFM | PePin | PePuk | PeAKA | PeSD | PeSSD | PeRFM | PeApplication | PeEnd
| PeMF | PeCD | PeTelecom | PeUSIM | PeOptUSIM | PeISIM | PeOptISIM | PePhonebook | PeGsmAccess | PeEAP
| PeDf5GS | PeDfSAIP | PeDfSNPN | PeDf5GProSe.

#[export] Instance pe_class_eq_dec : EqDecision pe_class.
Proof. solve_decision. Defined.

(** The class attribute [type]. *)
Definition class_type (c : pe_class) : option string :=
  match c with
  | PeGeneric => None
  | PeHeader => Some "header"
  | PeGFM => Some "genericFileManagement"
  | PePin => Some "pinCodes"
  | PePuk => Some "pukCodes"
  | PeAKA => Some "akaParameter"
  | PeSD | PeSSD => Some "securityDomain"
  | PeRFM => Some "rfm"
  | PeApplication => Some "application"
  | PeEnd => Some "end"
  | PeMF => Some "mf"
  | PeCD => Some "cd"
  | PeTelecom => Some "telecom"
  | PeUSIM => Some "usim"
  | PeOptUSIM => Some "opt-usim"
  | PeISIM => Some "isim"
  | PeOptISIM => Some "opt-isim"
  | PePhonebook => Some "phonebook"
  | PeGsmAccess => Some "gsm-access"
  | PeEAP => Some "eap"
  | PeDf5GS => Some "df-5gs"
  | PeDfSAIP => Some "df-saip"
  | PeDfSNPN => Some "df-snpn"
  | PeDf5GProSe => Some "df-5gprose"
  end%string.

Definition class_for_petype (pe_type : string) : option pe_class :=
  let table : list (string * pe_class) :=
    [("header", PeHeader); ("genericFileManagement", PeGFM); ("pinCodes", PePin); ("pukCodes", PePuk);
     ("akaParameter", PeAKA); ("securityDomain", PeSD); ("rfm", PeRFM); ("application", PeApplication); ("end", PeEnd);
     ("mf", PeMF); ("cd", PeCD); ("telecom", PeTelecom); ("usim", PeUSIM); ("opt-usim", PeOptUSIM); ("isim", PeISIM);
     ("opt-isim", PeOptISIM); ("phonebook", PePhonebook); ("gsm-access", PeGsmAccess); ("eap", PeEAP);
     ("df-5gs", PeDf5GS); ("df-saip", PeDfSAIP); ("df-snpn", PeDfSNPN); ("df-5gprose", PeDf5GProSe)]%string in
  kv_get pe_type table.

(** The subclasses of FsProfileElement. *)
Definition is_fs (c : pe_class) : bool :=
  match c with
  | PeMF | PeCD | PeTelecom | PeUSIM | PeOptUSIM | PeISIM | PeOptISIM | PePhonebook | PeGsmAccess | PeEAP
  | PeDf5GS | PeDfSAIP | PeDfSNPN | PeDf5GProSe => true
  | _ => false
  end.

Definition header_name_translation_dict : list (string * option string) :=
  [("header", None); ("end", Some "end-header"); ("genericFileManagement", Some "gfm-header");
   ("akaParameter", Some "aka-header"); ("cdmaParameter", Some "cdma-header"); ("application", Some "app-Header");
   ("pukCodes", Some "puk-Header"); ("pinCodes", Some "pin-Header"); ("securityDomain", Some "sd-Header");
   ("df-5gprose", Some "df-5g-prose-header")]%string.

Definition header_name_of (type : string) : option string :=
  if startswith (lit type) (lit "opt-") then Some (string_of_list_ascii (List.filter (λ c, negb (Ascii.eqb c "-")) (lit type)) ++ "-header")%string
  else match kv_get type header_name_translation_dict with
       | Some n => n
       | None => Some (type ++ "-header")%string
       end.

(** ** Objects *)

(** Values of the dict hold lists for Python's lists and tuples alike. *)
Record SecurityDomainKeyComponent := { key_type : value; key_data : value; mac_length : value }.
Record SecurityDomainKey := {
  key_usage_qualifier : value;
  key_identifier : Z;
  key_version_number : Z;
  key_components : list SecurityDomainKeyComponent }.

(** The parameters in C9 (pySim/global_platform/uicc.py): UiccScp, or another
    one by its tag. *)
Inductive sd_param := UiccScp (scp i : Z) | OtherParam (tag : Z) (v : bytes).

(** [own_type] is the type the decoder gives an object without a class;
    [pe_files] is the dict [files] by name; [in_sequence] tells whether there
    is a back-reference to the sequence; [pe_keys] and [pe_usip] are the
    attributes of a security domain. *)
Record PE := {
  pe_cls : pe_class;
  own_type : option string;
  decoded : dict;
  pe_files : list (option str * nat);
  in_sequence : bool;
  pe_keys : list SecurityDomainKey;
  pe_usip : list sd_param }.

Definition set_decoded (d : dict) (p : PE) : PE :=
  {| pe_cls := pe_cls p; own_type := own_type p; decoded := d; pe_files := pe_files p; in_sequence := in_sequence p;
     pe_keys := pe_keys p; pe_usip := pe_usip p |}.
Definition set_pe_files (l : list (option str * nat)) (p : PE) : PE :=
  {| pe_cls := pe_cls p; own_type := own_type p; decoded := decoded p; pe_files := l; in_sequence := in_sequence p;
     pe_keys := pe_keys p; pe_usip := pe_usip p |}.
Definition set_sd (k : list SecurityDomainKey) (u : list sd_param) (p : PE) : PE :=
  {| pe_cls := pe_cls p; own_type := own_type p; decoded := decoded p; pe_files := pe_files p; in_sequence := in_sequence p;
     pe_keys := k; pe_usip := u |}.

Definition set_own_type (t : string) (p : PE) : PE :=
  {| pe_cls := pe_cls p; own_type := Some t; decoded := decoded p; pe_files := pe_files p; in_sequence := in_sequence p;
     pe_keys := pe_keys p; pe_usip := pe_usip p |}.

Definition pe_type (p : PE) : result string :=
  from_opt AttributeError (match own_type p with Some t => Some t | None => class_type (pe_cls p) end).
Definition header_name (p : PE) : result (option string) := t ← pe_type p; Ok (header_name_of t).

(** [header] and [templateID]: None when there is none. *)
Definition header (p : PE) : result value :=
  n ← header_name p;
  Ok (match n with Some n => default VNone (dict_get n (decoded p)) | None => VNone end).
Definition identification (p : PE) : result value :=
  h ← header p; if truth h then item h "identification" else Ok VNone.
Definition templateID (p : PE) : value := default VNone (dict_get "templateID" (decoded p)).

(** What the library gives: the schema (the names and type names of the
    fields of an element), its codec, and the codec of the parameters of a
    security domain. *)
Class SaipLib := {
  asn1_decode : bytes → result (string * dict);
  asn1_encode : string → dict → result bytes;
  pe_members : string → option (list (string * string));
  usip_from_bytes : bytes → result (list sd_param);
  usip_to_bytes : list sd_param → result bytes }.

Definition codes (s : string) : bytes := map code (lit s).

(** [d[k].append(v)] *)
Definition append_item (k : string) (v : value) (d : dict) : result dict :=
  match dict_get k d with
  | None => Err KeyError
  | Some (VList l) => Ok (dict_set k (VList (l ++ [v])) d)
  | Some _ => Err AttributeError
  end.

Definition as_list (v : value) : result (list value) := match v with VList l => Ok l | _ => Err TypeError end.

(** ** Codes *)

Definition add_puk (key_ref : Z) (puk_value : bytes) (max_attempts retries_left : Z) (self : PE) : result PE :=
  guard_else (negb ((key_ref <? 0) || (0xff <? key_ref))) ValueError;;
  guard_else (len puk_value =? 8) ValueError;;
  guard_else (negb ((max_attempts <? 0) || (0xf <? max_attempts))) ValueError;;
  guard_else (negb ((retries_left <? 0) || (0xf <? max_attempts))) ValueError;;
  d ← append_item "pukCodes"
        (VDict [("keyReference", VInt key_ref); ("pukValue", VBytes puk_value);
                ("maxNumOfAttemps-retryNumLeft", VInt (Z.lor (Z.shiftl max_attempts 4) retries_left))]%string) (decoded self);
  Ok (set_decoded d self).

(** [self.decoded['pinCodes'][1].append(pin)] *)
Definition append_pin (pin : value) (d : dict) : result dict :=
  match dict_get "pinCodes" d with
  | None => Err KeyError
  | Some (VList (t :: VList l :: r)) => Ok (dict_set "pinCodes" (VList (t :: VList (l ++ [pin]) :: r)) d)
  | Some (VList (_ :: _ :: _)) => Err AttributeError
  | Some (VList _) => Err IndexError
  | Some _ => Err TypeError
  end.

Definition add_pin (key_ref : Z) (pin_value : bytes) (max_attempts retries_left : Z) (unblock_ref : option Z) (pin_attrib : Z)
    (self : PE) : result PE :=
  guard_else (negb ((key_ref <? 0) || (0xff <? key_ref))) ValueError;;
  guard_else (negb ((pin_attrib <? 0) || (0xff <? pin_attrib))) ValueError;;
  guard_else (len pin_value =? 8) ValueError;;
  guard_else (negb ((max_attempts <? 0) || (0xf <? max_attempts))) ValueError;;
  guard_else (negb ((retries_left <? 0) || (0xf <? max_attempts))) ValueError;;
  d ← append_pin
        (VDict ([("keyReference", VInt key_ref); ("pinValue", VBytes pin_value);
                 ("maxNumOfAttemps-retryNumLeft", VInt (Z.lor (Z.shiftl max_attempts 4) retries_left));
                 ("pinAttributes", VInt pin_attrib)]%string
                ++ entry "unblockingPINReference" (VInt <$> nonzero unblock_ref))) (decoded self);
  Ok (set_decoded d self).

(** ** Authentication parameters *)

Definition set_algo (choice : string) (par : dict) (self : PE) : PE :=
  set_decoded (dict_set "algoConfiguration" (VList [VStr (lit choice); VDict par]) (decoded self)) self.

Definition set_milenage (k opc : bytes) : PE → PE :=
  set_algo "algoParameter" [("algorithmID", VInt 1); ("algorithmOptions", VBytes [0]); ("key", VBytes k); ("opc", VBytes opc)]%string.
Definition set_xor3g (k : bytes) : PE → PE :=
  set_algo "algoParameter" [("algorithmID", VInt 3); ("algorithmOptions", VBytes [0]); ("key", VBytes k); ("opc", VBytes [])]%string.
Definition set_tuak (k topc : bytes) (num_of_keccak : Z) (self : PE) : result PE :=
  n ← bytes_of_ints [num_of_keccak];
  Ok (set_algo "algoParameter" [("algorithmID", VInt 2); ("algorithmOptions", VBytes [0]); ("key", VBytes k); ("opc", VBytes topc);
                                ("numberOfKeccak", VBytes n)]%string self).
Definition set_mapping (aid : bytes) (options : Z) (self : PE) : result PE :=
  o ← bytes_of_ints [options];
  Ok (set_algo "mappingParameter" [("mappingOptions", VBytes o); ("mappingSource", VBytes aid)]%string self).

(** [_fixup_sqnInit_dec], [_fixup_sqnInit_enc] *)
Definition dict_del (k : string) (d : dict) : dict := List.filter (λ e, negb (String.eqb k e.1)) d.

Definition _fixup_sqnInit_dec (self : PE) : PE :=
  match dict_get "sqnInit" (decoded self) with
  | Some v => if is_str v "0x000000000000"
              then set_decoded (dict_set "sqnInit" (VList (replicate 32 (VBytes (replicate 6 0)))) (decoded self)) self
              else self
  | None => self
  end.

(** [any(s)] for the members of [sqnInit] *)
Definition any_nonzero (v : value) : result bool :=
  match v with
  | VBytes b => Ok (existsb truthy b)
  | VList l => Ok (existsb truth l)
  | VStr s => Ok (negb (bool_decide (s = [])))
  | _ => Err TypeError
  end.
Definition _fixup_sqnInit_enc (self : PE) : result PE :=
  match dict_get "sqnInit" (decoded self) with
  | Some v =>
      if truth v then
        l ← (match v with VList l => Ok l | VBytes b => Ok (map VInt b) | VStr s => Ok (map (λ c, VStr [c]) s) | _ => Err TypeError end);
        bs ← (fix go l := match l with
                          | [] => Ok false
                          | x :: l' => b ← any_nonzero x; if (b : bool) then Ok true else go l'
                          end) l;
        Ok (if (bs : bool) then self else set_decoded (dict_del "sqnInit" (decoded self)) self)
      else Ok self
  | None => Ok self
  end.

(** ** Security domains *)

(** [KeyType], [KeyUsageQualifier] (pySim/global_platform): the latter a
    FlagsEnum over bytes whose trailing zeros are stripped. *)
Definition KeyType : con :=
  Enum (BytesInteger 1)
    [("des", 0x80); ("tls_psk", 0x85); ("aes", 0x88); ("hmac_sha1", 0x90); ("hmac_sha1_160", 0x91);
     ("rsa_public_exponent_e_cleartex", 0xA0); ("rsa_modulus_n_cleartext", 0xA1); ("rsa_modulus_n", 0xA2);
     ("rsa_private_exponent_d", 0xA3); ("rsa_chines_remainder_p", 0xA4); ("rsa_chines_remainder_q", 0xA5);
     ("rsa_chines_remainder_pq", 0xA6); ("rsa_chines_remainder_dpi", 0xA7); ("rsa_chines_remainder_dqi", 0xA8);
     ("ecc_public_key", 0xB0); ("ecc_private_key", 0xB1); ("ecc_field_parameter_p", 0xB2); ("ecc_field_parameter_a", 0xB3);
     ("ecc_field_parameter_b", 0xB4); ("ecc_field_parameter_g", 0xB5); ("ecc_field_parameter_n", 0xB6);
     ("ecc_field_parameter_k", 0xB7); ("ecc_key_parameters_reference", 0xF0); ("not_available", 0xff)]%string.
Definition KeyUsageQualifier : con := Construct.Adapter "KeyUsageQualifier" GreedyBytes.

Section sd.
Context `{Construct} `{SaipLib}.

Definition parse_value (c : con) (v : value) : result value :=
  b ← as_bytes v; '(x, _) ← parse c [] 0 b; Ok x.

(** [int.from_bytes(v, "big")] *)
Definition int_of (v : value) : result Z := b ← as_bytes v; Ok (from_bytes b).

Definition component_from_saip_dict (saip : value) : result SecurityDomainKeyComponent :=
  kt ← item saip "keyType"; kt ← parse_value KeyType kt;
  kd ← item saip "keyData"; ml ← item saip "macLength";
  Ok {| key_type := kt; key_data := kd; mac_length := ml |}.
Definition component_to_saip_dict (self : SecurityDomainKeyComponent) : result value :=
  kt ← build KeyType [] (key_type self);
  Ok (VDict [("keyType", VBytes kt); ("keyData", key_data self); ("macLength", mac_length self)]%string).

Definition key_from_saip_dict (saip : value) : result SecurityDomainKey :=
  kvn ← item saip "keyVersionNumber"; kvn ← int_of kvn;
  kid ← item saip "keyIdentifier"; kid ← int_of kid;
  kuq ← item saip "keyUsageQualifier"; kuq ← parse_value KeyUsageQualifier kuq;
  l ← item saip "keyComponents"; l ← as_list l;
  cs ← map_r component_from_saip_dict l;
  Ok {| key_usage_qualifier := kuq; key_identifier := kid; key_version_number := kvn; key_components := cs |}.
Definition key_to_saip_dict (self : SecurityDomainKey) : result value :=
  kuq ← build KeyUsageQualifier [] (key_usage_qualifier self);
  kid ← bytes_of_ints [key_identifier self];
  kvn ← bytes_of_ints [key_version_number self];
  cs ← map_r component_to_saip_dict (key_components self);
  Ok (VDict [("keyUsageQualifier", VBytes kuq); ("keyIdentifier", VBytes kid); ("keyVersionNumber", VBytes kvn);
             ("keyComponents", VList cs)]%string).

(** [ProfileElementSD._post_decode] *)
Definition sd_post_decode (self : PE) : result PE :=
  inst ← item (VDict (decoded self)) "instance";
  c9 ← item inst "applicationSpecificParametersC9"; c9 ← as_bytes c9;
  u ← usip_from_bytes c9;
  l ← item (VDict (decoded self)) "keyList"; l ← as_list l;
  ks ← map_r key_from_saip_dict l;
  Ok (set_sd ks u self).

(** [ProfileElementSD._pre_encode] *)
Definition sd_pre_encode : M PE unit :=
  self ← get;
  l ← lift (map_r key_to_saip_dict (pe_keys self));
  modify (λ p, set_decoded (dict_set "keyList" (VList l) (decoded p)) p);;
  self ← get;
  c9 ← lift (usip_to_bytes (pe_usip self));
  inst ← lift (item (VDict (decoded self)) "instance");
  inst ← lift (as_dict inst);
  modify (λ p, set_decoded (dict_set "instance" (VDict (dict_set "applicationSpecificParametersC9" (VBytes c9) inst)) (decoded p)) p).

Definition is_scp (scp : Z) (c : sd_param) : bool := match c with UiccScp s _ => s =? scp | OtherParam _ _ => false end.
Definition has_scp (scp : Z) (self : PE) : bool := existsb (is_scp scp) (pe_usip self).

Definition add_scp (scp i : Z) : M PE unit :=
  self ← get;
  lift (guard_else (negb (has_scp scp self)) ValueError);;
  modify (set_sd (pe_keys self) (pe_usip self ++ [UiccScp scp i]));;
  sd_pre_encode.

(** The first UiccScp with this number goes. *)
Fixpoint remove_first {A} (f : A → bool) (l : list A) : option (list A) :=
  match l with
  | [] => None
  | x :: l' => if f x then Some l' else cons x <$> remove_first f l'
  end.
Definition remove_scp (scp : Z) : M PE unit :=
  self ← get;
  l ← lift (from_opt ValueError (remove_first (is_scp scp) (pe_usip self)));
  modify (set_sd (pe_keys self) l);;
  sd_pre_encode.

Definition is_key (key_version_number_ key_id : Z) (k : SecurityDomainKey) : bool :=
  (key_version_number k =? key_version_number_) && (key_identifier k =? key_id).
Definition find_key (kvn kid : Z) (self : PE) : option SecurityDomainKey := List.find (is_key kvn kid) (pe_keys self).

Definition add_key (key : SecurityDomainKey) : M PE unit :=
  self ← get;
  lift (guard_else (bool_decide (find_key (key_version_number key) (key_identifier key) self = None)) ValueError);;
  modify (set_sd (pe_keys self ++ [key]) (pe_usip self));;
  sd_pre_encode.
Definition remove_key (kvn kid : Z) : M PE unit :=
  self ← get;
  l ← lift (from_opt ValueError (remove_first (is_key kvn kid) (pe_keys self)));
  modify (set_sd l (pe_usip self));;
  sd_pre_encode.
End sd.

(** ** Header *)

Definition mandatory_service_add (service_name : string) (self : PE) : result PE :=
  v ← item (VDict (decoded self)) "eUICC-Mandatory-services"; d ← as_dict v;
  Ok (set_decoded (dict_set "eUICC-Mandatory-services" (VDict (dict_set service_name VNone d)) (decoded self)) self).
Definition mandatory_service_remove (service_name : string) (self : PE) : result PE :=
  v ← item (VDict (decoded self)) "eUICC-Mandatory-services"; d ← as_dict v;
  guard_else (bool_decide (is_Some (dict_get service_name d))) ValueError;;
  Ok (set_decoded (dict_set "eUICC-Mandatory-services" (VDict (dict_del service_name d)) (decoded self)) self).

(** ** Applications *)

Definition data_limit : con := Construct.Adapter "StripHeaderAdapter" GreedyBytes.

(** The optional hex arguments of [add_instance]. *)
Record instance_args := {
  i_aid : str; i_class_aid : str; i_inst_aid : str; i_app_privileges : str; i_app_spec_pars : str;
  i_uicc_toolkit : option str; i_uicc_access : option str; i_uicc_adm_access : option str;
  i_volatile_memory_quota : option value; i_non_volatile_memory_quota : option value;
  i_process_data : option (list str) }.

Section application.
Context `{OsmocomUtils} `{Construct}.

Definition hex_entry (k : string) (o : option str) : result dict :=
  match filled o with Some s => b ← h2b s; Ok [(k, VBytes b)] | None => Ok [] end.
Definition quota_entry (k : string) (o : option value) : result dict :=
  match o with Some v => b ← build data_limit [] v; Ok [(k, VBytes b)] | None => Ok [] end.

Definition add_instance (a : instance_args) (self : PE) : result PE :=
  aid ← h2b (i_aid a); class_aid ← h2b (i_class_aid a); inst_aid ← h2b (i_inst_aid a);
  privileges ← h2b (i_app_privileges a); pars ← h2b (i_app_spec_pars a);
  t ← hex_entry "uiccToolkitApplicationSpecificParametersField" (i_uicc_toolkit a);
  ac ← hex_entry "uiccAccessApplicationSpecificParametersField" (i_uicc_access a);
  adm ← hex_entry "uiccAdministrativeAccessApplicationSpecificParametersField" (i_uicc_adm_access a);
  let app_pars := t ++ ac ++ adm in
  v ← quota_entry "volatileMemoryQuotaC7" (i_volatile_memory_quota a);
  nv ← quota_entry "nonVolatileMemoryQuotaC8" (i_non_volatile_memory_quota a);
  let sys_pars := v ++ nv in
  procs ← from_opt TypeError (i_process_data a);
  ps ← map_r h2b procs;
  let inst := [("applicationLoadPackageAID", VBytes aid); ("classAID", VBytes class_aid); ("instanceAID", VBytes inst_aid);
               ("applicationPrivileges", VBytes privileges); ("applicationSpecificParametersC9", VBytes pars)]%string
              ++ entry "applicationParameters" (if len app_pars =? 0 then None else Some (VDict app_pars))
              ++ entry "systemSpecificParameters" (if len sys_pars =? 0 then None else Some (VDict sys_pars))
              ++ entry "processData" (if len ps =? 0 then None else Some (VList (map VBytes ps))) in
  d ← append_item "instanceList" (VDict inst)
        (match dict_get "instanceList" (decoded self) with
         | Some _ => decoded self
         | None => dict_set "instanceList" (VList []) (decoded self)
         end);
  Ok (set_decoded d self).

(** The loop of [remove_instance]: the rest without the first instance that
    has this AID; None when there is none. *)
Fixpoint drop_instance (inst_aid : str) (l : list value) : result (option (list value)) :=
  match l with
  | [] => Ok None
  | v :: l' =>
      d ← as_dict v;
      b ← as_bytes (default VNone (dict_get "instanceAID" d));
      if bool_decide (b2h b = inst_aid) then Ok (Some l')
      else r ← drop_instance inst_aid l'; Ok (option_map (cons v) r)
  end.
Definition remove_instance (inst_aid : str) (self : PE) : result PE :=
  l ← as_list (default (VList []) (dict_get "instanceList" (decoded self)));
  r ← drop_instance inst_aid l;
  match r with
  | Some l' => Ok (set_decoded (dict_set "instanceList" (VList l') (decoded self)) self)
  | None => Err (if len l =? 0 then UnboundLocalError else ValueError)
  end.
End application.

(** ** Constructors *)

(** Template and files of a new element with files. *)
Definition fs_defaults (c : pe_class) : option (OID * list string) :=
  match c with
  | PeMF => Some (Oid.MF, ["mf"; "ef-iccid"; "ef-dir"; "ef-arr"])
  | PeTelecom => Some (DF_TELECOM_v2, ["df-telecom"; "ef-arr"])
  | PeCD => Some (DF_CD, ["df-cd"])
  | PePhonebook => Some (DF_PHONEBOOK_ADF_USIM, ["df-phonebook"])
  | PeGsmAccess => Some (DF_GSM_ACCESS_ADF_USIM, ["df-gsm-access"])
  | PeDf5GS => Some (DF_5GS_v3, ["df-df-5gs"])
  | PeEAP => Some (DF_EAP, ["df-eap"; "ef-eapstatus"])
  | PeDfSAIP => Some (DF_SAIP, ["df-df-saip"])
  | PeDfSNPN => Some (DF_SNPN, ["df-df-snpn"])
  | PeDf5GProSe => Some (DF_5GProSe, ["df-df-5g-prose"])
  | PeUSIM => Some (ADF_USIM_by_default_v2, ["adf-usim"; "ef-imsi"; "ef-arr"; "ef-ust"; "ef-spn"; "ef-est"; "ef-acc"; "ef-ecc"])
  | PeOptUSIM => Some (ADF_USIMopt_not_by_default_v2, [])
  | PeISIM => Some (ADF_ISIM_by_default, ["adf-isim"; "ef-impi"; "ef-impu"; "ef-domain"; "ef-ist"; "ef-arr"])
  | PeOptISIM => Some (ADF_ISIMopt_not_by_default_v2, [])
  | _ => None
  end%string.

(** [self.decoded[k] = v] one after the other *)
Definition dict_update (d : dict) (l : dict) : dict := foldl (λ d kv, dict_set kv.1 kv.2 d) d l.

(** The arguments of ProfileElementHeader and ProfileElementRFM. *)
Record header_args := { h_major : Z; h_minor : Z; h_iccid : str; h_profile_type : option str }.
Record rfm_args := {
  r_inst_aid : option bytes; r_sd_aid : option bytes; r_adf_aid : option bytes; r_tar_list : list bytes; r_msl : Z }.
Definition default_header : header_args := {| h_major := 2; h_minor := 3; h_iccid := replicate 20 "0"%char; h_profile_type := None |}.
Definition default_rfm : rfm_args := {| r_inst_aid := None; r_sd_aid := None; r_adf_aid := None; r_tar_list := []; r_msl := 6 |}.

Definition opt_bytes (o : option bytes) : value := match o with Some b => VBytes b | None => VNone end.

Section constructors.
Context `{OsmocomUtils} `{Construct} `{SaipLib}.

(** [ProfileElement.__init__], and of the two classes with a schema *)
Definition base_init (c : pe_class) (d : dict) (mandated seq : bool) : result PE :=
  let p := {| pe_cls := c; own_type := None; decoded := d; pe_files := []; in_sequence := seq; pe_keys := []; pe_usip := [] |} in
  p ← (if len d =? 0 then
         n ← header_name p;
         Ok (match n with
             | Some n => set_decoded [(n, VDict [((if mandated then "mandated" else "identification")%string, VNone)])] p
             | None => p
             end)
       else Ok p);
  (if is_fs c || bool_decide (c = PeGFM) then
     t ← pe_type p; _ ← from_opt KeyError (pe_members t); Ok p
   else Ok p).

Definition rfm_defaults (a : rfm_args) : result dict :=
  adm1 ← h2b (lit "02000100");
  msl ← bytes_of_ints [r_msl a];
  Ok ([("instanceAID", opt_bytes (r_inst_aid a)); ("securityDomainAID", opt_bytes (r_sd_aid a));
       ("tarList", VList (map VBytes (r_tar_list a))); ("minimumSecurityLevel", VBytes msl);
       ("uiccAccessDomain", VBytes adm1); ("uiccAdminAccessDomain", VBytes adm1)]%string
      ++ entry "adfRFMAccess" (match filled_b (r_adf_aid a) with
                               | Some aid => Some (VDict [("adfAID", VBytes aid); ("adfAccessDomain", VBytes adm1);
                                                          ("adfAdminAccessDomain", VBytes adm1)]%string)
                               | None => None end)).

Definition sd_defaults : result dict :=
  lp ← h2b (lit "A0000001515350"); ca ← h2b (lit "A000000251535041"); ia ← h2b (lit "A000000151000000");
  ap ← h2b (lit "82FC80"); c9 ← h2b (lit "8201f09301f08701f0"); tk ← h2b (lit "0100000100000002011203B2010000");
  Ok [("instance", VDict [("applicationLoadPackageAID", VBytes lp); ("classAID", VBytes ca); ("instanceAID", VBytes ia);
                          ("applicationPrivileges", VBytes ap); ("applicationSpecificParametersC9", VBytes c9);
                          ("applicationParameters", VDict [("uiccToolkitApplicationSpecificParametersField", VBytes tk)])]);
      ("keyList", VList [])]%string.

(** What [ProfileElementSSD] changes in it. *)
Definition ssd_defaults (d : dict) : result dict :=
  inst ← item (VDict d) "instance"; inst ← as_dict inst;
  ia ← h2b (lit "A00000055910100102736456616C7565"); ap ← h2b (lit "808000"); tk ← h2b (lit "01000001000000020112036C756500");
  Ok (dict_set "instance" (VDict (dict_update inst
        [("instanceAID", VBytes ia); ("applicationPrivileges", VBytes ap);
         ("applicationParameters", VDict [("uiccToolkitApplicationSpecificParametersField", VBytes tk)])]%string)) d).

Definition header_defaults (a : header_args) : result dict :=
  iccid ← h2b (h_iccid a);
  Ok ([("major-version", VInt (h_major a)); ("minor-version", VInt (h_minor a)); ("iccid", VBytes iccid);
       ("eUICC-Mandatory-services", VDict []); ("eUICC-Mandatory-GFSTEList", VList [])]%string
      ++ entry "profileType" (VStr <$> filled (h_profile_type a))).

(** The constructor of a class. *)
Definition PE_init (c : pe_class) (d : dict) (ha : header_args) (ra : rfm_args) (mandated seq : bool) : result PE :=
  p ← base_init c d mandated seq;
  if negb (len d =? 0) then Ok p
  else match c with
  | PeGeneric | PeEnd | PeApplication => Ok p
  | PeHeader => d ← header_defaults ha; Ok (set_decoded d p)
  | PeGFM => Ok (set_decoded (dict_set "fileManagementCMD" (VList []) (decoded p)) p)
  | PePuk =>
      p ← add_puk 0x01 (codes "11111111") 10 10 (set_decoded (dict_set "pukCodes" (VList []) (decoded p)) p);
      add_puk 0x81 (codes "22222222") 10 10 p
  | PePin =>
      p ← add_pin 0x01 (codes "0000" ++ [255; 255; 255; 255]) 3 3 (Some 1) 6
            (set_decoded (dict_set "pinCodes" (VList [VStr (lit "pinconfig"); VList []]) (decoded p)) p);
      add_pin 0x10 (codes "11111111") 3 3 None 3 p
  | PeAKA => Ok (set_milenage (replicate 16 0) (replicate 16 0) p)
  | PeRFM => l ← rfm_defaults ra; Ok (set_decoded (dict_update (decoded p) l) p)
  | PeSD => l ← sd_defaults; sd_post_decode (set_decoded (dict_update (decoded p) l) p)
  | PeSSD =>
      l ← sd_defaults; p ← sd_post_decode (set_decoded (dict_update (decoded p) l) p);
      d ← ssd_defaults (decoded p); Ok (set_decoded d p)
  | _ =>
      match fs_defaults c with
      | Some (o, names) =>
          Ok (set_decoded (dict_update (decoded p) (("templateID"%string, VStr (OID_str o)) :: map (λ n, (n, VList [])) names)) p)
      | None => Ok p
      end
  end.
End constructors.
