(* ===== verification/SaipSequence.v ===== *)
(** pySim/esim/saip/__init__.py, ProfileElementSequence with the classes
    FsProfileElement and ProfileElementGFM: the list of profile elements of a
    profile with its indexes, and the files the elements put into the tree. *)

From Stdlib Require Import String.
From S2P Require Import Prelude Osmocom Utils Construct Oid Filesystem Templates TemplateData SaipFile SaipTree SaipElements.

#[local] Open Scope list_scope.

(** ** The network access applications *)

Record Naa := { naa_name : string; pe_types : list string; naa_templates : list OID; naa_mandatory_services : list string }.

Definition NaaCsim : Naa :=
  {| naa_name := "csim"; pe_types := ["csim"; "opt-csim"; "cdmaParameter"];
     naa_templates := [ADF_CSIM_by_default; ADF_CSIMopt_not_by_default]; naa_mandatory_services := ["csim"] |}%string.
Definition NaaUsim : Naa :=
  {| naa_name := "usim";
     pe_types := ["usim"; "opt-usim"; "phonebook"; "gsm-access"; "eap"; "df-5gs"; "df-saip"; "df-snpn"; "df-5gprose"];
     naa_templates := [ADF_USIM_by_default; ADF_USIMopt_not_by_default; DF_PHONEBOOK_ADF_USIM; DF_GSM_ACCESS_ADF_USIM;
                       DF_EAP; DF_5GS; DF_SAIP; DF_SNPN; DF_5GProSe];
     naa_mandatory_services := ["usim"] |}%string.
Definition NaaIsim : Naa :=
  {| naa_name := "isim"; pe_types := ["isim"; "opt-isim"]; naa_templates := [ADF_ISIM_by_default; ADF_ISIMopt_not_by_default];
     naa_mandatory_services := ["isim"] |}%string.

Definition adf_name (n : Naa) : result string := s ← idx (naa_mandatory_services n) 0; Ok ("adf-" ++ s)%string.

(** ** The sequence *)

(** The objects and the attributes of the one sequence; an element is its
    position in [pes]. [pe_list], [pe_by_type] and [pes_by_naa] hold elements. *)
Record profile := {
  pes : list PE;
  p_tree : tree;
  pe_list : list nat;
  pe_by_type : list (string * list nat);
  pes_by_naa : list (string * list (list nat));
  mf : option nat;
  cur_df : option nat }.
Abbreviation P := (M profile).

Definition set_pes (l : list PE) (s : profile) : profile :=
  {| pes := l; p_tree := p_tree s; pe_list := pe_list s; pe_by_type := pe_by_type s; pes_by_naa := pes_by_naa s; mf := mf s;
     cur_df := cur_df s |}.
Definition set_tree (t : tree) (s : profile) : profile :=
  {| pes := pes s; p_tree := t; pe_list := pe_list s; pe_by_type := pe_by_type s; pes_by_naa := pes_by_naa s; mf := mf s;
     cur_df := cur_df s |}.
Definition set_pe_list (l : list nat) (s : profile) : profile :=
  {| pes := pes s; p_tree := p_tree s; pe_list := l; pe_by_type := pe_by_type s; pes_by_naa := pes_by_naa s; mf := mf s;
     cur_df := cur_df s |}.
Definition set_index (t : list (string * list nat)) (n : list (string * list (list nat))) (s : profile) : profile :=
  {| pes := pes s; p_tree := p_tree s; pe_list := pe_list s; pe_by_type := t; pes_by_naa := n; mf := mf s; cur_df := cur_df s |}.
Definition set_dirs (m d : option nat) (s : profile) : profile :=
  {| pes := pes s; p_tree := p_tree s; pe_list := pe_list s; pe_by_type := pe_by_type s; pes_by_naa := pes_by_naa s; mf := m;
     cur_df := d |}.

Definition pe_at (s : profile) (i : nat) : result PE := from_opt AttributeError (pes s !! i).

(** Run a method of the element [i]. *)
Definition on_pe {A} (i : nat) (m : M PE A) : P A :=
  s ← get;
  p ← lift (pe_at s i);
  let '(r, p') := m p in
  modify (set_pes (<[i := p']> (pes s)));;
  lift r.
Definition update_pe (i : nat) (f : PE → result PE) : P unit :=
  on_pe i (p ← get; p' ← lift (f p); put p').
(** Run a function on the tree. *)
Definition on_tree {A} (m : T A) : P A := zoom p_tree set_tree m.

Definition new_pe (p : PE) : P nat := s ← get; modify (set_pes (pes s ++ [p]));; mret (length (pes s)).
(** [File(...)]: the object joins the others. *)
Definition new_file_object (f : File) : P nat :=
  s ← get;
  let t := p_tree s in
  modify (set_tree (set_files (tree_files t ++ [f]) t));; mret (length (tree_files t)).

(** ** Indexes *)

Definition type_at (s : profile) (i : nat) : result string := p ← pe_at s i; pe_type p.

(** [_rebuild_pe_by_type]: into an empty dict. *)
Definition add_by_type (t : string) (i : nat) (d : list (string * list nat)) : list (string * list nat) :=
  match kv_get t d with Some l => kv_set t (l ++ [i]) d | None => kv_set t [i] d end.
Fixpoint by_type (s : profile) (l : list nat) (d : list (string * list nat)) : result (list (string * list nat)) :=
  match l with
  | [] => Ok d
  | i :: l' => t ← type_at s i; by_type s l' (add_by_type t i d)
  end.

Definition petype_not_naa_related : list string := ["securityDomain"; "rfm"; "application"; "end"]%string.
Definition naa_types : list string := ["mf"; "usim"; "isim"; "csim"]%string.

Definition add_instance_of (naa : string) (l : list nat) (d : list (string * list (list nat))) : list (string * list (list nat)) :=
  kv_set naa (default [] (kv_get naa d) ++ [l]) d.

(** [_rebuild_pes_by_naa]: into the dict there is, [self.pres_by_naa] being
    what is set to the empty one. *)
Fixpoint by_naa (s : profile) (l : list nat) (cur_naa : option string) (cur_naa_list : list nat)
    (d : list (string * list (list nat))) : result (list (string * list (list nat))) :=
  match l with
  | [] =>
      Ok (match cur_naa with
          | Some n => if bool_decide (cur_naa_list = []) then d else add_instance_of n cur_naa_list d
          | None => d
          end)
  | i :: l' =>
      t ← type_at s i;
      if bool_decide (t ∈ petype_not_naa_related) then by_naa s l' cur_naa cur_naa_list d
      else if bool_decide (t ∈ naa_types) then
        by_naa s l' (Some t) [i] (match cur_naa with Some n => add_instance_of n cur_naa_list d | None => d end)
      else by_naa s l' cur_naa (cur_naa_list ++ [i]) d
  end.

(** Only an element without a type, which the decoder never makes, raises
    here. *)
Definition _process_pelist : P unit :=
  s ← get;
  d ← lift (by_type s (pe_list s) []);
  n ← lift (by_naa s (pe_list s) None [] (pes_by_naa s));
  modify (set_index d n).

(** The loop of [renumber_identification]. *)
Definition set_identification (i : Z) (p : PE) : result PE :=
  n ← header_name p;
  match n with
  | Some n =>
      h ← as_dict (default VNone (dict_get n (decoded p)));
      Ok (set_decoded (dict_set n (VDict (dict_set "identification" (VInt i) h)) (decoded p)) p)
  | None => Err TypeError
  end.
Fixpoint renumber (l : list nat) (i : Z) : P unit :=
  match l with
  | [] => mret ()
  | pe :: l' =>
      s ← get;
      p ← lift (pe_at s pe);
      hdr ← lift (header p);
      if truth hdr then update_pe pe (set_identification i);; renumber l' (i + 1) else renumber l' i
  end.
Definition renumber_identification : P unit := s ← get; renumber (pe_list s) 1.

Definition append (pe : nat) : P unit :=
  modify (λ s, set_pe_list (pe_list s ++ [pe]) s);; _process_pelist;; renumber_identification.

(** [list.insert]: an index out of range is clipped. *)
Definition list_insert_at {A} (idx : Z) (x : A) (l : list A) : list A :=
  let n := if idx <? 0 then Z.max 0 (len l + idx) else Z.min idx (len l) in
  take (Z.to_nat n) l ++ x :: drop (Z.to_nat n) l.
Definition insert_at_index (idx : Z) (pe : nat) : P unit :=
  modify (λ s, set_pe_list (list_insert_at idx pe (pe_list s)) s);; _process_pelist;; renumber_identification.

Fixpoint index_of (pe : nat) (l : list nat) : option nat :=
  match l with [] => None | x :: l' => if decide (x = pe) then Some 0%nat else S <$> index_of pe l' end.
Definition get_index_by_pe (pe : nat) (s : profile) : result nat := from_opt ValueError (index_of pe (pe_list s)).
Definition insert_after_pe (pe_before pe_new : nat) : P unit :=
  s ← get; i ← lift (get_index_by_pe pe_before s); insert_at_index (Z.of_nat i + 1) pe_new.

Fixpoint indexes_by_type (s : profile) (petype : string) (i : Z) (l : list nat) : result (list Z) :=
  match l with
  | [] => Ok []
  | x :: l' =>
      t ← type_at s x;
      r ← indexes_by_type s petype (i + 1) l';
      Ok (if bool_decide (t = petype) then i :: r else r)
  end.
Definition get_index_by_type (petype : string) (s : profile) : result (list Z) := indexes_by_type s petype 0 (pe_list s).
Definition add_ssd (ssd : nat) : P unit :=
  s ← get; l ← lift (get_index_by_type "securityDomain" s); i ← lift (idx l 0); insert_at_index (i + 1) ssd.

(** ** Finding elements *)

Definition get_pes_for_type (tname : string) (s : profile) : list nat := default [] (kv_get tname (pe_by_type s)).
Definition get_pe_for_type (tname : string) (s : profile) : result (option nat) :=
  match get_pes_for_type tname s with
  | [] => Ok None
  | [i] => Ok (Some i)
  | _ => Err AssertionError
  end.

(** [tid.prefix_match(pe.templateID)]; [str] of a value that is not text
    starts with no identifier. *)
Definition matches_template (tid : OID) (p : PE) : bool :=
  match templateID p with VStr s => negb (bool_decide (s = [])) && prefix_match tid s | _ => false end.
Fixpoint pes_for_templateID (s : profile) (tid : OID) (l : list nat) : result (list nat) :=
  match l with
  | [] => Ok []
  | i :: l' => p ← pe_at s i; r ← pes_for_templateID s tid l'; Ok (if matches_template tid p then i :: r else r)
  end.
Definition get_pes_for_templateID (tid : OID) (s : profile) : result (list nat) := pes_for_templateID s tid (pe_list s).

(** The elements before [cur], the last one first. *)
Definition get_closest_prev_pe_for_templateID (cur : nat) (tid : OID) (s : profile) : result (option nat) :=
  let before := match index_of cur (pe_list s) with Some i => take i (pe_list s) | None => pe_list s end in
  r ← pes_for_templateID s tid (rev before);
  Ok (head r).

(** ** Files of an element (FsProfileElement) *)

Definition as_pair (v : value) : result (str * value) := match v with VList [VStr k; x] => Ok (k, x) | _ => Err ValueError end.
Definition as_tuples (v : value) : result tuples := l ← as_list v; map_r as_pair l.
(** Tuples as a value of a decoded element. *)
Definition of_tuples (l : tuples) : value := VList (map (λ kv, VList [VStr kv.1; kv.2]) l).

Section files.
Context `{OsmocomUtils} `{Construct} `{SaipLib}.

Definition template_for (tid : value) : result (option ProfileTemplate) := r ← by_oid; get_by_oid r tid.

(** Also [supports_file_for_path] is this function, which drops its [adf]. *)
Fixpoint file_for_path (t : ProfileTemplate) (path : Path) (adf : option str) (i : nat) (l : list FileTemplate)
    : result (option FileTemplate) :=
  match l with
  | [] => Ok None
  | f :: l' =>
      p ← template_path t i;
      if bool_decide (p = path) then Ok (Some f)
      else
        match filled adf with
        | Some a => if bool_decide (Path_add (Path_init (PathStr a)) p = path) then Ok (Some f) else file_for_path t path adf (S i) l'
        | None => file_for_path t path adf (S i) l'
        end
  end.
Definition file_template_for_path (self : PE) (path : Path) (adf : option str) : result (option FileTemplate) :=
  t ← template_for (templateID self);
  t ← from_opt AttributeError t;
  file_for_path t path adf 0 (files t).
Definition supports_file_for_path (self : PE) (path : Path) : result bool :=
  f ← file_template_for_path self path None; Ok (bool_decide (is_Some f)).

Definition file_obj (s : profile) (f : nat) : result File := file_at (p_tree s) f.

(** [self.files[name].node] *)
Definition node_of_file (p : PE) (name : str) : P (option nat) :=
  s ← get;
  f ← lift (from_opt KeyError (kv_get (Some name) (pe_files p)));
  x ← lift (file_obj s f);
  mret (node x).

(** [for d in ppath: pe_df = pe_df[d]] *)
Fixpoint go_down (t : tree) (df : option nat) (ppath : list Z) : result (option nat) :=
  match ppath with
  | [] => Ok df
  | d :: l =>
      i ← from_opt TypeError df;
      n ← node_at t i;
      guard_else (is_dir (kind n)) TypeError;;
      c ← get_child t i (KeyFid d);
      go_down t (Some c) l
  end.

(** The directory [add_file] turns to before it adds a file other than the MF. *)
Definition choose_df (pe : nat) (p : PE) (tpl : option ProfileTemplate) (x : File) : P unit :=
  tpl ← lift (from_opt AttributeError tpl);
  own ← (match extends tpl with
         | Some _ => mret false
         | None => n ← lift (base_pe_name tpl); mret (negb (bool_decide (pe_name x = Some n)))
         end);
  if (own : bool) then
    n ← lift (base_pe_name tpl);
    df ← node_of_file p n;
    s ← get;
    df ← lift (match template x with Some t => go_down (p_tree s) df (t_ppath t) | None => Ok df end);
    modify (λ s, set_dirs (mf s) df s)
  else
    match t_parent tpl with
    | Some parent =>
        s ← get;
        o ← lift (from_opt AttributeError (oid parent));
        q ← lift (get_closest_prev_pe_for_templateID pe o s);
        q ← lift (from_opt AttributeError q);
        pp ← lift (pe_at s q);
        n ← lift (base_pe_name parent);
        lift (guard_else (is_fs (pe_cls pp) || bool_decide (pe_cls pp = PeGFM)) AttributeError);;
        df ← node_of_file pp n;
        modify (λ s, set_dirs (mf s) df s)
    | None => mret ()
    end.

Definition add_file (pe f : nat) : P unit :=
  s ← get;
  p ← lift (pe_at s pe);
  tpl ← lift (template_for (templateID p));
  x ← lift (file_obj s f);
  lift (guard_else (negb (bool_decide (is_Some (kv_get (pe_name x) (pe_files p))))) AttributeError);;
  on_pe pe (modify (λ p, set_pe_files (kv_set (pe_name x) f (pe_files p)) p));;
  if in_sequence p then
    if bool_decide (pe_name x = Some (lit "mf")) then
      lift (guard_else (bool_decide (mf s = None)) ValueError);;
      i ← on_tree (i ← FsNodeMF_init (Some f); link_file_node f i;; mret i);
      modify (λ s, set_dirs (Some i) (Some i) s)
    else
      s ← get;
      p ← lift (pe_at s pe);
      choose_df pe p tpl x;;
      s ← get;
      df ← lift (from_opt AttributeError (cur_df s));
      df ← on_tree (t ← get; lift (_ ← dir_at t df; Ok ());; node_add_file df f);
      modify (λ s, set_dirs (mf s) (Some df) s)
  else mret ().

(** [pe2files]: the loop over the entries. *)
Fixpoint make_files (pe : nat) (tdict : list (string * string)) (tpl : option ProfileTemplate) (l : dict) : P unit :=
  match l with
  | [] => mret ()
  | (k, v) :: l' =>
      ty ← lift (from_opt KeyError (kv_get k tdict));
      (if bool_decide (ty = "File"%string) then
         tpl' ← lift (from_opt AttributeError tpl);
         v ← lift (as_tuples v);
         f ← lift (File_init (Some (lit k)) (Some v) (file_by_pename tpl' (lit k)) None);
         f ← new_file_object f;
         add_file pe f
       else mret ());;
      make_files pe tdict tpl l'
  end.
Definition pe2files (pe : nat) : P unit :=
  s ← get;
  p ← lift (pe_at s pe);
  t ← lift (pe_type p);
  tdict ← lift (from_opt KeyError (pe_members t));
  tpl ← lift (template_for (templateID p));
  make_files pe tdict tpl (decoded p).

Definition files2pe (pe : nat) : P unit :=
  s ← get;
  p ← lift (pe_at s pe);
  for_each (pe_files p) (λ kf,
    s ← get;
    x ← lift (file_obj s kf.2);
    l ← lift (to_tuples x);
    k ← lift (from_opt TypeError kf.1);
    on_pe pe (modify (λ p, set_decoded (dict_set (string_of_list_ascii k) (of_tuples l) (decoded p)) p))).

Definition create_file (pe : nat) (pename : string) : P nat :=
  s ← get;
  p ← lift (pe_at s pe);
  tpl ← lift (template_for (templateID p));
  tpl ← lift (from_opt AttributeError tpl);
  f ← lift (File_init (Some (lit pename)) None (file_by_pename tpl (lit pename)) None);
  f ← new_file_object f;
  add_file pe f;;
  on_pe pe (modify (λ p, set_decoded (dict_set pename (VList []) (decoded p)) p));;
  mret f.

(** ** Generic file management (ProfileElementGFM) *)

Definition path_str (path : list (option Z)) : result str :=
  l ← map_r (λ o, n ← from_opt TypeError o; Ok (fmt_X 4 n)) path; Ok (join "/" l).

(** [cd]: leading identifiers of the MF are dropped. *)
Definition cd (path : list Z) : P unit :=
  s ← get;
  match strip_mf path with
  | [] => modify (set_dirs (mf s) (mf s))
  | q => m ← lift (from_opt AttributeError (mf s)); df ← lift (cd_from (p_tree s) m q); modify (set_dirs (mf s) (Some df))
  end.

(** [add_file]: [lookup] is the lookup of the path without its last part, by
    identifiers or by names; without a sequence the key is the text of the
    path. *)
Definition gfm_add_file (pe f : nat) (lookup : tree → nat → result nat) (path_text : str) : P unit :=
  s ← get;
  p ← lift (pe_at s pe);
  x ← lift (file_obj s f);
  parent ← (if in_sequence p then
              m ← lift (from_opt AttributeError (mf s));
              d ← lift (lookup (p_tree s) m);
              mret (Some d)
            else mret None);
  key ← (match parent with
         | Some d => l ← lift (fid_path (p_tree s) d); lift (path_str (l ++ [fid x]))
         | None => mret path_text
         end);
  lift (guard_else (negb (bool_decide (is_Some (kv_get (Some key) (pe_files p))))) KeyError);;
  on_pe pe (modify (λ p, set_pe_files (kv_set (Some key) f (pe_files p)) p));;
  match parent with
  | Some d =>
      df ← on_tree (t ← get; lift (_ ← dir_at t d; Ok ());; node_add_file d f);
      modify (λ s, set_dirs (mf s) (Some df) s)
  | None => mret ()
  end.

(** [str] of a list of integers *)
Definition list_text (l : list Z) : str := lit "[" ++ join ", " (map str_of_int l) ++ lit "]".

(** The function [perform] of [pe2files]. *)
Definition perform (pe : nat) (path : list Z) (file_elements : tuples) : P unit :=
  match file_elements with
  | [] => mret ()
  | _ =>
      s ← get;
      p ← lift (pe_at s pe);
      (if in_sequence p then cd path else mret ());;
      x ← lift (File_init None (Some file_elements) None None);
      f ← new_file_object x;
      name ← lift (path_str (map Some path ++ [fid x]));
      s ← get;
      modify (set_tree (set_files (<[f := set_gfm path name x]> (tree_files (p_tree s))) (p_tree s)));;
      i ← lift (from_opt TypeError (fid x));
      gfm_add_file pe f (λ t m, lookup_by_fidpath t m path) (list_text (path ++ [i]))
  end.

(** The loop over the commands: the path, and the entries of the file that is
    still to be made. *)
Fixpoint gfm_commands (pe : nat) (l : tuples) (path : list Z) (file_elements : tuples) : P (list Z * tuples) :=
  match l with
  | [] => mret (path, file_elements)
  | (k, v) :: l' =>
      if bool_decide (k = lit "filePath") then
        perform pe path file_elements;;
        b ← lift (as_bytes v);
        gfm_commands pe l' (if bool_decide (b = []) then [0x3f00] else 0x3f00 :: path_from_gfm b) []
      else if bool_decide (k = lit "createFCP") then
        perform pe path file_elements;;
        gfm_commands pe l' path [(lit "fileDescriptor", v)]
      else if bool_decide (k = lit "fillFileOffset") || bool_decide (k = lit "fillFileContent") then
        gfm_commands pe l' path (file_elements ++ [(k, v)])
      else raise ValueError
  end.
Fixpoint gfm_lists (pe : nat) (l : list value) (path : list Z) (file_elements : tuples) : P unit :=
  match l with
  | [] => perform pe path file_elements
  | fmc :: l' =>
      cmds ← lift (as_tuples fmc);
      '(path, file_elements) ← gfm_commands pe cmds path file_elements;
      gfm_lists pe l' path file_elements
  end.
Definition gfm_pe2files (pe : nat) : P unit :=
  s ← get;
  p ← lift (pe_at s pe);
  l ← lift (item (VDict (decoded p)) "fileManagementCMD");
  l ← lift (as_list l);
  gfm_lists pe l [0x3f00] [].

(** ** Encoding *)

Definition post_decode (pe : nat) : P unit :=
  s ← get;
  p ← lift (pe_at s pe);
  match pe_cls p with
  | PeSD | PeSSD => update_pe pe sd_post_decode
  | PeAKA => update_pe pe (λ p, Ok (_fixup_sqnInit_dec p))
  | PeGFM => gfm_pe2files pe
  | c => if is_fs c then pe2files pe else mret ()
  end.

Definition pre_encode (pe : nat) : P unit :=
  s ← get;
  p ← lift (pe_at s pe);
  match pe_cls p with
  | PeSD | PeSSD => on_pe pe sd_pre_encode
  | PeAKA => update_pe pe _fixup_sqnInit_enc
  | _ => mret ()
  end.

(** [ProfileElement.from_der] with the sequence *)
Definition pe_from_der (der : bytes) : P nat :=
  '(t, d) ← lift (asn1_decode der);
  p ← lift (match class_for_petype t with
            | Some c => PE_init c d default_header default_rfm true true
            | None => set_own_type t <$> PE_init PeGeneric d default_header default_rfm true true
            end);
  i ← new_pe p;
  post_decode i;;
  mret i.

Definition pe_to_der (pe : nat) : P bytes :=
  pre_encode pe;;
  s ← get;
  p ← lift (pe_at s pe);
  t ← lift (pe_type p);
  lift (asn1_encode t (decoded p)).

Fixpoint seq_to_der (l : list nat) : P bytes :=
  match l with [] => mret [] | i :: l' => b ← pe_to_der i; r ← seq_to_der l'; mret (b ++ r) end.
Definition to_der : P bytes := s ← get; seq_to_der (pe_list s).
End files.

(** ** Decoding *)

(** The tag parser of osmocom.tlv; what it and [bertlv_parse_len] leave is the
    end of their input. *)
Class BertlvTag `{OsmocomTlv} := { bertlv_parse_tag : bytes → result (tag_dict * bytes) }.
Class BertlvTagLaws `{BertlvTag} := {
  parse_tag_encode t r : one_byte_tag t ∨ two_byte_tag t → ∃ td, bertlv_parse_tag (bertlv_encode_tag t ++ r) = Ok (td, r);
  parse_tag_rest bs td r : bertlv_parse_tag bs = Ok (td, r) → ∃ t, bs = t ++ r ∧ t ≠ [];
  parse_len_rest bs n r : is_bytes bs → bertlv_parse_len bs = Ok (n, r) → (∃ t, bs = t ++ r) ∧ 0 <= n }.

Definition bertlv_first_segment `{BertlvTag} (binary : bytes) : result (bytes * bytes) :=
  '(_, remainder) ← bertlv_parse_tag binary;
  '(length, remainder) ← bertlv_parse_len remainder;
  let tl_length := len binary - len remainder in
  let tlv_length := tl_length + length in
  Ok (py_take tlv_length binary, drop (Z.to_nat tlv_length) binary).

Section decoding.
Context `{OsmocomUtils} `{Construct} `{SaipLib} `{BertlvTag}.

(** [while len(remainder)]: every turn takes at least one byte. *)
Fixpoint parse_loop (fuel : nat) (remainder : bytes) : P unit :=
  match remainder with
  | [] => mret ()
  | _ =>
      match fuel with
      | O => raise OutOfFuel
      | S n =>
          '(first_tlv, remainder) ← lift (bertlv_first_segment remainder);
          i ← pe_from_der first_tlv;
          modify (λ s, set_pe_list (pe_list s ++ [i]) s);;
          parse_loop n remainder
      end
  end.
Definition parse_der (der : bytes) : P unit :=
  modify (set_pe_list []);; parse_loop (length der) der;; _process_pelist.
End decoding.

(** ** Mandatory services and templates *)

Definition has_key (k : string) (v : value) : result bool :=
  match v with VDict d => Ok (bool_decide (is_Some (dict_get k d))) | _ => Err TypeError end.

(** A set of names, in the order they were added; the code's has none. *)
Definition set_add (x : string) (l : list string) : list string := if bool_decide (x ∈ l) then l else l ++ [x].

Definition manual_services : list string :=
  ["contactless"; "mbms"; "cat-tp"; "suciCalculatorApi"; "dns-resolution"; "scp11ac"; "scp11c-authorization-mechanism";
   "s16mode"; "eaka"]%string.

(** ['mandated' in pe.header] *)
Definition mandated (s : profile) (i : nat) : result bool := p ← pe_at s i; h ← header p; has_key "mandated" h.

(** Whether one of the elements is mandated. *)
Fixpoint any_mandated (s : profile) (l : list nat) : result bool :=
  match l with [] => Ok false | i :: l' => b ← mandated s i; r ← any_mandated s l'; Ok (b || r) end.

Fixpoint mandatory_naas (s : profile) (l : list (string * list (list nat))) : result (list string) :=
  match l with
  | [] => Ok []
  | (naa, insts) :: l' =>
      r ← (if bool_decide (naa ∈ ["usim"; "isim"; "csim"]%string) then
             firsts ← map_r (λ inst, idx inst 0) insts; any_mandated s firsts
           else Ok false);
      rs ← mandatory_naas s l';
      Ok (if (r : bool) then naa :: rs else rs)
  end.

(** The algorithm of one element akaParameter. *)
Definition algo_service (s : profile) (i : nat) : result (option string) :=
  m ← mandated s i;
  if (m : bool) then
    p ← pe_at s i;
    v ← item (VDict (decoded p)) "algoConfiguration"; l ← as_list v;
    choice ← idx l 0;
    if is_str choice "algoParameter" then
      par ← idx l 1;
      n ← item par "algorithmID";
      match n with
      | VInt 1 => Ok (Some "milenage"%string)
      | VInt 2 => k ← item par "key"; b ← as_bytes k; Ok (Some (if len b =? 32 then "tuak256"%string else "tuak128"%string))
      | VInt 3 => Ok (Some "usim-test-algorithm"%string)
      | _ => Ok None
      end
    else Ok None
  else Ok None.

(** [node.file.file_type] *)
Definition file_type_walker (t : tree) (i : nat) : result (option Templates.file_type) :=
  n ← node_at t i; f ← from_opt AttributeError (node_file n); x ← file_at t f; Ok (file_type x).

(** The lookup of the names usim, isim and csim among the instances of the
    last NAA of the first loop compares names with lists of elements and
    finds none; without any NAA the loop variable is unbound. *)
Definition multiple_services (s : profile) : result (list string) :=
  _ ← from_opt UnboundLocalError (head (pes_by_naa s)); Ok [].

Definition computed_services (s : profile) : result (list string) :=
  naas ← mandatory_naas s (pes_by_naa s);
  algos ← map_r (algo_service s) (get_pes_for_type "akaParameter" s);
  cave ← any_mandated s (get_pes_for_type "cdmaParameter" s);
  eap ← any_mandated s (get_pes_for_type "eap" s);
  javacard ← any_mandated s (get_pes_for_type "application" s);
  multiple ← multiple_services s;
  m ← from_opt AttributeError (mf s);
  types ← walk (p_tree s) (file_type_walker (p_tree s)) m;
  Ok (naas ++ omap id algos ++ (if (cave : bool) then ["cave"%string] else []) ++ (if (eap : bool) then ["eap"%string] else [])
      ++ (if (javacard : bool) then ["javacard"%string] else []) ++ multiple
      ++ (if bool_decide (Some FT_BT ∈ types) then ["ber-tlv"%string] else [])).

Definition rebuild_mandatory_services : P unit :=
  s ← get;
  svcs ← lift (computed_services s);
  h ← lift (get_pe_for_type "header" s);
  h ← lift (from_opt AttributeError h);
  p ← lift (pe_at s h);
  old ← lift (item (VDict (decoded p)) "eUICC-Mandatory-services"); old ← lift (as_dict old);
  let svc_set := foldl (λ l x, set_add x l) [] (svcs ++ List.filter (λ k, bool_decide (k ∈ manual_services)) (map fst old)) in
  update_pe h (λ p, Ok (set_decoded (dict_set "eUICC-Mandatory-services" (VDict (map (λ k, (k, VNone)) svc_set)) (decoded p)) p)).

(** The templates of the mandated elements; the code's list has no particular
    order. *)
Fixpoint mandated_templates (s : profile) (l : list nat) : result (list value) :=
  match l with
  | [] => Ok []
  | i :: l' =>
      p ← pe_at s i;
      h ← header p;
      m ← (if truth h then has_key "mandated" h else Ok false);
      r ← mandated_templates s l';
      Ok (match (m : bool), dict_get "templateID" (decoded p) with true, Some t => t :: r | _, _ => r end)
  end.
Definition value_eqb_str (a b : value) : bool := match a, b with VStr s, VStr t => bool_decide (s = t) | _, _ => false end.
Fixpoint dedup (l : list value) : list value :=
  match l with [] => [] | v :: l' => v :: List.filter (λ w, negb (value_eqb_str v w)) (dedup l') end.
Definition rebuild_mandatory_gfstelist : P unit :=
  s ← get;
  l ← lift (mandated_templates s (pe_list s));
  h ← lift (get_pe_for_type "header" s);
  h ← lift (from_opt AttributeError h);
  update_pe h (λ p, Ok (set_decoded (dict_set "eUICC-Mandatory-GFSTEList" (VList (dedup l)) (decoded p)) p)).

(** ** Removing a network access application *)

(** [template in l]: a list of texts, which [OID.__eq__] does not compare
    with; only of an empty list there is an answer. *)
Definition oid_in_list (tid : OID) (v : value) : result bool :=
  l ← as_list v; match l with [] => Ok false | _ => Err AttributeError end.

(** [File(adf_name, pe.decoded[adf_name]).df_name] *)
Definition adf_df_name `{OsmocomUtils} `{Construct} (name : string) (p : PE) : result (option bytes) :=
  v ← item (VDict (decoded p)) name;
  l ← as_tuples v;
  f ← File_init (Some (lit name)) (Some l) None None;
  Ok (df_name f).

(** Whether an element is an RFM for one of the ADFs. *)
Definition rfm_for (names : list (option bytes)) (s : profile) (i : nat) : result bool :=
  p ← pe_at s i;
  match dict_get "adfRFMAccess" (decoded p) with
  | Some v => aid ← item v "adfAID"; Ok (match aid with VBytes b => bool_decide (Some b ∈ names) | VNone => bool_decide (None ∈ names) | _ => false end)
  | None => Ok false
  end.
Fixpoint filter_r {A} (f : A → result bool) (l : list A) : result (list A) :=
  match l with [] => Ok [] | x :: l' => b ← f x; r ← filter_r f l'; Ok (if (b : bool) then x :: r else r) end.

Section naa.
Context `{OsmocomUtils} `{Construct} `{SaipLib}.

(** The header without the services of the application; then the question
    whether its templates are in the other list. *)
Definition remove_naa_services (naa : Naa) (p : PE) : result PE :=
  v ← item (VDict (decoded p)) "eUICC-Mandatory-services"; d ← as_dict v;
  Ok (set_decoded (dict_set "eUICC-Mandatory-services" (VDict (foldl (λ d k, dict_del k d) d (naa_mandatory_services naa))) (decoded p)) p).
Definition remove_naa_templates (naa : Naa) (p : PE) : result unit :=
  l ← item (VDict (decoded p)) "eUICC-Mandatory-GFSTEList";
  _ ← map_r (λ t, oid_in_list t l) (naa_templates naa);
  Ok ().

(** The elements of all instances of the application go. *)
Definition delete_instances (naa : Naa) : P unit :=
  modify (λ s, set_pe_list (foldl (λ l inst, List.filter (λ i, bool_decide (i ∉ inst)) l) (pe_list s)
                                  (default [] (kv_get (naa_name naa) (pes_by_naa s)))) s).
(** The RFM elements for the ADFs with these names go. *)
Definition delete_rfm (names : list (option bytes)) : P unit :=
  s ← get;
  match kv_get "rfm"%string (pe_by_type s) with
  | Some l =>
      to_delete_pes ← lift (filter_r (rfm_for names s) l);
      modify (λ s, set_pe_list (List.filter (λ i, bool_decide (i ∉ to_delete_pes)) (pe_list s)) s)
  | None => mret ()
  end.

Definition remove_naas_of_type (naa : Naa) : P unit :=
  s ← get;
  hs ← lift (from_opt KeyError (kv_get "header"%string (pe_by_type s)));
  hdr ← lift (idx hs 0);
  update_pe hdr (remove_naa_services naa);;
  s ← get;
  p ← lift (pe_at s hdr);
  lift (remove_naa_templates naa p);;
  t0 ← lift (idx (pe_types naa) 0);
  names ← lift (match kv_get t0 (pe_by_type s) with
                | Some l => map_r (λ i, p ← pe_at s i; n ← adf_name naa; adf_df_name n p) l
                | None => Ok []
                end);
  delete_instances naa;;
  _process_pelist;;
  delete_rfm names;;
  _process_pelist.

(** ** A minimal sequence *)

Definition add_hdr_and_end : P unit :=
  s ← get;
  lift (guard_else (bool_decide (pe_list s = [])) ValueError);;
  h ← lift (PE_init PeHeader [] default_header default_rfm true false);
  h ← new_pe h;
  append h;;
  e ← lift (PE_init PeEnd [] default_header default_rfm true false);
  e ← new_pe e;
  append e.

(** ** Elements by path *)

Definition naa_for_path (path : Path) : option Naa :=
  match relative_to_mf path with
  | [] => None
  | df :: _ =>
      if bool_decide (df = lit "ADF.USIM") then Some NaaUsim
      else if bool_decide (df = lit "ADF.ISIM") then Some NaaIsim
      else if bool_decide (df = lit "ADF.CSIM") then Some NaaCsim else None
  end.

(** [pe_cls().file_template_for_path(...)]; a type without a class cannot be
    called. *)
Definition class_template (c : option pe_class) (path : Path) (adf : option str) : result (option FileTemplate) :=
  c ← from_opt TypeError c;
  p ← PE_init c [] default_header default_rfm true false;
  file_template_for_path p path adf.

Fixpoint naa_peclass (naa : Naa) (path : Path) (l : list string) : result (pe_class * option FileTemplate) :=
  match l with
  | [] => Ok (PeGFM, None)
  | t :: l' =>
      ft ← class_template (class_for_petype t) (relative_to_mf path) (Some (lit "ADF." ++ str_upper (lit (naa_name naa))));
      match ft with
      | Some f => c ← from_opt TypeError (class_for_petype t); Ok (c, Some f)
      | None => naa_peclass naa path l'
      end
  end.

(** The class when its template has the file, else generic file management. *)
Definition or_gfm (c : pe_class) (path : Path) : result (pe_class * option FileTemplate) :=
  ft ← class_template (Some c) path None;
  Ok (match ft with Some f => (c, Some f) | None => (PeGFM, None) end).

Definition peclass_for_path (path : Path) : result (pe_class * option FileTemplate) :=
  match naa_for_path path with
  | Some naa => naa_peclass naa path (pe_types naa)
  | None =>
      let rel_path := relative_to_mf path in
      match rel_path with
      | [] => ft ← class_template (Some PeMF) [lit "MF"] None; Ok (PeMF, ft)
      | f :: _ =>
          if startswith f (lit "EF") || bool_decide (path = [lit "MF"]) then or_gfm PeMF path
          else if bool_decide (f = lit "DF.CD") then or_gfm PeCD rel_path
          else if bool_decide (f = lit "DF.TELECOM") then or_gfm PeTelecom rel_path
          else Ok (PeGFM, None)
      end
  end.

Definition pe_for_path (path : Path) : P (nat * option FileTemplate) :=
  '(c, ft) ← lift (peclass_for_path path);
  t ← lift (from_opt AttributeError (class_type c));
  s ← get;
  pe ← lift (get_pe_for_type t s);
  match pe with
  | Some i => mret (i, ft)
  | None =>
      p ← lift (PE_init c [] default_header default_rfm true true);
      i ← new_pe p;
      append i;;
      mret (i, ft)
  end.

Definition add_file_at_path (path : Path) (l : tuples) : P nat :=
  '(pe, ft) ← pe_for_path path;
  n ← lift (zidx path (-1));
  x ← lift (File_init (t_pe_name <$> ft) (Some l) ft (Some n));
  f ← new_file_object x;
  s ← get;
  p ← lift (pe_at s pe);
  (if bool_decide (pe_cls p = PeGFM)
   then gfm_add_file pe f (λ t m, lookup_by_path t m (Path_init (PathNames (removelast path)))) (Path_str path)
   else add_file pe f);;
  mret f.

(** ** The ICCID of a profile *)

Definition iccid (s : profile) : result (option str) :=
  match kv_get "header"%string (pe_by_type s) with
  | Some (i :: _) =>
      p ← pe_at s i;
      match dict_get "iccid" (decoded p) with
      | Some v => b ← as_bytes v; Ok (Some (b2h b))
      | None => Ok None
      end
  | _ => Ok None
  end.

(** [ProfileElementUSIM.imsi], [adf_name] *)
Definition usim_imsi (p : PE) : result (option str) :=
  tpl ← template_for (templateID p);
  v ← item (VDict (decoded p)) "ef-imsi";
  tpl ← from_opt AttributeError tpl;
  l ← as_tuples v;
  f ← File_init (Some (lit "ef-imsi")) (Some l) (file_by_pename tpl (lit "ef-imsi")) None;
  b ← match body f with Some (Content b) => Ok b | _ => Err TypeError end;
  dec_imsi (b2h b).
End naa.
