(* ===== verification/SaipSequenceProps.v ===== *)
(** Properties of the sequence of profile elements: its numbering and its
    indexes, removing applications, and decoding what was encoded. *)

From Stdlib Require Import String.
From S2P Require Import Prelude Osmocom Utils Construct Oid Filesystem Templates TemplateData SaipFile SaipTree SaipElements SaipSequence.

#[local] Open Scope list_scope.

(** ** Numbering *)

(** An element with a type whose header, when there is one, is a dict. *)
Definition proper_pe (p : PE) : Prop := header p = Ok VNone ∨ ∃ d, header p = Ok (VDict d).
Definition proper (s : profile) (i : nat) : Prop := ∃ p, pes s !! i = Some p ∧ proper_pe p.

#[export] Instance proper_pe_dec p : Decision (proper_pe p).
Proof.
  unfold proper_pe. destruct (header p) as [[]|]; try (right; naive_solver); left; eauto.
Defined.
#[export] Instance proper_dec s i : Decision (proper s i).
Proof.
  unfold proper. destruct (pes s !! i) as [p|]; [|right; naive_solver].
  destruct (decide (proper_pe p)); [left; eauto|right; naive_solver].
Defined.

(** The identifications of the elements [l], leaving out those without a
    header. *)
Fixpoint identifications (s : profile) (l : list nat) : result (list value) :=
  match l with
  | [] => Ok []
  | i :: l' =>
      p ← pe_at s i;
      h ← header p;
      if truth h then v ← item h "identification"; r ← identifications s l'; Ok (v :: r) else identifications s l'
  end.

(** The same element but for its number. *)
Definition renumbered (p p' : PE) : Prop := p' = p ∨ ∃ i, set_identification i p = Ok p'.

Lemma dict_get_set k j v d : dict_get j (dict_set k v d) = if String.eqb j k then Some v else dict_get j d.
Proof.
  induction d as [|[y w] d IH]; simpl; [done|].
  destruct (String.eqb_spec k y) as [->|Hky]; simpl; [by destruct (String.eqb j y)|].
  rewrite IH. destruct (String.eqb_spec j y) as [->|]; [|done].
  destruct (String.eqb_spec y k); congruence.
Qed.

Lemma header_name_decoded d p : header_name (set_decoded d p) = header_name p.
Proof. done. Qed.

Lemma dict_set_truth k v d : truth (VDict (dict_set k v d)) = true.
Proof. destruct d as [|[]]; simpl; [done|]. by case_match. Qed.

(** A header that is there gets its number. *)
Lemma set_identification_header i p d : header p = Ok (VDict d) →
  ∃ p', set_identification i p = Ok p' ∧ header p' = Ok (VDict (dict_set "identification" (VInt i) d)).
Proof.
  unfold header, set_identification. destruct (header_name p) as [[n|]|] eqn:E; simpl; [|discriminate..].
  intros H. injection H as H. destruct (dict_get n (decoded p)) as [v|] eqn:Ev; simplify_eq/=.
  eexists. split; [done|]. rewrite header_name_decoded, E. simpl.
  by rewrite dict_get_set, String.eqb_refl.
Qed.

Lemma renumbered_type p p' : renumbered p p' → pe_type p' = pe_type p.
Proof.
  intros [->|[i H]]; [done|]. unfold set_identification in H.
  destruct (header_name p) as [[n|]|]; simpl in H; [|discriminate..].
  by destruct (as_dict _); simplify_eq/=.
Qed.

Lemma identifications_ext s s' l : (∀ i, i ∈ l → pes s !! i = pes s' !! i) → identifications s l = identifications s' l.
Proof.
  induction l as [|i l IH]; intros H; simpl; [done|].
  unfold pe_at. rewrite (H i) by set_solver. rewrite IH; [done|set_solver].
Qed.

(** The elements of [s'] are those of [s] up to [R]. *)
Definition pes_rel (R : PE → PE → Prop) (s s' : profile) : Prop :=
  length (pes s') = length (pes s) ∧ ∀ j p, pes s !! j = Some p → ∃ p', pes s' !! j = Some p' ∧ R p p'.

Lemma pes_rel_refl (R : PE → PE → Prop) s : (∀ p, R p p) → pes_rel R s s.
Proof. intros HR. split; [done|eauto]. Qed.

Lemma update_pe_run i f s p p' : pes s !! i = Some p → f p = Ok p' → update_pe i f s = (Ok (), set_pes (<[i := p']> (pes s)) s).
Proof. intros Hp Hf. unfold update_pe, on_pe, pe_at. mrun. rewrite Hp. cbn. mrun. by rewrite Hf. Qed.

Lemma proper_insert s e p p' j : pes s !! e = Some p → j ≠ e → proper s j → proper (set_pes (<[e := p']> (pes s)) s) j.
Proof. intros He Hj [q [Hq Hp]]. exists q. simpl. by rewrite list_lookup_insert_ne. Qed.

(** The whole loop: it numbers the elements, which stay what they are. *)
Lemma renumber_spec l : ∀ i s, NoDup l → Forall (proper s) l →
  ∃ s' n, renumber l i s = (Ok (), s') ∧ s' = set_pes (pes s') s
    ∧ pes_rel renumbered s s' ∧ (∀ j, j ∉ l → pes s' !! j = pes s !! j)
    ∧ identifications s' l = Ok (map VInt (seqZ i n)) ∧ 0 <= n.
Proof.
  induction l as [|e l IH]; intros i s Hn Hp.
  { exists s, 0. repeat split; [by destruct s|intros j p ?; exists p; split; [done|by left]|done]. }
  apply list.NoDup_cons in Hn as [He Hn]. apply list.Forall_cons in Hp as [(p & Hl & Hpr) Hp].
  simpl. mrun. unfold pe_at. rewrite Hl. cbn. mrun.
  assert (∃ h, header p = Ok h ∧ (truth h = true → ∃ d, h = VDict d)) as (h & Hh & Hd)
    by (destruct Hpr as [|[d ?]]; eexists; (split; [eassumption|]); [done|eauto]).
  rewrite Hh. cbn. mrun. destruct (truth h) eqn:Ht.
  - destruct (Hd eq_refl) as [d ->]. destruct (set_identification_header i p d Hh) as (p' & Hs & Hh').
    rewrite M_bind_eq, (update_pe_run e _ s p p') by done.
    set (s1 := set_pes _ s).
    assert (Hp1 : Forall (proper s1) l) by (rewrite list.Forall_forall in *; intros j Hj; apply (proper_insert s e p); set_solver).
    destruct (IH (i + 1) s1 Hn Hp1) as (s' & n & Hr & Es & [Hlen Hrel] & Hout & Hid & Hn0).
    assert (Hep : pes s' !! e = Some p')
      by (rewrite Hout by done; simpl; by rewrite list_lookup_insert_eq by eauto using lookup_lt_Some).
    exists s', (n + 1). split; [exact Hr|]. split; [by rewrite Es|]. split; [|split; [|split; [|lia]]].
    + split; [rewrite Hlen; simpl; apply length_insert|]. intros j q Hq.
      destruct (decide (j = e)) as [->|Hj]; [replace q with p by congruence; eexists; split; [done|by right; exists i]|].
      apply Hrel. simpl. by rewrite list_lookup_insert_ne by done.
    + intros j Hj. rewrite Hout by set_solver. simpl. apply list_lookup_insert_ne. set_solver.
    + unfold pe_at. rewrite Hep. cbn. rewrite Hh'. rewrite R_bind_Ok, dict_set_truth. unfold item.
      rewrite dict_get_set, String.eqb_refl. simpl. rewrite Hid. simpl.
      rewrite (seqZ_cons i (n + 1)) by lia. by replace (Z.pred (n + 1)) with n by lia.
  - destruct (IH i s Hn Hp) as (s' & n & Hr & Es & Hrel & Hout & Hid & Hn0).
    exists s', n. repeat split; try done; [apply Hrel..|intros j Hj; apply Hout; set_solver|].
    unfold pe_at. rewrite Hout, Hl by set_solver. cbn. rewrite Hh. cbn. by rewrite Ht.
Qed.

(** ** The index by type *)

Definition typed (s : profile) (t : string) (i : nat) : bool :=
  match type_at s i with Ok t' => bool_decide (t' = t) | Err _ => false end.

Definition typeable (s : profile) (i : nat) : Prop := ∃ t, type_at s i = Ok t.

Lemma proper_typed s i : proper s i → typeable s i.
Proof.
  intros (p & Hp & Hh). unfold typeable, type_at, pe_at. rewrite Hp. cbn.
  destruct (pe_type p) as [t|] eqn:E; [by exists t|].
  unfold proper_pe, header, header_name in Hh. rewrite E in Hh. cbn in Hh. naive_solver.
Qed.

Lemma propers_typed s l : Forall (proper s) l → Forall (typeable s) l.
Proof. rewrite !list.Forall_forall. intros H i Hi. by apply proper_typed, H. Qed.

Lemma by_type_ok s l : ∀ d, Forall (typeable s) l → ∃ d', by_type s l d = Ok d'.
Proof.
  induction l as [|i l IH]; intros d H; simpl; [by exists d|].
  apply list.Forall_cons in H as [(t & Ht) H]. rewrite Ht. cbn. by apply IH.
Qed.

Lemma by_type_get s l t : ∀ d d', by_type s l d = Ok d' →
  default [] (kv_get t d') = default [] (kv_get t d) ++ List.filter (typed s t) l.
Proof.
  induction l as [|i l IH]; intros d d' H; simpl in *; [simplify_eq; by rewrite app_nil_r|].
  apply bind_ok in H as (ti & Ht & H). rewrite (IH _ _ H). unfold typed at 2. rewrite Ht. unfold add_by_type.
  destruct (decide (t = ti)) as [->|Hn].
  - rewrite bool_decide_eq_true_2 by done. destruct (kv_get ti d) eqn:E; rewrite kv_get_set, decide_True by done; simpl; [|done].
    by rewrite <- app_assoc.
  - rewrite bool_decide_eq_false_2 by congruence. by destruct (kv_get ti d) eqn:E; rewrite kv_get_set, decide_False by done.
Qed.

Lemma by_naa_ok s l : ∀ c cl d, Forall (typeable s) l → ∃ d', by_naa s l c cl d = Ok d'.
Proof.
  induction l as [|i l IH]; intros c cl d H; simpl; [eauto|].
  apply list.Forall_cons in H as [(t & Ht) H]. rewrite Ht. cbn.
  repeat case_bool_decide; by apply IH.
Qed.

(** What the index by type is to be. *)
Definition type_indexed (s : profile) : Prop := ∀ t, get_pes_for_type t s = List.filter (typed s t) (pe_list s).
Definition numbered (s : profile) : Prop := ∃ n, identifications s (pe_list s) = Ok (map VInt (seqZ 1 n)).

Lemma typed_rel s s' t i : pes_rel renumbered s s' → proper s i → typed s' t i = typed s t i.
Proof.
  intros [_ Hr] (p & Hp & _). destruct (Hr i p Hp) as (p' & Hp' & R). unfold typed, type_at, pe_at.
  rewrite Hp, Hp'. cbn. by rewrite (renumbered_type p p').
Qed.

Lemma filter_ext_in {A} (f g : A → bool) l : (∀ x, x ∈ l → f x = g x) → List.filter f l = List.filter g l.
Proof.
  induction l as [|x l IH]; intros H; simpl; [done|]. rewrite (H x), IH by set_solver. done.
Qed.

(** Every change of the list ends this way: the list, the indexes, the
    numbers. *)
Definition reindex (l : list nat) : P unit :=
  modify (set_pe_list l);; _process_pelist;; renumber_identification.

Lemma reindex_spec l s : NoDup l → Forall (proper s) l →
  ∃ s', reindex l s = (Ok (), s') ∧ pe_list s' = l ∧ type_indexed s' ∧ numbered s' ∧ pes_rel renumbered s s'
    ∧ p_tree s' = p_tree s ∧ mf s' = mf s ∧ cur_df s' = cur_df s.
Proof.
  intros Hn Hp. pose proof (propers_typed s l Hp) as Hty. unfold reindex, _process_pelist, renumber_identification. mrun. simpl.
  destruct (by_type_ok (set_pe_list l s) l [] Hty) as [d Hd]. rewrite Hd. mrun. simpl.
  destruct (by_naa_ok (set_pe_list l s) l None [] (pes_by_naa s) Hty) as [d2 Hd2]. simpl in Hd2. rewrite Hd2. mrun. simpl.
  set (s1 := set_index d d2 (set_pe_list l s)).
  destruct (renumber_spec l 1 s1 Hn Hp) as (s' & n & Hr & Es & Hrel & _ & Hid & Hn0).
  exists s'. split; [exact Hr|]. assert (Hl : pe_list s' = l) by by rewrite Es.
  split; [done|]. split; [|split; [exists n; by rewrite Hl|split; [exact Hrel|by rewrite Es]]].
  intros t. unfold get_pes_for_type. rewrite Hl. replace (pe_by_type s') with d by by rewrite Es.
  rewrite (by_type_get _ _ t _ _ Hd). simpl. apply filter_ext_in. intros i Hi.
  rewrite list.Forall_forall in Hp. symmetry. apply (typed_rel s1); [done|]. by apply Hp.
Qed.

(** ** Adding elements *)

(** The operations that add the element [pe], and where they are to put it. *)
Inductive addition := Append | InsertAt (idx : Z) | InsertAfter (before : nat) | AddSsd.

Definition run_addition (a : addition) (pe : nat) : P unit :=
  match a with
  | Append => append pe
  | InsertAt i => insert_at_index i pe
  | InsertAfter b => insert_after_pe b pe
  | AddSsd => add_ssd pe
  end.

Fixpoint after_first (f : nat → bool) (x : nat) (l : list nat) : option (list nat) :=
  match l with
  | [] => None
  | y :: l' => if f y then Some (y :: x :: l') else cons y <$> after_first f x l'
  end.

Definition addition_spec (a : addition) (pe : nat) (s : profile) : result (list nat) :=
  match a with
  | Append => Ok (pe_list s ++ [pe])
  | InsertAt i => Ok (list_insert_at i pe (pe_list s))
  | InsertAfter b => from_opt ValueError (after_first (λ x, bool_decide (x = b)) pe (pe_list s))
  | AddSsd => from_opt IndexError (after_first (typed s "securityDomain") pe (pe_list s))
  end.

Lemma list_insert_at_perm {A} i (x : A) l : list_insert_at i x l ≡ₚ x :: l.
Proof. unfold list_insert_at. rewrite <- Permutation_middle. by rewrite take_drop. Qed.

Lemma after_first_perm f x l l' : after_first f x l = Some l' → l' ≡ₚ x :: l.
Proof.
  revert l'. induction l as [|y l IH]; intros l' H; simpl in H; [done|].
  destruct (f y); simplify_eq; [by constructor|].
  destruct (after_first f x l) eqn:E; simplify_eq/=. rewrite (IH _ eq_refl). by constructor.
Qed.

Lemma addition_spec_perm a pe s l : addition_spec a pe s = Ok l → l ≡ₚ pe :: pe_list s.
Proof.
  destruct a; simpl; intros H; simplify_eq.
  - by rewrite Permutation_app_comm.
  - apply list_insert_at_perm.
  - apply from_opt_ok in H. by apply after_first_perm in H.
  - apply from_opt_ok in H. by apply after_first_perm in H.
Qed.

(** An insertion after position [i] is one in the middle. *)
Lemma list_insert_next (l : list nat) i x y : l !! i = Some y →
  list_insert_at (Z.of_nat i + 1) x l = take (S i) l ++ x :: drop (S i) l.
Proof.
  intros Hl%lookup_lt_Some. unfold list_insert_at, len.
  rewrite (proj2 (Z.ltb_ge _ _)) by lia. replace (Z.to_nat _) with (S i) by lia. done.
Qed.

Lemma after_first_index b x l :
  after_first (λ y, bool_decide (y = b)) x l = (λ i, list_insert_at (Z.of_nat i + 1) x l) <$> index_of b l
  ∧ (∀ i, index_of b l = Some i → l !! i = Some b).
Proof.
  induction l as [|y l [IH1 IH2]]; simpl; [done|].
  destruct (decide (y = b)) as [->|Hn].
  - rewrite bool_decide_eq_true_2 by done. split; [|naive_solver].
    simpl. f_equal. by rewrite (list_insert_next (b :: l) 0 x b).
  - rewrite bool_decide_eq_false_2 by done. rewrite IH1. destruct (index_of b l) as [i|]; simpl; [|done].
    split; [|naive_solver]. f_equal.
    rewrite (list_insert_next (y :: l) (S i) x b) by (simpl; by apply IH2).
    by rewrite (list_insert_next l i x b) by by apply IH2.
Qed.

Lemma indexes_head s t x l : ∀ i, Forall (proper s) l → ∃ r, indexes_by_type s t i l = Ok r
  ∧ match r with
    | [] => after_first (typed s t) x l = None
    | j :: _ => ∃ k y, j = i + Z.of_nat k ∧ l !! k = Some y ∧ after_first (typed s t) x l = Some (take (S k) l ++ x :: drop (S k) l)
    end.
Proof.
  induction l as [|e l IH]; intros i H; simpl; [by exists []|].
  apply list.Forall_cons in H as [(te & Ht)%proper_typed H].
  destruct (IH (i + 1) H) as (r & Hr & Hm). unfold typed at 1 3. rewrite Ht, Hr. cbn.
  case_bool_decide; eexists; (split; [done|]).
  - exists 0%nat, e. split; [lia|done].
  - destruct r as [|j r]; [by rewrite Hm|]. destruct Hm as (k & y & -> & Hk & ->).
    exists (S k), y. split; [lia|done].
Qed.


(** A sequence of header, MF, security domain and end, with two elements more
    that are not in it. *)
Module Example_.
Definition element (c : pe_class) (d : dict) : PE :=
  {| pe_cls := c; own_type := None; decoded := d; pe_files := []; in_sequence := true; pe_keys := []; pe_usip := [] |}.
Definition numbered_header (n : string) (i : Z) : dict := [(n, VDict [("identification"%string, VInt i)])].
Definition sequence : profile :=
  {| pes := [element PeHeader [("major-version"%string, VInt 2)]; element PeMF (numbered_header "mf-header" 1);
             element PeSD (numbered_header "sd-Header" 2); element PeEnd (numbered_header "end-header" 3);
             element PeRFM (numbered_header "rfm-header" 9); element PeUSIM (numbered_header "usim-header" 9)];
     p_tree := {| nodes := []; tree_files := [] |}; pe_list := [0; 1; 2; 3]%nat; pe_by_type := []; pes_by_naa := [];
     mf := None; cur_df := None |}.

(** One with a USIM, an RFM element for its ADF and one for another. *)
Definition rfm (aid : bytes) (i : Z) : PE :=
  element PeRFM (numbered_header "rfm-header" i ++ [("adfRFMAccess"%string, VDict [("adfAID"%string, VBytes aid)])]).
Definition header_element (svcs : dict) (l : list value) : PE :=
  element PeHeader [("eUICC-Mandatory-services", VDict svcs); ("eUICC-Mandatory-GFSTEList", VList l)]%string.
Definition usim : PE :=
  element PeUSIM (numbered_header "usim-header" 2
    ++ [("adf-usim"%string, VList [VList [VStr (lit "fileDescriptor");
           VDict [("fileDescriptor", VBytes [0x78; 0x21]); ("dfName", VBytes [0xA0; 1])]%string]])]).
Definition with_usim (l : list value) : profile :=
  {| pes := [header_element [("usim", VNone); ("milenage", VNone)]%string l; usim; element PeAKA (numbered_header "aka-header" 3);
             rfm [0xA0; 1] 4; rfm [0xA0; 2] 5; element PeEnd (numbered_header "end-header" 6)];
     p_tree := {| nodes := []; tree_files := [] |}; pe_list := [0; 1; 2; 3; 4; 5]%nat;
     pe_by_type := [("header", [0]); ("usim", [1]); ("akaParameter", [2]); ("rfm", [3; 4]); ("end", [5])]%nat%string;
     pes_by_naa := [("usim"%string, [[1; 2]%nat])]; mf := None; cur_df := None |}.
End Example_.


(** ** The index by network access application *)

Definition in_types (s : profile) (ts : list string) (i : nat) : bool :=
  match type_at s i with Ok t => bool_decide (t ∈ ts) | Err _ => false end.
Definition related (s : profile) (i : nat) : bool := negb (in_types s petype_not_naa_related i).
Definition starts_naa (s : profile) (i : nat) : bool := in_types s naa_types i.

Fixpoint from_first (f : nat → bool) (l : list nat) : list nat :=
  match l with [] => [] | x :: l' => if f x then l else from_first f l' end.

(** An instance: an element of one of the applications' own types, then
    elements of other types. *)
Definition instance_of (s : profile) (n : string) (l : list nat) : Prop :=
  ∃ h t, l = h :: t ∧ typed s n h = true ∧ starts_naa s h = true ∧ Forall (λ i, starts_naa s i = false) t.

Definition named (n : string) (gs : list (string * list nat)) : list (list nat) :=
  map snd (List.filter (λ g, bool_decide (g.1 = n)) gs).

Lemma named_cons n m l gs : named n ((m, l) :: gs) = (if decide (m = n) then [l] else []) ++ named n gs.
Proof. unfold named. simpl. case_bool_decide; by case_decide. Qed.

Lemma add_instance_get naa l d n :
  default [] (kv_get n (add_instance_of naa l d)) = default [] (kv_get n d) ++ (if decide (naa = n) then [l] else []).
Proof.
  unfold add_instance_of. rewrite kv_get_set. destruct (decide (n = naa)) as [->|Hn].
  - by rewrite decide_True.
  - rewrite decide_False by congruence. by rewrite app_nil_r.
Qed.

(** The current instance, when there is one. *)
Definition current_ok (s : profile) (c : option string) (cl : list nat) : Prop :=
  match c with Some n => instance_of s n cl | None => True end.

Lemma instance_grows s n l i : instance_of s n l → starts_naa s i = false → instance_of s n (l ++ [i]).
Proof.
  intros (h & t & -> & Hh & Hs & Ht) Hi. exists h, (t ++ [i]). repeat split; try done.
  apply Forall_app. split; [done|by constructor].
Qed.

Lemma by_naa_groups s l : ∀ c cl d, Forall (typeable s) l → current_ok s c cl →
  ∃ d' gs, by_naa s l c cl d = Ok d'
    ∧ (∀ n, default [] (kv_get n d') = default [] (kv_get n d) ++ named n gs)
    ∧ Forall (λ g, instance_of s g.1 g.2) gs
    ∧ concat (map snd gs) = match c with
                            | Some _ => cl ++ List.filter (related s) l
                            | None => from_first (starts_naa s) (List.filter (related s) l)
                            end.
Proof.
  induction l as [|i l IH]; intros c cl d Hp Hc.
  - destruct c as [m|].
    + exists (add_instance_of m cl d), [(m, cl)]. destruct Hc as (h & t & -> & Hc). repeat split.
      * intros n. by rewrite add_instance_get, named_cons, app_nil_r.
      * constructor; [|done]. by exists h, t.
    + exists d, []. repeat split; [|done]. intros n. by rewrite app_nil_r.
  - apply list.Forall_cons in Hp as [(t & Ht) Hp]. simpl.
    assert (Hre : related s i = negb (bool_decide (t ∈ petype_not_naa_related))) by (unfold related, in_types; by rewrite Ht).
    rewrite Ht, Hre. cbn. case_bool_decide as Hr; simpl; [by apply IH|].
    assert (Hst : starts_naa s i = bool_decide (t ∈ naa_types)) by (unfold starts_naa, in_types; by rewrite Ht).
    case_bool_decide as Hn.
    + destruct (IH (Some t) [i] (match c with Some n => add_instance_of n cl d | None => d end) Hp) as (d' & gs & -> & Hg & Hf & Hcat).
      { exists i, []. repeat split; [|done|done]. unfold typed. rewrite Ht. by apply bool_decide_eq_true_2. }
      destruct c as [m|]; simpl in Hg, Hcat |- *.
      * exists d', ((m, cl) :: gs). repeat split; [|by constructor|simpl; by rewrite Hcat].
        intros n. by rewrite Hg, add_instance_get, named_cons, app_assoc.
      * exists d', gs. rewrite Hst. repeat split; done.
    + destruct (IH c (cl ++ [i]) d Hp) as (d' & gs & -> & Hg & Hf & Hcat).
      { destruct c; [|done]. by apply instance_grows. }
      exists d', gs. repeat split; try done. destruct c; simpl; [by rewrite Hcat, <- app_assoc|by rewrite Hst].
Qed.

(** C32: [_process_pelist] splits the elements that belong to an application
    into instances, each an element mf, usim, isim or csim with what follows
    it up to the next one. It adds them to the instances the index has: the
    index is not emptied first, and instances of earlier lists stay in it. *)
Theorem process_pelist_instances s : Forall (typeable s) (pe_list s) →
  ∃ s' gs, _process_pelist s = (Ok (), s')
    ∧ concat (map snd gs) = from_first (starts_naa s) (List.filter (related s) (pe_list s))
    ∧ Forall (λ g, instance_of s g.1 g.2) gs
    ∧ (∀ n, default [] (kv_get n (pes_by_naa s')) = default [] (kv_get n (pes_by_naa s)) ++ named n gs)
    ∧ type_indexed s' ∧ pe_list s' = pe_list s ∧ pes s' = pes s.
Proof.
  intros Hp. unfold _process_pelist. mrun.
  destruct (by_type_ok s (pe_list s) [] Hp) as [d Hd]. rewrite Hd. mrun.
  destruct (by_naa_groups s (pe_list s) None [] (pes_by_naa s) Hp I) as (d' & gs & Hb & Hg & Hf & Hc). rewrite Hb. mrun.
  eexists _, gs. split; [done|]. repeat split; try done.
  intros t. exact (by_type_get _ _ t _ _ Hd).
Qed.

(** Processing the same list twice doubles its instances. *)
Lemma process_pelist_instances_witness :
  ∃ s', _process_pelist (set_index [] [("mf"%string, [[1%nat]])] Example_.sequence) = (Ok (), s')
    ∧ kv_get "mf"%string (pes_by_naa s') = Some [[1]; [1]]%nat.
Proof.
  destruct (process_pelist_instances (set_index [] [("mf"%string, [[1%nat]])] Example_.sequence)) as (s' & gs & Hr & _).
  - apply propers_typed, (bool_decide_eq_true_1 _). vm_compute. reflexivity.
  - exists s'. split; [exact Hr|]. vm_compute in Hr. injection Hr as <-. reflexivity.
Defined.

(** ** Removing applications *)

Lemma dict_get_del k j d : dict_get j (dict_del k d) = if String.eqb j k then None else dict_get j d.
Proof.
  induction d as [|[y v] d IH]; simpl; [by destruct (String.eqb j k)|].
  destruct (String.eqb_spec k y) as [->|Hk]; simpl; rewrite ?IH.
  - destruct (String.eqb_spec j y); done.
  - destruct (String.eqb_spec j y) as [->|]; [|done]. destruct (String.eqb_spec y k); congruence.
Qed.

Lemma dict_get_dels ks j d : dict_get j (foldl (λ d k, dict_del k d) d ks) = if bool_decide (j ∈ ks) then None else dict_get j d.
Proof.
  revert d. induction ks as [|k ks IH]; intros d; simpl; [done|].
  rewrite IH, dict_get_del. destruct (String.eqb_spec j k) as [->|Hj].
  - rewrite (bool_decide_eq_true_2 (k ∈ k :: ks)) by set_solver. by case_bool_decide.
  - repeat case_bool_decide; set_solver.
Qed.

Lemma filter_r_ok {A} (f : A → result bool) l l' : filter_r f l = Ok l' → ∀ x, x ∈ l' ↔ x ∈ l ∧ f x = Ok true.
Proof.
  revert l'. induction l as [|y l IH]; intros l' H x; simpl in H; [simplify_eq; set_solver|].
  apply bind_ok in H as (b & Hb & H). apply bind_ok in H as (r & Hr & H). specialize (IH r Hr x).
  destruct b; injection H as <-; rewrite !elem_of_cons, IH; split;
  [intros [->|[]]|intros [[->|] ?]|intros []|intros [[->|] ?]]; eauto; congruence.
Qed.

(** Removing one instance after the other is removing all. *)
Lemma remove_instances (insts : list (list nat)) l :
  foldl (λ l inst, List.filter (λ i, bool_decide (i ∉ inst)) l) l insts
  = List.filter (λ i, bool_decide (i ∉ concat insts)) l.
Proof.
  revert l. induction insts as [|inst insts IH]; intros l; simpl.
  - symmetry. rewrite (filter_ext_in _ (λ _, true)) by (intros; apply bool_decide_eq_true_2; set_solver).
    induction l as [|x l IHl]; simpl; by rewrite ?IHl.
  - rewrite IH. induction l as [|x l IHl]; simpl; [done|]. rewrite <- IHl.
    destruct (decide (x ∈ inst)), (decide (x ∈ concat insts));
      repeat first [rewrite bool_decide_eq_true_2 by set_solver | rewrite bool_decide_eq_false_2 by set_solver]; simpl;
      repeat first [rewrite bool_decide_eq_true_2 by set_solver | rewrite bool_decide_eq_false_2 by set_solver]; done.
Qed.

Lemma process_pelist_inv s s' : _process_pelist s = (Ok (), s') →
  s' = set_index (pe_by_type s') (pes_by_naa s') s ∧ type_indexed s'.
Proof.
  unfold _process_pelist. intros H. apply M_bind_ok in H as (x & s1 & [= <- <-] & H).
  apply M_bind_ok in H as (d & s1 & [=Hd <-] & H). apply M_bind_ok in H as (n & s1 & [=Hn <-] & H).
  injection H as <-. split; [done|]. intros t. exact (by_type_get _ _ t _ _ Hd).
Qed.

Lemma elem_of_filterb {A} (f : A → bool) x l : x ∈ List.filter f l ↔ x ∈ l ∧ f x = true.
Proof. rewrite !list_elem_of_In. apply filter_In. Qed.

Lemma filter_all {A} (f : A → bool) l : (∀ x, x ∈ l → f x = true) → List.filter f l = l.
Proof. induction l as [|x l IH]; intros H; simpl; [done|]. rewrite H, IH by set_solver. done. Qed.

Lemma filter_nil {A} (f : A → bool) l x : List.filter f l = [] → x ∈ l → f x = false.
Proof.
  intros H Hx. destruct (f x) eqn:E; [|done].
  assert (x ∈ List.filter f l) as Hin by by apply elem_of_filterb. rewrite H in Hin. set_solver.
Qed.

Section removing.
Context `{OsmocomUtils} `{Construct} `{SaipLib}.

(** The header [h] is the first one, with these services and templates. *)
Definition header_with (h : nat) (svcs : dict) (l : list value) (p : PE) (s : profile) : Prop :=
  head (default [] (kv_get "header"%string (pe_by_type s))) = Some h ∧ pes s !! h = Some p
  ∧ dict_get "eUICC-Mandatory-services" (decoded p) = Some (VDict svcs)
  ∧ dict_get "eUICC-Mandatory-GFSTEList" (decoded p) = Some (VList l).

Definition without_services (naa : Naa) (svcs : dict) (p : PE) : PE :=
  set_decoded (dict_set "eUICC-Mandatory-services" (VDict (foldl (λ d k, dict_del k d) svcs (naa_mandatory_services naa))) (decoded p)) p.

Lemma remove_services_run naa h svcs l p s : header_with h svcs l p s →
  ∃ hs, kv_get "header"%string (pe_by_type s) = Some hs ∧ idx hs 0 = Ok h
  ∧ update_pe h (remove_naa_services naa) s = (Ok (), set_pes (<[h := without_services naa svcs p]> (pes s)) s)
  ∧ dict_get "eUICC-Mandatory-GFSTEList" (decoded (without_services naa svcs p)) = Some (VList l).
Proof.
  intros (Hh & Hp & Hs & Hl). destruct (kv_get _ _) as [[|x hs]|] eqn:E; simplify_eq/=.
  exists (h :: hs). split; [done|]. split; [done|]. split; [|by rewrite dict_get_set].
  apply (update_pe_run h _ s p); [done|]. unfold remove_naa_services, item. rewrite Hs. done.
Qed.

Definition naa_instances (naa : Naa) (s : profile) : list nat := concat (default [] (kv_get (naa_name naa) (pes_by_naa s))).

Lemma delete_rfm_inv names s s' : type_indexed s → delete_rfm names s = (Ok (), s') →
  s' = set_pe_list (List.filter (λ i, negb (typed s "rfm" i && bool_decide (rfm_for names s i = Ok true))) (pe_list s)) s.
Proof.
  intros Hi H. unfold delete_rfm in H. apply M_bind_ok in H as (x & s1 & [= <- <-] & H).
  specialize (Hi "rfm"%string). unfold get_pes_for_type in Hi.
  destruct (kv_get _ _) as [l|] eqn:E; simpl in Hi.
  - apply M_bind_ok in H as (del & s1 & [=Hd <-] & H). injection H as <-. f_equal.
    apply filter_ext_in. intros i Hl. pose proof (filter_r_ok _ _ _ Hd i) as Hx. rewrite Hi, elem_of_filterb in Hx.
    destruct (typed s "rfm" i); simpl; repeat case_bool_decide; naive_solver.
  - injection H as <-. symmetry in Hi. rewrite filter_all; [by destruct s|].
    intros x Hx. by rewrite (filter_nil _ _ x Hi).
Qed.

Lemma remove_templates_run naa l p : dict_get "eUICC-Mandatory-GFSTEList" (decoded p) = Some (VList l) → naa_templates naa ≠ [] →
  remove_naa_templates naa p = if bool_decide (l = []) then Ok () else Err AttributeError.
Proof.
  intros Hl Ht. unfold remove_naa_templates, item. rewrite Hl. mrun.
  destruct l as [|x l].
  - replace (map_r _ _) with (Ok (map (λ _ : OID, false) (naa_templates naa))); [done|].
    clear. induction (naa_templates naa) as [|t ts IH]; [done|]. simpl. by rewrite <- IH.
  - by destruct (naa_templates naa).
Qed.

(** What is left to do once the header is done. *)
Lemma remove_rest_inv naa names s s' : (delete_instances naa;; _process_pelist;; delete_rfm names;; _process_pelist) s = (Ok (), s') →
  type_indexed s' ∧ pes s' = pes s
  ∧ pe_list s' = List.filter (λ i, negb (typed s' "rfm" i && bool_decide (rfm_for names s' i = Ok true)))
                   (List.filter (λ i, bool_decide (i ∉ naa_instances naa s)) (pe_list s)).
Proof.
  intros H. apply M_bind_ok in H as ([] & s1 & Hd & H). apply M_bind_ok in H as ([] & s2 & Hq & H).
  apply M_bind_ok in H as ([] & s3 & Hr & H). injection Hd as Hd. rewrite remove_instances in Hd.
  apply process_pelist_inv in Hq as [Hq Ht2]. apply delete_rfm_inv in Hr; [|done]. apply process_pelist_inv in H as [H Ht].
  split; [done|]. assert (Hp : pes s' = pes s2) by by rewrite H, Hr.
  split; [by rewrite Hp, Hq, <- Hd|].
  assert (Ety : ∀ i, typed s' "rfm" i = typed s2 "rfm" i) by (intros i; unfold typed, type_at, pe_at; by rewrite Hp).
  assert (Erf : ∀ i, rfm_for names s' i = rfm_for names s2 i) by (intros i; unfold rfm_for, pe_at; by rewrite Hp).
  assert (E2 : pe_list s2 = List.filter (λ i, bool_decide (i ∉ naa_instances naa s)) (pe_list s)) by by rewrite Hq, <- Hd.
  assert (E3 : pe_list s' = pe_list s3) by by rewrite H. rewrite E3, Hr, <- E2. simpl.
  apply filter_ext_in. intros i _. by rewrite Ety, Erf.
Qed.

End removing.

Module SaipLibRun.
Import Ref SaipRun.
(** A library for the examples: no element is decoded, no parameter read. *)
#[export] Instance lib : SaipLib := {
  asn1_decode _ := Err ValueError; asn1_encode _ _ := Err ValueError; pe_members _ := None;
  usip_from_bytes _ := Ok []; usip_to_bytes _ := Ok [] }.
End SaipLibRun.
Import Ref SaipRun SaipLibRun.

