(* ===== verification/SaipDer.v ===== *)
(** Encoding and decoding of a sequence of profile elements
    (ProfileElementSequence.to_der, parse_der). *)

From Stdlib Require Import String.
From S2P Require Import Prelude Osmocom Utils Construct Oid Filesystem Templates TemplateData SaipFile SaipTree SaipElements SaipSequence SaipSequenceProps.

#[local] Open Scope list_scope.

(** ** Splitting the concatenation *)

Section segments.
Context `{T : OsmocomTlv} `{!OsmocomTlvLaws} `{!BertlvTag} `{!BertlvTagLaws}.

Definition is_tlv (b : bytes) : Prop := ∃ t v,
  (one_byte_tag t ∨ two_byte_tag t) ∧ ber_len (len v) ∧ b = bertlv_encode_tag t ++ bertlv_encode_len (len v) ++ v.

Lemma first_segment_tlv b r : is_tlv b → bertlv_first_segment (b ++ r) = Ok (b, r).
Proof.
  intros (t & v & Ht & Hv & ->). unfold bertlv_first_segment. rewrite <- !app_assoc.
  destruct (parse_tag_encode t (bertlv_encode_len (len v) ++ v ++ r) Ht) as [td ->]. mrun.
  rewrite parse_len_encode by done. mrun.
  set (h := bertlv_encode_tag t). set (n := bertlv_encode_len (len v)).
  replace (len (h ++ n ++ v ++ r) - len (v ++ r) + len v) with (len (h ++ n ++ v)) by (unfold len; rewrite !length_app; lia).
  rewrite (app_assoc n v r), (app_assoc h (n ++ v) r). unfold len. rewrite Nat2Z.id, drop_app_length. do 2 f_equal.
  unfold py_take. rewrite (proj2 (Z.ltb_ge _ _)) by lia. by rewrite Nat2Z.id, take_app_length.
Qed.

Lemma tlv_nonempty b : is_tlv b → (0 < length b)%nat.
Proof. intros (t & v & [Ht|Ht] & _ & ->); rewrite ?encode_tag_1, ?encode_tag_2 by done; simpl; lia. Qed.

(** A segment takes a part of what is there. *)
Lemma first_segment_shorter bs b r : is_bytes bs → bertlv_first_segment bs = Ok (b, r) → bs = b ++ r ∧ (length r < length bs)%nat.
Proof.
  unfold bertlv_first_segment. intros Hbs E. apply bind_ok in E as ([td r1] & E1 & E). apply bind_ok in E as ([n r2] & E2 & E).
  destruct (parse_tag_rest _ _ _ E1) as (t & -> & Ht). apply Forall_app in Hbs as [_ Hbs].
  destruct (parse_len_rest _ _ _ Hbs E2) as [[l ->] Hn].
  injection E as <- <-. set (k := len (t ++ l ++ r2) - len r2 + n).
  assert (1 <= k) by (unfold k, len; rewrite !length_app; destruct t; [done|simpl; lia]).
  unfold py_take. rewrite (proj2 (Z.ltb_ge _ _)) by lia. split; [by rewrite take_drop|].
  rewrite length_drop. destruct t; [done|]. rewrite length_app. simpl. lia.
Qed.

Context `{OsmocomUtils} `{Construct} `{SaipLib}.

(** Every turn of the loop takes a byte at least: as much fuel as there are
    bytes is enough, more does not change the result. *)
Lemma parse_loop_fuel : ∀ k n bs s, is_bytes bs → (length bs <= k)%nat → (length bs <= n)%nat → parse_loop k bs s = parse_loop n bs s.
Proof.
  induction k as [|k IH]; intros [|n] [|x bs] s Hb Hk Hn; simpl in Hk, Hn; try lia; try done.
  cbn [parse_loop]. mrun. destruct (bertlv_first_segment (x :: bs)) as [[b r]|] eqn:E; mrun; [|done].
  destruct (first_segment_shorter _ _ _ Hb E) as [Er Hr]. simpl in Hr. rewrite Er in Hb. apply Forall_app in Hb as [_ Hb].
  destruct (pe_from_der b s) as [[i|] s1]; mrun; [|done]. apply IH; [done|lia..].
Qed.

(** One turn of the loop. *)
Definition parse_one (b : bytes) : P unit := i ← pe_from_der b; modify (λ s, set_pe_list (pe_list s ++ [i]) s).

Lemma parse_loop_concat bs : ∀ k s, Forall is_tlv bs → (length (concat bs) <= k)%nat →
  parse_loop k (concat bs) s = for_each bs parse_one s.
Proof.
  induction bs as [|b bs IH]; intros k s Hb Hk; [by destruct k|].
  apply list.Forall_cons in Hb as [Hb Hbs]. pose proof (first_segment_tlv b (concat bs) Hb) as Hs. simpl in *.
  pose proof (tlv_nonempty b Hb) as Hlt. rewrite length_app in Hk.
  destruct k as [|k]; [lia|]. cbn [parse_loop]. destruct (b ++ concat bs) as [|x y] eqn:E; [by destruct b; simpl in *; try lia|].
  mrun. rewrite Hs. mrun. unfold parse_one at 1. mrun.
  destruct (pe_from_der b s) as [[i|] s1]; mrun; [|done]. apply IH; [done|lia].
Qed.

(** [parse_der] terminates: each turn of its loop takes at least one
    byte, so that as many turns as there are bytes are enough and more do not
    change the outcome. It takes a concatenation of TLVs apart at their
    borders and decodes one after the other, then builds the indexes. *)
Theorem parse_der_splits der s : is_bytes der →
  (∀ k, (length der <= k)%nat → parse_der der s = (modify (set_pe_list []);; parse_loop k der;; _process_pelist) s)
  ∧ ∀ bs, der = concat bs → Forall is_tlv bs →
      parse_der der s = (modify (set_pe_list []);; for_each bs parse_one;; _process_pelist) s.
Proof.
  intros Hb. unfold parse_der. split.
  - intros k Hk. mrun. by rewrite (parse_loop_fuel k (length der)).
  - intros bs -> Hbs. mrun. by rewrite parse_loop_concat.
Qed.
End segments.

(** ** What was encoded is decoded *)

(** What the ASN.1 codec promises: an element is one TLV, which it reads
    back. *)
Class SaipCodecLaws `{OsmocomTlv} `{SaipLib} := {
  encode_is_tlv t d b : asn1_encode t d = Ok b → is_tlv b;
  decode_encode t d b : asn1_encode t d = Ok b → asn1_decode b = Ok (t, d) }.

(** The types whose elements hold no files and no keys. *)
Definition plain (t : string) : bool :=
  match class_for_petype t with
  | Some c => negb (is_fs c || bool_decide (c ∈ [PeGFM; PeSD; PeSSD]))
  | None => true
  end.

Section round_trip.
Context `{T : OsmocomTlv} `{!OsmocomTlvLaws} `{!BertlvTag} `{!BertlvTagLaws} `{OsmocomUtils} `{Construct} `{SaipLib}
  `{L : !SaipCodecLaws}.

Lemma on_pe_other {A} i (m : M PE A) s r s' j : on_pe i m s = (r, s') → j ≠ i → pes s' !! j = pes s !! j.
Proof.
  unfold on_pe, pe_at. mrun. destruct (pes s !! i) as [p|]; mrun; [|by intros [= _ <-]].
  destruct (m p) as [r0 p']. mrun. intros [= _ <-] Hj. simpl. by apply list_lookup_insert_ne.
Qed.

Lemma on_pe_list {A} i (m : M PE A) s r s' : on_pe i m s = (r, s') → pe_list s' = pe_list s.
Proof.
  unfold on_pe. mrun. destruct (pe_at s i) as [p|]; mrun; [|by intros [= _ <-]].
  destruct (m p) as [r0 p']. mrun. by intros [= _ <-].
Qed.

(** Encoding an element changes at most that element. *)
Lemma pe_to_der_inv i s b s' : pe_to_der i s = (Ok b, s') →
  (∀ j, j ≠ i → pes s' !! j = pes s !! j)
  ∧ ∃ p t, pes s' !! i = Some p ∧ pe_type p = Ok t ∧ asn1_encode t (decoded p) = Ok b.
Proof.
  unfold pe_to_der. intros E. apply M_bind_ok in E as ([] & s1 & E1 & E). apply M_bind_ok in E as (s2 & s3 & [= <- <-] & E).
  apply M_bind_ok in E as (p & s2 & [=Hp <-] & E). apply M_bind_ok in E as (t & s2 & [=Ht <-] & E). injection E as Hb <-.
  split.
  - intros j Hj. unfold pre_encode in E1. apply M_bind_ok in E1 as (s2 & s3 & [= <- <-] & E1).
    apply M_bind_ok in E1 as (q & s2 & [=_ <-] & E1).
    destruct (pe_cls q); try (by injection E1 as <-); eapply on_pe_other; eauto.
  - exists p, t. split; [|done]. unfold pe_at in Hp. by destruct (pes s1 !! i); simplify_eq/=.
Qed.

Definition encoded_as (s : profile) (i : nat) (b : bytes) : Prop :=
  ∃ p t, pes s !! i = Some p ∧ pe_type p = Ok t ∧ asn1_encode t (decoded p) = Ok b.

Lemma seq_to_der_inv l : ∀ s der s', NoDup l → seq_to_der l s = (Ok der, s') →
  (∀ j, j ∉ l → pes s' !! j = pes s !! j) ∧ ∃ bs, der = concat bs ∧ Forall2 (encoded_as s') l bs.
Proof.
  induction l as [|i l IH]; intros s der s' Hn E; simpl in E; [injection E as <- <-; split; [done|by exists []]|].
  apply list.NoDup_cons in Hn as [Hi Hn]. apply M_bind_ok in E as (b & s1 & E1 & E). apply M_bind_ok in E as (r & s2 & E2 & E).
  injection E as <- <-. apply pe_to_der_inv in E1 as (Ho & p & t & Hp & Ht & Hb).
  destruct (IH _ _ _ Hn E2) as (Ho2 & bs & -> & Hf). split; [|exists (b :: bs); split; [done|constructor; [|done]]].
  - intros j Hj. rewrite Ho2, Ho by set_solver. done.
  - exists p, t. by rewrite Ho2.
Qed.

(** The object the decoder makes. *)
Definition fresh_pe (t : string) (d : dict) : PE :=
  {| pe_cls := default PeGeneric (class_for_petype t); own_type := match class_for_petype t with Some _ => None | None => Some t end;
     decoded := d; pe_files := []; in_sequence := true; pe_keys := []; pe_usip := [] |}.
Definition decoded_pe (t : string) (d : dict) : PE :=
  if bool_decide (class_for_petype t = Some PeAKA) then _fixup_sqnInit_dec (fresh_pe t d) else fresh_pe t d.

Lemma class_for_petype_type t c : class_for_petype t = Some c → class_type c = Some t.
Proof.
  unfold class_for_petype. intros E%kv_get_in. rewrite !elem_of_cons in E.
  destruct_or! E; try (injection E as -> ->; reflexivity). set_solver.
Qed.

Lemma fixup_dec_type p : pe_type (_fixup_sqnInit_dec p) = pe_type p.
Proof. unfold _fixup_sqnInit_dec. by repeat case_match. Qed.

Lemma decoded_pe_type t d : pe_type (decoded_pe t d) = Ok t.
Proof.
  assert (pe_type (fresh_pe t d) = Ok t).
  { unfold pe_type, fresh_pe; simpl. destruct (class_for_petype t) as [c|] eqn:E; [|done]. simpl.
    by rewrite (class_for_petype_type t c E). }
  unfold decoded_pe. case_bool_decide; by rewrite ?fixup_dec_type.
Qed.

Lemma PE_init_decoded c d ha ra m q : d ≠ [] → is_fs c || bool_decide (c = PeGFM) = false →
  PE_init c d ha ra m q = Ok {| pe_cls := c; own_type := None; decoded := d; pe_files := []; in_sequence := q; pe_keys := []; pe_usip := [] |}.
Proof.
  intros Hd Hc. assert (len d =? 0 = false) as Hl by (destruct d; done).
  unfold PE_init, base_init. rewrite Hl, Hc. done.
Qed.

Lemma post_decode_plain t d i s : pes s !! i = Some (fresh_pe t d) → plain t = true →
  post_decode i s = (Ok (), set_pes (<[i := decoded_pe t d]> (pes s)) s).
Proof.
  intros Hi Hp. assert (Hs : set_pes (<[i := fresh_pe t d]> (pes s)) s = s) by (rewrite list_insert_id by done; by destruct s).
  unfold post_decode, decoded_pe. mrun. unfold pe_at. rewrite Hi. mrun. unfold plain in Hp. simpl.
  destruct (class_for_petype t) as [c|] eqn:E; simpl; [|by rewrite Hs].
  destruct (bool_decide_reflect (Some c = Some PeAKA)) as [[= ->]|Hn].
  - by apply (update_pe_run i _ s _ _ Hi).
  - destruct c; try discriminate Hp; try congruence; by rewrite Hs.
Qed.

Lemma pe_from_der_plain t d b s : asn1_decode b = Ok (t, d) → d ≠ [] → plain t = true →
  pe_from_der b s = (Ok (length (pes s)), set_pes (pes s ++ [decoded_pe t d]) s).
Proof.
  intros Hd Hne Hp. unfold pe_from_der. mrun. rewrite Hd. mrun.
  assert (Hi : match class_for_petype t with
               | Some c => PE_init c d default_header default_rfm true true
               | None => set_own_type t <$> PE_init PeGeneric d default_header default_rfm true true
               end = Ok (fresh_pe t d)).
  { unfold plain, fresh_pe in *. destruct (class_for_petype t) as [c|].
    - rewrite PE_init_decoded; [done|done|]. destruct c; done.
    - by rewrite PE_init_decoded. }
  rewrite Hi. mrun. unfold new_pe. mrun.
  rewrite (post_decode_plain t d) by (try done; simpl; by rewrite lookup_app_r, Nat.sub_diag by lia).
  mrun. simpl. by rewrite insert_app_r_alt, Nat.sub_diag by lia.
Qed.
Lemma parse_one_plain t d b s : asn1_decode b = Ok (t, d) → d ≠ [] → plain t = true →
  parse_one b s = (Ok (), set_pe_list (pe_list s ++ [length (pes s)]) (set_pes (pes s ++ [decoded_pe t d]) s)).
Proof. intros Hd Hne Hp. unfold parse_one. mrun. by rewrite (pe_from_der_plain t d). Qed.

Lemma parse_many bs : ∀ tds s, Forall2 (λ b td, asn1_decode b = Ok td ∧ td.2 ≠ [] ∧ plain td.1 = true) bs tds →
  for_each bs parse_one s = (Ok (), set_pe_list (pe_list s ++ seq (length (pes s)) (length tds))
                                      (set_pes (pes s ++ map (λ td, decoded_pe td.1 td.2) tds) s)).
Proof.
  induction bs as [|b bs IH]; intros tds s Hf; inversion Hf as [|? [t d] ? tds' (Hd & Hne & Hp) Hf']; subst; simpl.
  - unfold set_pe_list. simpl. rewrite !app_nil_r. by destruct s.
  - rewrite M_bind_eq, (parse_one_plain t d), (IH tds') by done. simpl.
    unfold set_pe_list, set_pes. simpl. rewrite length_app, Nat.add_1_r, <- !app_assoc. done.
Qed.

Lemma Forall2_positions {A B C} (P : A → B → Prop) (f : B → C) l m : Forall2 P l m → ∀ base : list C,
  Forall2 (λ a j, ∃ b, P a b ∧ (base ++ map f m) !! j = Some (f b)) l (seq (length base) (length m)).
Proof.
  induction 1 as [|a b l m Hab Hf IH]; intros base; simpl; [constructor|]. constructor.
  - exists b. split; [done|]. by rewrite lookup_app_r, Nat.sub_diag by lia.
  - specialize (IH (base ++ [f b])). rewrite length_app, Nat.add_1_r, <- app_assoc in IH. exact IH.
Qed.

(** The decoded element [q] is the encoded one. *)
Definition same_element (s s' : profile) (i j : nat) : Prop :=
  ∃ p q t, pes s !! i = Some p ∧ pes s' !! j = Some q ∧ pe_type p = Ok t ∧ pe_type q = Ok t
    ∧ decoded q = decoded (decoded_pe t (decoded p)) ∧ (t ≠ "akaParameter"%string → decoded q = decoded p).

End round_trip.

(** ** A concrete library *)

Module DerRun.
Import Ref SaipRun.

#[export] Instance tag : BertlvTag := {
  bertlv_parse_tag bs :=
    '(t, r) ← parse_tag bs; Ok ({| td_class := t / 64; td_constructed := Z.testbit t 5; td_tag := t mod 32 |}, r) }.

#[export] Instance tag_laws : BertlvTagLaws.
Proof.
  split.
  - intros t r Ht. eexists. cbn [bertlv_parse_tag tag bertlv_encode_tag tlv]. by rewrite parse_tag_encode.
  - intros [|t bs] td r E; cbn in E; [done|]. destruct (t mod 32 =? 31); [destruct bs as [|u bs]; [done|]|]; injection E as _ <-;
      [by exists [t; u]|by exists [t]].
  - intros [|n bs] m r Hb E; cbn in E; [done|]. inversion Hb as [|? ? Hn Hb']; subst. destruct (n <? 128); simplify_eq.
    + split; [by exists [m]|]. destruct Hn. done.
    + split; [exists (n :: take (Z.to_nat (n - 128)) bs); simpl; by rewrite take_drop|]. by apply from_bytes_bound, is_bytes_take.
Qed.

(** Elements end and rfm that hold nothing but their number. *)
Definition enc_pe (t : string) (d : dict) : result bytes :=
  match d with
  | [(k, VDict [(i, VInt n)])] =>
      if bool_decide (i = "identification"%string ∧ 0 <= n < 256) then
        if bool_decide (t = "end"%string ∧ k = "end-header"%string) then Ok [0xAA; 1; n]
        else if bool_decide (t = "rfm"%string ∧ k = "rfm-header"%string) then Ok [0xA7; 1; n]
        else Err ValueError
      else Err ValueError
  | _ => Err ValueError
  end.
Definition dec_pe (b : bytes) : result (string * dict) :=
  match b with
  | [0xAA; _; n] => Ok ("end", [("end-header", VDict [("identification", VInt n)])])%string
  | [0xA7; _; n] => Ok ("rfm", [("rfm-header", VDict [("identification", VInt n)])])%string
  | _ => Err ValueError
  end.
#[export] Instance lib : SaipLib := {
  asn1_decode := dec_pe; asn1_encode := enc_pe; pe_members _ := None; usip_from_bytes _ := Ok []; usip_to_bytes _ := Ok [] }.

#[export] Instance codec : SaipCodecLaws.
Proof.
  split; intros t d b E; unfold asn1_encode, asn1_decode, lib, enc_pe in *; repeat case_match; simplify_eq/=;
  repeat match goal with H : _ = true |- _ => apply bool_decide_eq_true in H; destruct_and? end; subst; try done.
  - eexists 0xAA, [_]. split; [left; split; done|]. split; [done|reflexivity].
  - eexists 0xA7, [_]. split; [left; split; done|]. split; [done|reflexivity].
Qed.

Definition profile_ : profile :=
  {| pes := [Example_.element PeRFM [("rfm-header"%string, VDict [("identification"%string, VInt 1)])];
             Example_.element PeEnd [("end-header"%string, VDict [("identification"%string, VInt 2)])]];
     p_tree := {| nodes := []; tree_files := [] |}; pe_list := [0; 1]%nat; pe_by_type := []; pes_by_naa := []; mf := None;
     cur_df := None |}.
End DerRun.
Import Ref SaipRun DerRun.


Lemma parse_der_splits_witness : ∃ s', parse_der ([0xA7; 1; 1] ++ [0xAA; 1; 2]) Example_.sequence = (Ok (), s') ∧ pe_list s' = [6; 7]%nat
  ∧ (modify (set_pe_list []);; parse_loop 100 ([0xA7; 1; 1] ++ [0xAA; 1; 2]);; _process_pelist) Example_.sequence = (Ok (), s').
Proof.
  destruct (parse_der_splits ([0xA7; 1; 1] ++ [0xAA; 1; 2]) Example_.sequence) as [Hf Hs]; [by repeat constructor|].
  rewrite (Hs [[0xA7; 1; 1]; [0xAA; 1; 2]]); [|done|].
  - eexists. split; [vm_compute; reflexivity|]. split; [done|]. rewrite <- Hf; [|simpl; lia]. vm_compute. reflexivity.
  - repeat constructor; [exists 0xA7, [1]|exists 0xAA, [2]]; repeat split; try done; left; done.
Defined.
