(* ===== verification/SaipKeys.v ===== *)
(** The keys of a security domain element (ProfileElementSD): what their
    encoding keeps and what the methods that edit them do. *)

From Stdlib Require Import String.
From S2P Require Import Prelude Osmocom Utils Construct Oid Filesystem Templates TemplateData SaipFile SaipTree SaipElements SaipSequence SaipSequenceProps.

#[local] Open Scope list_scope.

Section keys.
Context `{ConstructLaws} `{SaipLib}.

(** Keys that the fields of their encoding have room for. *)
Definition component_ok (k : SecurityDomainKeyComponent) : Prop := Construct.dom KeyType [] (key_type k).
Definition key_ok (k : SecurityDomainKey) : Prop :=
  Construct.dom KeyUsageQualifier [] (key_usage_qualifier k) ∧ is_byte (key_identifier k) ∧ is_byte (key_version_number k)
  ∧ Forall component_ok (key_components k).

Lemma parse_built c v : Construct.wf c = true → Construct.dom c [] v → ∃ b, build c [] v = Ok b ∧ parse_value c (VBytes b) = Ok v.
Proof.
  intros Hw Hv. destruct (con_round_trip c v Hw Hv) as (b & Hb & _ & _ & Hp). exists b. split; [done|].
  unfold parse_value. simpl. mrun. specialize (Hp 0 [] ltac:(done)). rewrite app_nil_r in Hp. by rewrite Hp.
Qed.

Lemma map_r_round_trip {A B} (f : A → result B) (g : B → result A) l :
  Forall (λ x, ∃ y, f x = Ok y ∧ g y = Ok x) l → ∃ m, map_r f l = Ok m ∧ map_r g m = Ok l.
Proof.
  induction 1 as [|x l (y & Hf & Hg) _ (m & IHf & IHg)]; [by exists []|].
  exists (y :: m). simpl. rewrite Hf, IHf. simpl. by rewrite Hg, IHg.
Qed.

Lemma component_round_trip k : component_ok k → ∃ v, component_to_saip_dict k = Ok v ∧ component_from_saip_dict v = Ok k.
Proof.
  intros Hk. destruct (parse_built KeyType (key_type k)) as (b & Hb & Hp); [by vm_compute|done|].
  eexists. unfold component_to_saip_dict, component_from_saip_dict. rewrite Hb. split; [done|]. simpl. rewrite Hp. simpl. by destruct k.
Qed.

Lemma key_round_trip k : key_ok k → ∃ v, key_to_saip_dict k = Ok v ∧ key_from_saip_dict v = Ok k.
Proof.
  intros (Hu & Hi & Hn & Hc). destruct (parse_built KeyUsageQualifier (key_usage_qualifier k)) as (b & Hb & Hp); [done|done|].
  destruct (map_r_round_trip component_to_saip_dict component_from_saip_dict (key_components k)) as (m & Hm & Hm').
  { eapply Forall_impl; [|exact Hc]. apply component_round_trip. }
  assert (Hone : ∀ x, is_byte x → bytes_of_ints [x] = Ok [x])
    by (intros x Hx; unfold bytes_of_ints; rewrite bool_decide_eq_true_2; [done|by constructor]).
  eexists. unfold key_to_saip_dict, key_from_saip_dict. rewrite Hb. mrun. rewrite !Hone by done. mrun. rewrite Hm. mrun.
  split; [done|]. simpl. rewrite Hp. simpl. rewrite Hm'. simpl. by destruct k.
Qed.

Lemma dict_set_set k v w d : dict_set k v (dict_set k w d) = dict_set k v d.
Proof.
  induction d as [|[j x] d IH]; simpl; [by rewrite String.eqb_refl|].
  destruct (String.eqb k j) eqn:E; simpl; rewrite E; [done|by rewrite IH].
Qed.


(** ** Editing the keys *)

Definition key_name (k : SecurityDomainKey) : Z * Z := (key_version_number k, key_identifier k).

Lemma is_key_name kvn kid k : is_key kvn kid k = true ↔ key_name k = (kvn, kid).
Proof. unfold is_key, key_name. rewrite andb_true_iff, !Z.eqb_eq. naive_solver. Qed.

Lemma find_key_some kvn kid p k : find_key kvn kid p = Some k → k ∈ pe_keys p ∧ key_name k = (kvn, kid).
Proof.
  unfold find_key. intros E. apply find_some in E as [Hk Hn]. by rewrite list_elem_of_In, <- is_key_name.
Qed.
Lemma find_key_none kvn kid p : find_key kvn kid p = None ↔ (kvn, kid) ∉ map key_name (pe_keys p).
Proof.
  unfold find_key. induction (pe_keys p) as [|k l IH]; simpl; [set_solver|].
  destruct (is_key kvn kid k) eqn:E; [apply is_key_name in E; set_solver|].
  rewrite IH. assert (key_name k ≠ (kvn, kid)) by (rewrite <- is_key_name; congruence). set_solver.
Qed.

Lemma remove_first_none {A} (f : A → bool) l : remove_first f l = None ↔ ∀ x, x ∈ l → f x = false.
Proof.
  induction l as [|x l IH]; simpl; [set_solver|]. destruct (f x) eqn:E.
  - split; [done|]. intros Hf. rewrite Hf in E by set_solver. done.
  - destruct (remove_first f l); simpl; split; try done; intros Hf.
    + exfalso. assert (Some l0 = None) by (apply IH; intros; apply Hf; set_solver). done.
    + intros y [->|Hy]%elem_of_cons; [done|]. by apply IH.
Qed.
Lemma remove_first_some {A} (f : A → bool) l l' : remove_first f l = Some l' →
  ∃ a x b, l = a ++ x :: b ∧ l' = a ++ b ∧ f x = true ∧ Forall (λ y, f y = false) a.
Proof.
  revert l'. induction l as [|x l IH]; intros l' E; simpl in E; [done|]. destruct (f x) eqn:Ef.
  - exists [], x, l. by simplify_eq.
  - destruct (remove_first f l) as [m|]; simplify_eq/=. destruct (IH m eq_refl) as (a & y & b & -> & -> & Hy & Ha).
    exists (x :: a), y, b. repeat split; try done. by constructor.
Qed.

(** Encoding changes the contents only. *)
Lemma sd_pre_encode_keys p : pe_keys (snd (sd_pre_encode p)) = pe_keys p.
Proof.
  unfold sd_pre_encode. mrun. destruct (map_r _ _); mrun; [|done]. destruct (usip_to_bytes _); mrun; [|done].
  destruct (item _ _); mrun; [|done]. destruct (as_dict _); mrun; done.
Qed.

Lemma then_encode_keys ks p : pe_keys (snd ((modify (set_sd ks (pe_usip p));; sd_pre_encode) p)) = ks.
Proof. mrun. by rewrite sd_pre_encode_keys. Qed.

Lemma remove_key_run kvn kid p : remove_key kvn kid p =
  match remove_first (is_key kvn kid) (pe_keys p) with
  | Some l => (modify (set_sd l (pe_usip p));; sd_pre_encode) p
  | None => (Err ValueError, p)
  end.
Proof. unfold remove_key. mrun. by destruct (remove_first _ _). Qed.

Lemma add_key_run k p : add_key k p =
  match find_key (key_version_number k) (key_identifier k) p with
  | Some _ => (Err ValueError, p)
  | None => (modify (set_sd (pe_keys p ++ [k]) (pe_usip p));; sd_pre_encode) p
  end.
Proof. unfold add_key. mrun. by destruct (find_key _ _ p). Qed.

(** C29: The keys of a security domain stay distinct: [add_key] appends a key
    whose version number and identifier no key has yet and refuses any other
    with ValueError, changing nothing; [remove_key] takes out the key with
    these numbers, the others keep their order, and refuses with ValueError
    when there is none. [find_key] finds exactly the keys there are; so a key
    is found once it was added and not after it was removed. The keys are
    changed whether or not the encoding that follows succeeds. *)
Theorem sd_keys_spec p k : NoDup (map key_name (pe_keys p)) →
  match find_key (key_version_number k) (key_identifier k) p with
  | Some old => add_key k p = (Err ValueError, p)
      ∧ ∃ a b, pe_keys p = a ++ old :: b ∧ pe_keys (snd (remove_key (key_version_number k) (key_identifier k) p)) = a ++ b
      ∧ find_key (key_version_number k) (key_identifier k) (snd (remove_key (key_version_number k) (key_identifier k) p)) = None
      ∧ NoDup (map key_name (a ++ b))
  | None => remove_key (key_version_number k) (key_identifier k) p = (Err ValueError, p)
      ∧ pe_keys (snd (add_key k p)) = pe_keys p ++ [k]
      ∧ find_key (key_version_number k) (key_identifier k) (snd (add_key k p)) = Some k
      ∧ NoDup (map key_name (pe_keys (snd (add_key k p))))
  end.
Proof.
  intros Hn. destruct (find_key _ _ p) as [old|] eqn:E.
  - split; [by rewrite add_key_run, E|]. apply find_key_some in E as [Hold Hname]. rewrite remove_key_run.
    destruct (remove_first _ _) as [l|] eqn:Er.
    2: { pose proof (proj1 (remove_first_none _ _) Er old Hold) as Hf. apply is_key_name in Hname. congruence. }
    apply remove_first_some in Er as (a & x & b & Hl & -> & Hx & Ha). apply is_key_name in Hx.
    rewrite Hl, map_app in Hn. simpl in Hn. rewrite <- Permutation_middle in Hn.
    apply list.NoDup_cons in Hn as [Hni Hn]. rewrite <- map_app in Hni, Hn.
    assert (Hox : old = x).
    { rewrite Hl, elem_of_app, elem_of_cons in Hold. destruct Hold as [Ho|[->|Ho]]; [|done|];
      exfalso; apply Hni; rewrite Hx, <- Hname, list_elem_of_fmap; exists old; set_solver. }
    subst x. exists a, b. rewrite Hname in Hni. split; [done|]. split; [apply then_encode_keys|]. split; [|done].
    apply find_key_none. by rewrite then_encode_keys.
  - assert (Hnew : key_name k ∉ map key_name (pe_keys p)) by by apply find_key_none in E.
    rewrite remove_key_run, add_key_run, E. split; [|split; [by rewrite then_encode_keys|split; [|]]].
    + rewrite (proj2 (remove_first_none _ _)); [done|]. intros x Hx. apply not_true_iff_false. intros Hk%is_key_name.
      apply Hnew. apply list_elem_of_fmap. by exists x.
    + unfold find_key. rewrite then_encode_keys. clear Hn. unfold find_key in E.
      induction (pe_keys p) as [|y l IH]; simpl in *; [by rewrite (proj2 (is_key_name _ _ k) eq_refl)|].
      destruct (is_key _ _ y); [done|]. apply IH; [done|]. intros Hk. apply Hnew. by right.
    + rewrite then_encode_keys, map_app. apply list.NoDup_app. split; [done|]. split; [|apply NoDup_singleton].
      intros x Hx Hk. simpl in Hk. apply list_elem_of_singleton in Hk as ->. done.
Qed.
End keys.

(** A domain with one key, its neighbour, and what an adapter stores. *)
Module KeysRun.
Import Ref SaipRun SaipLibRun.
Definition key_of (kvn kid : Z) : SecurityDomainKey :=
  {| key_usage_qualifier := VBytes [0x18]; key_identifier := kid; key_version_number := kvn;
     key_components := [{| key_type := VStr (lit "aes"); key_data := VBytes [1; 2; 3]; mac_length := VInt 8 |}] |}.
Definition domain : PE :=
  set_sd [key_of 0x30 1; key_of 0x30 2] [] (Example_.element PeSD [("instance", VDict []); ("keyList", VList [])]%string).
End KeysRun.
Import Ref SaipRun SaipLibRun KeysRun.

Lemma sd_keys_spec_witness : NoDup (map key_name (pe_keys domain)) ∧
  (remove_key 0x40 1 domain = (Err ValueError, domain) ∧ pe_keys (snd (add_key (key_of 0x40 1) domain)) = pe_keys domain ++ [key_of 0x40 1])
  ∧ add_key (key_of 0x30 2) domain = (Err ValueError, domain).
Proof.
  assert (Hn : NoDup (map key_name (pe_keys domain))) by (apply (bool_decide_eq_true_1 _); vm_compute; reflexivity).
  split; [exact Hn|]. split.
  - destruct (sd_keys_spec domain (key_of 0x40 1) Hn) as (Hr & Ha & _). split; [exact Hr|exact Ha].
  - destruct (sd_keys_spec domain (key_of 0x30 2) Hn) as (Hr & _). exact Hr.
Defined.

Lemma key_of_ok kvn kid : is_byte kvn → is_byte kid → key_ok (key_of kvn kid).
Proof.
  intros Hn Hi. split; [|split; [done|split; [done|]]].
  - exists (VBytes [0x18]). split; [done|]. split; [done|]. exists [0x18]. split; [done|]. by repeat constructor.
  - constructor; [|done]. left. exists (lit "aes"), 0x88. split; [done|]. split; [done|]. by exists 0x88.
Qed.

