(* ===== verification/SaipPersonal.v ===== *)
(** pySim/esim/saip/personalization.py: the parameters that change per
    profile, and what applying one does to the elements. *)

From Stdlib Require Import String.
From S2P Require Import Prelude Osmocom Utils Construct Oid Filesystem Templates TemplateData SaipFile SaipTree SaipElements SaipSequence SaipSequenceProps SaipKeys.

#[local] Open Scope list_scope.

(** ** Helpers *)

Definition remove_unwanted_tuples_from_list (l : tuples) (unwanted_keys : list str) : tuples :=
  List.filter (λ kv, bool_decide (kv.1 ∉ unwanted_keys)) l.
(** [file_replace_content]: the list in the element is changed in place. *)
Definition file_replace_content (file : tuples) (new_content : bytes) : tuples :=
  remove_unwanted_tuples_from_list file [lit "fillFileContent"; lit "fillFileOffset"] ++ [(lit "fillFileContent", VBytes new_content)].

(** The same for the file [name] of an element. *)
Definition pe_replace_content (name : string) (new_content : bytes) (p : PE) : result PE :=
  v ← item (VDict (decoded p)) name;
  l ← as_tuples v;
  Ok (set_decoded (dict_set name (of_tuples (file_replace_content l new_content)) (decoded p)) p).

(** What a parameter can be given. *)
Inductive input := InStr (s : str) | InInt (z : Z) | InBytes (b : bytes).

(** [str(input_value)] of text and numbers; that of bytes holds a letter. *)
Definition isdecimal (s : str) : bool := negb (bool_decide (s = [])) && forallb is_digit s.
Definition input_text (v : input) : str :=
  match v with InStr s => s | InInt z => str_of_int z | InBytes _ => lit "b''" end.

(** [obtain_singleton_pe_from_pelist], [obtain_first_pe_from_pelist] *)
Fixpoint of_wanted_type (s : profile) (l : list nat) (wanted_type : string) : result (list nat) :=
  match l with
  | [] => Ok []
  | i :: l' => t ← type_at s i; r ← of_wanted_type s l' wanted_type; Ok (if bool_decide (t = wanted_type) then i :: r else r)
  end.
Definition obtain_singleton_pe_from_pelist (s : profile) (l : list nat) (wanted_type : string) : result nat :=
  filtered ← of_wanted_type s l wanted_type; guard_else (len filtered =? 1) AssertionError;; idx filtered 0.
Definition obtain_first_pe_from_pelist (s : profile) (l : list nat) (wanted_type : string) : result nat :=
  filtered ← of_wanted_type s l wanted_type; idx filtered 0.

(** Change the first member for which [f] holds; None when there is none. *)
Fixpoint update_first (f : value → result bool) (g : value → result value) (l : list value) : result (option (list value)) :=
  match l with
  | [] => Ok None
  | v :: l' =>
      b ← f v;
      if (b : bool) then w ← g v; Ok (Some (w :: l')) else r ← update_first f g l'; Ok (option_map (cons v) r)
  end.

Definition set_item (k : string) (x v : value) : result value := d ← as_dict v; Ok (VDict (dict_set k x d)).
Definition is_int (n : Z) (v : value) : bool := match v with VInt m => m =? n | _ => false end.
(** [v[k] == n] *)
Definition item_is (k : string) (n : Z) (v : value) : result bool := x ← item v k; Ok (is_int n x).

Section personalization.
Context `{OsmocomUtils}.

(** ** Identities *)

Definition Iccid_validate (input_value : input) : result str :=
  let iccid_str := input_text input_value in
  guard_else (negb ((len iccid_str <? 18) || (20 <? len iccid_str))) ValueError;;
  guard_else (isdecimal iccid_str) ValueError;;
  sanitize_iccid iccid_str.

(** [pes.get_pe_for_type(t).decoded] *)
Definition the_pe (t : string) : P nat := s ← get; o ← lift (get_pe_for_type t s); lift (from_opt AttributeError o).

Definition Iccid_apply (value : str) : P unit :=
  b ← lift (h2b (rpad value 20));
  hdr ← the_pe "header";
  update_pe hdr (λ p, Ok (set_decoded (dict_set "iccid" (VBytes b) (decoded p)) p));;
  m ← the_pe "mf";
  s ← get;
  p ← lift (pe_at s m);
  v ← lift (item (VDict (decoded p)) "ef-iccid");
  c ← lift (h2b (enc_iccid value));
  update_pe m (pe_replace_content "ef-iccid" c).

Definition Imsi_validate (input_value : input) : result str :=
  let imsi_str := input_text input_value in
  guard_else (negb ((len imsi_str <? 6) || (15 <? len imsi_str))) ValueError;;
  guard_else (isdecimal imsi_str) ValueError;;
  Ok imsi_str.

Definition Imsi_apply (imsi_str : str) : P unit :=
  last ← lift (zidx imsi_str (-1));
  d ← lift (int_digit last);
  let acc := Z.shiftl 1 d in
  s ← get;
  for_each (get_pes_for_type "usim" s) (λ pe,
    s ← get;
    p ← lift (pe_at s pe);
    v ← lift (item (VDict (decoded p)) "ef-imsi");
    b ← lift (h2b (enc_imsi imsi_str));
    update_pe pe (pe_replace_content "ef-imsi" b);;
    b ← lift (to_bytes 2 acc);
    update_pe pe (pe_replace_content "ef-acc" b)).

(** ** Keys of a security domain *)

(** The class attributes; a class that leaves one open has None. *)
Record sd_key_class := {
  sk_key_type : option Z; sk_key_id : option Z; sk_kvn : option Z; sk_key_usage_qual : option Z; sk_permitted_len : list Z }.

Definition aes_lens : list Z := [16; 24; 32].
Definition sd_key (key_type id kvn usage : Z) (lens : list Z) : sd_key_class :=
  {| sk_key_type := Some key_type; sk_key_id := Some id; sk_kvn := Some kvn; sk_key_usage_qual := Some usage; sk_permitted_len := lens |}.
Definition SdKeyScp80_01Kic : sd_key_class := sd_key 0x88 1 0x01 0x18 aes_lens.
Definition SdKeyScp80_01Kid : sd_key_class := sd_key 0x88 2 0x01 0x14 aes_lens.
Definition SdKeyScp80_01Kik : sd_key_class := sd_key 0x88 3 0x01 0x48 aes_lens.
Definition SdKeyScp81_01Psk : sd_key_class := sd_key 0x85 1 0x81 0x3C [].
Definition SdKeyScp81_01Dek : sd_key_class := sd_key 0x88 2 0x81 0x48 [].
Definition SdKeyScp02_20Enc : sd_key_class := sd_key 0x88 1 0x20 0x18 aes_lens.
Definition SdKeyScp02_20Mac : sd_key_class := sd_key 0x88 2 0x20 0x14 aes_lens.
Definition SdKeyScp02_20Dek : sd_key_class := sd_key 0x88 3 0x20 0x48 aes_lens.
Definition SdKeyScp03_30Enc : sd_key_class := sd_key 0x88 1 0x30 0x18 aes_lens.
Definition SdKeyScp03_30Mac : sd_key_class := sd_key 0x88 2 0x30 0x14 aes_lens.
Definition SdKeyScp03_30Dek : sd_key_class := sd_key 0x88 3 0x30 0x48 aes_lens.
Definition SdKeyScp03_31Enc : sd_key_class := sd_key 0x88 1 0x31 0x18 aes_lens.
Definition SdKeyScp03_31Mac : sd_key_class := sd_key 0x88 2 0x31 0x14 aes_lens.
Definition SdKeyScp03_31Dek : sd_key_class := sd_key 0x88 3 0x31 0x48 aes_lens.
Definition SdKeyScp03_32Enc : sd_key_class := sd_key 0x88 1 0x32 0x18 aes_lens.
Definition SdKeyScp03_32Mac : sd_key_class := sd_key 0x88 2 0x32 0x14 aes_lens.
Definition SdKeyScp03_32Dek : sd_key_class := sd_key 0x88 3 0x32 0x48 aes_lens.

Definition SdKey_validate (c : sd_key_class) (input_value : input) : result bytes :=
  match input_value with
  | InBytes b =>
      guard_else (bool_decide (sk_permitted_len c = []) || bool_decide (len b ∈ sk_permitted_len c)) ValueError;; Ok b
  | _ => Err ValueError
  end.

(** [key[k][0] == n] *)
Definition first_is (k : string) (n : option Z) (key : value) : result bool :=
  v ← item key k; b ← as_bytes v; x ← idx b 0; Ok (bool_decide (n = Some x)).
(** [bytes([n])] *)
Definition byte_of (n : option Z) : result bytes := n ← from_opt TypeError n; bytes_of_ints [n].

Definition is_this_key (c : sd_key_class) (key : value) : result bool :=
  b ← first_is "keyIdentifier" (sk_key_id c) key;
  if (b : bool) then first_is "keyVersionNumber" (sk_kvn c) key else Ok false.
Definition patch_key (value_ : bytes) (key : value) : result value :=
  v ← item key "keyComponents"; l ← as_list v;
  guard_else (len l =? 1) AssertionError;;
  x ← idx l 0;
  x ← set_item "keyData" (VBytes value_) x;
  set_item "keyComponents" (VList (<[0%nat := x]> l)) key.

Definition SdKey__apply_sd (c : sd_key_class) (value_ : bytes) (pe : PE) : result PE :=
  t ← pe_type pe;
  guard_else (bool_decide (t = "securityDomain"%string)) AssertionError;;
  v ← item (VDict (decoded pe)) "keyList"; l ← as_list v;
  r ← update_first (is_this_key c) (patch_key value_) l;
  l' ← (match r with
        | Some l' => Ok l'
        | None =>
            u ← byte_of (sk_key_usage_qual c); i ← byte_of (sk_key_id c); n ← byte_of (sk_kvn c); kt ← byte_of (sk_key_type c);
            Ok (l ++ [VDict [("keyUsageQualifier", VBytes u); ("keyIdentifier", VBytes i); ("keyVersionNumber", VBytes n);
                             ("keyComponents", VList [VDict [("keyType", VBytes kt); ("keyData", VBytes value_)]])]%string])
        end);
  Ok (set_decoded (dict_set "keyList" (VList l') (decoded pe)) pe).

Definition SdKey_apply (c : sd_key_class) (value_ : bytes) : P unit :=
  s ← get; for_each (get_pes_for_type "securityDomain" s) (λ pe, update_pe pe (SdKey__apply_sd c value_)).

(** ** Codes *)

(** The text of a code: ['%0wd'] of a number; bytes have no [isdecimal]. *)
Definition code_text (w : nat) (v : input) : result str :=
  match v with InInt z => Ok (fmt_d w z) | InStr s => Ok s | InBytes _ => Err AttributeError end.

Definition Puk_validate (input_value : input) : result str :=
  value_ ← code_text 8 input_value;
  guard_else (isdecimal value_) ValueError;;
  Ok value_.

(** Eight bytes of ASCII digits, filled with FF. *)
Definition padded_code (value_ : str) : result bytes := h2b (rpad (concat (map (λ x, fmt_x 2 (code x)) value_)) 16).

Definition set_code (k : string) (reference : Z) (b : result bytes) : list value → result (option (list value)) :=
  update_first (item_is "keyReference" reference) (λ v, b ← b; set_item k (VBytes b) v).

(** [pes.pes_by_naa['mf'][0]] *)
Definition mf_pes (s : profile) : result (list nat) := l ← from_opt KeyError (kv_get "mf"%string (pes_by_naa s)); idx l 0.

Definition Puk_set (reference : Z) (b : result bytes) (p : PE) : result PE :=
  v ← item (VDict (decoded p)) "pukCodes"; l ← as_list v;
  r ← set_code "pukValue" reference b l;
  l' ← from_opt ValueError r;
  Ok (set_decoded (dict_set "pukCodes" (VList l') (decoded p)) p).
Definition Puk_apply (reference : Z) (value_ : str) : P unit :=
  s ← get;
  l ← lift (mf_pes s);
  i ← lift (obtain_singleton_pe_from_pelist s l "pukCodes");
  update_pe i (Puk_set reference (padded_code value_)).

Definition Pin_validate (input_value : input) : result str :=
  match input_value with
  | InBytes b => guard_else (negb ((len b <? 4) || (8 <? len b))) ValueError;; Err AttributeError
  | _ =>
      value_ ← code_text 4 input_value;
      guard_else (negb ((len value_ <? 4) || (8 <? len value_))) ValueError;;
      guard_else (isdecimal value_) ValueError;;
      Ok value_
  end.

(** The codes of one element; one without own codes is left alone. *)
Definition Pin_set (reference : Z) (b : result bytes) (p : PE) : result PE :=
  v ← item (VDict (decoded p)) "pinCodes"; t ← as_list v;
  choice ← idx t 0;
  if is_str choice "pinconfig" then
    v ← idx t 1; l ← as_list v;
    r ← set_code "pinValue" reference b l;
    l' ← from_opt ValueError r;
    Ok (set_decoded (dict_set "pinCodes" (VList (<[1%nat := VList l']> t)) (decoded p)) p)
  else Ok p.
Definition Pin_apply (reference : Z) (value_ : str) : P unit :=
  s ← get;
  l ← lift (mf_pes s);
  i ← lift (obtain_first_pe_from_pelist s l "pinCodes");
  update_pe i (Pin_set reference (padded_code value_)).

Definition AppPin__apply_one (reference : Z) (value_ : str) (instance : list nat) : P unit :=
  s ← get;
  i ← lift (obtain_first_pe_from_pelist s instance "pinCodes");
  update_pe i (Pin_set reference (padded_code value_)).
Definition AppPin_apply (reference : Z) (value_ : str) : P unit :=
  s ← get;
  for_each (pes_by_naa s) (λ kv,
    if bool_decide (kv.1 ∈ ["usim"; "isim"; "csim"; "telecom"]%string)
    then for_each kv.2 (AppPin__apply_one reference value_) else mret ()).

(** The classes by their references. *)
Definition Puk1 : Z := 0x01.
Definition Puk2 : Z := 0x81.
Definition Pin1 : Z := 0x01.
Definition Pin2 : Z := 0x81.
Definition Adm1 : Z := 0x0A.
Definition Adm2 : Z := 0x0B.

(** ** Algorithms *)

(** [K] and [Opc] take bytes, [AlgorithmID] one of three numbers. *)
Inductive algo_param := K | Opc | AlgorithmID.
Definition algo_key (a : algo_param) : string := match a with K => "key" | Opc => "opc" | AlgorithmID => "algorithmID" end.

Definition AlgoConfig_validate (a : algo_param) (input_value : input) : result value :=
  match a, input_value with
  | AlgorithmID, InInt z => guard_else (bool_decide (z ∈ [1; 2; 3])) ValueError;; Ok (VInt z)
  | AlgorithmID, _ => Err ValueError
  | _, InBytes b => Ok (VBytes b)
  | _, _ => Err ValueError
  end.

Definition AlgoConfig_set (a : algo_param) (v : value) (p : PE) : result PE :=
  c ← item (VDict (decoded p)) "algoConfiguration"; l ← as_list c;
  choice ← idx l 0;
  if is_str choice "algoParameter" then
    x ← idx l 1;
    x ← set_item (algo_key a) v x;
    Ok (set_decoded (dict_set "algoConfiguration" (VList (<[1%nat := x]> l)) (decoded p)) p)
  else Ok p.
Definition AlgoConfig_apply (a : algo_param) (v : value) : P unit :=
  s ← get; for_each (get_pes_for_type "akaParameter" s) (λ pe, update_pe pe (AlgoConfig_set a v)).
End personalization.

(** ** What the parameters do *)

Lemma as_tuples_of l : as_tuples (of_tuples l) = Ok l.
Proof.
  unfold as_tuples, of_tuples. simpl. induction l as [|[k v] l IH]; [done|]. simpl in *. by rewrite IH.
Qed.

(** A run over distinct elements, each of which is rewritten. *)
Lemma for_each_update (step : nat → P unit) (ok : PE → Prop) (g : PE → PE) l :
  (∀ i s p, pes s !! i = Some p → ok p → step i s = (Ok (), set_pes (<[i := g p]> (pes s)) s)) →
  NoDup l → ∀ s, (∀ i, i ∈ l → ∃ p, pes s !! i = Some p ∧ ok p) →
  ∃ s', for_each l step s = (Ok (), s') ∧ s' = set_pes (pes s') s
    ∧ (∀ i p, i ∈ l → pes s !! i = Some p → pes s' !! i = Some (g p)) ∧ (∀ j, j ∉ l → pes s' !! j = pes s !! j).
Proof.
  intros Hstep. induction l as [|i l IH]; intros Hn s Hok; simpl.
  { exists s. split; [done|]. split; [by destruct s|]. split; [intros i p Hi; by apply elem_of_nil in Hi|done]. }
  apply list.NoDup_cons in Hn as [Hi Hn]. destruct (Hok i) as (p & Hp & Hpk); [set_solver|].
  rewrite M_bind_eq, (Hstep i s p) by done.
  destruct (IH Hn (set_pes (<[i := g p]> (pes s)) s)) as (s' & Hr & Es & Hin & Hout).
  { intros j Hj. simpl. rewrite list_lookup_insert_ne by set_solver. apply Hok. set_solver. }
  simpl in Hin, Hout. exists s'. split; [exact Hr|]. split; [by rewrite Es|]. split.
  - intros j q [->|Hj]%elem_of_cons Hq; [|apply Hin; [done|by rewrite list_lookup_insert_ne by set_solver]].
    assert (q = p) as -> by congruence. rewrite Hout by done. apply list_lookup_insert_eq. by eapply lookup_lt_Some.
  - intros j Hj. rewrite Hout by set_solver. apply list_lookup_insert_ne. set_solver.
Qed.

Section facts.
Context `{OsmocomUtilsLaws}.

(** Decimal digits and the filler, as the bytes they stand for. *)
Lemma digits_lhex s n : digits_str s → Forall (λ c, is_lhex c = true) (s ++ replicate n "f"%char).
Proof.
  intros Hs. apply Forall_app. split; [|by apply Forall_replicate].
  eapply Forall_impl; [|exact Hs]. intros c Hc. unfold is_lhex. by rewrite Hc.
Qed.

Lemma rpad_bytes s : digits_str s → (length s <= 20)%nat → ∃ b, h2b (rpad s 20) = Ok b ∧ b2h b = rpad s 20 ∧ is_bytes b.
Proof.
  intros Hs Hl. rewrite rpad_eq. destruct (h2b_lhex 10 (s ++ replicate (20 - length s) "f"%char)) as (b & Hb & _ & E & E').
  - rewrite length_app, length_replicate. lia.
  - by apply digits_lhex.
  - eauto.
Qed.

Lemma enc_iccid_bytes s : digits_str s → (length s <= 20)%nat →
  ∃ b, h2b (enc_iccid s) = Ok b ∧ is_bytes b ∧ len b = 10 ∧ dec_iccid (b2h b) = s.
Proof.
  intros Hs Hl. destruct (iccid_round_trip s Hs Hl) as [Hd Hlen].
  destruct (h2b_lhex 10 (enc_iccid s)) as (b & Hb & Hlb & E & E').
  - by rewrite Hlen.
  - unfold enc_iccid. rewrite rpad_eq. apply (swap_nibbles_Forall _ 10); [rewrite length_app, length_replicate; lia|].
    by apply digits_lhex.
  - exists b. rewrite E'. split_and!; try done. unfold len. by rewrite Hlb.
Qed.

Lemma isdecimal_digits s : isdecimal s = true ↔ s ≠ [] ∧ digits_str s.
Proof.
  unfold isdecimal, digits_str. rewrite andb_true_iff, negb_true_iff, bool_decide_eq_false, forallb_forall, list.Forall_forall.
  by setoid_rewrite <- list_elem_of_In.
Qed.

(** Changing the contents of a file of an element. *)
Definition with_content (name : string) (l : tuples) (c : bytes) (p : PE) : PE :=
  set_decoded (dict_set name (of_tuples (file_replace_content l c)) (decoded p)) p.

Lemma replace_content_run name l c p : dict_get name (decoded p) = Some (of_tuples l) →
  pe_replace_content name c p = Ok (with_content name l c p).
Proof. intros Hd. unfold pe_replace_content, item. rewrite Hd. cbn [from_opt]. rewrite R_bind_Ok, as_tuples_of. done. Qed.

Lemma the_pe_run t s i : get_pe_for_type t s = Ok (Some i) → the_pe t s = (Ok i, s).
Proof. intros E. unfold the_pe. mrun. rewrite E. by mrun. Qed.

(** The file has the content [c], and what it had apart from a content. *)
Definition has_content (name : string) (p p' : PE) (c : bytes) : Prop :=
  ∃ l, dict_get name (decoded p) = Some (of_tuples l)
    ∧ dict_get name (decoded p') = Some (of_tuples (List.filter (λ kv, bool_decide (kv.1 ∉ [lit "fillFileContent"; lit "fillFileOffset"])) l
                                                    ++ [(lit "fillFileContent", VBytes c)])).


Lemma forallb_Forall {A} (f : A → bool) l : forallb f l = true → Forall (λ x, f x = true) l.
Proof. rewrite forallb_forall, list.Forall_forall. intros Hf x Hx. apply Hf. by apply list_elem_of_In. Qed.

(** The length and the odd/even digit of an IMSI of [n] digits. *)
Lemma imsi_prefix n : (n <= 15)%nat →
  forallb is_lhex (fmt_x 2 (Z.of_nat (Nat.div2 (n + 1 + 1))) ++ fmt_x 1 (Z.lor (Z.shiftl (Z.land (Z.of_nat n) 1) 3) 1)) = true
  ∧ length (fmt_x 1 (Z.lor (Z.shiftl (Z.land (Z.of_nat n) 1) 3) 1)) = 1%nat.
Proof. intros Hn. do 16 (destruct n as [|n]; [by vm_compute|]). lia. Qed.

Lemma enc_imsi_bytes s : digits_str s → (length s <= 15)%nat →
  ∃ b, h2b (enc_imsi s) = Ok b ∧ len b = 9 ∧ dec_imsi (b2h b) = Ok (Some s).
Proof.
  intros Hs Hl. destruct (imsi_round_trip s Hs Hl) as [Hd Hlen].
  destruct (h2b_lhex 9 (enc_imsi s)) as (b & Hb & Hlb & E & E').
  - by rewrite Hlen.
  - unfold enc_imsi. rewrite half_round_up_eq, rpad_eq. destruct (imsi_prefix (length s) Hl) as [Hf Hf0].
    apply forallb_Forall, Forall_app in Hf as [Hf1 Hf2]. apply Forall_app. split; [done|].
    apply (swap_nibbles_Forall _ 8); [rewrite !length_app, length_replicate; unfold len; rewrite Hf0; lia|].
    apply Forall_app. split; [done|by apply digits_lhex].
  - exists b. rewrite E'. split_and!; try done. unfold len. by rewrite Hlb.
Qed.

(** What applying an IMSI makes of one USIM. *)
Definition with_imsi (b a : bytes) (p : PE) : PE :=
  match pe_replace_content "ef-imsi" b p with
  | Ok p1 => match pe_replace_content "ef-acc" a p1 with Ok p2 => p2 | Err _ => p1 end
  | Err _ => p
  end.
Definition has_imsi_files (p : PE) : Prop :=
  ∃ l m, dict_get "ef-imsi" (decoded p) = Some (of_tuples l) ∧ dict_get "ef-acc" (decoded p) = Some (of_tuples m).

Lemma with_imsi_spec b a p : has_imsi_files p →
  has_content "ef-imsi" p (with_imsi b a p) b ∧ has_content "ef-acc" p (with_imsi b a p) a
  ∧ ∃ p1, pe_replace_content "ef-imsi" b p = Ok p1 ∧ pe_replace_content "ef-acc" a p1 = Ok (with_imsi b a p)
  ∧ ∀ k, k ≠ "ef-imsi"%string → k ≠ "ef-acc"%string → dict_get k (decoded (with_imsi b a p)) = dict_get k (decoded p).
Proof.
  intros (l & m & Hl & Hm). unfold with_imsi. rewrite (replace_content_run "ef-imsi" l) by done.
  rewrite (replace_content_run "ef-acc" m) by (simpl; by rewrite dict_get_set). split; [|split].
  - exists l. split; [done|]. simpl. by rewrite !dict_get_set.
  - exists m. split; [done|]. simpl. by rewrite dict_get_set.
  - eexists. split; [done|]. split; [apply replace_content_run; simpl; by rewrite dict_get_set|].
    intros k Hk1 Hk2. simpl. rewrite !dict_get_set. by destruct (String.eqb_spec k "ef-acc"), (String.eqb_spec k "ef-imsi").
Qed.

(** C33: Applying an IMSI that was validated (6 to 15 digits) gives every USIM
    of the profile that number: EF.IMSI holds nine bytes that decode to it and
    EF.ACC the class its last digit stands for; nothing else changes. *)
Theorem imsi_apply_spec inp v s : Imsi_validate inp = Ok v → NoDup (get_pes_for_type "usim" s) →
  (∀ i, i ∈ get_pes_for_type "usim" s → ∃ p, pes s !! i = Some p ∧ has_imsi_files p) →
  6 <= len v <= 15 ∧ ∃ s' pre c b, v = pre ++ [c] ∧ Imsi_apply v s = (Ok (), s') ∧ len b = 9 ∧ dec_imsi (b2h b) = Ok (Some v)
    ∧ (∀ i p, i ∈ get_pes_for_type "usim" s → pes s !! i = Some p →
         ∃ p', pes s' !! i = Some p' ∧ has_content "ef-imsi" p p' b ∧ has_content "ef-acc" p p' (be 2 (2 ^ digit_val c))
         ∧ ∀ k, k ≠ "ef-imsi"%string → k ≠ "ef-acc"%string → dict_get k (decoded p') = dict_get k (decoded p))
    ∧ (∀ j, j ∉ get_pes_for_type "usim" s → pes s' !! j = pes s !! j) ∧ s' = set_pes (pes s') s.
Proof.
  intros Hv Hn Hf. unfold Imsi_validate in Hv. apply bind_ok in Hv as ([] & Hlen & Hv).
  apply bind_ok in Hv as ([] & Hd & Hv). injection Hv as Hv. rewrite Hv in Hlen, Hd.
  apply guard_else_ok, negb_true_iff, orb_false_iff in Hlen as [Hlo%Z.ltb_ge Hhi%Z.ltb_ge].
  apply guard_else_ok, isdecimal_digits in Hd as [Hne Hd]. split; [lia|].
  destruct (enc_imsi_bytes v Hd) as (b & Hb & Hbl & Hbd); [unfold len in Hhi; lia|].
  destruct (exists_last Hne) as (pre & c & ->). pose proof (proj2 (proj1 (Forall_app _ _ _) Hd)) as Hc.
  apply list.Forall_cons in Hc as [Hc _]. pose proof (digit_range c Hc) as Hr.
  set (a := be 2 (2 ^ digit_val c)).
  assert (Ha : to_bytes 2 (Z.shiftl 1 (digit_val c)) = Ok a).
  { unfold to_bytes. rewrite Z.shiftl_1_l, bool_decide_eq_true_2; [done|]. split; [apply Z.pow_nonneg; lia|].
    apply Z.le_lt_trans with (2 ^ 9); [apply Z.pow_le_mono_r; lia|done]. }
  edestruct (for_each_update (λ pe, s ← get; p ← lift (pe_at s pe); v ← lift (item (VDict (decoded p)) "ef-imsi");
      b ← lift (h2b (enc_imsi (pre ++ [c]))); update_pe pe (pe_replace_content "ef-imsi" b);;
      b ← lift (to_bytes 2 (Z.shiftl 1 (digit_val c))); update_pe pe (pe_replace_content "ef-acc" b)) has_imsi_files (with_imsi b a))
    as (s' & Hrun & Es & Hin & Hout); [|exact Hn|exact Hf|].
  - intros i s0 p Hp Hpf. destruct (with_imsi_spec b a p Hpf) as (_ & _ & p1 & He1 & He2 & _).
    mrun. unfold pe_at. rewrite Hp. mrun. destruct Hpf as (l & m & Hl & _). unfold item. rewrite Hl. mrun. rewrite Hb. mrun.
    rewrite (update_pe_run i _ s0 p p1) by done. mrun. rewrite Ha. mrun.
    rewrite (update_pe_run i _ _ p1 (with_imsi b a p)); [simpl; by rewrite list_insert_insert_eq| |done].
    simpl. apply list_lookup_insert_eq. by eapply lookup_lt_Some.
  - exists s', pre, c, b. split; [done|]. split.
    { unfold Imsi_apply. mrun. rewrite zidx_last. mrun. rewrite int_digit_val by done. mrun. exact Hrun. }
    split; [done|]. split; [done|]. split; [|by split].
    intros i p Hi Hp. destruct (Hf i Hi) as (q & Hq & Hqf). assert (q = p) as -> by congruence.
    destruct (with_imsi_spec b a p Hqf) as (Hx & Hy & p1 & _ & _ & Hz). exists (with_imsi b a p).
    split; [by apply Hin|]. by split.
Qed.
End facts.

(** ** Keys are not written *)

Section keys_lost.
Context `{Construct} `{SaipLib}.

(** What encoding does to an element, and the bytes it gives. *)
Definition pre_encode_pe (p : PE) : result unit * PE :=
  match pe_cls p with
  | PeSD | PeSSD => sd_pre_encode p
  | PeAKA => match _fixup_sqnInit_enc p with Ok p' => (Ok (), p') | Err e => (Err e, p) end
  | _ => (Ok (), p)
  end.
Definition encode_pe (p : PE) : result bytes :=
  _ ← fst (pre_encode_pe p); t ← pe_type (snd (pre_encode_pe p)); asn1_encode t (decoded (snd (pre_encode_pe p))).

Lemma on_pe_run {A} i (m : M PE A) s p : pes s !! i = Some p → on_pe i m s = (fst (m p), set_pes (<[i := snd (m p)]> (pes s)) s).
Proof. intros Hp. unfold on_pe, pe_at. mrun. rewrite Hp. mrun. by destruct (m p). Qed.

Lemma pre_encode_run i s p : pes s !! i = Some p →
  pre_encode i s = (fst (pre_encode_pe p), set_pes (<[i := snd (pre_encode_pe p)]> (pes s)) s).
Proof.
  intros Hp. unfold pre_encode, pre_encode_pe. mrun. unfold pe_at. rewrite Hp. mrun.
  assert (Hs : set_pes (<[i := p]> (pes s)) s = s) by (rewrite list_insert_id by done; by destruct s).
  destruct (pe_cls p); simpl; rewrite ?Hs; try done; try by apply on_pe_run.
  unfold update_pe. rewrite (on_pe_run i _ s p) by done. mrun. by destruct (_fixup_sqnInit_enc p).
Qed.

Lemma pe_to_der_encode i s p : pes s !! i = Some p → fst (pe_to_der i s) = encode_pe p.
Proof.
  intros Hp. unfold pe_to_der, encode_pe. rewrite M_bind_eq, (pre_encode_run i s p) by done.
  destruct (fst (pre_encode_pe p)) as [[]|]; [|done]. mrun. unfold pe_at. simpl.
  rewrite list_lookup_insert_eq by (by eapply lookup_lt_Some). mrun.
  destruct (pe_type _); [|done]. mrun. by destruct (asn1_encode _ _).
Qed.

(** Whatever the dict holds as list of keys, encoding replaces it by the keys
    of the object. *)
Lemma encode_key_list p l old : pe_cls p = PeSD ∨ pe_cls p = PeSSD → dict_get "keyList" (decoded p) = Some old → ∀ b,
  encode_pe p = Ok b → encode_pe (set_decoded (dict_set "keyList" l (decoded p)) p) = Ok b.
Proof.
  intros Hc Hold b. set (q := set_decoded _ p).
  assert (Hsd : ∀ r, pe_cls r = pe_cls p → pre_encode_pe r = sd_pre_encode r)
    by (intros r Hr; unfold pre_encode_pe; rewrite Hr; by destruct Hc as [E|E]; rewrite E).
  unfold encode_pe. rewrite !Hsd by done. unfold sd_pre_encode. mrun.
  change (pe_keys q) with (pe_keys p).
  destruct (map_r key_to_saip_dict (pe_keys p)) as [m|]; [|done]. mrun. simpl.
  assert (E : dict_set "keyList" (VList m) (dict_set "keyList" l (decoded p)) = dict_set "keyList" (VList m) (decoded p))
    by apply dict_set_set.
  destruct (usip_to_bytes (pe_usip p)); [|done]. mrun. simpl. rewrite E.
  destruct (item (VDict (dict_set "keyList" (VList m) (decoded p))) "instance") as [v|]; [|done]. mrun. by destruct (as_dict v).
Qed.

Definition is_sd (p : PE) : Prop := pe_cls p = PeSD ∨ pe_cls p = PeSSD.

Lemma apply_sd_inv c v p q : SdKey__apply_sd c v p = Ok q → ∃ l old,
  dict_get "keyList" (decoded p) = Some old ∧ q = set_decoded (dict_set "keyList" (VList l) (decoded p)) p.
Proof.
  unfold SdKey__apply_sd. intros E. apply bind_ok in E as (t & _ & E). apply bind_ok in E as ([] & _ & E).
  apply bind_ok in E as (old & Ho & E). apply from_opt_ok in Ho. apply bind_ok in E as (l & _ & E).
  apply bind_ok in E as (r & _ & E). apply bind_ok in E as (l' & _ & E). injection E as <-. by exists l', old.
Qed.

Lemma apply_all_inv c v l : ∀ s s', for_each l (λ pe, update_pe pe (SdKey__apply_sd c v)) s = (Ok (), s') →
  (∀ i p, i ∈ l → pes s !! i = Some p → is_sd p) → ∀ i p, pes s !! i = Some p →
  ∃ q, pes s' !! i = Some q ∧ ∀ b, encode_pe p = Ok b → encode_pe q = Ok b.
Proof.
  induction l as [|j l IH]; intros s s' E Hc i p Hp; simpl in E; [injection E as <-; eauto|].
  apply M_bind_ok in E as ([] & s1 & E1 & E).
  destruct (pes s !! j) as [pj|] eqn:Hj.
  2: { unfold update_pe, on_pe, pe_at in E1. rewrite M_bind_eq in E1. cbn in E1. rewrite M_bind_eq, Hj in E1. done. }
  unfold update_pe in E1. rewrite (on_pe_run j _ s pj) in E1 by done. mrun. 
  destruct (SdKey__apply_sd c v pj) as [q|] eqn:Ea; [|rewrite M_bind_eq in E1; cbn in E1; rewrite M_bind_eq in E1; cbn in E1; by rewrite Ea in E1].
  assert (s1 = set_pes (<[j := q]> (pes s)) s) as ->.
  { rewrite M_bind_eq in E1. cbn in E1. rewrite M_bind_eq in E1. cbn in E1. rewrite Ea in E1. by injection E1. }
  destruct (apply_sd_inv _ _ _ _ Ea) as (l' & old & Hold & Hq).
  assert (Hsd : is_sd pj) by (apply (Hc j); [set_solver|done]).
  assert (Hc1 : ∀ k r, k ∈ l → (<[j := q]> (pes s)) !! k = Some r → is_sd r).
  { intros k r Hk. destruct (decide (k = j)) as [->|Hkj].
    - rewrite list_lookup_insert_eq by (by eapply lookup_lt_Some). intros [= <-]. by rewrite Hq.
    - rewrite list_lookup_insert_ne by done. apply Hc. set_solver. }
  destruct (decide (i = j)) as [->|Hij].
  - destruct (IH _ _ E Hc1 j q) as (r & Hr & Hb); [simpl; apply list_lookup_insert_eq; by eapply lookup_lt_Some|].
    exists r. split; [done|]. intros b Hpb. apply Hb. assert (p = pj) as -> by congruence. rewrite Hq.
    by apply (encode_key_list pj (VList l') old).
  - apply (IH _ _ E Hc1 i p). simpl. by rewrite list_lookup_insert_ne.
Qed.

(** C23: A key of a security domain set by personalization ([SdKey.apply]) does
    not get into the encoded profile: after it, every element is encoded to
    the bytes it was encoded to before. ([apply] changes the decoded list of
    keys, which [_pre_encode] then replaces by the keys of the object.) *)
Theorem sd_key_not_encoded c v s s' : SdKey_apply c v s = (Ok (), s') →
  (∀ i p, i ∈ get_pes_for_type "securityDomain" s → pes s !! i = Some p → is_sd p) →
  ∀ i b, fst (pe_to_der i s) = Ok b → fst (pe_to_der i s') = Ok b.
Proof.
  unfold SdKey_apply. rewrite M_bind_eq. cbn. intros Hr Hc i b Hb.
  destruct (pes s !! i) as [p|] eqn:Hp.
  - rewrite (pe_to_der_encode i s p Hp) in Hb. destruct (apply_all_inv _ _ _ _ _ Hr Hc i p Hp) as (q & Hq & Hqb).
    rewrite (pe_to_der_encode i s' q Hq). by apply Hqb.
  - unfold pe_to_der, pre_encode, pe_at in Hb. rewrite M_bind_eq, M_bind_eq in Hb. cbn in Hb. rewrite M_bind_eq, Hp in Hb. done.
Qed.
End keys_lost.

(** ** Codes *)

Section codes_facts.
Context `{OsmocomUtilsLaws}.

(** A code of up to eight digits: their ASCII codes and FF. *)
Definition code_bytes (s : str) : bytes := map code s ++ replicate (8 - length s) 0xff.

Lemma digit_hex_text c : is_digit c = true → fmt_x 2 (code c) = bytes_hex [code c].
Proof. revert c. by_digits. Qed.

Lemma digits_hex_text s : digits_str s → concat (map (λ x, fmt_x 2 (code x)) s) = bytes_hex (map code s).
Proof.
  unfold digits_str. induction 1 as [|c s Hc _ IH]; [done|]. simpl. rewrite IH, digit_hex_text by done.
  by rewrite <- bytes_hex_app.
Qed.

Lemma padded_code_bytes s : digits_str s → (length s <= 8)%nat → padded_code s = Ok (code_bytes s) ∧ length (code_bytes s) = 8%nat.
Proof.
  intros Hs Hl. split; [|unfold code_bytes; rewrite length_app, length_map, length_replicate; lia].
  unfold padded_code. rewrite rpad_eq, digits_hex_text by done.
  rewrite length_bytes_hex, length_map. replace (16 - 2 * length s)%nat with (2 * (8 - length s))%nat by lia.
  assert (Hf : ∀ n, replicate (2 * n) "f"%char = bytes_hex (replicate n 0xff)).
  { intros n. induction n as [|n IH]; [done|]. replace (2 * S n)%nat with (S (S (2 * n))) by lia. cbn [replicate].
    by rewrite IH, bytes_hex_cons. }
  rewrite Hf, <- bytes_hex_app, h2b_hex by apply is_hexstr_bytes_hex. apply fromhex_hex.
  apply Forall_app. split; [|by apply Forall_replicate].
  apply Forall_fmap. eapply Forall_impl; [|exact Hs]. intros c Hc. apply digit_range in Hc. unfold digit_val in Hc. unfold is_byte, compose. lia.
Qed.

(** Changing the first entry with a reference. *)
Lemma set_code_spec k ref (b : bytes) l : Forall (λ v, ∃ d, v = VDict d ∧ is_Some (dict_get "keyReference" d)) l →
  match set_code k ref (Ok b) l with
  | Ok (Some l') => ∃ a d z, l = a ++ VDict d :: z ∧ l' = a ++ VDict (dict_set k (VBytes b) d) :: z
      ∧ item_is "keyReference" ref (VDict d) = Ok true ∧ Forall (λ v, item_is "keyReference" ref v = Ok false) a
  | Ok None => Forall (λ v, item_is "keyReference" ref v = Ok false) l
  | Err _ => False
  end.
Proof.
  unfold set_code. induction 1 as [|v l (d & -> & [x Hx]) _ IH]; [constructor|]. cbn [update_first].
  assert (Hi : item_is "keyReference" ref (VDict d) = Ok (is_int ref x)) by (unfold item_is, item; by rewrite Hx).
  rewrite Hi, R_bind_Ok. destruct (is_int ref x) eqn:E.
  - mrun. cbn [set_item as_dict]. mrun. exists [], d, l. split_and!; try done.
  - destruct (update_first _ _ l) as [[l'|]|]; cbn; [|by constructor|done].
    destruct IH as (a & d' & z & -> & -> & Hd & Ha). exists (VDict d :: a), d', z. split_and!; try done. by constructor.
Qed.

Lemma Pin_set_run ref b p l r : dict_get "pinCodes" (decoded p) = Some (VList (VStr (lit "pinconfig") :: VList l :: r)) →
  Pin_set ref b p = (o ← set_code "pinValue" ref b l; l' ← from_opt ValueError o;
    Ok (set_decoded (dict_set "pinCodes" (VList (VStr (lit "pinconfig") :: VList l' :: r)) (decoded p)) p)).
Proof. intros Hl. unfold Pin_set, item. rewrite Hl. reflexivity. Qed.

(** Applying a PIN that was validated (4 to 8 digits) to an element with
    own codes writes eight bytes, the ASCII digits filled with FF, into the
    first code with the key reference and changes no other code; without one it
    raises ValueError. An element whose codes are another's is left alone. *)
Theorem pin_set_spec inp v ref p l r : Pin_validate inp = Ok v →
  dict_get "pinCodes" (decoded p) = Some (VList (VStr (lit "pinconfig") :: VList l :: r)) →
  Forall (λ v, ∃ d, v = VDict d ∧ is_Some (dict_get "keyReference" d)) l →
  match Pin_set ref (padded_code v) p with
  | Ok p' => ∃ a d z, l = a ++ VDict d :: z ∧ Forall (λ v, item_is "keyReference" ref v = Ok false) a
      ∧ item_is "keyReference" ref (VDict d) = Ok true ∧ length (code_bytes v) = 8%nat ∧ take (length v) (code_bytes v) = map code v
      ∧ p' = set_decoded (dict_set "pinCodes" (VList (VStr (lit "pinconfig")
               :: VList (a ++ VDict (dict_set "pinValue" (VBytes (code_bytes v)) d) :: z) :: r)) (decoded p)) p
  | Err e => e = ValueError ∧ Forall (λ v, item_is "keyReference" ref v = Ok false) l
  end
  ∧ ∀ q t, dict_get "pinCodes" (decoded q) = Some (VList (VStr t :: r)) → t ≠ lit "pinconfig" → Pin_set ref (padded_code v) q = Ok q.
Proof.
  intros Hv Hl Hd.
  assert (Hdig : digits_str v ∧ (length v <= 8)%nat).
  { unfold Pin_validate in Hv. destruct inp as [s|z|b]; [..|apply bind_ok in Hv as ([] & _ & Hv); done];
    apply bind_ok in Hv as (w & _ & Hv); apply bind_ok in Hv as ([] & Hg & Hv); apply bind_ok in Hv as ([] & Hdec & Hv);
    injection Hv as ->; apply guard_else_ok, isdecimal_digits in Hdec as [_ Hdec];
    apply guard_else_ok, negb_true_iff, orb_false_iff in Hg as [_ Hg%Z.ltb_ge]; (split; [done|unfold len in Hg; lia]). }
  destruct Hdig as [Hdig Hlen]. destruct (padded_code_bytes v Hdig Hlen) as [-> H8]. split.
  - rewrite (Pin_set_run ref _ p l r) by done.
    pose proof (set_code_spec "pinValue" ref (code_bytes v) l Hd) as Hs.
    destruct (set_code "pinValue" ref (Ok (code_bytes v)) l) as [[l'|]|]; mrun; [|by split|done].
    destruct Hs as (a & d & z & -> & -> & Hi & Ha). exists a, d, z. split_and!; try done.
    unfold code_bytes. by rewrite take_app_length' by by rewrite length_map.
  - intros q t Hq Ht. unfold Pin_set, item. rewrite Hq. cbn. by rewrite bool_decide_eq_false_2.
Qed.
End codes_facts.

(** ** Concrete profiles *)

Module PersonalRun.
Import Ref SaipRun.

(** An encoding that shows how many keys a list holds. *)
#[export] Instance lib : SaipLib := {
  asn1_decode _ := Err ValueError;
  asn1_encode _ d := match dict_get "keyList" d with Some (VList l) => Ok [len l] | _ => Err ValueError end;
  pe_members _ := None; usip_from_bytes _ := Ok []; usip_to_bytes _ := Ok [] }.

Definition file (l : tuples) : value := of_tuples l.
Definition profile_ : profile :=
  {| pes := [Example_.element PeHeader [("iccid"%string, VBytes (replicate 10 0))];
             Example_.element PeMF [("ef-iccid"%string, file [(lit "fileDescriptor", VNone); (lit "fillFileContent", VBytes [1])])];
             Example_.element PeUSIM [("ef-imsi"%string, file []); ("ef-acc"%string, file [(lit "fillFileOffset", VInt 3)])];
             set_sd [KeysRun.key_of 0x30 1] [] (Example_.element PeSD [("instance", VDict []); ("keyList", VList [])]%string)];
     p_tree := {| nodes := []; tree_files := [] |}; pe_list := [0; 1; 2; 3]%nat;
     pe_by_type := [("header", [0]); ("mf", [1]); ("usim", [2]); ("securityDomain", [3])]%nat%string;
     pes_by_naa := []; mf := None; cur_df := None |}.

Definition pin (ref : Z) : value := VDict [("keyReference", VInt ref); ("pinValue", VBytes [])]%string.
Definition pins : PE := Example_.element PePin [("pinCodes"%string, VList [VStr (lit "pinconfig"); VList [pin 1; pin 0x0A]])].
End PersonalRun.
Import Ref SaipRun PersonalRun.


Lemma imsi_apply_spec_witness : ∃ s' b, Imsi_apply (lit "001010123456789") profile_ = (Ok (), s') ∧ len b = 9
  ∧ dec_imsi (b2h b) = Ok (Some (lit "001010123456789")).
Proof.
  destruct (imsi_apply_spec (InStr (lit "001010123456789")) (lit "001010123456789") profile_)
    as (_ & s' & pre & c & b & _ & Hr & Hl & Hd & _).
  - vm_compute. reflexivity.
  - apply (bool_decide_eq_true_1 _). vm_compute. reflexivity.
  - intros i Hi. apply list_elem_of_singleton in Hi as ->. eexists. split; [reflexivity|]. do 2 eexists. by split.
  - exists s', b. split; [exact Hr|]. split; [exact Hl|exact Hd].
Defined.

(** The key goes into the dict; the encoding has the one key of the object. *)
Lemma sd_key_not_encoded_witness : ∃ s' k, SdKey_apply SdKeyScp03_30Enc (replicate 16 7) profile_ = (Ok (), s')
  ∧ (∃ p, pes s' !! 3%nat = Some p ∧ dict_get "keyList" (decoded p) = Some (VList [k])) ∧ fst (pe_to_der 3 s') = Ok [1].
Proof.
  do 2 eexists. assert (E : SdKey_apply SdKeyScp03_30Enc (replicate 16 7) profile_ = (Ok (), snd (SdKey_apply SdKeyScp03_30Enc (replicate 16 7) profile_)))
    by (vm_compute; reflexivity).
  split; [exact E|]. split; [vm_compute; eauto|].
  apply (sd_key_not_encoded _ _ _ _ E); [|vm_compute; reflexivity].
  intros i p Hi Hp. apply list_elem_of_singleton in Hi as ->. injection Hp as <-. by left.
Defined.

Lemma pin_set_spec_witness :
  Pin_set Adm1 (padded_code (lit "1234")) pins
  = Ok (set_decoded [("pinCodes"%string, VList [VStr (lit "pinconfig"); VList [PersonalRun.pin 1;
          VDict [("keyReference", VInt 0x0A); ("pinValue", VBytes [0x31; 0x32; 0x33; 0x34; 0xff; 0xff; 0xff; 0xff])]%string]])] pins)
  ∧ Pin_set 0x0B (padded_code (lit "1234")) pins = Err ValueError.
Proof.
  assert (Hf : Forall (λ v, ∃ d, v = VDict d ∧ is_Some (dict_get "keyReference" d)) [PersonalRun.pin 1; PersonalRun.pin 0x0A])
    by (repeat (apply Forall_cons_2; [eexists; split; [reflexivity|by eexists]|]); apply Forall_nil_2).
  split; [vm_compute; reflexivity|].
  destruct (pin_set_spec (InInt 1234) (lit "1234") 0x0B pins [PersonalRun.pin 1; PersonalRun.pin 0x0A] []) as [Hs _];
    [vm_compute; reflexivity|reflexivity|exact Hf|].
  destruct (Pin_set 0x0B (padded_code (lit "1234")) pins) eqn:E; [vm_compute in E; discriminate|]. destruct Hs as [-> _]. reflexivity.
Defined.
