(* ===== verification/SaipValidation.v ===== *)
(** pySim/esim/saip/validation.py: the checks of the structure of a profile
    and of a file, and what they accept. *)

From Stdlib Require Import String.
From S2P Require Import Prelude Osmocom Utils Construct Oid Filesystem Templates TemplateData SaipFile SaipTree SaipElements SaipSequence SaipSequenceProps.

#[local] Open Scope list_scope.

(** ** CheckBasicStructure *)

Definition raise_if (b : bool) (e : exn) : result unit := guard_else (negb b) e.

Definition _is_after_if_exists (pes : profile) (opt after : string) : result unit :=
  opt_pe ← get_pe_for_type opt pes;
  match opt_pe with
  | Some _ => after_pe ← get_pe_for_type after pes; raise_if (bool_decide (after_pe = None)) ProfileError
  | None => Ok ()
  end.

Definition check_start_and_end (pes : profile) : result unit :=
  i ← idx (pe_list pes) 0; t ← type_at pes i; raise_if (negb (bool_decide (t = "header"%string))) ProfileError;;
  i ← idx (pe_list pes) 1; t ← type_at pes i; raise_if (negb (bool_decide (t = "mf"%string))) ProfileError;;
  i ← zidx (pe_list pes) (-1); t ← type_at pes i; raise_if (negb (bool_decide (t = "end"%string))) ProfileError.

Definition number_of (tn : string) (pes : profile) : Z := len (get_pes_for_type tn pes).

Fixpoint all_ok {A} (f : A → result unit) (l : list A) : result unit :=
  match l with [] => Ok () | x :: l' => f x;; all_ok f l' end.

Definition single_types : list string :=
  ["end"; "cd"; "telecom"; "usim"; "isim"; "csim"; "opt-usim"; "opt-isim"; "opt-csim"; "df-saip"; "df-5gs"]%string.
Definition check_number_of_occurrence (pes : profile) : result unit :=
  raise_if (negb (number_of "header" pes =? 1)) ProfileError;;
  raise_if (negb (number_of "mf" pes =? 1)) ProfileError;;
  all_ok (λ tn, raise_if (1 <? number_of tn pes) ProfileError) single_types.

Definition dependencies : list (string * string) :=
  [("opt-usim", "usim"); ("opt-isim", "isim"); ("gsm-access", "usim"); ("phonebook", "usim"); ("df-5gs", "usim");
   ("df-saip", "usim"); ("opt-csim", "csim")]%string.
Definition check_optional_ordering (pes : profile) : result unit :=
  all_ok (λ oa, _is_after_if_exists pes oa.1 oa.2) dependencies.

(** A service needs the element of its name. *)
Definition service_needs_pe (pes : profile) (m_svcs : dict) (k : string) : result unit :=
  if bool_decide (is_Some (dict_get k m_svcs)) then
    o ← get_pe_for_type k pes; raise_if (bool_decide (o = None)) ProfileError
  else Ok ().
(** A service needs one of others. *)
Definition service_needs (m_svcs : dict) (kn : string * list string) : result unit :=
  raise_if (bool_decide (is_Some (dict_get kn.1 m_svcs)) && negb (existsb (λ n, bool_decide (is_Some (dict_get n m_svcs))) kn.2))
    ProfileError.
Definition service_dependencies : list (string * list string) :=
  [("gba-usim", ["usim"]); ("gba-isim", ["isim"]); ("multiple-usim", ["usim"]); ("multiple-isim", ["isim"]);
   ("multiple-csim", ["csim"]); ("get-identity", ["usim"; "isim"]); ("profile-a-x25519", ["usim"; "isim"]);
   ("profile-a-p256", ["usim"; "isim"])]%string.
Definition check_mandatory_services (pes : profile) : result unit :=
  h ← get_pe_for_type "header" pes; h ← from_opt AttributeError h; p ← pe_at pes h;
  v ← item (VDict (decoded p)) "eUICC-Mandatory-services"; m_svcs ← as_dict v;
  all_ok (service_needs_pe pes m_svcs) ["usim"; "isim"; "csim"]%string;;
  all_ok (service_needs m_svcs) service_dependencies.

(** The members of a set. *)
Inductive hashed := HNone | HInt (n : Z) | HStr (s : str) | HBytes (b : bytes).
#[export] Instance hashed_eq_dec : EqDecision hashed.
Proof. solve_decision. Defined.
Definition hash (v : value) : result hashed :=
  match v with
  | VNone => Ok HNone
  | VInt n => Ok (HInt n)
  | VBool b => Ok (HInt (Z.b2z b))
  | VStr s => Ok (HStr s)
  | VBytes b => Ok (HBytes b)
  | VList _ | VDict _ => Err TypeError
  end.

(** [id_list] is what [identifications] gives. *)
Definition check_identification_unique (pes : profile) : result unit :=
  id_list ← identifications pes (pe_list pes);
  hs ← map_r hash id_list;
  raise_if (negb (len id_list =? len (remove_dups hs))) ProfileError.

(** [check]: the methods check_... by their names' order. *)
Definition check (pes : profile) : result unit :=
  check_identification_unique pes;;
  check_mandatory_services pes;;
  check_number_of_occurrence pes;;
  check_optional_ordering pes;;
  check_start_and_end pes.

(** ** FileCheckBasicStructure *)

(** The entries with a key. *)
Definition entries (k : str) (l : tuples) : list value := map snd (List.filter (λ kv, bool_decide (kv.1 = k)) l).

Definition check_seqence (l : tuples) : result unit :=
  raise_if (negb (bool_decide (entries (lit "doNotCreate") l = [])) && negb (len l =? 1)) FileError;;
  if bool_decide (entries (lit "fileDescriptor") l = []) then Ok ()
  else
    raise_if (negb (len (entries (lit "fileDescriptor") l) =? 1)) FileError;;
    x ← idx l 0;
    raise_if (negb (bool_decide (x.1 = lit "fileDescriptor"))) FileError.
(** [check_forbidden] has no body but its description. *)
Definition check_forbidden (l : tuples) : result unit := Ok ().
Definition file_check (l : tuples) : result unit := check_forbidden l;; check_seqence l.

(** ** What the checks accept *)

(** The elements of a type, from the list. *)
Definition elements (s : profile) (t : string) : list nat := List.filter (typed s t) (pe_list s).

Record well_structured (s : profile) : Prop := {
  (** the first element is the header, the second the MF, the last the end *)
  ws_header : ∃ h, pe_list s !! 0%nat = Some h ∧ typed s "header" h = true;
  ws_mf : ∃ m, pe_list s !! 1%nat = Some m ∧ typed s "mf" m = true;
  ws_end : ∃ e, list.last (pe_list s) = Some e ∧ typed s "end" e = true;
  (** one header, one MF, at most one of some others *)
  ws_one t : t ∈ ["header"; "mf"]%string → length (elements s t) = 1%nat;
  ws_single t : t ∈ single_types → (length (elements s t) <= 1)%nat;
  (** what an optional element is for is there *)
  ws_depends o a : (o, a) ∈ dependencies → elements s o ≠ [] → length (elements s o) = 1%nat ∧ length (elements s a) = 1%nat;
  (** services have their elements, and the services they need *)
  ws_services : ∃ h p svcs, elements s "header" = [h] ∧ pes s !! h = Some p
    ∧ dict_get "eUICC-Mandatory-services" (decoded p) = Some (VDict svcs)
    ∧ (∀ k, k ∈ ["usim"; "isim"; "csim"]%string → is_Some (dict_get k svcs) → length (elements s k) = 1%nat)
    ∧ (∀ k ns, (k, ns) ∈ service_dependencies → is_Some (dict_get k svcs) → ∃ n, n ∈ ns ∧ is_Some (dict_get n svcs));
  (** no identification occurs twice *)
  ws_ids : ∃ ids hs, identifications s (pe_list s) = Ok ids ∧ map_r hash ids = Ok hs ∧ NoDup hs }.

Lemma raise_if_ok b e u : raise_if b e = Ok u ↔ b = false.
Proof. unfold raise_if. rewrite guard_else_ok. apply negb_true_iff. Qed.

Lemma bind_unit_ok {B} (a : result unit) (b : result B) x : (a;; b) = Ok x ↔ a = Ok () ∧ b = Ok x.
Proof. destruct a as [[]|]; cbn; naive_solver. Qed.

Lemma all_ok_spec {A} (f : A → result unit) l : all_ok f l = Ok () ↔ ∀ x, x ∈ l → f x = Ok ().
Proof.
  induction l as [|x l IH]; simpl; [set_solver|]. rewrite bind_unit_ok, IH. set_solver.
Qed.

Lemma remove_dups_length {A} `{EqDecision A} (l : list A) : len l =? len (remove_dups l) = true ↔ NoDup l.
Proof.
  unfold len. rewrite Z.eqb_eq. split.
  - induction l as [|x l IH]; simpl; [constructor|]. assert (Hle : ∀ m : list A, (length (remove_dups m) <= length m)%nat).
    { induction m as [|y m IHm]; simpl; [lia|]. case_decide; simpl; lia. }
    specialize (Hle l). case_decide; simpl; [lia|]. intros E. apply list.NoDup_cons. split; [done|]. apply IH. lia.
  - intros Hn. induction Hn as [|x l Hx Hn IH]; simpl; [done|]. case_decide; [done|]. simpl. lia.
Qed.

Section checks.
Context (s : profile) (Hi : type_indexed s).

Lemma get_one_ok t : get_pe_for_type t s = match elements s t with [] => Ok None | [i] => Ok (Some i) | _ => Err AssertionError end.
Proof. unfold get_pe_for_type. by rewrite Hi. Qed.
Lemma number_elements t : number_of t s = Z.of_nat (length (elements s t)).
Proof. unfold number_of. by rewrite Hi. Qed.

Lemma ids_ok : check_identification_unique s = Ok () ↔
  ∃ ids hs, identifications s (pe_list s) = Ok ids ∧ map_r hash ids = Ok hs ∧ NoDup hs.
Proof.
  unfold check_identification_unique. destruct (identifications s (pe_list s)) as [ids|] eqn:E1; cbn;
    [|split; [done|by intros (? & ? & ? & _)]].
  destruct (map_r hash ids) as [hs|] eqn:E2; cbn;
    [|split; [done|intros (? & ? & [= <-] & E & _)]; congruence]. rewrite raise_if_ok, negb_false_iff.
  assert (len ids = len hs) as ->.
  { unfold len. f_equal. revert hs E2. clear. induction ids as [|x ids IH]; intros hs E2; simpl in E2; [by simplify_eq|].
    apply bind_ok in E2 as (y & _ & E2). apply bind_ok in E2 as (ys & E & E2). injection E2 as <-. simpl. by rewrite (IH ys). }
  rewrite remove_dups_length. split; [intros Hn; by exists ids, hs|intros (i & h & [= <-] & E & Hn)]. by replace hs with h by congruence.
Qed.

Lemma number_ok : check_number_of_occurrence s = Ok () ↔
  (∀ t, t ∈ ["header"; "mf"]%string → length (elements s t) = 1%nat)
  ∧ (∀ t, t ∈ single_types → (length (elements s t) <= 1)%nat).
Proof.
  unfold check_number_of_occurrence. rewrite !bind_unit_ok, !raise_if_ok, !negb_false_iff, !Z.eqb_eq, all_ok_spec, !number_elements.
  setoid_rewrite raise_if_ok. setoid_rewrite Z.ltb_ge. setoid_rewrite number_elements. split.
  - intros (Hh & Hm & Hs). split; [|intros t Ht; specialize (Hs t Ht); lia].
    intros t [->|[->|[]%elem_of_nil]%elem_of_cons]%elem_of_cons; lia.
  - intros [H1 H2]. pose proof (H1 "header"%string ltac:(set_solver)). pose proof (H1 "mf"%string ltac:(set_solver)).
    split; [lia|]. split; [lia|]. intros t Ht. specialize (H2 t Ht). lia.
Qed.

(** [get_pe_for_type] gives an element when there is one, and no other. *)
Lemma get_some_ok t : (o ← get_pe_for_type t s; raise_if (bool_decide (o = None)) ProfileError) = Ok () ↔ length (elements s t) = 1%nat.
Proof.
  rewrite get_one_ok. destruct (elements s t) as [|i [|j l]]; cbn; split; try done.
Qed.

Lemma after_ok o a : _is_after_if_exists s o a = Ok () ↔
  (elements s o ≠ [] → length (elements s o) = 1%nat ∧ length (elements s a) = 1%nat).
Proof.
  unfold _is_after_if_exists. rewrite (get_one_ok o). destruct (elements s o) as [|i [|j l]]; cbn [mbind result_bind].
  - split; [done|]. intros _. done.
  - pose proof (get_some_ok a) as Ha. change (mret tt) with (Ok tt) in *. split; [intros E _; split; [done|by apply Ha]|intros E; apply Ha, E; done].
  - split; [done|]. intros E. by destruct (E ltac:(done)).
Qed.

Lemma ordering_ok : check_optional_ordering s = Ok () ↔
  ∀ o a, (o, a) ∈ dependencies → elements s o ≠ [] → length (elements s o) = 1%nat ∧ length (elements s a) = 1%nat.
Proof.
  unfold check_optional_ordering. rewrite all_ok_spec. split.
  - intros E o a Hoa. by apply after_ok, (E (o, a)).
  - intros E [o a] Hoa. by apply after_ok, E.
Qed.

Lemma at_type t (r : result nat) : (i ← r; t' ← type_at s i; raise_if (negb (bool_decide (t' = t))) ProfileError) = Ok () ↔
  ∃ i, r = Ok i ∧ typed s t i = true.
Proof.
  destruct r as [i|]; cbn; [|split; [done|by intros (? & ? & _)]].
  transitivity (typed s t i = true); [|split; [eauto|by intros (? & [= <-] & ?)]].
  unfold typed. destruct (type_at s i) as [t'|]; cbn; [|done]. by rewrite raise_if_ok, negb_false_iff.
Qed.

Lemma start_and_end_ok : check_start_and_end s = Ok () ↔
  (∃ h, pe_list s !! 0%nat = Some h ∧ typed s "header" h = true) ∧ (∃ m, pe_list s !! 1%nat = Some m ∧ typed s "mf" m = true)
  ∧ ∃ e, list.last (pe_list s) = Some e ∧ typed s "end" e = true.
Proof.
  assert (Hsplit : check_start_and_end s = Ok () ↔
    (i ← idx (pe_list s) 0; t ← type_at s i; raise_if (negb (bool_decide (t = "header"%string))) ProfileError) = Ok ()
    ∧ (i ← idx (pe_list s) 1; t ← type_at s i; raise_if (negb (bool_decide (t = "mf"%string))) ProfileError) = Ok ()
    ∧ (i ← zidx (pe_list s) (-1); t ← type_at s i; raise_if (negb (bool_decide (t = "end"%string))) ProfileError) = Ok ()).
  { unfold check_start_and_end. destruct (idx (pe_list s) 0) as [h|]; cbn [mbind result_bind]; [|split; [done|by intros (? & _)]].
    destruct (type_at s h); cbn [mbind result_bind]; [|split; [done|by intros (? & _)]]. rewrite !bind_unit_ok.
    destruct (idx (pe_list s) 1) as [m|]; cbn [mbind result_bind]; [|split; [intros [_ ?]; done|by intros (_ & ? & _)]].
    destruct (type_at s m); cbn [mbind result_bind]; [|split; [intros [_ ?]; done|by intros (_ & ? & _)]]. by rewrite !bind_unit_ok. }
  rewrite Hsplit, !at_type. unfold idx. setoid_rewrite from_opt_ok.
  assert (Hz : ∀ e, zidx (pe_list s) (-1) = Ok e ↔ list.last (pe_list s) = Some e).
  { intros e. destruct (pe_list s) as [|x l _] using rev_ind; [done|]. rewrite zidx_last, last_snoc. naive_solver. }
  by setoid_rewrite Hz.
Qed.

Lemma needs_pe_ok svcs k : service_needs_pe s svcs k = Ok () ↔ (is_Some (dict_get k svcs) → length (elements s k) = 1%nat).
Proof.
  unfold service_needs_pe. case_bool_decide as Hk; [|split; [done|done]]. rewrite get_some_ok. tauto.
Qed.
Lemma needs_ok svcs k ns : service_needs svcs (k, ns) = Ok () ↔
  (is_Some (dict_get k svcs) → ∃ n, n ∈ ns ∧ is_Some (dict_get n svcs)).
Proof.
  unfold service_needs. rewrite raise_if_ok. simpl. case_bool_decide as Hk; simpl; [|split; [done|done]].
  rewrite negb_false_iff, existsb_exists. setoid_rewrite bool_decide_eq_true. setoid_rewrite <- list_elem_of_In. tauto.
Qed.

Lemma services_ok : check_mandatory_services s = Ok () ↔
  ∃ h p svcs, elements s "header" = [h] ∧ pes s !! h = Some p
    ∧ dict_get "eUICC-Mandatory-services" (decoded p) = Some (VDict svcs)
    ∧ (∀ k, k ∈ ["usim"; "isim"; "csim"]%string → is_Some (dict_get k svcs) → length (elements s k) = 1%nat)
    ∧ (∀ k ns, (k, ns) ∈ service_dependencies → is_Some (dict_get k svcs) → ∃ n, n ∈ ns ∧ is_Some (dict_get n svcs)).
Proof.
  unfold check_mandatory_services. rewrite (get_one_ok "header"). split.
  - intros E. apply bind_ok in E as (o & Ho & E). apply bind_ok in E as (h & Hh & E). apply from_opt_ok in Hh as ->.
    apply bind_ok in E as (p & Hp & E). unfold pe_at in Hp. apply from_opt_ok in Hp.
    apply bind_ok in E as (v & Hv & E). apply from_opt_ok in Hv. apply bind_ok in E as (svcs & Hd & E).
    destruct v; try discriminate Hd. injection Hd as ->. apply bind_unit_ok in E as [E1 E2].
    exists h, p, svcs. split; [by destruct (elements s "header") as [|x [|]]; simplify_eq/=|]. split; [done|]. split; [done|].
    rewrite all_ok_spec in E1. rewrite all_ok_spec in E2. split; [intros k Hk; by apply needs_pe_ok, E1|intros k ns Hk; by apply needs_ok, (E2 (k, ns))].
  - intros (h & p & svcs & -> & Hp & Hd & H1 & H2). rewrite R_bind_Ok. cbn [from_opt]. rewrite R_bind_Ok. unfold pe_at. rewrite Hp.
    cbn [from_opt]. rewrite R_bind_Ok. unfold item. rewrite Hd.
    cbn [from_opt]. rewrite R_bind_Ok. cbn [as_dict]. rewrite R_bind_Ok.
    apply bind_unit_ok.
    split; apply all_ok_spec; [intros k Hk; by apply needs_pe_ok, H1|intros [k ns] Hk; by apply needs_ok, H2].
Qed.
End checks.


Lemma entries_nil k l : entries k l = [] ↔ k ∉ map fst l.
Proof.
  unfold entries. induction l as [|[j v] l IH]; simpl; [set_solver|]. case_bool_decide as Hj; simpl; [set_solver|]. rewrite IH.
  set_solver.
Qed.

(** The check of a file accepts it if and only if doNotCreate is alone and a
    fileDescriptor is the first and the only one. *)
Theorem file_check_spec l : file_check l = Ok () ↔
  (lit "doNotCreate" ∈ map fst l → length l = 1%nat)
  ∧ (lit "fileDescriptor" ∈ map fst l → ∃ v l', l = (lit "fileDescriptor", v) :: l' ∧ lit "fileDescriptor" ∉ map fst l').
Proof.
  unfold file_check, check_forbidden, check_seqence. cbn [mbind result_bind]. rewrite !bind_unit_ok, raise_if_ok.
  set (d := lit "doNotCreate"). set (f := lit "fileDescriptor").
  assert (H1 : negb (bool_decide (entries d l = [])) && negb (len l =? 1) = false ↔ (d ∈ map fst l → length l = 1%nat)).
  { pose proof (entries_nil d l) as He. unfold len. case_bool_decide; simpl.
    - split; [|done]. intros _ Hd. by apply He in Hd.
    - rewrite negb_false_iff, Z.eqb_eq. split; [lia|]. intros Hl.
      assert (d ∈ map fst l) by (destruct (decide (d ∈ map fst l)); [done|by apply He in n]). specialize (Hl H0). lia. }
  rewrite H1. clear H1. pose proof (entries_nil f l) as He. case_bool_decide as Hf; [apply He in Hf; naive_solver|].
  rewrite !bind_unit_ok, raise_if_ok, negb_false_iff, Z.eqb_eq.
  destruct l as [|[k v] l]; [done|]. change (idx ((k, v) :: l) 0) with (Ok (k, v)). rewrite R_bind_Ok, raise_if_ok, negb_false_iff.
  rewrite bool_decide_eq_true. simpl. rewrite elem_of_cons.
  assert (Hcons : entries f ((k, v) :: l) = if decide (k = f) then v :: entries f l else entries f l)
    by (unfold entries; simpl; case_bool_decide; case_decide; done).
  rewrite Hcons in *. pose proof (entries_nil f l) as Hl. split.
  - intros (Hd & H1 & ->). split; [done|]. intros _. exists v, l. split; [done|]. apply Hl. rewrite decide_True in H1 by done.
    destruct (entries f l); [done|]. rewrite !len_cons in H1. pose proof (len_nonneg l0). lia.
  - intros [Hd Hx]. split; [done|]. destruct Hx as (v' & l' & [= -> -> ->] & Hn).
    { destruct (decide (k = f)) as [->|Hk]; [by left|right]. destruct (decide (f ∈ map fst l)); [done|]. by apply Hl in n. }
    rewrite decide_True by done. apply Hl in Hn. by rewrite Hn.
Qed.

(** A profile that passes, with the optional element of the USIM in front of
    it, and one that does not. *)
Module ValidationRun.
Definition svcs : dict := [("usim", VNone); ("get-identity", VNone)]%string.
Definition profile_ : profile :=
  {| pes := [Example_.header_element svcs []; Example_.element PeMF (Example_.numbered_header "mf-header" 1);
             Example_.element PeOptUSIM (Example_.numbered_header "optusim-header" 2);
             Example_.element PeUSIM (Example_.numbered_header "usim-header" 3);
             Example_.element PeEnd (Example_.numbered_header "end-header" 4)];
     p_tree := {| nodes := []; tree_files := [] |}; pe_list := [0; 1; 2; 3; 4]%nat;
     pe_by_type := [("header", [0]); ("mf", [1]); ("opt-usim", [2]); ("usim", [3]); ("end", [4])]%nat%string;
     pes_by_naa := []; mf := None; cur_df := None |}.
End ValidationRun.

Lemma indexed_run : type_indexed ValidationRun.profile_.
Proof.
  assert (H : by_type ValidationRun.profile_ (pe_list ValidationRun.profile_) [] = Ok (pe_by_type ValidationRun.profile_))
    by (vm_compute; reflexivity).
  intros t. exact (by_type_get _ _ t _ _ H).
Qed.

